(* ===== verification/_CoqProject ===== *)
-Q . S2P
Prelude.v
Settings.v
Allocator.v
MemoryBanks.v
Gpu.v
PageTable.v
TableTheory.v
TreeView.v
Walker.v
WalkerTheory.v
WalkCorrect.v
GlobalTable.v
AubPackets.v
AubStream.v
StreamTheory.v
CloneTheory.v
CommandStreamer.v
ContextImage.v
HardwareContext.v
ContextGroups.v
RingTheory.v
RingCorrect.v
RingInit.v
AubFileStream.v
FileTheory.v
FileCorrect.v
FileRecords.v
FileControl.v
FileSim.v
EndToEnd.v
FencePoll.v
TbxSockets.v
TbxWire.v
TbxThreads.v
TbxLinear.v
TbxNumbers.v
TbxStream.v
TbxTheory.v
GpuFamily.v
FamilyGen12LP.v
FamilyXeHpg.v
FamilyXeCore.v
StolenPools.v
FamilyXe2.v
FamilyXe3.v
FamilyXe3p.v
Products.v
FamilyTheory.v
FamilyRegisters.v
FamilyStolen.v
FamilyPat.v
AubManager.v
Factory.v
FactoryTheory.v
ManagerTheory.v
ShmTheory.v
