(* ===== verification/Prelude.v ===== *)
(** * AubStream: a verification library (root file)

    ** The program

    AubStream records what a driver does to a GPU's memory and registers, in a
    capture file of "AUB" packets, on a simulator behind a socket or shared memory,
    or both. A client creates a manager ([aub_manager_imp.cpp]) for a mode and
    contexts on it ([hardware_context_imp.cpp]), and asks them to write, free, read
    or expect a range of graphics addresses and to submit batch buffers. A memory
    operation walks the page tables ([page_table_walker.cpp]), which creates the
    missing tables and pages ([page_table.h]) in physical memory given out by an
    allocator per memory bank ([physical_address_allocator.h]), and the stream
    ([aub_stream.cpp]) sends the new table entries and the data, page by page, to
    its implementation: the capture file ([aub_file_stream.cpp], packets of
    [includes/aub_services.h]), the simulator ([tbx_stream.cpp], [tbx_shm_stream.cpp])
    or the pairs ([aub_tbx_stream.h], [aub_shm_stream.h]).

    What the device must be told first depends on the product: each has a class of
    its family ([gen12lp/], [xe_hpg_core/], [xe_core/], [xe_hpc_core/], [xe2_hpg_core/],
    [xe3_core/], [xe3p_core/]) with its engines, registers, memory and entry bits, and
    registers itself in a table ([family_mapper.cpp]) from which the manager's factory
    creates it.

    ** The files, and what they model (paths under src/aub_mem_dump)

    - [Prelude]: machine words ([wrap w], notations [u8] to [u64]), the
      state-and-error monad [M] (a failed assertion is [AssertionFailed] unless
      [NDEBUG]; a null pointer, freed memory, an out-of-range access and exhausted
      fuel are errors of their own), its weakest preconditions [wp] with the tactic
      [wp_steps], [std::vector::resize], finite checks over words.
    - [Settings]: [settings.h], [settings_reader.cpp] over the environment as a
      function, [options.cpp] as a record of the process-wide variables.
    - [Allocator]: [SimpleAllocator] (bump pointer, map of used blocks, multimap
      of free blocks), the simple, heap and SHM4 [PhysicalAddressAllocator]s. The
      class [PhysicalAddressAllocator] is the virtual interface, and the class
      [AllocatorLaws] what the tables rely on.
    - [MemoryBanks]: [memory_banks.h], [memory_bank_helper.h], [align_helpers.h],
      [misc_helpers.h], [page_table_entry_bits.h].
    - [Gpu]: [gpu.h], [gpu.cpp], the stolen memory of a device and its regions.
    - [PageTable], [TableTheory]: [page_table.h], [page_table_pml5.h]; objects are
      locations of a heap [Store] that also holds the allocator, [GpuOps] is the
      part of the [Gpu] interface an entry value needs. The theory gives the
      invariant [wf], the reference translation [translate] (what the hardware
      computes) and the extension order [ext].
    - [TreeView]: the abstract specification of the tables, trees of values with
      [mapPage], [mapRange] and [translateTree]; [tree] reads one from the heap.
    - [Walker], [WalkerTheory], [WalkCorrect], [GlobalTable]:
      [page_table_walker.cpp], the walk in all its modes, its correctness in
      [Reserve] mode, and the walk of the global table.
    - [AubPackets]: every packet structure with its bit fields, enumerators and
      header functions; the class [Packet], and the byte encoding.
    - [AubStream], [StreamTheory]: [aub_stream.cpp] over the class [Stream] of the
      pure virtual functions; [Trace] is the instance that records the calls and
      serves as the specification of every other sink.
    - [CloneTheory]: the walk refines [mapRange] in the modes [Reserve] and [Clone],
      and the tables of several devices stay mirrored.
    - [CommandStreamer], [ContextImage]: [command_streamer_helper.cpp] and the four
      class templates of the families; the layout of the context image, a reader of
      its load-register commands, and the context descriptor.
    - [HardwareContext], [ContextGroups]: [hardware_context_imp.cpp]. Contexts,
      groups and global tables are objects of a [World]; a context or a group that
      was freed is missing from it, so that a use after free is an error. The
      operations of a client are [ContextOp], their steps [contextStep].
    - [RingTheory], [RingCorrect], [RingInit]: the ring of a context. A run of a
      context [performs] a sequence of events (ring and image writes, polls,
      submissions), which an abstract memory replays ([applyEvents]).
    - [FencePoll]: [pollForFenceCompletion] on a device and on the capture file.
    - [AubFileStream]: [aub_file_stream.h], [aub_file_stream.cpp] and the wrapper
      of [std::ofstream]; [FileStream] is its instance of [Stream].
    - [FileTheory], [FileCorrect], [FileRecords], [FileSim]: a reader of the file
      format that follows the packets' length fields, the proofs that each record
      reads back, and the simulation between [Trace] and [FileStream].
      [FileControl] gives the packets without memory contents double word by
      double word.
    - [EndToEnd]: the composition, from [writeMemory] to the replay of the file.
    - [TbxSockets], [TbxWire]: [tbx_sockets.h], [tbx_proto.h] and
      [tbx_sockets_imp.cpp] over the class [SocketApi] of the operating system; what
      goes over the wire, with [SocketLaws] for a connection that is up.
    - [TbxThreads], [TbxLinear], [TbxNumbers]: the same functions as threads run them,
      in steps that a scheduler interleaves, with [socket_mutex]. [stillConnected] throws
      after it released the lock: a step gives its status, [throwAfter] the exception.
    - [TbxStream], [TbxTheory], [ShmTheory]: the instances of [Stream] for the
      simulator and for the pairs, the equivalence of a pair with its parts, and
      the memory shared with a simulator.
    - [GpuFamily]: the virtual functions of [Gpu] as a class, what the families
      share, and [RegisterFile], the instance of [Stream] that keeps the registers.
    - [FamilyGen12LP], [FamilyXeHpg], [FamilyXeCore] (with XeHpcCore), [FamilyXe2],
      [FamilyXe3], [FamilyXe3p]: the families, a Module per class and per product,
      with the instance [family] of each product. [StolenPools] is what the last
      three have in common.
    - [Products]: [family_mapper.cpp] and the files [enable_product_*.cpp]; static
      initialization runs the registrations in any order.
    - [FamilyTheory] (programs as lists of register writes; engines),
      [FamilyRegisters] (table bases, memory ranges), [FamilyStolen] (stolen memory
      and flat CCS), [FamilyPat] (page attributes).
    - [AubManager], [ManagerTheory]: [aub_manager_imp.cpp] but the factory.
      [ManagerStream] is the stream of the mode.
    - [Factory], [FactoryTheory]: [AubManager::create] and the destructor, with the
      settings objects and [globalSettings] as the state [Process].

    ** What the theorems show

    - Composition: the file written by [writeMemory] replays as the data at its
      translated addresses and the table entries in their slots
      ([EndToEnd.capture_replays_writeMemory]); every operation of the base class
      does the same to the tables on the file as on the recording sink, and the
      file replays as the recorded memory writes ([FileSim.fileStream_refines_trace]);
      a pair of streams does to each part what the part alone does
      ([TbxTheory.capture_and_simulate]).
    - Walks: a reservation ends without failed assertion, keeps [wf], lists the
      physical bytes of its range, moves no mapping and emits every entry that is
      new or, with PS64, changed ([WalkCorrect]); it refines the specification on trees, and a write that
      clones page tables leaves the devices' tables separate and equal
      ([CloneTheory]); the walk of the global table lists its range ([GlobalTable]).
    - Contexts: the initial image loads the registers of the ring, an initialized
      context can be submitted any number of times, a submission is in the ring when
      the engine is told of it, and no submission overwrites commands before the
      engine was polled ([ContextImage], [RingInit], [RingCorrect]); the members of
      a group are alive in every reachable world ([ContextGroups]); the wait for a
      fence ends when the device makes progress ([FencePoll]).
    - File format: memory pages, table entries, comments and comparisons read
      back; register writes, polls, reservations, contexts and dumps have the
      layout of the format; what happens to a write before the file is
      open, after [EFAULT] and after any other error ([FileCorrect],
      [FileRecords], [FileControl]).
    - Simulator: requests for memory arrive as they were meant and answers fill the
      caller's buffer, however the transfers are split ([TbxWire]); threads that share
      the connection get what a sequence of exchanges gives, and never deadlock
      ([TbxLinear]); functions that number their request before the lock can use one
      number twice, the others never ([TbxNumbers]); shared memory reads back what was
      written ([ShmTheory]).
    - Allocation: blocks in use never overlap, in one bank and between banks;
      the SHM4 translation inverts its mapping.
    - Banks and stolen memory: the split of a range over banks, the layout of the
      stolen memory regions.
    - Products: every supported engine has a helper of its type and registers of its
      own ([FamilyTheory]); the registers of table bases, memory ranges, stolen
      memory and flat CCS read back as what the driver uses ([FamilyRegisters],
      [FamilyStolen]); the page attribute that an entry selects is the one its
      allocation asks for ([FamilyPat]).
    - Factory and settings: every registered product is found ([getGpu_enabled]) and
      gives a manager ([create_every_product]); the settings have one owner
      ([settings_always_owned]); printed settings reproduce the run
      ([printed_settings_reproduce]).
    - Defects: theorems that state a behaviour the code does not mean
      ([alignedAlloc_reuse_ignores_alignment], [make_bank31_diverges],
      [freeMemory_hole_drops_entries], [expectMemoryTable_large_misframed], the
      duplicated bytes of [write_efault_retry], [release_twice_frees_twice],
      [reopen_drops_group_members], [fence_poll_capture_diverges],
      [fifth_group_dangles], [open_with_contexts_throws],
      [register_poll_broken_connection], [aubShm_writePCICFG_twice],
      [page_attributes_missing], [wopcm_size_fixed], [no_l3_banks_stops],
      [memory_range_overflow], [unknown_product_dangles], [owner_deleted_first],
      [null_mode_throws]).

    ** Loops and fuel

    Loops of the source that are not structural take a fuel computed by their
    caller, and the theorems prove it sufficient: [walkFuel] counts the 4KB pages
    a range can touch; [writeContiguousLoop] and [addCommentLoop] get one unit per
    byte; the loops over a bank mask one per bit; the SHM4 loops one per 4KB of the
    range; a transfer over the socket one per byte, of which a call moves at least
    one. Running out is [OutOfFuel], an error no correctness theorem allows. The
    polls of registers, memory and fences, and the attempts to connect, wait for
    something outside: their fuel is an argument, [fence_poll_returns] bounds it by
    the progress of the device, and the theorems on divergence hold for any fuel.

    ** Not modelled

    The translation of shared memory version 4 is modelled in [Allocator], but the
    stream of that mode takes it as a function that stays the same, although the
    allocator's tables change while the stream is used. The protocol messages that
    no code sends or receives ([tbx_proto.h]) and the logs are left out. The host's
    pointers, the environment, the operating system's file errors and socket calls,
    and the host's allocator are parameters ([os_interface/], [alloc_tools.h]); the
    mutexes of the allocators, the global table and the engines are left out. The
    settings a family reads are an argument of its instance. *)

From Stdlib Require Export ZArith Lia.
From stdpp Require Export base gmap sets strings option list_numbers list.
Export list.

#[global] Open Scope Z_scope.

(** ** Machine words

    Unsigned machine integers are [Z] values; every operation that can leave
    the range writes its wrap-around with [wrap w]. *)

Definition wrap (w x : Z) : Z := x mod 2 ^ w.

Declare Scope word_scope.
Delimit Scope word_scope with word.
Notation "'u8' x" := (wrap 8 x) (at level 9, x at level 8) : word_scope.
Notation "'u16' x" := (wrap 16 x) (at level 9, x at level 8) : word_scope.
Notation "'u32' x" := (wrap 32 x) (at level 9, x at level 8) : word_scope.
Notation "'u64' x" := (wrap 64 x) (at level 9, x at level 8) : word_scope.
#[global] Open Scope word_scope.

Definition in_width (w x : Z) : Prop := 0 <= x < 2 ^ w.

#[export] Instance in_width_dec w x : Decision (in_width w x).
Proof. unfold in_width. apply _. Defined.

(** [x & ~(a - 1)] for a word [x]: clearing the low bits below alignment [a]. *)
Definition clear_low (x a : Z) : Z := Z.ldiff x (a - 1).

Lemma wrap_range w x : 0 <= w -> in_width w (wrap w x).
Proof. intros Hw. apply Z.mod_pos_bound. lia. Qed.

Lemma wrap_small w x : in_width w x -> wrap w x = x.
Proof. apply Z.mod_small. Qed.

Lemma wrap_wrap w x : 0 <= w -> wrap w (wrap w x) = wrap w x.
Proof. intros. apply wrap_small, wrap_range; lia. Qed.

Lemma wrap_add_small w x y : in_width w (x + y) -> wrap w (x + y) = x + y.
Proof. apply wrap_small. Qed.

(** Masking with the powers of two the program uses as alignments. *)

Lemma land_low_mod x k : 0 <= k -> Z.land x (2 ^ k - 1) = x mod 2 ^ k.
Proof.
  intros Hk. rewrite <- Z.land_ones by lia. f_equal. rewrite Z.ones_equiv. lia.
Qed.

Lemma clear_low_mod x k : 0 <= k -> clear_low x (2 ^ k) = x - x mod 2 ^ k.
Proof.
  intros Hk. unfold clear_low.
  replace (2 ^ k - 1) with (Z.ones k) by (rewrite Z.ones_equiv; lia).
  rewrite Z.ldiff_ones_r, Z.shiftl_mul_pow2, Z.shiftr_div_pow2 by lia.
  pose proof (Z.div_mod x (2 ^ k)). lia.
Qed.

Lemma clear_low_bounds x k :
  0 <= k -> clear_low x (2 ^ k) <= x < clear_low x (2 ^ k) + 2 ^ k.
Proof.
  intros Hk. rewrite clear_low_mod by lia.
  pose proof (Z.mod_pos_bound x (2 ^ k)). lia.
Qed.

Lemma clear_low_divide x k : 0 <= k -> (2 ^ k | clear_low x (2 ^ k)).
Proof.
  intros Hk. rewrite clear_low_mod by lia. exists (x / 2 ^ k).
  pose proof (Z.div_mod x (2 ^ k)). lia.
Qed.

Lemma clear_low_nonneg x k : 0 <= k -> 0 <= x -> 0 <= clear_low x (2 ^ k).
Proof.
  intros Hk Hx. rewrite clear_low_mod by lia.
  pose proof (Z.mod_le x (2 ^ k)). lia.
Qed.

(** [lia] with the equations of [/] and [mod]. *)
Ltac dlia := Z.div_mod_to_equations; lia.

(** A power of two, as the program's alignments and page sizes are. *)
Definition pow2 (x : Z) : Prop := exists k, 0 <= k /\ x = 2 ^ k.

Lemma pow2_pos x : pow2 x -> 0 < x.
Proof. intros (k & Hk & ->). lia. Qed.

(** ** Errors and the state-and-error monad

    [AssertionFailed] is a failing [assert] (only when the build has assertions,
    see [cassert]); the next four are the undefined behaviours the modelled code
    can reach; [StdException] is a C++ exception with its message. *)

Inductive error :=
| AssertionFailed
| NullDereference
| UseAfterFree
| DoubleFree
| OutOfBounds
| DivisionByZero
| OutOfFuel
| StdException (what : string).

Inductive result (A : Type) :=
| Ok (a : A)
| Err (e : error).
Arguments Ok {A} a.
Arguments Err {A} e.

Definition is_Ok {A} (r : result A) : bool :=
  match r with Ok _ => true | Err _ => false end.

Definition M (St A : Type) : Type := St -> result (A * St).

#[export] Instance M_ret {St} : MRet (M St) := fun A a s => Ok (a, s).
#[export] Instance M_bind {St} : MBind (M St) := fun A B k m s =>
  match m s with
  | Ok (a, s') => k a s'
  | Err e => Err e
  end.

Definition fail {St A} (e : error) : M St A := fun _ => Err e.
Definition get {St} : M St St := fun s => Ok (s, s).
Definition put {St} (s' : St) : M St unit := fun _ => Ok (tt, s').
Definition modify {St} (f : St -> St) : M St unit := fun s => Ok (tt, f s).
Definition gets {St A} (f : St -> A) : M St A := fun s => Ok (f s, s).
Definition when {St} (b : bool) (m : M St unit) : M St unit :=
  if b then m else mret tt.
Definition from_option_M {St A} (e : error) (o : option A) : M St A :=
  match o with Some a => mret a | None => fail e end.

(** [assert(b)]: checked in a debug build, skipped when [NDEBUG] is defined. *)
Definition cassert {St} (ndebug b : bool) : M St unit :=
  if ndebug || b then mret tt else fail AssertionFailed.

Fixpoint mapM_ {St A} (f : A -> M St unit) (l : list A) : M St unit :=
  match l with
  | [] => mret tt
  | x :: l' => f x ≫= fun _ => mapM_ f l'
  end.

(** ** Total-correctness judgement

    [wp m Q s]: run from [s], [m] returns (no error) and the result and final
    state satisfy [Q]. *)

Definition wp {St A} (m : M St A) (Q : A -> St -> Prop) (s : St) : Prop :=
  match m s with
  | Ok (a, s') => Q a s'
  | Err _ => False
  end.

Lemma wp_ret {St A} (a : A) (Q : A -> St -> Prop) s : Q a s -> wp (mret a) Q s.
Proof. done. Qed.

Lemma wp_bind {St A B} (m : M St A) (k : A -> M St B) (Q : B -> St -> Prop) s :
  wp m (fun a s' => wp (k a) Q s') s -> wp (m ≫= k) Q s.
Proof. unfold wp, mbind, M_bind. destruct (m s) as [[a s']|e]; done. Qed.

(** Two steps in front of a continuation, specified together. *)
Lemma wp_bind2 {St A B C} (m : M St A) (k1 : A -> M St B) (k2 : B -> M St C)
    (Q : C -> St -> Prop) s :
  wp (m ≫= k1) (fun b s' => wp (k2 b) Q s') s -> wp (m ≫= fun a => k1 a ≫= k2) Q s.
Proof.
  unfold wp, mbind, M_bind. destruct (m s) as [[a s']|e]; [|done].
  by destruct (k1 a s') as [[b s'']|e].
Qed.

Lemma wp_mono {St A} (m : M St A) (Q Q' : A -> St -> Prop) s :
  wp m Q s -> (forall a s', Q a s' -> Q' a s') -> wp m Q' s.
Proof. unfold wp. destruct (m s) as [[a s']|e]; eauto. Qed.

Lemma wp_get {St} (Q : St -> St -> Prop) s : Q s s -> wp get Q s.
Proof. done. Qed.

Lemma wp_gets {St A} (f : St -> A) (Q : A -> St -> Prop) s :
  Q (f s) s -> wp (gets f) Q s.
Proof. done. Qed.

Lemma wp_modify {St} (f : St -> St) (Q : unit -> St -> Prop) s :
  Q tt (f s) -> wp (modify f) Q s.
Proof. done. Qed.

Lemma wp_put {St} (s' : St) (Q : unit -> St -> Prop) s : Q tt s' -> wp (put s') Q s.
Proof. done. Qed.

Lemma wp_cassert {St} ndebug b (Q : unit -> St -> Prop) s :
  b = true -> Q tt s -> wp (cassert ndebug b) Q s.
Proof. intros -> HQ. unfold cassert. by rewrite orb_true_r. Qed.

Lemma wp_when {St} b (m : M St unit) (Q : unit -> St -> Prop) s :
  (b = true -> wp m Q s) -> (b = false -> Q tt s) -> wp (when b m) Q s.
Proof. intros H1 H2. unfold when. destruct b; [by apply H1|by apply wp_ret, H2]. Qed.

Lemma wp_from_option {St A} e (o : option A) (a : A) (Q : A -> St -> Prop) s :
  o = Some a -> Q a s -> wp (from_option_M e o) Q s.
Proof. intros -> HQ. done. Qed.

(** A loop invariant rule for [mapM_]. *)
Lemma wp_mapM_ {St A} (f : A -> M St unit) (l : list A) (I : list A -> St -> Prop) s :
  I [] s ->
  (forall l1 x s, (exists l2, l = l1 ++ x :: l2) -> I l1 s ->
     wp (f x) (fun _ s' => I (l1 ++ [x]) s') s) ->
  wp (mapM_ f l) (fun _ s' => I l s') s.
Proof.
  intros HI Hstep.
  enough (Hgen : forall todo l1 s, l = l1 ++ todo -> I l1 s ->
            wp (mapM_ f todo) (fun _ s' => I l s') s) by (by apply (Hgen l [] s)).
  induction todo as [|x todo IH]; intros l1 s0 Hl HI0; simpl.
  - rewrite app_nil_r in Hl. by subst.
  - apply wp_bind. eapply wp_mono; [apply (Hstep l1); [by exists todo|done]|].
    intros [] s1 HI1. apply (IH (l1 ++ [x])); [|done]. by rewrite <- app_assoc.
Qed.

Lemma wp_run {St A} (m : M St A) Q s :
  wp m Q s -> exists a s', m s = Ok (a, s') /\ Q a s'.
Proof. unfold wp. destruct (m s) as [[a s']|e]; [eauto|done]. Qed.

Lemma run_wp {St A} (m : M St A) Q s a s' :
  wp m Q s -> m s = Ok (a, s') -> Q a s'.
Proof. unfold wp. intros H Heq. by rewrite Heq in H. Qed.

(** A sequence that returned. *)
Lemma bind_Ok {St A B} (m : M St A) (k : A -> M St B) s b s' :
  (m ≫= k) s = Ok (b, s') -> exists a s1, m s = Ok (a, s1) /\ k a s1 = Ok (b, s').
Proof.
  unfold mbind, M_bind. destruct (m s) as [[a s1]|]; [|done]. intros H. by exists a, s1.
Qed.

Lemma cassert_Ok {St} n b (s : St) x s' : cassert n b s = Ok (x, s') -> s' = s.
Proof. unfold cassert. destruct (n || b); [by intros [= _ <-]|done]. Qed.

Lemma from_option_Ok {St A} e (o : option A) (s : St) a s' :
  from_option_M e o s = Ok (a, s') -> o = Some a /\ s' = s.
Proof. destruct o; [by intros [= <- <-]|done]. Qed.

(** A run with a decidable property of its result, established by evaluation. *)
Lemma run_checked {St B} (m : M St B) s (P : B * St -> Prop) `{!forall r, Decision (P r)} :
  match m s with Ok r => bool_decide (P r) | Err _ => false end = true ->
  exists b s', m s = Ok (b, s') /\ P (b, s').
Proof.
  destruct (m s) as [[b s']|e]; [|done]. intros Hd%bool_decide_eq_true_1. by exists b, s'.
Qed.

(** Steps through binds, state accesses and returns. *)
Ltac wp_step :=
  lazymatch goal with
  | |- wp (_ ≫= _) _ _ => apply wp_bind
  | |- wp (mret _) _ _ => apply wp_ret
  | |- wp get _ _ => apply wp_get
  | |- wp (gets _) _ _ => apply wp_gets
  | |- wp (modify _) _ _ => apply wp_modify
  | |- wp (put _) _ _ => apply wp_put
  | |- wp (from_option_M _ (Some _)) _ _ => eapply wp_from_option; [reflexivity|]
  end.
Ltac wp_steps := repeat (wp_step; cbn beta).

(** ** Lists used as C++ vectors *)

(** [v.resize(n)] for growth with a default element. *)
Definition resize {A} (n : nat) (d : A) (v : list A) : list A :=
  take n v ++ replicate (n - length v) d.

Lemma length_resize {A} n (d : A) v : length (resize n d v) = n.
Proof. unfold resize. rewrite length_app, length_take, length_replicate. lia. Qed.

Lemma lookup_resize_old {A} n (d : A) v i :
  (i < n)%nat -> (i < length v)%nat -> resize n d v !! i = v !! i.
Proof.
  intros Hn Hv. unfold resize.
  rewrite lookup_app_l by (rewrite length_take; lia).
  by rewrite lookup_take, decide_True by lia.
Qed.

Lemma lookup_resize_new {A} n (d : A) v i :
  (i < n)%nat -> (length v <= i)%nat -> resize n d v !! i = Some d.
Proof.
  intros Hn Hv. unfold resize.
  rewrite lookup_app_r by (rewrite length_take; lia).
  apply lookup_replicate_2. rewrite length_take. lia.
Qed.

(** Sum of a list of integers. *)
Definition sumZ (l : list Z) : Z := foldr Z.add 0 l.

Lemma sumZ_app l1 l2 : sumZ (l1 ++ l2) = sumZ l1 + sumZ l2.
Proof. induction l1; simpl; [done|]. lia. Qed.

(** Exhaustive check of a boolean predicate on a binary range. *)
Fixpoint forall_bits (n : nat) (acc : Z) (p : Z -> bool) : bool :=
  match n with
  | O => p acc
  | S n' => forall_bits n' (2 * acc) p && forall_bits n' (2 * acc + 1) p
  end.

Lemma forall_bits_spec n p : forall acc v,
  forall_bits n acc p = true ->
  2 ^ Z.of_nat n * acc <= v < 2 ^ Z.of_nat n * (acc + 1) -> p v = true.
Proof.
  induction n as [|n IH]; intros acc v Hall Hv.
  - change (2 ^ Z.of_nat 0) with 1 in Hv. simpl in Hall. replace v with acc by lia. done.
  - rewrite Nat2Z.inj_succ, Z.pow_succ_r in Hv by lia. simpl in Hall.
    apply andb_true_iff in Hall as [H1 H2].
    destruct (decide (v < 2 ^ Z.of_nat n * (2 * acc + 1))).
    + apply (IH (2 * acc)); [done|lia].
    + apply (IH (2 * acc + 1)); [done|lia].
Qed.

(** ** Hint database of the development *)
Create HintDb aub.
Create Rewrite HintDb aub.
#[export] Hint Resolve wp_ret wp_get wrap_range : aub.
#[export] Hint Rewrite @length_resize sumZ_app : aub.
