(* ===== verification/Settings.v ===== *)
(** * Settings and options

    [settings_reader.h], [settings_reader.cpp], [settings.h], [includes/setting_vars*.inl]
    and [options.cpp]: the variables read from the environment when the library is
    first used, their printing, and the options a client sets through the C
    functions. [getenv] is a parameter; the settings' names are the environment's. *)

From S2P Require Import Prelude.
From stdpp Require Import pretty.
From Stdlib Require Import Ascii.
#[local] Open Scope Z_scope.

(** ** atoll

    Leading white space, an optional sign and the digits that follow. The C library
    leaves a value out of range undefined; it saturates here, as strtoll does. *)

Definition isspace (c : ascii) : bool :=
  let n := N_of_ascii c in ((n =? 32) || ((9 <=? n) && (n <=? 13)))%N.

Definition digitOf (c : ascii) : option Z :=
  let n := N_of_ascii c in
  if ((48 <=? n) && (n <=? 57))%N then Some (Z.of_N (n - 48)) else None.

Fixpoint atollDigits (s : string) (acc : Z) : Z :=
  match s with
  | EmptyString => acc
  | String c s' =>
      match digitOf c with
      | Some d => atollDigits s' (10 * acc + d)
      | None => acc
      end
  end.

Definition saturate64 (x : Z) : Z := Z.max (- 2 ^ 63) (Z.min (2 ^ 63 - 1) x).

Definition atollSigned (s : string) : Z :=
  match s with
  | String "-" s' => - atollDigits s' 0
  | String "+" s' => atollDigits s' 0
  | _ => atollDigits s 0
  end.

Fixpoint atoll (s : string) : Z :=
  match s with
  | String c s' => if isspace c then atoll s' else saturate64 (atollSigned s)
  | EmptyString => 0
  end.

(** [static_cast<int32_t>] of a signed number. *)
Definition i32 (x : Z) : Z := wrap 32 (x + 2 ^ 31) - 2 ^ 31.

(** ** SettingsReader *)

Class SettingsReader := {
  getSetting32 : string -> Z -> Z;
  getSetting64 : string -> Z -> Z;
  getSettingBool : string -> bool -> bool;
  getSettingString : string -> string -> string
}.

Module EnvironmentReader.
Section Reader.
(* [os_calls::getEnv] *)
Variable getEnv : string -> option string.

Definition getSetting64 (settingName : string) (defaultValue : Z) : Z :=
  match getEnv settingName with
  | Some envValue => atoll envValue
  | None => defaultValue
  end.

Definition getSetting32 (settingName : string) (defaultValue : Z) : Z :=
  i32 (getSetting64 settingName defaultValue).

Definition getSettingBool (settingName : string) (defaultValue : bool) : bool :=
  negb (getSetting64 settingName (Z.b2z defaultValue) =? 0).

Definition getSettingString (settingName value : string) : string :=
  match getEnv settingName with
  | Some envValue => envValue
  | None => value
  end.
End Reader.
End EnvironmentReader.

#[export] Instance EnvironmentReaderOps (getEnv : string -> option string) : SettingsReader := {
  getSetting32 := EnvironmentReader.getSetting32 getEnv;
  getSetting64 := EnvironmentReader.getSetting64 getEnv;
  getSettingBool := EnvironmentReader.getSettingBool getEnv;
  getSettingString := EnvironmentReader.getSettingString getEnv
}.

(** ** Settings *)

Record SettingVar (T : Type) := mkSetting { value : T; defaultValue : T }.
Arguments mkSetting {T}.
Arguments value {T}.
Arguments defaultValue {T}.

Definition newSetting {T} (d : T) : SettingVar T := mkSetting d d.
Definition set {T} (data : T) (v : SettingVar T) : SettingVar T := mkSetting data (defaultValue v).

(** The variables of [setting_vars_base.inl]. *)
Record Settings := mkSettings {
  PrintSettings : SettingVar bool;
  ExeclistSubmitPortSubmission : SettingVar Z;
  TbxConnectionDelayInSeconds : SettingVar Z;
  LogLevel : SettingVar Z;
  IndirectRingState : SettingVar Z;
  EnablePs64 : SettingVar bool;
  AppTransientForUncompressedCachedPages : SettingVar bool
}.

Definition defaultSettings : Settings :=
  mkSettings (newSetting false) (newSetting (-1)) (newSetting (-1)) (newSetting 0) (newSetting (-1))
    (newSetting true) (newSetting false).

(** [AUBSTREAM_PREFIX] and [getSettingName]; [enableSettings] is false when the
    library is built with [AUBSTREAM_SETTINGS_DISABLE]. *)
Definition getSettingName (enableSettings : bool) (variable : string) : string :=
  if enableSettings then "AUBSTREAM_" +:+ variable else "".

Section Settings.
Context {reader : SettingsReader}.
Variable enableSettings : bool.

Definition readInt (variable : string) (v : SettingVar Z) : SettingVar Z :=
  set (getSetting32 (getSettingName enableSettings variable) (value v)) v.
Definition readBool (variable : string) (v : SettingVar bool) : SettingVar bool :=
  set (getSettingBool (getSettingName enableSettings variable) (value v)) v.

Definition readSettings (s : Settings) : Settings :=
  mkSettings
    (readBool "PrintSettings" (PrintSettings s))
    (readInt "ExeclistSubmitPortSubmission" (ExeclistSubmitPortSubmission s))
    (readInt "TbxConnectionDelayInSeconds" (TbxConnectionDelayInSeconds s))
    (readInt "LogLevel" (LogLevel s))
    (readInt "IndirectRingState" (IndirectRingState s))
    (readBool "EnablePs64" (EnablePs64 s))
    (readBool "AppTransientForUncompressedCachedPages" (AppTransientForUncompressedCachedPages s)).

(** A line for a variable that is not at its default. [operator<<] prints a
    [bool] as a number. *)
Definition printSetting {T} `{!EqDecision T} (print : T -> string) (variable : string)
    (v : SettingVar T) : string :=
  if bool_decide (value v = defaultValue v) then ""
  else getSettingName enableSettings variable +:+ " = " +:+ print (value v)
       +:+ String (ascii_of_nat 10) EmptyString.

Definition printInt : string -> SettingVar Z -> string := printSetting pretty.
Definition printBool : string -> SettingVar bool -> string :=
  printSetting (fun b => pretty (Z.b2z b)).

(** What [printSettings] sends to the output stream. *)
Definition printSettings (s : Settings) : string :=
  if negb (value (PrintSettings s)) then ""
  else
    printBool "PrintSettings" (PrintSettings s)
    +:+ printInt "ExeclistSubmitPortSubmission" (ExeclistSubmitPortSubmission s)
    +:+ printInt "TbxConnectionDelayInSeconds" (TbxConnectionDelayInSeconds s)
    +:+ printInt "LogLevel" (LogLevel s)
    +:+ printInt "IndirectRingState" (IndirectRingState s)
    +:+ printBool "EnablePs64" (EnablePs64 s)
    +:+ printBool "AppTransientForUncompressedCachedPages" (AppTransientForUncompressedCachedPages s).

(** The constructor: the settings, and the text sent to the output. *)
Definition newSettings : Settings * string :=
  let s := readSettings defaultSettings in (s, printSettings s).
End Settings.

(** ** Options *)

Record MaskedMMIOWrite := mkMasked { mm_offset : Z; mm_value : Z; mm_mask : Z }.

Definition maskedOfPair (pair : Z * Z) : MaskedMMIOWrite := mkMasked pair.1 pair.2 0xFFFFFFFF.

Record Options := mkOptions {
  tbxServerIp : string;
  tbxServerPort : Z;
  tbxFrontdoorMode : bool;
  MMIOListInjected : list MaskedMMIOWrite;
  aubStreamCaller : Z
}.

Definition defaultOptions : Options := mkOptions "127.0.0.1" 4321 false [] (2 ^ 32 - 1).

Definition injectMaskedMMIOList (l : list MaskedMMIOWrite) (o : Options) : Options :=
  mkOptions (tbxServerIp o) (tbxServerPort o) (tbxFrontdoorMode o) l (aubStreamCaller o).

Definition injectMMIOList (mmioList : list (Z * Z)) (o : Options) : Options :=
  injectMaskedMMIOList (map maskedOfPair mmioList) o.

Definition injectMMIOListLegacy (mmioList : list (Z * Z)) (o : Options) : Options :=
  injectMMIOList mmioList o.

Definition setTbxServerPort (port : Z) (o : Options) : Options :=
  mkOptions (tbxServerIp o) port (tbxFrontdoorMode o) (MMIOListInjected o) (aubStreamCaller o).

Definition setTbxServerIp (server : string) (o : Options) : Options :=
  mkOptions server (tbxServerPort o) (tbxFrontdoorMode o) (MMIOListInjected o) (aubStreamCaller o).

Definition setTbxServerIpLegacy (server : string) (o : Options) : Options := setTbxServerIp server o.

Definition setTbxFrontdoorMode (frontdoor : bool) (o : Options) : Options :=
  mkOptions (tbxServerIp o) (tbxServerPort o) frontdoor (MMIOListInjected o) (aubStreamCaller o).

Definition setAubStreamCaller (caller : Z) (o : Options) : Options :=
  mkOptions (tbxServerIp o) (tbxServerPort o) (tbxFrontdoorMode o) (MMIOListInjected o) caller.

(** ** Reading back what is printed *)

Lemma append_assoc (a b c : string) : (a +:+ b) +:+ c = a +:+ (b +:+ c).
Proof. induction a as [|x a IH]; [done|]. exact (f_equal (String x) IH). Qed.

Lemma append_nil (a : string) : a +:+ "" = a.
Proof. induction a as [|x a IH]; [done|]. exact (f_equal (String x) IH). Qed.

Lemma digitOf_pretty x : (x < 10)%N -> digitOf (pretty_N_char x) = Some (Z.of_N x).
Proof.
  intros Hx. assert (x ∈ [0;1;2;3;4;5;6;7;8;9]%N) as Hin.
  { rewrite !elem_of_cons. lia. }
  rewrite !elem_of_cons, elem_of_nil in Hin. by repeat (destruct Hin as [->|Hin]; [done|]).
Qed.

Lemma atollDigits_pretty x s : atollDigits (pretty_N_go x s) 0 = atollDigits s (Z.of_N x).
Proof.
  revert s. induction (N.lt_wf_0 x) as [x _ IH]. intros s.
  destruct (decide (x = 0%N)) as [->|Hx]; [by rewrite pretty_N_go_0|].
  rewrite pretty_N_go_step by lia. rewrite IH by (apply N.div_lt; lia). cbn [atollDigits].
  rewrite digitOf_pretty by (apply N.mod_lt; lia). f_equal.
  rewrite <- (N2Z.inj_mul 10), <- N2Z.inj_add. f_equal. symmetry. apply N.div_mod. lia.
Qed.

(** A number starts with a digit. *)
Lemma pretty_head x s : (0 < x)%N ->
  exists c s', pretty_N_go x s = String c s' /\ is_Some (digitOf c).
Proof.
  revert s. induction (N.lt_wf_0 x) as [x _ IH]. intros s Hx. rewrite pretty_N_go_step by done.
  destruct (decide (x / 10 = 0)%N) as [->|Hd].
  - rewrite pretty_N_go_0. eexists _, _. split; [done|]. rewrite digitOf_pretty; [done|].
    apply N.mod_lt. lia.
  - apply IH; [apply N.div_lt; lia|by apply N.neq_0_lt_0].
Qed.

Lemma atoll_digit c s : is_Some (digitOf c) ->
  atoll (String c s) = saturate64 (atollDigits (String c s) 0).
Proof. by destruct c as [[] [] [] [] [] [] [] []]; intros [d Hd]. Qed.

Lemma atollDigits_pos p : atollDigits (pretty (N.pos p)) 0 = Z.pos p.
Proof. unfold pretty, pretty_N. rewrite decide_False by done. by rewrite atollDigits_pretty. Qed.

Lemma saturate64_small z : - 2 ^ 63 <= z < 2 ^ 63 -> saturate64 z = z.
Proof. unfold saturate64. lia. Qed.

Lemma atoll_pretty z : - 2 ^ 63 <= z < 2 ^ 63 -> atoll (pretty z) = z.
Proof.
  intros Hz. destruct z as [|p|p]; [done| |].
  - change (pretty (Z.pos p)) with (pretty (N.pos p)).
    pose proof (atollDigits_pos p) as Hp. revert Hp. unfold pretty, pretty_N.
    rewrite decide_False by done.
    destruct (pretty_head (N.pos p) "" ltac:(lia)) as (c & s' & -> & Hc). intros Hp.
    rewrite atoll_digit, Hp by done. by apply saturate64_small.
  - change (pretty (Z.neg p)) with (String "-" (pretty (N.pos p))). cbn [atoll].
    change (isspace "-") with false. cbv iota. cbn [atollSigned]. rewrite atollDigits_pos.
    by apply saturate64_small.
Qed.

Lemma i32_small z : - 2 ^ 31 <= z < 2 ^ 31 -> i32 z = z.
Proof. intros Hz. unfold i32. rewrite wrap_small; [lia|]. unfold in_width. lia. Qed.

(** The variables by name, each with its value when it is not the default. *)
Definition changed {T} `{!EqDecision T} (print : T -> string) (v : SettingVar T) : option string :=
  if bool_decide (value v = defaultValue v) then None else Some (print (value v)).

Definition changedSettings (s : Settings) : list (string * option string) :=
  let int := changed pretty in
  let bool := changed (fun b => pretty (Z.b2z b)) in
  [("AUBSTREAM_PrintSettings", bool (PrintSettings s));
   ("AUBSTREAM_ExeclistSubmitPortSubmission", int (ExeclistSubmitPortSubmission s));
   ("AUBSTREAM_TbxConnectionDelayInSeconds", int (TbxConnectionDelayInSeconds s));
   ("AUBSTREAM_LogLevel", int (LogLevel s));
   ("AUBSTREAM_IndirectRingState", int (IndirectRingState s));
   ("AUBSTREAM_EnablePs64", bool (EnablePs64 s));
   ("AUBSTREAM_AppTransientForUncompressedCachedPages",
    bool (AppTransientForUncompressedCachedPages s))]%string.

(** One line of text per variable that has a value. *)
Fixpoint settingLines (l : list (string * option string)) : string :=
  match l with
  | [] => ""
  | (name, Some v) :: l' =>
      name +:+ " = " +:+ v +:+ String (ascii_of_nat 10) EmptyString +:+ settingLines l'
  | (_, None) :: l' => settingLines l'
  end.

(** The environment that sets those variables. *)
Fixpoint environmentOf (l : list (string * option string)) (name : string) : option string :=
  match l with
  | [] => None
  | (n, v) :: l' => if String.eqb n name then v else environmentOf l' name
  end.

(** Defaults of the source, and numbers that an [int] holds. *)
Record settingsInRange (s : Settings) : Prop := {
  sr_defaults : defaultValue (PrintSettings s) = false
    /\ defaultValue (ExeclistSubmitPortSubmission s) = -1
    /\ defaultValue (TbxConnectionDelayInSeconds s) = -1 /\ defaultValue (LogLevel s) = 0
    /\ defaultValue (IndirectRingState s) = -1 /\ defaultValue (EnablePs64 s) = true
    /\ defaultValue (AppTransientForUncompressedCachedPages s) = false;
  sr_range : Forall (fun v => - 2 ^ 31 <= value v < 2 ^ 31)
    [ExeclistSubmitPortSubmission s; TbxConnectionDelayInSeconds s; LogLevel s; IndirectRingState s]
}.

Section ReadBack.
Variable getEnv : string -> option string.
#[local] Instance readerInstance : SettingsReader := EnvironmentReaderOps getEnv.

Lemma readInt_changed name v d :
  getEnv ("AUBSTREAM_" +:+ name) = changed pretty v -> defaultValue v = d ->
  - 2 ^ 31 <= value v < 2 ^ 31 -> readInt true name (newSetting d) = v.
Proof.
  intros He <- Hr. destruct v as [x d]. unfold readInt, set, newSetting. f_equal. cbn in *.
  unfold EnvironmentReader.getSetting32, EnvironmentReader.getSetting64. rewrite He.
  unfold changed. cbn. case_bool_decide as Hd; [subst d; by apply i32_small|].
  rewrite atoll_pretty by lia. by apply i32_small.
Qed.

Lemma readBool_changed name v d :
  getEnv ("AUBSTREAM_" +:+ name) = changed (fun b => pretty (Z.b2z b)) v -> defaultValue v = d ->
  readBool true name (newSetting d) = v.
Proof.
  intros He <-. destruct v as [x d]. unfold readBool, set, newSetting. f_equal. cbn in *.
  unfold EnvironmentReader.getSettingBool, EnvironmentReader.getSetting64. rewrite He.
  unfold changed. cbn. case_bool_decide as Hd; [subst d; by destruct x|].
  rewrite atoll_pretty by (destruct x; cbn; lia). by destruct x.
Qed.
End ReadBack.

Lemma printSetting_lines {T} `{!EqDecision T} (print : T -> string) name (v : SettingVar T) rest l :
  rest = settingLines l ->
  printSetting true print name v +:+ rest
  = settingLines (("AUBSTREAM_" +:+ name, changed print v) :: l).
Proof.
  intros ->. unfold printSetting, changed. cbn [settingLines]. case_bool_decide; [done|].
  unfold getSettingName. by rewrite !append_assoc.
Qed.

(** C39: The settings a run prints are those of the run: setting in the environment the
    variables on the printed lines, and no others, gives the same settings again. *)
Theorem printed_settings_reproduce s :
  settingsInRange s -> value (PrintSettings s) = true ->
  printSettings true s = settingLines (changedSettings s)
  /\ (newSettings (reader := EnvironmentReaderOps (environmentOf (changedSettings s))) true).1
     = s.
Proof.
  intros [(H1 & H2 & H3 & H4 & H5 & H6 & H7) Hr] Hp. split.
  - unfold printSettings. rewrite Hp. cbn [negb].
    rewrite <- (append_nil (printBool _ _ (AppTransientForUncompressedCachedPages s))).
    unfold printBool, printInt. by repeat refine (printSetting_lines _ _ _ _ _ _).
  - destruct (proj1 (Forall_cons _ _ _) Hr) as [R1 Hr2].
    destruct (proj1 (Forall_cons _ _ _) Hr2) as [R2 Hr3].
    destruct (proj1 (Forall_cons _ _ _) Hr3) as [R3 Hr4].
    destruct (proj1 (Forall_cons _ _ _) Hr4) as [R4 _].
    unfold newSettings, readSettings. cbn [fst defaultSettings PrintSettings
      ExeclistSubmitPortSubmission TbxConnectionDelayInSeconds LogLevel IndirectRingState EnablePs64
      AppTransientForUncompressedCachedPages].
    erewrite !readInt_changed, !readBool_changed by (reflexivity || eassumption). by destruct s.
Qed.

(** A run that prints its settings, with errors logged and no indirect ring. *)
Definition exSettings : Settings :=
  mkSettings (mkSetting true false) (mkSetting (-1) (-1)) (mkSetting 30 (-1)) (mkSetting 2 0)
    (mkSetting 0 (-1)) (mkSetting false true) (mkSetting false false).

Lemma printed_settings_reproduce_witness :
  settingsInRange exSettings
  /\ printSettings true exSettings = settingLines (changedSettings exSettings)
  /\ (newSettings
        (reader := EnvironmentReaderOps (environmentOf (changedSettings exSettings))) true).1
     = exSettings.
Proof.
  assert (H : settingsInRange exSettings) by (split; [done|]; repeat constructor; cbn; lia).
  split; [exact H|]. exact (printed_settings_reproduce exSettings H eq_refl).
Defined.
