(* ===== verification/Allocator.v ===== *)
(** * Physical and graphics address allocation

    [SimpleAllocator] is the bump allocator with exact-size reuse of
    [physical_address_allocator.h], used at 64 bits for physical memory and at
    32 bits for GGTT addresses; [PhysicalAddressAllocatorSimple] selects one of
    them by memory bank; the SHM4 mapper adds a translation table from physical
    pages to host pointers. The class [PhysicalAddressAllocator] is what the page
    tables see of an allocator. *)

From S2P Require Import Prelude.

(** ** std::multimap<AddressType, size_t>

    A multimap is the list of its elements in key order; [insert] places an
    element after those with an equivalent key, [find] returns the first one. *)

Module Multimap.

Fixpoint insert (e : Z * Z) (m : list (Z * Z)) : list (Z * Z) :=
  match m with
  | [] => [e]
  | x :: m' => if e.1 <? x.1 then e :: m else x :: insert e m'
  end.

Fixpoint find (k : Z) (m : list (Z * Z)) : option (Z * Z) :=
  match m with
  | [] => None
  | x :: m' => if x.1 =? k then Some x else find k m'
  end.

(** [erase(it)] for the iterator [find] or [find_if] returned: the first
    element that satisfies the search predicate. *)
Fixpoint erase (p : Z * Z -> bool) (m : list (Z * Z)) : list (Z * Z) :=
  match m with
  | [] => []
  | x :: m' => if p x then m' else x :: erase p m'
  end.

(** [std::find_if(begin, end, p)]. *)
Fixpoint find_if (p : Z * Z -> bool) (m : list (Z * Z)) : option (Z * Z) :=
  match m with
  | [] => None
  | x :: m' => if p x then Some x else find_if p m'
  end.

Lemma insert_Permutation e m : insert e m ≡ₚ e :: m.
Proof.
  induction m as [|x m IH]; simpl; [done|].
  destruct (e.1 <? x.1); [done|]. rewrite IH. apply Permutation_swap.
Qed.

Lemma find_if_erase p m x : find_if p m = Some x -> m ≡ₚ x :: erase p m.
Proof.
  induction m as [|y m IH]; simpl; [done|].
  destruct (p y); [by intros [= ->]|].
  intros Hx. rewrite (IH Hx) at 1. apply Permutation_swap.
Qed.

Lemma find_if_true p m x : find_if p m = Some x -> p x = true.
Proof.
  induction m as [|y m IH]; simpl; [done|].
  destruct (p y) eqn:Hp; [by intros [= ->]|done].
Qed.

Lemma find_if_None p m : find_if p m = None -> forall x, x ∈ m -> p x = false.
Proof.
  induction m as [|y m IH]; simpl; [intros _ x Hx; by apply elem_of_nil in Hx|].
  destruct (p y) eqn:Hp; [done|]. intros Hf x [->|Hx]%elem_of_cons; auto.
Qed.

Lemma find_find_if k m : find k m = find_if (fun e => e.1 =? k) m.
Proof. induction m as [|x m IH]; simpl; [done|]. by rewrite IH. Qed.

End Multimap.

(** ** SimpleAllocator<AddressType>

    [w] is the width of [AddressType]: 64 for physical memory, 32 for the GGTT. *)

Module SimpleAllocator.

Record t := mk {
  nextAddress : Z;
  usedAllocationsMap : list (Z * Z);
  freeAllocationsMap : list (Z * Z)
}.

Definition init (firstAddress : Z) : t := mk firstAddress [] [].

Section Ops.
Context (w : Z).

Definition alignedAlloc (size alignment : Z) (a : t) : Z * t :=
  let sameSize := fun e : Z * Z => e.2 =? size in
  match Multimap.find_if sameSize (freeAllocationsMap a) with
  | Some it =>
      (it.1, mk (nextAddress a)
                (Multimap.insert it (usedAllocationsMap a))
                (Multimap.erase sameSize (freeAllocationsMap a)))
  | None =>
      let alignment := Z.max alignment 4096 in
      let next := wrap w (nextAddress a + (alignment - 1)) in
      let next := clear_low next alignment in
      (next, mk (wrap w (next + wrap w size))
                (Multimap.insert (next, size) (usedAllocationsMap a))
                (freeAllocationsMap a))
  end.

Definition alignedFree (address : Z) (a : t) : t :=
  let key := wrap w address in
  match Multimap.find key (usedAllocationsMap a) with
  | Some it =>
      mk (nextAddress a)
         (Multimap.erase (fun e => e.1 =? key) (usedAllocationsMap a))
         (Multimap.insert it (freeAllocationsMap a))
  | None => a
  end.
End Ops.

(** Two blocks [(address, size)] share no byte. *)
Definition disjoint (x y : Z * Z) : Prop :=
  x.1 + x.2 <= y.1 \/ y.1 + y.2 <= x.1.

Fixpoint pairwise_disjoint (l : list (Z * Z)) : Prop :=
  match l with
  | [] => True
  | b :: l' => Forall (disjoint b) l' /\ pairwise_disjoint l'
  end.

#[export] Instance disjoint_dec x y : Decision (disjoint x y).
Proof. unfold disjoint. apply _. Defined.

Definition blocks (a : t) : list (Z * Z) :=
  usedAllocationsMap a ++ freeAllocationsMap a.

(** The invariant of an allocator started at [first] and not yet exhausted:
    every block handed out so far (used or on the free list) lies between
    [first] and the bump pointer, and no two of them overlap. *)
Record wf (w first : Z) (a : t) : Prop := mk_wf {
  wf_next : first <= nextAddress a < 2 ^ w;
  wf_range : forall b, b ∈ blocks a ->
               first <= b.1 /\ 0 < b.2 /\ b.1 + b.2 <= nextAddress a;
  wf_disjoint : pairwise_disjoint (blocks a)
}.

(** The bump path does not run past the address width. *)
Definition has_room (w size alignment : Z) (a : t) : Prop :=
  nextAddress a + Z.max alignment 4096 - 1 + size < 2 ^ w.

Lemma disjoint_comm x y : disjoint x y <-> disjoint y x.
Proof. unfold disjoint. lia. Qed.

#[export] Instance pairwise_disjoint_Proper :
  Proper ((≡ₚ) ==> iff) pairwise_disjoint.
Proof.
  assert (Himp : forall l1 l2, l1 ≡ₚ l2 -> pairwise_disjoint l1 -> pairwise_disjoint l2).
  { induction 1 as [|x l1 l2 Hp IH|x y l|]; simpl; auto.
    - intros [Hx Hl]. split; [|auto]. rewrite Forall_forall in *.
      intros y Hy. apply Hx. by rewrite Hp.
    - rewrite !Forall_cons, (disjoint_comm y x). tauto. }
  intros l1 l2 Hl. split; apply Himp; [done|by symmetry].
Qed.

(** *** Correctness of the operations *)

Section Correct.
Context (w first : Z) (Hw : 12 <= w) (Hfirst : 0 <= first).

Lemma init_wf : first < 2 ^ w -> wf w first (init first).
Proof. intros. split; simpl; [lia|set_solver|done]. Qed.

(** The bump path: the address the code computes, without wrap-around. *)
Lemma bump_address size alignment a :
  0 <= nextAddress a -> 0 < size -> pow2 alignment -> has_room w size alignment a ->
  exists p, clear_low (wrap w (nextAddress a + (Z.max alignment 4096 - 1)))
                      (Z.max alignment 4096) = p
    /\ nextAddress a <= p < nextAddress a + Z.max alignment 4096
    /\ (Z.max alignment 4096 | p)
    /\ wrap w (p + wrap w size) = p + size.
Proof.
  intros Hn Hs (k & Hk & ->) Hroom. unfold has_room in Hroom.
  assert (Hmax : exists k', 0 <= k' /\ Z.max (2 ^ k) 4096 = 2 ^ k').
  { destruct (Z.max_spec (2 ^ k) 4096) as [[_ ->]|[_ ->]];
      [by exists 12|by exists k]. }
  destruct Hmax as (k' & Hk' & Hmax). rewrite Hmax in *.
  assert (0 < 2 ^ k') by lia.
  rewrite (wrap_small w (_ + _)) by (unfold in_width; lia).
  eexists; split; [done|].
  pose proof (clear_low_bounds (nextAddress a + (2 ^ k' - 1)) k' Hk').
  pose proof (clear_low_divide (nextAddress a + (2 ^ k' - 1)) k' Hk').
  rewrite (wrap_small w size) by (unfold in_width; lia).
  rewrite wrap_small by (unfold in_width; lia). split_and!; [lia|lia|done|done].
Qed.

(** An allocator none of whose blocks was freed: blocks at increasing addresses. *)
Lemma alignedAlloc_bump size alignment a :
  freeAllocationsMap a = [] -> 0 <= nextAddress a -> 0 < size -> pow2 alignment ->
  has_room w size alignment a ->
  exists p a', alignedAlloc w size alignment a = (p, a')
    /\ nextAddress a <= p < nextAddress a + Z.max alignment 4096
    /\ nextAddress a' = p + size /\ freeAllocationsMap a' = [].
Proof.
  intros Hf Hn Hs Hp Hroom. destruct (bump_address size alignment a Hn Hs Hp Hroom)
    as (p & Hpeq & Hb & _ & Hnext).
  unfold alignedAlloc. rewrite Hf. cbn. rewrite Hpeq. eexists _, _. split; [reflexivity|].
  split; [done|]. cbn. by rewrite Hnext.
Qed.

Lemma wf_blocks_Permutation a a' :
  wf w first a -> nextAddress a' = nextAddress a -> blocks a' ≡ₚ blocks a ->
  wf w first a'.
Proof.
  intros [Hn Hr Hd] Hnext Hp. split; rewrite ?Hnext; [done| |].
  - intros b. rewrite Hp. apply Hr.
  - by rewrite Hp.
Qed.

Lemma blocks_reuse it p a :
  Multimap.find_if p (freeAllocationsMap a) = Some it ->
  Multimap.insert it (usedAllocationsMap a) ++ Multimap.erase p (freeAllocationsMap a)
    ≡ₚ blocks a.
Proof.
  intros Hf. unfold blocks.
  rewrite Multimap.insert_Permutation.
  etrans; [|apply Permutation_app_head; symmetry; apply Multimap.find_if_erase, Hf].
  apply (Permutation_middle (usedAllocationsMap a)).
Qed.

Lemma blocks_free key it a :
  Multimap.find key (usedAllocationsMap a) = Some it ->
  Multimap.erase (fun e => e.1 =? key) (usedAllocationsMap a)
    ++ Multimap.insert it (freeAllocationsMap a) ≡ₚ blocks a.
Proof.
  rewrite Multimap.find_find_if. intros Hf. unfold blocks.
  rewrite Multimap.insert_Permutation, <- Permutation_middle.
  etrans; [|apply Permutation_app_tail; symmetry; apply Multimap.find_if_erase, Hf].
  done.
Qed.

Lemma pairwise_disjoint_app_l b l1 l2 :
  pairwise_disjoint (b :: l1 ++ l2) -> Forall (disjoint b) l1.
Proof. simpl. rewrite Forall_app. tauto. Qed.

Lemma alignedAlloc_used size alignment a :
  let '(p, a') := alignedAlloc w size alignment a in
  usedAllocationsMap a' ≡ₚ (p, size) :: usedAllocationsMap a.
Proof.
  unfold alignedAlloc.
  destruct (Multimap.find_if _ _) as [it|] eqn:Hf; simpl;
    rewrite Multimap.insert_Permutation; [|done].
  apply Multimap.find_if_true, Z.eqb_eq in Hf. destruct it; simpl in *. by subst.
Qed.

Lemma alignedAlloc_wf size alignment a :
  wf w first a -> 0 < size -> pow2 alignment -> has_room w size alignment a ->
  wf w first (alignedAlloc w size alignment a).2.
Proof.
  intros Hwf Hs Hal Hroom. assert (Hn0 : 0 <= nextAddress a) by (destruct Hwf; lia).
  pose proof (bump_address _ _ _ Hn0 Hs Hal Hroom) as Hb.
  destruct Hb as (p & Hp & Hnp & _ & Hnext). unfold alignedAlloc, has_room in *.
  destruct (Multimap.find_if _ _) as [it|] eqn:Hf; simpl.
  - apply (wf_blocks_Permutation a); [done..|]. by apply blocks_reuse.
  - rewrite Hp, Hnext. destruct Hwf as [Hn Hr Hd].
    split; unfold blocks; simpl; [lia| |].
    + intros b. rewrite Multimap.insert_Permutation. simpl.
      rewrite elem_of_cons. intros [->|Hb]; simpl; [lia|].
      apply Hr in Hb. lia.
    + rewrite Multimap.insert_Permutation. simpl. split; [|done].
      rewrite Forall_forall. intros b Hb%Hr. unfold disjoint. simpl. lia.
Qed.
End Correct.

(** C34: SimpleAllocator::alignedAlloc returns a block inside the managed
    range that overlaps no block in use, records it as used and keeps the
    allocator's invariant. *)
Theorem alignedAlloc_correct w first size alignment a p a' :
  12 <= w -> 0 <= first ->
  wf w first a -> 0 < size -> pow2 alignment -> has_room w size alignment a ->
  alignedAlloc w size alignment a = (p, a') ->
  wf w first a'
  /\ usedAllocationsMap a' ≡ₚ (p, size) :: usedAllocationsMap a
  /\ first <= p /\ p + size <= nextAddress a'
  /\ Forall (disjoint (p, size)) (usedAllocationsMap a).
Proof.
  intros Hw Hf Hwf Hs Hal Hroom Heq.
  pose proof (alignedAlloc_wf w first Hw Hf _ _ _ Hwf Hs Hal Hroom) as Hwf'.
  pose proof (alignedAlloc_used w size alignment a) as Hu.
  rewrite Heq in Hwf', Hu. simpl in Hwf'. pose proof Hwf' as [Hn Hr Hd].
  assert (Hb : blocks a' ≡ₚ (p, size) :: usedAllocationsMap a ++ freeAllocationsMap a')
    by (unfold blocks; by rewrite Hu).
  rewrite Hb in Hd. destruct Hd as [[Hd _]%Forall_app _].
  destruct (Hr (p, size)) as (? & _ & ?); [rewrite Hb; apply list_elem_of_here|].
  done.
Qed.

Section Free.
Context (w first : Z).

Lemma alignedFree_unknown address a :
  Multimap.find (wrap w address) (usedAllocationsMap a) = None ->
  alignedFree w address a = a.
Proof. intros Hf. unfold alignedFree. by rewrite Hf. Qed.

Lemma alignedFree_known address it a :
  Multimap.find (wrap w address) (usedAllocationsMap a) = Some it ->
  nextAddress (alignedFree w address a) = nextAddress a
  /\ usedAllocationsMap a ≡ₚ it :: usedAllocationsMap (alignedFree w address a)
  /\ freeAllocationsMap (alignedFree w address a) ≡ₚ it :: freeAllocationsMap a.
Proof.
  intros Hf. unfold alignedFree. rewrite Hf. simpl. split; [done|].
  rewrite Multimap.insert_Permutation. split; [|done].
  rewrite Multimap.find_find_if in Hf. by apply Multimap.find_if_erase.
Qed.

Lemma alignedFree_blocks address a : blocks (alignedFree w address a) ≡ₚ blocks a.
Proof.
  destruct (Multimap.find (wrap w address) (usedAllocationsMap a)) as [it|] eqn:Hf.
  - unfold alignedFree. rewrite Hf. by apply blocks_free.
  - by rewrite alignedFree_unknown.
Qed.

Lemma alignedFree_wf address a : wf w first a -> wf w first (alignedFree w address a).
Proof.
  intros Hwf. apply (wf_blocks_Permutation w first a); [done| |apply alignedFree_blocks].
  unfold alignedFree. by destruct (Multimap.find _ _).
Qed.
End Free.

(** A block freed and allocated again: the bump pointer does not move, and the
    block comes back when it was the only free one of its size. *)
Theorem free_then_alloc_reuses w address size alignment a :
  Multimap.find (wrap w address) (usedAllocationsMap a) = Some (wrap w address, size) ->
  Forall (fun b => b.2 <> size) (freeAllocationsMap a) ->
  let '(p, a') := alignedAlloc w size alignment (alignedFree w address a) in
  p = wrap w address
  /\ nextAddress a' = nextAddress a
  /\ usedAllocationsMap a' ≡ₚ usedAllocationsMap a
  /\ freeAllocationsMap a' ≡ₚ freeAllocationsMap a.
Proof.
  intros Hf Hsz. pose proof (alignedFree_known w address _ a Hf) as (Hn & Hu & Hfr).
  unfold alignedAlloc.
  destruct (Multimap.find_if _ _) as [[q sz]|] eqn:Hfi; simpl.
  - pose proof (Multimap.find_if_true _ _ _ Hfi) as Hq%Z.eqb_eq. simpl in Hq. subst sz.
    apply Multimap.find_if_erase in Hfi.
    assert (Hin : (q, size) ∈ (wrap w address, size) :: freeAllocationsMap a).
    { rewrite <- Hfr, Hfi. apply list_elem_of_here. }
    apply elem_of_cons in Hin as [[= ->]|Hin].
    + pose proof (Permutation_trans (Permutation_sym Hfi) Hfr) as Hp.
      apply Permutation_cons_inv in Hp.
      by rewrite Multimap.insert_Permutation, <- Hu.
    + rewrite Forall_forall in Hsz. by apply Hsz in Hin.
  - exfalso. assert (Hin : (wrap w address, size) ∈ freeAllocationsMap (alignedFree w address a))
      by (rewrite Hfr; apply list_elem_of_here).
    apply (Multimap.find_if_None _ _ Hfi) in Hin. simpl in Hin. lia.
Qed.

(** *** Alignment

    The reuse path does not look at the alignment, so an address is aligned
    when every block of one size is always requested with one alignment: the
    page tables request [alignment = size]. *)

Definition self_aligned (a : t) : Prop :=
  forall b, b ∈ blocks a -> pow2 b.2 -> 4096 <= b.2 -> (b.2 | b.1).

Lemma self_aligned_free w address a :
  self_aligned a -> self_aligned (alignedFree w address a).
Proof. intros Ha b. rewrite alignedFree_blocks. apply Ha. Qed.

Lemma alignedAlloc_self_aligned w size a :
  self_aligned a -> pow2 size -> 4096 <= size ->
  let '(p, a') := alignedAlloc w size size a in
  (size | p) /\ self_aligned a'.
Proof.
  intros Ha Hp2 Hs. pose proof Hp2 as (k & Hk & Hsize). unfold alignedAlloc.
  destruct (Multimap.find_if _ _) as [it|] eqn:Hf; simpl.
  - pose proof (Multimap.find_if_true _ _ _ Hf) as Hit%Z.eqb_eq. split.
    + rewrite <- Hit. apply Ha; [|by rewrite Hit..].
      unfold blocks. apply elem_of_app. right.
      rewrite (Multimap.find_if_erase _ _ _ Hf). apply list_elem_of_here.
    + intros b. unfold blocks. simpl. rewrite (blocks_reuse _ _ _ Hf). apply Ha.
  - rewrite Z.max_l by lia. subst size.
    pose proof (clear_low_divide (wrap w (nextAddress a + (2 ^ k - 1))) k Hk) as Hd.
    split; [done|]. intros b. unfold blocks. simpl.
    rewrite Multimap.insert_Permutation. simpl. rewrite elem_of_cons.
    intros [->|Hb]; [done|by apply Ha].
Qed.

(** *** Reachable states: any interleaving of allocations and frees. *)

Inductive reachable (w first : Z) : t -> Prop :=
| reachable_init : reachable w first (init first)
| reachable_alloc size alignment a :
    reachable w first a -> 0 < size -> pow2 alignment -> has_room w size alignment a ->
    reachable w first (alignedAlloc w size alignment a).2
| reachable_free address a :
    reachable w first a -> reachable w first (alignedFree w address a).

Lemma reachable_wf w first a :
  12 <= w -> 0 <= first < 2 ^ w -> reachable w first a -> wf w first a.
Proof.
  intros Hw Hf. induction 1 as [|size alignment a Ha IH Hs Hal Hroom|address a Ha IH].
  - apply init_wf; lia.
  - apply alignedAlloc_wf; done || lia.
  - by apply alignedFree_wf.
Qed.

(** Without the discipline of [alignedAlloc_self_aligned] the reuse path hands
    out a misaligned block: a 64KB block allocated at a 4KB boundary and freed
    answers a request for 64KB alignment. *)
Theorem alignedAlloc_reuse_ignores_alignment :
  exists a, reachable 64 4096 a
    /\ (alignedAlloc 64 65536 65536 a).1 mod 65536 = 4096.
Proof.
  exists (alignedFree 64 4096 (alignedAlloc 64 65536 4096 (init 4096)).2).
  split; [|by vm_compute].
  apply reachable_free, reachable_alloc; [apply reachable_init|lia|by exists 12|].
  by vm_compute.
Qed.
End SimpleAllocator.

(** ** The allocator interface of the page tables

    [reservePhysicalMemory] and [freePhysicalMemory] are the virtual functions of
    [struct PhysicalAddressAllocator]. [AllocatorLaws] is what the page tables
    rely on: requests for a valid bank succeed, keep the allocator's invariant,
    and a self-aligned request (the only kind the tables make) is aligned. *)

Class PhysicalAddressAllocator (St : Type) := {
  reservePhysicalMemory : Z -> Z -> Z -> M St Z;
  freePhysicalMemory : Z -> Z -> M St unit
}.

Definition mainBank : Z := 0.

Class AllocatorLaws (St : Type) `{PhysicalAddressAllocator St} := {
  alloc_inv : St -> Prop;
  valid_bank : Z -> Prop;
  reserve_ok : forall bank size s, alloc_inv s -> valid_bank bank -> pow2 size ->
    4096 <= size ->
    wp (reservePhysicalMemory bank size size) (fun p s' => (size | p) /\ alloc_inv s') s;
  free_ok : forall bank address s, alloc_inv s -> valid_bank bank ->
    wp (freePhysicalMemory bank address) (fun _ s' => alloc_inv s') s
}.

(** ** PhysicalAddressAllocatorSimple *)

Module Simple.

Definition reservedGGTTSpace : Z := 0x80000.

Record t := mk {
  mainAllocator : SimpleAllocator.t;
  numberOfAllocators : Z;
  allocatorSize : Z;
  allocators : list SimpleAllocator.t
}.

(** The constructor's loop over [allocators]. *)
Fixpoint makeAllocators (n : nat) (startAddress size : Z) : list SimpleAllocator.t :=
  match n with
  | O => []
  | S n' => SimpleAllocator.init (Z.max startAddress 0x1000)
            :: makeAllocators n' (u64 (startAddress + size)) size
  end.

Definition init (numberOfAllocators singleAllocatorSize : Z)
    (localMemorySupport : bool) : t :=
  let startAddress := if localMemorySupport then singleAllocatorSize / 256 else 0 in
  mk (SimpleAllocator.init reservedGGTTSpace) numberOfAllocators singleAllocatorSize
     (makeAllocators (Z.to_nat numberOfAllocators) startAddress singleAllocatorSize).

(** [while ((memoryBank & 1u) == 0) { memoryBank >>= 1; allocatorIndex++; }];
    the loop runs at most 31 times on a non-zero 32-bit bank mask. *)
Fixpoint bankIndex (fuel : nat) (memoryBank : Z) (allocatorIndex : nat) : option nat :=
  match fuel with
  | O => None
  | S fuel' =>
      if Z.land memoryBank 1 =? 0
      then bankIndex fuel' (Z.shiftr memoryBank 1) (S allocatorIndex)
      else Some allocatorIndex
  end.

Section Ops.
Context (ndebug : bool).

Definition allocatorOf (memoryBank : Z) : M t nat :=
  i ← from_option_M OutOfFuel (bankIndex 32 memoryBank 0);
  s ← get;
  _ ← cassert ndebug (bool_decide (i < length (allocators s))%nat);
  mret i.

Definition reservePhysicalMemory (memoryBank size alignment : Z) : M t Z :=
  s ← get;
  if (memoryBank =? 0) || (numberOfAllocators s =? 0) then
    let '(p, a) := SimpleAllocator.alignedAlloc 64 size alignment (mainAllocator s) in
    _ ← put (mk a (numberOfAllocators s) (allocatorSize s) (allocators s));
    mret p
  else
    i ← allocatorOf memoryBank;
    a ← from_option_M OutOfBounds (allocators s !! i);
    let '(p, a) := SimpleAllocator.alignedAlloc 64 size alignment a in
    _ ← put (mk (mainAllocator s) (numberOfAllocators s) (allocatorSize s)
                (<[i := a]> (allocators s)));
    mret p.

Definition freePhysicalMemory (memoryBank address : Z) : M t unit :=
  s ← get;
  if (memoryBank =? 0) || (numberOfAllocators s =? 0) then
    put (mk (SimpleAllocator.alignedFree 64 address (mainAllocator s))
            (numberOfAllocators s) (allocatorSize s) (allocators s))
  else
    i ← allocatorOf memoryBank;
    a ← from_option_M OutOfBounds (allocators s !! i);
    put (mk (mainAllocator s) (numberOfAllocators s) (allocatorSize s)
            (<[i := SimpleAllocator.alignedFree 64 address a]> (allocators s))).
End Ops.

Lemma bankIndex_spec fuel : forall b acc,
  0 < b < 2 ^ Z.of_nat fuel ->
  exists i, bankIndex fuel b acc = Some (acc + i)%nat /\ (i < fuel)%nat
    /\ Z.testbit b (Z.of_nat i) = true
    /\ forall j, 0 <= j < Z.of_nat i -> Z.testbit b j = false.
Proof.
  induction fuel as [|fuel IH]; intros b acc Hb; [simpl in Hb; lia|].
  assert (Hodd : Z.land b 1 = Z.b2z (Z.odd b)).
  { rewrite <- Z.bit0_odd. change 1 with (2 ^ 1 - 1). rewrite land_low_mod by lia.
    by rewrite Z.bit0_mod. }
  assert (Hsh : Z.shiftr b 1 = b / 2) by (rewrite Z.shiftr_div_pow2 by lia; done).
  cbn [bankIndex]. rewrite Hodd, Hsh. destruct (Z.odd b) eqn:Ho; simpl (_ =? 0).
  - exists 0%nat. rewrite Nat.add_0_r. split_and!; [done|lia| |lia].
    by rewrite Z.bit0_odd.
  - assert (Hb2 : b = 2 * (b / 2)).
    { pose proof (Z.div_mod b 2). pose proof (Zmod_odd b) as Hm. rewrite Ho in Hm. lia. }
    destruct (IH (b / 2) (S acc)) as (i & -> & Hi & Hbit & Hlow).
    { rewrite Nat2Z.inj_succ, Z.pow_succ_r in Hb by lia. lia. }
    exists (S i). rewrite Nat2Z.inj_succ. split_and!; [f_equal; lia|lia| |].
    + rewrite Hb2, Z.double_bits_succ by lia. done.
    + intros j Hj. rewrite Hb2. destruct (decide (j = 0)) as [->|].
      * by rewrite Z.testbit_even_0.
      * replace j with (Z.succ (j - 1)) by lia.
        rewrite Z.double_bits_succ. apply Hlow. lia.
Qed.
End Simple.

Section SimpleLaws.
Context (ndebug : bool) (n : Z) (Hn : 0 <= n).

#[export] Instance SimpleAllocatorOps : PhysicalAddressAllocator Simple.t := {
  reservePhysicalMemory := Simple.reservePhysicalMemory ndebug;
  freePhysicalMemory := Simple.freePhysicalMemory ndebug
}.

(** [n] bank allocators, every allocator self-aligned. *)
Definition simple_inv (s : Simple.t) : Prop :=
  Simple.numberOfAllocators s = n
  /\ Z.of_nat (length (Simple.allocators s)) = n
  /\ SimpleAllocator.self_aligned (Simple.mainAllocator s)
  /\ Forall SimpleAllocator.self_aligned (Simple.allocators s).

(** System memory, or a mask whose lowest bank has an allocator. *)
Definition simple_valid_bank (bank : Z) : Prop :=
  bank = 0 \/ n = 0
  \/ exists i, Simple.bankIndex 32 bank 0 = Some i /\ Z.of_nat i < n.

Lemma allocatorOf_ok bank s Q :
  simple_inv s -> bank <> 0 -> n <> 0 -> simple_valid_bank bank ->
  (forall i a, Simple.allocators s !! i = Some a -> Q i s) ->
  wp (Simple.allocatorOf ndebug bank) Q s.
Proof.
  intros (Hnum & Hlen & _ & Hall) Hb Hn0 [?|[?|(i & Hi & Hin)]] HQ; try lia.
  unfold Simple.allocatorOf. rewrite Hi. wp_steps. apply wp_cassert.
  - apply bool_decide_eq_true. lia.
  - wp_steps. destruct (lookup_lt_is_Some_2 (Simple.allocators s) i) as [a Ha]; [lia|].
    by eapply HQ.
Qed.

#[export] Program Instance SimpleAllocatorLaws : AllocatorLaws Simple.t := {
  alloc_inv := simple_inv;
  valid_bank := simple_valid_bank
}.
Next Obligation.
  intros bank size s Hinv Hvb Hp2 Hs. pose proof Hinv as (Hnum & Hlen & Hmain & Hall).
  cbn [reservePhysicalMemory SimpleAllocatorOps].
  unfold Simple.reservePhysicalMemory. wp_steps.
  destruct (bank =? 0) eqn:Eb; [|destruct (Simple.numberOfAllocators s =? 0) eqn:En]; simpl.
  1,2: pose proof (SimpleAllocator.alignedAlloc_self_aligned 64 size _ Hmain Hp2 Hs) as Hal;
    destruct (SimpleAllocator.alignedAlloc 64 size size (Simple.mainAllocator s)) as [p a];
    destruct Hal; wp_steps; by split_and!.
  apply wp_bind, allocatorOf_ok; [done|lia|lia|done|]. intros i a Ha. rewrite Ha.
  pose proof (Forall_lookup_1 _ _ _ _ Hall Ha) as Hsa.
  pose proof (SimpleAllocator.alignedAlloc_self_aligned 64 size _ Hsa Hp2 Hs) as Hal.
  wp_steps. destruct (SimpleAllocator.alignedAlloc 64 size size a) as [p a'].
  destruct Hal. wp_steps. split; [done|]. split_and!; simpl; [done|by rewrite length_insert|done|].
  by apply Forall_insert.
Qed.
Next Obligation.
  intros bank address s Hinv Hvb. pose proof Hinv as (Hnum & Hlen & Hmain & Hall).
  cbn [freePhysicalMemory SimpleAllocatorOps].
  unfold Simple.freePhysicalMemory. wp_steps.
  destruct (bank =? 0) eqn:Eb; [|destruct (Simple.numberOfAllocators s =? 0) eqn:En]; simpl.
  1,2: split_and!; simpl; [done|done|by apply SimpleAllocator.self_aligned_free|done].
  apply wp_bind, allocatorOf_ok; [done|lia|lia|done|]. intros i a Ha. rewrite Ha. simpl.
  split_and!; simpl; [done|by rewrite length_insert|done|].
  apply Forall_insert; [done|].
  by apply SimpleAllocator.self_aligned_free, (Forall_lookup_1 _ _ _ _ Hall Ha).
Qed.
End SimpleLaws.

(** The constructor establishes the invariant. *)
Lemma makeAllocators_self_aligned k : forall start size,
  Forall SimpleAllocator.self_aligned (Simple.makeAllocators k start size).
Proof.
  induction k as [|k IH]; intros start size; simpl; constructor; [|done].
  intros b Hb. by apply elem_of_nil in Hb.
Qed.

Lemma length_makeAllocators k : forall start size,
  length (Simple.makeAllocators k start size) = k.
Proof. induction k as [|k IH]; intros start size; simpl; [done|by rewrite IH]. Qed.

Lemma simple_inv_init n size local : 0 <= n -> simple_inv n (Simple.init n size local).
Proof.
  intros Hn. unfold Simple.init. split_and!; simpl.
  - done.
  - rewrite length_makeAllocators. lia.
  - intros b Hb. by apply elem_of_nil in Hb.
  - apply makeAllocators_self_aligned.
Qed.

(** *** Bank ranges *)

Lemma makeAllocators_lookup n start size i :
  0 <= start -> 0 <= size -> start + Z.of_nat n * size < 2 ^ 64 -> (i < n)%nat ->
  Simple.makeAllocators n start size !! i =
    Some (SimpleAllocator.init (Z.max (start + Z.of_nat i * size) 0x1000)).
Proof.
  revert start i. induction n as [|n IH]; intros start i H0 Hs Hb Hi; [lia|].
  destruct i as [|i]; simpl.
  - by rewrite Z.add_0_r.
  - rewrite (wrap_small 64) by (unfold in_width; lia).
    rewrite IH by lia. do 3 f_equal. lia.
Qed.

(** C35: Blocks of different banks do not overlap as long as the lower bank's bump
    pointer has not passed the start of the next bank. *)
Theorem bank_blocks_disjoint n size local i j ai aj bi bj :
  let start := if (local : bool) then size / 256 else 0 in
  let first k := Z.max (start + Z.of_nat k * size) 0x1000 in
  0x1000 <= size -> start + n * size < 2 ^ 64 -> (i < j)%nat -> Z.of_nat j < n ->
  (forall k, Z.of_nat k < n -> exists a,
     Simple.allocators (Simple.init n size local) !! k = Some a
     /\ SimpleAllocator.nextAddress a = first k)
  /\ (SimpleAllocator.reachable 64 (first i) ai ->
      SimpleAllocator.reachable 64 (first j) aj ->
      SimpleAllocator.nextAddress ai <= first (S i) ->
      bi ∈ SimpleAllocator.blocks ai -> bj ∈ SimpleAllocator.blocks aj ->
      SimpleAllocator.disjoint bi bj).
Proof.
  intros start first Hsize Hov Hij Hj.
  assert (Hst : 0 <= start) by (subst start; destruct local; [apply Z.div_pos; lia|lia]).
  split.
  - intros k Hk. unfold Simple.init. cbn [Simple.allocators].
    rewrite makeAllocators_lookup; [by eexists|lia..].
  - intros Hri Hrj Hlim Hbi Hbj.
    assert (Hfi : forall k, Z.of_nat k < n -> 0 <= first k < 2 ^ 64).
    { intros k Hk. subst first. cbn. nia. }
    apply SimpleAllocator.reachable_wf in Hri; [|lia|apply Hfi; lia].
    apply SimpleAllocator.reachable_wf in Hrj; [|lia|apply Hfi; lia].
    apply (SimpleAllocator.wf_range _ _ _ Hri) in Hbi.
    apply (SimpleAllocator.wf_range _ _ _ Hrj) in Hbj.
    assert (first (S i) <= first j) by (subst first; cbn beta; nia).
    left. lia.
Qed.

(** ** PhysicalAddressAllocatorHeap

    [aligned_alloc] belongs to the C library: the pointer it returns is an
    argument. The destructor of [storage] is the only release. *)

Module Heap.
Record t := mk { storage : list Z }.

Definition reservePhysicalMemory (ndebug : bool) (aligned_alloc : Z -> Z -> Z)
    (memoryBank size alignment : Z) : M t Z :=
  let p := aligned_alloc size alignment in
  _ ← cassert ndebug (negb (p =? 0));
  _ ← modify (fun s => mk (storage s ++ [p]));
  mret p.

Definition freePhysicalMemory (memoryBank address : Z) : M t unit := mret tt.
End Heap.

(** ** PhysicalAddressAllocatorSimpleAndSHM4Mapper

    The shared translation tables are arrays of host pointers indexed by 4KB
    physical page number, one for local and one for system memory; an entry that
    was never written reads as [nullptr]. *)

Module Shm4.
Record t := mk {
  simple : Simple.t;
  localMemBase : gmap Z Z;
  sysMemBase : gmap Z Z;
  storage : list Z
}.

Definition readEntry (table : gmap Z Z) (entryNumber : Z) : Z :=
  default 0 (table !! entryNumber).

Definition tableOf (isLocalMemory : bool) (s : t) : gmap Z Z :=
  if isLocalMemory then localMemBase s else sysMemBase s.

Definition withTable (isLocalMemory : bool) (table : gmap Z Z) (s : t) : t :=
  if isLocalMemory then mk (simple s) table (sysMemBase s) (storage s)
  else mk (simple s) (localMemBase s) table (storage s).

(** [while (size > 0) { *traslationTable++ = p; size -= 0x1000; p += 0x1000; }] *)
Fixpoint fill (fuel : nat) (entryNumber size p : Z) (table : gmap Z Z)
    : option (gmap Z Z) :=
  match fuel with
  | O => None
  | S fuel' =>
      if 0 <? size
      then fill fuel' (entryNumber + 1) (u64 (size - 0x1000)) (u64 (p + 0x1000))
                (<[entryNumber := p]> table)
      else Some table
  end.

Definition mapSystemMemoryToPhysicalAddress (ndebug : bool)
    (aligned_alloc : Z -> Z -> Z) (physAddress size alignment : Z)
    (isLocalMemory : bool) (p : Z) : M t unit :=
  p ← (if p =? 0 then
         let up := aligned_alloc size (Z.max alignment 0x1000) in
         _ ← cassert ndebug (negb (up =? 0));
         _ ← modify (fun s => mk (simple s) (localMemBase s) (sysMemBase s)
                                 (storage s ++ [up]));
         mret up
       else mret p);
  _ ← cassert ndebug (physAddress mod 0x1000 =? 0);
  _ ← cassert ndebug (size mod 0x1000 =? 0);
  s ← get;
  table ← from_option_M OutOfFuel
            (fill (S (Z.to_nat (size / 0x1000))) (physAddress / 0x1000) size p
                  (tableOf isLocalMemory s));
  put (withTable isLocalMemory table s).

(** The continuity check: [size] bytes remain after the pages accepted so far. *)
Fixpoint contiguous (fuel : nat) (table : gmap Z Z)
    (entryNumber expected size availableSize : Z) : option Z :=
  match fuel with
  | O => None
  | S fuel' =>
      if 0 <? size then
        if negb (readEntry table entryNumber =? expected) then Some availableSize
        else contiguous fuel' table (entryNumber + 1) (u64 (expected + 0x1000))
               (size - Z.min 0x1000 size) (availableSize + Z.min 0x1000 size)
      else Some availableSize
  end.

(** Returns the pair [(p, availableSize)] of the two output parameters. *)
Definition translatePhysicalAddressToSystemMemory (physAddress size : Z)
    (isLocalMemory : bool) : M t (Z * Z) :=
  let entryNumber := physAddress / 0x1000 in
  let pageOffset := physAddress mod 0x1000 in
  s ← get;
  let table := tableOf isLocalMemory s in
  let host := readEntry table entryNumber in
  if host =? 0 then mret (0, 0)
  else
    let availableSize := 0x1000 - pageOffset in
    let size := size - Z.min availableSize size in
    availableSize ← from_option_M OutOfFuel
      (contiguous (S (Z.to_nat (size / 0x1000 + 1))) table (entryNumber + 1)
                  (u64 (host + 0x1000)) size availableSize);
    mret (u64 (host + pageOffset), availableSize).

Definition liftSimple {A} (m : M Simple.t A) : M t A := fun s =>
  match m (simple s) with
  | Ok (a, s') => Ok (a, mk s' (localMemBase s) (sysMemBase s) (storage s))
  | Err e => Err e
  end.

Definition reserveOnlyPhysicalSpace (ndebug : bool)
    (memoryBank size alignment : Z) : M t Z :=
  liftSimple (Simple.reservePhysicalMemory ndebug memoryBank size alignment).

Definition reservePhysicalMemory (ndebug : bool) (aligned_alloc : Z -> Z -> Z)
    (memoryBank size alignment : Z) : M t Z :=
  physAddress ← reserveOnlyPhysicalSpace ndebug memoryBank size alignment;
  s ← get;
  _ ← mapSystemMemoryToPhysicalAddress ndebug aligned_alloc physAddress size alignment
        (negb (memoryBank =? 0) && negb (Simple.numberOfAllocators (simple s) =? 0)) 0;
  mret physAddress.

Definition freePhysicalMemory (memoryBank address : Z) : M t unit := mret tt.

Lemma fill_spec k : forall fuel e p table,
  (k < fuel)%nat -> 0 <= p -> p + Z.of_nat k * 0x1000 < 2 ^ 64 ->
  exists table', fill fuel e (Z.of_nat k * 0x1000) p table = Some table'
    /\ forall j, table' !! j =
         if decide (e <= j < e + Z.of_nat k) then Some (p + (j - e) * 0x1000)
         else table !! j.
Proof.
  induction k as [|k IH]; intros fuel e p table Hf Hp Hb;
    (destruct fuel as [|fuel]; [lia|]); cbn [fill].
  - exists table. split; [done|]. intros j. by rewrite decide_False by lia.
  - rewrite (proj2 (Z.ltb_lt _ _)) by lia.
    rewrite !(wrap_small 64) by (unfold in_width; lia).
    replace (Z.of_nat (S k) * 0x1000 - 0x1000) with (Z.of_nat k * 0x1000) by lia.
    destruct (IH fuel (e + 1) (p + 0x1000) (<[e := p]> table)) as (t' & -> & Ht');
      [lia..|].
    exists t'. split; [done|]. intros j. rewrite Ht', lookup_insert.
    repeat case_decide; subst; try lia; try done; f_equal; lia.
Qed.

Lemma contiguous_spec fuel table : forall e expected size availableSize,
  0 <= size < Z.of_nat fuel * 0x1000 -> 0 <= expected -> expected + size + 0x1000 < 2 ^ 64 ->
  (forall i, 0 <= i -> i * 0x1000 < size ->
     readEntry table (e + i) = expected + i * 0x1000) ->
  contiguous (S fuel) table e expected size availableSize = Some (availableSize + size).
Proof.
  induction fuel as [|fuel IH]; intros e expected size av Hs He Hb Ht; [lia|].
  cbn [contiguous]. destruct (Z.ltb_spec 0 size); [|f_equal; lia].
  pose proof (Ht 0) as H0. rewrite !Z.add_0_r in H0. rewrite H0 by lia.
  rewrite Z.eqb_refl. cbn [negb]. change (0 * 4096) with 0 in *.
  destruct (decide (size <= 0x1000)).
  - rewrite Z.min_r by lia. replace (size - size) with 0 by lia.
    destruct fuel; cbn [contiguous]; done.
  - rewrite Z.min_l by lia. rewrite (wrap_small 64) by (unfold in_width; lia).
    pose proof (IH (e + 1) (expected + 0x1000) (size - 0x1000) (av + 0x1000)) as IH'.
    cbn [contiguous] in IH'. rewrite IH'; [f_equal; lia|lia..|].
    intros i Hi Hlt. replace (e + 1 + i) with (e + (i + 1)) by lia.
    rewrite Ht by lia. lia.
Qed.

(** After a mapping, every physical address of the range translates to the
    host pointer at the same offset, with at least the requested bytes. *)
Theorem map_then_translate ndebug aligned_alloc physPage n alignment local p off size s :
  0 <= physPage -> 0 < n -> 0 < p -> p + n * 0x1000 + 0x1000 < 2 ^ 64 ->
  0 <= off -> 0 < size -> off + size <= n * 0x1000 ->
  let phys := physPage * 0x1000 in
  wp (_ ← mapSystemMemoryToPhysicalAddress ndebug aligned_alloc phys (n * 0x1000)
            alignment local p;
      translatePhysicalAddressToSystemMemory (phys + off) size local)
     (fun r s' => r.1 = p + off /\ size <= r.2 /\ simple s' = simple s
                  /\ tableOf (negb local) s' = tableOf (negb local) s) s.
Proof.
  intros Hpp Hn Hp Hb Hoff Hsz Hfit phys. subst phys.
  unfold mapSystemMemoryToPhysicalAddress. rewrite (proj2 (Z.eqb_neq p 0)) by lia.
  wp_steps. apply wp_cassert; [rewrite Z_mod_mult; done|].
  wp_steps. apply wp_cassert; [rewrite Z_mod_mult; done|]. wp_steps.
  rewrite !Z_div_mult by lia.
  destruct (fill_spec (Z.to_nat n) (S (Z.to_nat n)) physPage p (tableOf local s))
    as (tbl & Hfill & Htbl); [lia..|].
  rewrite Z2Nat.id in * by lia. rewrite Hfill. wp_steps.
  unfold translatePhysicalAddressToSystemMemory. wp_steps.
  replace (tableOf local (withTable local tbl s)) with tbl by (by destruct local).
  assert (Hread : forall j, 0 <= j < n -> readEntry tbl (physPage + j) = p + j * 0x1000).
  { intros j Hj. unfold readEntry. rewrite Htbl, decide_True by lia. simpl. lia. }
  pose proof (Z.div_mod off 0x1000) as Hdm. pose proof (Z.mod_pos_bound off 0x1000) as Hmb.
  replace ((physPage * 0x1000 + off) / 0x1000) with (physPage + off / 0x1000)
    by (rewrite Z.div_add_l by lia; lia).
  replace ((physPage * 0x1000 + off) mod 0x1000) with (off mod 0x1000)
    by (rewrite (Z.add_comm (_ * _)), Z.mod_add by lia; lia).
  rewrite Hread by lia. rewrite (proj2 (Z.eqb_neq _ 0)) by lia.
  set (q := off / 0x1000) in *. set (r := off mod 0x1000) in *.
  rewrite (wrap_small 64 (_ + _ + 4096)) by (unfold in_width; lia).
  pose proof (Z.div_mod (size - Z.min (0x1000 - r) size) 0x1000) as Hdm2.
  pose proof (Z.mod_pos_bound (size - Z.min (0x1000 - r) size) 0x1000) as Hmb2.
  rewrite contiguous_spec.
  - wp_steps. cbn [fst snd]. rewrite (wrap_small 64) by (unfold in_width; lia).
    split_and!; [lia|lia|by destruct local|by destruct local].
  - rewrite Z2Nat.id by lia. lia.
  - lia.
  - lia.
  - intros i Hi Hlt. replace (physPage + q + 1 + i) with (physPage + (q + 1 + i)) by lia.
    rewrite Hread by lia. lia.
Qed.
End Shm4.

(** ** Concrete instances of the theorems above *)

Definition exUsed : SimpleAllocator.t :=
  (SimpleAllocator.alignedAlloc 64 8192 4096
     (SimpleAllocator.alignedAlloc 64 4096 65536 (SimpleAllocator.init 4096)).2).2.

Lemma exUsed_wf : SimpleAllocator.wf 64 4096 exUsed.
Proof.
  apply SimpleAllocator.reachable_wf; [lia|lia|].
  apply SimpleAllocator.reachable_alloc; [|lia|by exists 12|by vm_compute].
  apply SimpleAllocator.reachable_alloc;
    [apply SimpleAllocator.reachable_init|lia|by exists 16|by vm_compute].
Qed.

Lemma alignedAlloc_correct_witness :
  let r := SimpleAllocator.alignedAlloc 64 4096 4096 exUsed in
  SimpleAllocator.wf 64 4096 r.2
  /\ SimpleAllocator.usedAllocationsMap r.2
       ≡ₚ (r.1, 4096) :: SimpleAllocator.usedAllocationsMap exUsed
  /\ 4096 <= r.1 /\ r.1 + 4096 <= SimpleAllocator.nextAddress r.2
  /\ Forall (SimpleAllocator.disjoint (r.1, 4096)) (SimpleAllocator.usedAllocationsMap exUsed).
Proof.
  apply (SimpleAllocator.alignedAlloc_correct 64 4096 4096 4096 exUsed);
    [lia|lia|apply exUsed_wf|lia|by exists 12|by vm_compute|by apply surjective_pairing].
Defined.

Lemma free_then_alloc_reuses_witness :
  let '(p, a') := SimpleAllocator.alignedAlloc 64 8192 4096
                    (SimpleAllocator.alignedFree 64 69632 exUsed) in
  p = wrap 64 69632
  /\ SimpleAllocator.nextAddress a' = SimpleAllocator.nextAddress exUsed
  /\ SimpleAllocator.usedAllocationsMap a' ≡ₚ SimpleAllocator.usedAllocationsMap exUsed
  /\ SimpleAllocator.freeAllocationsMap a' ≡ₚ SimpleAllocator.freeAllocationsMap exUsed.
Proof.
  apply (SimpleAllocator.free_then_alloc_reuses 64 69632 8192 4096 exUsed);
    [by vm_compute|constructor].
Defined.

Lemma bank_blocks_disjoint_witness :
  SimpleAllocator.disjoint (0x100000, 4096) (0x10100000, 4096).
Proof.
  apply (bank_blocks_disjoint 2 0x10000000 true 0 1
    (SimpleAllocator.alignedAlloc 64 4096 4096 (SimpleAllocator.init 0x100000)).2
    (SimpleAllocator.alignedAlloc 64 4096 4096 (SimpleAllocator.init 0x10100000)).2
    (0x100000, 4096) (0x10100000, 4096)); try (cbn; lia); try (apply list_elem_of_here);
    try (apply SimpleAllocator.reachable_alloc;
         [apply SimpleAllocator.reachable_init|lia|by exists 12|by vm_compute]).
  all: by vm_compute.
Defined.

Lemma map_then_translate_witness :
  wp (_ ← Shm4.mapSystemMemoryToPhysicalAddress false (fun _ _ => 0) 0x5000 0x3000 4096 true 0x700000;
      Shm4.translatePhysicalAddressToSystemMemory 0x6800 0x1000 true)
     (fun r s' => r.1 = 0x701800 /\ 0x1000 <= r.2) (Shm4.mk (Simple.init 1 0x10000000 true) ∅ ∅ []).
Proof.
  eapply wp_mono.
  - apply (Shm4.map_then_translate false (fun _ _ => 0) 5 3 4096 true 0x700000 0x1800 0x1000); lia.
  - intros r s' (H1 & H2 & _). split; [exact H1|exact H2].
Defined.
