(* ===== verification/MemoryBanks.v ===== *)
(** * Memory banks and bit helpers

    [align_helpers.h], [misc_helpers.h], [page_table_entry_bits.h],
    [memory_banks.h]/[.cpp] and [memory_bank_helper.h]: a bank mask is a 32-bit
    word with one bit per local-memory bank, zero standing for system memory;
    [MemoryBankHelper] splits an address range evenly between the banks of a mask. *)

From S2P Require Import Prelude.
From stdpp Require Import pretty.
#[local] Open Scope Z_scope.

(** ** align_helpers.h *)

Definition alignUp (size alignementBits : Z) : Z :=
  let alignementVal := u64 (Z.shiftl 1 alignementBits) in
  clear_low (u64 (size + u64 (alignementVal - 1))) alignementVal.

Definition alignDown (address alignementBits : Z) : Z :=
  let alignementVal := u64 (Z.shiftl 1 alignementBits) in
  clear_low address alignementVal.

Lemma shl1_pow2 b : 0 <= b < 64 -> u64 (Z.shiftl 1 b) = 2 ^ b.
Proof.
  intros Hb. rewrite Z.shiftl_1_l. apply wrap_small. unfold in_width.
  pose proof (Z.pow_lt_mono_r 2 b 64). lia.
Qed.

(** [alignUp] is the least multiple not below its argument. *)
Lemma alignUp_spec size bits :
  0 <= bits < 64 -> 0 <= size -> size + 2 ^ bits <= 2 ^ 64 ->
  (2 ^ bits | alignUp size bits) /\ size <= alignUp size bits < size + 2 ^ bits.
Proof.
  intros Hb Hs Hov. unfold alignUp. rewrite shl1_pow2 by lia.
  assert (0 < 2 ^ bits) by lia.
  rewrite (wrap_small 64 (2 ^ bits - 1)) by (unfold in_width; lia).
  rewrite (wrap_small 64) by (unfold in_width; lia).
  split; [apply clear_low_divide; lia|].
  pose proof (clear_low_bounds (size + (2 ^ bits - 1)) bits). lia.
Qed.

Lemma alignDown_spec address bits :
  0 <= bits < 64 ->
  (2 ^ bits | alignDown address bits)
  /\ alignDown address bits <= address < alignDown address bits + 2 ^ bits.
Proof.
  intros Hb. unfold alignDown. rewrite shl1_pow2 by lia.
  split; [apply clear_low_divide; lia|apply clear_low_bounds; lia].
Qed.

(** ** misc_helpers.h *)

Definition countBits (v : Z) : Z :=
  let r := u16 (Z.land (Z.shiftr v 1) 0x5555 + Z.land v 0x5555) in
  let r := u16 (Z.land (Z.shiftr r 2) 0x3333 + Z.land r 0x3333) in
  let r := u16 (Z.land (Z.shiftr r 4) 0x0f0f + Z.land r 0x0f0f) in
  let r := u16 (Z.land (Z.shiftr r 8) 0x0ff + Z.land r 0x0ff) in
  Z.land r 0xff.

(** The reference: one test per bit. *)
Definition popcount (n : nat) (v : Z) : Z :=
  sumZ ((fun i => Z.b2z (Z.testbit v (Z.of_nat i))) <$> seq 0 n).

(** countBits equals the bit-by-bit population count for 16-bit masks. *)
Theorem countBits_popcount v : in_width 16 v -> countBits v = popcount 16 v.
Proof.
  intros Hv. unfold in_width in Hv.
  apply Z.eqb_eq.
  apply (forall_bits_spec 16 (fun z => countBits z =? popcount 16 z) 0); [|simpl; lia].
  by vm_compute.
Qed.

(** ** page_table_entry_bits.h *)

(** [toBitValue(bit, nextBits...)]. *)
Fixpoint toBitValue (bits : list Z) : Z :=
  match bits with
  | [] => 0
  | bit :: nextBits => Z.lor (u64 (Z.shiftl 1 bit)) (toBitValue nextBits)
  end.

Module PpgttEntryBits.
Definition presentBit : Z := 0.
Definition writableBit : Z := 1.
Definition userSupervisorBit : Z := 2.
Definition intermediatePageSizeBit : Z := 6.
Definition largePageSizeBit : Z := 7.
Definition ps64Bit : Z := 8.
Definition atomicEnableBit : Z := 10.
Definition legacyIntermediatePageSizeBit : Z := 11.
Definition localMemoryBit : Z := 11.
End PpgttEntryBits.

Lemma toBitValue_testbit bits i :
  Forall (fun b => 0 <= b < 64) bits -> 0 <= i ->
  Z.testbit (toBitValue bits) i = bool_decide (i ∈ bits).
Proof.
  intros Hb Hi. induction Hb as [|b bits Hb _ IH]; cbn [toBitValue].
  - rewrite Z.bits_0. symmetry. apply bool_decide_eq_false, not_elem_of_nil.
  - rewrite Z.lor_spec, IH, shl1_pow2 by lia.
    rewrite Z.pow2_bits_eqb by lia.
    destruct (Z.eqb_spec b i) as [->|Hne]; cbn [orb]; symmetry.
    + apply bool_decide_eq_true. apply list_elem_of_here.
    + apply bool_decide_ext. rewrite elem_of_cons. split; [|by right].
      intros [->|?]; done.
Qed.

(** ** memory_banks.h, memory_banks.cpp *)

Definition MEMORY_BANK_SYSTEM : Z := 0.
Definition MEMORY_BANK_0 : Z := 1.
Definition MEMORY_BANKS_ALL : Z := 0xffffffff.
Definition MEMORY_BANK (device : Z) : Z := u32 (Z.shiftl MEMORY_BANK_0 device).

Definition KB : Z := 1024.
Definition MB : Z := 1024 * KB.
Definition GB : Z := 1024 * MB.

(** [while (bank >>= 1) id++]: at most 31 iterations on a 32-bit word. *)
Fixpoint toMemoryBankId_loop (fuel : nat) (bank id : Z) : option Z :=
  match fuel with
  | O => None
  | S fuel' =>
      let bank := Z.shiftr bank 1 in
      if bank =? 0 then Some id else toMemoryBankId_loop fuel' bank (id + 1)
  end.

Definition toMemoryBankId (mb : Z) : option Z := toMemoryBankId_loop 32 mb 0.

Lemma toMemoryBankId_loop_spec fuel : forall bank id,
  0 < bank < 2 ^ Z.of_nat fuel ->
  toMemoryBankId_loop fuel bank id = Some (id + Z.log2 bank).
Proof.
  induction fuel as [|fuel IH]; intros bank id Hb; [simpl in Hb; lia|].
  cbn [toMemoryBankId_loop]. rewrite Z.shiftr_div_pow2 by lia. change (2 ^ 1) with 2.
  rewrite Nat2Z.inj_succ, Z.pow_succ_r in Hb by lia.
  destruct (Z.eqb_spec (bank / 2) 0) as [H0|H0].
  - assert (bank = 1) as -> by dlia. f_equal. simpl. lia.
  - rewrite IH by dlia. f_equal.
    pose proof (Z.log2_shiftr bank 1) as Hl.
    rewrite Z.shiftr_div_pow2 in Hl by lia. change (2 ^ 1) with 2 in Hl.
    rewrite Hl by lia. pose proof (Z.log2_le_mono 2 bank) as Hm. change (Z.log2 2) with 1 in Hm. dlia.
Qed.

(** toMemoryBankId is the index of the highest bank of a mask. *)
Theorem toMemoryBankId_log2 mb :
  0 < mb < 2 ^ 32 -> toMemoryBankId mb = Some (Z.log2 mb).
Proof. intros Hm. unfold toMemoryBankId. by rewrite toMemoryBankId_loop_spec. Qed.

(** [memoryBanksToString]: the names of the set banks in ascending order. *)
Fixpoint memoryBanksToString_loop (fuel : nat) (memoryBanks : Z) (i : N)
    (separator : string) : string :=
  match fuel with
  | O => ""
  | S fuel' =>
      if memoryBanks =? 0 then ""
      else (if negb (Z.land memoryBanks 1 =? 0)
            then separator +:+ "bank" +:+ pretty i else "")
           +:+ memoryBanksToString_loop fuel' (Z.shiftr memoryBanks 1) (i + 1) separator
  end.

Definition memoryBanksToString (memoryBanks : Z) (separator : string) : string :=
  if negb (memoryBanks =? 0)
  then memoryBanksToString_loop 32 memoryBanks 0 separator
  else separator +:+ "sys".

Example memoryBanksToString_ex :
  memoryBanksToString 5 " " = " bank0 bank2" /\ memoryBanksToString 0 " " = " sys".
Proof. by vm_compute. Qed.

(** ** memory_bank_helper.h *)

Module MemoryBankHelper.

Record t := mk {
  memoryBanks : Z;
  initialGfxAddress : Z;
  size : Z;
  colorSize : Z;
  numberOfBanks : Z;
  singleBanks : list Z
}.

(** The constructor's [do { ... mask <<= 1; } while (mask <= memoryBanks)];
    [None] when [fuel] iterations are not enough. *)
Fixpoint collectBanks (fuel : nat) (memoryBanks mask : Z) (singleBanks : list Z)
    : option (list Z) :=
  match fuel with
  | O => None
  | S fuel' =>
      let singleBanks :=
        if negb (Z.land mask memoryBanks =? 0) then singleBanks ++ [mask]
        else singleBanks in
      let mask := u32 (Z.shiftl mask 1) in
      if mask <=? memoryBanks then collectBanks fuel' memoryBanks mask singleBanks
      else Some singleBanks
  end.

(** 32 iterations: one per bit of the mask. *)
Definition make (memoryBanksIn initialGfxAddress size : Z) : option t :=
  match collectBanks 32 memoryBanksIn 1 [] with
  | None => None
  | Some singleBanks =>
      let numberOfBanks := Z.of_nat (length singleBanks) in
      let colorSize := if 0 <? numberOfBanks then size / numberOfBanks else 1 in
      Some (mk memoryBanksIn initialGfxAddress size colorSize numberOfBanks singleBanks)
  end.

Definition getMemoryBank (ndebug : bool) (h : t) (gfxAddress : Z) : result Z :=
  if numberOfBanks h =? 0 then Ok 0
  else if numberOfBanks h =? 1 then
    match singleBanks h !! 0%nat with Some b => Ok b | None => Err OutOfBounds end
  else if negb ndebug && (gfxAddress <? initialGfxAddress h) then Err AssertionFailed
  else if colorSize h =? 0 then Err DivisionByZero
  else
    let diff := u64 (gfxAddress - initialGfxAddress h) in
    match singleBanks h !! Z.to_nat ((diff / colorSize h) mod numberOfBanks h) with
    | Some b => Ok b
    | None => Err OutOfBounds
    end.

(** Reference: the single-bit masks of the set bits [i, i + n), ascending. *)
Fixpoint setBits (n : nat) (i banks : Z) : list Z :=
  match n with
  | O => []
  | S n' => (if Z.testbit banks i then [2 ^ i] else []) ++ setBits n' (i + 1) banks
  end.

Lemma land_pow2 i banks :
  0 <= i -> Z.land (2 ^ i) banks = if Z.testbit banks i then 2 ^ i else 0.
Proof.
  intros Hi. apply Z.bits_inj'. intros j Hj.
  rewrite Z.land_spec, Z.pow2_bits_eqb by lia.
  destruct (Z.eqb_spec i j) as [->|Hne]; simpl.
  - destruct (Z.testbit banks j); [by rewrite Z.pow2_bits_true by lia|by rewrite Z.bits_0].
  - destruct (Z.testbit banks i); [by rewrite Z.pow2_bits_false by lia|by rewrite Z.bits_0].
Qed.

Lemma setBits_above n : forall i banks,
  0 <= i -> 0 <= banks < 2 ^ i -> setBits n i banks = [].
Proof.
  induction n as [|n IH]; intros i banks Hi Hb; simpl; [done|].
  rewrite IH; [|lia|rewrite Z.pow_add_r by lia; lia].
  destruct (decide (banks = 0)) as [->|]; [by rewrite Z.bits_0|].
  rewrite Z.bits_above_log2; [done|lia|]. apply Z.log2_lt_pow2; lia.
Qed.

Lemma setBits_elem n : forall i banks b,
  b ∈ setBits n i banks <->
  exists j, i <= j < i + Z.of_nat n /\ Z.testbit banks j = true /\ b = 2 ^ j.
Proof.
  induction n as [|n IH]; intros i banks b; simpl.
  - rewrite elem_of_nil. split; [done|]. intros (j & Hj & _). lia.
  - rewrite elem_of_app, IH. split.
    + intros [Hb|(j & Hj & Hbit & ->)].
      * destruct (Z.testbit banks i) eqn:Hi; [|by apply elem_of_nil in Hb].
        apply list_elem_of_singleton in Hb as ->. exists i. split; [lia|done].
      * exists j. split; [lia|done].
    + intros (j & Hj & Hbit & ->). destruct (decide (j = i)) as [->|].
      * left. rewrite Hbit. apply list_elem_of_here.
      * right. exists j. split; [lia|done].
Qed.

Lemma collectBanks_spec n : forall fuel i banks acc,
  0 <= i -> i + Z.of_nat n = 31 -> (0 < n)%nat -> (n <= fuel)%nat -> 0 <= banks < 2 ^ 31 ->
  collectBanks fuel banks (2 ^ i) acc = Some (acc ++ setBits n i banks).
Proof.
  induction n as [|n IH]; intros fuel i banks acc Hi Hn Hpos Hf Hb; [lia|].
  destruct fuel as [|fuel]; [lia|]. cbn [collectBanks setBits].
  pose proof (Z.pow_pos_nonneg 2 i). rewrite land_pow2 by lia.
  replace (u32 (Z.shiftl (2 ^ i) 1)) with (2 ^ (i + 1)).
  2: { rewrite Z.shiftl_mul_pow2 by lia. rewrite wrap_small; [by rewrite Z.pow_add_r by lia|].
       unfold in_width. pose proof (Z.pow_le_mono_r 2 i 30). lia. }
  assert (Hacc : (if negb ((if Z.testbit banks i then 2 ^ i else 0) =? 0)
                  then acc ++ [2 ^ i] else acc)
                 = acc ++ (if Z.testbit banks i then [2 ^ i] else [])).
  { destruct (Z.testbit banks i); [|by rewrite app_nil_r].
    rewrite (proj2 (Z.eqb_neq _ _)) by lia. done. }
  rewrite Hacc, app_assoc. destruct (Z.leb_spec (2 ^ (i + 1)) banks) as [Hle|Hgt].
  - destruct (decide (n = 0%nat)) as [->|].
    + exfalso. replace i with 30 in Hle by lia. simpl in Hle. lia.
    + apply IH; lia.
  - rewrite (setBits_above n (i + 1)), app_nil_r; [done|lia|lia].
Qed.

(** For every mask without bit 31 the constructor terminates and lists exactly
    the set banks, in ascending order. *)
Lemma make_singleBanks banks gfx size :
  0 <= banks < 2 ^ 31 ->
  exists h, make banks gfx size = Some h
    /\ singleBanks h = setBits 31 0 banks
    /\ numberOfBanks h = Z.of_nat (length (singleBanks h))
    /\ initialGfxAddress h = gfx
    /\ (0 < numberOfBanks h -> colorSize h = size / numberOfBanks h).
Proof.
  intros Hb. unfold make. change 1 with (2 ^ 0) at 1.
  rewrite (collectBanks_spec 31) by lia. eexists. split; [done|]. cbn. split_and!; try done.
  intros Hpos. by rewrite (proj2 (Z.ltb_lt _ _)).
Qed.

Lemma length_setBits n : forall i banks, (length (setBits n i banks) <= n)%nat.
Proof.
  induction n as [|n IH]; intros i banks; simpl; [done|]. rewrite length_app.
  specialize (IH (i + 1) banks). destruct (Z.testbit banks i); simpl; lia.
Qed.

(** On a range of at least a byte per bank, the helper answers with a bank of
    the mask, or with the main bank when the mask is empty. *)
Lemma getMemoryBank_ok ndebug banks gfx size h addr :
  0 <= banks < 2 ^ 31 -> make banks gfx size = Some h -> 31 <= size -> gfx <= addr ->
  exists bank, getMemoryBank ndebug h addr = Ok bank
    /\ (banks = 0 /\ bank = 0 \/ bank ∈ setBits 31 0 banks).
Proof.
  intros Hb Hmk Hsz Ha.
  destruct (make_singleBanks banks gfx size Hb) as (h' & Hmk' & Hsb & Hnum & Hinit & Hcol).
  rewrite Hmk' in Hmk. injection Hmk as ->. pose proof (length_setBits 31 0 banks) as Hlen.
  unfold getMemoryBank. rewrite Hinit, Hnum, Hsb in *. set (l := setBits 31 0 banks) in *.
  assert (Hin : forall i b, l !! i = Some b -> b ∈ l) by (intros; by eapply list_elem_of_lookup_2).
  destruct l as [|b0 l'] eqn:El; [|destruct l' as [|b1 l']].
  - exists 0. split; [done|left]. split; [|done].
    destruct (decide (banks = 0)); [done|]. exfalso.
    assert (2 ^ Z.log2 banks ∈ setBits 31 0 banks) as Hi.
    { apply setBits_elem. exists (Z.log2 banks). split_and!; [apply Z.log2_nonneg| | |done].
      - apply Z.log2_lt_pow2; lia.
      - apply Z.bit_log2. lia. }
    fold l in Hi. rewrite El in Hi. by apply elem_of_nil in Hi.
  - exists b0. split; [done|right]. apply list_elem_of_here.
  - set (k := Z.of_nat (length (b0 :: b1 :: l'))) in *.
    assert (Hk : 2 <= k) by (subst k; simpl length; lia).
    rewrite (proj2 (Z.eqb_neq k 0)), (proj2 (Z.eqb_neq k 1)) by lia.
    rewrite (proj2 (Z.ltb_ge addr gfx)), andb_false_r by lia.
    rewrite Hcol by lia. assert (0 < size / k) by (apply Z.div_str_pos; lia).
    rewrite (proj2 (Z.eqb_neq (size / k) 0)) by lia.
    pose proof (Z.mod_pos_bound (u64 (addr - gfx) / (size / k)) k ltac:(lia)) as Hm.
    destruct (lookup_lt_is_Some_2 (b0 :: b1 :: l')
      (Z.to_nat ((u64 (addr - gfx) / (size / k)) mod k))) as [b Hbk]; [lia|].
    exists b. rewrite Hbk. split; [done|right]. by eapply Hin.
Qed.

(** A mask with bit 31 set: the mask variable wraps to zero, which stays below
    [memoryBanks], and no number of iterations ends the loop. *)
Theorem make_bank31_diverges banks fuel :
  2 ^ 31 <= banks < 2 ^ 32 -> collectBanks fuel banks 1 [] = None.
Proof.
  intros Hb.
  enough (Hgen : forall fuel mask acc,
            mask = 0 \/ (exists i, 0 <= i <= 31 /\ mask = 2 ^ i) ->
            collectBanks fuel banks mask acc = None).
  { apply Hgen. right. by exists 0. }
  clear fuel. induction fuel as [|fuel IH]; intros mask acc Hm; [done|].
  cbn [collectBanks].
  assert (Hm' : u32 (Z.shiftl mask 1) = 0
            \/ exists i, 0 <= i <= 31 /\ u32 (Z.shiftl mask 1) = 2 ^ i).
  { destruct Hm as [->|(i & Hi & ->)]; [by left|].
    rewrite Z.shiftl_mul_pow2 by lia. change (2 ^ 1) with 2.
    destruct (decide (i = 31)) as [->|]; [by left|].
    right. exists (i + 1). rewrite Z.pow_add_r by lia. split; [lia|].
    apply wrap_small. unfold in_width. pose proof (Z.pow_le_mono_r 2 i 30).
    pose proof (Z.pow_pos_nonneg 2 i). lia. }
  rewrite (proj2 (Z.leb_le _ _)); [by apply IH|].
  destruct Hm' as [->|(i & Hi & ->)]; [lia|].
  pose proof (Z.pow_le_mono_r 2 i 31). lia.
Qed.

(** The range is split evenly: the [k]-th colour goes to the [k]-th bank. *)
Theorem getMemoryBank_even_split ndebug banks gfx size h k addr :
  0 <= banks < 2 ^ 31 -> make banks gfx size = Some h ->
  2 <= numberOfBanks h <= size -> 0 <= gfx -> gfx + size <= 2 ^ 64 ->
  0 <= k < numberOfBanks h ->
  gfx + k * colorSize h <= addr < gfx + (k + 1) * colorSize h ->
  exists bank, getMemoryBank ndebug h addr = Ok bank
    /\ setBits 31 0 banks !! Z.to_nat k = Some bank.
Proof.
  intros Hb Hmk Hn Hg Hov Hk Haddr.
  destruct (make_singleBanks banks gfx size Hb) as (h' & Hmk' & Hsb & Hnum & Hinit & Hcol).
  rewrite Hmk' in Hmk. injection Hmk as ->. specialize (Hcol ltac:(lia)).
  set (n := numberOfBanks h) in *. set (c := colorSize h) in *.
  assert (Hc : 0 < c) by (rewrite Hcol; apply Z.div_str_pos; lia).
  assert (Hnc : n * c <= size) by (rewrite Hcol; apply Z.mul_div_le; lia).
  unfold getMemoryBank. fold n c. rewrite Hinit.
  rewrite (proj2 (Z.eqb_neq n 0)), (proj2 (Z.eqb_neq n 1)), (proj2 (Z.eqb_neq c 0)) by lia.
  rewrite (proj2 (Z.ltb_ge addr gfx)), andb_false_r by nia.
  rewrite (wrap_small 64) by (unfold in_width; nia).
  replace ((addr - gfx) / c) with k by (apply Z.div_unique with (addr - gfx - k * c); lia).
  rewrite Z.mod_small by lia. rewrite Hsb.
  destruct (lookup_lt_is_Some_2 (setBits 31 0 banks) (Z.to_nat k)) as [b Hbk].
  { rewrite <- Hsb. lia. }
  exists b. by rewrite Hbk.
Qed.
End MemoryBankHelper.

(** ** Concrete instances of the theorems above *)

Lemma countBits_popcount_witness : countBits 0xf0f1 = popcount 16 0xf0f1.
Proof. apply (countBits_popcount 0xf0f1). unfold in_width. lia. Defined.

Lemma toMemoryBankId_log2_witness : toMemoryBankId 0x80000000 = Some 31.
Proof. apply (toMemoryBankId_log2 0x80000000). lia. Defined.

Lemma make_bank31_diverges_witness :
  MemoryBankHelper.collectBanks 1000 0x80000001 1 [] = None.
Proof. apply (MemoryBankHelper.make_bank31_diverges 0x80000001 1000). lia. Defined.

Lemma getMemoryBank_even_split_witness :
  exists h bank, MemoryBankHelper.make 7 0x10000 0x30000 = Some h
    /\ MemoryBankHelper.getMemoryBank false h 0x20000 = Ok bank
    /\ MemoryBankHelper.setBits 31 0 7 !! 1%nat = Some bank.
Proof.
  eexists. destruct (MemoryBankHelper.getMemoryBank_even_split false 7 0x10000 0x30000
    (MemoryBankHelper.mk 7 0x10000 0x30000 0x10000 3 [1; 2; 4]) 1 0x20000) as (bank & H1 & H2);
    [lia|reflexivity|cbn; lia|lia|lia|cbn; lia|cbn; lia|].
  exists bank. split; [reflexivity|]. split; [exact H1|exact H2].
Defined.
