(* ===== verification/Gpu.v ===== *)
(** * GPU descriptors and the layout of stolen memory

    [gpu.h] and [gpu.cpp]: the descriptor of a GPU, the virtual functions of
    [Gpu] that size the stolen memory, and the addresses of its regions. A GPU
    family overrides some of the virtual functions; [GpuSizes] is their dynamic
    value. *)

From S2P Require Import Prelude MemoryBanks.
#[local] Open Scope Z_scope.

(** [enum class CoreFamily]. *)
Module CoreFamily.
Definition Gen12lp : Z := 3.
Definition XeHpCore : Z := 4.
Definition XeHpgCore : Z := 5.
Definition XeHpcCore : Z := 6.
Definition Xe2HpgCore : Z := 7.
Definition Xe3Core : Z := 8.
Definition Xe3pCore : Z := 9.
Definition MaxCore : Z := 10.
End CoreFamily.

Record GpuDescriptor := mkGpuDescriptor {
  productFamily : Z;
  gfxCoreFamily : Z;
  productAbbreviation : string;
  deviceId : Z;
  deviceCount : Z
}.

Definition mmioDeviceOffset : Z := 16 * MB.

(** ** Stolen memory *)

Inductive StolenMemory :=
| StolenMemoryInHeap (size : Z) (localStolenStorage : list Z)
| StolenMemoryInStaticStorage (staticMemoryBankSize size : Z).

Definition stolenSize (s : StolenMemory) : Z :=
  match s with
  | StolenMemoryInHeap size _ => size
  | StolenMemoryInStaticStorage _ size => size
  end.

(** [CreateStolenMemory]; [aligned_alloc d size alignment] is the host allocation
    for device [d]. *)
Definition CreateStolenMemory (aligned_alloc : Z -> Z -> Z -> Z) (inHeap : bool)
    (deviceCount memoryBankSize size : Z) : option StolenMemory :=
  if memoryBankSize <? size then None
  else if inHeap then
    Some (StolenMemoryInHeap size
            (map (fun d => aligned_alloc d size MB) (seqZ 0 deviceCount)))
  else Some (StolenMemoryInStaticStorage memoryBankSize size).

(** [None] is the index past the end of the storage. *)
Definition getBaseAddress (s : StolenMemory) (device : Z) : option Z :=
  match s with
  | StolenMemoryInHeap _ localStolenStorage => localStolenStorage !! Z.to_nat device
  | StolenMemoryInStaticStorage bankSize size =>
      Some (alignDown (u64 (u64 (bankSize * u32 (device + 1)) - size)) 20)
  end.

(** The sizes of [Gpu] that families override, and the overrides of the options. *)
Record GpuSizes := mkGpuSizes {
  getWOPCMDefaultSize : Z;
  getGSMSize : Z;
  dsmSizeOverride : Z;
  wopcmSizeOverride : Z
}.

(** The values of the base class. *)
Definition baseGpuSizes : GpuSizes := mkGpuSizes (8 * MB) (8 * MB) 0 0.

Definition overrideDSMSize (dsmSize : Z) (g : GpuSizes) : GpuSizes :=
  mkGpuSizes (getWOPCMDefaultSize g) (getGSMSize g) dsmSize (wopcmSizeOverride g).
Definition overrideWOPCMSize (wopcmSize : Z) (g : GpuSizes) : GpuSizes :=
  mkGpuSizes (getWOPCMDefaultSize g) (getGSMSize g) (dsmSizeOverride g) wopcmSize.

Definition getWOPCMSize (g : GpuSizes) : Z :=
  if negb (wopcmSizeOverride g =? 0) then wopcmSizeOverride g else getWOPCMDefaultSize g.
Definition getDSMDefaultSize (g : GpuSizes) : Z := getWOPCMSize g.
Definition getDSMSize (g : GpuSizes) : Z :=
  if negb (dsmSizeOverride g =? 0) then dsmSizeOverride g else getDSMDefaultSize g.

Definition getFlatCCSSize (memoryBankSize : Z) : Z := alignUp (memoryBankSize / 256) 20.
Definition getStolenMemorySize (g : GpuSizes) (memoryBankSize : Z) : Z :=
  u64 (getFlatCCSSize memoryBankSize + getGSMSize g + getDSMSize g).

Definition isValidDataStolenMemorySize (dataStolenMemorySize : Z) : bool :=
  let mask1MB := 2 ^ 20 - 1 in
  if negb (Z.land dataStolenMemorySize mask1MB =? 0) then false
  else if 2 * 1024 * 1024 * 1024 <? dataStolenMemorySize then false
  else true.

(** The base addresses; [s] is the object [stolenMemory] points to. *)
Definition getDSMBaseAddress (g : GpuSizes) (s : StolenMemory) (device : Z) : option Z :=
  base ← getBaseAddress s device; mret (u64 (base + stolenSize s - getDSMSize g)).
Definition getWOPCMBaseAddress (g : GpuSizes) (s : StolenMemory) (device : Z) : option Z :=
  dsm ← getDSMBaseAddress g s device; mret (u64 (dsm + getDSMSize g - getWOPCMSize g)).
Definition getGSMBaseAddress (g : GpuSizes) (s : StolenMemory) (device : Z) : option Z :=
  dsm ← getDSMBaseAddress g s device; mret (u64 (dsm - getGSMSize g)).

(** ** Engines and global MMIO *)

(** [std::find] on the vector of supported engines. *)
Definition isEngineSupported (supportedEngines : list Z) (engine : Z) : bool :=
  bool_decide (engine ∈ supportedEngines).

(** [initializeGlobalMMIO]: the pairs written, in order, with the default mask. *)
Definition initializeGlobalMMIO (globalMMIO globalMMIOPlatformSpecific : list (Z * Z))
    : list (Z * Z * Z) :=
  map (fun p => (p, 0xffffffff)) globalMMIO
  ++ map (fun p => (p, 0xffffffff)) globalMMIOPlatformSpecific.

(** [injectMMIOs]: the injected list, once per device at its MMIO offset. *)
Fixpoint injectFrom (n : nat) (mmioDevice : Z) (MMIOListInjected : list (Z * Z * Z))
    : list (Z * Z * Z) :=
  match n with
  | O => []
  | S n' =>
      map (fun m : Z * Z * Z => (u32 (mmioDevice + m.1.1), m.1.2, m.2)) MMIOListInjected
      ++ injectFrom n' (u32 (mmioDevice + mmioDeviceOffset)) MMIOListInjected
  end.
Definition injectMMIOs (MMIOListInjected : list (Z * Z * Z)) (devicesCount : Z)
    : list (Z * Z * Z) :=
  injectFrom (Z.to_nat devicesCount) 0 MMIOListInjected.

(** ** The layout of the stolen memory *)

Lemma u32_succ device : 0 <= device < 2 ^ 32 - 1 -> u32 (device + 1) = device + 1.
Proof. intros. apply wrap_small. unfold in_width. lia. Qed.

(** What [CreateStolenMemory] accepts, away from 64-bit overflow: the stolen
    memory of a device of a GPU. *)
Record stolenConfig (g : GpuSizes) (memoryBankSize device : Z) (s : StolenMemory) : Prop := {
  sc_create : CreateStolenMemory (fun _ _ _ => 0) false (device + 1) memoryBankSize
                (getStolenMemorySize g memoryBankSize) = Some s;
  sc_device : 0 <= device < 2 ^ 32 - 1;
  sc_bank : 0 <= memoryBankSize /\ memoryBankSize * (device + 1) < 2 ^ 63;
  sc_align : (2 ^ 20 | memoryBankSize);
  sc_gsm : (2 ^ 20 | getGSMSize g) /\ 0 <= getGSMSize g < 2 ^ 60;
  sc_dsm : isValidDataStolenMemorySize (getDSMSize g) = true /\ 0 <= getDSMSize g;
  sc_wopcm : 0 <= getWOPCMSize g <= getDSMSize g
}.

Lemma isValidDataStolenMemorySize_spec n :
  isValidDataStolenMemorySize n = true <-> (2 ^ 20 | n) /\ n <= 2 ^ 31.
Proof.
  unfold isValidDataStolenMemorySize. rewrite land_low_mod by lia.
  change (2 * 1024 * 1024 * 1024) with (2 ^ 31).
  destruct (Z.eqb_spec (n mod 2 ^ 20) 0) as [H|H]; simpl.
  - destruct (Z.ltb_spec (2 ^ 31) n); split; intros; try (done || lia).
    split; [by apply Z.mod_divide|lia].
  - split; [done|]. intros [Hd _]. apply Z.mod_divide in Hd; lia.
Qed.

Lemma getFlatCCSSize_spec b :
  0 <= b < 2 ^ 63 -> (2 ^ 20 | getFlatCCSSize b) /\ b / 256 <= getFlatCCSSize b < b / 256 + 2 ^ 20.
Proof.
  intros Hb. assert (0 <= b / 256 < 2 ^ 55) by dlia.
  apply (alignUp_spec (b / 256) 20); lia.
Qed.

(** With a bank that is a multiple of 1MB, the alignment of the base address
    changes nothing. *)
Lemma static_base g bank device s :
  stolenConfig g bank device s ->
  let n := getFlatCCSSize bank + getGSMSize g + getDSMSize g in
  stolenSize s = n /\ 0 <= n <= bank
  /\ getBaseAddress s device = Some (bank * (device + 1) - n).
Proof.
  intros [Hc Hd Hb Hal [Hga Hg] [Hv Hds] Hw] n.
  apply isValidDataStolenMemorySize_spec in Hv as [Hda Hd31].
  destruct (getFlatCCSSize_spec bank) as [Hfa Hf]; [nia|].
  assert (Hn : (2 ^ 20 | n)) by (subst n; apply Z.divide_add_r; [by apply Z.divide_add_r|done]).
  assert (Hsz : getStolenMemorySize g bank = n).
  { apply wrap_small. unfold in_width. subst n. assert (0 <= bank / 256 < 2 ^ 55) by dlia. lia. }
  unfold CreateStolenMemory in Hc. rewrite Hsz in Hc.
  destruct (Z.ltb_spec bank n); [done|]. injection Hc as <-.
  assert (0 <= n) by (subst n; assert (0 <= bank / 256) by (apply Z.div_pos; lia); lia).
  split_and!; [done|done|lia|]. cbn [getBaseAddress]. f_equal.
  rewrite u32_succ by lia. assert (0 <= bank * device) by (apply Z.mul_nonneg_nonneg; lia).
  rewrite (wrap_small 64 (bank * (device + 1))) by (unfold in_width; lia).
  rewrite (wrap_small 64) by (unfold in_width; lia).
  unfold alignDown. rewrite shl1_pow2, clear_low_mod by lia.
  assert ((bank * (device + 1) - n) mod 2 ^ 20 = 0) as ->; [|lia].
  apply Z.mod_divide; [lia|]. apply Z.divide_sub_r; [by apply Z.divide_mul_l|done].
Qed.

(** C36: The regions of the stolen memory of a device lie in the device's memory
    bank and above its flat CCS buffer: the global table, 1MB aligned, directly
    below the data stolen memory, which ends with the WOPCM at the bank's top. *)
Theorem stolen_memory_layout g bank device s :
  stolenConfig g bank device s ->
  exists gsm dsm wopcm,
    getGSMBaseAddress g s device = Some gsm
    /\ getDSMBaseAddress g s device = Some dsm
    /\ getWOPCMBaseAddress g s device = Some wopcm
    /\ bank * device + getFlatCCSSize bank <= gsm /\ (2 ^ 20 | gsm)
    /\ gsm + getGSMSize g = dsm
    /\ dsm <= wopcm /\ wopcm + getWOPCMSize g = bank * (device + 1).
Proof.
  intros Hs. pose proof (static_base _ _ _ _ Hs) as (Hsz & Hn & Hbase).
  destruct Hs as [_ Hd Hb Hal [Hga Hg] [Hv Hds] Hw].
  apply isValidDataStolenMemorySize_spec in Hv as [Hda Hd31].
  assert (0 <= bank * device) by (apply Z.mul_nonneg_nonneg; lia).
  pose proof (getFlatCCSSize_spec bank ltac:(lia)) as [Hfa Hf].
  assert (0 <= bank / 256) by (apply Z.div_pos; lia).
  set (top := bank * (device + 1)) in *.
  assert (Hdsm : getDSMBaseAddress g s device = Some (top - getDSMSize g)).
  { unfold getDSMBaseAddress. rewrite Hbase, Hsz. cbn. f_equal.
    rewrite wrap_small; [lia|unfold in_width; lia]. }
  exists (top - getDSMSize g - getGSMSize g), (top - getDSMSize g), (top - getWOPCMSize g).
  split_and!; try lia.
  - unfold getGSMBaseAddress. rewrite Hdsm. cbn. f_equal. apply wrap_small. unfold in_width. lia.
  - done.
  - unfold getWOPCMBaseAddress. rewrite Hdsm. cbn. f_equal.
    rewrite wrap_small; [lia|unfold in_width; lia].
  - repeat apply Z.divide_sub_r; try done. by apply Z.divide_mul_l.
Qed.

(** A 2GB bank and the second device. *)
Lemma stolen_memory_layout_witness :
  exists s, stolenConfig baseGpuSizes (2 ^ 31) 1 s /\
  exists gsm dsm wopcm,
    getGSMBaseAddress baseGpuSizes s 1 = Some gsm
    /\ getDSMBaseAddress baseGpuSizes s 1 = Some dsm
    /\ getWOPCMBaseAddress baseGpuSizes s 1 = Some wopcm
    /\ 2 ^ 31 * 1 + getFlatCCSSize (2 ^ 31) <= gsm /\ (2 ^ 20 | gsm)
    /\ gsm + getGSMSize baseGpuSizes = dsm
    /\ dsm <= wopcm /\ wopcm + getWOPCMSize baseGpuSizes = 2 ^ 31 * (1 + 1).
Proof.
  assert (H : stolenConfig baseGpuSizes (2 ^ 31) 1
                (StolenMemoryInStaticStorage (2 ^ 31) 25165824)).
  { split; split_and?; try (vm_compute; intuition congruence); by apply Z.mod_divide. }
  eexists. split; [exact H|]. exact (stolen_memory_layout _ _ _ _ H).
Defined.
