(* ===== verification/PageTable.v ===== *)
(** * Page table objects

    [page_table.h], [page_table.cpp] and [page_table_pml5.h]. A [PageTable *] is a
    location of the heap; an object keeps its dynamic class, so that the virtual
    functions ([getIndex], [getEntryValue], [getPageSize], [allocateChild]) are
    functions of that class. The allocator is behind the interface
    [PhysicalAddressAllocator]; the two virtual functions of [Gpu] the tables call
    are the record [GpuOps]. *)

From S2P Require Import Prelude Allocator MemoryBanks.
#[local] Open Scope Z_scope.

(** ** allocation_params.h, page_info.h, page_table_walker.h: plain data *)

Record AdditionalParams := mkAdditionalParams {
  compressionEnabled : bool;
  uncached : bool
}.
Definition noParams : AdditionalParams := mkAdditionalParams false false.

(** [memory] is [nullptr] or the bytes at the source pointer. *)
Record AllocationParams := mkAllocationParams {
  gfxAddress : Z;
  memory : option (list Z);
  size : Z;
  memoryBanks : Z;
  hint : Z;
  pageSize : Z;
  additionalParams : AdditionalParams
}.

Record PageInfo := mkPageInfo {
  pi_physicalAddress : Z;
  pi_size : Z;
  pi_isLocalMemory : bool;
  pi_memoryBank : Z
}.

Record PageEntryInfo := mkPageEntryInfo {
  pe_physicalAddress : Z;
  pe_tableEntry : Z
}.

(** ** Levels and classes *)

Module PageTableLevel.
Definition Pte : Z := 0.
Definition Pde : Z := 1.
Definition Pdp : Z := 2.
Definition Pml4 : Z := 3.
Definition Pml5 : Z := 4.
End PageTableLevel.

(** The concrete classes of the hierarchy; the [Legacy] variants differ in the
    64KB page table they allocate. *)
Inductive PageTableClass :=
| PageTableMemory
| Page2MB
| PTE4KB | PTE64KB | LegacyPTE64KB
| PDE | LegacyPDE
| PDP | LegacyPDP
| PDP4 | LegacyPDP4
| PML4 | LegacyPML4
| PML5
| GGTTClass.

#[export] Instance PageTableClass_eq_dec : EqDecision PageTableClass.
Proof. solve_decision. Defined.

Definition pageSize2MB : Z := 2 * 1024 * 1024.

Definition loc := positive.

Record PageTable := mkPageTable {
  cls : PageTableClass;
  allocator : bool;  (* the allocator pointer is not null *)
  additionalAllocParams : AdditionalParams;
  physicalAddress : Z;
  memoryBank : Z;
  table : list (option loc);
  ps64 : bool;
  pendingWrite : bool;
  numAddressBits : Z;
  numLevels : Z
}.

Definition isLocalMemory (p : PageTable) : bool := negb (memoryBank p =? 0).

Definition getPageSize (c : PageTableClass) : Z :=
  match c with
  | LegacyPTE64KB | PTE64KB => 65536
  | PTE4KB | GGTTClass => 4096
  | Page2MB => pageSize2MB
  | _ => 0
  end.

Definition getIndex (c : PageTableClass) (gfxAddress : Z) : Z :=
  match c with
  | LegacyPTE64KB => Z.land (Z.shiftr gfxAddress 12) 0x1f0
  | PTE64KB => Z.land (Z.shiftr gfxAddress 16) 0x1f
  | PTE4KB => Z.land (Z.shiftr gfxAddress 12) 0x1ff
  | PDE | LegacyPDE => Z.land (Z.shiftr gfxAddress 21) 0x1ff
  | PDP | LegacyPDP => Z.land (Z.shiftr gfxAddress 30) 0x1ff
  | PML4 | LegacyPML4 => Z.land (Z.shiftr gfxAddress 39) 0x1ff
  | PML5 => Z.land (Z.shiftr gfxAddress 48) 0x1ff
  | PDP4 | LegacyPDP4 => Z.land (Z.shiftr gfxAddress 30) 0x3
  | GGTTClass => Z.shiftr (u32 gfxAddress) 12
  | PageTableMemory | Page2MB => 0
  end.

(** The [numAddressBits] and [numLevels] the constructors set. *)
Definition ctorAddressBits (c : PageTableClass) : Z :=
  match c with
  | PML4 | LegacyPML4 => 48
  | PDP4 | LegacyPDP4 | GGTTClass => 32
  | PML5 => 57
  | _ => 0
  end.

Definition ctorLevels (c : PageTableClass) : Z :=
  match c with
  | PML4 | LegacyPML4 => 4
  | PDP4 | LegacyPDP4 => 3
  | PML5 => 5
  | GGTTClass => 1
  | _ => 0
  end.

(** [table[index]], [nullptr] past the end of the vector. *)
Definition tableChild (t : list (option loc)) (index : Z) : option loc :=
  match t !! Z.to_nat index with
  | Some c => c
  | None => None
  end.

(** [if (table.size() <= index) table.resize(index + 1); table[index] = child;] *)
Definition tableSet (index : Z) (child : option loc) (t : list (option loc))
    : list (option loc) :=
  let i := Z.to_nat index in
  <[i := child]> (if (length t <=? i)%nat then resize (S i) None t else t).

Definition isEmpty (p : PageTable) : bool :=
  forallb (fun entry : option loc => match entry with Some _ => false | None => true end)
    (table p).

Definition set_table (t : list (option loc)) (p : PageTable) : PageTable :=
  mkPageTable (cls p) (allocator p) (additionalAllocParams p) (physicalAddress p)
    (memoryBank p) t (ps64 p) (pendingWrite p) (numAddressBits p) (numLevels p).

Definition set_physicalAddress (a : Z) (p : PageTable) : PageTable :=
  mkPageTable (cls p) (allocator p) (additionalAllocParams p) a
    (memoryBank p) (table p) (ps64 p) (pendingWrite p) (numAddressBits p) (numLevels p).

Definition set_memoryBank (b : Z) (p : PageTable) : PageTable :=
  mkPageTable (cls p) (allocator p) (additionalAllocParams p) (physicalAddress p)
    b (table p) (ps64 p) (pendingWrite p) (numAddressBits p) (numLevels p).

Definition set_ps64 (b : bool) (p : PageTable) : PageTable :=
  mkPageTable (cls p) (allocator p) (additionalAllocParams p) (physicalAddress p)
    (memoryBank p) (table p) b (pendingWrite p) (numAddressBits p) (numLevels p).

Definition set_pendingWrite (b : bool) (p : PageTable) : PageTable :=
  mkPageTable (cls p) (allocator p) (additionalAllocParams p) (physicalAddress p)
    (memoryBank p) (table p) (ps64 p) b (numAddressBits p) (numLevels p).

Lemma length_tableSet index child t :
  length (tableSet index child t) = Nat.max (length t) (S (Z.to_nat index)).
Proof.
  unfold tableSet. rewrite length_insert.
  destruct (Nat.leb_spec (length t) (Z.to_nat index)); rewrite ?length_resize; lia.
Qed.

Lemma tableChild_tableSet index index' child t :
  0 <= index -> 0 <= index' ->
  tableChild (tableSet index child t) index' =
    if decide (index' = index) then child else tableChild t index'.
Proof.
  intros Hi Hi'. unfold tableChild, tableSet.
  destruct (Nat.leb_spec (length t) (Z.to_nat index)) as [Hle|Hlt].
  - destruct (decide (index' = index)) as [->|Hne].
    + rewrite list_lookup_insert_eq; [done|]. rewrite length_resize. lia.
    + rewrite list_lookup_insert_ne by lia.
      destruct (decide (Z.to_nat index' < S (Z.to_nat index))%nat) as [Hin|Hout].
      * destruct (decide (Z.to_nat index' < length t)%nat).
        -- by rewrite lookup_resize_old by lia.
        -- rewrite lookup_resize_new by lia. by rewrite lookup_ge_None_2 by lia.
      * rewrite !lookup_ge_None_2; [done|lia|rewrite length_resize; lia].
  - destruct (decide (index' = index)) as [->|Hne].
    + by rewrite list_lookup_insert_eq by lia.
    + by rewrite list_lookup_insert_ne by lia.
Qed.

Lemma getIndex_nonneg c a : 0 <= a -> 0 <= getIndex c a.
Proof.
  intros Ha.
  destruct c; cbn [getIndex]; try lia; try (apply Z.land_nonneg; right; lia).
  apply Z.shiftr_nonneg. apply (wrap_range 32). lia.
Qed.

(** ** gpu.h: the two virtual functions the tables and the walker call *)

Record GpuOps := mkGpuOps {
  isMemorySupported : Z -> Z -> bool;
  getPPGTTExtraEntryBits : AdditionalParams -> Z
}.

(** ** The object store

    Locations are never reused, so that a pointer kept after a [delete] is seen
    as such. *)

Record Store (A : Type) := mkStore {
  heap : gmap loc PageTable;
  nextLoc : loc;
  allocSt : A
}.
Arguments mkStore {A}.
Arguments heap {A}.
Arguments nextLoc {A}.
Arguments allocSt {A}.

Definition set_heap {A} (h : gmap loc PageTable) (s : Store A) : Store A :=
  mkStore h (nextLoc s) (allocSt s).

Section Objects.
Context {A : Type} `{!PhysicalAddressAllocator A}.
Variable ndebug : bool.
Variable gpu : GpuOps.

(** [*p] for a pointer known not to be null. *)
Definition deref (l : loc) : M (Store A) PageTable :=
  fun s => match heap s !! l with
           | Some p => Ok (p, s)
           | None => Err UseAfterFree
           end.

(** [p->...] *)
Definition derefPtr (o : option loc) : M (Store A) PageTable :=
  match o with
  | Some l => deref l
  | None => fail NullDereference
  end.

Definition update (l : loc) (f : PageTable -> PageTable) : M (Store A) unit :=
  p ← deref l;
  modify (fun s => set_heap (<[l := f p]> (heap s)) s).

Definition newObject (p : PageTable) : M (Store A) loc :=
  fun s => Ok (nextLoc s,
               mkStore (<[nextLoc s := p]> (heap s)) (Pos.succ (nextLoc s)) (allocSt s)).

Definition onAllocator {B} (m : M A B) : M (Store A) B :=
  fun s => match m (allocSt s) with
           | Ok (b, a) => Ok (b, mkStore (heap s) (nextLoc s) a)
           | Err e => Err e
           end.

Definition getChild (l : loc) (index : Z) : M (Store A) (option loc) :=
  p ← deref l; mret (tableChild (table p) index).

Definition setChild (l : loc) (index : Z) (child : option loc) : M (Store A) unit :=
  update l (fun p => set_table (tableSet index child (table p)) p).

(** [PageTable(gpu, allocator, size, tableCount, memoryBank[, params])]: the
    base constructor; [tableCount] is not used by it. *)
Definition ctorReserve (c : PageTableClass) (alloc : bool) (size bank : Z)
    (params : AdditionalParams) : M (Store A) loc :=
  phys ← (if size =? 0 then mret 0
          else if alloc then
            let size := Z.max size 4096 in
            onAllocator (reservePhysicalMemory bank size size)
          else fail NullDereference);
  newObject (mkPageTable c alloc params phys bank [] false false
               (ctorAddressBits c) (ctorLevels c)).

(** [PageTable(gpu, physicalAddress, memoryBank[, params])], with the alignment
    assertion of [Page2MB]. *)
Definition ctorAt (c : PageTableClass) (phys bank : Z) (params : AdditionalParams)
    : M (Store A) loc :=
  match c with
  | Page2MB => cassert ndebug (Z.land phys (pageSize2MB - 1) =? 0)
  | _ => mret tt
  end ≫= fun _ =>
  newObject (mkPageTable c false params phys bank [] false false
               (ctorAddressBits c) (ctorLevels c)).

(** The size each table class passes to the base constructor. *)
Definition ctorSize (c : PageTableClass) : Z :=
  match c with
  | Page2MB => pageSize2MB
  | PDP4 | LegacyPDP4 | GGTTClass | PageTableMemory => 0
  | _ => 4096
  end.

(** The classes an interior table allocates as children. *)
Definition childClass (c : PageTableClass) (pageSize : Z) : option PageTableClass :=
  match c with
  | PDE => Some (if pageSize =? pageSize2MB then Page2MB
                 else if pageSize =? 65536 then PTE64KB else PTE4KB)
  | LegacyPDE => Some (if pageSize =? pageSize2MB then Page2MB
                       else if pageSize =? 65536 then LegacyPTE64KB else PTE4KB)
  | PDP | PDP4 => Some PDE
  | LegacyPDP | LegacyPDP4 => Some LegacyPDE
  | PML4 => Some PDP
  | LegacyPML4 => Some LegacyPDP
  | PML5 => Some PML4
  | _ => None
  end.

Definition isPTE (c : PageTableClass) : bool :=
  match c with PTE4KB | PTE64KB | LegacyPTE64KB => true | _ => false end.
Definition isPDE (c : PageTableClass) : bool :=
  match c with PDE | LegacyPDE => true | _ => false end.

(** [allocateChild(gpu, pageSize, bank)]; a 2MB leaf may have another bank
    than its parent. *)
Definition allocateChild (parent : loc) (pageSize bank : Z) : M (Store A) (option loc) :=
  p ← deref parent;
  if isPTE (cls p) then
    c ← ctorReserve PageTableMemory (allocator p) pageSize bank noParams; mret (Some c)
  else match cls p, childClass (cls p) pageSize with
  | GGTTClass, _ =>
      cassert ndebug (bank =? memoryBank p) ≫= fun _ =>
      c ← ctorReserve PageTableMemory (allocator p) pageSize bank noParams; mret (Some c)
  | _, Some cc =>
      (if isPDE (cls p) && (pageSize =? pageSize2MB) then mret tt
       else cassert ndebug (bank =? memoryBank p)) ≫= fun _ =>
      c ← ctorReserve cc (allocator p) (ctorSize cc) bank noParams; mret (Some c)
  | _, None => mret None
  end.

(** [allocateChild(gpu, pageSize, bank, params)]: overridden by the page
    tables and page directories only. *)
Definition allocateChildParams (parent : loc) (pageSize bank : Z)
    (params : AdditionalParams) : M (Store A) (option loc) :=
  p ← deref parent;
  if isPTE (cls p) then
    c ← ctorReserve PageTableMemory (allocator p) pageSize bank params; mret (Some c)
  else if isPDE (cls p) then
    if pageSize =? pageSize2MB then
      c ← ctorReserve Page2MB (allocator p) pageSize2MB bank params; mret (Some c)
    else cassert ndebug (bank =? memoryBank p) ≫= fun _ => allocateChild parent pageSize bank
  else mret None.

(** [allocateChild(gpu, pageSize, bank, params, physicalAddress)]. *)
Definition allocateChildAt (parent : loc) (pageSize bank : Z)
    (params : AdditionalParams) (phys : Z) : M (Store A) (option loc) :=
  p ← deref parent;
  if isPTE (cls p) then
    c ← ctorAt PageTableMemory phys bank params; mret (Some c)
  else if isPDE (cls p) then
    if pageSize =? pageSize2MB then
      c ← ctorAt Page2MB phys bank params; mret (Some c)
    else cassert ndebug (bank =? memoryBank p) ≫= fun _ => allocateChild parent pageSize bank
  else mret None.

(** The constructors of the root tables: [PML5], [PML4], [PDP4] and [GGTT];
    [PDP4] allocates its four children. *)
Definition newRoot (c : PageTableClass) (alloc : bool) (bank : Z) : M (Store A) loc :=
  l ← ctorReserve c alloc (ctorSize c) bank noParams;
  match c with
  | PDP4 | LegacyPDP4 =>
      mapM_ (fun i => ch ← allocateChild l 4096 bank; setChild l i ch) [0; 1; 2; 3]
  | _ => mret tt
  end ≫= fun _ => mret l.

(** [getEntryValue()], by dynamic class. *)
Definition getEntryValueOf (p : PageTable) : M (Store A) Z :=
  let rw := [PpgttEntryBits.writableBit; PpgttEntryBits.presentBit] in
  match cls p with
  | PageTableMemory | GGTTClass =>
      let bits := toBitValue rw in
      let bits := Z.lor bits (if isLocalMemory p
                              then toBitValue [PpgttEntryBits.localMemoryBit] else 0) in
      let bits := Z.lor bits (if ps64 p then toBitValue [PpgttEntryBits.ps64Bit] else 0) in
      let bits := Z.lor bits (getPPGTTExtraEntryBits gpu (additionalAllocParams p)) in
      mret (Z.lor (physicalAddress p) bits)
  | Page2MB =>
      cassert ndebug (Z.land (physicalAddress p) (pageSize2MB - 1) =? 0) ≫= fun _ =>
      let bits := toBitValue (PpgttEntryBits.largePageSizeBit :: rw) in
      let bits := Z.lor bits (if isLocalMemory p
                              then toBitValue [PpgttEntryBits.localMemoryBit] else 0) in
      let bits := Z.lor bits (getPPGTTExtraEntryBits gpu (additionalAllocParams p)) in
      mret (Z.lor (physicalAddress p) bits)
  | LegacyPTE64KB =>
      mret (Z.lor (physicalAddress p)
                  (toBitValue (PpgttEntryBits.legacyIntermediatePageSizeBit :: rw)))
  | PTE64KB =>
      mret (Z.lor (physicalAddress p)
                  (toBitValue (PpgttEntryBits.intermediatePageSizeBit :: rw)))
  | _ => mret (Z.lor (physicalAddress p) (toBitValue rw))
  end.

Definition getEntryValue (l : loc) : M (Store A) Z :=
  p ← deref l; getEntryValueOf p.

(** [delete p]: the destructor frees the object's own memory, then deletes its
    children in index order. The fuel bounds the depth of the tree. *)
Fixpoint deleteTable (fuel : nat) (o : option loc) : M (Store A) unit :=
  match fuel, o with
  | _, None => mret tt
  | O, _ => fail OutOfFuel
  | S fuel', Some l =>
      fun s => match heap s !! l with
      | None => Err DoubleFree
      | Some p =>
          (modify (fun s => set_heap (delete l (heap s)) s) ≫= fun _ =>
           when (allocator p)
             (onAllocator (freePhysicalMemory (memoryBank p) (physicalAddress p))) ≫= fun _ =>
           mapM_ (deleteTable fuel') (table p)) s
      end
  end.
End Objects.

(** ** GGTT: the global table's own fields *)

Record GGTT := mkGGTT {
  ggtt_table : loc;
  entryOffset : Z;
  gfxAddressAllocator : SimpleAllocator.t;
  gttTableOffset : Z
}.

(** The constructor's loop [while (memoryBank && !(memoryBank & 1))]; a 32-bit
    bank is shifted at most 31 times. *)
Fixpoint bankEntryOffset (fuel : nat) (memoryBank offset : Z) : option Z :=
  if negb (memoryBank =? 0) && (Z.land memoryBank 1 =? 0) then
    match fuel with
    | O => None
    | S fuel' => bankEntryOffset fuel' (Z.shiftr memoryBank 1) (u64 (offset + 0x1000000))
    end
  else Some offset.

Definition newGGTT {A} `{!PhysicalAddressAllocator A} (ndebug : bool) (alloc : bool)
    (bank gttBaseAddress : Z) : M (Store A) GGTT :=
  l ← newRoot ndebug GGTTClass alloc bank;
  cassert ndebug ((bank =? 0) || (Z.land bank (u32 (bank - 1)) =? 0)) ≫= fun _ =>
  off ← from_option_M OutOfFuel (bankEntryOffset 32 bank 0);
  mret (mkGGTT l off (SimpleAllocator.init 0) gttBaseAddress).
