(* ===== verification/TableTheory.v ===== *)
(** * Well-formed table trees

    The invariant of the object store, the reference translation (what the
    hardware computes from the tables), the extension order along which walks
    move, and the specification of each operation of [PageTable.v]. *)

From S2P Require Import Prelude Allocator MemoryBanks PageTable.
#[local] Open Scope Z_scope.

(** ** Shape of the hierarchy *)

Definition classLevel (c : PageTableClass) : Z :=
  match c with
  | PTE4KB | PTE64KB | LegacyPTE64KB | GGTTClass => 0
  | PDE | LegacyPDE => 1
  | PDP | LegacyPDP | PDP4 | LegacyPDP4 => 2
  | PML4 | LegacyPML4 => 3
  | PML5 => 4
  | PageTableMemory | Page2MB => -1
  end.

Definition childOk (parent child : PageTableClass) : bool :=
  match parent, child with
  | (PTE4KB | PTE64KB | LegacyPTE64KB | GGTTClass), PageTableMemory => true
  | PDE, (Page2MB | PTE4KB | PTE64KB) => true
  | LegacyPDE, (Page2MB | PTE4KB | LegacyPTE64KB) => true
  | (PDP | PDP4), PDE => true
  | (LegacyPDP | LegacyPDP4), LegacyPDE => true
  | PML4, PDP => true
  | LegacyPML4, LegacyPDP => true
  | PML5, PML4 => true
  | _, _ => false
  end.

Lemma childOk_level parent child :
  childOk parent child = true ->
  0 <= classLevel parent
  /\ (child = Page2MB /\ classLevel parent = 1 \/ classLevel child = classLevel parent - 1).
Proof. destruct parent, child; simpl; intros H; try done; (split; [lia|]); auto. Qed.

Lemma childOk_leaf parent child :
  childOk parent child = true -> classLevel parent = 0 -> child = PageTableMemory.
Proof. by destruct parent, child. Qed.

Lemma childOk_upper parent child :
  childOk parent child = true -> classLevel parent <> 1 -> child <> Page2MB.
Proof. by destruct parent, child. Qed.

Lemma getPageSize_pte c :
  classLevel c = 0 -> getPageSize c = 4096 \/ getPageSize c = 65536.
Proof. destruct c; simpl; try lia; auto. Qed.

Lemma getPageSize_2MB c : getPageSize c = pageSize2MB <-> c = Page2MB.
Proof. by destruct c. Qed.

Definition child (p : PageTable) (a : Z) : option loc :=
  tableChild (table p) (getIndex (cls p) a).

(** The value [getEntryValue] returns when its assertion holds. *)
Definition entryValue (gpu : GpuOps) (p : PageTable) : Z :=
  let rw := [PpgttEntryBits.writableBit; PpgttEntryBits.presentBit] in
  let lm := if isLocalMemory p then toBitValue [PpgttEntryBits.localMemoryBit] else 0 in
  let extra := getPPGTTExtraEntryBits gpu (additionalAllocParams p) in
  Z.lor (physicalAddress p)
    match cls p with
    | PageTableMemory | GGTTClass =>
        Z.lor (Z.lor (Z.lor (toBitValue rw) lm)
                 (if ps64 p then toBitValue [PpgttEntryBits.ps64Bit] else 0)) extra
    | Page2MB =>
        Z.lor (Z.lor (toBitValue (PpgttEntryBits.largePageSizeBit :: rw)) lm) extra
    | LegacyPTE64KB => toBitValue (PpgttEntryBits.legacyIntermediatePageSizeBit :: rw)
    | PTE64KB => toBitValue (PpgttEntryBits.intermediatePageSizeBit :: rw)
    | _ => toBitValue rw
    end.

(** ** Reference translation

    The leaf for an address, with the size of its page: the walk of the hardware,
    [n] levels below the table [l]. *)

Fixpoint lookupLeaf (n : nat) (h : gmap loc PageTable) (l : loc) (a : Z)
    : option (loc * Z) :=
  match n with
  | O => None
  | S n' =>
      match h !! l with
      | None => None
      | Some p =>
          match child p a with
          | None => None
          | Some c =>
              match n' with
              | O => Some (c, getPageSize (cls p))
              | S _ =>
                  match h !! c with
                  | None => None
                  | Some pc =>
                      if decide (cls pc = Page2MB) then Some (c, pageSize2MB)
                      else lookupLeaf n' h c a
                  end
              end
          end
      end
  end.

Definition translate (n : nat) (h : gmap loc PageTable) (l : loc) (a : Z) : option Z :=
  match lookupLeaf n h l a with
  | Some (c, sz) =>
      match h !! c with
      | Some p => Some (u64 (physicalAddress p + a mod sz))
      | None => None
      end
  | None => None
  end.

(** ** Extension: what a walk without explicit physical address may change *)

Definition static (p p' : PageTable) : Prop :=
  cls p' = cls p /\ allocator p' = allocator p
  /\ additionalAllocParams p' = additionalAllocParams p
  /\ physicalAddress p' = physicalAddress p /\ memoryBank p' = memoryBank p
  /\ numAddressBits p' = numAddressBits p /\ numLevels p' = numLevels p.

Definition ext (h h' : gmap loc PageTable) : Prop :=
  forall l p, h !! l = Some p -> exists p', h' !! l = Some p' /\ static p p'
    /\ forall i c, tableChild (table p) i = Some c -> tableChild (table p') i = Some c.

Lemma static_refl p : static p p.
Proof. by split_and!. Qed.

Lemma static_trans p q r : static p q -> static q r -> static p r.
Proof. unfold static. intros; destruct_and!; split_and!; by etrans. Qed.

#[export] Instance ext_preorder : PreOrder ext.
Proof.
  split.
  - intros h l p Hl. exists p. split_and!; auto using static_refl.
  - intros h1 h2 h3 H12 H23 l p Hl.
    destruct (H12 l p Hl) as (p2 & Hl2 & Hs2 & Ht2).
    destruct (H23 l p2 Hl2) as (p3 & Hl3 & Hs3 & Ht3).
    exists p3. split_and!; eauto using static_trans.
Qed.

Lemma ext_lookup h h' l p :
  ext h h' -> h !! l = Some p ->
  exists p', h' !! l = Some p' /\ static p p'
    /\ (forall i c, tableChild (table p) i = Some c -> tableChild (table p') i = Some c).
Proof. intros H Hl. by apply H. Qed.

Lemma child_ext p p' a c :
  static p p' ->
  (forall i c, tableChild (table p) i = Some c -> tableChild (table p') i = Some c) ->
  child p a = Some c -> child p' a = Some c.
Proof. unfold child. intros (-> & _) Ht Hc. by apply Ht. Qed.

Lemma lookupLeaf_ext n : forall h h' l a r,
  ext h h' -> lookupLeaf n h l a = Some r -> lookupLeaf n h' l a = Some r.
Proof.
  induction n as [|n IH]; intros h h' l a r Hx; [done|].
  cbn [lookupLeaf]. destruct (h !! l) as [p|] eqn:Hl; [|done].
  destruct (ext_lookup _ _ _ _ Hx Hl) as (p' & -> & Hs & Ht).
  destruct (child p a) as [c|] eqn:Hc; [|done].
  rewrite (child_ext _ _ _ _ Hs Ht Hc). destruct n as [|n].
  - destruct Hs as (-> & _). done.
  - destruct (h !! c) as [pc|] eqn:Hpc; [|done].
    destruct (ext_lookup _ _ _ _ Hx Hpc) as (pc' & -> & (-> & _) & _).
    case_decide; [done|]. apply IH, Hx.
Qed.

(** ** The invariant *)

Section Invariant.
Context {A : Type} `{!PhysicalAddressAllocator A} `{!AllocatorLaws A}.

Record wfNode (h : gmap loc PageTable) (p : PageTable) : Prop := {
  wf_children : forall i c, tableChild (table p) i = Some c ->
    exists pc, h !! c = Some pc /\ childOk (cls p) (cls pc) = true;
  wf_allocator : 0 <= classLevel (cls p) -> allocator p = true /\ valid_bank (memoryBank p);
  wf_aligned : cls p = Page2MB -> Z.land (physicalAddress p) (pageSize2MB - 1) = 0
}.

Record wf (s : Store A) : Prop := {
  wf_fresh : forall l p, heap s !! l = Some p -> (l < nextLoc s)%positive;
  wf_alloc : alloc_inv (allocSt s);
  wf_node : forall l p, heap s !! l = Some p -> wfNode (heap s) p
}.

Lemma wf_next s : wf s -> heap s !! nextLoc s = None.
Proof.
  intros Hwf. destruct (heap s !! nextLoc s) eqn:E; [|done].
  apply (wf_fresh _ Hwf) in E. lia.
Qed.

Lemma wf_child s l p a c :
  wf s -> heap s !! l = Some p -> child p a = Some c ->
  exists pc, heap s !! c = Some pc /\ childOk (cls p) (cls pc) = true.
Proof. intros Hwf Hl Hc. exact (wf_children _ _ (wf_node _ Hwf _ _ Hl) _ _ Hc). Qed.

Lemma wfNode_ext h h' p : ext h h' -> wfNode h p -> wfNode h' p.
Proof.
  intros Hx [Hc Ha Hal]. split; [|done|done]. intros i c Hi.
  destruct (Hc i c Hi) as (pc & Hpc & Hok).
  destruct (ext_lookup _ _ _ _ Hx Hpc) as (pc' & Hpc' & (Hcls & _) & _).
  exists pc'. by rewrite Hcls.
Qed.

Lemma ext_insert_fresh h l p : h !! l = None -> ext h (<[l := p]> h).
Proof.
  intros Hl l' p' Hl'. exists p'. split_and!; [|apply static_refl|done].
  rewrite lookup_insert_ne by congruence. done.
Qed.

Lemma ext_update h l p p' :
  h !! l = Some p -> static p p' ->
  (forall i c, tableChild (table p) i = Some c -> tableChild (table p') i = Some c) ->
  ext h (<[l := p']> h).
Proof.
  intros Hl Hs Ht l' q Hq. destruct (decide (l' = l)) as [->|Hne].
  - rewrite lookup_insert_eq. exists p'. rewrite Hl in Hq. injection Hq as <-. done.
  - rewrite lookup_insert_ne by done. exists q. split_and!; auto using static_refl.
Qed.

(** A new object. *)
Lemma wf_newObject s p a :
  wf s -> alloc_inv a -> wfNode (heap s) p ->
  wf (mkStore (<[nextLoc s := p]> (heap s)) (Pos.succ (nextLoc s)) a).
Proof.
  intros Hwf Ha Hp.
  assert (Hx : ext (heap s) (<[nextLoc s := p]> (heap s)))
    by by apply ext_insert_fresh, wf_next.
  split; simpl; [|done|].
  - intros l q Hq. apply lookup_insert_Some in Hq as [[<- _]|[_ Hq]]; [lia|].
    apply (wf_fresh _ Hwf) in Hq. lia.
  - intros l q Hq. apply lookup_insert_Some in Hq as [[_ <-]|[_ Hq]].
    + by eapply wfNode_ext.
    + eapply wfNode_ext; [done|]. by apply (wf_node _ Hwf l).
Qed.

(** An update that keeps the class, the allocator and the bank. *)
Lemma wf_update s l p p' :
  wf s -> heap s !! l = Some p -> cls p' = cls p -> wfNode (heap s) p' ->
  wf (set_heap (<[l := p']> (heap s)) s).
Proof.
  intros Hwf Hl Hcls Hp'. split; simpl; [|by apply wf_alloc|].
  - intros l' q Hq. apply lookup_insert_Some in Hq as [[<- _]|[_ Hq]];
      by eapply wf_fresh.
  - assert (Hnode : forall q, wfNode (heap s) q -> wfNode (<[l := p']> (heap s)) q).
    { intros q [Hc Ha Hal]. split; [|done|done]. intros i c Hi.
      destruct (Hc i c Hi) as (pc & Hpc & Hok). destruct (decide (c = l)) as [->|Hne].
      - rewrite lookup_insert_eq. exists p'. split; [done|]. congruence.
      - rewrite lookup_insert_ne by done. eauto. }
    intros l' q Hq. apply lookup_insert_Some in Hq as [[_ <-]|[_ Hq]];
      apply Hnode; [done|by eapply wf_node].
Qed.
End Invariant.

(** ** Specifications of the operations *)

Definition pageSizeOk (sz : Z) : Prop := sz = 4096 \/ sz = 65536 \/ sz = pageSize2MB.

Lemma pageSizeOk_pow2 sz : pageSizeOk sz -> pow2 sz /\ 4096 <= sz.
Proof.
  intros [-> | [-> | ->]]; (split; [|unfold pageSize2MB; lia]).
  - by exists 12.
  - by exists 16.
  - by exists 21.
Qed.

Lemma land_2MB x : Z.land x (pageSize2MB - 1) = 0 <-> (pageSize2MB | x).
Proof.
  change pageSize2MB with (2 ^ 21). rewrite land_low_mod by lia.
  split; [apply Z.mod_divide; lia|intros; by apply Z.mod_divide].
Qed.

Section Specs.
Context {A : Type} `{!PhysicalAddressAllocator A} `{!AllocatorLaws A}.
Variable ndebug : bool.
Variable gpu : GpuOps.
Implicit Types s : Store A.

Lemma wp_deref s l p (Q : PageTable -> Store A -> Prop) :
  heap s !! l = Some p -> Q p s -> wp (deref l) Q s.
Proof. unfold wp, deref. by intros ->. Qed.

Lemma wp_getChild s l p i (Q : option loc -> Store A -> Prop) :
  heap s !! l = Some p -> Q (tableChild (table p) i) s -> wp (getChild l i) Q s.
Proof. intros Hl HQ. apply wp_bind. by eapply wp_deref. Qed.

Lemma wp_update s l p f (Q : unit -> Store A -> Prop) :
  heap s !! l = Some p -> Q tt (set_heap (<[l := f p]> (heap s)) s) ->
  wp (update l f) Q s.
Proof. intros Hl HQ. apply wp_bind. by eapply wp_deref. Qed.

(** The effect of a constructor: one new, childless, unwritten object. *)
Record created (s s' : Store A) (c : loc) (p : PageTable) : Prop := {
  cr_wf : wf s';
  cr_heap : heap s' = <[c := p]> (heap s);
  cr_new : heap s !! c = None;
  cr_table : table p = [];
  cr_ps64 : ps64 p = false;
  cr_levels : numLevels p = ctorLevels (cls p)
}.

Lemma created_ext s s' c p : created s s' c p -> ext (heap s) (heap s').
Proof. intros [Hwf Heq Hn Ht Hp Hlv]. rewrite Heq. by apply ext_insert_fresh. Qed.

Lemma wp_newObject s p a (Q : loc -> Store A -> Prop) :
  wf s -> alloc_inv a -> wfNode (heap s) p -> table p = [] -> ps64 p = false ->
  numLevels p = ctorLevels (cls p) ->
  (forall s', created s s' (nextLoc s) p -> Q (nextLoc s) s') ->
  wp (newObject p) Q (mkStore (heap s) (nextLoc s) a).
Proof.
  intros Hwf Ha Hp Ht Hps Hlv HQ. unfold wp, newObject. simpl. apply HQ.
  split; [by apply wf_newObject|done|by apply wf_next|done|done|done].
Qed.

Lemma wp_ctorReserve s cc size bank pr (Q : loc -> Store A -> Prop) :
  wf s -> pow2 size -> 4096 <= size -> valid_bank bank ->
  (cc = Page2MB -> size = pageSize2MB) ->
  (forall c p s', created s s' c p -> cls p = cc -> memoryBank p = bank ->
     additionalAllocParams p = pr -> (size | physicalAddress p) -> Q c s') ->
  wp (ctorReserve cc true size bank pr) Q s.
Proof.
  intros Hwf Hp2 Hsz Hvb Hcc HQ. unfold ctorReserve. apply wp_bind.
  rewrite (proj2 (Z.eqb_neq size 0)) by lia. cbv zeta.
  rewrite Z.max_l by lia. unfold wp at 1, onAllocator.
  pose proof (reserve_ok bank size (allocSt s) (wf_alloc _ Hwf) Hvb Hp2 Hsz) as Hr.
  unfold wp in Hr.
  destruct (reservePhysicalMemory bank size size (allocSt s)) as [[phys a]|e]; [|done].
  destruct Hr as [Hdiv Ha]. apply wp_newObject; [done|done| |done|done|done|].
  - split; simpl.
    + intros i c Hi. unfold tableChild in Hi. by rewrite lookup_nil in Hi.
    + done.
    + intros ->. apply land_2MB. by rewrite Hcc in Hdiv.
  - intros s' Hcr. by eapply HQ.
Qed.

Lemma wp_ctorAt s cc phys bank pr (Q : loc -> Store A -> Prop) :
  wf s -> classLevel cc = -1 ->
  (cc = Page2MB -> Z.land phys (pageSize2MB - 1) = 0) ->
  (forall c p s', created s s' c p -> cls p = cc -> memoryBank p = bank ->
     additionalAllocParams p = pr -> physicalAddress p = phys -> Q c s') ->
  wp (ctorAt ndebug cc phys bank pr) Q s.
Proof.
  intros Hwf Hlv Hal HQ. unfold ctorAt. apply wp_bind.
  assert (Hk : wp (newObject (mkPageTable cc false pr phys bank [] false false
                        (ctorAddressBits cc) (ctorLevels cc))) Q s).
  { destruct s as [h nl a]. apply (wp_newObject (mkStore h nl a)); try done.
    - by apply (wf_alloc _ Hwf).
    - split; simpl; [|lia|done].
      intros i c Hi. unfold tableChild in Hi. by rewrite lookup_nil in Hi.
    - intros s' Hcr. by eapply HQ. }
  destruct cc; try (by apply wp_ret).
  apply wp_cassert; [|done]. rewrite Hal by done. done.
Qed.

Lemma childClass_ok c pageSize :
  isPTE c = false -> c <> GGTTClass -> 0 <= classLevel c ->
  exists cc, childClass c pageSize = Some cc /\ childOk c cc = true
    /\ pow2 (ctorSize cc) /\ 4096 <= ctorSize cc
    /\ (cc = Page2MB <-> classLevel c = 1 /\ pageSize = pageSize2MB)
    /\ (cc = Page2MB -> ctorSize cc = pageSize2MB)
    /\ (isPDE c = true <-> classLevel c = 1)
    /\ (0 <= classLevel cc -> classLevel cc = 0 -> pageSizeOk pageSize ->
        getPageSize cc = pageSize \/ pageSize = pageSize2MB).
Proof.
  assert (H12 : pow2 4096) by by exists 12.
  assert (H21 : pow2 pageSize2MB) by by exists 21.
  intros Hp Hg Hl. unfold pageSizeOk, childClass.
  destruct c; try done; simpl in Hl; try lia; try (eexists; split; [done|]).
  1,2: destruct (Z.eqb_spec pageSize pageSize2MB) as [->|];
       [|destruct (Z.eqb_spec pageSize 65536) as [->|]].
  all: simpl; unfold pageSize2MB in *; split_and!; try done; try lia; auto;
    intuition (try discriminate; try lia).
Qed.

(** Allocation of an interior table or of a 2MB page, with the parent's bank. *)
Lemma wp_allocateChild s l p pageSize (Q : option loc -> Store A -> Prop) :
  wf s -> heap s !! l = Some p -> isPTE (cls p) = false -> cls p <> GGTTClass ->
  0 <= classLevel (cls p) ->
  (forall c pc s', created s s' c pc -> childClass (cls p) pageSize = Some (cls pc) ->
     Q (Some c) s') ->
  wp (allocateChild ndebug l pageSize (memoryBank p)) Q s.
Proof.
  intros Hwf Hl Hpte Hg Hlv HQ. unfold allocateChild. apply wp_bind. eapply wp_deref; [done|].
  rewrite Hpte. destruct (childClass_ok (cls p) pageSize Hpte Hg Hlv)
    as (cc & Hcc & Hok & Hp2 & Hsz & H2 & H2s & _).
  destruct (wf_allocator _ _ (wf_node _ Hwf _ _ Hl) Hlv) as [Hal Hvb].
  assert (Hk : wp (c ← ctorReserve cc (allocator p) (ctorSize cc) (memoryBank p) noParams;
                   mret (Some c)) Q s).
  { apply wp_bind. rewrite Hal. apply wp_ctorReserve; try done.
    intros c pc s' Hcr Hcls _ _ _. apply wp_ret, (HQ c pc s' Hcr). by rewrite Hcls. }
  rewrite Hcc. destruct (cls p) eqn:Ecls; try done; cbv match;
    (apply wp_bind; case_match; [by apply wp_ret|apply wp_cassert; [by rewrite Z.eqb_refl|done]]).
Qed.

(** Allocation of a leaf below a page table or a page directory. *)
Lemma wp_allocateChildParams s l p pageSize bank pr (Q : option loc -> Store A -> Prop) :
  wf s -> heap s !! l = Some p -> pageSizeOk pageSize -> valid_bank bank ->
  (isPTE (cls p) = true \/ isPDE (cls p) = true /\ pageSize = pageSize2MB) ->
  (forall c pc s', created s s' c pc ->
     cls pc = (if isPTE (cls p) then PageTableMemory else Page2MB) ->
     memoryBank pc = bank -> additionalAllocParams pc = pr ->
     (pageSize | physicalAddress pc) -> Q (Some c) s') ->
  wp (allocateChildParams ndebug l pageSize bank pr) Q s.
Proof.
  intros Hwf Hl Hps Hvb Hcase HQ. unfold allocateChildParams. apply wp_bind.
  eapply wp_deref; [done|]. destruct (pageSizeOk_pow2 _ Hps) as [Hp2 Hsz].
  assert (Hlv : 0 <= classLevel (cls p)) by (destruct Hcase as [|[]]; destruct (cls p); done).
  destruct (wf_allocator _ _ (wf_node _ Hwf _ _ Hl) Hlv) as [Hal Hvb'].
  destruct (isPTE (cls p)) eqn:Epte.
  - apply wp_bind. rewrite Hal. by apply wp_ctorReserve.
  - destruct Hcase as [|[-> ->]]; [done|]. rewrite Z.eqb_refl. apply wp_bind. rewrite Hal.
    by apply wp_ctorReserve.
Qed.

Lemma wp_getEntryValue s l p (Q : Z -> Store A -> Prop) :
  wf s -> heap s !! l = Some p -> Q (entryValue gpu p) s ->
  wp (getEntryValue ndebug gpu l) Q s.
Proof.
  intros Hwf Hl HQ. unfold getEntryValue. apply wp_bind. eapply wp_deref; [done|].
  unfold getEntryValueOf, entryValue in *. cbv zeta in *.
  destruct (cls p) eqn:Ecls; try (by apply wp_ret).
  apply wp_bind, wp_cassert; [|by apply wp_ret].
  by rewrite (wf_aligned _ _ (wf_node _ Hwf _ _ Hl) Ecls).
Qed.

(** Linking a child at a free index of its parent. *)
Lemma wp_setChild s l p i c pc (Q : unit -> Store A -> Prop) :
  wf s -> heap s !! l = Some p -> 0 <= i -> tableChild (table p) i = None ->
  heap s !! c = Some pc -> childOk (cls p) (cls pc) = true ->
  (forall s', wf s' -> ext (heap s) (heap s') ->
     heap s' = <[l := set_table (tableSet i (Some c) (table p)) p]> (heap s) -> Q tt s') ->
  wp (setChild l i (Some c)) Q s.
Proof.
  intros Hwf Hl Hi Hfree Hc Hok HQ. eapply wp_update; [done|].
  assert (Hkeep : forall j d, tableChild (table p) j = Some d ->
            0 <= j -> tableChild (tableSet i (Some c) (table p)) j = Some d).
  { intros j d Hj H0. rewrite tableChild_tableSet by done.
    case_decide as Hij; [|done]. subst j. congruence. }
  assert (Hneg : forall t j, j < 0 -> tableChild t j = tableChild t 0).
  { intros t j Hj. unfold tableChild. replace (Z.to_nat j) with 0%nat by lia. done. }
  assert (Hkeep' : forall j d, tableChild (table p) j = Some d ->
            tableChild (tableSet i (Some c) (table p)) j = Some d).
  { intros j d Hj. destruct (decide (0 <= j)); [by apply Hkeep|].
    rewrite Hneg in Hj |- * by lia. apply Hkeep; [done|lia]. }
  apply HQ; [|by eapply ext_update|done].
  eapply wf_update; [done|done|done|].
  destruct (wf_node _ Hwf _ _ Hl) as [Hch Ha Hal]. split; [|done|done].
  intros j d Hj. cbn [table set_table cls] in *.
  assert (Hj0 : exists j', 0 <= j' /\ tableChild (tableSet i (Some c) (table p)) j' = Some d
                    ).
  { destruct (decide (0 <= j)); [eauto|]. rewrite Hneg in Hj by lia. exists 0. split; [lia|done]. }
  destruct Hj0 as (j' & Hj0 & Hj'). rewrite tableChild_tableSet in Hj' by done.
  case_decide; [injection Hj' as <-; eauto|eauto].
Qed.

(** The root tables. *)
Definition isRoot (c : PageTableClass) : bool :=
  match c with
  | PML5 | PML4 | LegacyPML4 | PDP4 | LegacyPDP4 | GGTTClass => true
  | _ => false
  end.

Definition rootSpec s (c : PageTableClass) (bank : Z) (l : loc) s' : Prop :=
  wf s' /\ ext (heap s) (heap s') /\ exists p, heap s' !! l = Some p /\ cls p = c
    /\ memoryBank p = bank /\ numLevels p = classLevel c + 1.

Lemma wp_ctorReserve0 s cc bank pr (Q : loc -> Store A -> Prop) :
  wf s -> valid_bank bank -> cc <> Page2MB ->
  (forall c p s', created s s' c p -> cls p = cc -> memoryBank p = bank -> Q c s') ->
  wp (ctorReserve cc true 0 bank pr) Q s.
Proof.
  intros Hwf Hvb Hcc HQ. apply wp_bind, wp_ret. destruct s as [h nl a].
  apply (wp_newObject (mkStore h nl a)); try done.
  - apply (wf_alloc _ Hwf).
  - intros s' Hcr. by eapply HQ.
Qed.

(** One child of a [PDP4], linked at a free slot. *)
Lemma wp_rootChild s l p i (Q : unit -> Store A -> Prop) :
  wf s -> heap s !! l = Some p -> (cls p = PDP4 \/ cls p = LegacyPDP4) -> 0 <= i ->
  tableChild (table p) i = None ->
  (forall s' p' , wf s' -> ext (heap s) (heap s') -> heap s' !! l = Some p' -> static p p' ->
     (forall j, 0 <= j -> j <> i -> tableChild (table p') j = tableChild (table p) j) -> Q tt s') ->
  wp (ch ← allocateChild ndebug l 4096 (memoryBank p); setChild l i ch) Q s.
Proof.
  intros Hwf Hl Hcls Hi Hfree HQ. apply wp_bind.
  eapply wp_allocateChild; [done|done|by destruct Hcls as [-> | ->]..|].
  intros c pc s1 Hcr Hcc. pose proof (created_ext _ _ _ _ Hcr) as Hx1.
  destruct Hcr as [Hwf1 Hh1 Hnew _ _ _].
  assert (Hne : l <> c) by congruence.
  assert (Hl1 : heap s1 !! l = Some p) by by rewrite Hh1, lookup_insert_ne.
  eapply wp_setChild; [done|exact Hl1|done|done|by rewrite Hh1, lookup_insert_eq| |].
  { destruct Hcls as [E | E]; rewrite E in *; simpl in Hcc; injection Hcc as <-; done. }
  intros s2 Hwf2 Hx2 Hh2. eapply HQ; [done|by etrans|by rewrite Hh2, lookup_insert_eq|
    by split_and!|].
  intros j Hj Hji. cbn. by rewrite tableChild_tableSet, decide_False by done.
Qed.


Lemma wp_newRoot s c bank (Q : loc -> Store A -> Prop) :
  wf s -> valid_bank bank -> isRoot c = true ->
  (forall l s', rootSpec s c bank l s' -> Q l s') -> wp (newRoot ndebug c true bank) Q s.
Proof.
  intros Hwf Hvb Hroot HQ.
  assert (Hp2 : pow2 4096) by by exists 12.
  assert (Hfin : forall l p s', created s s' l p -> cls p = c -> memoryBank p = bank ->
            rootSpec s c bank l s').
  { intros l p s' Hcr Hcls Hb. pose proof (created_ext _ _ _ _ Hcr) as Hx.
    destruct Hcr as [Hw Hh _ _ _ Hlv]. split_and!; [done|done|].
    exists p. rewrite Hh, lookup_insert_eq, Hlv, Hcls. split_and!; try done.
    by destruct c. }
  assert (Hctor : wp (ctorReserve c true (ctorSize c) bank noParams)
            (fun l s' => exists p, created s s' l p /\ cls p = c /\ memoryBank p = bank) s).
  { destruct c; try done; cbn [ctorSize];
      first [apply wp_ctorReserve0; try done; intros l p s' Hcr Hcls Hb; by exists p
            |apply wp_ctorReserve; try done; intros l p s' Hcr Hcls Hb _ _; by exists p]. }
  apply wp_bind. eapply wp_mono; [exact Hctor|]. intros l s0 (p & Hcr & Hcls & Hb).
  assert (H4 : c = PDP4 \/ c = LegacyPDP4 ->
    wp (mapM_ (fun i => ch ← allocateChild ndebug l 4096 bank; setChild l i ch) [0; 1; 2; 3]
          ≫= fun _ => mret l) Q s0).
  { intros Hc. apply wp_bind.
    set (I := fun (seen : list Z) s' => rootSpec s c bank l s' /\ forall p', heap s' !! l = Some p' ->
                forall j, 0 <= j -> j ∉ seen -> tableChild (table p') j = None).
    eapply wp_mono; [apply (wp_mapM_ _ _ I)|].
    - split; [by eapply Hfin|]. intros p' Hp' j _ _. destruct Hcr as [_ Hh _ Ht _ _].
      rewrite Hh, lookup_insert_eq in Hp'. injection Hp' as <-. rewrite Ht.
      unfold tableChild. by rewrite lookup_nil.
    - intros l1 i s1 [l2 Hl] [(Hw1 & Hx1 & p1 & Hl1 & Hc1 & Hb1 & Hn1) Hfree].
      assert (Hi : 0 <= i /\ i ∉ l1).
      { split.
        - assert (Hall : Forall (fun k => 0 <= k) [0; 1; 2; 3]) by (repeat constructor; lia).
          rewrite Hl in Hall. by apply Forall_app in Hall as [_ [? _]%Forall_cons_1].
        - intros Hin. assert (Hnd : NoDup [0; 1; 2; 3]) by (by apply (bool_decide_unpack _)).
          rewrite Hl in Hnd. apply NoDup_app in Hnd as (_ & Hnd & _).
          apply (Hnd i Hin), list_elem_of_here. }
      destruct Hi as [Hi0 Hi]. rewrite <- Hb1.
      eapply wp_rootChild; [done|done|by rewrite Hc1|done|by eapply Hfree|].
      intros s2 p2 Hw2 Hx2 Hl2 Hs2 Hkeep.
      destruct Hs2 as (Ec & _ & _ & _ & Eb & _ & En). split.
      + split_and!; [done|by etrans|]. exists p2. rewrite Ec, Eb, En. done.
      + intros p' Hp' j Hj Hjn. assert (p' = p2) as -> by congruence.
        apply not_elem_of_app in Hjn as [Hj1 Hj2]. rewrite Hkeep; [by eapply Hfree|done|].
        intros ->. apply Hj2, list_elem_of_here.
    - intros [] s' [Hs _]. by apply wp_ret, HQ. }
  destruct c; try done; try (by apply H4; auto); apply wp_bind, wp_ret, wp_ret, HQ;
    by eapply Hfin.
Qed.
End Specs.
