(* ===== verification/TreeView.v ===== *)
(** * Page tables as trees of values

    The abstract specification of the page tables: a tree without locations, whose
    pages have a physical address, a bank and parameters, and the pure function
    [mapPage] that maps one page in it. [tree] reads the value of a table from the
    heap; [nodes] lists the objects it is made of, which other tables must not
    share. *)

From S2P Require Import Prelude Allocator MemoryBanks PageTable TableTheory.
#[local] Open Scope Z_scope.

(** ** Slots *)

Definition slot {B} (t : list (option B)) (i : Z) : option B := mjoin (t !! Z.to_nat i).

Definition setSlot {B} (i : Z) (v : option B) (t : list (option B)) : list (option B) :=
  let k := Z.to_nat i in
  <[k := v]> (if (length t <=? k)%nat then resize (S k) None t else t).

Lemma slot_tableChild t i : tableChild t i = slot t i.
Proof. unfold tableChild, slot. by destruct (t !! Z.to_nat i) as [[]|]. Qed.

Lemma slot_nil {B} i : slot (B := B) [] i = None.
Proof. unfold slot. by rewrite lookup_nil. Qed.

Lemma slot_map {B C} (f : B -> C) t i : slot (map (option_map f) t) i = option_map f (slot t i).
Proof. unfold slot. change (map ?g) with (fmap (M := list) g). rewrite list_lookup_fmap. by destruct (t !! _) as [[]|]. Qed.

Lemma resize_grow {B} n (d : B) v : (length v <= n)%nat -> resize n d v = v ++ replicate (n - length v) d.
Proof. intros Hn. unfold resize. by rewrite take_ge. Qed.

Lemma map_resize {B C} (f : B -> C) n d v : map f (resize n d v) = resize n (f d) (map f v).
Proof.
  unfold resize. change (map ?g) with (fmap (M := list) g).
  by rewrite fmap_app, fmap_take, fmap_replicate, length_fmap.
Qed.

(** A table with the slot [i] in view; beyond its end it is filled up. *)
Lemma slot_split {B} (t : list (option B)) i :
  exists l1 (x : option B) l2, (forall v, setSlot i v t = l1 ++ v :: l2)
    /\ x = slot t i /\ length l1 = Z.to_nat i
    /\ (t = l1 ++ x :: l2 /\ is_Some (t !! Z.to_nat i)
        \/ t !! Z.to_nat i = None /\ exists k, l1 = t ++ replicate k None /\ l2 = [] /\ x = None).
Proof.
  unfold setSlot, slot. destruct (t !! Z.to_nat i) as [x|] eqn:E.
  - pose proof (lookup_lt_Some _ _ _ E) as Hlt. rewrite (proj2 (Nat.leb_gt _ _) Hlt).
    exists (take (Z.to_nat i) t), x, (drop (S (Z.to_nat i)) t). split_and!.
    + intros v. by rewrite insert_take_drop.
    + done.
    + rewrite length_take. lia.
    + left. split; [by rewrite take_drop_middle|by eexists].
  - apply lookup_ge_None in E as Hge. rewrite (proj2 (Nat.leb_le _ _) Hge).
    exists (t ++ replicate (Z.to_nat i - length t) None), None, []. split_and!.
    + intros v. rewrite resize_grow by lia.
      replace (S (Z.to_nat i) - length t)%nat with (Z.to_nat i - length t + 1)%nat by lia.
      rewrite replicate_add, app_assoc. cbn [replicate].
      rewrite insert_app_r_alt; rewrite length_app, length_replicate; [|lia].
      by replace (Z.to_nat i - (length t + (Z.to_nat i - length t)))%nat with 0%nat by lia.
    + done.
    + rewrite length_app, length_replicate. lia.
    + right. split; [done|]. by eexists.
Qed.

Lemma slot_setSlot {B} i v (t : list (option B)) : slot (setSlot i v t) i = v.
Proof.
  destruct (slot_split t i) as (l1 & x & l2 & -> & _ & Hl & _). unfold slot.
  by rewrite <- Hl, list_lookup_middle by done.
Qed.

Lemma setSlot_same {B} i (t : list (option B)) x : slot t i = Some x -> setSlot i (Some x) t = t.
Proof.
  intros Hs. destruct (slot_split t i) as (l1 & y & l2 & -> & Hy & _ & [[Ht _]|[Hn _]]).
  - by rewrite Hs in Hy; subst.
  - unfold slot in Hs. by rewrite Hn in Hs.
Qed.

Lemma setSlot_setSlot {B} i v v' (t : list (option B)) : setSlot i v' (setSlot i v t) = setSlot i v' t.
Proof.
  destruct (slot_split t i) as (l1 & x & l2 & Ht & _ & Hl & _). rewrite !Ht.
  unfold setSlot. rewrite length_app. cbn [length].
  rewrite (proj2 (Nat.leb_gt _ _)) by lia. by rewrite <- Hl, insert_app_r_alt, Nat.sub_diag by done.
Qed.

Lemma map_setSlot {B C} (f : B -> C) i v t :
  map (option_map f) (setSlot i v t) = setSlot i (option_map f v) (map (option_map f) t).
Proof.
  unfold setSlot. rewrite length_map. change (map ?g) with (fmap (M := list) g).
  rewrite list_fmap_insert. f_equal. destruct (length t <=? _)%nat; [|done]. apply (map_resize (option_map f)).
Qed.

(** ** Trees *)

#[warnings="-register-all"] Inductive Tree :=
| Page (c : PageTableClass) (phys bank : Z) (params : AdditionalParams)
| Table (c : PageTableClass) (children : list (option Tree)).

(** What the page tables mean to [n] levels of the hardware's walk. *)

Definition pageOf (p : PageTable) : Tree :=
  Page (cls p) (u64 (physicalAddress p)) (memoryBank p) (additionalAllocParams p).

Fixpoint tree (n : nat) (h : gmap loc PageTable) (l : loc) : Tree :=
  match h !! l with
  | None => Table PageTableMemory []
  | Some p =>
      match n with
      | O => pageOf p
      | S n' =>
          if decide (cls p = Page2MB) then pageOf p
          else Table (cls p) (map (option_map (tree n' h)) (table p))
      end
  end.

Definition slotNodes (f : loc -> list loc) (o : option loc) : list loc :=
  match o with Some c => f c | None => [] end.

Fixpoint nodes (n : nat) (h : gmap loc PageTable) (l : loc) : list loc :=
  match h !! l with
  | None => [l]
  | Some p =>
      match n with
      | O => [l]
      | S n' => if decide (cls p = Page2MB) then [l]
                else l :: concat (map (slotNodes (nodes n' h)) (table p))
      end
  end.

(** Mapping the page of address [a]: the tables that are missing on the way are
    created for pages of size [req]; an address that has a page keeps it. *)
Fixpoint mapPage (n : nat) (t : Tree) (a req phys bank : Z) (prm : AdditionalParams) : Tree :=
  match n, t with
  | S n', Table c ch =>
      let i := getIndex c a in
      match slot ch i with
      | Some (Page _ _ _ _) => t
      | Some t' => Table c (setSlot i (Some (mapPage n' t' a req phys bank prm)) ch)
      | None =>
          if Nat.eqb n' 0 then Table c (setSlot i (Some (Page PageTableMemory phys bank prm)) ch)
          else if Nat.eqb n' 1 && (req =? pageSize2MB)
          then Table c (setSlot i (Some (Page Page2MB phys bank prm)) ch)
          else match childClass c req with
               | Some cc => Table c (setSlot i (Some (mapPage n' (Table cc []) a req phys bank prm)) ch)
               | None => t
               end
      end
  | _, _ => t
  end.

(** The page of an address, with its size. *)
Fixpoint findPage (n : nat) (t : Tree) (a : Z) : option (Z * Tree) :=
  match n, t with
  | S n', Table c ch =>
      match slot ch (getIndex c a) with
      | Some (Page c' _ _ _ as pg) =>
          Some (if decide (c' = Page2MB) then pageSize2MB else getPageSize c, pg)
      | Some t' => findPage n' t' a
      | None => None
      end
  | _, _ => None
  end.

(** The size of the page that [mapPage] finds or creates. *)
Fixpoint leafSize (n : nat) (t : Tree) (a req : Z) : Z :=
  match n, t with
  | S n', Table c ch =>
      match slot ch (getIndex c a) with
      | Some (Page c' _ _ _) => if decide (c' = Page2MB) then pageSize2MB else getPageSize c
      | Some t' => leafSize n' t' a req
      | None => if Nat.eqb n' 0 then getPageSize c else req
      end
  | _, _ => req
  end.

Definition translateTree (n : nat) (t : Tree) (a : Z) : option Z :=
  match findPage n t a with
  | Some (sz, Page _ phys _ _) => Some (u64 (phys + a mod sz))
  | _ => None
  end.

(** The classes below a table of a walk with [n] levels. *)
Fixpoint treeOk (n : nat) (t : Tree) : Prop :=
  match n, t with
  | S n', Table c ch =>
      classLevel c = Z.of_nat n' /\ c <> GGTTClass
      /\ forall i t', slot ch i = Some t' ->
           match t' with
           | Page c' _ _ _ => childOk c c' = true /\ classLevel c' = -1
           | Table c' _ => childOk c c' = true /\ treeOk n' t'
           end
  | _, _ => False
  end.

(** ** Mapping and finding *)

Lemma findPage_mapped n : forall t a req phys bank prm r,
  findPage n t a = Some r -> mapPage n t a req phys bank prm = t.
Proof.
  induction n as [|n IH]; intros t a req phys bank prm r; [by destruct t|].
  destruct t as [|c ch]; [done|]. cbn [findPage mapPage].
  destruct (slot ch (getIndex c a)) as [[c' p b q|c' ch']|] eqn:Hs; [done| |done].
  intros Hf. rewrite (IH _ _ _ _ _ _ _ Hf). by rewrite setSlot_same.
Qed.

Lemma findPage_size n : forall t a req r, findPage n t a = Some r -> leafSize n t a req = r.1.
Proof.
  induction n as [|n IH]; intros t a req r; [by destruct t|].
  destruct t as [|c ch]; [done|]. cbn [findPage leafSize].
  destruct (slot ch (getIndex c a)) as [[c' p b q|c' ch']|]; [by intros [= <-]|apply IH|done].
Qed.

Lemma treeOk_new n c req cc :
  classLevel c = Z.of_nat (S n) -> childClass c req = Some cc -> cc <> Page2MB -> treeOk (S n) (Table cc []).
Proof.
  intros Hc Hcc H2. cbn [treeOk].
  assert (classLevel cc = Z.of_nat n /\ cc <> GGTTClass) as [H1 Hg].
  { destruct c; cbn in Hcc, Hc; try done; simplify_eq; repeat case_match; cbn in *; split; try done; lia. }
  split_and!; [done|done|]. intros i t'. by rewrite slot_nil.
Qed.

Lemma childClass_some c n : classLevel c = Z.of_nat (S n) -> forall req, is_Some (childClass c req).
Proof. intros Hc req. destruct c; cbn in *; try lia; by eexists. Qed.

Lemma childClass_small c req cc :
  childClass c req = Some cc -> (classLevel c = 1 -> req <> pageSize2MB) -> cc <> Page2MB.
Proof. intros Hc Hr ->. destruct c; cbn in *; try done; destruct (Z.eqb_spec req pageSize2MB); try tauto; by repeat case_match. Qed.

Lemma childClass_pte c req cc :
  classLevel c = 1 -> childClass c req = Some cc -> pageSizeOk req -> req <> pageSize2MB -> getPageSize cc = req.
Proof.
  intros Hc Hcc Hr Hne. unfold pageSizeOk in Hr.
  destruct c; cbn in *; try done; simplify_eq; (destruct (Z.eqb_spec req pageSize2MB); [done|]);
    destruct (Z.eqb_spec req 65536) as [->|]; try done; cbn; destruct_or!; congruence.
Qed.

(** A page that was missing is found as it was given. *)
Lemma findPage_new n : forall t a req phys bank prm,
  treeOk n t -> pageSizeOk req -> findPage n t a = None ->
  exists c, findPage n (mapPage n t a req phys bank prm) a = Some (leafSize n t a req, Page c phys bank prm).
Proof.
  induction n as [|n IH]; intros t a req phys bank prm Hok Hreq; [by destruct t|].
  destruct t as [|c ch]; [done|]. destruct Hok as (Hlv & Hg & Hch). cbn [findPage mapPage leafSize].
  destruct (slot ch (getIndex c a)) as [[c' p b q|c' ch']|] eqn:Hs; [done| |].
  - destruct (Hch _ _ Hs) as [_ Hok']. intros Hf.
    destruct (IH _ a req phys bank prm Hok' Hreq Hf) as [c2 Hc2]. exists c2. cbn [findPage].
    rewrite slot_setSlot. destruct (mapPage n (Table c' ch') _ _ _ _ _) eqn:E; [|done].
    by destruct n.
  - intros _. destruct (Nat.eqb_spec n 0) as [->|Hn0].
    { exists PageTableMemory. cbn [findPage]. by rewrite slot_setSlot. }
    destruct n as [|n]; [done|]. destruct (childClass_some _ _ Hlv req) as [cc Hcc].
    destruct (Nat.eqb_spec (S n) 1) as [Hn1|Hn1]; cbn [andb].
    + assert (n = 0%nat) as -> by lia. destruct (Z.eqb_spec req pageSize2MB) as [->|Hne].
      { exists Page2MB. cbn [findPage]. by rewrite slot_setSlot. }
      rewrite Hcc. exists PageTableMemory.
      cbn [findPage mapPage]. rewrite slot_nil, slot_setSlot. cbn [findPage Nat.eqb].
      rewrite slot_setSlot.
      by rewrite decide_False, (childClass_pte c req cc).
    + rewrite Hcc. assert (Hok' : treeOk (S n) (Table cc [])).
      { eapply treeOk_new; [done|done|]. eapply childClass_small; [done|]. lia. }
      destruct (IH (Table cc []) a req phys bank prm Hok' Hreq) as [c2 Hc2].
      { cbn [findPage]. by rewrite slot_nil. }
      exists c2. remember (S n) as m. cbn [findPage]. rewrite slot_setSlot.
      assert (Hls : leafSize m (Table cc []) a req = req).
      { subst m. cbn [leafSize]. rewrite slot_nil. destruct (Nat.eqb_spec n 0); [lia|done]. }
      rewrite Hls in Hc2. destruct (mapPage m (Table cc []) _ _ _ _ _) eqn:E; [|done].
      subst m. cbn [mapPage] in E. rewrite slot_nil in E. by repeat case_match.
Qed.

(** ** Reading trees from the heap *)

(** Every child exists and has a class that its parent may have below it. *)
Definition linkedOk (h : gmap loc PageTable) : Prop :=
  forall l p i c, h !! l = Some p -> slot (table p) i = Some c ->
    exists pc, h !! c = Some pc /\ childOk (cls p) (cls pc) = true.

Lemma wf_linkedOk {A} `{!PhysicalAddressAllocator A} `{!AllocatorLaws A} (s : Store A) :
  wf s -> linkedOk (heap s).
Proof.
  intros Hwf l p i c Hl Hc. rewrite <- slot_tableChild in Hc.
  exact (wf_children _ _ (wf_node _ Hwf _ _ Hl) _ _ Hc).
Qed.

Lemma slot_elem {B} (t : list (option B)) x : Some x ∈ t -> exists i, 0 <= i /\ slot t i = Some x.
Proof.
  intros [i Hi]%list_elem_of_lookup. exists (Z.of_nat i). split; [lia|].
  unfold slot. by rewrite Nat2Z.id, Hi.
Qed.

Lemma elem_slot {B} (t : list (option B)) i x : slot t i = Some x -> Some x ∈ t.
Proof.
  unfold slot. destruct (t !! Z.to_nat i) as [o|] eqn:E; [|done]. cbn. intros ->.
  by eapply list_elem_of_lookup_2.
Qed.

Lemma nodes_child n h p c x :
  Some c ∈ table p -> x ∈ nodes n h c -> x ∈ concat (map (slotNodes (nodes n h)) (table p)).
Proof.
  intros Hc Hx. apply list_elem_of_In, in_concat. exists (nodes n h c). split; [|by apply list_elem_of_In].
  apply in_map_iff. exists (Some c). split; [done|]. by apply list_elem_of_In.
Qed.

Lemma nodes_child_inv n h p x :
  x ∈ concat (map (slotNodes (nodes n h)) (table p)) -> exists c, Some c ∈ table p /\ x ∈ nodes n h c.
Proof.
  intros (l & Hl & Hx)%list_elem_of_In%in_concat. apply in_map_iff in Hl as (o & <- & Ho).
  apply list_elem_of_In in Ho, Hx. destruct o as [c|]; [by exists c|]. by apply elem_of_nil in Hx.
Qed.

Lemma nodes_root n h l : l ∈ nodes n h l.
Proof. destruct n; cbn; repeat case_match; first [apply list_elem_of_here|by apply list_elem_of_singleton]. Qed.

Lemma nodes_closed n : forall h l x,
  linkedOk h -> is_Some (h !! l) -> x ∈ nodes n h l -> is_Some (h !! x).
Proof.
  induction n as [|n IH]; intros h l x Hok [p Hp]; cbn [nodes]; rewrite Hp.
  - intros ->%list_elem_of_singleton. by eexists.
  - case_decide; [intros ->%list_elem_of_singleton; by eexists|].
    intros [->|Hx]%elem_of_cons; [by eexists|].
    destruct (nodes_child_inv _ _ _ _ Hx) as (c & Hc & Hxc).
    destruct (slot_elem _ _ Hc) as (i & _ & Hi). destruct (Hok _ _ _ _ Hp Hi) as (pc & Hpc & _).
    eapply IH; [done| |exact Hxc]. by eexists.
Qed.

(** An object whose table and fixed members are as before. *)
Definition unchanged (h h' : gmap loc PageTable) (x : loc) : Prop :=
  forall q, h !! x = Some q -> exists q', h' !! x = Some q' /\ static q q' /\ table q' = table q.

Lemma pageOf_static p p' : static p p' -> pageOf p' = pageOf p.
Proof. intros (Hc & _ & Hp & Ha & Hb & _). unfold pageOf. by rewrite Hc, Hp, Ha, Hb. Qed.

Lemma tree_frame n : forall h h' l,
  linkedOk h -> is_Some (h !! l) -> (forall x, x ∈ nodes n h l -> unchanged h h' x) ->
  tree n h' l = tree n h l /\ nodes n h' l = nodes n h l.
Proof.
  induction n as [|n IH]; intros h h' l Hok [p Hp] Hx;
    destruct (Hx l (nodes_root _ _ _) p Hp) as (p' & Hp' & Hs & Ht); pose proof Hs as (Hcls & _).
  - cbn. rewrite Hp, Hp'. by rewrite (pageOf_static _ _ Hs).
  - cbn [tree nodes] in *. rewrite Hp in *. rewrite Hp', Hcls, Ht.
    case_decide; [by rewrite (pageOf_static _ _ Hs)|].
    assert (Hsub : forall c, Some c ∈ table p -> tree n h' c = tree n h c /\ nodes n h' c = nodes n h c).
    { intros c Hc. destruct (slot_elem _ _ Hc) as (i & _ & Hi).
      destruct (Hok _ _ _ _ Hp Hi) as (pc & Hpc & _). apply IH; [done|by eexists|].
      intros x Hxc. apply Hx, elem_of_cons. right. by eapply nodes_child. }
    split; [f_equal|do 2 f_equal]; apply map_ext_in; intros [c|] Hc%list_elem_of_In; cbn; try done;
      destruct (Hsub c Hc) as [E1 E2]; by rewrite ?E1, ?E2.
Qed.

Lemma tree_page n h c pc : h !! c = Some pc -> classLevel (cls pc) = -1 -> n = 0%nat \/ cls pc = Page2MB ->
  tree n h c = pageOf pc /\ nodes n h c = [c].
Proof. intros Hc Hl [-> | H2]; cbn; [by rewrite Hc|]. destruct n; cbn; rewrite Hc; [done|]. by rewrite !decide_True. Qed.

Lemma tree_table n h c pc : h !! c = Some pc -> cls pc <> Page2MB ->
  tree (S n) h c = Table (cls pc) (map (option_map (tree n h)) (table pc))
  /\ nodes (S n) h c = c :: concat (map (slotNodes (nodes n h)) (table pc)).
Proof. intros Hc Hl. cbn [tree nodes]. by rewrite Hc, !decide_False. Qed.

(** Below a table of level [n]: pages, or tables of the next level. *)
Lemma child_cases n p pc : classLevel (cls p) = Z.of_nat n -> childOk (cls p) (cls pc) = true ->
  cls pc <> GGTTClass
  /\ (classLevel (cls pc) = -1 /\ (n = 0%nat \/ cls pc = Page2MB)
      \/ cls pc <> Page2MB /\ exists m, n = S m /\ classLevel (cls pc) = Z.of_nat m).
Proof.
  intros Hl Hok. destruct (childOk_level _ _ Hok) as [_ Hc].
  split; [intros E; rewrite E in Hok; by destruct (cls p)|].
  destruct Hc as [[-> _]|Hc]; [by left; auto|].
  destruct n as [|m]; [left; rewrite Hc, Hl; auto|].
  destruct (decide (cls pc = Page2MB)) as [E|E]; [rewrite E; left; auto|].
  right. split; [done|]. exists m. split; [done|lia].
Qed.

Lemma tree_ok n : forall h l p, linkedOk h -> h !! l = Some p -> classLevel (cls p) = Z.of_nat n ->
  cls p <> GGTTClass -> treeOk (S n) (tree (S n) h l).
Proof.
  induction n as [|n IH]; intros h l p Hok Hp Hlv Hg.
  all: assert (H2 : cls p <> Page2MB) by (intros E; rewrite E in Hlv; cbn in Hlv; lia).
  all: match goal with |- context [tree (S ?k) _ _] => destruct (tree_table k _ _ _ Hp H2) as [-> _] end;
    split_and!; [done|done|].
  all: intros i t'; rewrite slot_map; destruct (slot (table p) i) as [c|] eqn:Hc; [|done].
  all: cbn [option_map]; intros <-%(inj Some); destruct (Hok _ _ _ _ Hp Hc) as (pc & Hpc & Hch).
  all: destruct (child_cases _ _ _ Hlv Hch) as [Hgc [[Hlc Hcase]|(Hnc & m & Hm & Hlc)]];
    [destruct (tree_page _ _ _ _ Hpc Hlc Hcase) as [-> _]; done|].
  - done.
  - simplify_eq. specialize (IH h c pc Hok Hpc Hlc Hgc).
    destruct (tree_table m _ _ _ Hpc Hnc) as [E _]. rewrite E in *. done.
Qed.

(** The page found in the tree is the page the hardware finds. *)
Lemma findPage_tree n : forall h l p a, linkedOk h -> h !! l = Some p ->
  classLevel (cls p) = Z.of_nat n -> cls p <> GGTTClass ->
  match lookupLeaf (S n) h l a with
  | Some (c, sz) => exists pc, h !! c = Some pc /\ findPage (S n) (tree (S n) h l) a = Some (sz, pageOf pc)
  | None => findPage (S n) (tree (S n) h l) a = None
  end.
Proof.
  induction n as [|n IH]; intros h l p a Hok Hp Hlv Hg;
    assert (H2 : cls p <> Page2MB) by (intros E; rewrite E in Hlv; cbn in Hlv; lia).
  - destruct (tree_table 0 _ _ _ Hp H2) as [-> _]. cbn [lookupLeaf findPage]. rewrite Hp. unfold child.
    rewrite slot_tableChild, slot_map. destruct (slot (table p) _) as [c|] eqn:Hc; [|done].
    destruct (Hok _ _ _ _ Hp Hc) as (pc & Hpc & Hch). exists pc. split; [done|].
    pose proof (childOk_leaf _ _ Hch Hlv) as Ec. cbn [option_map tree]. rewrite Hpc. unfold pageOf.
    by rewrite Ec, decide_False.
  - remember (S n) as m eqn:Em. destruct (tree_table m _ _ _ Hp H2) as [-> _].
    assert (Hl : forall c pc, child p a = Some c -> h !! c = Some pc -> lookupLeaf (S m) h l a
              = if decide (cls pc = Page2MB) then Some (c, pageSize2MB) else lookupLeaf m h c a).
    { intros c pc E1 E2. cbn [lookupLeaf]. rewrite Hp, E1. subst m. by rewrite E2. }
    cbn [findPage]. rewrite slot_map. destruct (slot (table p) _) as [c|] eqn:Hc.
    2: { assert (E : child p a = None) by (unfold child; by rewrite slot_tableChild).
         cbn [lookupLeaf]. by rewrite Hp, E. }
    destruct (Hok _ _ _ _ Hp Hc) as (pc & Hpc & Hch). cbn [option_map].
    rewrite (Hl c pc) by (done || by (unfold child; rewrite slot_tableChild)).
    destruct (child_cases _ _ _ Hlv Hch) as [Hgc [[Hlc Hcase]|(Hnc & k & Hk & Hlc)]].
    + destruct Hcase as [?|Hcase]; [lia|].
      destruct (tree_page m _ _ _ Hpc Hlc (or_intror Hcase)) as [-> _].
      rewrite decide_True by done. exists pc. split; [done|]. unfold pageOf. by rewrite decide_True.
    + assert (k = n) as -> by lia. rewrite decide_False by done.
      subst m. specialize (IH h c pc a Hok Hpc Hlc Hgc).
      destruct (tree_table n _ _ _ Hpc Hnc) as [E _]. rewrite E in *. exact IH.
Qed.

(** ** How a tree grows *)

(** Below a table, the subtree of one slot changes. *)
Lemma subtrees_frame n h h' (t : list (option loc)) :
  linkedOk h -> (forall c, Some c ∈ t -> is_Some (h !! c)) ->
  (forall x, x ∈ concat (map (slotNodes (nodes n h)) t) -> unchanged h h' x) ->
  map (option_map (tree n h')) t = map (option_map (tree n h)) t
  /\ map (slotNodes (nodes n h')) t = map (slotNodes (nodes n h)) t.
Proof.
  intros Hok Hc Hx. assert (Hsub : forall c, Some c ∈ t -> tree n h' c = tree n h c /\ nodes n h' c = nodes n h c).
  { intros c Hin. apply tree_frame; [done|by apply Hc|]. intros x Hxc. apply Hx.
    apply list_elem_of_In, in_concat. exists (nodes n h c). split; [|by apply list_elem_of_In].
    apply in_map_iff. exists (Some c). split; [done|]. by apply list_elem_of_In. }
  split; apply map_ext_in; intros [c|] Hin%list_elem_of_In; cbn; try done;
    destruct (Hsub c Hin) as [E1 E2]; by rewrite ?E1, ?E2.
Qed.

Lemma table_children h l p c : linkedOk h -> h !! l = Some p -> Some c ∈ table p -> is_Some (h !! c).
Proof.
  intros Hok Hp Hc. destruct (slot_elem _ _ Hc) as (i & _ & Hi).
  destruct (Hok _ _ _ _ Hp Hi) as (pc & Hpc & _). by eexists.
Qed.

Lemma nodes_none (f : loc -> list loc) k : concat (map (slotNodes f) (replicate k None)) = [].
Proof. induction k as [|k IH]; [done|exact IH]. Qed.

Lemma slot_nodes_other n h h' t i v :
  linkedOk h -> (forall c, Some c ∈ t -> is_Some (h !! c)) ->
  NoDup (concat (map (slotNodes (nodes n h)) t)) ->
  (forall x, x ∈ concat (map (slotNodes (nodes n h)) t) -> x ∉ slotNodes (nodes n h) (slot t i) -> unchanged h h' x) ->
  map (option_map (tree n h')) (setSlot i v t)
    = setSlot i (option_map (tree n h') v) (map (option_map (tree n h)) t)
  /\ exists l1 l2, concat (map (slotNodes (nodes n h)) t) = l1 ++ slotNodes (nodes n h) (slot t i) ++ l2
       /\ concat (map (slotNodes (nodes n h')) (setSlot i v t)) = l1 ++ slotNodes (nodes n h') v ++ l2.
Proof.
  intros Hok Hin Hnd Hx.
  destruct (slot_split t i) as (l1 & x & l2 & Hset & Hxi & Hlen & Hcase).
  assert (Hsub : forall c, (Some c ∈ l1 \/ Some c ∈ l2) -> Some c ∈ t).
  { intros c Hc. destruct Hcase as [[-> _]|(_ & k & -> & -> & _)].
    - rewrite elem_of_app, elem_of_cons. tauto.
    - rewrite elem_of_app, elem_of_nil in Hc. destruct Hc as [[?|Hc]|[]]; [done|].
      by apply elem_of_replicate in Hc as [? _]. }
  assert (Hcat : concat (map (slotNodes (nodes n h)) t)
      = concat (map (slotNodes (nodes n h)) l1) ++ slotNodes (nodes n h) x ++ concat (map (slotNodes (nodes n h)) l2)).
  { destruct Hcase as [[E _]|(_ & k & -> & -> & ->)].
    - rewrite E at 1. by rewrite map_app, concat_app.
    - rewrite map_app, concat_app. cbn. rewrite !app_nil_r.
      by rewrite nodes_none, app_nil_r. }
  rewrite Hcat in Hnd. apply NoDup_app in Hnd as (_ & Hd1 & Hnd). apply NoDup_app in Hnd as (_ & Hd2 & _).
  assert (H1 : map (option_map (tree n h')) l1 = map (option_map (tree n h)) l1
            /\ map (slotNodes (nodes n h')) l1 = map (slotNodes (nodes n h)) l1).
  { apply subtrees_frame; [done|by intros c Hc; apply Hin, Hsub; left|]. intros y Hy. apply Hx.
    - rewrite Hcat, !elem_of_app. tauto.
    - rewrite <- Hxi. intros Hy'. apply (Hd1 y Hy). rewrite elem_of_app. tauto. }
  assert (H2 : map (option_map (tree n h')) l2 = map (option_map (tree n h)) l2
            /\ map (slotNodes (nodes n h')) l2 = map (slotNodes (nodes n h)) l2).
  { apply subtrees_frame; [done|by intros c Hc; apply Hin, Hsub; right|]. intros y Hy. apply Hx.
    - rewrite Hcat, !elem_of_app. tauto.
    - rewrite <- Hxi. intros Hy'. by apply (Hd2 y Hy'). }
  split.
  - assert (Hn : map (option_map (tree n h')) (setSlot i None t) = map (option_map (tree n h)) (setSlot i None t)).
    { rewrite !Hset, !map_app. cbn [map option_map]. by rewrite (proj1 H1), (proj1 H2). }
    rewrite !map_setSlot in *. cbn [option_map] in Hn.
    rewrite <- (setSlot_setSlot i None _ (map _ t)), Hn. apply setSlot_setSlot.
  - exists (concat (map (slotNodes (nodes n h)) l1)), (concat (map (slotNodes (nodes n h)) l2)).
    rewrite <- Hxi. split; [done|]. rewrite Hset, map_app, concat_app. cbn [map concat].
    by rewrite (proj2 H1), (proj2 H2).
Qed.

(** A table after one level of the walk: the child [c] of slot [i] was there and
    nothing changed, or it is new, empty, and linked. *)
Definition childLinked (h : gmap loc PageTable) (parent : loc) (p : PageTable) (i : Z)
    (h' : gmap loc PageTable) (c : loc) : Prop :=
  (forall x, x <> parent -> unchanged h h' x)
  /\ ((slot (table p) i = Some c /\ unchanged h h' parent)
      \/ (slot (table p) i = None /\ h !! c = None
          /\ (exists pc, h' !! c = Some pc /\ table pc = [])
          /\ (exists p', h' !! parent = Some p' /\ static p p'
                /\ table p' = tableSet i (Some c) (table p)))).

Definition freshIn (h : gmap loc PageTable) (new : list loc) : Prop :=
  NoDup new /\ forall x, x ∈ new -> h !! x = None.

Lemma tableSet_setSlot i v t : tableSet i v t = setSlot i v t.
Proof. done. Qed.

Lemma nodes_parent n h parent p :
  h !! parent = Some p -> cls p <> Page2MB -> NoDup (nodes (S n) h parent) ->
  (parent ∉ concat (map (slotNodes (nodes n h)) (table p))) /\ NoDup (concat (map (slotNodes (nodes n h)) (table p))).
Proof. intros Hp H2. destruct (tree_table n _ _ _ Hp H2) as [_ ->]. by intros [? ?]%NoDup_cons. Qed.

(** The tree with the new child, before the walk goes on below it. *)
Lemma tree_linked n h parent p i h' c :
  linkedOk h -> h !! parent = Some p -> cls p <> Page2MB -> NoDup (nodes (S n) h parent) ->
  childLinked h parent p i h' c ->
  tree (S n) h' parent
    = Table (cls p) (setSlot i (Some (tree n h' c)) (map (option_map (tree n h)) (table p)))
  /\ (slot (table p) i = Some c -> tree n h' c = tree n h c)
  /\ exists new, nodes (S n) h' parent ≡ₚ nodes (S n) h parent ++ new /\ freshIn h new
       /\ forall x, x ∈ new -> x = c.
Proof.
  intros Hok Hp H2 Hnd [Hother Hcase]. destruct (nodes_parent _ _ _ _ Hp H2 Hnd) as [Hpar Hnd'].
  destruct Hcase as [[Hs Hpu]|(Hs & Hc & (pc & Hpc & Hpct) & p' & Hp' & Hst & Ht)].
  - assert (Hall : forall x, unchanged h h' x).
    { intros x. destruct (decide (x = parent)) as [->|]; auto. }
    destruct (tree_frame (S n) h h' parent Hok) as [Et En]; [by eexists|auto|].
    assert (Ec : tree n h' c = tree n h c).
    { apply tree_frame; [done| |auto]. eapply table_children; [done|exact Hp|by eapply elem_slot]. }
    rewrite Et. destruct (tree_table n _ _ _ Hp H2) as [-> _]. split_and!; [|done|].
    + f_equal. rewrite Ec. symmetry. apply setSlot_same. by rewrite slot_map, Hs.
    + exists []. rewrite En, app_nil_r. split_and!; [done|split; [apply NoDup_nil_2|]|];
        intros x Hx; by apply elem_of_nil in Hx.
  - pose proof Hst as (Hcls & _).
    destruct (tree_table n _ _ _ Hp' ltac:(by rewrite Hcls)) as [Et En].
    destruct (tree_table n _ _ _ Hp H2) as [_ En0].
    destruct (slot_nodes_other n h h' (table p) i (Some c) Hok) as (Em & l1 & l2 & E1 & E2);
      [intros d Hd; by eapply table_children|done| |].
    { intros x Hx _. apply Hother. by intros ->. }
    rewrite Et, Ht, Hcls, tableSet_setSlot, Em. split_and!; [done|by rewrite Hs|].
    exists [c]. rewrite En, En0, Ht, tableSet_setSlot, E1, E2, Hs. cbn [slotNodes].
    assert (nodes n h' c = [c]) as ->.
    { destruct n; cbn; rewrite Hpc; [done|]. rewrite Hpct. by case_decide. }
    split_and!; [solve_Permutation| |by intros x ->%list_elem_of_singleton].
    split; [apply NoDup_singleton|]. by intros x ->%list_elem_of_singleton.
Qed.

(** The tree of a table at slot [i] of which the walk goes on. *)
Lemma tree_below n h parent p i c h' new :
  linkedOk h -> h !! parent = Some p -> cls p <> Page2MB -> NoDup (nodes (S n) h parent) ->
  slot (table p) i = Some c ->
  (forall x, is_Some (h !! x) -> x ∉ nodes n h c -> unchanged h h' x) ->
  nodes n h' c ≡ₚ nodes n h c ++ new ->
  tree (S n) h' parent
    = Table (cls p) (setSlot i (Some (tree n h' c)) (map (option_map (tree n h)) (table p)))
  /\ nodes (S n) h' parent ≡ₚ nodes (S n) h parent ++ new.
Proof.
  intros Hok Hp H2 Hnd Hs Hfr Hn. destruct (nodes_parent _ _ _ _ Hp H2 Hnd) as [Hpar Hnd'].
  assert (Hin : forall d, Some d ∈ table p -> is_Some (h !! d)) by (intros; by eapply table_children).
  assert (Hpc : unchanged h h' parent).
  { apply Hfr; [by eexists|]. intros Hx. apply Hpar. eapply nodes_child; [by eapply elem_slot|done]. }
  destruct (Hpc p Hp) as (p' & Hp' & (Hcls & _) & Ht).
  destruct (tree_table n _ _ _ Hp' ltac:(by rewrite Hcls)) as [Et En].
  destruct (tree_table n _ _ _ Hp H2) as [_ En0].
  destruct (slot_nodes_other n h h' (table p) i (Some c) Hok Hin Hnd') as (Em & l1 & l2 & E1 & E2).
  { intros x Hx Hxc. rewrite Hs in Hxc. cbn in Hxc. apply Hfr; [|done].
    destruct (nodes_child_inv _ _ _ _ Hx) as (d & Hd & Hxd). apply (nodes_closed n h d); [done|by apply Hin|done]. }
  rewrite (setSlot_same _ _ _ Hs) in *. rewrite Et, En, Ht, Hcls, En0, E1, E2, Em, Hs.
  cbn [slotNodes]. rewrite Hn. split; [done|]. solve_Permutation.
Qed.

(** ** The walk of one address maps its page

    [D] says which page a walk may make. *)

Definition mapsInto (D : Z -> Z -> Prop) (prm : AdditionalParams) (n : nat)
    (h : gmap loc PageTable) (root : loc) (a req : Z) (h' : gmap loc PageTable) : Prop :=
  NoDup (nodes n h root) ->
  exists phys bank new, D phys bank
    /\ tree n h' root = mapPage n (tree n h root) a req phys bank prm
    /\ nodes n h' root ≡ₚ nodes n h root ++ new /\ freshIn h new
    /\ forall x, is_Some (h !! x) -> x ∉ nodes n h root -> unchanged h h' x.

(** The level at which the walk finds, or makes, the page. *)
Lemma mapsInto_page (D : Z -> Z -> Prop) prm n h parent p a req h' c pc :
  linkedOk h -> h !! parent = Some p -> classLevel (cls p) = Z.of_nat n -> (exists phys bank, D phys bank) ->
  childLinked h parent p (getIndex (cls p) a) h' c -> h' !! c = Some pc ->
  classLevel (cls pc) = -1 -> n = 0%nat \/ cls pc = Page2MB ->
  (slot (table p) (getIndex (cls p) a) = None ->
     D (u64 (physicalAddress pc)) (memoryBank pc) /\ additionalAllocParams pc = prm
     /\ cls pc = (if Nat.eqb n 0 then PageTableMemory else Page2MB)
     /\ (n <> 0%nat -> n = 1%nat /\ req = pageSize2MB)) ->
  mapsInto D prm (S n) h parent a req h'.
Proof.
  intros Hok Hp Hlv (ph0 & b0 & HD) Hlk Hpc Hlc Hcase Hnew Hnd.
  assert (H2 : cls p <> Page2MB) by (intros E; rewrite E in Hlv; cbn in Hlv; lia).
  destruct (tree_linked n h parent p _ h' c Hok Hp H2 Hnd Hlk) as (Et & Ec & new & Hn & Hfr & _).
  destruct (tree_page n h' c pc Hpc Hlc Hcase) as [Epc _]. rewrite Epc in *.
  destruct (tree_table n _ _ _ Hp H2) as [E0 _].
  destruct (slot (table p) (getIndex (cls p) a)) as [c'|] eqn:Hs.
  - assert (c' = c) as -> by (destruct Hlk as [_ [[E _]|[E _]]]; congruence).
    exists ph0, b0, new. split_and!; [done| |done|done|].
    + rewrite Et, E0. cbn [mapPage]. rewrite slot_map, Hs. cbn [option_map]. rewrite <- (Ec eq_refl).
      unfold pageOf at 2. cbv iota. f_equal. apply setSlot_same.
      rewrite slot_map, Hs. cbn [option_map]. by rewrite <- Ec.
    + intros x _ Hx. apply Hlk. intros ->. apply Hx, nodes_root.
  - destruct (Hnew eq_refl) as (HD' & Hprm & Hcls & Hn1).
    exists (u64 (physicalAddress pc)), (memoryBank pc), new. split_and!; [done| |done|done|].
    + rewrite Et, E0. cbn [mapPage]. rewrite slot_map, Hs. cbn [option_map]. unfold pageOf.
      rewrite Hprm, Hcls. destruct (Nat.eqb_spec n 0) as [->|Hn0]; [done|].
      destruct (Hn1 Hn0) as [-> ->]. done.
    + intros x _ Hx. apply Hlk. intros ->. apply Hx, nodes_root.
Qed.

Lemma mapPage_req t a r1 r2 phys bank prm : mapPage 1 t a r1 phys bank prm = mapPage 1 t a r2 phys bank prm.
Proof. destruct t as [|c ch]; [done|]. cbn. by destruct (slot ch _) as [[]|]. Qed.

Lemma NoDup_fresh h l new :
  NoDup l -> (forall x, x ∈ l -> is_Some (h !! x)) -> freshIn h new -> NoDup (l ++ new).
Proof.
  intros Hl Hc [Hn Hf]. apply NoDup_app. split_and!; [done| |done].
  intros x Hx Hx'. destruct (Hc x Hx) as [q Hq]. by rewrite (Hf x Hx') in Hq.
Qed.

Lemma nodes_slot n h parent p i c :
  h !! parent = Some p -> cls p <> Page2MB -> slot (table p) i = Some c ->
  NoDup (nodes (S n) h parent) ->
  NoDup (nodes n h c) /\ forall x, x ∈ nodes n h c -> x ∈ nodes (S n) h parent.
Proof.
  intros Hp H2 Hs Hnd. destruct (nodes_parent _ _ _ _ Hp H2 Hnd) as [_ Hnd'].
  destruct (tree_table n _ _ _ Hp H2) as [_ ->].
  destruct (list_elem_of_split _ _ (elem_slot _ _ _ Hs)) as (l1 & l2 & E). rewrite E in *.
  rewrite map_app, concat_app in *. cbn [map concat slotNodes] in *. split.
  - apply NoDup_app in Hnd' as (_ & _ & Hnd'). by apply NoDup_app in Hnd' as (? & _ & _).
  - intros x Hx. rewrite elem_of_cons, !elem_of_app. tauto.
Qed.

Lemma Table_inj c1 c2 t1 t2 : Table c1 t1 = Table c2 t2 -> t1 = t2.
Proof. by intros [= _ ->]. Qed.

(** The child's new tree in its slot is the tree with the page. *)
Lemma mapPage_linked m h parent p a req h1 c pc phys bank prm :
  h !! parent = Some p -> cls p <> Page2MB ->
  childLinked h parent p (getIndex (cls p) a) h1 c -> h1 !! c = Some pc -> cls pc <> Page2MB ->
  (slot (table p) (getIndex (cls p) a) = Some c -> tree (S m) h1 c = tree (S m) h c) ->
  (slot (table p) (getIndex (cls p) a) = None ->
     childClass (cls p) req = Some (cls pc) /\ (m = 0%nat -> req <> pageSize2MB)) ->
  Table (cls p) (setSlot (getIndex (cls p) a) (Some (mapPage (S m) (tree (S m) h1 c) a req phys bank prm))
    (map (option_map (tree (S m) h)) (table p)))
  = mapPage (S (S m)) (tree (S (S m)) h parent) a req phys bank prm.
Proof.
  intros Hp H2 Hlk Hpc Hc2 Ec Hnew. destruct (tree_table (S m) _ _ _ Hp H2) as [-> _].
  destruct (tree_table m _ _ _ Hpc Hc2) as [Etc _]. set (i := getIndex (cls p) a) in *.
  remember (S m) as k. cbn [mapPage]. fold i. rewrite slot_map.
  destruct (slot (table p) i) as [d|] eqn:Hs; cbn [option_map].
  - assert (d = c) as -> by (destruct Hlk as [_ [[E _]|[E _]]]; congruence).
    by rewrite <- (Ec eq_refl), Etc.
  - destruct Hlk as [_ [[E _]|(_ & _ & (pc' & Hpc' & Hemp) & _)]]; [congruence|].
    assert (pc' = pc) as -> by congruence. destruct (Hnew eq_refl) as [Hcc Hm0].
    rewrite Etc, Hemp, Hcc. subst k. cbn [Nat.eqb]. destruct m as [|m']; [|done]. cbn [Nat.eqb andb].
    by rewrite (proj2 (Z.eqb_neq _ _) (Hm0 eq_refl)).
Qed.

(** A level from which the walk goes on below the child. *)
Lemma mapsInto_below (D : Z -> Z -> Prop) prm m h parent p a req req' h1 c pc h2 :
  linkedOk h -> linkedOk h1 -> h !! parent = Some p -> classLevel (cls p) = Z.of_nat (S m) ->
  (forall x, is_Some (h !! x) -> is_Some (h1 !! x)) ->
  childLinked h parent p (getIndex (cls p) a) h1 c -> h1 !! c = Some pc -> cls pc <> Page2MB ->
  (slot (table p) (getIndex (cls p) a) = None ->
     childClass (cls p) req = Some (cls pc) /\ (m = 0%nat -> req <> pageSize2MB)) ->
  m = 0%nat \/ req' = req ->
  mapsInto D prm (S m) h1 c a req' h2 -> mapsInto D prm (S (S m)) h parent a req h2.
Proof.
  intros Hok Hok1 Hp Hlv Hdom Hlk Hpc Hc2 Hnew Hreq Hmap Hnd. set (i := getIndex (cls p) a) in *.
  assert (H2 : cls p <> Page2MB) by (intros E; rewrite E in Hlv; cbn in Hlv; lia).
  destruct (tree_linked (S m) h parent p i h1 c Hok Hp H2 Hnd Hlk) as (Et1 & Ec & new1 & Hn1 & Hf1 & Hnc).
  assert (Hp1 : exists p1, h1 !! parent = Some p1 /\ cls p1 = cls p /\ slot (table p1) i = Some c).
  { destruct Hlk as [_ [[E Hu]|(_ & _ & _ & p1 & Hp1 & (Hcl & _) & Ht)]].
    - destruct (Hu p Hp) as (p1 & Hp1 & (Hcl & _) & Ht). exists p1. by rewrite Ht.
    - exists p1. rewrite Ht, tableSet_setSlot, slot_setSlot. done. }
  destruct Hp1 as (p1 & Hp1 & Hcls1 & Hs1). assert (H21 : cls p1 <> Page2MB) by by rewrite Hcls1.
  assert (Hclosed : forall x, x ∈ nodes (S (S m)) h parent -> is_Some (h !! x)).
  { intros x. apply nodes_closed; [done|by eexists]. }
  assert (Hnd1 : NoDup (nodes (S (S m)) h1 parent)) by (rewrite Hn1; by eapply NoDup_fresh).
  destruct (nodes_slot (S m) h1 parent p1 i c Hp1 H21 Hs1 Hnd1) as [Hndc Hsub].
  destruct (Hmap Hndc) as (phys & bank & new2 & HD & Ht2 & Hn2 & [Hf2 Hf2'] & Hfr2).
  destruct (tree_below (S m) h1 parent p1 i c h2 new2 Hok1 Hp1 H21 Hnd1 Hs1 Hfr2 Hn2) as [Et En].
  exists phys, bank, (new1 ++ new2). split_and!; [done| | | |].
  - destruct (tree_table (S m) _ _ _ Hp1 H21) as [E1 _]. rewrite Et1 in E1. apply Table_inj in E1.
    rewrite Et, Hcls1, <- E1, setSlot_setSlot, Ht2.
    assert (mapPage (S m) (tree (S m) h1 c) a req' phys bank prm
            = mapPage (S m) (tree (S m) h1 c) a req phys bank prm) as ->
      by (destruct Hreq as [-> | ->]; [apply mapPage_req|done]).
    by eapply mapPage_linked.
  - rewrite En, Hn1. by rewrite <- app_assoc.
  - destruct Hf1 as [Hfa Hfb]. split.
    + apply NoDup_app. split_and!; [done| |done]. intros x Hx1 Hx2. rewrite (Hnc x Hx1) in *.
      specialize (Hf2' c Hx2). congruence.
    + intros x [Hx|Hx]%elem_of_app; [by apply Hfb|]. destruct (h !! x) eqn:E; [|done].
      destruct (Hdom x ltac:(by eexists)) as [q Hq]. by rewrite (Hf2' x Hx) in Hq.
  - intros x Hx Hxn q Hq. assert (Hxp : x <> parent) by (intros ->; apply Hxn, nodes_root).
    destruct Hlk as [Hoth _]. destruct (Hoth x Hxp q Hq) as (q1 & Hq1 & Hs1' & Ht1).
    destruct (Hfr2 x) with (q := q1) as (q2 & Hq2 & Hs2 & Ht2'); [by apply Hdom| |done|].
    + intros Hxc%Hsub. rewrite Hn1, elem_of_app in Hxc. destruct Hxc as [?|Hxc]; [done|].
      destruct Hf1 as [_ Hf1]. rewrite (Hf1 x Hxc) in Hq. done.
    + exists q2. split_and!; [done|by eapply static_trans|congruence].
Qed.

(** ** What a walk of a range does to the tree *)

(** The walk changes the objects of its root, and adds new ones. *)
Definition walkedTree (n : nat) (root : loc) (h h' : gmap loc PageTable) : Prop :=
  (forall x, is_Some (h !! x) -> is_Some (h' !! x))
  /\ (exists new, nodes n h' root ≡ₚ nodes n h root ++ new /\ freshIn h new)
  /\ forall x, is_Some (h !! x) -> x ∉ nodes n h root -> unchanged h h' x.

Lemma walkedTree_refl n root h : walkedTree n root h h.
Proof.
  split_and!; [done| |].
  - exists []. rewrite app_nil_r. split; [done|]. split; [apply NoDup_nil_2|]. intros x Hx. by apply elem_of_nil in Hx.
  - intros x _ _ q Hq. exists q. split_and!; auto using static_refl.
Qed.

Lemma unchanged_trans h1 h2 h3 x : unchanged h1 h2 x -> unchanged h2 h3 x -> unchanged h1 h3 x.
Proof.
  intros H12 H23 q Hq. destruct (H12 q Hq) as (q2 & Hq2 & Hs2 & Ht2).
  destruct (H23 q2 Hq2) as (q3 & Hq3 & Hs3 & Ht3). exists q3.
  split_and!; [done|by eapply static_trans|congruence].
Qed.

Lemma walkedTree_trans n root h1 h2 h3 :
  (forall x, x ∈ nodes n h1 root -> is_Some (h1 !! x)) ->
  (forall x, x ∈ nodes n h2 root -> is_Some (h2 !! x)) ->
  walkedTree n root h1 h2 -> walkedTree n root h2 h3 -> walkedTree n root h1 h3.
Proof.
  intros Hc1 Hc2 (D1 & (new1 & N1 & [F1 F1']) & U1) (D2 & (new2 & N2 & [F2 F2']) & U2).
  split_and!; [auto| |].
  - exists (new1 ++ new2). rewrite N2, N1, app_assoc. split; [done|]. split.
    + apply NoDup_app. split_and!; [done| |done]. intros x Hx1 Hx2.
      destruct (Hc2 x) as [q Hq]; [rewrite N1; by apply elem_of_app; right|].
      by rewrite (F2' x Hx2) in Hq.
    + intros x [Hx|Hx]%elem_of_app; [by apply F1'|]. destruct (h1 !! x) eqn:E; [|done].
      destruct (D1 x ltac:(by eexists)) as [q Hq]. by rewrite (F2' x Hx) in Hq.
  - intros x Hx Hn. eapply unchanged_trans; [by apply U1|]. apply U2; [by apply D1|].
    rewrite N1, elem_of_app. intros [?|Hx']; [done|]. destruct Hx as [q Hq]. by rewrite (F1' x Hx') in Hq.
Qed.

(** A separate tree is not touched. *)
Lemma walkedTree_other n root h h' m l :
  linkedOk h -> is_Some (h !! l) -> (forall x, x ∈ nodes m h l -> x ∉ nodes n h root) ->
  walkedTree n root h h' -> tree m h' l = tree m h l /\ nodes m h' l = nodes m h l.
Proof.
  intros Hok Hl Hsep (_ & _ & Hu). apply tree_frame; [done|done|].
  intros x Hx. apply Hu; [by eapply nodes_closed|by apply Hsep].
Qed.

(** A page that a walk maps is found, with the size that the tree says. *)
Lemma findPage_mapPage n t a req phys bank prm :
  treeOk n t -> pageSizeOk req ->
  exists c ph bk pr, findPage n (mapPage n t a req phys bank prm) a = Some (leafSize n t a req, Page c ph bk pr)
    /\ (findPage n t a = None -> ph = phys).
Proof.
  intros Hok Hreq. destruct (findPage n t a) as [[sz pg]|] eqn:E.
  - rewrite (findPage_mapped _ _ _ _ _ _ _ _ E). rewrite (findPage_size _ _ _ req _ E), E. cbn.
    destruct pg as [c ph bk pr|c ch]; [by exists c, ph, bk, pr|]. exfalso. revert t E Hok.
    induction n as [|n IH]; intros t; [by destruct t|]. destruct t as [|c' ch']; [done|].
    cbn [findPage]. destruct (slot ch' _) as [[c2 p2 b2 q2|c2 ch2]|] eqn:Hs; [done| |done].
    intros E (_ & _ & Hch). destruct (Hch _ _ Hs) as [_ Hok]. by eapply IH.
  - destruct (findPage_new _ _ _ _ phys bank prm Hok Hreq E) as [c Hc]. by exists c, phys, bank, prm.
Qed.

(** ** Mapping a range

    The abstract operation behind a walk: the page information recorded for a
    range says where its pages are. *)

(** The piece of a page a walk records. *)
Definition pieceSize (a size sz : Z) : Z := Z.min size (sz - a mod sz).

(** The page that a recorded piece lies in. *)
Definition pieceBase (e : PageInfo) (sz : Z) : Z := u64 (clear_low (pi_physicalAddress e) sz).

(** Maps the pages of the range that [es] lists; [None] when the pieces are not
    those of the range. *)
Fixpoint mapRange (n : nat) (req : Z) (prm : AdditionalParams) (t : Tree) (a size : Z)
    (es : list PageInfo) : option Tree :=
  match es with
  | [] => if size =? 0 then Some t else None
  | e :: es' =>
      let sz := leafSize n t a req in
      if (0 <? size) && (pi_size e =? pieceSize a size sz)
      then mapRange n req prm (mapPage n t a req (pieceBase e sz) (pi_memoryBank e) prm)
             (a + pi_size e) (size - pi_size e) es'
      else None
  end.

Lemma mapRange_step n req prm t a size e es :
  0 < size -> pi_size e = pieceSize a size (leafSize n t a req) ->
  mapRange n req prm t a size (e :: es)
  = mapRange n req prm (mapPage n t a req (pieceBase e (leafSize n t a req)) (pi_memoryBank e) prm)
      (a + pi_size e) (size - pi_size e) es.
Proof. intros Hs He. cbn [mapRange]. by rewrite (proj2 (Z.ltb_lt _ _) Hs), He, Z.eqb_refl. Qed.

Lemma mapRange_inv n req prm t a size es t' :
  mapRange n req prm t a size es = Some t' ->
  (size = 0 /\ es = [] /\ t' = t)
  \/ exists e es', es = e :: es' /\ 0 < size /\ pi_size e = pieceSize a size (leafSize n t a req)
       /\ mapRange n req prm (mapPage n t a req (pieceBase e (leafSize n t a req)) (pi_memoryBank e) prm)
            (a + pi_size e) (size - pi_size e) es' = Some t'.
Proof.
  destruct es as [|e es]; cbn [mapRange].
  - destruct (Z.eqb_spec size 0) as [->|]; [|done]. intros [= ->]. by left.
  - destruct (_ && _) eqn:E; [|done]. apply andb_prop in E as [E1%Z.ltb_lt E2%Z.eqb_eq].
    intros H. right. by exists e, es.
Qed.

(** The page of a piece, from the piece's address. *)
Lemma pieceBase_page phys a sz e :
  pageSizeOk sz -> (sz | phys) -> in_width 64 phys ->
  pi_physicalAddress e = u64 (phys + a mod sz) -> pieceBase e sz = phys.
Proof.
  intros Hsz [q ->] Hph He. unfold pieceBase. rewrite He.
  destruct (pageSizeOk_pow2 _ Hsz) as [(k & Hk & Ek) Hge].
  assert (H64 : (sz | 2 ^ 64)).
  { destruct Hsz as [-> | [-> | ->]]; [by exists (2 ^ 52)|by exists (2 ^ 48)|by exists (2 ^ 43)]. }
  destruct H64 as [m Hm]. pose proof (Z.mod_pos_bound a sz ltac:(lia)) as Hb.
  unfold in_width in Hph. assert (q < m) by nia. assert (0 <= q) by nia.
  assert (Hs : q * sz + a mod sz < 2 ^ 64) by nia.
  rewrite (wrap_small 64 (q * sz + a mod sz)) by (unfold in_width; nia).
  assert (Hcl : forall x, clear_low x sz = x - x mod sz) by (intros x; rewrite Ek; by apply clear_low_mod).
  rewrite Hcl.
  rewrite (Z.add_comm (q * sz)), Z.mod_add, Z.mod_mod by lia.
  replace (a mod sz + q * sz - a mod sz) with (q * sz) by lia. by apply wrap_small.
Qed.

(** Every page of the mapping is kept by the mapping of a range. *)
Lemma mapPage_same n t a req p1 b1 p2 b2 prm :
  findPage n t a <> None \/ p1 = p2 /\ b1 = b2 ->
  mapPage n t a req p1 b1 prm = mapPage n t a req p2 b2 prm.
Proof.
  intros [H|[-> ->]]; [|done]. destruct (findPage n t a) as [r|] eqn:E; [|done].
  by rewrite !(findPage_mapped _ _ _ _ _ _ _ _ E).
Qed.
