(* ===== verification/Walker.v ===== *)
(** * Page table walks

    [page_table_walker.cpp]: [walkMemory] for the global table and for per-process
    tables. A walk collects, in [entries], the physical pieces of the range, and,
    in [pageWalkEntries], the table entries a stream must write per level;
    [pendingNodes] are the objects whose pending flag the stream clears. The
    inner loop of the source is cut at its comments into the definitions below,
    in source order. *)

From S2P Require Import Prelude Allocator MemoryBanks PageTable.
#[local] Open Scope Z_scope.

Inductive WalkMode := Reserve | Clone | Expect.
#[export] Instance WalkMode_eq_dec : EqDecision WalkMode.
Proof. solve_decision. Defined.

(** The members of [PageTableWalker]; the arrays of five vectors are lists of
    length five indexed by level. *)
Record PageTableWalker := mkWalker {
  entries : list PageInfo;
  pageWalkEntries : list (list PageEntryInfo);
  pendingNodes : list (list loc);
  pages64KB : list Z
}.

Definition newWalker : PageTableWalker :=
  mkWalker [] (replicate 5 []) (replicate 5 []) [].

(** The objects, the walker and the walk's [emittedPending] sets. *)
Record WalkState (A : Type) := mkWalkState {
  store : Store A;
  walker : PageTableWalker;
  emittedPending : list (gset loc)
}.
Arguments mkWalkState {A}.
Arguments store {A}.
Arguments walker {A}.
Arguments emittedPending {A}.

Section WalkState.
Context {A : Type}.

Definition onStore {B} (m : M (Store A) B) : M (WalkState A) B :=
  fun w => match m (store w) with
           | Ok (b, s) => Ok (b, mkWalkState s (walker w) (emittedPending w))
           | Err e => Err e
           end.

Definition onWalker (f : PageTableWalker -> PageTableWalker) : M (WalkState A) unit :=
  modify (fun w => mkWalkState (store w) (f (walker w)) (emittedPending w)).

Definition pushEntry (e : PageInfo) : M (WalkState A) unit :=
  onWalker (fun k => mkWalker (entries k ++ [e]) (pageWalkEntries k) (pendingNodes k)
                       (pages64KB k)).

Definition pushPageWalkEntry (level : Z) (e : PageEntryInfo) : M (WalkState A) unit :=
  onWalker (fun k => mkWalker (entries k)
                       (alter (fun v => v ++ [e]) (Z.to_nat level) (pageWalkEntries k))
                       (pendingNodes k) (pages64KB k)).

Definition pushPendingNode (level : Z) (l : loc) : M (WalkState A) unit :=
  onWalker (fun k => mkWalker (entries k) (pageWalkEntries k)
                       (alter (fun v => v ++ [l]) (Z.to_nat level) (pendingNodes k))
                       (pages64KB k)).

Definition pushPage64KB (a : Z) : M (WalkState A) unit :=
  onWalker (fun k => mkWalker (entries k) (pageWalkEntries k) (pendingNodes k)
                       (pages64KB k ++ [a])).

(** [emittedPending[level].insert(l).second]. *)
Definition insertEmitted (level : Z) (l : loc) : M (WalkState A) bool :=
  fun w =>
    let s := default ∅ (emittedPending w !! Z.to_nat level) in
    Ok (bool_decide (l ∉ s),
        mkWalkState (store w) (walker w)
          (alter (fun s => {[l]} ∪ s) (Z.to_nat level) (emittedPending w))).
End WalkState.

Section Walk.
Context {A : Type} `{!PhysicalAddressAllocator A}.
Variable ndebug : bool.
Variable enablePs64 : bool.  (* globalSettings->EnablePs64.get() *)
Variable gpu : GpuOps.

#[local] Abbreviation W := (M (WalkState A)).

Definition wderef (l : loc) : W PageTable := onStore (deref l).
Definition wderefPtr (o : option loc) : W PageTable := onStore (derefPtr o).
Definition wgetChild (l : loc) (i : Z) : W (option loc) := onStore (getChild l i).
Definition wupdate (l : loc) (f : PageTable -> PageTable) : W unit := onStore (update l f).
Definition wgetEntryValue (l : loc) : W Z := onStore (getEntryValue ndebug gpu l).

(** ** walkMemory(GGTT *, ...) *)

(** The loop [for (i = 1u; i < entriesToDump; i++)] over the further 4KB entries
    of a larger page; [n] iterations are left. *)
Fixpoint ggttExtraEntries (n : nat) (ggtt : GGTT) (child : PageTable)
    (enableBits index i physAddress : Z) : W unit :=
  match n with
  | O => mret tt
  | S n' =>
      let physAddress := u64 (physAddress + 4096) in
      c ← onStore (ctorAt ndebug PageTableMemory physAddress (memoryBank child) noParams);
      onStore (setChild (ggtt_table ggtt) (u32 (index + i)) (Some c)) ≫= fun _ =>
      pushPageWalkEntry 0
        (mkPageEntryInfo (u64 (entryOffset ggtt + 8 * u32 (index + i)))
           (Z.lor physAddress enableBits)) ≫= fun _ =>
      ggttExtraEntries n' ggtt child enableBits index (i + 1) physAddress
  end.

(** One iteration of [while (size > 0)]: [None] is the [break]. *)
Definition ggttStep (ggtt : GGTT) (memoryBanks pageSize : Z) (mode : WalkMode)
    (gfxAddress size : Z) : W (option (Z * Z)) :=
  let isLocal := negb (memoryBanks =? mainBank) in
  let pageOffset := Z.land gfxAddress (pageSize - 1) in
  let gpuAddressAligned := u32 (gfxAddress - pageOffset) in
  let index := getIndex GGTTClass gpuAddressAligned in
  child ← wgetChild (ggtt_table ggtt) index;
  child ← (match child with
    | Some c => mret (Some c)
    | None =>
        cassert ndebug (negb (bool_decide (mode = Expect))) ≫= fun _ =>
        if bool_decide (mode = Expect) then mret None
        else
          g ← wderef (ggtt_table ggtt);
          child ← onStore (allocateChild ndebug (ggtt_table ggtt) pageSize (memoryBank g));
          onStore (setChild (ggtt_table ggtt) index child) ≫= fun _ =>
          let enableBits := if isLocal then 3 else 1 in
          p ← wderefPtr child;
          pushPageWalkEntry 0
            (mkPageEntryInfo (u64 (entryOffset ggtt + 8 * index))
               (Z.lor (physicalAddress p) enableBits)) ≫= fun _ =>
          ggttExtraEntries (Z.to_nat (pageSize / 4096) - 1) ggtt p enableBits index 1
            (physicalAddress p) ≫= fun _ =>
          mret child
    end);
  match child with
  | None => mret None
  | Some c =>
      p ← wderef c;
      let sizeThisPass := Z.min (u64 (pageSize - pageOffset)) size in
      pushEntry (mkPageInfo (u64 (physicalAddress p + pageOffset)) sizeThisPass
                   (isLocalMemory p) 0) ≫= fun _ =>
      mret (Some (u64 (gfxAddress + u32 sizeThisPass), size - sizeThisPass))
  end.

Fixpoint walkGGTT (fuel : nat) (ggtt : GGTT) (memoryBanks pageSize : Z)
    (mode : WalkMode) (gfxAddress size : Z) : W unit :=
  if 0 <? size then
    match fuel with
    | O => fail OutOfFuel
    | S fuel' =>
        r ← ggttStep ggtt memoryBanks pageSize mode gfxAddress size;
        match r with
        | None => mret tt
        | Some (gfxAddress, size) =>
            walkGGTT fuel' ggtt memoryBanks pageSize mode gfxAddress size
        end
    end
  else mret tt.

(** ** walkMemory(PageTable *, const AllocationParams &, ...) *)

Definition adjustPageSizeForHardwareSupport (pageSize memoryBanks : Z) : Z :=
  if (pageSize =? pageSize2MB) && negb (isMemorySupported gpu memoryBanks (u32 pageSize))
  then 65536 else pageSize.

Definition hasExistingPageTableConflict (child : option PageTable) (level pageSize : Z)
    : bool :=
  match child with
  | Some c => (level =? PageTableLevel.Pde) && (pageSize =? pageSize2MB)
              && negb (getPageSize (cls c) =? pageSize2MB)
  | None => false
  end.

Definition ps64EntryFlags (l : loc) : W Z :=
  p ← wderef l;
  v ← wgetEntryValue l;
  mret (Z.ldiff (Z.lxor v (physicalAddress p)) (toBitValue [PpgttEntryBits.ps64Bit])).

(** The loop over slots [i .. 15] of [isPs64GroupComplete]; [n] are left. *)
Fixpoint ps64GroupRest (n : nat) (parent : loc) (hwBase i base flags0 : Z) : W bool :=
  match n with
  | O => mret true
  | S n' =>
      ci ← wgetChild parent (hwBase + i);
      match ci with
      | None => mret false
      | Some c =>
          p ← wderef c;
          if negb (physicalAddress p =? u64 (base + i * 4096)) then mret false
          else
            f ← ps64EntryFlags c;
            if negb (f =? flags0) then mret false
            else ps64GroupRest n' parent hwBase (i + 1) base flags0
      end
  end.

Definition isPs64GroupComplete (parent : loc) (hwBase : Z) : W bool :=
  c0 ← wgetChild parent hwBase;
  match c0 with
  | None => mret false
  | Some c =>
      p ← wderef c;
      let base := physicalAddress p in
      if negb (Z.land base 0xffff =? 0) then mret false
      else
        flags0 ← ps64EntryFlags c;
        ps64GroupRest 15 parent hwBase 1 base flags0
  end.

(** What the outer loop fixes for the inner loop. *)
Record WalkEnv := mkWalkEnv {
  ppgtt : loc;
  params : AdditionalParams;
  mode : WalkMode;
  walkIsLocalMemory : bool;
  ps64Applicable : bool;
  clonePageInfo : option PageInfo;
  pageMemoryBank : Z;
  walkGfxAddress : Z;
  walkSize : Z
}.

(** The variables the inner loop assigns. *)
Record Locals := mkLocals {
  l_pageSize : Z;
  l_leafLevel : Z;
  l_child : option loc;
  l_pte : option loc;
  l_physicalAddress : option Z
}.

(** [if (physicalAddress && level == leafLevel && pageSize == 2MB && unaligned)]:
    move on to the next 2MB boundary. *)
Definition alignPhysicalAddress (level leafLevel pageSize : Z) (phys : option Z)
    : option Z :=
  match phys with
  | Some a =>
      if (level =? leafLevel) && (pageSize =? pageSize2MB)
         && negb (Z.land a (pageSize2MB - 1) =? 0)
      then Some (u64 (clear_low a pageSize2MB + pageSize2MB))
      else Some a
  | None => None
  end.

(** [if (!child) { ... }] after the [Expect] break: create the child, link it
    and mark it pending. *)
Definition allocateMissing (env : WalkEnv) (parent : loc) (index level leafLevel pageSize : Z)
    (phys : option Z) : W (option loc) :=
  child ← (match clonePageInfo env with
    | Some info =>
        if level =? leafLevel then
          let aligned := clear_low (pi_physicalAddress info) pageSize in
          c ← onStore (ctorAt ndebug
                 (if pageSize =? pageSize2MB then Page2MB else PageTableMemory)
                 aligned (pi_memoryBank info) (params env));
          mret (Some c)
        else
          p ← wderef parent; onStore (allocateChild ndebug parent pageSize (memoryBank p))
    | None =>
        if negb (level =? leafLevel) then
          p ← wderef parent; onStore (allocateChild ndebug parent pageSize (memoryBank p))
        else match phys with
        | Some a => onStore (allocateChildAt ndebug parent pageSize (pageMemoryBank env)
                               (params env) a)
        | None => onStore (allocateChildParams ndebug parent pageSize (pageMemoryBank env)
                             (params env))
        end
    end);
  onStore (setChild parent index child) ≫= fun _ =>
  match child with
  | None => fail NullDereference
  | Some c =>
      wupdate c (set_pendingWrite true) ≫= fun _ =>
      p ← wderef c;
      when ((level =? PageTableLevel.Pte) && bool_decide (mode env = Reserve)
            && negb (walkIsLocalMemory env) && (pageSize =? 65536))
           (pushPage64KB (physicalAddress p)) ≫= fun _ =>
      mret (Some c)
  end.

(** [if (physicalAddress && level == leafLevel) { ... }]: remap an existing leaf;
    the result is the new [emitEntry]. *)
Definition remapExplicit (env : WalkEnv) (level leafLevel : Z) (phys : option Z)
    (child : loc) (emitEntry : bool) : W bool :=
  match phys with
  | Some a =>
      if level =? leafLevel then
        p ← wderef child;
        emitEntry ← (if negb (physicalAddress p =? a) then
           wupdate child (fun p => set_pendingWrite true (set_physicalAddress a p)) ≫= fun _ =>
           mret true
         else mret emitEntry);
        p ← wderef child;
        if negb (memoryBank p =? pageMemoryBank env) then
          wupdate child (fun p => set_pendingWrite true
                                    (set_memoryBank (pageMemoryBank env) p)) ≫= fun _ =>
          mret true
        else mret emitEntry
      else mret emitEntry
  | None => mret emitEntry
  end.

Definition emitSlot (parent : loc) (level slot : Z) (ci : loc) : W unit :=
  p ← wderef parent;
  v ← wgetEntryValue ci;
  pushPageWalkEntry level
    (mkPageEntryInfo (u64 (physicalAddress p + u32 slot * 8)) v).

(** The completion loop: slots not yet written as PS64, or pending. *)
Fixpoint ps64Complete (n : nat) (parent : loc) (level hwBase i : Z) : W unit :=
  match n with
  | O => mret tt
  | S n' =>
      ci ← wgetChild parent (hwBase + i);
      ci ← from_option_M NullDereference ci;
      p ← wderef ci;
      let isNewPs64 := negb (ps64 p) in
      when isNewPs64
        (wupdate ci (fun p => set_pendingWrite true (set_ps64 true p))) ≫= fun _ =>
      p ← wderef ci;
      isNewPending ← (if pendingWrite p then insertEmitted level ci else mret false);
      when (isNewPs64 || isNewPending) (emitSlot parent level (hwBase + i) ci) ≫= fun _ =>
      when isNewPending (pushPendingNode level ci) ≫= fun _ =>
      ps64Complete n' parent level hwBase (i + 1)
  end.

(** The downgrade loop: clear PS64 on each leaf of the group. *)
Fixpoint ps64Downgrade (n : nat) (parent : loc) (level hwBase i : Z) : W unit :=
  match n with
  | O => mret tt
  | S n' =>
      ci ← wgetChild parent (hwBase + i);
      cassert ndebug (bool_decide (is_Some ci)) ≫= fun _ =>
      ci ← from_option_M NullDereference ci;
      wupdate ci (fun p => set_pendingWrite true (set_ps64 false p)) ≫= fun _ =>
      emitSlot parent level (hwBase + i) ci ≫= fun _ =>
      isFresh ← insertEmitted level ci;
      when isFresh (pushPendingNode level ci) ≫= fun _ =>
      ps64Downgrade n' parent level hwBase (i + 1)
  end.

(** The test [willComplete]: this walk is predicted to fill the group. *)
Definition ps64WillComplete (child : loc) (c0 : option loc) (k size : Z) : W bool :=
  p ← wderef child;
  let expectedPhysBase := u64 (physicalAddress p - k * 4096) in
  if (Z.land expectedPhysBase 0xffff =? 0) && ((16 - k) * 4096 <=? size) then
    if k =? 0 then mret true
    else match c0 with
    | None => mret false
    | Some c =>
        p0 ← wderef c;
        if physicalAddress p0 =? expectedPhysBase then
          f0 ← ps64EntryFlags c;
          f ← ps64EntryFlags child;
          mret (f0 =? f)
        else mret false
    end
  else mret false.

(** The [if (checkPs64)] branch; the result is the new [emitEntry]. *)
Definition ps64Update (env : WalkEnv) (parent child : loc) (level index hwBase : Z)
    (c0 : option loc) (wasPs64Group : bool) : W bool :=
  complete ← isPs64GroupComplete parent hwBase;
  if complete : bool then ps64Complete 16 parent level hwBase 0 ≫= fun _ => mret false
  else if wasPs64Group then ps64Downgrade 16 parent level hwBase 0 ≫= fun _ => mret false
  else
    willComplete ← ps64WillComplete child c0 (index - hwBase) (walkSize env);
    when willComplete
      (wupdate child (fun p => set_pendingWrite true (set_ps64 true p))) ≫= fun _ =>
    mret true.

(** The [else] branch: a pending node is emitted once per walk. *)
Definition emitPending (child : loc) (level : Z) (phys : option Z) (emitEntry : bool)
    : W bool :=
  let emitEntry := emitEntry || bool_decide (is_Some phys) in
  p ← wderef child;
  if pendingWrite p then
    isFresh ← insertEmitted level child;
    if isFresh : bool then pushPendingNode level child ≫= fun _ => mret true
    else mret emitEntry
  else mret emitEntry.

(** [if (emitEntry) { ... }]. *)
Definition emit (parent child : loc) (level index : Z) (checkPs64 emitEntry : bool)
    : W unit :=
  when emitEntry
    (emitSlot parent level index child ≫= fun _ =>
     p ← wderef child;
     when (checkPs64 && pendingWrite p)
       (isFresh ← insertEmitted level child;
        when isFresh (pushPendingNode level child))).

(** One iteration of [while (level >= leafLevel)] at table [parent]; the flag
    of the result is true when the iteration left the loop by a [break]. *)
Definition levelStep (env : WalkEnv) (parent : loc) (level : Z) (v : Locals)
    : W (Locals * bool) :=
  pp ← wderef parent;
  let index := getIndex (cls pp) (walkGfxAddress env) in
  let pte := if level =? PageTableLevel.Pte then Some parent else None in
  let pageSize :=
    if (level =? PageTableLevel.Pte) && negb (getPageSize (cls pp) =? l_pageSize v)
    then getPageSize (cls pp) else l_pageSize v in
  let leafLevel := l_leafLevel v in
  child ← wgetChild parent index;
  cp ← (match child with
        | Some c => p ← wderef c; mret (Some p)
        | None => mret None
        end);
  let existing2MB :=
    match cp with
    | Some c => (level =? PageTableLevel.Pde) && (getPageSize (cls c) =? pageSize2MB)
    | None => false
    end in
  let pageSize := if existing2MB then pageSize2MB else pageSize in
  let leafLevel := if existing2MB then PageTableLevel.Pde else leafLevel in
  if existing2MB && negb (bool_decide (is_Some (l_physicalAddress v))) then
    mret (mkLocals pageSize leafLevel child pte (l_physicalAddress v), true)
  else
  let conflict := hasExistingPageTableConflict cp level pageSize in
  let pageSize := if conflict then 65536 else pageSize in
  let leafLevel := if conflict then PageTableLevel.Pte else leafLevel in
  let phys := alignPhysicalAddress level leafLevel pageSize (l_physicalAddress v) in
  let checkPs64 := ps64Applicable env && (level =? PageTableLevel.Pte)
                   && (getPageSize (cls pp) =? 4096) in
  let hwBase := if checkPs64 then Z.ldiff index 0xf else 0 in
  c0 ← (if checkPs64 then wgetChild parent hwBase else mret None);
  wasPs64Group ← (match c0 with
    | None => mret false
    | Some c => p ← wderef c;
                if ps64 p then isPs64GroupComplete parent hwBase else mret false
    end);
  let missing := negb (bool_decide (is_Some child)) in
  cassert ndebug (negb (missing && bool_decide (mode env = Expect))) ≫= fun _ =>
  if missing && bool_decide (mode env = Expect) then
    mret (mkLocals pageSize leafLevel None pte phys, true)
  else
    child ← (if missing then allocateMissing env parent index level leafLevel pageSize phys
             else mret child);
    c ← from_option_M NullDereference child;
    emitEntry ← remapExplicit env level leafLevel phys c missing;
    emitEntry ← (if checkPs64
                 then ps64Update env parent c level index hwBase c0 wasPs64Group
                 else emitPending c level phys emitEntry);
    emit parent c level index checkPs64 emitEntry ≫= fun _ =>
    mret (mkLocals pageSize leafLevel (Some c) pte phys, false).

(** [while (level >= leafLevel)], with [level = n - 1]; the leaf level is never
    negative, so that the recursion ends. *)
Fixpoint descend (n : nat) (env : WalkEnv) (v : Locals) : W Locals :=
  match n with
  | O => mret v
  | S n' =>
      let level := Z.of_nat n' in
      if l_leafLevel v <=? level then
        parent ← from_option_M NullDereference (l_child v);
        r ← levelStep env parent level v;
        if r.2 : bool then mret r.1 else descend n' env r.1
      else mret v
  end.

(** One iteration of [while (size > 0)] after the inner loop: record the page
    information and advance. *)
Definition recordPage (env : WalkEnv) (c : loc) (v : Locals)
    : W (option Z * Z * Z) :=
  pageSizeThisIteration ←
    (if l_pageSize v =? pageSize2MB then mret pageSize2MB
     else
       cassert ndebug (bool_decide (is_Some (l_pte v))) ≫= fun _ =>
       p ← wderefPtr (l_pte v); mret (getPageSize (cls p)));
  cassert ndebug ((pageSizeThisIteration =? 4096) || (pageSizeThisIteration =? 65536)
                  || (pageSizeThisIteration =? pageSize2MB)) ≫= fun _ =>
  let gfxAddress := walkGfxAddress env in
  let size := walkSize env in
  let pageOffset := Z.land gfxAddress (pageSizeThisIteration - 1) in
  let sizeThisIteration := Z.min size (u64 (pageSizeThisIteration - pageOffset)) in
  p ← wderef c;
  pushEntry (mkPageInfo (u64 (physicalAddress p + pageOffset)) sizeThisIteration
               (isLocalMemory p) (pageMemoryBank env)) ≫= fun _ =>
  let phys :=
    match l_physicalAddress v with
    | Some a =>
        Some (if pageSizeThisIteration =? pageSize2MB
              then u64 (clear_low a pageSize2MB + pageSize2MB)
              else u64 (a + sizeThisIteration))
    | None => None
    end in
  mret (phys, u64 (gfxAddress + sizeThisIteration), size - sizeThisIteration).

Record WalkCall := mkWalkCall {
  w_ppgtt : loc;
  w_params : AllocationParams;
  w_mode : WalkMode;
  w_pageInfos : option (list PageInfo);
  w_levels : Z;
  w_requestedPageSize : Z;
  w_requestedLeafLevel : Z;
  w_ps64Applicable : bool;
  w_bankHelper : MemoryBankHelper.t
}.

(** The [while (size > 0)] loop; [cloneIndex] is [clonePageInfoIndex]. *)
Fixpoint walkLoop (fuel : nat) (call : WalkCall) (cloneIndex : nat) (phys : option Z)
    (gfxAddress size : Z) : W unit :=
  if 0 <? size then
    match fuel with
    | O => fail OutOfFuel
    | S fuel' =>
        bank ← (match phys with
          | Some _ => mret (memoryBanks (w_params call))
          | None => match MemoryBankHelper.getMemoryBank ndebug (w_bankHelper call) gfxAddress with
                    | Ok b => mret b
                    | Err e => fail e
                    end
          end);
        info ← (if bool_decide (w_mode call = Clone) then
            infos ← from_option_M NullDereference (w_pageInfos call);
            i ← from_option_M OutOfBounds (infos !! cloneIndex);
            mret (Some i)
          else mret None);
        let env := mkWalkEnv (w_ppgtt call) (additionalParams (w_params call)) (w_mode call)
                     (negb (memoryBanks (w_params call) =? mainBank))
                     (w_ps64Applicable call) info bank gfxAddress size in
        v ← descend (Z.to_nat (w_levels call)) env
              (mkLocals (w_requestedPageSize call) (w_requestedLeafLevel call)
                 (Some (w_ppgtt call)) None phys);
        match l_child v with
        | None => mret tt
        | Some c =>
            r ← recordPage env c v;
            let '(phys, gfxAddress, size) := r in
            walkLoop fuel' call (S cloneIndex) phys gfxAddress size
        end
    end
  else mret tt.

(** At least one iteration ends per 4KB of the range, plus a partial page at
    each end. *)
Definition walkFuel (size : Z) : nat := S (S (Z.to_nat (size / 4096))).

(** [walkMemory(ppgtt, allocationParams, mode, pageInfos, physicalAddress)]. *)
Definition walkMemory (ppgtt : loc) (ap : AllocationParams) (mode : WalkMode)
    (pageInfos : option (list PageInfo)) (physicalAddress : option Z) : W unit :=
  if size ap =? 0 then mret tt
  else
    cassert ndebug (0 <? pageSize ap) ≫= fun _ =>
    root ← wderef ppgtt;
    let requestedPageSize :=
      adjustPageSizeForHardwareSupport (pageSize ap) (memoryBanks ap) in
    let alignedStart := clear_low (gfxAddress ap) requestedPageSize in
    let alignedEnd :=
      clear_low (u64 (gfxAddress ap + size ap + requestedPageSize - 1)) requestedPageSize in
    let sizePageAligned := u64 (alignedEnd - alignedStart) in
    bankHelper ← from_option_M OutOfFuel
      (MemoryBankHelper.make (memoryBanks ap) alignedStart sizePageAligned);
    let leafLevel := if requestedPageSize =? pageSize2MB
                     then PageTableLevel.Pde else PageTableLevel.Pte in
    modify (fun w => mkWalkState (store w) (walker w) (replicate 5 ∅)) ≫= fun _ =>
    walkLoop (walkFuel (size ap))
      (mkWalkCall ppgtt ap mode pageInfos (numLevels root) requestedPageSize leafLevel
         (enablePs64 && (requestedPageSize =? 4096) && (numLevels root =? 5)) bankHelper)
      0 physicalAddress (gfxAddress ap) (size ap).

(** [walkMemory(GGTT *, gfxAddress, size, ...)]: the loop with enough fuel for
    a page per 4KB. *)
Definition walkMemoryGGTT (ggtt : GGTT) (gfxAddress size memoryBanks pageSize : Z)
    (mode : WalkMode) : W unit :=
  walkGGTT (walkFuel size) ggtt memoryBanks pageSize mode gfxAddress size.
End Walk.
