(* ===== verification/WalkerTheory.v ===== *)
(** * Page table walks: correctness

    Each segment of the walk is specified by what it may change. [quiet] steps
    only change the pending and PS64 flags and emit entries, and [tidy] ones have
    emitted every entry whose flag they changed; [step] also extends the tables,
    and says that every entry that is new or changed has been emitted. The level
    loop is then related to the reference translation [lookupLeaf]. *)

From S2P Require Import Prelude Allocator MemoryBanks PageTable TableTheory TreeView Walker.
#[local] Open Scope Z_scope.

Section WalkRel.
Context {A : Type} `{!PhysicalAddressAllocator A} `{!AllocatorLaws A}.
Variable gpu : GpuOps.
Implicit Types w : WalkState A.

Definition heapOf w : gmap loc PageTable := heap (store w).

(** [e] has been pushed for [level]. *)
Definition emittedEntry w (level : Z) (e : PageEntryInfo) : Prop :=
  exists v, pageWalkEntries (walker w) !! Z.to_nat level = Some v /\ e ∈ v.

(** The nodes whose pending flag the stream will clear exist. *)
Definition nodesOk w : Prop :=
  Forall (fun l => is_Some (heapOf w !! l)) (concat (pendingNodes (walker w))).

Definition wfW w : Prop :=
  wf (store w) /\ length (pageWalkEntries (walker w)) = 5%nat /\ nodesOk w.

(** The entry of a parent for its slot [i]. *)
Definition slotEntry (p : PageTable) (i : Z) (pc : PageTable) : PageEntryInfo :=
  mkPageEntryInfo (u64 (physicalAddress p + u32 i * 8)) (entryValue gpu pc).

(** With [b] false the PS64 flags do not change either. *)
Record quiet (b : bool) w w' : Prop := {
  q_wf : wfW w';
  q_heap : forall l p, heapOf w !! l = Some p -> exists p', heapOf w' !! l = Some p'
    /\ static p p' /\ table p' = table p /\ (b = false -> ps64 p' = ps64 p);
  q_dom : forall l p', heapOf w' !! l = Some p' -> is_Some (heapOf w !! l);
  q_entries : entries (walker w') = entries (walker w);
  q_emitted : forall lv e, emittedEntry w lv e -> emittedEntry w' lv e
}.

(** Child [c] hangs below slot [i] of the table [p] at [l]. *)
Definition edge (h : gmap loc PageTable) (l : loc) (p : PageTable) (i : Z) (c : loc) : Prop :=
  h !! l = Some p /\ 0 <= i /\ tableChild (table p) i = Some c.

(** Every table and page hangs below one slot at most. *)
Definition unshared (h : gmap loc PageTable) : Prop :=
  forall l1 p1 i1 l2 p2 i2 c, edge h l1 p1 i1 c -> edge h l2 p2 i2 c -> l1 = l2 /\ i1 = i2.

(** The edge existed, and its entry is still the same. *)
Definition edgeKept w w' (l : loc) (i : Z) (c : loc) : Prop :=
  exists p0 pc0 pc, edge (heapOf w) l p0 i c /\ heapOf w !! c = Some pc0
    /\ heapOf w' !! c = Some pc /\ ps64 pc = ps64 pc0.

(** The present entry of the edge has been pushed. *)
Definition edgeEmitted w (p : PageTable) (i : Z) (c : loc) : Prop :=
  exists pc, heapOf w !! c = Some pc
    /\ emittedEntry w (classLevel (cls p)) (slotEntry p i pc).

(** What a step made or changed it has emitted, up to the children in [X]. *)
Definition covers (X : loc -> Prop) w w' : Prop :=
  forall l p i c, edge (heapOf w') l p i c ->
    X c \/ edgeKept w w' l i c \/ edgeEmitted w' p i c.

Definition nobody (c : loc) : Prop := False.

Record step (b : bool) w w' : Prop := {
  st_wf : wfW w';
  st_ext : ext (heapOf w) (heapOf w');
  st_entries : entries (walker w') = entries (walker w);
  st_emitted : forall lv e, emittedEntry w lv e -> emittedEntry w' lv e;
  st_unshared : unshared (heapOf w) -> unshared (heapOf w');
  st_ps64 : b = false -> forall l p p', heapOf w !! l = Some p ->
    heapOf w' !! l = Some p' -> ps64 p' = ps64 p;
  st_cover : (b = true -> unshared (heapOf w)) -> covers nobody w w'
}.

Lemma entryValue_static p p' :
  static p p' -> ps64 p' = ps64 p -> entryValue gpu p' = entryValue gpu p.
Proof.
  intros (Hc & _ & Hp & Ha & Hb & _) Hps. unfold entryValue, isLocalMemory.
  by rewrite Hc, Hp, Ha, Hb, Hps.
Qed.

Lemma nodesOk_mono w w' :
  nodesOk w -> pendingNodes (walker w') = pendingNodes (walker w) ->
  (forall l, is_Some (heapOf w !! l) -> is_Some (heapOf w' !! l)) -> nodesOk w'.
Proof.
  unfold nodesOk. intros Hn -> Hl. eapply Forall_impl; [exact Hn|]. intros l. apply Hl.
Qed.

Lemma ext_dom h h' (l : loc) : ext h h' -> is_Some (h !! l) -> is_Some (h' !! l).
Proof. intros Hx [p Hp]. destruct (Hx l p Hp) as (p' & ? & _). by exists p'. Qed.

Lemma quiet_refl b w : wfW w -> quiet b w w.
Proof.
  intros Hwf. split; [done| |eauto|done|done].
  intros l p Hl. exists p. split_and!; auto using static_refl.
Qed.

Lemma quiet_trans b w1 w2 w3 : quiet b w1 w2 -> quiet b w2 w3 -> quiet b w1 w3.
Proof.
  intros [_ H1 D1 E1 M1] [W2 H2 D2 E2 M2]. split; [done| | |by rewrite E2|auto].
  - intros l p Hl. destruct (H1 l p Hl) as (p2 & Hl2 & Hs2 & Ht2 & Hp2).
    destruct (H2 l p2 Hl2) as (p3 & Hl3 & Hs3 & Ht3 & Hp3).
    exists p3. split_and!; [done|by eapply static_trans|congruence|].
    intros Hb. by rewrite Hp3, Hp2.
  - intros l p Hl. destruct (D2 l p Hl) as [p2 Hl2]. by eapply D1.
Qed.

Lemma quiet_ext b w w' : quiet b w w' -> ext (heapOf w) (heapOf w').
Proof.
  intros Hq l p Hl. destruct (q_heap _ _ _ Hq l p Hl) as (p' & Hl' & Hs & Ht & _).
  exists p'. rewrite Ht. done.
Qed.

Lemma quiet_edge b w w' l p' i c :
  quiet b w w' -> edge (heapOf w') l p' i c ->
  exists p, edge (heapOf w) l p i c /\ static p p'.
Proof.
  intros Hq (Hl' & Hi & Hc). destruct (q_dom _ _ _ Hq l p' Hl') as [p Hl].
  destruct (q_heap _ _ _ Hq l p Hl) as (q & Hq' & Hs & Ht & _).
  rewrite Hl' in Hq'. injection Hq' as <-. exists p. rewrite Ht in Hc. done.
Qed.

Lemma unshared_quiet b w w' : quiet b w w' -> unshared (heapOf w) -> unshared (heapOf w').
Proof.
  intros Hq Hu l1 p1 i1 l2 p2 i2 c H1 H2.
  destruct (quiet_edge _ _ _ _ _ _ _ Hq H1) as (q1 & E1 & _).
  destruct (quiet_edge _ _ _ _ _ _ _ Hq H2) as (q2 & E2 & _). by eapply Hu.
Qed.

Lemma wf_edge w l p i c :
  wfW w -> edge (heapOf w) l p i c -> exists pc, heapOf w !! c = Some pc.
Proof.
  intros [Hwf _] (Hl & _ & Hc). destruct (wf_children _ _ (wf_node _ Hwf _ _ Hl) _ _ Hc) as (pc & ? & _).
  by exists pc.
Qed.

(** A quiet step that only raises or lowers the flags of the children in [X]. *)
Lemma quiet_covers b (X : loc -> Prop) w w' :
  wfW w -> quiet b w w' ->
  (forall c pc pc', heapOf w !! c = Some pc -> heapOf w' !! c = Some pc' ->
     X c \/ ps64 pc' = ps64 pc) -> covers X w w'.
Proof.
  intros Hwf Hq HX l p' i c He. destruct (quiet_edge _ _ _ _ _ _ _ Hq He) as (p & He0 & _).
  destruct (wf_edge _ _ _ _ _ Hwf He0) as [pc Hpc].
  destruct (q_heap _ _ _ Hq c pc Hpc) as (pc' & Hpc' & _).
  destruct (HX c pc pc' Hpc Hpc') as [?|Hps]; [by left|right; left]. by exists p, pc, pc'.
Qed.

Lemma quiet_covers_same b w w' :
  wfW w -> quiet b w w' -> heapOf w' = heapOf w -> covers nobody w w'.
Proof.
  intros Hwf Hq Hh. eapply quiet_covers; [done|done|]. intros c pc pc' H1 H2.
  rewrite Hh, H1 in H2. injection H2 as <-. by right.
Qed.

Lemma quiet_covers_false w w' : wfW w -> quiet false w w' -> covers nobody w w'.
Proof.
  intros Hwf Hq. eapply quiet_covers; [done|done|]. intros c pc pc' H1 H2.
  destruct (q_heap _ _ _ Hq c pc H1) as (pc2 & H3 & _ & _ & Hps).
  rewrite H2 in H3. injection H3 as <-. right. by apply Hps.
Qed.

Lemma edgeEmitted_mono w w' p p' i c pc pc' :
  (forall lv e, emittedEntry w lv e -> emittedEntry w' lv e) -> static p p' ->
  heapOf w !! c = Some pc -> heapOf w' !! c = Some pc' -> static pc pc' -> ps64 pc' = ps64 pc ->
  edgeEmitted w p i c -> edgeEmitted w' p' i c.
Proof.
  intros Hm (Hcls & _ & _ & Hphys & _) Hpc Hpc' Hs Hps (pc0 & Hpc0 & Hem).
  rewrite Hpc in Hpc0. injection Hpc0 as <-. exists pc'. split; [done|].
  apply Hm in Hem. unfold slotEntry in *. rewrite Hcls, Hphys. by rewrite (entryValue_static _ _ Hs Hps).
Qed.

Lemma covers_trans X Y w1 w2 w3 :
  ext (heapOf w1) (heapOf w2) -> ext (heapOf w2) (heapOf w3) ->
  (forall lv e, emittedEntry w2 lv e -> emittedEntry w3 lv e) ->
  covers X w1 w2 -> covers Y w2 w3 -> covers (fun c => X c \/ Y c) w1 w3.
Proof.
  intros X1 X2 M2 C1 C2 l p i c He.
  destruct (C2 l p i c He) as [?|[(p2 & pc2 & pc3 & He2 & Hpc2 & Hpc3 & Hps)|?]];
    [by left; right| |by right; right].
  destruct (C1 l p2 i c He2) as [?|[(p1 & pc1 & pc & He1 & Hpc1 & Hpc & Hps1)|Hem]]; [by left; left| |].
  - right; left. exists p1, pc1, pc3. split_and!; try done. congruence.
  - right; right. destruct (X2 c pc2 Hpc2) as (pc3' & Hpc3' & Hs & _).
    destruct He as (Hl & _). destruct He2 as (Hl2 & _). destruct (X2 l p2 Hl2) as (p' & Hl' & Hsp & _).
    rewrite Hl in Hl'. injection Hl' as <-. rewrite Hpc3 in Hpc3'. injection Hpc3' as <-.
    by eapply edgeEmitted_mono.
Qed.

Lemma covers_weaken (X Y : loc -> Prop) w w' :
  (forall c, X c -> Y c) -> covers X w w' -> covers Y w w'.
Proof. intros HXY HC l p i c He. destruct (HC l p i c He) as [?|[?|?]]; auto. Qed.

Lemma covers_nobody X w1 w2 w3 :
  ext (heapOf w1) (heapOf w2) -> ext (heapOf w2) (heapOf w3) ->
  (forall lv e, emittedEntry w2 lv e -> emittedEntry w3 lv e) ->
  covers X w1 w2 -> covers nobody w2 w3 -> covers X w1 w3.
Proof.
  intros H1 H2 H3 H4 H5. eapply covers_weaken; [|by eapply covers_trans]. cbn. by intros c [?|[]].
Qed.

(** The one edge to [c] has been emitted. *)
Lemma covers_emit (X : loc -> Prop) w1 w2 parent p i c :
  unshared (heapOf w2) -> edge (heapOf w2) parent p i c -> edgeEmitted w2 p i c ->
  (forall d, X d -> d = c) -> covers X w1 w2 -> covers nobody w1 w2.
Proof.
  intros Hu He Hem HX HC l q j d Hd. destruct (HC l q j d Hd) as [Hx%HX|?]; [|by right].
  subst d. destruct (Hu _ _ _ _ _ _ _ He Hd) as [-> ->]. right; right.
  destruct He as [H1 _], Hd as [H2 _]. by simplify_eq.
Qed.

(** A quiet step after which every changed entry has been emitted. *)
Definition tidy (b : bool) w w' : Prop :=
  quiet b w w' /\ ((b = true -> unshared (heapOf w)) -> covers nobody w w').

Lemma tidy_trans b w1 w2 w3 : tidy b w1 w2 -> tidy b w2 w3 -> tidy b w1 w3.
Proof.
  intros [Q1 C1] [Q2 C2]. split; [by eapply quiet_trans|]. intros Hu.
  eapply covers_nobody; [by eapply quiet_ext|by eapply quiet_ext|apply Q2|by apply C1|].
  apply C2. intros Hb. eapply unshared_quiet; eauto.
Qed.

Lemma tidy_same b w w' : wfW w -> quiet b w w' -> heapOf w' = heapOf w -> tidy b w w'.
Proof. intros Hwf Hq Hh. split; [done|]. intros _. by eapply quiet_covers_same. Qed.

Lemma tidy_refl b w : wfW w -> tidy b w w.
Proof. intros. by apply tidy_same, eq_refl; [|apply quiet_refl]. Qed.

Lemma tidy_step b w w' : tidy b w w' -> step b w w'.
Proof.
  intros [Hq HC]. pose proof (quiet_ext _ _ _ Hq) as Hx. pose proof Hq as [Hw Hh Hd He Hm].
  split; [done|done|done|done| | |done].
  - by eapply unshared_quiet.
  - intros Hb l p p' Hl Hl'. destruct (Hh l p Hl) as (q & Hq' & _ & _ & Hps).
    rewrite Hl' in Hq'. injection Hq' as <-. by apply Hps.
Qed.

Lemma step_refl b w : wfW w -> step b w w.
Proof. intros. by apply tidy_step, tidy_refl. Qed.

Lemma step_trans b w1 w2 w3 : step b w1 w2 -> step b w2 w3 -> step b w1 w3.
Proof.
  intros [W1 X1 E1 M1 U1 P1 C1] [W2 X2 E2 M2 U2 P2 C2].
  split; [done|by etrans|by rewrite E2|auto|auto| |].
  - intros Hb l p p' Hl Hl'. destruct (X1 l p Hl) as (p2 & Hl2 & _ & _).
    rewrite (P2 Hb l p2 p') by done. by eapply P1.
  - intros Hu. eapply covers_nobody; [done|done|done|by apply C1|]. apply C2. auto.
Qed.
End WalkRel.

Arguments heapOf {A} w.
Arguments emittedEntry {A} w level e.

(** ** Reads and pushes *)

Section WalkOps.
Context {A : Type} `{!PhysicalAddressAllocator A} `{!AllocatorLaws A}.
Variable ndebug : bool.
Variable gpu : GpuOps.
Implicit Types w : WalkState A.

Lemma wp_onStore {B} (m : M (Store A) B) (Q : B -> WalkState A -> Prop) w :
  wp m (fun b s => Q b (mkWalkState s (walker w) (emittedPending w))) (store w) ->
  wp (onStore m) Q w.
Proof. unfold wp, onStore. by destruct (m (store w)) as [[b s]|e]. Qed.

Lemma eta_walk w : mkWalkState (store w) (walker w) (emittedPending w) = w.
Proof. by destruct w. Qed.

Lemma wp_wderef w l p (Q : PageTable -> WalkState A -> Prop) :
  heapOf w !! l = Some p -> Q p w -> wp (wderef l) Q w.
Proof. intros Hl HQ. apply wp_onStore. eapply wp_deref; [exact Hl|]. by rewrite eta_walk. Qed.

Lemma wp_wgetChild w l p i (Q : option loc -> WalkState A -> Prop) :
  heapOf w !! l = Some p -> Q (tableChild (table p) i) w -> wp (wgetChild l i) Q w.
Proof. intros Hl HQ. apply wp_onStore. eapply wp_getChild; [exact Hl|]. by rewrite eta_walk. Qed.

Lemma wp_wgetEntryValue w l p (Q : Z -> WalkState A -> Prop) :
  wfW w -> heapOf w !! l = Some p -> Q (entryValue gpu p) w ->
  wp (wgetEntryValue ndebug gpu l) Q w.
Proof.
  intros [Hwf _] Hl HQ. apply wp_onStore. eapply wp_getEntryValue; [done|exact Hl|].
  by rewrite eta_walk.
Qed.

Lemma emittedEntry_push w lv lv' e e' v :
  pageWalkEntries (walker w) !! Z.to_nat lv = Some v ->
  emittedEntry w lv' e' ->
  emittedEntry (mkWalkState (store w)
    (mkWalker (entries (walker w))
       (alter (fun v => v ++ [e]) (Z.to_nat lv) (pageWalkEntries (walker w)))
       (pendingNodes (walker w)) (pages64KB (walker w))) (emittedPending w)) lv' e'.
Proof.
  intros Hv (v' & Hv' & He'). unfold emittedEntry. simpl.
  destruct (decide (Z.to_nat lv' = Z.to_nat lv)) as [Heq|Hne].
  - rewrite Heq in *. rewrite list_lookup_alter_eq, Hv'. exists (v' ++ [e]).
    split; [done|]. apply elem_of_app. by left.
  - rewrite list_lookup_alter_ne by done. eauto.
Qed.

(** A push of a table entry at a level below five. *)
Lemma wp_pushPageWalkEntry b w lv e (Q : unit -> WalkState A -> Prop) :
  wfW w -> 0 <= lv < 5 ->
  (forall w', quiet b w w' -> heapOf w' = heapOf w -> emittedEntry w' lv e -> Q tt w') ->
  wp (pushPageWalkEntry lv e) Q w.
Proof.
  intros (Hwf & Hlen & Hno) Hlv HQ. apply wp_modify.
  destruct (lookup_lt_is_Some_2 (pageWalkEntries (walker w)) (Z.to_nat lv)) as [v Hv]; [lia|].
  apply HQ; [|done|].
  - split; simpl; [split_and!; [done|simpl; by rewrite length_alter|done]| |eauto|done|].
    + intros l p Hl. exists p. split_and!; auto using static_refl.
    + intros. by eapply emittedEntry_push.
  - exists (v ++ [e]). simpl. rewrite list_lookup_alter_eq, Hv. split; [done|].
    apply elem_of_app. right. by apply list_elem_of_singleton.
Qed.

Lemma quiet_walker b w k em :
  wfW w -> entries k = entries (walker w) ->
  pageWalkEntries k = pageWalkEntries (walker w) ->
  nodesOk (mkWalkState (store w) k em) ->
  quiet b w (mkWalkState (store w) k em).
Proof.
  intros (Hwf & Hlen & _) He Hp Hno. split; simpl.
  - split_and!; [done| |done]. simpl. by rewrite Hp.
  - intros l p Hl. exists p. split_and!; auto using static_refl.
  - eauto.
  - done.
  - unfold emittedEntry. simpl. by rewrite Hp.
Qed.

Lemma concat_alter_app {B} (x y : B) : forall (vs : list (list B)) i,
  y ∈ concat (alter (fun v => v ++ [x]) i vs) -> y = x \/ y ∈ concat vs.
Proof.
  induction vs as [|v vs IH]; intros i Hy; [by apply elem_of_nil in Hy|].
  destruct i as [|i]; cbn in Hy |- *; rewrite !elem_of_app in *.
  - rewrite list_elem_of_singleton in Hy. tauto.
  - destruct Hy as [Hy|Hy%IH]; tauto.
Qed.

Lemma wp_pushPendingNode b w lv l (Q : unit -> WalkState A -> Prop) :
  wfW w -> is_Some (heapOf w !! l) ->
  (forall w', quiet b w w' -> heapOf w' = heapOf w -> Q tt w') ->
  wp (pushPendingNode lv l) Q w.
Proof.
  intros Hwf Hl HQ. apply wp_modify, HQ; [apply quiet_walker; try done|done].
  destruct Hwf as (_ & _ & Hno). unfold nodesOk in *. rewrite Forall_forall in *.
  simpl. intros y Hy. apply concat_alter_app in Hy as [->|Hy]; [done|]. by apply (Hno y).
Qed.

Lemma wp_insertEmitted b w lv l (Q : bool -> WalkState A -> Prop) :
  wfW w -> (forall r w', quiet b w w' -> heapOf w' = heapOf w -> Q r w') ->
  wp (insertEmitted lv l) Q w.
Proof.
  intros Hwf HQ. unfold wp, insertEmitted. apply HQ; [|done].
  destruct Hwf as (H1 & H2 & H3). destruct w as [s k em].
  by apply (quiet_walker b (mkWalkState s k em)).
Qed.

(** A change of flags. *)
Lemma wp_wupdate_flags b w l p f (Q : unit -> WalkState A -> Prop) :
  wfW w -> heapOf w !! l = Some p -> static p (f p) -> table (f p) = table p ->
  (b = false -> ps64 (f p) = ps64 p) ->
  (forall w', quiet b w w' -> heapOf w' = <[l := f p]> (heapOf w) -> Q tt w') ->
  wp (wupdate l f) Q w.
Proof.
  intros (Hwf & Hlen & Hno) Hl Hs Ht Hps HQ. apply wp_onStore. eapply wp_update; [exact Hl|].
  apply HQ; [|done]. split; simpl; [split_and!; simpl; [|done|]| | |done|done].
  2: { eapply nodesOk_mono; [exact Hno|done|]. intros l' [q Hq]. unfold heapOf in *. simpl.
       destruct (decide (l' = l)) as [->|];
         [rewrite lookup_insert_eq|rewrite lookup_insert_ne by done]; by eexists. }
  - eapply wf_update; [done|exact Hl|apply Hs|].
    destruct (wf_node _ Hwf _ _ Hl) as [Hc Ha Hal].
    destruct Hs as (Hcls & Hall & _ & Hphys & Hb & _).
    split; rewrite ?Ht, ?Hcls, ?Hall, ?Hb, ?Hphys; done.
  - intros l' q Hq. unfold heapOf. simpl. destruct (decide (l' = l)) as [->|Hne].
    + rewrite lookup_insert_eq. exists (f p). unfold heapOf in *.
      assert (q = p) as -> by congruence. done.
    + rewrite lookup_insert_ne by done. exists q. split_and!; auto using static_refl.
  - intros l' q Hq. unfold heapOf in Hq. simpl in Hq. apply lookup_insert_Some in Hq as [[<- _]|[_ Hq]]; by eexists.
Qed.
End WalkOps.

(** ** The PS64 segments only change flags and emit *)

Section Ps64.
Context {A : Type} `{!PhysicalAddressAllocator A} `{!AllocatorLaws A}.
Variable ndebug : bool.
Variable gpu : GpuOps.
Implicit Types w : WalkState A.

(** The slots [hwBase + i, hwBase + i + n) of a table are occupied. *)
Definition slotsFull (p : PageTable) (hwBase i : Z) (n : nat) : Prop :=
  forall j, i <= j < i + Z.of_nat n -> is_Some (tableChild (table p) (hwBase + j)).

Lemma wf_slot w l p i c :
  wfW w -> heapOf w !! l = Some p -> tableChild (table p) i = Some c ->
  exists pc, heapOf w !! c = Some pc.
Proof.
  intros [Hwf _] Hl Hc. destruct (wf_children _ _ (wf_node _ Hwf _ _ Hl) _ _ Hc) as (pc & ? & _).
  by exists pc.
Qed.

Lemma quiet_lookup b w w' l p :
  quiet b w w' -> heapOf w !! l = Some p ->
  exists p', heapOf w' !! l = Some p' /\ static p p' /\ table p' = table p.
Proof.
  intros Hq Hl. destruct (q_heap _ _ _ Hq l p Hl) as (p' & ? & ? & ? & _).
  by exists p'.
Qed.

Lemma wp_ps64EntryFlags w l p (Q : Z -> WalkState A -> Prop) :
  wfW w -> heapOf w !! l = Some p -> (forall v, Q v w) ->
  wp (ps64EntryFlags ndebug gpu l) Q w.
Proof.
  intros Hwf Hl HQ. apply wp_bind. eapply wp_wderef; [done|].
  apply wp_bind. eapply wp_wgetEntryValue; [done|done|]. by apply wp_ret.
Qed.

Lemma wp_ps64GroupRest n : forall w parent p hwBase i base flags0 Q,
  wfW w -> heapOf w !! parent = Some p ->
  (forall r : bool, (r = true -> slotsFull p hwBase i n) -> Q r w) ->
  wp (ps64GroupRest ndebug gpu n parent hwBase i base flags0) Q w.
Proof.
  induction n as [|n IH]; intros w parent p hwBase i base flags0 Q Hwf Hl HQ.
  - apply wp_ret, HQ. intros _ j Hj. lia.
  - cbn [ps64GroupRest]. apply wp_bind. eapply wp_wgetChild; [done|].
    destruct (tableChild (table p) (hwBase + i)) as [c|] eqn:Hc; [|by apply wp_ret, HQ].
    destruct (wf_slot _ _ _ _ _ Hwf Hl Hc) as [pc Hpc].
    apply wp_bind. eapply wp_wderef; [done|]. cbv beta zeta; case_match; [by apply wp_ret, HQ|].
    apply wp_bind. eapply wp_ps64EntryFlags; [done|done|]. intros f.
    cbv beta zeta; case_match; [by apply wp_ret, HQ|].
    eapply IH; [done|done|]. intros r Hr. apply HQ. intros Ht j Hj.
    destruct (decide (j = i)) as [->|]; [by eexists|]. apply (Hr Ht). lia.
Qed.

Lemma wp_isPs64GroupComplete w parent p hwBase Q :
  wfW w -> heapOf w !! parent = Some p ->
  (forall r : bool, (r = true -> slotsFull p hwBase 0 16) -> Q r w) ->
  wp (isPs64GroupComplete ndebug gpu parent hwBase) Q w.
Proof.
  intros Hwf Hl HQ. apply wp_bind. eapply wp_wgetChild; [done|].
  destruct (tableChild (table p) hwBase) as [c|] eqn:Hc; [|by apply wp_ret, HQ].
  destruct (wf_slot _ _ _ _ _ Hwf Hl Hc) as [pc Hpc].
  apply wp_bind. eapply wp_wderef; [done|]. cbv beta zeta; case_match; [by apply wp_ret, HQ|].
  apply wp_bind. eapply wp_ps64EntryFlags; [done|done|]. intros f.
  eapply wp_ps64GroupRest; [done|done|]. intros r Hr. apply HQ. intros Ht j Hj.
  destruct (decide (j = 0)) as [->|]; [rewrite Z.add_0_r; by eexists|]. apply (Hr Ht). lia.
Qed.

Lemma wp_emitSlot b w parent p lv i ci pc (Q : unit -> WalkState A -> Prop) :
  wfW w -> heapOf w !! parent = Some p -> heapOf w !! ci = Some pc -> 0 <= lv < 5 ->
  (forall w', quiet b w w' -> heapOf w' = heapOf w ->
     emittedEntry w' lv (slotEntry gpu p i pc) -> Q tt w') ->
  wp (emitSlot ndebug gpu parent lv i ci) Q w.
Proof.
  intros Hwf Hl Hc Hlv HQ. apply wp_bind. eapply wp_wderef; [done|].
  apply wp_bind. eapply wp_wgetEntryValue; [done|done|].
  by apply (wp_pushPageWalkEntry b).
Qed.

Lemma slotsFull_quiet b w w' l p hwBase i n :
  quiet b w w' -> heapOf w !! l = Some p -> slotsFull p hwBase i n ->
  exists p', heapOf w' !! l = Some p' /\ slotsFull p' hwBase i n.
Proof.
  intros Hq Hl Hs. destruct (quiet_lookup _ _ _ _ _ Hq Hl) as (p' & Hl' & _ & Ht).
  exists p'. split; [done|]. unfold slotsFull. by rewrite Ht.
Qed.

Lemma slotsFull_S p hwBase i n :
  slotsFull p hwBase i (S n) ->
  is_Some (tableChild (table p) (hwBase + i)) /\ slotsFull p hwBase (i + 1) n.
Proof. intros Hs. split; [apply Hs; lia|]. intros j Hj. apply Hs. lia. Qed.

Lemma static_flags p b1 b2 : static p (set_pendingWrite b1 (set_ps64 b2 p)).
Proof. by split_and!. Qed.

Lemma wp_when_quiet b w c (m : M (WalkState A) unit) (Q : unit -> WalkState A -> Prop) :
  wfW w -> (c = true -> wp m (fun _ w' => quiet b w w') w) ->
  (forall w', quiet b w w' -> Q tt w') -> wp (when c m) Q w.
Proof.
  intros Hwf Hm HQ. apply wp_when; intros Hc.
  - eapply wp_mono; [by apply Hm|]. intros []. apply HQ.
  - by apply HQ, quiet_refl.
Qed.

(** What a change of the flags of [c] alone leaves to be emitted. *)
Lemma flags_covers b w w' c pc pc' :
  wfW w -> quiet b w w' -> heapOf w !! c = Some pc -> heapOf w' = <[c := pc']> (heapOf w) ->
  covers gpu (fun d => ps64 pc' <> ps64 pc /\ d = c) w w'.
Proof.
  intros Hwf Hq Hc Hh. eapply quiet_covers; [done|done|]. intros d pd pd' H1 H2. rewrite Hh in H2.
  destruct (decide (d = c)) as [->|]; [rewrite lookup_insert_eq in H2|rewrite lookup_insert_ne in H2 by done];
    [|right; congruence].
  injection H2 as <-. rewrite Hc in H1. injection H1 as <-.
  destruct (decide (ps64 pc' = ps64 pc)); [by right|by left].
Qed.

(** PS64 flags only go up. *)
Definition raised w w' : Prop :=
  forall l p p', heapOf w !! l = Some p -> heapOf w' !! l = Some p' -> ps64 p = true -> ps64 p' = true.

(** The children of the slots [hwBase + i, hwBase + i + n) are marked. *)
Definition marked w (p : PageTable) (hwBase i : Z) (n : nat) : Prop :=
  forall j c, i <= j < i + Z.of_nat n -> tableChild (table p) (hwBase + j) = Some c ->
    exists pc, heapOf w !! c = Some pc /\ ps64 pc = true.

(** Marking one slot: the flag, the entry and the pending node. *)
Lemma tidy_marked w w1 w2 parent p i c pc pc1 :
  wfW w -> edge (heapOf w) parent p i c -> heapOf w !! c = Some pc ->
  quiet true w w1 -> heapOf w1 = <[c := pc1]> (heapOf w) ->
  quiet true w1 w2 -> heapOf w2 = heapOf w1 ->
  (ps64 pc1 <> ps64 pc -> emittedEntry w2 (classLevel (cls p)) (slotEntry gpu p i pc1)) ->
  tidy gpu true w w2.
Proof.
  intros Hwf He Hc Hq1 Hh1 Hq2 Hh2 Hem. pose proof (q_wf _ _ _ Hq1) as Hwf1.
  pose proof (flags_covers _ _ _ _ _ _ Hwf Hq1 Hc Hh1) as HC1.
  pose proof (quiet_covers_same gpu _ _ _ Hwf1 Hq2 Hh2) as HC2.
  split; [by eapply quiet_trans|]. intros Hu. specialize (Hu eq_refl).
  assert (HC : covers gpu (fun d => ps64 pc1 <> ps64 pc /\ d = c) w w2)
    by (eapply covers_nobody; [by eapply quiet_ext|by eapply quiet_ext|apply Hq2|done|done]).
  destruct (decide (ps64 pc1 = ps64 pc)) as [Heq|Hne].
  - eapply covers_weaken; [|exact HC]. by intros d [? _].
  - destruct He as (Hl & Hi & Ht). assert (Hpc2 : heapOf w2 !! c = Some pc1)
      by by rewrite Hh2, Hh1, lookup_insert_eq.
    destruct (quiet_lookup _ _ _ _ _ (quiet_trans _ _ _ _ Hq1 Hq2) Hl) as (p2 & Hl2 & Hs2 & Ht2).
    eapply (covers_emit _ _ _ _ parent p2 i c);
      [eapply (unshared_quiet true w); [by eapply quiet_trans|done]| | | |exact HC].
    + unfold edge. by rewrite Ht2.
    + exists pc1. split; [done|]. destruct Hs2 as (Hcls & _ & _ & Hphys & _).
      unfold slotEntry. rewrite Hcls, Hphys. by apply Hem.
    + by intros d [_ ?].
Qed.

Lemma raised_flag w w1 c pc pc1 :
  heapOf w !! c = Some pc -> heapOf w1 = <[c := pc1]> (heapOf w) -> ps64 pc1 = true -> raised w w1.
Proof.
  intros Hc Hh Hp l p p' H1 H2 Hps. rewrite Hh in H2.
  destruct (decide (l = c)) as [->|]; [rewrite lookup_insert_eq in H2|rewrite lookup_insert_ne in H2 by done];
    by simplify_eq.
Qed.

Lemma raised_trans b w1 w2 w3 : quiet b w1 w2 -> raised w1 w2 -> raised w2 w3 -> raised w1 w3.
Proof.
  intros Hq H1 H2 l p p' Hl Hl' Hps. destruct (quiet_lookup _ _ _ _ _ Hq Hl) as (p2 & Hl2 & _).
  eapply H2; [exact Hl2|done|]. by eapply H1.
Qed.

Lemma wp_ps64Complete n : forall w parent p lv hwBase i Q,
  wfW w -> heapOf w !! parent = Some p -> lv = classLevel (cls p) -> 0 <= lv < 5 ->
  0 <= hwBase + i -> slotsFull p hwBase i n ->
  (forall w', tidy gpu true w w' -> raised w w' -> marked w' p hwBase i n -> Q tt w') ->
  wp (ps64Complete ndebug gpu n parent lv hwBase i) Q w.
Proof.
  induction n as [|n IH]; intros w parent p lv hwBase i Q Hwf Hl Hcl Hlv Hi Hs HQ.
  - apply wp_ret, HQ; [by apply tidy_refl|by intros ??? ??; simplify_eq|]. intros j c Hj. lia.
  - cbn [ps64Complete]. destruct (slotsFull_S _ _ _ _ Hs) as [[c Hc] Hs'].
    apply wp_bind. eapply wp_wgetChild; [done|]. rewrite Hc. apply wp_bind, wp_ret.
    destruct (wf_slot _ _ _ _ _ Hwf Hl Hc) as [pc Hpc].
    apply wp_bind. eapply wp_wderef; [done|]. cbv zeta.
    assert (Hgo : forall w1 pc1, quiet true w w1 -> heapOf w1 = <[c := pc1]> (heapOf w) ->
      ps64 pc1 = true -> static pc pc1 ->
      wp (p ← wderef c;
          isNewPending ← (if pendingWrite p then insertEmitted lv c else mret false);
          when (negb (ps64 pc) || isNewPending) (emitSlot ndebug gpu parent lv (hwBase + i) c)
            ≫= fun _ => when isNewPending (pushPendingNode lv c) ≫= fun _ =>
            ps64Complete ndebug gpu n parent lv hwBase (i + 1)) Q w1).
    { intros w1 pc1 Hq1 Hh1 Hps1 _. pose proof (q_wf _ _ _ Hq1) as Hwf1.
      assert (Hpc1 : heapOf w1 !! c = Some pc1) by by rewrite Hh1, lookup_insert_eq.
      destruct (quiet_lookup _ _ _ _ _ Hq1 Hl) as (p1 & Hl1 & Hsp1 & Htp1).
      apply wp_bind. eapply wp_wderef; [done|]. apply wp_bind.
      assert (Hrest : forall (isNew : bool) w2, quiet true w1 w2 -> heapOf w2 = heapOf w1 ->
        wp (when (negb (ps64 pc) || isNew) (emitSlot ndebug gpu parent lv (hwBase + i) c)
              ≫= fun _ => when isNew (pushPendingNode lv c) ≫= fun _ =>
              ps64Complete ndebug gpu n parent lv hwBase (i + 1)) Q w2).
      { intros isNew w2 Hq2 Hh2.
        assert (Hemit : forall w3, quiet true w2 w3 -> heapOf w3 = heapOf w2 ->
          (ps64 pc = false -> emittedEntry w3 lv (slotEntry gpu p1 (hwBase + i) pc1)) ->
          wp (when isNew (pushPendingNode lv c) ≫= fun _ =>
              ps64Complete ndebug gpu n parent lv hwBase (i + 1)) Q w3).
        { intros w3 Hq3 Hh3 Hem3.
          assert (Hnext : forall w4, quiet true w3 w4 -> heapOf w4 = heapOf w3 ->
            wp (ps64Complete ndebug gpu n parent lv hwBase (i + 1)) Q w4).
          { intros w4 Hq4 Hh4.
            pose proof (quiet_trans _ _ _ _ Hq2 (quiet_trans _ _ _ _ Hq3 Hq4)) as Hq14.
            assert (Hh14 : heapOf w4 = heapOf w1) by congruence.
            assert (Ht4 : tidy gpu true w w4).
            { eapply (tidy_marked w w1 w4 parent p (hwBase + i) c pc pc1); try done.
              intros Hne. apply (q_emitted _ _ _ Hq4). destruct Hsp1 as (Hcls & _ & _ & Hphys & _).
              rewrite <- Hcl. unfold slotEntry in *. rewrite <- Hphys. apply Hem3.
              destruct (ps64 pc); [congruence|done]. }
            pose proof (proj1 Ht4) as Hq04.
            destruct (quiet_lookup _ _ _ _ _ Hq04 Hl) as (p4 & Hl4 & Hsp4 & Htp4).
            eapply (IH w4 parent p4); [apply Hq04|done|by destruct Hsp4 as (-> & _)|done|lia| |].
            { unfold slotsFull in *. by rewrite Htp4. }
            intros w5 Ht5 Hr5 Hm5. apply HQ; [by eapply tidy_trans| |].
            - eapply raised_trans; [exact Hq04| |done]. rewrite <- Hh14 in Hh1.
              by eapply raised_flag.
            - intros j d Hj Hd. destruct (decide (j = i)) as [->|];
                [|eapply (Hm5 j); [lia|by rewrite Htp4]].
              assert (d = c) as -> by congruence. rewrite <- Hh14 in Hpc1.
              destruct (quiet_lookup _ _ _ _ _ (proj1 Ht5) Hpc1) as (pc5 & Hpc5 & _).
              exists pc5. split; [done|]. by eapply (Hr5 c pc1). }
          apply wp_bind, wp_when; intros _; [|by apply Hnext, eq_refl; apply quiet_refl, Hq3].
          apply (wp_pushPendingNode true); [apply Hq3|rewrite Hh3, Hh2, Hpc1; by eexists|done]. }
        apply wp_bind, wp_when; intros Hn.
        - eapply (wp_emitSlot true); [apply Hq2|by rewrite Hh2|by rewrite Hh2|done|]. auto.
        - apply Hemit; [apply quiet_refl, Hq2|done|]. by destruct (ps64 pc). }
      cbv beta zeta; case_match.
      - apply (wp_insertEmitted true); [done|]. intros r w2. apply Hrest.
      - apply wp_ret, Hrest; [by apply quiet_refl|done]. }
    destruct (ps64 pc) eqn:Hps; cbn [negb].
    + apply wp_bind, wp_when; intros Hn; [done|].
      apply (Hgo w pc); [by apply quiet_refl|by rewrite insert_id|done|apply static_refl].
    + apply wp_bind, wp_when; intros Hn; [|done].
      eapply (wp_wupdate_flags true); [done|done|apply static_flags|done|done|].
      intros w1 Hq1 Hh1. by apply (Hgo w1 _ Hq1 Hh1).
Qed.

Lemma wp_ps64Downgrade n : forall w parent p lv hwBase i Q,
  wfW w -> heapOf w !! parent = Some p -> lv = classLevel (cls p) -> 0 <= lv < 5 ->
  0 <= hwBase + i -> slotsFull p hwBase i n ->
  (forall w', tidy gpu true w w' -> Q tt w') ->
  wp (ps64Downgrade ndebug gpu n parent lv hwBase i) Q w.
Proof.
  induction n as [|n IH]; intros w parent p lv hwBase i Q Hwf Hl Hcl Hlv Hi Hs HQ.
  - by apply wp_ret, HQ, tidy_refl.
  - cbn [ps64Downgrade]. destruct (slotsFull_S _ _ _ _ Hs) as [[c Hc] Hs'].
    apply wp_bind. eapply wp_wgetChild; [done|]. rewrite Hc.
    apply wp_bind, wp_cassert; [by apply bool_decide_eq_true|]. apply wp_bind, wp_ret.
    destruct (wf_slot _ _ _ _ _ Hwf Hl Hc) as [pc Hpc].
    apply wp_bind. eapply (wp_wupdate_flags true); eauto using static_flags; [done|].
    intros w1 Hq1 Hh1. set (pc1 := set_pendingWrite true (set_ps64 false pc)) in *.
    assert (Hpc1 : heapOf w1 !! c = Some pc1) by by rewrite Hh1, lookup_insert_eq.
    destruct (quiet_lookup _ _ _ _ _ Hq1 Hl) as (p1 & Hl1 & Hsp1 & Htp1).
    apply wp_bind. eapply (wp_emitSlot true); [apply Hq1|done|done|done|]. intros w2 Hq2 Hh2 Hem2.
    apply wp_bind, (wp_insertEmitted true); [apply Hq2|]. intros r w3 Hq3 Hh3.
    assert (Hnext : forall w4, quiet true w3 w4 -> heapOf w4 = heapOf w3 ->
      wp (ps64Downgrade ndebug gpu n parent lv hwBase (i + 1)) Q w4).
    { intros w4 Hq4 Hh4.
      pose proof (quiet_trans _ _ _ _ Hq2 (quiet_trans _ _ _ _ Hq3 Hq4)) as Hq14.
      assert (Ht4 : tidy gpu true w w4).
      { eapply (tidy_marked w w1 w4 parent p (hwBase + i) c pc pc1); try done; [congruence|].
        intros _. apply (q_emitted _ _ _ Hq4), (q_emitted _ _ _ Hq3).
        destruct Hsp1 as (_ & _ & _ & Hphys & _).
        rewrite <- Hcl. unfold slotEntry in *. by rewrite <- Hphys. }
      destruct (quiet_lookup _ _ _ _ _ (proj1 Ht4) Hl) as (p4 & Hl4 & Hsp4 & Htp4).
      eapply (IH w4 parent p4); [apply Ht4|done|by destruct Hsp4 as (-> & _)|done|lia| |].
      { unfold slotsFull in *. by rewrite Htp4. }
      intros w5 Ht5. apply HQ. by eapply tidy_trans. }
    apply wp_bind, wp_when; intros _; [|by apply Hnext, eq_refl; apply quiet_refl, Hq3].
    apply (wp_pushPendingNode true); [apply Hq3|rewrite Hh3, Hh2, Hpc1; by eexists|done].
Qed.

Lemma wp_ps64WillComplete w child pc c0 k size (Q : bool -> WalkState A -> Prop) :
  wfW w -> heapOf w !! child = Some pc ->
  (forall c, c0 = Some c -> is_Some (heapOf w !! c)) ->
  (forall r, Q r w) -> wp (ps64WillComplete ndebug gpu child c0 k size) Q w.
Proof.
  intros Hwf Hc H0 HQ. apply wp_bind. eapply wp_wderef; [done|]. cbv zeta.
  cbv beta zeta; case_match; [|by apply wp_ret]. cbv beta zeta; case_match; [by apply wp_ret|].
  destruct c0 as [c|]; [|by apply wp_ret]. destruct (H0 c eq_refl) as [p0 Hp0].
  apply wp_bind. eapply wp_wderef; [done|]. cbv beta zeta; case_match; [|by apply wp_ret].
  apply wp_bind. eapply wp_ps64EntryFlags; [done|done|]. intros f0.
  apply wp_bind. eapply wp_ps64EntryFlags; [done|done|]. intros f. by apply wp_ret.
Qed.

(** The group of a slot. *)
Lemma group_slot index : 0 <= index -> exists j, 0 <= j < 16 /\ index = Z.ldiff index 0xf + j.
Proof.
  intros Hi. exists (index mod 16). split; [apply Z.mod_pos_bound; lia|].
  change 0xf with (Z.ones 4).
  rewrite Z.ldiff_ones_r, Z.shiftl_mul_pow2, Z.shiftr_div_pow2 by lia.
  change (2 ^ 4) with 16. dlia.
Qed.

(** With [r] true the entry of the child is left to be emitted. In a group
    that is not to be downgraded, the entry of an unmarked child is emitted
    unless it is left. *)
Lemma wp_ps64Update w env parent p child pc lv index c0 was Q :
  wfW w -> edge (heapOf w) parent p index child -> heapOf w !! child = Some pc ->
  lv = classLevel (cls p) -> 0 <= lv < 5 ->
  (forall c, c0 = Some c -> is_Some (heapOf w !! c)) ->
  (was = true -> slotsFull p (Z.ldiff index 0xf) 0 16) ->
  (forall (r : bool) w', quiet true w w' ->
     (unshared (heapOf w) -> covers gpu (fun d => r = true /\ d = child) w w') ->
     (was = false -> ps64 pc = false -> r = false -> unshared (heapOf w) ->
        edgeEmitted gpu w' p index child) -> Q r w') ->
  wp (ps64Update ndebug gpu env parent child lv index (Z.ldiff index 0xf) c0 was) Q w.
Proof.
  intros Hwf He Hc Hcl Hlv H0 Hwas HQ. pose proof He as (Hl & Hi & Ht).
  destruct (group_slot index Hi) as (j & Hj & Hij). set (hwBase := Z.ldiff index 0xf) in *.
  assert (Hb : 0 <= hwBase) by (apply Z.ldiff_nonneg; by left).
  apply wp_bind. eapply wp_isPs64GroupComplete; [done|done|]. intros r Hr. destruct r.
  - apply wp_bind. eapply wp_ps64Complete; [done|done|done|done|lia|by apply Hr|].
    intros w' [Hq HC] _ Hm. apply wp_ret, HQ; [done| |].
    + intros Hu. eapply covers_weaken; [|by apply HC]. by intros d [].
    + intros _ Hps _ Hu. destruct (Hm j child) as (pc' & Hpc' & Hps'); [lia|by rewrite <- Hij|].
      destruct (quiet_lookup _ _ _ _ _ Hq Hl) as (p' & Hl' & Hs & Ht').
      destruct (HC (fun _ => Hu) parent p' index child) as [[]|[(q & q0 & q1 & _ & H1 & H2 & H3)|Hem]].
      * unfold edge. by rewrite Ht'.
      * simplify_eq. congruence.
      * destruct Hs as (Hcls & _ & _ & Hphys & _). unfold edgeEmitted, slotEntry in *.
        by rewrite <- Hcls, <- Hphys.
  - destruct was.
    + apply wp_bind. eapply wp_ps64Downgrade; [done|done|done|done|lia|by apply Hwas|].
      intros w' [Hq HC]. apply wp_ret, HQ; [done| |done].
      intros Hu. eapply covers_weaken; [|by apply HC]. by intros d [].
    + apply wp_bind. eapply wp_ps64WillComplete; [done|done|done|]. intros will.
      apply wp_bind, wp_when; intros _.
      * eapply (wp_wupdate_flags true); eauto using static_flags; [done|].
        intros w' Hq Hh. apply wp_ret, HQ; [done| |done]. intros _.
        eapply covers_weaken; [|exact (flags_covers true w w' child pc _ Hwf Hq Hc Hh)]. by intros d [_ ?].
      * apply wp_ret, HQ; [by apply quiet_refl| |done]. intros _.
        eapply covers_weaken; [|eapply quiet_covers_same; [done|by apply (quiet_refl true)|done]].
        by intros d [].
Qed.
End Ps64.

(** ** One level of the walk *)

Section Level.
Context {A : Type} `{!PhysicalAddressAllocator A} `{!AllocatorLaws A}.
Variable ndebug : bool.
Variable gpu : GpuOps.
Implicit Types w : WalkState A.

Lemma wp_emitPending b w child pc lv e (Q : bool -> WalkState A -> Prop) :
  wfW w -> heapOf w !! child = Some pc ->
  (forall (r : bool) w', quiet b w w' -> heapOf w' = heapOf w -> (e = true -> r = true) -> Q r w') ->
  wp (emitPending child lv None e) Q w.
Proof.
  intros Hwf Hc HQ. unfold emitPending. cbv zeta. rewrite orb_false_r.
  apply wp_bind. eapply wp_wderef; [done|]. cbv beta. case_match.
  - apply wp_bind, (wp_insertEmitted b); [done|]. intros r w1 Hq1 Hh1. destruct r.
    + apply wp_bind, (wp_pushPendingNode b); [by apply Hq1|rewrite Hh1; by eexists|].
      intros w2 Hq2 Hh2.
      apply wp_ret, HQ; [by eapply quiet_trans|congruence|done].
    + by apply wp_ret, HQ.
  - apply wp_ret, HQ; [by apply quiet_refl|done|done].
Qed.

Lemma wp_emit b w parent p child pc lv i ck e (Q : unit -> WalkState A -> Prop) :
  wfW w -> heapOf w !! parent = Some p -> heapOf w !! child = Some pc -> 0 <= lv < 5 ->
  (forall w', quiet b w w' -> heapOf w' = heapOf w ->
     (e = true -> emittedEntry w' lv (slotEntry gpu p i pc)) -> Q tt w') ->
  wp (emit ndebug gpu parent child lv i ck e) Q w.
Proof.
  intros Hwf Hl Hc Hlv HQ. apply wp_when; intros He.
  2: { apply HQ; [by apply quiet_refl|done|by rewrite He]. }
  apply wp_bind. eapply (wp_emitSlot _ _ b); [done|done|done|done|]. intros w1 Hq1 Hh1 Hem.
  apply wp_bind. eapply wp_wderef; [by rewrite Hh1|]. cbv beta.
  apply wp_when; intros _; [|by apply HQ].
  apply wp_bind, (wp_insertEmitted b); [by apply Hq1|]. intros r w2 Hq2 Hh2.
  assert (Hem2 : emittedEntry w2 lv (slotEntry gpu p i pc)) by by apply (q_emitted _ _ _ Hq2).
  apply wp_when; intros _.
  - apply (wp_pushPendingNode b); [by apply Hq2|rewrite Hh2, Hh1; by eexists|].
    intros w3 Hq3 Hh3.
    apply HQ; [|congruence|intros _; by apply (q_emitted _ _ _ Hq3)].
    eapply quiet_trans; [done|]. by eapply quiet_trans.
  - apply HQ; [by eapply quiet_trans|congruence|done].
Qed.

(** A new child [c] below slot [index] of [parent]; nothing emitted yet. *)
Record grown w (parent : loc) (p : PageTable) (index : Z) w' (c : loc) (pc : PageTable)
    : Prop := {
  g_wf : wfW w';
  g_ext : ext (heapOf w) (heapOf w');
  g_child : heapOf w' !! c = Some pc;
  g_ok : childOk (cls p) (cls pc) = true;
  g_parent : exists p', heapOf w' !! parent = Some p' /\ static p p'
               /\ tableChild (table p') index = Some c;
  g_edges : forall l q' i d, heapOf w' !! l = Some q' -> 0 <= i ->
    tableChild (table q') i = Some d ->
    (exists q, heapOf w !! l = Some q /\ tableChild (table q) i = Some d)
    \/ l = parent /\ i = index /\ d = c;
  g_ps64 : forall l q q', heapOf w !! l = Some q -> heapOf w' !! l = Some q' ->
    ps64 q' = ps64 q;
  g_new : heapOf w !! c = None;
  g_unmarked : ps64 pc = false;
  g_linked : childLinked (heapOf w) parent p index (heapOf w') c;
  g_entries : entries (walker w') = entries (walker w);
  g_pwe : pageWalkEntries (walker w') = pageWalkEntries (walker w)
}.

Lemma tableChild_nil i : tableChild [] i = None.
Proof. unfold tableChild. by rewrite lookup_nil. Qed.

Lemma created_grown w s1 s2 parent p index c pc k :
  wfW w -> heapOf w !! parent = Some p -> 0 <= index ->
  created (store w) s1 c pc -> childOk (cls p) (cls pc) = true ->
  tableChild (table p) index = None ->
  wf (set_heap (<[c := set_pendingWrite true pc]> (heap s2)) s2) ->
  ext (heap s1) (heap s2) ->
  heap s2 = <[parent := set_table (tableSet index (Some c) (table p)) p]> (heap s1) ->
  entries k = entries (walker w) -> pageWalkEntries k = pageWalkEntries (walker w) ->
  pendingNodes k = pendingNodes (walker w) ->
  grown w parent p index
    (mkWalkState (set_heap (<[c := set_pendingWrite true pc]> (heap s2)) s2) k
       (emittedPending w)) c (set_pendingWrite true pc).
Proof.
  intros (Hwf & Hlen & Hno) Hl Hi Hcr Hok Hfree Hwf2 Hx2 Hh2 He Hp Hpn.
  pose proof (created_ext _ _ _ _ Hcr) as Hx1. destruct Hcr as [Hw1 Hh1 Hnew Ht Hps].
  unfold heapOf in *. assert (Hne : parent <> c) by congruence.
  set (pc' := set_pendingWrite true pc). set (p' := set_table _ p) in *.
  assert (Hlk : forall l, <[c := pc']> (heap s2) !! l =
            if decide (l = c) then Some pc' else if decide (l = parent) then Some p'
            else heap (store w) !! l).
  { intros l. rewrite Hh2, Hh1. case_decide; [subst; by rewrite lookup_insert_eq|].
    rewrite lookup_insert_ne by done. case_decide; [subst; by rewrite lookup_insert_eq|].
    by rewrite !lookup_insert_ne by done. }
  assert (Hx : ext (heap (store w)) (<[c := pc']> (heap s2))).
  { etrans; [exact Hx1|]. etrans; [exact Hx2|].
    eapply (ext_update _ c pc); [|by split_and!|done].
    rewrite Hh2, Hh1, lookup_insert_ne, lookup_insert_eq by done. done. }
  split; unfold heapOf; simpl; try done.
  - split_and!; simpl; [done|by rewrite Hp|]. eapply nodesOk_mono; [exact Hno|done|].
    intros l. by apply ext_dom.
  - by rewrite lookup_insert_eq.
  - exists p'. rewrite Hlk, decide_False, decide_True by done.
    split_and!; [done|by split_and!|]. cbn. by rewrite tableChild_tableSet, decide_True by done.
  - intros l q' i d Hq Hi' Hd. rewrite Hlk in Hq. destruct (decide (l = c)).
    + injection Hq as <-. cbn in Hd. by rewrite Ht, tableChild_nil in Hd.
    + destruct (decide (l = parent)) as [->|]; [|by left; exists q'].
      injection Hq as <-. cbn in Hd. rewrite tableChild_tableSet in Hd by done.
      case_decide; [right; by simplify_eq|left; by exists p].
  - intros l q q' Hq Hq'. rewrite Hlk in Hq'. case_decide; [by simplify_eq|].
    case_decide; by simplify_eq.
  - split; [|right; split_and!].
    + intros y Hy q Hq. rewrite Hlk. destruct (decide (y = c)); [congruence|].
      rewrite decide_False by done. exists q. split_and!; auto using static_refl.
    + by rewrite <- slot_tableChild.
    + done.
    + exists pc'. by rewrite Hlk, decide_True.
    + exists p'. rewrite Hlk, decide_False, decide_True by done. split_and!; done.
Qed.

(** What the outer loop guarantees about the environment. *)
Record envOk (env : WalkEnv) : Prop := {
  env_mode : mode env <> Expect;
  env_bank : valid_bank (pageMemoryBank env);
  env_addr : 0 <= walkGfxAddress env
}.

(** Page size and leaf level agree. *)
Definition sizeLeaf (pageSize leafLevel : Z) : Prop :=
  pageSizeOk pageSize /\ leafLevel = if pageSize =? pageSize2MB then 1 else 0.

Lemma isPTE_level c : classLevel c = 0 -> c <> GGTTClass -> isPTE c = true.
Proof. by destruct c. Qed.
Lemma isPTE_level' c : 0 < classLevel c -> isPTE c = false /\ c <> GGTTClass.
Proof. by destruct c. Qed.
Lemma isPDE_level c : classLevel c = 1 -> isPDE c = true.
Proof. by destruct c. Qed.

Lemma clear_low_2MB x : Z.land (clear_low x pageSize2MB) (pageSize2MB - 1) = 0.
Proof. apply land_2MB. change pageSize2MB with (2 ^ 21). by apply clear_low_divide. Qed.

(** Linking and marking a created child. *)
Lemma wp_linkChild w s1 parent p index c pc lv cond (Q : option loc -> WalkState A -> Prop) :
  wfW w -> heapOf w !! parent = Some p -> 0 <= index ->
  tableChild (table p) index = None ->
  created (store w) s1 c pc -> childOk (cls p) (cls pc) = true ->
  (forall w', grown w parent p index w' c (set_pendingWrite true pc) -> Q (Some c) w') ->
  wp (onStore (setChild parent index (Some c)) ≫= fun _ =>
      wupdate c (set_pendingWrite true) ≫= fun _ =>
      p ← wderef c;
      when ((lv : bool) && cond) (pushPage64KB (physicalAddress p)) ≫= fun _ => mret (Some c)) Q
     (mkWalkState s1 (walker w) (emittedPending w)).
Proof.
  intros Hwf Hl Hi Hfree Hcr Hok HQ. pose proof Hcr as [Hw1 Hh1 Hnew Ht Hps].
  unfold heapOf in Hl. assert (Hne : parent <> c) by congruence.
  apply wp_bind, wp_onStore. eapply wp_setChild; simpl; [done| |done|done| |exact Hok|].
  { rewrite Hh1, lookup_insert_ne; [exact Hl|done]. }
  { by rewrite Hh1, lookup_insert_eq. }
  intros s2 Hw2 Hx2 Hh2.
  assert (Hc2 : heap s2 !! c = Some pc)
    by by rewrite Hh2, Hh1, lookup_insert_ne, lookup_insert_eq by done.
  assert (Hw3 : wf (set_heap (<[c := set_pendingWrite true pc]> (heap s2)) s2)).
  { eapply wf_update; [done|exact Hc2|done|].
    destruct (wf_node _ Hw2 _ _ Hc2) as [Ha Hb Hc]. by split. }
  apply wp_bind, wp_onStore. eapply wp_update; [exact Hc2|]. simpl.
  apply wp_bind. eapply wp_wderef; [by apply lookup_insert_eq|]. cbv beta.
  apply wp_bind, wp_when; intros _; [apply wp_modify|];
    apply wp_ret; simpl; apply HQ;
    (eapply created_grown; try done; exact Hl).
Qed.

Lemma sizeLeaf_cases ps lf : sizeLeaf ps lf -> (ps = pageSize2MB /\ lf = 1) \/ (ps <> pageSize2MB /\ lf = 0).
Proof. intros [_ ->]. destruct (Z.eqb_spec ps pageSize2MB); auto. Qed.

(** What a new child is: a page, for the walk's page information or from the
    allocator, or a table of the class below. *)
Definition newChildOk (env : WalkEnv) (p pc : PageTable) (level leafLevel pageSize : Z) : Prop :=
  if level =? leafLevel then
    cls pc = (if isPTE (cls p) then PageTableMemory else Page2MB)
    /\ additionalAllocParams pc = params env
    /\ match clonePageInfo env with
       | Some info => physicalAddress pc = clear_low (pi_physicalAddress info) pageSize
                      /\ memoryBank pc = pi_memoryBank info
       | None => (pageSize | physicalAddress pc) /\ memoryBank pc = pageMemoryBank env
       end
  else childClass (cls p) pageSize = Some (cls pc).

(** The three ways to create a leaf or an interior table. *)
Lemma wp_newChild w env parent p level leafLevel pageSize Q :
  wfW w -> envOk env -> heapOf w !! parent = Some p -> cls p <> GGTTClass ->
  classLevel (cls p) = level -> sizeLeaf pageSize leafLevel -> 0 <= leafLevel <= level ->
  (forall c pc s', created (store w) s' c pc -> childOk (cls p) (cls pc) = true ->
     (level = 1 -> (cls pc = Page2MB <-> pageSize = pageSize2MB)) ->
     newChildOk env p pc level leafLevel pageSize -> Q (Some c) (mkWalkState s' (walker w) (emittedPending w))) ->
  wp (match clonePageInfo env with
      | Some info =>
          if level =? leafLevel then
            let aligned := clear_low (pi_physicalAddress info) pageSize in
            c ← onStore (ctorAt ndebug
                   (if pageSize =? pageSize2MB then Page2MB else PageTableMemory)
                   aligned (pi_memoryBank info) (params env));
            mret (Some c)
          else
            p ← wderef parent; onStore (allocateChild ndebug parent pageSize (memoryBank p))
      | None =>
          if negb (level =? leafLevel) then
            p ← wderef parent; onStore (allocateChild ndebug parent pageSize (memoryBank p))
          else onStore (allocateChildParams ndebug parent pageSize (pageMemoryBank env)
                               (params env))
      end) Q w.
Proof.
  intros Hwf Henv Hl Hg Hlv Hsl Hle HQ. pose proof Hwf as [Hwfs _].
  assert (Hin : level <> leafLevel ->
    wp (p ← wderef parent; onStore (allocateChild ndebug parent pageSize (memoryBank p))) Q w).
  { intros Hne. destruct (isPTE_level' (cls p)) as [Hpte _]; [lia|].
    apply wp_bind. eapply wp_wderef; [done|]. apply wp_onStore.
    eapply wp_allocateChild; [done|exact Hl|done|done|lia|].
    intros c pc s' Hcr Hcc. destruct (childClass_ok (cls p) pageSize Hpte Hg ltac:(lia))
      as (cc & Hcc' & Hok & _ & _ & H2 & _). rewrite Hcc in Hcc'. injection Hcc' as Heq.
    apply (HQ c pc s' Hcr); rewrite ?Heq; [done| |].
    - intros H1. rewrite H2. destruct (sizeLeaf_cases _ _ Hsl) as [[? ?]|[? ?]]; [lia|]. tauto.
    - unfold newChildOk. by rewrite (proj2 (Z.eqb_neq _ _)). }
  assert (Hcase : level = leafLevel -> (isPTE (cls p) = true /\ level = 0 /\ pageSize <> pageSize2MB)
            \/ (isPTE (cls p) = false /\ isPDE (cls p) = true /\ level = 1 /\ pageSize = pageSize2MB)).
  { intros ->. destruct (sizeLeaf_cases _ _ Hsl) as [[? ?]|[? ?]]; subst leafLevel.
    - right. destruct (isPTE_level' (cls p)) as [? _]; [lia|]. by auto using isPDE_level.
    - left. by auto using isPTE_level. }
  destruct (clonePageInfo env) as [info|] eqn:Einfo; destruct (Z.eqb_spec level leafLevel) as [Heq|Hne];
    simpl negb; cbv match; try (by apply Hin).
  - cbv zeta. apply wp_bind, wp_onStore. apply wp_ctorAt; [done|by case_match| |].
    { destruct (Z.eqb_spec pageSize pageSize2MB) as [->|]; [|done]. intros _. apply clear_low_2MB. }
    intros c pc s' Hcr Hcls Hb Hpr Hph. apply wp_ret, (HQ c pc s' Hcr).
    + rewrite Hcls. destruct (Hcase Heq) as [(Hp & _ & Hps)|(_ & Hp & _ & ->)].
      * rewrite (proj2 (Z.eqb_neq _ _)) by done. by destruct (cls p).
      * rewrite Z.eqb_refl. by destruct (cls p).
    + intros _. rewrite Hcls. destruct (Z.eqb_spec pageSize pageSize2MB); done.
    + unfold newChildOk. rewrite (proj2 (Z.eqb_eq _ _)), Einfo by done. split_and!; [|done|done|done].
      rewrite Hcls. destruct (Hcase Heq) as [(-> & _ & Hps)|(-> & _ & _ & ->)]; [|by rewrite Z.eqb_refl].
      by rewrite (proj2 (Z.eqb_neq _ _)).
  - apply wp_onStore. eapply wp_allocateChildParams; [done|exact Hl|apply Hsl|apply Henv| |].
    { destruct (Hcase Heq) as [(? & _)|(_ & ? & _ & ?)]; auto. }
    intros c pc s' Hcr Hcls Hb Hpr Hdiv. apply (HQ c pc s' Hcr).
    + rewrite Hcls. destruct (Hcase Heq) as [(Hp & _)|(Hp' & Hp & _)]; [rewrite Hp|rewrite Hp'];
        by destruct (cls p).
    + intros H1. rewrite Hcls.
      destruct (Hcase Heq) as [(_ & ? & _)|(-> & _ & _ & ->)]; [lia|done].
    + unfold newChildOk. by rewrite (proj2 (Z.eqb_eq _ _)), Einfo by done.
Qed.

Lemma wp_allocateMissing w env parent p index level leafLevel pageSize Q :
  wfW w -> envOk env -> heapOf w !! parent = Some p -> cls p <> GGTTClass ->
  classLevel (cls p) = level -> 0 <= index -> tableChild (table p) index = None ->
  sizeLeaf pageSize leafLevel -> 0 <= leafLevel <= level ->
  (forall c pc w', grown w parent p index w' c pc ->
     (level = 1 -> (cls pc = Page2MB <-> pageSize = pageSize2MB)) ->
     newChildOk env p pc level leafLevel pageSize -> Q (Some c) w') ->
  wp (allocateMissing ndebug env parent index level leafLevel pageSize None) Q w.
Proof.
  intros Hwf Henv Hl Hg Hlv Hi Hfree Hsl Hle HQ. apply wp_bind.
  eapply wp_newChild; try done. intros c pc s' Hcr Hok H1 Hnc.
  eapply wp_linkChild; try done. intros w' Hgr. by apply (HQ c (set_pendingWrite true pc)).
Qed.
End Level.

Section LevelStep.
Context {A : Type} `{!PhysicalAddressAllocator A} `{!AllocatorLaws A}.
Variable ndebug : bool.
Variable gpu : GpuOps.
Implicit Types w : WalkState A.

Lemma unshared_grown w parent p index w1 c pc :
  wfW w -> 0 <= index -> grown w parent p index w1 c pc ->
  unshared (heapOf w) -> unshared (heapOf w1).
Proof.
  intros Hwf Hi Hg Hu l1 p1 i1 l2 p2 i2 d (H1 & Hi1 & Hd1) (H2 & Hi2 & Hd2).
  assert (Hnew : forall l q i, heapOf w !! l = Some q -> 0 <= i -> tableChild (table q) i = Some c -> False).
  { intros l q i Hq Hi' Hc'. destruct (wf_edge w l q i c Hwf) as [? Hn]; [done|].
    by rewrite (g_new _ _ _ _ _ _ _ Hg) in Hn. }
  destruct (g_edges _ _ _ _ _ _ _ Hg l1 p1 i1 d H1 Hi1 Hd1) as [(q1 & E1 & F1)|(-> & -> & ->)],
    (g_edges _ _ _ _ _ _ _ Hg l2 p2 i2 _ H2 Hi2 Hd2) as [(q2 & E2 & F2)|(-> & -> & ?)].
  - by eapply (Hu l1 q1 i1 l2 q2 i2 d).
  - subst d. exfalso. exact (Hnew l1 q1 i1 E1 Hi1 F1).
  - exfalso. exact (Hnew l2 q2 i2 E2 Hi2 F2).
  - done.
Qed.

Lemma grown_step b w parent p index w1 c pc w2 :
  wfW w -> 0 <= index -> grown w parent p index w1 c pc -> tidy gpu b w1 w2 ->
  ((b = true -> unshared (heapOf w1)) -> edgeEmitted gpu w2 p index c) ->
  step gpu b w w2.
Proof.
  intros Hwf Hi Hg Ht Hem. pose proof (tidy_step gpu _ _ _ Ht) as Hst.
  pose proof (unshared_grown _ _ _ _ _ _ _ Hwf Hi Hg) as Hun.
  destruct Hg as [Hw1 Hx1 Hc1 Hok (p1 & Hp1 & Hs1 & Hpc1) Hedges Hps _ _ Hlk He Hpwe].
  split; [apply Hst|etrans; [exact Hx1|apply Hst]|rewrite (st_entries gpu _ _ _ Hst); done| | | |].
  - intros lv e He'. apply (st_emitted gpu _ _ _ Hst). unfold emittedEntry in *. by rewrite Hpwe.
  - intros Hu. apply (st_unshared gpu _ _ _ Hst); auto.
  - intros Hb l q q' Hq1 Hq2. destruct (Hx1 l q Hq1) as (q1 & Hl1 & _ & _).
    rewrite (st_ps64 gpu _ _ _ Hst Hb l q1 q') by done. by eapply Hps.
  - intros Hu. assert (Hu1 : b = true -> unshared (heapOf w1)) by auto. specialize (Hem Hu1).
    intros l q i d Hd. destruct (proj2 Ht Hu1 l q i d Hd)
      as [[]|[(q1 & pd1 & pd & (Hl1 & Hi1 & Hd1) & Hpd1 & Hpd & Hsame)|?]]; [right|by right; right].
    destruct (Hedges l q1 i d Hl1 Hi1 Hd1) as [(q0 & Hl0 & Hd0)|(-> & -> & ->)].
    + left. assert (He0 : edge (heapOf w) l q0 i d) by done.
      destruct (wf_edge _ _ _ _ _ Hwf He0) as [pd0 Hpd0].
      exists q0, pd0, pd. split_and!; try done. rewrite Hsame. by eapply Hps.
    + right. destruct Hd as [Hq _].
      destruct (ext_lookup _ _ _ _ (st_ext gpu _ _ _ Hst) Hp1) as (q' & Hq' & Hs' & _).
      rewrite Hq in Hq'. injection Hq' as <-.
      pose proof (static_trans _ _ _ Hs1 Hs') as (Hcls & _ & _ & Hphys & _).
      unfold edgeEmitted, slotEntry in *. by rewrite Hcls, Hphys.
Qed.

(** The end of the level step: the PS64 update or the pending check, and the
    emission. *)
Lemma wp_levelTail w env parent p c pc level index ck c0 was e (v : Locals) (Q : Locals * bool -> WalkState A -> Prop) :
  wfW w -> edge (heapOf w) parent p index c -> heapOf w !! c = Some pc ->
  level = classLevel (cls p) -> 0 <= level < 5 ->
  (ck = true -> ps64Applicable env = true) ->
  (ck = true -> forall c', c0 = Some c' -> is_Some (heapOf w !! c')) ->
  (ck = true -> was = true -> slotsFull p (Z.ldiff index 0xf) 0 16) ->
  (e = true -> ps64 pc = false /\ (ck = true -> was = false)) ->
  (forall w', tidy gpu (ps64Applicable env) w w' ->
     (e = true -> (ps64Applicable env = true -> unshared (heapOf w)) -> edgeEmitted gpu w' p index c) ->
     Q (v, false) w') ->
  wp (emitEntry ← (if (ck : bool)
                 then ps64Update ndebug gpu env parent c level index
                        (if ck then Z.ldiff index 0xf else 0) c0 was
                 else emitPending c level None e);
      emit ndebug gpu parent c level index ck emitEntry ≫= fun _ => mret (v, false)) Q w.
Proof.
  intros Hwf He Hc Hcl Hlv Hck H0 Hwas Hnew HQ. set (b := ps64Applicable env) in *.
  pose proof He as (Hl & Hi & Ht). apply wp_bind. destruct ck.
  - rewrite Hck in * by done. eapply wp_ps64Update; eauto. intros r w1 Hq1 HC1 Hem1.
    destruct (quiet_lookup _ _ _ _ _ Hq1 Hl) as (p1 & Hl1 & Hs1 & Ht1).
    destruct (quiet_lookup _ _ _ _ _ Hq1 Hc) as (pc1 & Hc1 & _).
    apply wp_bind. eapply (wp_emit _ _ true); [by apply Hq1|done|done|done|]. intros w2 Hq2 Hh2 Hem.
    pose proof Hs1 as (Hcls & _ & _ & Hphys & _).
    assert (Hc2 : heapOf w2 !! c = Some pc1) by by rewrite Hh2.
    assert (Hr : r = true -> edgeEmitted gpu w2 p index c).
    { intros Hr. exists pc1. split; [done|]. rewrite <- Hcl. unfold slotEntry in *.
      rewrite <- Hphys. by apply Hem. }
    apply wp_ret, HQ.
    + split; [by eapply quiet_trans|]. intros Hu. specialize (Hu eq_refl).
      pose proof (quiet_covers_same gpu _ _ _ (q_wf _ _ _ Hq1) Hq2 Hh2) as HC2.
      assert (HC : covers gpu (fun d => r = true /\ d = c) w w2)
        by (eapply covers_nobody; [by eapply quiet_ext|by eapply quiet_ext|apply Hq2|by apply HC1|done]).
      destruct r; [|eapply covers_weaken; [|exact HC]; by intros d [? _]].
      eapply (covers_emit gpu _ w w2 parent p1 index c);
        [eapply (unshared_quiet true w); [by eapply quiet_trans|done]| | | |exact HC].
      * unfold edge. by rewrite Hh2, Ht1.
      * unfold edgeEmitted, slotEntry. rewrite Hcls, Hphys. by apply Hr.
      * by intros d [_ ?].
    + intros Hee Hu. destruct (Hnew Hee) as [Hps Hw]. destruct r; [by apply Hr|].
      destruct (Hem1 (Hw eq_refl) Hps eq_refl (Hu eq_refl)) as (pc2 & Hpc2 & Hem2).
      exists pc2. split; [by rewrite Hh2|]. by apply (q_emitted _ _ _ Hq2).
  - eapply (wp_emitPending b); [done|done|]. intros r w1 Hq1 Hh1 Hr.
    apply wp_bind. eapply (wp_emit _ _ b); [by apply Hq1|by rewrite Hh1|by rewrite Hh1|done|].
    intros w2 Hq2 Hh2 Hem. apply wp_ret, HQ.
    + apply tidy_same; [done|by eapply quiet_trans|congruence].
    + intros Hee _. exists pc. split; [by rewrite Hh2, Hh1|]. rewrite <- Hcl. by apply Hem, Hr.
Qed.

(** The outcome of one level: the child on the path, and what the locals say. *)
Definition levelOutcome (p pc : PageTable) (parent : loc) (level : Z) (v : Locals) (brk : bool)
    : Prop :=
  (cls pc = Page2MB /\ l_pageSize v = pageSize2MB /\ level = 1
     /\ (brk = true \/ brk = false /\ l_leafLevel v = 1))
  \/ (cls pc <> Page2MB /\ brk = false /\ level = 0
     /\ l_pageSize v = getPageSize (cls p) /\ l_pte v = Some parent)
  \/ (cls pc <> Page2MB /\ brk = false /\ 1 <= level
     /\ sizeLeaf (l_pageSize v) (l_leafLevel v) /\ l_leafLevel v <= level - 1).

(** The page size of a level before the child is looked at. *)
Definition levelSize (p : PageTable) (level : Z) (v : Locals) : Z :=
  if (level =? PageTableLevel.Pte) && negb (getPageSize (cls p) =? l_pageSize v)
  then getPageSize (cls p) else l_pageSize v.

(** What the level did to the table: nothing, or a new child. *)
Definition levelGrowth (env : WalkEnv) w parent p (level : Z) (v : Locals) w' c pc : Prop :=
  childLinked (heapOf w) parent p (getIndex (cls p) (walkGfxAddress env)) (heapOf w') c
  /\ (child p (walkGfxAddress env) = None ->
      newChildOk env p pc level (l_leafLevel v) (levelSize p level v)).

Definition levelPost (env : WalkEnv) w parent p (level : Z) (v : Locals) (r : Locals * bool) w'
    : Prop :=
  step gpu (ps64Applicable env) w w' /\ l_physicalAddress r.1 = None
  /\ (1 < level -> l_pageSize r.1 = l_pageSize v)
  /\ exists c p' pc, l_child r.1 = Some c
    /\ heapOf w' !! parent = Some p' /\ static p p' /\ child p' (walkGfxAddress env) = Some c
    /\ heapOf w' !! c = Some pc /\ childOk (cls p) (cls pc) = true
    /\ levelOutcome p pc parent level r.1 r.2
    /\ levelGrowth env w parent p level v w' c pc.

Lemma quiet_unchanged b w w' x : quiet b w w' -> unchanged (heapOf w) (heapOf w') x.
Proof. intros Hq q Hx. destruct (q_heap _ _ _ Hq x q Hx) as (q' & ? & ? & ? & _). by exists q'. Qed.

Lemma childLinked_quiet b h0 parent p i w c w' :
  childLinked h0 parent p i (heapOf w) c -> quiet b w w' -> childLinked h0 parent p i (heapOf w') c.
Proof.
  intros [Ho Hc] Hq. pose proof (fun x => quiet_unchanged _ _ _ x Hq) as Hu. split.
  - intros x Hx. eapply unchanged_trans; [by apply Ho|done].
  - destruct Hc as [[Hs Hp]|(Hs & Hn & (pc & Hpc & Ht) & p' & Hp' & Hst & Hpt)]; [left|right].
    + split; [done|]. by eapply unchanged_trans.
    + destruct (Hu c pc Hpc) as (pc2 & Hpc2 & _ & Ht2). destruct (Hu parent p' Hp') as (p2 & Hp2 & Hs2 & Hpt2).
      split_and!; [done|done|exists pc2; by rewrite Ht2|].
      exists p2. rewrite Hpt2. split_and!; [done|by eapply static_trans|done].
Qed.

Lemma newChildOk_static env p pc pc' level lf ps :
  static pc pc' -> newChildOk env p pc level lf ps -> newChildOk env p pc' level lf ps.
Proof. unfold newChildOk. by intros (-> & _ & -> & -> & -> & _). Qed.

Lemma sizeLeaf_range ps lf : sizeLeaf ps lf -> lf = 0 \/ lf = 1.
Proof. intros [_ ->]. case_match; auto. Qed.


Lemma wp_groupSnapshot {B} w parent p hwBase (ck : bool) (k : option loc -> bool -> M (WalkState A) B)
    (Q : B -> WalkState A -> Prop) :
  wfW w -> heapOf w !! parent = Some p ->
  (forall c0 was, (forall c', c0 = Some c' -> is_Some (heapOf w !! c')) ->
     (was = true -> slotsFull p hwBase 0 16) -> wp (k c0 was) Q w) ->
  wp (c0 ← (if ck then wgetChild parent hwBase else mret None);
      was ← (match c0 with
        | None => mret false
        | Some c => p ← wderef c;
                    if ps64 p then isPs64GroupComplete ndebug gpu parent hwBase else mret false
        end);
      k c0 was) Q w.
Proof.
  intros Hwf Hl HQ. apply wp_bind. destruct ck; [|by apply wp_ret, wp_bind, wp_ret, HQ].
  eapply wp_wgetChild; [done|].
  destruct (tableChild (table p) hwBase) as [c0|] eqn:Hc; [|by apply wp_bind, wp_ret, HQ].
  destruct (wf_slot _ _ _ _ _ Hwf Hl Hc) as [pc Hpc].
  assert (H0 : forall c', Some c0 = Some c' -> is_Some (heapOf w !! c'))
    by (intros c' [= <-]; by eexists).
  apply wp_bind, wp_bind. eapply wp_wderef; [done|]. cbv beta. case_match.
  - eapply wp_isPs64GroupComplete; [done|done|]. intros r Hr. by apply HQ.
  - by apply wp_ret, HQ.
Qed.

(** The locals of a level when its child is not an existing 2MB page reached
    without explicit address; [ps] and [lf] after the adjustments. *)
Lemma levelOutcome_intro p pc parent level v ps lf c :
  0 <= level -> classLevel (cls p) = level -> childOk (cls p) (cls pc) = true ->
  sizeLeaf (l_pageSize v) (l_leafLevel v) ->
  (level = 0 -> ps = getPageSize (cls p)) ->
  (1 < level -> ps = l_pageSize v /\ lf = l_leafLevel v) ->
  (level = 1 -> sizeLeaf ps lf /\ (cls pc = Page2MB <-> ps = pageSize2MB)) ->
  levelOutcome p pc parent level
    (mkLocals ps lf (Some c) (if level =? 0 then Some parent else None) None) false.
Proof.
  intros H0 Hlv Hok Hsl Hps0 Hps2 Hps1. unfold levelOutcome. cbn [l_pageSize l_leafLevel l_pte].
  destruct (decide (level = 0)) as [->|Hn0]; [|destruct (decide (level = 1)) as [->|Hn1]].
  - right; left. rewrite (childOk_leaf _ _ Hok Hlv). split_and!; auto.
  - destruct (Hps1 eq_refl) as [Hsl' Hiff].
    destruct (sizeLeaf_cases _ _ Hsl') as [[-> ->]|[Hne ->]].
    + left. split_and!; [by apply Hiff|done|done|by right].
    + right; right. split_and!; [by rewrite Hiff|done|lia|done|lia].
  - right; right. destruct (Hps2 ltac:(lia)) as [-> ->].
    split_and!; [eapply childOk_upper; [done|lia]|done|lia|done|].
    destruct (sizeLeaf_cases _ _ Hsl) as [[_ ->]|[_ ->]]; lia.
Qed.

Lemma sizeLeaf_4096 : sizeLeaf 4096 0.
Proof. split; [by left|done]. Qed.
Lemma sizeLeaf_65536 : sizeLeaf 65536 0.
Proof. split; [by right; left|done]. Qed.
Lemma sizeLeaf_pte c : classLevel c = 0 -> sizeLeaf (getPageSize c) 0.
Proof. intros H. destruct (getPageSize_pte c H) as [-> | ->]; auto using sizeLeaf_4096, sizeLeaf_65536. Qed.

Lemma levelSize_0 p v : levelSize p 0 v = getPageSize (cls p).
Proof. unfold levelSize. simpl. destruct (Z.eqb_spec (getPageSize (cls p)) (l_pageSize v)); done. Qed.
Lemma levelSize_ne p level v : level <> 0 -> levelSize p level v = l_pageSize v.
Proof. intros H. unfold levelSize. by rewrite (proj2 (Z.eqb_neq level PageTableLevel.Pte)). Qed.
Lemma levelSize_leaf p level v :
  classLevel (cls p) = level -> sizeLeaf (l_pageSize v) (l_leafLevel v) ->
  0 <= level -> l_leafLevel v <= level -> sizeLeaf (levelSize p level v) (l_leafLevel v).
Proof.
  intros Hlv Hsl H0 Hle. destruct (decide (level = 0)) as [->|].
  - rewrite levelSize_0. destruct (sizeLeaf_cases _ _ Hsl) as [[_ ?]|[_ ->]]; [lia|].
    by apply sizeLeaf_pte.
  - by rewrite levelSize_ne.
Qed.
(** The level step when the slot is free. *)
Lemma wp_levelStep_free w env parent p level v Q :
  wfW w -> envOk env -> heapOf w !! parent = Some p -> cls p <> GGTTClass ->
  classLevel (cls p) = level -> 0 <= level < 5 ->
  sizeLeaf (l_pageSize v) (l_leafLevel v) -> l_leafLevel v <= level ->
  l_physicalAddress v = None -> child p (walkGfxAddress env) = None ->
  (forall r w', levelPost env w parent p level v r w' -> Q r w') ->
  wp (levelStep ndebug gpu env parent level v) Q w.
Proof.
  intros Hwf Henv Hl Hg Hlv H05 Hsl Hle Hphys Hfree HQ.
  pose proof (levelSize_leaf _ _ _ Hlv Hsl ltac:(lia) Hle) as Hsl'.
  pose proof (getIndex_nonneg (cls p) _ (env_addr _ Henv)) as Hidx.
  pose proof (sizeLeaf_range _ _ Hsl) as Hlf. pose proof Henv as [Hmode _ _].
  apply wp_bind. eapply wp_wderef; [done|]. cbv beta zeta. apply wp_bind.
  eapply wp_wgetChild; [done|]. unfold child in Hfree. rewrite Hfree.
  apply wp_bind, wp_ret. cbv beta iota. cbn [andb negb hasExistingPageTableConflict].
  rewrite Hphys. cbn [alignPhysicalAddress].
  eapply wp_groupSnapshot; [done|done|]. intros c0 was H0 Hwas.
  rewrite (bool_decide_eq_false_2 (mode env = Expect)), (bool_decide_eq_false_2 (is_Some None))
    by (done || by intros []).
  apply wp_bind, wp_cassert; [done|]. cbn [andb negb].
  fold (levelSize p level v). apply wp_bind.
  eapply wp_allocateMissing; [done|done|done|done|done|done|done|exact Hsl'|lia|].
  intros c pc w1 Hgr Hpc Hnc. apply wp_bind, wp_ret, wp_bind, wp_ret. cbv beta.
  destruct (g_parent _ _ _ _ _ _ _ Hgr) as (p1 & Hl1 & Hs1 & Hc1).
  destruct (ext_lookup _ _ _ _ (g_ext _ _ _ _ _ _ _ Hgr) Hl) as (p1' & Hl1' & _ & Ht).
  rewrite Hl1 in Hl1'. injection Hl1' as <-.
  eapply (wp_levelTail w1 env parent p1 c pc);
    [apply Hgr|done|apply Hgr|by destruct Hs1 as (-> & _)|done| | | | |].
  { intros Hck. by apply andb_prop in Hck as [[? _]%andb_prop _]. }
  { intros _ c' Hc'. destruct (H0 c' Hc') as [q Hq].
    destruct (ext_lookup _ _ _ _ (g_ext _ _ _ _ _ _ _ Hgr) Hq) as (q' & ? & _). by exists q'. }
  { intros Hck Hw j Hj. rewrite Hck in Hwas. destruct (Hwas Hw j Hj) as [d Hd]. exists d. by apply Ht. }
  { intros _. split; [apply Hgr|]. intros Hck. destruct was; [|done]. rewrite Hck in Hwas.
    destruct (group_slot _ Hidx) as (j & Hj & Hij). destruct (Hwas eq_refl j) as [d Hd]; [lia|].
    rewrite <- Hij in Hd. congruence. }
  intros w2 Htd Hem. pose proof (proj1 Htd) as Hq2. apply HQ.
  split_and!; [|done|by intros ?; apply levelSize_ne; lia|].
  { eapply grown_step; [done|exact Hidx|done|done|]. intros Hu.
    destruct (Hem eq_refl Hu) as (pc' & Hpc' & Hem'). exists pc'. split; [done|].
    destruct Hs1 as (Hcls & _ & _ & Hphys1 & _). unfold slotEntry in *. by rewrite Hcls, Hphys1 in Hem'. }
  destruct (quiet_lookup _ _ _ _ _ Hq2 Hl1) as (p2 & Hl2 & Hs2 & Ht2).
  destruct (quiet_lookup _ _ _ _ _ Hq2 (g_child _ _ _ _ _ _ _ Hgr)) as (pc2 & Hc2 & Hsc & _).
  pose proof (static_trans _ _ _ Hs1 Hs2) as Hs12. pose proof Hs12 as (Hcls & _).
  pose proof Hsc as (Hclsc & _).
  exists c, p2, pc2. split_and!; try done.
  - unfold child. by rewrite Hcls, Ht2.
  - rewrite Hclsc. apply Hgr.
  - apply (levelOutcome_intro _ _ _ _ v); rewrite ?Hclsc; try done; [lia|apply Hgr| | |].
    + intros ->. apply levelSize_0.
    + intros Hgt. rewrite levelSize_ne by lia. done.
    + intros H1. split; [done|by apply Hpc].
  - split; [eapply childLinked_quiet; [apply Hgr|done]|]. intros _. by eapply newChildOk_static.
Qed.

Lemma levelGrowth_occupied b w env parent p level v w' c pc :
  heapOf w !! parent = Some p -> child p (walkGfxAddress env) = Some c -> quiet b w w' ->
  levelGrowth env w parent p level v w' c pc.
Proof.
  intros Hl Hc Hq. pose proof (fun x => quiet_unchanged _ _ _ x Hq) as Hu.
  split; [|by rewrite Hc]. split; [auto|left]. split; [|done].
  unfold child in Hc. by rewrite <- slot_tableChild.
Qed.

(** The level step when the slot is occupied. *)
Lemma wp_levelStep_occupied w env parent p level v c Q :
  wfW w -> envOk env -> heapOf w !! parent = Some p ->
  classLevel (cls p) = level -> 0 <= level < 5 ->
  sizeLeaf (l_pageSize v) (l_leafLevel v) -> l_leafLevel v <= level ->
  l_physicalAddress v = None -> child p (walkGfxAddress env) = Some c ->
  (forall r w', levelPost env w parent p level v r w' -> Q r w') ->
  wp (levelStep ndebug gpu env parent level v) Q w.
Proof.
  intros Hwf Henv Hl Hlv H05 Hsl Hle Hphys Hch HQ. pose proof Hwf as [Hwfs _].
  pose proof (levelSize_leaf _ _ _ Hlv Hsl ltac:(lia) Hle) as Hsl'.
  destruct (wf_child _ _ _ _ _ Hwfs Hl Hch) as (pc & Hpc & Hok). fold (heapOf w) in Hpc.
  apply wp_bind. eapply wp_wderef; [done|]. cbv beta zeta. apply wp_bind.
  eapply wp_wgetChild; [done|]. pose proof Hch as Hch'. unfold child in Hch'. rewrite Hch'.
  apply wp_bind, wp_bind. eapply wp_wderef; [done|]. apply wp_ret. cbv beta iota.
  rewrite Hphys. cbn [alignPhysicalAddress]. fold (levelSize p level v).
  rewrite (bool_decide_eq_false_2 (is_Some None)), (bool_decide_eq_true_2 (is_Some (Some c)))
    by (by intros [] || by eexists). cbn [negb andb]. rewrite andb_true_r.
  destruct ((level =? PageTableLevel.Pde) && (getPageSize (cls pc) =? pageSize2MB)) eqn:E2.
  { apply andb_prop in E2 as [E2%Z.eqb_eq E3%Z.eqb_eq%getPageSize_2MB]. cbv beta iota.
    apply wp_ret, HQ. split_and!; [by apply step_refl|done|by unfold PageTableLevel.Pde in *; lia|].
    exists c, p, pc. split_and!; auto using static_refl; [left; split_and!; auto|].
    by apply (levelGrowth_occupied (ps64Applicable env)), quiet_refl. }
  cbv beta iota. eapply wp_groupSnapshot; [done|done|]. intros c0 was H0 Hwas.
  apply wp_bind, wp_cassert; [done|]. cbv beta iota. apply wp_bind, wp_ret.
  apply wp_bind, wp_ret, wp_bind, wp_ret. cbv beta.
  eapply (wp_levelTail w env parent p c pc); [done| |done|done|done| |done| |done|].
  { split_and!; [done| |done]. by apply getIndex_nonneg, Henv. }
  { intros Hck. by apply andb_prop in Hck as [[? _]%andb_prop _]. }
  { intros Hck. by rewrite Hck in Hwas. }
  intros w2 Htd _. pose proof (proj1 Htd) as Hq2. apply HQ.
  split_and!; [by apply tidy_step|done| |].
  { intros Hgt. cbn [fst l_pageSize]. unfold hasExistingPageTableConflict.
    rewrite (proj2 (Z.eqb_neq level PageTableLevel.Pde)) by (unfold PageTableLevel.Pde; lia).
    by rewrite levelSize_ne by lia. }
  destruct (quiet_lookup _ _ _ _ _ Hq2 Hl) as (p2 & Hl2 & Hs2 & Ht2).
  destruct (quiet_lookup _ _ _ _ _ Hq2 Hpc) as (pc2 & Hc2 & Hsc & _).
  pose proof Hs2 as (Hcls & _). pose proof Hsc as (Hclsc & _).
  exists c, p2, pc2. split_and!; try done.
  - unfold child. by rewrite Hcls, Ht2.
  - by rewrite Hclsc.
  - apply (levelOutcome_intro _ _ _ _ v); rewrite ?Hclsc; try done; [lia| | |];
      unfold hasExistingPageTableConflict.
    + intros ->. apply levelSize_0.
    + intros Hgt. rewrite levelSize_ne by lia.
      by rewrite (proj2 (Z.eqb_neq level PageTableLevel.Pde)) by (unfold PageTableLevel.Pde; lia).
    + intros H1. unfold PageTableLevel.Pde in *. rewrite (proj2 (Z.eqb_eq level 1) H1) in *.
      cbn [andb] in *. rewrite E2. cbn [negb]. rewrite andb_true_r.
      apply Z.eqb_neq in E2. rewrite getPageSize_2MB in E2.
      destruct (Z.eqb_spec (levelSize p level v) pageSize2MB) as [Heq|Hne].
      * split; [apply sizeLeaf_65536|]. split; [done|]. intros Hx. discriminate Hx.
      * split; [done|]. split; [done|]. done.
  - by eapply levelGrowth_occupied.
Qed.
Lemma wp_levelStep w env parent p level v Q :
  wfW w -> envOk env -> heapOf w !! parent = Some p -> cls p <> GGTTClass ->
  classLevel (cls p) = level -> 0 <= level < 5 ->
  sizeLeaf (l_pageSize v) (l_leafLevel v) -> l_leafLevel v <= level ->
  l_physicalAddress v = None ->
  (forall r w', levelPost env w parent p level v r w' -> Q r w') ->
  wp (levelStep ndebug gpu env parent level v) Q w.
Proof.
  intros. destruct (child p (walkGfxAddress env)) as [c|] eqn:Hc.
  - by eapply wp_levelStep_occupied.
  - by eapply wp_levelStep_free.
Qed.

(** The page size a finished descent reports. *)
Definition reports w (v : Locals) (sz : Z) : Prop :=
  pageSizeOk sz /\ l_physicalAddress v = None
  /\ (sz = pageSize2MB /\ l_pageSize v = pageSize2MB
      \/ l_pageSize v <> pageSize2MB /\ exists q pq, l_pte v = Some q
           /\ heapOf w !! q = Some pq /\ getPageSize (cls pq) = sz).

Lemma childOk_not_ggtt c c' : childOk c c' = true -> c' <> GGTTClass.
Proof. by destruct c, c'. Qed.

(** The page a walk may make: at the address that the page information gives, or
    wherever the allocator puts it. *)
Definition pageData (env : WalkEnv) (sz phys bank : Z) : Prop :=
  in_width 64 phys
  /\ match clonePageInfo env with
     | Some info => phys = u64 (clear_low (pi_physicalAddress info) sz) /\ bank = pi_memoryBank info
     | None => (sz | phys) /\ bank = pageMemoryBank env
     end.

Lemma pageData_some env sz : exists phys bank, pageData env sz phys bank.
Proof.
  unfold pageData. destruct (clonePageInfo env) as [info|].
  - exists (u64 (clear_low (pi_physicalAddress info) sz)), (pi_memoryBank info).
    split; [by apply wrap_range|done].
  - exists 0, (pageMemoryBank env). split; [done|]. split; [apply Z.divide_0_r|done].
Qed.

Lemma pageSizeOk_width sz x : pageSizeOk sz -> (sz | x) -> (sz | u64 x).
Proof.
  intros Hsz Hx. unfold wrap. rewrite Z.mod_eq by done.
  apply Z.divide_sub_r; [done|]. apply Z.divide_mul_l. destruct Hsz as [-> | [-> | ->]].
  - by exists (2 ^ 52).
  - by exists (2 ^ 48).
  - by exists (2 ^ 43).
Qed.

Lemma newChildOk_page env p pc level lf sz :
  pageSizeOk sz -> level = lf -> newChildOk env p pc level lf sz ->
  cls pc = (if isPTE (cls p) then PageTableMemory else Page2MB) /\ additionalAllocParams pc = params env
  /\ pageData env sz (u64 (physicalAddress pc)) (memoryBank pc).
Proof.
  intros Hsz -> Hn. unfold newChildOk in Hn. rewrite Z.eqb_refl in Hn. destruct Hn as (Hc & Hp & Hd).
  split_and!; [done|done|]. split; [by apply wrap_range|]. destruct (clonePageInfo env) as [info|].
  - destruct Hd as [-> ->]. done.
  - destruct Hd as [Hd ->]. split; [by apply pageSizeOk_width|done].
Qed.

(** The page is found, or made, at this level. *)
Lemma level_mapsInto_page w env parent p level n v w' c pc sz :
  wfW w -> heapOf w !! parent = Some p -> cls p <> GGTTClass ->
  classLevel (cls p) = level -> level = Z.of_nat n ->
  sizeLeaf (l_pageSize v) (l_leafLevel v) -> 0 <= l_leafLevel v <= level ->
  levelGrowth env w parent p level v w' c pc -> heapOf w' !! c = Some pc ->
  childOk (cls p) (cls pc) = true ->
  level = 0 /\ sz = getPageSize (cls p) \/ level = 1 /\ cls pc = Page2MB /\ sz = pageSize2MB ->
  mapsInto (pageData env sz) (params env) (S n) (heapOf w) parent (walkGfxAddress env) (l_pageSize v)
    (heapOf w').
Proof.
  intros Hwf Hl Hg Hlv Hn Hsl Hle [Hlk Hnew] Hpc Hok Hcase.
  eapply mapsInto_page; [by apply wf_linkedOk, Hwf|exact Hl|by rewrite Hlv|apply pageData_some|exact Hlk|
    exact Hpc| | |].
  - destruct Hcase as [[H0 _]|(_ & -> & _)]; [|done]. by rewrite (childOk_leaf _ _ Hok) by lia.
  - destruct Hcase as [[H0 _]|(_ & ? & _)]; [left; lia|by right].
  - intros Hs. assert (Hc : child p (walkGfxAddress env) = None)
      by (unfold child; by rewrite slot_tableChild).
    specialize (Hnew Hc). destruct Hcase as [[H0 ->]|(H1 & H2 & ->)].
    + assert (n = 0%nat) as -> by lia. rewrite H0, levelSize_0 in Hnew.
      apply newChildOk_page in Hnew as (Hcl & Hpr & Hd);
        [|destruct (getPageSize_pte (cls p) ltac:(lia)) as [-> | ->]; [by left|by right; left]|lia].
      rewrite isPTE_level in Hcl by (done || lia). by split_and!.
    + assert (n = 1%nat) as -> by lia. rewrite levelSize_ne in Hnew by lia.
      destruct (sizeLeaf_cases _ _ Hsl) as [[Hps Hlf]|[Hps Hlf]].
      * rewrite Hps in *. apply newChildOk_page in Hnew as (Hcl & Hpr & Hd); [|by right; right|lia].
        split_and!; try done.
      * unfold newChildOk in Hnew. rewrite (proj2 (Z.eqb_neq _ _)) in Hnew by lia.
        exfalso. by eapply childClass_small.
Qed.

(** The walk goes on below a table. *)
Lemma level_mapsInto_below D w env parent p n v v1 w1 c pc h2 :
  wfW w -> wfW w1 -> ext (heapOf w) (heapOf w1) -> heapOf w !! parent = Some p ->
  classLevel (cls p) = Z.of_nat (S n) ->
  sizeLeaf (l_pageSize v) (l_leafLevel v) -> 0 <= l_leafLevel v <= Z.of_nat (S n) ->
  levelGrowth env w parent p (Z.of_nat (S n)) v w1 c pc -> heapOf w1 !! c = Some pc -> cls pc <> Page2MB ->
  (1 < Z.of_nat (S n) -> l_pageSize v1 = l_pageSize v) ->
  mapsInto D (params env) (S n) (heapOf w1) c (walkGfxAddress env) (l_pageSize v1) h2 ->
  mapsInto D (params env) (S (S n)) (heapOf w) parent (walkGfxAddress env) (l_pageSize v) h2.
Proof.
  intros Hwf Hwf1 Hx Hl Hlv Hsl Hle [Hlk Hnew] Hpc H2 Hps Hm.
  eapply mapsInto_below; [by apply wf_linkedOk, Hwf|by apply wf_linkedOk, Hwf1|exact Hl|done| |exact Hlk|
    exact Hpc|done| | |exact Hm].
  - intros x. by apply ext_dom.
  - intros Hs. assert (Hc : child p (walkGfxAddress env) = None)
      by (unfold child; by rewrite slot_tableChild).
    specialize (Hnew Hc). unfold newChildOk in Hnew. rewrite levelSize_ne in Hnew by lia.
    destruct (Z.eqb_spec (Z.of_nat (S n)) (l_leafLevel v)) as [E|E].
    + destruct Hnew as [Hcl _]. destruct (isPTE_level' (cls p)) as [Hp _]; [lia|]. by rewrite Hp in Hcl.
    + split; [done|]. intros ->. destruct (sizeLeaf_cases _ _ Hsl) as [[_ ?]|[? _]]; [lia|done].
  - destruct (decide (n = 0%nat)); [by left|right; apply Hps; lia].
Qed.

(** The level loop finds, or builds, the leaf of the reference translation. *)
Lemma wp_descend n : forall w env parent p v Q,
  wfW w -> envOk env -> heapOf w !! parent = Some p -> cls p <> GGTTClass ->
  classLevel (cls p) = Z.of_nat n -> (n < 5)%nat ->
  sizeLeaf (l_pageSize v) (l_leafLevel v) -> l_leafLevel v <= Z.of_nat n ->
  l_physicalAddress v = None -> l_child v = Some parent ->
  (forall v' w' c sz, step gpu (ps64Applicable env) w w' -> l_child v' = Some c ->
     lookupLeaf (S n) (heapOf w') parent (walkGfxAddress env) = Some (c, sz) ->
     is_Some (heapOf w' !! c) -> reports w' v' sz ->
     mapsInto (pageData env sz) (params env) (S n) (heapOf w) parent (walkGfxAddress env) (l_pageSize v)
       (heapOf w') -> Q v' w') ->
  wp (descend ndebug gpu (S n) env v) Q w.
Proof.
  induction n as [|n IH]; intros w env parent p v Q Hwf Henv Hl Hg Hlv Hn Hsl Hle Hphys Hpar HQ;
    cbn [descend]; rewrite (proj2 (Z.leb_le _ _) Hle), Hpar; apply wp_bind, wp_ret, wp_bind;
    (eapply wp_levelStep; [done|done|done|done|done|lia|done|done|done|]);
    intros [v1 brk] w1 (Hst & Hph & Hsame & c & p1 & pc & Hc & Hl1 & Hs1 & Hch & Hpc & Hok & Hout & Hgr);
    cbn [fst snd] in *; pose proof Hs1 as (Hcls & _);
    pose proof (sizeLeaf_range _ _ Hsl) as Hlf0.
  - assert (Hll : lookupLeaf 1 (heapOf w1) parent (walkGfxAddress env)
                  = Some (c, getPageSize (cls p))).
    { cbn [lookupLeaf]. by rewrite Hl1, Hch, Hcls. }
    destruct Hout as [(_ & _ & ? & _)|[(_ & -> & _ & Hps & Hpte)|(_ & _ & ? & _)]]; [lia| |lia].
    pose proof (sizeLeaf_pte (cls p) Hlv) as [Hszok _].
    apply wp_ret. eapply HQ; [done|done|done|by eexists| |].
    { split_and!; [done|done|right]. split.
      { rewrite Hps. destruct (getPageSize_pte _ Hlv) as [-> | ->]; done. }
      exists parent, p1. by rewrite Hcls. }
    eapply (level_mapsInto_page w env parent p 0); try done; [lia|by left].
  - assert (Hn2 : forall h r, h !! parent = Some p1 ->
       h !! c = Some pc -> (if decide (cls pc = Page2MB) then Some (c, pageSize2MB)
          else lookupLeaf (S n) h c (walkGfxAddress env)) = r ->
       lookupLeaf (S (S n)) h parent (walkGfxAddress env) = r).
    { intros h r E1 E2 E3. remember (S n) as m. cbn [lookupLeaf]. rewrite E1, Hch. subst m.
      by rewrite E2. }
    destruct Hout as [(H2 & Hps & H1 & Hbrk)|[(_ & _ & ? & _)|(H2 & -> & _ & Hsl' & Hle')]]; [|lia|].
    + assert (Hdone : Q v1 w1).
      { eapply HQ; [done|done|eapply Hn2; [done|done|by rewrite decide_True]|by eexists| |].
        { split_and!; [by right; right|done|by left]. }
        eapply level_mapsInto_page; try done; [lia|by right]. }
      destruct Hbrk as [-> | [-> Hlf]]; [by apply wp_ret|].
      assert (n = 0%nat) as -> by lia. cbn [descend]. rewrite Hlf. by apply wp_ret.
    + destruct (childOk_level _ _ Hok) as [_ [[? _]|Hlc]]; [done|].
      eapply IH; [apply Hst|done|done|by eapply childOk_not_ggtt|lia|lia|done|lia|done|done|].
      intros v2 w2 d sz Hst2 Hd Hll Hsd Hrep Hmap. eapply HQ; [by eapply step_trans|done| |done|done|].
      2: { eapply (level_mapsInto_below _ w env parent p n v v1 w1 c pc); try done;
             [by apply Hst|by eapply st_ext|lia]. }
      destruct (ext_lookup _ _ _ _ (st_ext _ _ _ _ Hst2) Hl1) as (p2 & Hl2 & Hs2 & Ht2).
      destruct (ext_lookup _ _ _ _ (st_ext _ _ _ _ Hst2) Hpc) as (pc2 & Hpc2 & (Hc2 & _) & _).
      remember (S n) as m. cbn [lookupLeaf].
      rewrite Hl2, (child_ext _ _ _ _ Hs2 Ht2 Hch). subst m.
      by rewrite Hpc2, Hc2, decide_False.
Qed.
End LevelStep.
