(* ===== verification/WalkCorrect.v ===== *)
(** * The walk maps its range

    [walkMemory] without explicit physical address: it terminates without error,
    its [entries] list, piece by piece, the physical address of every byte of
    the range, mappings that existed are kept, and every new table entry is
    emitted for the stream to write. *)

From S2P Require Import Prelude Allocator MemoryBanks PageTable TableTheory TreeView Walker WalkerTheory.
#[local] Open Scope Z_scope.

(** ** Addresses of one page share their path *)

Lemma div_div_page a k sz m : 0 < sz -> (sz | m) -> 0 < m -> a / sz = k / sz -> a / m = k / m.
Proof.
  intros Hs [q ->] Hm Heq. assert (0 < q) by nia.
  by rewrite (Z.mul_comm q sz), <- !Z.div_div, Heq by lia.
Qed.

Lemma land_1f0_high x y : x / 16 = y / 16 -> Z.land x 0x1f0 = Z.land y 0x1f0.
Proof.
  intros Heq. apply Z.bits_inj'. intros i Hi. rewrite !Z.land_spec.
  destruct (decide (i < 4)).
  - assert (i = 0 \/ i = 1 \/ i = 2 \/ i = 3) as [-> | [-> | [-> | ->]]] by lia;
      by rewrite !andb_false_r.
  - f_equal. replace i with ((i - 4) + 4) by lia.
    rewrite <- !Z.shiftr_spec, !Z.shiftr_div_pow2 by lia. change (2 ^ 4) with 16. by rewrite Heq.
Qed.

Lemma getIndex_page c a k sz :
  pageSizeOk sz -> 0 <= classLevel c -> (classLevel c = 0 -> sz = getPageSize c) ->
  a / sz = k / sz -> getIndex c a = getIndex c k.
Proof.
  intros Hsz Hlv H0 Heq.
  assert (Hpos : 0 < sz) by (destruct (pageSizeOk_pow2 _ Hsz); lia).
  assert (Hup : forall m, 21 <= m -> Z.shiftr a m = Z.shiftr k m).
  { intros m Hm. rewrite !Z.shiftr_div_pow2 by lia. apply (div_div_page a k sz); [done| |lia|done].
    replace m with ((m - 21) + 21) by lia. rewrite Z.pow_add_r by lia.
    apply Z.divide_mul_r. destruct Hsz as [-> | [-> | ->]].
    - by exists 512.
    - by exists 32.
    - by exists 1. }
  destruct c; simpl in Hlv; try lia; cbn [getIndex]; try (by rewrite Hup by lia);
    specialize (H0 eq_refl); simpl in H0; subst sz.
  - rewrite !Z.shiftr_div_pow2 by lia. change (2 ^ 12) with 4096. by rewrite Heq.
  - rewrite !Z.shiftr_div_pow2 by lia. change (2 ^ 16) with 65536. by rewrite Heq.
  - apply land_1f0_high. rewrite !Z.shiftr_div_pow2, !Z.div_div by lia. done.
  - unfold wrap. rewrite !Z.shiftr_div_pow2 by lia.
    assert (H32 : forall x, x mod 4294967296 / 4096 = (x / 4096) mod 1048576) by (intros x; dlia).
    change (2 ^ 32) with 4294967296. change (2 ^ 12) with 4096. by rewrite !H32, Heq.
Qed.

Lemma lookupLeaf_page n : forall h l p a k c sz,
  h !! l = Some p -> classLevel (cls p) = Z.of_nat n - 1 ->
  (forall l q i d, h !! l = Some q -> tableChild (table q) i = Some d ->
     exists pd, h !! d = Some pd /\ childOk (cls q) (cls pd) = true) ->
  pageSizeOk sz ->
  lookupLeaf n h l a = Some (c, sz) -> a / sz = k / sz ->
  lookupLeaf n h l k = Some (c, sz).
Proof.
  induction n as [|n IH]; intros h l p a k c sz Hl Hlv Hwf Hsz Hll Heq; [done|].
  revert Hll. cbn [lookupLeaf]. rewrite Hl.
  destruct (child p a) as [d|] eqn:Hd; [|done].
  assert (Hdk : (classLevel (cls p) = 0 -> sz = getPageSize (cls p)) -> child p k = Some d).
  { intros H0. unfold child in *. rewrite <- Hd.
    f_equal. symmetry. eapply getIndex_page; [done|lia|done|done]. }
  destruct n as [|n].
  - intros [= <- <-]. by rewrite Hdk.
  - destruct (Hwf l p _ d Hl Hd) as (pd & Hpd & Hok).
    rewrite Hpd, Hdk by lia. rewrite Hpd. case_decide; [done|].
    intros Hll. destruct (childOk_level _ _ Hok) as [_ [[? _]|Hc]]; [done|].
    eapply IH; [done|lia|done|done|done|done].
Qed.

(** ** Bytes *)

(** The physical addresses of the bytes of an entry, in order. *)
Definition entryBytes (e : PageInfo) : list (option Z) :=
  map (fun j => Some (u64 (pi_physicalAddress e + j))) (seqZ 0 (pi_size e)).

Lemma seqZ_split a m n : 0 <= m <= n -> seqZ a n = seqZ a m ++ seqZ (a + m) (n - m).
Proof. intros H. replace n with (m + (n - m)) at 1 by lia. by rewrite seqZ_app by lia. Qed.

Lemma map_seqZ_shift {B} (f : Z -> B) a n : map f (seqZ a n) = map (fun j => f (a + j)) (seqZ 0 n).
Proof.
  pose proof (fmap_add_seqZ a 0 n) as H. rewrite Z.add_0_r in H.
  rewrite <- H. change (map f) with (fmap f (M:=list)). by rewrite <- list_fmap_compose.
Qed.

Lemma page_end a sz st : 0 < sz -> 0 <= st <= sz - a mod sz -> forall j, 0 <= j < st ->
  (a + j) / sz = a / sz /\ (a + j) mod sz = a mod sz + j.
Proof.
  intros Hsz Hst j Hj. pose proof (Z.mod_pos_bound a sz Hsz). pose proof (Z.div_mod a sz).
  assert ((a + j) / sz = a / sz).
  { symmetry. apply (Z.div_unique _ _ _ (a mod sz + j)); lia. }
  split; [done|]. pose proof (Z.div_mod (a + j) sz). nia.
Qed.

Lemma wrap_add_wrap w x y : wrap w (wrap w x + y) = wrap w (x + y).
Proof. unfold wrap. apply Zplus_mod_idemp_l. Qed.

(** ** The page loop *)

Section Loop.
Context {A : Type} `{!PhysicalAddressAllocator A} `{!AllocatorLaws A}.
Variable ndebug : bool.
Variable enablePs64 : bool.
Variable gpu : GpuOps.
Implicit Types w : WalkState A.

Definition withEntries (es : list PageInfo) w : WalkState A :=
  mkWalkState (store w)
    (mkWalker es (pageWalkEntries (walker w)) (pendingNodes (walker w)) (pages64KB (walker w)))
    (emittedPending w).

(** A walk from [w] to [w'] that recorded [es]. *)
Definition walked (b : bool) w w' (es : list PageInfo) : Prop :=
  step gpu b w (withEntries (entries (walker w)) w')
  /\ entries (walker w') = entries (walker w) ++ es.

Lemma walked_ext b w w' es : walked b w w' es -> ext (heapOf w) (heapOf w').
Proof. intros [H _]. exact (st_ext _ _ _ _ H). Qed.

Lemma walked_wf b w w' es : walked b w w' es -> wfW w'.
Proof. intros [H _]. destruct (st_wf _ _ _ _ H) as [H1 H2]. by split. Qed.

Lemma walked_refl b w : wfW w -> walked b w w [].
Proof.
  intros Hwf. split; [|by rewrite app_nil_r].
  destruct w as [s [e p n k] m]. by apply step_refl.
Qed.

Lemma step_withEntries b w w' es :
  step gpu b w w' -> step gpu b (withEntries es w) (withEntries es w').
Proof. intros [[H1 H1'] H2 H3 H4 H5 H6]. by split. Qed.

Lemma walked_trans b w1 w2 w3 es1 es2 :
  walked b w1 w2 es1 -> walked b w2 w3 es2 -> walked b w1 w3 (es1 ++ es2).
Proof.
  intros [S1 E1] [S2 E2]. split; [|by rewrite E2, E1, app_assoc].
  apply (step_withEntries _ _ _ (entries (walker w1))) in S2.
  eapply step_trans; [exact S1|]. exact S2.
Qed.

Lemma step_walked b w w1 w2 es :
  step gpu b w w1 -> store w2 = store w1 ->
  pageWalkEntries (walker w2) = pageWalkEntries (walker w1) ->
  pendingNodes (walker w2) = pendingNodes (walker w1) ->
  entries (walker w2) = entries (walker w1) ++ es -> walked b w w2 es.
Proof.
  intros [[H1 H1'] H2 H3 H4 H5 H6] Hs Hp Hn He.
  split; [|by rewrite He, H3].
  split; unfold wfW, nodesOk, heapOf, emittedEntry, withEntries; simpl;
    rewrite ?Hs, ?Hp, ?Hn; done.
Qed.

Lemma land_mod_size a sz : pageSizeOk sz -> Z.land a (sz - 1) = a mod sz.
Proof.
  intros H. destruct (pageSizeOk_pow2 _ H) as [(k & Hk & ->) _]. by apply land_low_mod.
Qed.

Lemma pageSizeOk_pos sz : pageSizeOk sz -> 4096 <= sz <= pageSize2MB /\ (4096 | sz).
Proof.
  unfold pageSize2MB. intros [-> | [-> | ->]]; (split; [unfold pageSize2MB; lia|]).
  - by exists 1.
  - by exists 16.
  - by exists 512.
Qed.

(** The piece of a page a walk records. *)
Definition piece (p : PageTable) (bank a size sz : Z) : PageInfo :=
  mkPageInfo (u64 (physicalAddress p + a mod sz)) (pieceSize a size sz) (isLocalMemory p) bank.

Lemma pieceSize_bounds a size sz :
  pageSizeOk sz -> 0 < size -> 0 < pieceSize a size sz <= size
    /\ pieceSize a size sz <= sz - a mod sz.
Proof.
  intros Hsz Hs. destruct (pageSizeOk_pos _ Hsz) as [? _].
  pose proof (Z.mod_pos_bound a sz). unfold pieceSize. lia.
Qed.

Lemma wp_recordPage w env c p v sz Q :
  heapOf w !! c = Some p -> reports w v sz ->
  0 <= walkGfxAddress env -> 0 < walkSize env ->
  walkGfxAddress env + walkSize env < 2 ^ 64 ->
  (forall w', store w' = store w ->
     pageWalkEntries (walker w') = pageWalkEntries (walker w) ->
     pendingNodes (walker w') = pendingNodes (walker w) ->
     entries (walker w') = entries (walker w)
       ++ [piece p (pageMemoryBank env) (walkGfxAddress env) (walkSize env) sz] ->
     Q (None, walkGfxAddress env + pieceSize (walkGfxAddress env) (walkSize env) sz,
        walkSize env - pieceSize (walkGfxAddress env) (walkSize env) sz) w') ->
  wp (recordPage ndebug env c v) Q w.
Proof.
  intros Hc (Hsz & Hph & Hcase) Ha Hs Hov HQ. apply wp_bind.
  assert (Hk : wp (cassert ndebug ((sz =? 4096) || (sz =? 65536) || (sz =? pageSize2MB)) ≫=
    fun _ => let gfxAddress := walkGfxAddress env in
      let size := walkSize env in
      let pageOffset := Z.land gfxAddress (sz - 1) in
      let sizeThisIteration := Z.min size (u64 (sz - pageOffset)) in
      p ← wderef c;
      pushEntry (mkPageInfo (u64 (physicalAddress p + pageOffset)) sizeThisIteration
                   (isLocalMemory p) (pageMemoryBank env)) ≫= fun _ =>
      let phys :=
        match l_physicalAddress v with
        | Some a =>
            Some (if sz =? pageSize2MB
                  then u64 (clear_low a pageSize2MB + pageSize2MB)
                  else u64 (a + sizeThisIteration))
        | None => None
        end in
      mret (phys, u64 (gfxAddress + sizeThisIteration), size - sizeThisIteration)) Q w).
  { pose proof (pieceSize_bounds (walkGfxAddress env) _ _ Hsz Hs) as [Hb1 Hb2].
    destruct (pageSizeOk_pos _ Hsz) as [Hrange _].
    pose proof (Z.mod_pos_bound (walkGfxAddress env) sz).
    apply wp_bind, wp_cassert.
    { destruct Hsz as [-> | [-> | ->]]; done. }
    cbv zeta. apply wp_bind. eapply wp_wderef; [done|]. cbv beta.
    rewrite Hph, land_mod_size by done.
    rewrite (wrap_small 64 (sz - _)) by (unfold in_width; unfold pageSize2MB in *; lia).
    fold (pieceSize (walkGfxAddress env) (walkSize env) sz).
    rewrite (wrap_small 64 (walkGfxAddress env + _)) by (unfold in_width; lia).
    apply wp_bind, wp_modify, wp_ret, HQ; done. }
  destruct Hcase as [[-> ->]|(Hne & q & pq & -> & Hq & Hps)].
  - rewrite Z.eqb_refl. apply wp_ret, Hk.
  - rewrite (proj2 (Z.eqb_neq _ _) Hne). apply wp_bind, wp_cassert.
    { apply bool_decide_eq_true. by eexists. }
    apply wp_bind. eapply wp_wderef; [exact Hq|]. cbv beta. rewrite Hps. apply wp_ret, Hk.
Qed.

Lemma piece_bytes p bank a size sz n h root c :
  pageSizeOk sz -> 0 < size -> h !! c = Some p ->
  (forall k, k / sz = a / sz -> lookupLeaf n h root k = Some (c, sz)) ->
  entryBytes (piece p bank a size sz)
    = map (translate n h root) (seqZ a (pieceSize a size sz)).
Proof.
  intros Hsz Hs Hc Hll. unfold entryBytes, piece. cbn [pi_physicalAddress pi_size].
  rewrite (map_seqZ_shift (translate n h root) a).
  apply map_ext_in. intros j Hj. apply list_elem_of_In, elem_of_seqZ in Hj.
  destruct (pieceSize_bounds a size sz Hsz Hs) as [Hb1 Hb2].
  destruct (pageSizeOk_pos _ Hsz) as [Hrange _].
  destruct (page_end a sz (pieceSize a size sz) ltac:(lia) ltac:(lia) j ltac:(lia)) as [Hd Hm].
  unfold translate. rewrite (Hll (a + j)) by done. rewrite Hc, wrap_add_wrap, Hm.
  do 2 f_equal. lia.
Qed.

(** Pages of 4KB the range touches: an upper bound on the iterations. *)
Definition pagesLeft (a size : Z) : Z := (a + size - 1) / 4096 - a / 4096 + 1.

Lemma pagesLeft_decreases a size sz :
  pageSizeOk sz -> 0 <= a -> 0 < size - pieceSize a size sz ->
  pagesLeft (a + pieceSize a size sz) (size - pieceSize a size sz) < pagesLeft a size.
Proof.
  intros Hsz Ha Hs. destruct (pageSizeOk_pos _ Hsz) as [Hrange [q Hq]].
  assert (Hps : pieceSize a size sz = sz - a mod sz) by (unfold pieceSize in *; lia).
  unfold pagesLeft. replace (a + pieceSize a size sz + (size - pieceSize a size sz) - 1)
    with (a + size - 1) by lia.
  enough (a / 4096 < (a + pieceSize a size sz) / 4096) by lia. rewrite Hps.
  pose proof (Z.mod_pos_bound a sz ltac:(lia)). pose proof (Z.div_mod a sz ltac:(lia)) as Hdm.
  replace (a + (sz - a mod sz)) with ((q * (a / sz + 1)) * 4096) by lia.
  rewrite Z.div_mul by lia. apply Z.div_lt_upper_bound; lia.
Qed.

Lemma pagesLeft_fuel a size : 0 <= a -> 0 <= size -> pagesLeft a size <= Z.of_nat (walkFuel size).
Proof.
  intros Ha Hs. unfold pagesLeft, walkFuel. rewrite !Nat2Z.inj_succ, Z2Nat.id by (apply Z.div_pos; lia).
  dlia.
Qed.

Lemma pagesLeft_pos a size : 0 <= a -> 0 < size -> 0 < pagesLeft a size.
Proof. intros. unfold pagesLeft. pose proof (Z.div_le_mono a (a + size - 1) 4096). lia. Qed.

Lemma classLevel_max c : classLevel c <= 4.
Proof. destruct c; simpl; lia. Qed.

Lemma translate_ext n h h' l a r :
  ext h h' -> translate n h l a = Some r -> translate n h' l a = Some r.
Proof.
  unfold translate. intros Hx. destruct (lookupLeaf n h l a) as [[c sz]|] eqn:Hll; [|done].
  rewrite (lookupLeaf_ext _ _ _ _ _ _ Hx Hll). destruct (h !! c) as [p|] eqn:Hc; [|done].
  destruct (Hx c p Hc) as (p' & -> & (_ & _ & _ & -> & _) & _). done.
Qed.

Lemma map_translate_ext n h h' root es l :
  ext h h' -> concat (map entryBytes es) = map (translate n h root) l ->
  concat (map entryBytes es) = map (translate n h' root) l.
Proof.
  intros Hx Heq. rewrite Heq. apply map_ext_in. intros a Ha.
  destruct (translate n h root a) as [r|] eqn:Ht; [symmetry; by eapply translate_ext|].
  exfalso. assert (Hin : In None (concat (map entryBytes es))).
  { rewrite Heq, <- Ht. by apply in_map. }
  apply in_concat in Hin as (x & Hx' & Hn). apply in_map_iff in Hx' as (e & <- & _).
  apply in_map_iff in Hn as (j & ? & _). done.
Qed.

(** One iteration of the loop: the page of the address is found or made, and
    its piece recorded. *)
Definition pageWalked (env : WalkEnv) (n : nat) root req w w' : Prop :=
  let a := walkGfxAddress env in
  exists c pc sz, pageSizeOk sz /\ heapOf w' !! c = Some pc
    /\ walked (ps64Applicable env) w w' [piece pc (pageMemoryBank env) a (walkSize env) sz]
    /\ (forall k, k / sz = a / sz -> lookupLeaf n (heapOf w') root k = Some (c, sz))
    /\ mapsInto (pageData env sz) (params env) n (heapOf w) root a req (heapOf w').

Lemma wp_walkPage w env root p req lf (k : option Z * Z * Z -> M (WalkState A) unit) Q :
  wfW w -> envOk env -> heapOf w !! root = Some p -> cls p <> GGTTClass ->
  1 <= classLevel (cls p) -> sizeLeaf req lf ->
  0 < walkSize env -> walkGfxAddress env + walkSize env < 2 ^ 64 ->
  (forall w' len, pageWalked env (S (Z.to_nat (classLevel (cls p)))) root req w w' ->
     (exists e, entries (walker w') = entries (walker w) ++ [e] /\ pi_size e = len) ->
     wp (k (None, walkGfxAddress env + len, walkSize env - len)) Q w') ->
  wp (v ← descend ndebug gpu (S (Z.to_nat (classLevel (cls p)))) env
            (mkLocals req lf (Some root) None None);
      match l_child v with
      | None => mret tt
      | Some c => r ← recordPage ndebug env c v; k r
      end) Q w.
Proof.
  intros Hwf Henv Hl Hg Hlv Hsl Hpos Hov HQ. pose proof (classLevel_max (cls p)).
  apply wp_bind. eapply wp_descend; [done|done|done|done|lia|lia|exact Hsl| |done|done|].
  { simpl. destruct (sizeLeaf_cases _ _ Hsl) as [[_ ->]|[_ ->]]; lia. }
  intros v1 w1 c sz Hst Hc Hll [pc Hpc] Hrep Hmap. cbn [l_pageSize] in Hmap.
  rewrite Hc. apply wp_bind.
  eapply wp_recordPage; [done|done|apply Henv|done|done|].
  intros w2 Hs2 Hp2 Hn2 He2. pose proof Hrep as [Hsz _].
  assert (Hw2 : walked (ps64Applicable env) w w2
    [piece pc (pageMemoryBank env) (walkGfxAddress env) (walkSize env) sz]) by by eapply step_walked.
  pose proof (walked_wf _ _ _ _ Hw2) as Hwf2.
  destruct (walked_ext _ _ _ _ Hw2 root p Hl) as (p2 & Hl2 & (Hcls & _) & _).
  assert (Hh2 : heapOf w2 = heapOf w1) by (unfold heapOf; by rewrite Hs2).
  apply HQ; [|by eexists; split; [exact (proj2 Hw2)|]].
  exists c, pc, sz. split_and!; [done|by rewrite Hh2|done| |by rewrite Hh2].
  intros j Hj. eapply lookupLeaf_page; [exact Hl2|rewrite Hcls; lia| |done| |by symmetry].
  - intros l q i d Hq Hd. destruct Hwf2 as [Hwf2 _].
    exact (wf_children _ _ (wf_node _ Hwf2 _ _ Hq) _ _ Hd).
  - by rewrite Hh2.
Qed.

(** What the iteration did to the tree. *)
Lemma pageWalked_tree env root p req w w' :
  let n := S (Z.to_nat (classLevel (cls p))) in
  let a := walkGfxAddress env in
  wfW w -> heapOf w !! root = Some p -> cls p <> GGTTClass -> 1 <= classLevel (cls p) ->
  pageSizeOk req -> NoDup (nodes n (heapOf w) root) -> pageWalked env n root req w w' ->
  walkedTree n root (heapOf w) (heapOf w') /\ NoDup (nodes n (heapOf w') root)
  /\ exists pc phys bank,
       let sz := leafSize n (tree n (heapOf w) root) a req in
       pageSizeOk sz
       /\ walked (ps64Applicable env) w w' [piece pc (pageMemoryBank env) a (walkSize env) sz]
       /\ pageData env sz phys bank
       /\ tree n (heapOf w') root = mapPage n (tree n (heapOf w) root) a req phys bank (params env)
       /\ (findPage n (tree n (heapOf w) root) a = None -> u64 (physicalAddress pc) = phys).
Proof.
  intros n a Hwf Hl Hg Hlv Hreq Hnd (c & pc & sz & Hsz & Hpc & Hw & Hll & Hmap).
  destruct (Hmap Hnd) as (phys & bank & new & Hd & Ht & Hn & Hfr & Hu).
  assert (Hok : linkedOk (heapOf w)) by apply wf_linkedOk, Hwf.
  assert (Hok' : linkedOk (heapOf w')) by (apply wf_linkedOk; by eapply walked_wf in Hw as [? _]).
  assert (Hcl : forall x, x ∈ nodes n (heapOf w) root -> is_Some (heapOf w !! x))
    by (intros x; apply nodes_closed; [done|by eexists]).
  split; [|split].
  - split_and!; [|by exists new|done]. intros x. by eapply ext_dom, walked_ext.
  - rewrite Hn. by eapply NoDup_fresh.
  - destruct (walked_ext _ _ _ _ Hw root p Hl) as (p2 & Hl2 & (Hcls & _) & _).
    pose proof (findPage_tree (Z.to_nat (classLevel (cls p))) (heapOf w') root p2 a Hok' Hl2
      ltac:(rewrite Hcls; lia) ltac:(by rewrite Hcls)) as Hf. fold n in Hf.
    rewrite (Hll a eq_refl) in Hf. destruct Hf as (pc' & Hpc' & Hf).
    assert (pc' = pc) as -> by congruence. rewrite Ht in Hf.
    pose proof (tree_ok (Z.to_nat (classLevel (cls p))) (heapOf w) root p Hok Hl ltac:(lia) Hg) as Htok.
    destruct (findPage_mapPage n _ a req phys bank (params env) Htok Hreq) as (cc & ph & bk & pr & Hf2 & Hph).
    subst a n. rewrite Hf in Hf2. apply (inj Some) in Hf2.
    pose proof (f_equal fst Hf2) as E1. pose proof (f_equal snd Hf2) as E2. cbn [fst snd] in E1, E2.
    unfold pageOf in E2. injection E2 as _ E3 _ _. exists pc, phys, bank. cbv zeta.
    rewrite <- E1. split_and!; try done. intros Hnone. rewrite <- (Hph Hnone). done.
Qed.

(** The walk of the range implements [mapRange]. *)
Definition treeMapped (n : nat) root (req : Z) (prm : AdditionalParams) (a size : Z) w w'
    (es : list PageInfo) : Prop :=
  NoDup (nodes n (heapOf w) root) ->
  mapRange n req prm (tree n (heapOf w) root) a size es = Some (tree n (heapOf w') root)
  /\ walkedTree n root (heapOf w) (heapOf w').

Lemma treeMapped_nil n root req prm a w : treeMapped n root req prm a 0 w w [].
Proof. intros _. split; [done|apply walkedTree_refl]. Qed.

Lemma treeMapped_cons env root p req w w1 w2 e es :
  let n := S (Z.to_nat (classLevel (cls p))) in
  wfW w -> heapOf w !! root = Some p -> cls p <> GGTTClass -> 1 <= classLevel (cls p) ->
  pageSizeOk req -> clonePageInfo env = None -> 0 < walkSize env ->
  pageWalked env n root req w w1 -> entries (walker w1) = entries (walker w) ++ [e] ->
  treeMapped n root req (params env) (walkGfxAddress env + pi_size e) (walkSize env - pi_size e) w1 w2 es ->
  treeMapped n root req (params env) (walkGfxAddress env) (walkSize env) w w2 (e :: es).
Proof.
  intros n Hwf Hl Hg Hlv Hreq Hcl Hpos Hpw He Htm Hnd. pose proof Hpw as (c0 & pc0 & sz0 & _ & _ & Hw0 & _).
  destruct (pageWalked_tree env root p req w w1 Hwf Hl Hg Hlv Hreq Hnd Hpw)
    as (Hwt & Hnd1 & pc & phys & bank & Hsz & Hw & Hd & Ht & Hph). fold n in Hwt, Hnd1, Hsz, Hw, Hd, Ht, Hph.
  destruct (Htm Hnd1) as [Hmr Hwt2]. unfold pageData in Hd. rewrite Hcl in Hd. destruct Hd as (Hin & Hdiv & ->).
  destruct Hw as [_ Hent]. rewrite Hent in He. apply app_inj_1 in He as [_ He]; [|done].
  injection He as <-. set (sz := leafSize n _ _ _) in *. split.
  - rewrite mapRange_step by done. fold sz. rewrite <- Hmr, Ht. f_equal.
    apply mapPage_same. destruct (findPage n _ _) as [r|] eqn:Ef; [by left|right]. split; [|done].
    apply (pieceBase_page phys (walkGfxAddress env)); [done|done|done|].
    cbn [piece pi_physicalAddress]. rewrite <- (wrap_add_wrap 64 (physicalAddress pc)), (Hph eq_refl).
    done.
  - assert (Hok : linkedOk (heapOf w)) by apply wf_linkedOk, Hwf.
    destruct (walked_ext _ _ _ _ Hw0 root p Hl) as (p1 & Hl1 & _).
    eapply walkedTree_trans; [| |exact Hwt|exact Hwt2]; intros y; apply nodes_closed; [done|by eexists| |by eexists].
    apply wf_linkedOk. by eapply walked_wf in Hw0 as [? _].
Qed.

Lemma wp_walkLoop fuel : forall w call root p ci a size Q,
  wfW w -> w_mode call = Reserve -> w_ppgtt call = root ->
  heapOf w !! root = Some p -> cls p <> GGTTClass ->
  1 <= classLevel (cls p) -> w_levels call = classLevel (cls p) + 1 ->
  sizeLeaf (w_requestedPageSize call) (w_requestedLeafLevel call) ->
  0 <= a -> 0 <= size -> a + size < 2 ^ 64 ->
  (0 < size -> pagesLeft a size <= Z.of_nat fuel) ->
  (forall k, a <= k < a + size -> exists b,
     MemoryBankHelper.getMemoryBank ndebug (w_bankHelper call) k = Ok b /\ valid_bank b) ->
  (forall w' es, walked (w_ps64Applicable call) w w' es ->
     concat (map entryBytes es)
       = map (translate (Z.to_nat (w_levels call)) (heapOf w') root) (seqZ a size) ->
     treeMapped (Z.to_nat (w_levels call)) root (w_requestedPageSize call)
       (additionalParams (w_params call)) a size w w' es -> Q tt w') ->
  wp (walkLoop ndebug gpu fuel call ci None a size) Q w.
Proof.
  induction fuel as [|fuel IH]; intros w call root p ci a size Q Hwf Hmode Hroot Hl Hg Hlv Hn
    Hsl Ha Hs Hov Hfuel Hbank HQ; cbn [walkLoop]; destruct (Z.ltb_spec 0 size) as [Hpos|Hz].
  - pose proof (pagesLeft_pos a size Ha Hpos). lia.
  - assert (size = 0) as -> by lia. apply wp_ret, (HQ w []); [by apply walked_refl|done|apply treeMapped_nil].
  - destruct (Hbank a ltac:(lia)) as (bank & Hbk & Hvb). rewrite Hbk.
    apply wp_bind, wp_ret. rewrite Hmode, bool_decide_eq_false_2 by done.
    apply wp_bind, wp_ret. cbv beta zeta.
    assert (Hlvn : Z.to_nat (w_levels call) = S (Z.to_nat (classLevel (cls p)))) by lia.
    rewrite Hlvn, Hroot in *. eapply (wp_walkPage w); [done|by split|done|done|done|exact Hsl|done|done|].
    cbn [walkGfxAddress walkSize]. intros w2 len Hpw (e & He & <-).
    pose proof Hpw as (c & pc & sz & Hsz & Hc & Hw2 & Hpage & _). cbn [walkGfxAddress walkSize ps64Applicable pageMemoryBank] in *.
    pose proof (proj2 Hw2) as He'. rewrite He' in He. apply app_inj_1 in He as [_ He]; [|done].
    injection He as <-. cbn [piece pi_size] in *.
    pose proof (pieceSize_bounds a size sz Hsz Hpos) as [Hb1 Hb2].
    pose proof (walked_wf _ _ _ _ Hw2) as Hwf2.
    destruct (walked_ext _ _ _ _ Hw2 root p Hl) as (p2 & Hl2 & (Hcls & _) & _).
    eapply (IH w2 call root p2); [done|done|done|done|by rewrite Hcls|by rewrite Hcls|
      by rewrite Hcls|done|lia|lia|lia| |intros k Hk; apply Hbank; lia|].
    { intros Hmore. specialize (Hfuel Hpos).
      pose proof (pagesLeft_decreases a size sz Hsz Ha Hmore). lia. }
    intros w3 es Hw3 Hes Htm. rewrite Hlvn in *.
    apply (HQ w3 (piece pc bank a size sz :: es)).
    { exact (walked_trans _ _ _ _ _ _ Hw2 Hw3). }
    2: { match type of Hpw with pageWalked ?env _ _ _ _ _ =>
           exact (treeMapped_cons env root p _ w w2 w3 _ es Hwf Hl Hg Hlv (proj1 Hsl) eq_refl Hpos Hpw He' Htm)
         end. }
    rewrite (seqZ_split a (pieceSize a size sz)), map_app by lia.
    cbn [map concat]. f_equal; [|done].
    rewrite <- (app_nil_r (entryBytes _)).
    change (entryBytes (piece pc bank a size sz) ++ [])
      with (concat (map entryBytes [piece pc bank a size sz])).
    eapply map_translate_ext; [by eapply walked_ext|]. cbn [map concat]. rewrite app_nil_r.
    by eapply piece_bytes.
  - assert (size = 0) as -> by lia. apply wp_ret, (HQ w []); [by apply walked_refl|done|apply treeMapped_nil].
Qed.
End Loop.

(** ** walkMemory *)

(** What the callers of a walk guarantee: a root table with its level count, a
    supported page size, a range that does not wrap, and banks the allocator
    knows. *)
Record validRequest {A} `{AllocatorLaws A} (w : WalkState A) (root : loc)
    (ap : AllocationParams) : Prop := {
  vr_root : exists p, heapOf w !! root = Some p /\ cls p <> GGTTClass
    /\ 1 <= classLevel (cls p) /\ numLevels p = classLevel (cls p) + 1;
  vr_pageSize : pageSizeOk (pageSize ap);
  vr_address : 0 <= gfxAddress ap /\ 0 <= size ap
    /\ gfxAddress ap + size ap + pageSize ap < 2 ^ 64;
  vr_banks : 0 <= memoryBanks ap < 2 ^ 31;
  vr_bankZero : memoryBanks ap = 0 -> valid_bank 0;
  vr_bankBits : forall i, Z.testbit (memoryBanks ap) i = true -> valid_bank (2 ^ i)
}.

(** Number of levels of a root. *)
Definition levelsOf {A} (w : WalkState A) (root : loc) : nat :=
  match heapOf w !! root with
  | Some p => Z.to_nat (numLevels p)
  | None => 0
  end.

Section WalkMemory.
Context {A : Type} `{!PhysicalAddressAllocator A} `{!AllocatorLaws A}.
Variable ndebug : bool.
Variable enablePs64 : bool.
Variable gpu : GpuOps.
Implicit Types w : WalkState A.

Lemma adjustPageSize_ok ps banks :
  pageSizeOk ps ->
  pageSizeOk (adjustPageSizeForHardwareSupport gpu ps banks)
  /\ adjustPageSizeForHardwareSupport gpu ps banks <= ps.
Proof.
  intros Hps. unfold adjustPageSizeForHardwareSupport. case_match; [|done].
  apply andb_prop in H as [H%Z.eqb_eq _]. subst. split; [by right; left|done].
Qed.

(** The range a bank helper is built for is at least a page. *)
Lemma alignedRange a size sz :
  pageSizeOk sz -> 0 <= a -> 0 < size -> a + size + sz < 2 ^ 64 ->
  let start := clear_low a sz in
  let len := u64 (clear_low (u64 (a + size + sz - 1)) sz - start) in
  start <= a /\ 31 <= len.
Proof.
  intros Hsz Ha Hs Hov start len.
  destruct (pageSizeOk_pos _ Hsz) as [Hr _]. destruct (pageSizeOk_pow2 _ Hsz) as [(k & Hk & Hk2) _].
  assert (Hlen : len = u64 (clear_low (a + size + sz - 1) sz - start))
    by (subst len; by rewrite (wrap_small 64 (a + size + sz - 1)) by (unfold in_width; lia)).
  subst start. rewrite Hk2 in *.
  pose proof (clear_low_bounds a k Hk) as H1.
  pose proof (clear_low_bounds (a + size + 2 ^ k - 1) k Hk) as H2.
  pose proof (clear_low_nonneg a k Hk Ha) as H3.
  destruct (clear_low_divide a k Hk) as [q1 Hq1].
  destruct (clear_low_divide (a + size + 2 ^ k - 1) k Hk) as [q2 Hq2].
  split; [lia|]. rewrite Hlen, wrap_small by (unfold in_width; lia).
  rewrite Hq1, Hq2 in *. assert (q1 < q2) by nia. nia.
Qed.

Definition walkPs64 w root ap : bool :=
  enablePs64 && (adjustPageSizeForHardwareSupport gpu (pageSize ap) (memoryBanks ap) =? 4096)
  && (Nat.eqb (levelsOf w root) 5).

(** The page size that a walk asks for. *)
Definition requestedSize ap : Z := adjustPageSizeForHardwareSupport gpu (pageSize ap) (memoryBanks ap).

(** What the walk sets up before its loop: an empty record of emitted nodes, and a
    bank for every address of the range. *)
Lemma wp_walkSetup w root ap mode infos p (Q : unit -> WalkState A -> Prop) :
  validRequest w root ap -> heapOf w !! root = Some p -> size ap <> 0 ->
  (forall call, w_ppgtt call = root -> w_params call = ap -> w_mode call = mode ->
     w_pageInfos call = infos -> w_levels call = classLevel (cls p) + 1 ->
     w_requestedPageSize call = requestedSize ap ->
     sizeLeaf (w_requestedPageSize call) (w_requestedLeafLevel call) ->
     w_ps64Applicable call = walkPs64 w root ap ->
     (forall k, gfxAddress ap <= k < gfxAddress ap + size ap -> exists b,
        MemoryBankHelper.getMemoryBank ndebug (w_bankHelper call) k = Ok b /\ valid_bank b) ->
     wp (walkLoop ndebug gpu (walkFuel (size ap)) call 0 None (gfxAddress ap) (size ap)) Q
       (mkWalkState (store w) (walker w) (replicate 5 ∅))) ->
  wp (walkMemory ndebug enablePs64 gpu root ap mode infos None) Q w.
Proof.
  intros [(p0 & Hl0 & Hg & Hlv & Hn) Hps (Ha & Hs & Hov) Hb Hb0 Hbb] Hl Hnz HQ.
  assert (p0 = p) as -> by congruence.
  unfold walkMemory, walkPs64, levelsOf, requestedSize in *. rewrite Hl in HQ.
  rewrite (proj2 (Z.eqb_neq _ _)) by done. destruct (pageSizeOk_pos _ Hps) as [Hpos _].
  apply wp_bind, wp_cassert; [apply Z.ltb_lt; lia|]. apply wp_bind.
  eapply wp_wderef; [done|]. cbv beta zeta.
  destruct (adjustPageSize_ok (pageSize ap) (memoryBanks ap) Hps) as [Hsz Hszle].
  set (sz := adjustPageSizeForHardwareSupport gpu (pageSize ap) (memoryBanks ap)) in *.
  destruct (alignedRange (gfxAddress ap) (size ap) sz Hsz Ha ltac:(lia) ltac:(lia)) as [Hst Hlen].
  set (start := clear_low (gfxAddress ap) sz) in *.
  set (len := u64 (clear_low (u64 (gfxAddress ap + size ap + sz - 1)) sz - start)) in *.
  destruct (MemoryBankHelper.make_singleBanks (memoryBanks ap) start len Hb)
    as (h & Hmk & _). rewrite Hmk. apply wp_bind, wp_ret, wp_bind, wp_modify.
  assert (Heqb : (numLevels p =? 5) = Nat.eqb (Z.to_nat (numLevels p)) 5).
  { apply eq_true_iff_eq. rewrite Z.eqb_eq, Nat.eqb_eq. lia. }
  rewrite Heqb. apply HQ; [done|done|done|done|exact Hn|done|done|done|].
  intros k Hk.
  destruct (MemoryBankHelper.getMemoryBank_ok ndebug _ _ _ h k Hb Hmk Hlen ltac:(lia))
    as (bank & Hbank & Hcase). exists bank. split; [done|].
  destruct Hcase as [[? ->]|Hin]; [by apply Hb0|].
  apply MemoryBankHelper.setBits_elem in Hin as (i & _ & Hi & ->). by apply Hbb.
Qed.

Lemma walked_reset b w w' es :
  walked gpu b (mkWalkState (store w) (walker w) (replicate 5 ∅)) w' es -> walked gpu b w w' es.
Proof. intros [[H1 H2 H3 H4 H5 H6] He]. split; [by split|done]. Qed.

Lemma wp_walkMemory w root ap (Q : unit -> WalkState A -> Prop) :
  wfW w -> validRequest w root ap ->
  (forall w' es, walked gpu (walkPs64 w root ap) w w' es ->
     concat (map entryBytes es)
       = map (translate (levelsOf w root) (heapOf w') root) (seqZ (gfxAddress ap) (size ap)) ->
     treeMapped (levelsOf w root) root (requestedSize ap) (additionalParams ap) (gfxAddress ap)
       (size ap) w w' es ->
     Q tt w') ->
  wp (walkMemory ndebug enablePs64 gpu root ap Reserve None None) Q w.
Proof.
  intros Hwf Hreq HQ. destruct (vr_root _ _ _ Hreq) as (p & Hl & Hg & Hlv & Hn).
  assert (Hlev : levelsOf w root = Z.to_nat (classLevel (cls p) + 1)) by (unfold levelsOf; by rewrite Hl, Hn).
  destruct (vr_address _ _ _ Hreq) as (Ha & Hs & Hov). destruct (pageSizeOk_pos _ (vr_pageSize _ _ _ Hreq)) as [Hpos _].
  destruct (Z.eqb_spec (size ap) 0) as [Hz|Hnz].
  { unfold walkMemory. rewrite (proj2 (Z.eqb_eq _ _)) by done.
    apply wp_ret, (HQ w []); [by apply walked_refl|by rewrite Hz|rewrite Hz; apply treeMapped_nil]. }
  eapply wp_walkSetup; [done|done|done|]. intros call Hr <- Hm _ Hlv' Hrs Hsl Hps Hbank.
  eapply wp_walkLoop; [|done|done|exact Hl|done|done|done|done|lia|lia|lia| |exact Hbank|].
  - destruct Hwf as [H1 H2]. by split.
  - intros _. by apply pagesLeft_fuel.
  - intros w' es Hw Hes Htm. rewrite Hlv', <- Hlev, Hps, Hrs in *.
    apply (HQ w' es); [by apply walked_reset|done|done].
Qed.
End WalkMemory.

(** ** Properties of walkMemory *)

Section Properties.
Context {A : Type} `{!PhysicalAddressAllocator A} `{!AllocatorLaws A}.
Variable ndebug : bool.
Variable enablePs64 : bool.
Variable gpu : GpuOps.
Implicit Types w : WalkState A.

#[local] Abbreviation reserve root ap :=
  (walkMemory ndebug enablePs64 gpu root ap Reserve None None).

(** C5: reserving a range in a well-formed table tree terminates without
    error or failed assertion, keeps the tree well-formed, and records page
    entries whose bytes are, in order and without gap or overlap, the physical
    addresses the page tables translate the addresses of the range to. *)
Theorem walkMemory_maps_range w root ap :
  wfW w -> validRequest w root ap ->
  exists w' es, reserve root ap w = Ok (tt, w') /\ wfW w'
    /\ entries (walker w') = entries (walker w) ++ es
    /\ concat (map entryBytes es)
       = map (translate (levelsOf w root) (heapOf w') root) (seqZ (gfxAddress ap) (size ap)).
Proof.
  intros Hwf Hreq.
  destruct (wp_run _ (fun _ w' => exists es, wfW w'
    /\ entries (walker w') = entries (walker w) ++ es
    /\ concat (map entryBytes es)
       = map (translate (levelsOf w root) (heapOf w') root) (seqZ (gfxAddress ap) (size ap)))
    w (wp_walkMemory ndebug enablePs64 gpu w root ap _ Hwf Hreq
         (fun w' es H Hb _ => ex_intro _ es (conj (walked_wf _ _ _ _ _ H) (conj (proj2 H) Hb)))))
    as ([] & w' & Hrun & es & H). by exists w', es.
Qed.

(** C6: a reservation never disturbs a mapping: whatever address any table of
    the store translated before the walk, it translates to the same physical
    address after it. *)
Theorem walkMemory_keeps_mappings w root ap w' n table a r :
  wfW w -> validRequest w root ap -> reserve root ap w = Ok (tt, w') ->
  translate n (heapOf w) table a = Some r -> translate n (heapOf w') table a = Some r.
Proof.
  intros Hwf Hreq Hrun. apply translate_ext.
  eapply (run_wp _ (fun _ w' => ext (heapOf w) (heapOf w'))); [|exact Hrun].
  apply wp_walkMemory; [done|done|]. intros w1 es Hw _ _. by eapply walked_ext.
Qed.

(** C7: every change a reservation makes to the tables is handed to the stream.
    After it, each edge of each table either was there before with the entry it
    has now, or the walk's entry list of the parent's level contains the
    parent's slot address with the child's final entry value: new tables and
    pages, and with PS64 also the slots of a group that the walk completes or
    breaks up. For walks that use PS64 no table or page is assumed to hang below
    two slots, which a reservation preserves. *)
Theorem walkMemory_emits_new_edges w root ap w' :
  wfW w -> validRequest w root ap ->
  (walkPs64 enablePs64 gpu w root ap = true -> unshared (heapOf w)) ->
  reserve root ap w = Ok (tt, w') ->
  (unshared (heapOf w) -> unshared (heapOf w'))
  /\ forall l p i c, edge (heapOf w') l p i c ->
       exists pc, heapOf w' !! c = Some pc
       /\ ((exists p0 pc0, edge (heapOf w) l p0 i c /\ heapOf w !! c = Some pc0
              /\ entryValue gpu pc0 = entryValue gpu pc)
           \/ emittedEntry w' (classLevel (cls p))
                (mkPageEntryInfo (u64 (physicalAddress p + u32 i * 8)) (entryValue gpu pc))).
Proof.
  intros Hwf Hreq Hu Hrun.
  assert (Hst : exists b w1, step gpu b w w1 /\ heapOf w1 = heapOf w'
    /\ (forall lv e, emittedEntry w1 lv e -> emittedEntry w' lv e)
    /\ (b = true -> unshared (heapOf w))).
  { eapply (run_wp _ (fun _ w' => exists b w1, step gpu b w w1 /\ heapOf w1 = heapOf w'
      /\ (forall lv e, emittedEntry w1 lv e -> emittedEntry w' lv e) /\ _)); [|exact Hrun].
    apply wp_walkMemory; [done|done|]. intros w1 es [Hst _] _ _. by eexists _, _. }
  destruct Hst as (b & w1 & Hst & <- & Hm & Hb). split; [by apply (st_unshared _ _ _ _ Hst)|].
  intros l p i c He. destruct (st_cover _ _ _ _ Hst Hb l p i c He)
    as [[]|[(p0 & pc0 & pc & He0 & Hpc0 & Hpc & Hps)|(pc & Hpc & Hem)]]; exists pc; (split; [done|]).
  - left. exists p0, pc0. split_and!; [done|done|].
    destruct (st_ext _ _ _ _ Hst c pc0 Hpc0) as (pc' & Hpc' & Hs & _).
    rewrite Hpc in Hpc'. injection Hpc' as <-. symmetry. by apply entryValue_static.
  - right. by apply Hm.
Qed.
End Properties.

(** ** A concrete configuration

    One local memory bank, a four-level root in it, and a reservation of 12KB
    whose first page is partial. *)

Definition exBanks : 0 <= 1 := Z.le_0_1.
#[local] Existing Instance SimpleAllocatorOps.
Definition exLaws : @AllocatorLaws Simple.t (SimpleAllocatorOps false) :=
  SimpleAllocatorLaws false 1 exBanks.

Definition exGpu : GpuOps := mkGpuOps (fun _ _ => true) (fun _ => 0).
Definition exStore : Store Simple.t := mkStore ∅ 1%positive (Simple.init 1 0x100000000 false).
Definition exRooted : result (loc * Store Simple.t) :=
  @newRoot _ (SimpleAllocatorOps false) false PML4 true 1 exStore.
Definition exWalk : WalkState Simple.t :=
  mkWalkState (match exRooted with Ok (_, s) => s | Err _ => exStore end) newWalker [].
Definition exParams : AllocationParams :=
  mkAllocationParams 0x10800 None 0x3000 1 0 4096 noParams.

Lemma exStore_wf : @wf _ (SimpleAllocatorOps false) exLaws exStore.
Proof.
  split; simpl.
  - intros l p. by rewrite lookup_empty.
  - by apply simple_inv_init.
  - intros l p. by rewrite lookup_empty.
Qed.

Lemma exBank_valid i : Z.testbit 1 i = true -> simple_valid_bank 1 (2 ^ i).
Proof.
  intros Hi. destruct (Z.eqb_spec i 0) as [->|Hne].
  - right; right. by exists 0%nat.
  - exfalso. destruct (decide (0 <= i)).
    + change 1 with (2 ^ 0) in Hi. rewrite Z.pow2_bits_eqb in Hi by lia.
      apply Z.eqb_eq in Hi. lia.
    + by rewrite Z.testbit_neg_r in Hi by lia.
Qed.

Lemma exWalk_spec :
  @wfW _ (SimpleAllocatorOps false) exLaws exWalk
  /\ exists p, heapOf exWalk !! 1%positive = Some p /\ cls p = PML4 /\ numLevels p = 4.
Proof.
  pose proof (@wp_newRoot _ (SimpleAllocatorOps false) exLaws false exStore PML4 1
    (fun l s' => rootSpec exStore PML4 1 l s') exStore_wf (exBank_valid 0 eq_refl) eq_refl
    (fun l s' H => H)) as Hwp.
  destruct (wp_run _ _ _ Hwp) as (l & s' & Hrun & Hw & _ & p & Hl & Hc & _ & Hn).
  fold exRooted in Hrun. assert (l = 1%positive) as ->.
  { assert (H1 : match exRooted with Ok (l, _) => l | _ => 2%positive end = 1%positive)
      by by vm_compute. by rewrite Hrun in H1. }
  unfold exWalk, heapOf. rewrite Hrun. simpl. split; [split_and!; [done|done|constructor]|]. by exists p.
Qed.

Lemma exRequest : @validRequest _ (SimpleAllocatorOps false) exLaws exWalk 1%positive exParams.
Proof.
  destruct exWalk_spec as [_ (p & Hp & Hc & Hn)]. split; simpl; try lia.
  - exists p. rewrite Hc, Hn. done.
  - by left.
  - apply exBank_valid.
Qed.

Lemma walkMemory_maps_range_witness :
  exists w' es, @walkMemory _ (SimpleAllocatorOps false) false false exGpu 1%positive exParams
                  Reserve None None exWalk = Ok (tt, w')
    /\ @wfW _ (SimpleAllocatorOps false) exLaws w'
    /\ entries (walker w') = entries (walker exWalk) ++ es
    /\ concat (map entryBytes es)
       = map (translate (levelsOf exWalk 1%positive) (heapOf w') 1%positive) (seqZ 0x10800 0x3000).
Proof.
  exact (@walkMemory_maps_range _ (SimpleAllocatorOps false) exLaws false false exGpu exWalk
           1%positive exParams (proj1 exWalk_spec) exRequest).
Defined.

(** The state after the reservation. *)
Definition exWalked : WalkState Simple.t :=
  match @walkMemory _ (SimpleAllocatorOps false) false false exGpu 1%positive exParams
          Reserve None None exWalk with
  | Ok (_, w) => w
  | Err _ => exWalk
  end.

Lemma exWalked_run :
  @walkMemory _ (SimpleAllocatorOps false) false false exGpu 1%positive exParams
    Reserve None None exWalk = Ok (tt, exWalked).
Proof. by vm_compute. Qed.

Lemma exWalked_spec :
  @wfW _ (SimpleAllocatorOps false) exLaws exWalked
  /\ exists p, heapOf exWalked !! 1%positive = Some p /\ cls p = PML4 /\ numLevels p = 4.
Proof.
  destruct exWalk_spec as [Hwf (p & Hp & Hc & Hn)].
  eapply (run_wp _ (fun _ w' => @wfW _ (SimpleAllocatorOps false) exLaws w'
    /\ exists p, heapOf w' !! 1%positive = Some p /\ cls p = PML4 /\ numLevels p = 4));
    [|exact exWalked_run].
  apply (@wp_walkMemory _ (SimpleAllocatorOps false) exLaws); [done|exact exRequest|].
  intros w' es Hw _ _. split; [by eapply walked_wf|].
  destruct (walked_ext _ _ _ _ _ Hw _ _ Hp) as (p' & Hp' & (Hc' & _ & _ & _ & _ & _ & Hn') & _).
  exists p'. by rewrite Hc', Hn'.
Qed.

(** A second reservation overlaps the first one's last page. *)
Definition exParams2 : AllocationParams :=
  mkAllocationParams 0x13000 None 0x2000 1 0 4096 noParams.

Lemma exRequest2 : @validRequest _ (SimpleAllocatorOps false) exLaws exWalked 1%positive exParams2.
Proof.
  destruct exWalked_spec as [_ (p & Hp & Hc & Hn)]. split; unfold exParams2; cbn [gfxAddress size pageSize memoryBanks]; try lia.
  - exists p. rewrite Hc, Hn. split; [exact Hp|]. by split_and!.
  - by left.
  - apply exBank_valid.
Qed.

Definition exWalked2 : WalkState Simple.t :=
  match @walkMemory _ (SimpleAllocatorOps false) false false exGpu 1%positive exParams2
          Reserve None None exWalked with
  | Ok (_, w) => w
  | Err _ => exWalked
  end.

Lemma walkMemory_keeps_mappings_witness :
  translate 4 (heapOf exWalked) 1%positive 0x10800 = Some 22528 /\
  translate 4 (heapOf exWalked2) 1%positive 0x10800 = Some 22528.
Proof.
  split; [by vm_compute|].
  apply (@walkMemory_keeps_mappings _ (SimpleAllocatorOps false) exLaws false false exGpu exWalked
           1%positive exParams2 exWalked2 4 1%positive 0x10800 22528 (proj1 exWalked_spec) exRequest2);
    by vm_compute.
Defined.

(** A five-level table without pages, and 26 pages of which the last sixteen
    fill an aligned group: the walk marks them as PS64. *)
Definition exRooted5 : result (loc * Store Simple.t) :=
  @newRoot _ (SimpleAllocatorOps false) false PML5 true 1 exStore.
Definition exWalk5 : WalkState Simple.t :=
  mkWalkState (match exRooted5 with Ok (_, s) => s | Err _ => exStore end) newWalker [].
Definition exParams5 : AllocationParams :=
  mkAllocationParams 0x6000 None 0x1A000 1 0 4096 noParams.
Definition exWalked5 : WalkState Simple.t :=
  match @walkMemory _ (SimpleAllocatorOps false) false true exGpu 1%positive exParams5
          Reserve None None exWalk5 with
  | Ok (_, w) => w
  | Err _ => exWalk5
  end.

Lemma exWalk5_spec :
  @wfW _ (SimpleAllocatorOps false) exLaws exWalk5
  /\ exists p, heapOf exWalk5 !! 1%positive = Some p /\ cls p = PML5 /\ numLevels p = 5.
Proof.
  pose proof (@wp_newRoot _ (SimpleAllocatorOps false) exLaws false exStore PML5 1
    (fun l s' => rootSpec exStore PML5 1 l s') exStore_wf (exBank_valid 0 eq_refl) eq_refl
    (fun l s' H => H)) as Hwp.
  destruct (wp_run _ _ _ Hwp) as (l & s' & Hrun & Hw & _ & p & Hl & Hc & _ & Hn).
  fold exRooted5 in Hrun. assert (l = 1%positive) as ->.
  { assert (H1 : match exRooted5 with Ok (l, _) => l | _ => 2%positive end = 1%positive)
      by by vm_compute. by rewrite Hrun in H1. }
  unfold exWalk5, heapOf. rewrite Hrun. simpl. split; [split_and!; [done|done|constructor]|]. by exists p.
Qed.

Lemma exRequest5 : @validRequest _ (SimpleAllocatorOps false) exLaws exWalk5 1%positive exParams5.
Proof.
  destruct exWalk5_spec as [_ (p & Hp & Hc & Hn)]. split; simpl; try lia.
  - exists p. rewrite Hc, Hn. done.
  - by left.
  - apply exBank_valid.
Qed.

Lemma exWalk5_unshared : unshared (heapOf exWalk5).
Proof.
  assert (He : map_Forall (fun _ p => table p = []) (heapOf exWalk5))
    by (apply (bool_decide_unpack (map_Forall _ _)); by vm_compute).
  intros l1 p1 i1 l2 p2 i2 c (H1 & _ & Hc) _. rewrite (He _ _ H1) in Hc.
  unfold tableChild in Hc. by rewrite lookup_nil in Hc.
Qed.

(** The leaf table at location 5 maps slot 16 to the first page of the group. *)
Lemma walkMemory_emits_new_edges_witness :
  walkPs64 true exGpu exWalk5 1%positive exParams5 = true
  /\ unshared (heapOf exWalked5)
  /\ exists p c pc, edge (heapOf exWalked5) 5%positive p 16 c /\ heapOf exWalked5 !! c = Some pc
       /\ ps64 pc = true
       /\ emittedEntry exWalked5 0
            (mkPageEntryInfo (u64 (physicalAddress p + 128)) (entryValue exGpu pc)).
Proof.
  assert (Hrun : @walkMemory _ (SimpleAllocatorOps false) false true exGpu 1%positive exParams5
    Reserve None None exWalk5 = Ok (tt, exWalked5)) by by vm_compute.
  destruct (@walkMemory_emits_new_edges _ (SimpleAllocatorOps false) exLaws false true exGpu exWalk5
    1%positive exParams5 exWalked5 (proj1 exWalk5_spec) exRequest5 (fun _ => exWalk5_unshared) Hrun)
    as [Hu Hedges].
  split; [by vm_compute|]. split; [exact (Hu exWalk5_unshared)|].
  destruct (heapOf exWalked5 !! 5%positive) as [p|] eqn:Hp; [|exfalso; revert Hp; by vm_compute].
  assert (H : option_map (fun p => (classLevel (cls p), tableChild (table p) 16))
      (heapOf exWalked5 !! 5%positive) = Some (0, Some 16%positive)) by by vm_compute.
  rewrite Hp in H. cbn [option_map] in H. injection H as Hlv Hc.
  assert (He : edge (heapOf exWalked5) 5%positive p 16 16%positive)
    by exact (conj Hp (conj (Pos2Z.is_nonneg 16) Hc)).
  destruct (Hedges _ _ _ _ He) as (pc & Hpc & [(p0 & _ & (Hp0 & _) & _)|Hem]).
  - exfalso. revert Hp0. by vm_compute.
  - exists p, 16%positive, pc. split; [exact He|]. split; [exact Hpc|]. split.
    + assert (H : option_map ps64 (heapOf exWalked5 !! (16%positive : loc)) = Some true) by by vm_compute.
      rewrite Hpc in H. by injection H.
    + rewrite Hlv in Hem. exact Hem.
Defined.
