(* ===== verification/GlobalTable.v ===== *)
(** * Walks of the global table

    [walkMemory] for the GGTT: the table has one slot per 4KB, and a page of
    [n * 4096] bytes fills an aligned group of [n] slots. As long as every walk
    uses one page size, a reservation maps its range, keeps the other slots, and
    emits the entry of every slot it fills. *)

From S2P Require Import Prelude Allocator MemoryBanks PageTable TableTheory TreeView Walker WalkerTheory.
From S2P Require Import WalkCorrect.
#[local] Open Scope Z_scope.

(** ** Groups of slots *)

Definition groupFree (n : Z) (t : list (option loc)) (g : Z) : Prop :=
  forall j, 0 <= j < n -> tableChild t (g + j) = None.

Definition slotAt (h : gmap loc PageTable) (t : list (option loc)) (i phys : Z) : Prop :=
  exists c pc, tableChild t i = Some c /\ h !! c = Some pc
    /\ u64 (physicalAddress pc) = u64 phys.

Definition groupFull (n : Z) (h : gmap loc PageTable) (t : list (option loc)) (g : Z) : Prop :=
  exists b, forall j, 0 <= j < n -> slotAt h t (g + j) (b + 4096 * j).

(** Every aligned group of the table is empty or holds one page. *)
Definition uniform (n : Z) (h : gmap loc PageTable) (root : loc) : Prop :=
  exists p, h !! root = Some p /\ cls p = GGTTClass
    /\ forall g, 0 <= g -> (n | g) -> groupFree n (table p) g \/ groupFull n h (table p) g.

Lemma slotAt_ext h h' t t' i b :
  ext h h' -> (forall c, tableChild t i = Some c -> tableChild t' i = Some c) ->
  slotAt h t i b -> slotAt h' t' i b.
Proof.
  intros Hx Ht (c & pc & Hc & Hpc & Hb).
  destruct (Hx c pc Hpc) as (pc' & Hpc' & (_ & _ & _ & Hph & _) & _).
  exists c, pc'. rewrite Hph. auto.
Qed.

Lemma slotAt_eq h t i b b' : u64 b = u64 b' -> slotAt h t i b -> slotAt h t i b'.
Proof. intros Heq (c & pc & H1 & H2 & H3). exists c, pc. by rewrite <- Heq. Qed.

(** The groups of slots are disjoint. *)
Lemma group_disjoint n g g' j j' :
  (n | g) -> (n | g') -> 0 <= j < n -> 0 <= j' < n -> g + j = g' + j' -> g = g'.
Proof. intros [a ->] [b ->] Hj Hj' Heq. assert (a = b) by nia. by subst. Qed.

(** ** One slot *)

Section Global.
Context {A : Type} `{!PhysicalAddressAllocator A} `{!AllocatorLaws A}.
Variable ndebug : bool.
Variable ggtt : GGTT.
Variable enableBits : Z.
Implicit Types w : WalkState A.

#[local] Abbreviation root := (ggtt_table ggtt).

(** The entry of slot [i]. *)
Definition globalEntry (i : Z) (pc : PageTable) : PageEntryInfo :=
  mkPageEntryInfo (u64 (entryOffset ggtt + 8 * i)) (Z.lor (physicalAddress pc) enableBits).

(** What a walk of the global table may do, besides recording pages. *)
Record gstep w w' : Prop := {
  gs_wf : wfW w';
  gs_ext : ext (heapOf w) (heapOf w');
  gs_entries : entries (walker w') = entries (walker w);
  gs_emitted : forall lv e, emittedEntry w lv e -> emittedEntry w' lv e;
  gs_cover : forall p p' i c, heapOf w !! root = Some p -> heapOf w' !! root = Some p' ->
    0 <= i -> tableChild (table p') i = Some c ->
    tableChild (table p) i = Some c
    \/ exists pc, heapOf w' !! c = Some pc /\ emittedEntry w' 0 (globalEntry i pc)
}.

Lemma gstep_refl w : wfW w -> gstep w w.
Proof.
  intros Hwf. split; [done|reflexivity|done|done|].
  intros p p' i c Hp Hp' _ Hc. left. congruence.
Qed.

Lemma gstep_trans w1 w2 w3 :
  is_Some (heapOf w1 !! root) -> gstep w1 w2 -> gstep w2 w3 -> gstep w1 w3.
Proof.
  intros [p1 Hp1] [_ X1 E1 M1 C1] [W2 X2 E2 M2 C2].
  split; [done|by etrans|by rewrite E2|auto|].
  intros p p' i c Hp Hp' Hi Hc. destruct (X1 _ _ Hp) as (p2 & Hp2 & _).
  destruct (C2 _ _ _ _ Hp2 Hp' Hi Hc) as [Hc2|]; [|by right].
  destruct (C1 _ _ _ _ Hp Hp2 Hi Hc2) as [|(pc & Hpc & Hem)]; [by left|right].
  destruct (X2 _ _ Hpc) as (pc' & Hpc' & (_ & _ & _ & Hph & _) & _).
  exists pc'. split; [done|]. apply M2. unfold globalEntry. by rewrite Hph.
Qed.

(** Linking a fresh object at a free slot and emitting its entry. *)
Lemma wp_linkSlot w s1 c p pc i (Q : unit -> WalkState A -> Prop) :
  wfW w -> heapOf w !! root = Some p -> cls p = GGTTClass -> 0 <= i ->
  tableChild (table p) i = None ->
  created (store w) s1 c pc -> cls pc = PageTableMemory ->
  (forall w' p', gstep w w' -> heapOf w' !! root = Some p' -> static p p' ->
     table p' = tableSet i (Some c) (table p) -> heapOf w' !! c = Some pc -> Q tt w') ->
  wp (onStore (setChild root i (Some c)))
    (fun _ w2 => heapOf w2 !! c = Some pc /\ wp (pushPageWalkEntry 0 (globalEntry i pc)) Q w2)
    (mkWalkState s1 (walker w) (emittedPending w)).
Proof.
  intros (Hwf & Hlen & Hno) Hp Hcls Hi Hfree Hcr Hpc HQ.
  pose proof (created_ext _ _ _ _ Hcr) as Hx1. destruct Hcr as [Hwf1 Hh1 Hnew _ _ _].
  unfold heapOf in *.
  assert (Hne : root <> c) by congruence.
  assert (Hp1 : heap s1 !! root = Some p) by by rewrite Hh1, lookup_insert_ne.
  apply wp_onStore. eapply wp_setChild; [done|exact Hp1|done|done| | |].
  { cbn. by rewrite Hh1, lookup_insert_eq. }
  { by rewrite Hcls, Hpc. }
  intros s2 Hwf2 Hx2 Hh2. cbn [store walker emittedPending] in *.
  set (w2 := mkWalkState s2 (walker w) (emittedPending w)).
  assert (Hw2 : wfW w2).
  { split_and!; [done|done|]. eapply nodesOk_mono; [exact Hno|done|].
    intros l Hl. eapply ext_dom; [|exact Hl]. by etrans. }
  assert (Hc2 : heap s2 !! c = Some pc).
  { rewrite Hh2, lookup_insert_ne by done. by rewrite Hh1, lookup_insert_eq. }
  assert (Hr2 : heap s2 !! root = Some (set_table (tableSet i (Some c) (table p)) p))
    by by rewrite Hh2, lookup_insert_eq.
  split; [exact Hc2|]. eapply (wp_pushPageWalkEntry true w2); [done|lia|]. intros w3 Hq Hh3 Hem.
  unfold heapOf in Hh3. cbn in Hh3. assert (Hx3 : ext (heap (store w)) (heap s2)) by by etrans.
  eapply HQ.
  - split; unfold heapOf; rewrite ?Hh3; [exact (q_wf _ _ _ Hq)|exact Hx3| | |].
    + by rewrite (q_entries _ _ _ Hq).
    + intros lv e He. by apply (q_emitted _ _ _ Hq).
    + intros q q' j d Hq1 Hq2 Hj Hd. assert (q = p) as -> by congruence.
      rewrite Hr2 in Hq2. injection Hq2 as <-. cbn in Hd.
      rewrite tableChild_tableSet in Hd by done. case_decide as Hij; [|by left].
      injection Hd as <-. subst j. right. by exists pc.
  - unfold heapOf. rewrite Hh3. exact Hr2.
  - by split_and!.
  - done.
  - unfold heapOf. by rewrite Hh3.
Qed.

Lemma wp_ggttExtraEntries n : forall w p child index i phys Q,
  wfW w -> heapOf w !! root = Some p -> cls p = GGTTClass ->
  0 <= index -> 0 <= i -> index + i + Z.of_nat n <= 2 ^ 32 ->
  (forall j, 0 <= j < Z.of_nat n -> tableChild (table p) (index + i + j) = None) ->
  (forall w' p', gstep w w' -> heapOf w' !! root = Some p' -> static p p' ->
     (forall k, 0 <= k -> k < index + i \/ index + i + Z.of_nat n <= k ->
        tableChild (table p') k = tableChild (table p) k) ->
     (forall j, 0 <= j < Z.of_nat n ->
        slotAt (heapOf w') (table p') (index + i + j) (phys + 4096 * (j + 1))) -> Q tt w') ->
  wp (ggttExtraEntries ndebug n ggtt child enableBits index i phys) Q w.
Proof.
  induction n as [|n IH]; intros w p child index i phys Q Hwf Hp Hcls Hix Hi Hmax Hfree HQ.
  - apply wp_ret, (HQ w p); [by apply gstep_refl|done|apply static_refl|done|]. intros j Hj. lia.
  - cbn [ggttExtraEntries]. cbv zeta. rewrite (wrap_small 32) by (unfold in_width; lia).
    apply wp_bind, wp_onStore, wp_ctorAt; [apply Hwf|done|done|].
    intros c pc s1 Hcr Hcc _ _ Hph. apply wp_bind.
    assert (Hent : mkPageEntryInfo (u64 (entryOffset ggtt + 8 * (index + i)))
                     (Z.lor (u64 (phys + 4096)) enableBits) = globalEntry (index + i) pc)
      by (unfold globalEntry; by rewrite Hph).
    rewrite Hent. refine (wp_mono _ _ _ _ (wp_linkSlot w s1 c p pc (index + i)
      (fun _ w2 => wp (ggttExtraEntries ndebug n ggtt child enableBits index (i + 1)
                         (u64 (phys + 4096))) Q w2) Hwf Hp Hcls _ _ Hcr Hcc _) _);
      [lia| | |intros [] w2 [_ Hk]; by apply wp_bind].
    { rewrite <- (Z.add_0_r (index + i)). apply Hfree. lia. }
    intros w2 p2 Hst2 Hp2 Hs2 Ht2 Hc2.
    assert (Hch2 : forall k, 0 <= k -> k <> index + i ->
              tableChild (table p2) k = tableChild (table p) k)
      by (intros k Hk Hne; rewrite Ht2, tableChild_tableSet, decide_False by (lia || done); done).
    pose proof Hs2 as (Hcls2 & _).
    apply (IH w2 p2); [apply Hst2|done|by rewrite Hcls2|done|lia|lia| |].
    { intros j Hj. rewrite Hch2 by lia. replace (index + (i + 1) + j) with (index + i + (j + 1)) by lia.
      apply Hfree. lia. }
    intros w3 p3 Hst3 Hp3 Hs3 Hkeep Hslots. apply (HQ w3 p3).
    + eapply gstep_trans; [by eexists|exact Hst2|exact Hst3].
    + done.
    + by eapply static_trans.
    + intros k Hk Hout. rewrite Hkeep by lia. apply Hch2; lia.
    + intros j Hj. destruct (decide (j = 0)) as [->|Hne].
      * rewrite Z.add_0_r. apply (slotAt_ext (heapOf w2) _ (table p2)); [apply Hst3| |].
        -- intros d Hd. by rewrite Hkeep by lia.
        -- exists c, pc. rewrite Ht2, tableChild_tableSet, decide_True by lia.
           split_and!; [done|done|]. rewrite Hph. unfold wrap. by rewrite Z.mod_mod by lia.
      * replace (index + i + j) with (index + (i + 1) + (j - 1)) by lia.
        eapply slotAt_eq; [|apply Hslots; lia].
        rewrite wrap_add_wrap. f_equal. lia.
Qed.

(** ** One page *)

Lemma getIndex_global a : 0 <= a < 2 ^ 32 -> getIndex GGTTClass a = a / 4096.
Proof.
  intros Ha. cbn [getIndex]. rewrite wrap_small by done. by rewrite Z.shiftr_div_pow2 by lia.
Qed.

Lemma translate_slot h l p k b :
  h !! l = Some p -> cls p = GGTTClass -> 0 <= k < 2 ^ 32 ->
  slotAt h (table p) (k / 4096) b -> translate 1 h l k = Some (u64 (b + k mod 4096)).
Proof.
  intros Hl Hcls Hk (c & pc & Hc & Hpc & Hb). unfold translate. cbn [lookupLeaf].
  rewrite Hl. unfold child. rewrite Hcls, getIndex_global, Hc, Hpc by done. cbn [getPageSize].
  f_equal. unfold wrap in *. rewrite <- Zplus_mod_idemp_l, Hb. apply Zplus_mod_idemp_l.
Qed.

Lemma wp_allocateGlobal s l p ps (Q : option loc -> Store A -> Prop) :
  wf s -> heap s !! l = Some p -> cls p = GGTTClass -> pageSizeOk ps ->
  (forall c pc s', created s s' c pc -> cls pc = PageTableMemory -> Q (Some c) s') ->
  wp (allocateChild ndebug l ps (memoryBank p)) Q s.
Proof.
  intros Hwf Hl Hcls Hps HQ. unfold allocateChild. apply wp_bind. eapply wp_deref; [done|].
  destruct (pageSizeOk_pow2 _ Hps) as [Hp2 Hsz].
  destruct (wf_allocator _ _ (wf_node _ Hwf _ _ Hl)) as [Hal Hvb]; [by rewrite Hcls|].
  rewrite Hcls. cbn [isPTE childClass]. apply wp_bind, wp_cassert; [apply Z.eqb_refl|].
  apply wp_bind. rewrite Hal. apply wp_ctorReserve; try done.
  intros c pc s' Hcr Hc _ _ _. by apply wp_ret, (HQ c pc).
Qed.

(** The page of [a] occupies the group of slots that starts at its first one. *)
Lemma group_of a ps :
  pageSizeOk ps -> 0 <= a < 2 ^ 32 ->
  let base := (a - a mod ps) / 4096 in
  0 <= base /\ (ps / 4096 | base) /\ 0 < ps / 4096 /\ ps = 4096 * (ps / 4096)
  /\ a - a mod ps = 4096 * base /\ base + ps / 4096 <= 2 ^ 20 /\ 0 <= a - a mod ps < 2 ^ 32.
Proof.
  intros Hps Ha base. assert (Hn : ps = 4096 * (ps / 4096) /\ 0 < ps / 4096)
    by (destruct Hps as [-> | [-> | ->]]; done).
  destruct Hn as [Hn Hpos]. set (n := ps / 4096) in *.
  pose proof (Z.mod_pos_bound a ps ltac:(lia)). pose proof (Z.div_mod a ps ltac:(lia)) as Hdm.
  assert (Hb : base = n * (a / ps)).
  { subst base. replace (a - a mod ps) with (n * (a / ps) * 4096) by nia. apply Z.div_mul. lia. }
  assert (Hq : 0 <= a / ps) by (apply Z.div_pos; lia).
  assert (Hmax : a / ps < 2 ^ 20 / n).
  { apply Z.div_lt_upper_bound; [lia|].
    replace (ps * (2 ^ 20 / n)) with (2 ^ 32); [lia|].
    subst n. by destruct Hps as [-> | [-> | ->]]. }
  assert (Hdv : n * (2 ^ 20 / n) = 2 ^ 20)
    by (subst n; destruct Hps as [-> | [-> | ->]]; reflexivity).
  split_and!; [nia|exists (a / ps); lia|done|done|nia| |lia|lia]. rewrite Hb. nia.
Qed.

(** The bytes of one page, as the table translates them. *)
Lemma global_bytes h l p c pc b bank a size ps :
  pageSizeOk ps -> 0 <= a -> 0 < size -> a + size <= 2 ^ 32 ->
  h !! l = Some p -> cls p = GGTTClass ->
  (forall j, 0 <= j < ps / 4096 ->
     slotAt h (table p) ((a - a mod ps) / 4096 + j) (b + 4096 * j)) ->
  tableChild (table p) ((a - a mod ps) / 4096) = Some c -> h !! c = Some pc ->
  entryBytes (piece pc bank a size ps) = map (translate 1 h l) (seqZ a (pieceSize a size ps)).
Proof.
  intros Hps Ha Hs Hov Hl Hcls Hslots Hc Hpc.
  destruct (group_of a ps Hps ltac:(lia)) as (Hb0 & _ & Hn & Hpn & Hbase & _).
  set (base := (a - a mod ps) / 4096) in *. set (n := ps / 4096) in *.
  assert (Hpb : u64 (physicalAddress pc) = u64 b).
  { destruct (Hslots 0 ltac:(lia)) as (c' & pc' & Hc' & Hpc' & Hb'). rewrite Z.add_0_r in Hc'.
    rewrite Hc in Hc'. injection Hc' as <-. rewrite Hpc in Hpc'. injection Hpc' as <-.
    rewrite Hb'. f_equal. lia. }
  destruct (pieceSize_bounds a size ps Hps Hs) as [Hp1 Hp2].
  unfold entryBytes, piece. cbn [pi_physicalAddress pi_size].
  rewrite (map_seqZ_shift (translate 1 h l) a).
  apply map_ext_in. intros j Hj%list_elem_of_In%elem_of_seqZ.
  pose proof (Z.mod_pos_bound a ps ltac:(lia)) as Hm.
  set (q := (a mod ps + j) / 4096). assert (Hq : 0 <= q < n).
  { split; [apply Z.div_pos; lia|apply Z.div_lt_upper_bound; lia]. }
  assert (Hk : a + j = 4096 * (base + q) + (a mod ps + j) mod 4096)
    by (pose proof (Z.div_mod (a mod ps + j) 4096 ltac:(lia)); subst q; lia).
  pose proof (Z.mod_pos_bound (a mod ps + j) 4096 ltac:(lia)) as Hr.
  assert (Hdiv : (a + j) / 4096 = base + q)
    by (symmetry; apply (Z.div_unique _ _ _ ((a mod ps + j) mod 4096)); lia).
  assert (Hmod : (a + j) mod 4096 = (a mod ps + j) mod 4096)
    by (symmetry; apply (Z.mod_unique _ _ (base + q)); lia).
  rewrite (translate_slot h l p (a + j) (b + 4096 * q)); [|done|done|lia|].
  - rewrite wrap_add_wrap, Hmod. f_equal.
    replace (physicalAddress pc + a mod ps + j) with (physicalAddress pc + (a mod ps + j)) by lia.
    rewrite <- wrap_add_wrap, Hpb, wrap_add_wrap. f_equal.
    pose proof (Z.div_mod (a mod ps + j) 4096 ltac:(lia)). subst q. lia.
  - rewrite Hdiv. by apply Hslots.
Qed.

(** Filling one group keeps the table uniform. *)
Lemma uniform_fill n h h' l p p' base :
  0 < n -> h !! l = Some p -> h' !! l = Some p' -> ext h h' -> cls p = GGTTClass ->
  (n | base) -> 0 <= base -> uniform n h l ->
  (forall k, 0 <= k -> k < base \/ base + n <= k ->
     tableChild (table p') k = tableChild (table p) k) ->
  groupFull n h' (table p') base -> uniform n h' l.
Proof.
  intros Hn Hl Hl' Hx Hcls Hdiv Hb (q & Hq & _ & Hu) Hkeep Hfull.
  assert (q = p) as -> by congruence.
  destruct (Hx _ _ Hl) as (p2 & Hp2 & (Hc2 & _) & Ht2). assert (p2 = p') as -> by congruence.
  exists p'. split_and!; [done|by rewrite Hc2|]. intros g Hg Hgd.
  destruct (decide (g = base)) as [->|Hne]; [by right|].
  destruct (Hu g Hg Hgd) as [Hfree|(b & Hb')].
  - left. intros j Hj. rewrite Hkeep; [by apply Hfree|lia|].
    destruct (decide (g + j < base)); [by left|]. right.
    destruct (decide (base + n <= g + j)); [done|]. exfalso. apply Hne.
    apply (group_disjoint n _ _ j (g + j - base)); [done|done|lia|lia|lia].
  - right. exists b. intros j Hj. eapply slotAt_ext; [done| |by apply Hb']. intros c. apply Ht2.
Qed.

(** A walk from [w] to [w'] that recorded [es]. *)
Definition gwalked w w' (es : list PageInfo) : Prop :=
  gstep w (withEntries (entries (walker w)) w') /\ entries (walker w') = entries (walker w) ++ es.

Lemma gwalked_refl w : wfW w -> gwalked w w [].
Proof.
  intros Hwf. split; [|by rewrite app_nil_r]. destruct w as [s [e p n k] m]. by apply gstep_refl.
Qed.

Lemma gwalked_trans w1 w2 w3 es1 es2 :
  is_Some (heapOf w1 !! root) -> gwalked w1 w2 es1 -> gwalked w2 w3 es2 ->
  gwalked w1 w3 (es1 ++ es2).
Proof.
  intros Hr [S1 E1] [S2 E2]. split; [|by rewrite E2, E1, app_assoc].
  eapply gstep_trans; [done|exact S1|].
  destruct S2 as [[H1 H1'] H2 H3 H4 H5]. by split.
Qed.

Lemma gwalked_ext w w' es : gwalked w w' es -> ext (heapOf w) (heapOf w').
Proof. intros [H _]. exact (gs_ext _ _ H). Qed.

Lemma gwalked_wf w w' es : gwalked w w' es -> wfW w'.
Proof. intros [H _]. destruct (gs_wf _ _ H) as [H1 H2]. by split. Qed.

Lemma gstep_push w w1 e :
  gstep w w1 ->
  gwalked w (mkWalkState (store w1)
    (mkWalker (entries (walker w1) ++ [e]) (pageWalkEntries (walker w1))
       (pendingNodes (walker w1)) (pages64KB (walker w1))) (emittedPending w1)) [e].
Proof. intros [[H1 H1'] H2 H3 H4 H5]. split; [by split|]. cbn. by rewrite H3. Qed.

(** The page of [a] is present, or the walk allocates it. *)
Definition pagePresent w a ps : Prop :=
  exists p c pc b, heapOf w !! root = Some p /\ cls p = GGTTClass
    /\ tableChild (table p) ((a - a mod ps) / 4096) = Some c /\ heapOf w !! c = Some pc
    /\ forall j, 0 <= j < ps / 4096 ->
         slotAt (heapOf w) (table p) ((a - a mod ps) / 4096 + j) (b + 4096 * j).

Lemma wp_allocatePage w ps a p (Q : option loc -> WalkState A -> Prop) :
  wfW w -> uniform (ps / 4096) (heapOf w) root -> heapOf w !! root = Some p ->
  pageSizeOk ps -> 0 <= a < 2 ^ 32 ->
  tableChild (table p) ((a - a mod ps) / 4096) = None ->
  (forall c w' p', gstep w w' -> uniform (ps / 4096) (heapOf w') root -> pagePresent w' a ps ->
     heapOf w' !! root = Some p' -> tableChild (table p') ((a - a mod ps) / 4096) = Some c ->
     Q (Some c) w') ->
  wp (g ← wderef root;
      child ← onStore (allocateChild ndebug root ps (memoryBank g));
      onStore (setChild root ((a - a mod ps) / 4096) child) ≫= fun _ =>
      p ← wderefPtr child;
      pushPageWalkEntry 0
        (mkPageEntryInfo (u64 (entryOffset ggtt + 8 * ((a - a mod ps) / 4096)))
           (Z.lor (physicalAddress p) enableBits)) ≫= fun _ =>
      ggttExtraEntries ndebug (Z.to_nat (ps / 4096) - 1) ggtt p enableBits
        ((a - a mod ps) / 4096) 1 (physicalAddress p) ≫= fun _ =>
      mret child) Q w.
Proof.
  intros Hwf Hu Hp Hps Ha Hc HQ. pose proof Hu as (q & Hq & Hcls & Hgroups).
  assert (q = p) as -> by congruence.
  destruct (group_of a ps Hps Ha) as (Hb0 & Hbd & Hn & Hpn & Hbase & Hmax & _).
  set (base := (a - a mod ps) / 4096) in *. set (n := ps / 4096) in *.
  destruct (Hgroups base Hb0 Hbd) as [Hfree|(b & Hb)].
  2: { destruct (Hb 0 ltac:(lia)) as (c & _ & Hc' & _). rewrite Z.add_0_r in Hc'. congruence. }
  apply wp_bind. eapply wp_wderef; [exact Hp|]. apply wp_bind, wp_onStore.
  eapply wp_allocateGlobal; [apply Hwf|exact Hp|done|done|]. intros c pc s1 Hcr Hpc.
  apply wp_bind. refine (wp_mono _ _ _ _ (wp_linkSlot w s1 c p pc base
    (fun _ w2 => wp (ggttExtraEntries ndebug (Z.to_nat n - 1) ggtt pc enableBits base 1
                       (physicalAddress pc) ≫= fun _ => mret (Some c)) Q w2)
    Hwf Hp Hcls Hb0 Hc Hcr Hpc _) _).
  2: { intros [] w2 [Hc2 Hk]. apply wp_bind, wp_onStore. cbn [derefPtr].
       eapply wp_deref; [exact Hc2|]. rewrite eta_walk. by apply wp_bind. }
  intros w2 p2 Hst2 Hp2 Hs2 Ht2 Hc2. pose proof Hs2 as (Hcls2 & _).
  assert (Hch2 : forall k, 0 <= k -> k <> base ->
            tableChild (table p2) k = tableChild (table p) k)
    by (intros k Hk Hne; rewrite Ht2, tableChild_tableSet, decide_False by (lia || done); done).
  apply wp_bind. apply (wp_ggttExtraEntries _ w2 p2); [apply Hst2|done|by rewrite Hcls2|done|lia|lia| |].
  { intros j Hj. rewrite Hch2 by lia. replace (base + 1 + j) with (base + (j + 1)) by lia.
    apply Hfree. lia. }
  intros w3 p3 Hst3 Hp3 Hs3 Hkeep Hslots. apply wp_ret.
  assert (Hst : gstep w w3) by (eapply gstep_trans; [by eexists|exact Hst2|exact Hst3]).
  assert (Hc3 : tableChild (table p3) base = Some c)
    by (rewrite Hkeep by lia; by rewrite Ht2, tableChild_tableSet, decide_True by lia).
  destruct (gs_ext _ _ Hst3 _ _ Hc2) as (pc3 & Hpc3 & (_ & _ & _ & Hph3 & _) & _).
  assert (Hall : forall j, 0 <= j < n ->
            slotAt (heapOf w3) (table p3) (base + j) (physicalAddress pc + 4096 * j)).
  { intros j Hj. destruct (decide (j = 0)) as [->|Hne].
    - rewrite Z.add_0_r. exists c, pc3. split_and!; [done|done|]. rewrite Hph3. f_equal. lia.
    - replace (base + j) with (base + 1 + (j - 1)) by lia.
      eapply slotAt_eq; [|apply Hslots; lia]. f_equal. lia. }
  apply (HQ c w3 p3); [done| | |done|done].
  - eapply (uniform_fill n (heapOf w) _ _ p p3 base); [done|done|done|apply Hst|done|done|done|done| |].
    + intros k Hk Hout. rewrite Hkeep by lia. apply Hch2; lia.
    + by exists (physicalAddress pc).
  - exists p3, c, pc3, (physicalAddress pc). split_and!; [done|destruct Hs3 as (-> & _); by rewrite Hcls2|done|done|].
    exact Hall.
Qed.

Lemma wp_ggttStep w banks ps a size (Q : option (Z * Z) -> WalkState A -> Prop) :
  wfW w -> uniform (ps / 4096) (heapOf w) root -> pageSizeOk ps ->
  0 <= a -> 0 < size -> a + size <= 2 ^ 32 ->
  enableBits = (if negb (banks =? mainBank) then 3 else 1) ->
  (forall w' e, gwalked w w' [e] -> uniform (ps / 4096) (heapOf w') root ->
     entryBytes e = map (translate 1 (heapOf w') root) (seqZ a (pieceSize a size ps)) ->
     Q (Some (a + pieceSize a size ps, size - pieceSize a size ps)) w') ->
  wp (ggttStep ndebug ggtt banks ps Reserve a size) Q w.
Proof.
  intros Hwf Hu Hps Ha Hs Hov Hen HQ. pose proof Hu as (p & Hp & Hcls & _).
  destruct (group_of a ps Hps ltac:(lia)) as (Hb0 & Hbd & Hn & Hpn & Hbase & Hmax & Ha32).
  destruct (pageSizeOk_pos _ Hps) as [Hrange _].
  pose proof (pieceSize_bounds a size ps Hps Hs) as [Hp1 Hp2].
  pose proof (Z.mod_pos_bound a ps ltac:(lia)) as Hmod.
  unfold ggttStep. cbv zeta. rewrite land_mod_size, (wrap_small 32 (a - _)) by done.
  rewrite getIndex_global by done.
  apply wp_bind. eapply wp_wgetChild; [exact Hp|].
  assert (Htail : forall w1 p1 c, gstep w w1 -> uniform (ps / 4096) (heapOf w1) root ->
    pagePresent w1 a ps -> heapOf w1 !! root = Some p1 ->
    tableChild (table p1) ((a - a mod ps) / 4096) = Some c ->
    wp (p ← wderef c;
        let sizeThisPass := Z.min (u64 (ps - a mod ps)) size in
        pushEntry (mkPageInfo (u64 (physicalAddress p + a mod ps)) sizeThisPass
                     (isLocalMemory p) 0) ≫= fun _ =>
        mret (Some (u64 (a + u32 sizeThisPass), size - sizeThisPass))) Q w1).
  { intros w1 p1 c Hst Hu1 (q & d & pd & b & Hq & Hcq & Hd & Hpd & Hb) Hp1' Hc.
    assert (q = p1) as -> by congruence. assert (d = c) as -> by congruence.
    apply wp_bind. eapply wp_wderef; [exact Hpd|]. cbv zeta.
    rewrite (wrap_small 64 (ps - _)) by (unfold in_width; unfold pageSize2MB in *; lia).
    rewrite Z.min_comm. fold (pieceSize a size ps).
    rewrite (wrap_small 32) by (unfold in_width; unfold pageSize2MB in *; lia).
    rewrite (wrap_small 64 (a + _)) by (unfold in_width; lia).
    fold (piece pd 0 a size ps).
    apply wp_bind, wp_modify, wp_ret. apply (HQ _ (piece pd 0 a size ps)).
    - by apply gstep_push.
    - exact Hu1.
    - by eapply global_bytes. }
  destruct (tableChild (table p) ((a - a mod ps) / 4096)) as [c|] eqn:Hc.
  - apply wp_bind, wp_ret. cbv beta iota.
    destruct Hu as (q & Hq & _ & Hgroups). assert (q = p) as -> by congruence.
    destruct (Hgroups _ Hb0 Hbd) as [Hfree|(b & Hb)].
    { specialize (Hfree 0 ltac:(lia)). rewrite Z.add_0_r in Hfree. congruence. }
    destruct (wf_slot _ _ _ _ _ Hwf Hp Hc) as [pc Hpc].
    eapply Htail; [by apply gstep_refl| | |exact Hp|exact Hc].
    + exists p. split_and!; [done|done|exact Hgroups].
    + by exists p, c, pc, b.
  - apply wp_bind, wp_bind, wp_cassert; [done|]. rewrite bool_decide_eq_false_2 by done.
    rewrite <- Hen. eapply wp_allocatePage; [done|done|exact Hp|done|lia|exact Hc|].
    intros c w1 p1 Hst Hu1 Hpr Hp1' Hc1. by eapply Htail.
Qed.

Lemma wp_walkGGTT fuel : forall w banks ps a size Q,
  wfW w -> uniform (ps / 4096) (heapOf w) root -> pageSizeOk ps ->
  0 <= a -> 0 <= size -> a + size <= 2 ^ 32 ->
  enableBits = (if negb (banks =? mainBank) then 3 else 1) ->
  (0 < size -> pagesLeft a size <= Z.of_nat fuel) ->
  (forall w' es, gwalked w w' es -> uniform (ps / 4096) (heapOf w') root ->
     concat (map entryBytes es) = map (translate 1 (heapOf w') root) (seqZ a size) -> Q tt w') ->
  wp (walkGGTT ndebug fuel ggtt banks ps Reserve a size) Q w.
Proof.
  induction fuel as [|fuel IH]; intros w banks ps a size Q Hwf Hu Hps Ha Hs Hov Hen Hfuel HQ;
    cbn [walkGGTT]; destruct (Z.ltb_spec 0 size) as [Hpos|Hz].
  - pose proof (pagesLeft_pos a size Ha Hpos). lia.
  - assert (size = 0) as -> by lia. apply wp_ret, (HQ w []); [by apply gwalked_refl|done|done].
  - pose proof (pieceSize_bounds a size ps Hps Hpos) as [Hb1 Hb2].
    apply wp_bind. eapply wp_ggttStep; [done|done|done|done|done|done|done|].
    intros w1 e Hw1 Hu1 He. cbv beta iota.
    apply IH; [by eapply gwalked_wf|done|done|lia|lia|lia|done| |].
    { intros Hmore. pose proof (pagesLeft_decreases a size ps Hps Ha Hmore). lia. }
    intros w2 es Hw2 Hu2 Hes. apply (HQ w2 (e :: es)); [|done|].
    + destruct Hu as (p & Hp & _). by eapply (gwalked_trans w w1 w2 [e] es).
    + rewrite (seqZ_split a (pieceSize a size ps)), map_app by lia.
      cbn [map concat]. f_equal; [|exact Hes].
      rewrite <- (app_nil_r (entryBytes e)).
      change (entryBytes e ++ []) with (concat (map entryBytes [e])).
      eapply map_translate_ext; [by eapply gwalked_ext|]. cbn [map concat]. by rewrite app_nil_r.
  - assert (size = 0) as -> by lia. apply wp_ret, (HQ w []); [by apply gwalked_refl|done|done].
Qed.
End Global.

(** An empty table is uniform. *)
Lemma uniform_empty n h l p :
  h !! l = Some p -> cls p = GGTTClass -> table p = [] -> uniform n h l.
Proof.
  intros Hl Hcls Ht. exists p. split_and!; [done|done|]. intros g _ _. left. intros j _.
  rewrite Ht. unfold tableChild. by rewrite lookup_nil.
Qed.

(** C23: A reservation in the global table with one page size ends without error or
    failed assertion. The pieces it records are the physical addresses the table
    translates the range to; every address that was translated before keeps its
    translation; and the entry of every slot it fills is in the walker's list, at
    the slot's offset and with the enable bits of the memory kind. *)
Theorem walkMemoryGGTT_maps_range {A} `{AllocatorLaws A} ndebug ggtt (w : WalkState A)
    a size banks ps :
  let root := ggtt_table ggtt in
  wfW w -> uniform (ps / 4096) (heapOf w) root -> pageSizeOk ps ->
  0 <= a -> 0 <= size -> a + size <= 2 ^ 32 ->
  exists w' es, walkMemoryGGTT ndebug ggtt a size banks ps Reserve w = Ok (tt, w')
    /\ wfW w' /\ uniform (ps / 4096) (heapOf w') root
    /\ entries (walker w') = entries (walker w) ++ es
    /\ concat (map entryBytes es) = map (translate 1 (heapOf w') root) (seqZ a size)
    /\ (forall n t k r, translate n (heapOf w) t k = Some r -> translate n (heapOf w') t k = Some r)
    /\ (forall p p' i c, heapOf w !! root = Some p -> heapOf w' !! root = Some p' -> 0 <= i ->
          tableChild (table p') i = Some c ->
          tableChild (table p) i = Some c
          \/ exists pc, heapOf w' !! c = Some pc
               /\ emittedEntry w' 0 (mkPageEntryInfo (u64 (entryOffset ggtt + 8 * i))
                    (Z.lor (physicalAddress pc) (if negb (banks =? mainBank) then 3 else 1)))).
Proof.
  intros root Hwf Hu Hps Ha Hs Hov.
  destruct (wp_run _ _ _ (wp_walkGGTT ndebug ggtt _ (walkFuel size) w banks ps a size
    (fun _ w' => exists es, gwalked ggtt (if negb (banks =? mainBank) then 3 else 1) w w' es
       /\ uniform (ps / 4096) (heapOf w') root
       /\ concat (map entryBytes es) = map (translate 1 (heapOf w') root) (seqZ a size))
    Hwf Hu Hps Ha Hs Hov eq_refl (fun _ => pagesLeft_fuel a size Ha Hs)
    (fun w' es H1 H2 H3 => ex_intro _ es (conj H1 (conj H2 H3)))))
    as ([] & w' & Hrun & es & Hw & Hu' & Hb).
  exists w', es. split_and!; [done|by eapply gwalked_wf|done|apply Hw|done| |].
  - intros n t k r. apply translate_ext. by eapply gwalked_ext.
  - intros p p' i c Hp Hp' Hi Hc. destruct Hw as [Hst _]. exact (gs_cover _ _ _ _ Hst p p' i c Hp Hp' Hi Hc).
Qed.

(** ** A concrete table

    A global table in local memory, with 64KB pages, and a reservation that ends
    in the middle of its second page. *)

#[local] Existing Instance SimpleAllocatorOps.

Definition exGlobal : result (GGTT * Store Simple.t) :=
  @newGGTT _ (SimpleAllocatorOps false) false true 1 0 exStore.
Definition exGGTT : GGTT :=
  match exGlobal with Ok (g, _) => g | Err _ => mkGGTT 1%positive 0 (SimpleAllocator.init 0) 0 end.
Definition exGlobalWalk : WalkState Simple.t :=
  mkWalkState (match exGlobal with Ok (_, s) => s | Err _ => exStore end) newWalker [].

Lemma exGlobalWalk_spec :
  @wfW _ (SimpleAllocatorOps false) exLaws exGlobalWalk
  /\ uniform 16 (heapOf exGlobalWalk) (ggtt_table exGGTT).
Proof.
  pose proof (@wp_newRoot _ (SimpleAllocatorOps false) exLaws false exStore GGTTClass 1
    (fun l s' => rootSpec exStore GGTTClass 1 l s') exStore_wf (exBank_valid 0 eq_refl) eq_refl
    (fun l s' H => H)) as Hwp.
  destruct (wp_run _ _ _ Hwp) as (l & s' & Hrun & Hw & _).
  assert (Hg : exGlobal = Ok (mkGGTT l 0 (SimpleAllocator.init 0) 0, s'))
    by (unfold exGlobal, newGGTT, mbind, M_bind; by rewrite Hrun).
  split.
  - unfold exGlobalWalk. rewrite Hg. split_and!; [done|done|constructor].
  - eapply (uniform_empty _ _ _ (mkPageTable GGTTClass true noParams 0 1 [] false false 32 1));
      by vm_compute.
Qed.

Lemma walkMemoryGGTT_maps_range_witness :
  exists w' es, @walkMemoryGGTT _ (SimpleAllocatorOps false) false exGGTT 0x1f000 0x2000 1 0x10000
               Reserve exGlobalWalk = Ok (tt, w')
    /\ entries (walker w') = es
    /\ concat (map entryBytes es)
       = map (translate 1 (heapOf w') (ggtt_table exGGTT)) (seqZ 0x1f000 0x2000).
Proof.
  destruct (@walkMemoryGGTT_maps_range _ (SimpleAllocatorOps false) exLaws false exGGTT exGlobalWalk
    0x1f000 0x2000 1 0x10000 (proj1 exGlobalWalk_spec) (proj2 exGlobalWalk_spec)
    (or_intror (or_introl eq_refl)) ltac:(lia) ltac:(lia) ltac:(lia))
    as (w' & es & Hrun & _ & _ & He & Hb & _).
  exists w', es. split; [exact Hrun|]. split; [exact He|exact Hb].
Defined.
