(* ===== verification/AubPackets.v ===== *)
(** * AUB packets

    [aub_header.h] and [includes/aub_services.h]: the structures of the capture
    file, one Module each, with the members as a Record, their bit widths in
    memory order, the header functions and the enumerators. All structures are
    packed to four bytes and little-endian, so that an object is the integer of
    its bit fields, least significant first. *)

From S2P Require Import Prelude.
#[local] Open Scope Z_scope.

(** ** Bit fields and bytes *)

(** An object as an integer: a bit field keeps the low bits of its value. *)
Fixpoint packBits (fs : list (Z * Z)) : Z :=
  match fs with
  | [] => 0
  | f :: fs' => wrap f.1 f.2 + 2 ^ f.1 * packBits fs'
  end.

Fixpoint unpackBits (widths : list Z) (x : Z) : list Z :=
  match widths with
  | [] => []
  | w :: ws => wrap w x :: unpackBits ws (x / 2 ^ w)
  end.

(** [n] bytes of an integer, little-endian. *)
Fixpoint leBytes (n : nat) (x : Z) : list Z :=
  match n with
  | O => []
  | S n' => wrap 8 x :: leBytes n' (x / 256)
  end.

Fixpoint fromLE (bytes : list Z) : Z :=
  match bytes with
  | [] => 0
  | b :: bs => b + 256 * fromLE bs
  end.

(** The fields of an array member; elements not given are zero. *)
Definition arrayFields (w : Z) (n : nat) (l : list Z) : list (Z * Z) :=
  map (fun i => (w, nth i l 0)) (seq 0 n).

Definition pairFields (w1 w2 : Z) (n : nat) (l : list (Z * Z)) : list (Z * Z) :=
  concat (map (fun i => [(w1, (nth i l (0, 0)).1); (w2, (nth i l (0, 0)).2)]) (seq 0 n)).

Lemma length_leBytes n : forall x, length (leBytes n x) = n.
Proof. induction n as [|n IH]; intros x; simpl; [done|by rewrite IH]. Qed.

Lemma fromLE_leBytes n : forall x, 0 <= x < 2 ^ (8 * Z.of_nat n) -> fromLE (leBytes n x) = x.
Proof.
  induction n as [|n IH]; intros x Hx; cbn [leBytes fromLE].
  - change (8 * Z.of_nat 0) with 0 in Hx. lia.
  - replace (8 * Z.of_nat (S n)) with (8 + 8 * Z.of_nat n) in Hx by lia.
    rewrite Z.pow_add_r in Hx by lia. change (2 ^ 8) with 256 in Hx.
    rewrite IH by (split; [apply Z.div_pos; lia|apply Z.div_lt_upper_bound; lia]).
    unfold wrap. change (2 ^ 8) with 256. pose proof (Z.div_mod x 256). lia.
Qed.

Lemma leBytes_byte n : forall x, Forall (fun b => 0 <= b < 256) (leBytes n x).
Proof.
  induction n as [|n IH]; intros x; simpl; constructor; [|done].
  apply (wrap_range 8). lia.
Qed.

Lemma leBytes_fromLE bytes :
  Forall (fun b => 0 <= b < 256) bytes -> leBytes (length bytes) (fromLE bytes) = bytes.
Proof.
  induction 1 as [|b bs Hb _ IH]; [done|]. cbn [length leBytes fromLE]. f_equal.
  - unfold wrap. change (2 ^ 8) with 256. rewrite (Z.mul_comm 256), Z.mod_add by lia.
    by apply Z.mod_small.
  - rewrite (Z.mul_comm 256), Z.div_add, Z.div_small by lia. exact IH.
Qed.

Lemma packBits_range fs :
  Forall (fun f => 0 <= f.1) fs -> 0 <= packBits fs < 2 ^ sumZ (map fst fs).
Proof.
  induction 1 as [|[w v] fs Hw Hall IH]; [done|]. cbn [packBits map sumZ foldr fst snd] in *.
  fold (sumZ (map fst fs)). pose proof (wrap_range w v Hw) as [? ?].
  assert (0 <= sumZ (map fst fs)).
  { clear - Hall. induction Hall as [|f fs Hf _ IH]; [done|]. simpl in *. unfold sumZ in *. lia. }
  rewrite Z.pow_add_r by lia. nia.
Qed.

Lemma packBits_app fs1 fs2 :
  Forall (fun f => 0 <= f.1) fs1 ->
  packBits (fs1 ++ fs2) = packBits fs1 + 2 ^ sumZ (map fst fs1) * packBits fs2.
Proof.
  induction 1 as [|f fs Hf Hall IH]; [cbn; lia|]. cbn [app packBits map].
  change (sumZ (f.1 :: map fst fs)) with (f.1 + sumZ (map fst fs)).
  assert (0 <= sumZ (map fst fs))
    by (clear - Hall; induction Hall; unfold sumZ in *; cbn in *; lia).
  rewrite IH, Z.pow_add_r by lia. lia.
Qed.

Lemma unpack_pack fs :
  Forall (fun f => 0 <= f.1) fs ->
  unpackBits (map fst fs) (packBits fs) = map (fun f => wrap f.1 f.2) fs.
Proof.
  induction 1 as [|[w v] fs Hw Hall IH]; [done|]. cbn [packBits map unpackBits fst snd] in *.
  pose proof (wrap_range w v Hw) as Hv. unfold in_width in Hv.
  f_equal.
  - unfold wrap at 1. rewrite (Z.mul_comm (2 ^ w)), Z.mod_add by lia. by apply Z.mod_small.
  - rewrite (Z.mul_comm (2 ^ w)), Z.div_add, Z.div_small by lia. exact IH.
Qed.

(** ** aub_header.h *)

Definition setMisalignedUint64 (value : Z) : list Z := [u32 value; u32 (Z.shiftr value 32)].
Definition getMisalignedUint64 (addressBits : list Z) : Z :=
  Z.lor (Z.shiftl (nth 1 addressBits 0) 32) (nth 0 addressBits 0).

Module AubCmdHdr.
Record t := mk { DwordLength : Z; SubOp : Z; Opcode : Z; Type_ : Z }.
Definition fields (p : t) : list (Z * Z) :=
  [(16, DwordLength p); (7, SubOp p); (6, Opcode p); (3, Type_ p)].
Definition sizeOf : Z := 4.
Definition zero : t := mk 0 0 0 0.
End AubCmdHdr.

Module AubCmdDumpBmpHd.
Record t := mk {
  Header : AubCmdHdr.t;
  Xmin : Z; Ymin : Z; BufferPitch : Z;
  BitsPerPixel : Z; Format : Z;
  Xsize : Z; Ysize : Z;
  BaseAddr : Z;
  Secure : Z; UseFence : Z; TileOn : Z; WalkY : Z; UsePPGTT : Z; Use32BitDump : Z;
  UseFullFormat : Z;
  DirectoryHandle : Z
}.
Definition fields (p : t) : list (Z * Z) :=
  AubCmdHdr.fields (Header p)
  ++ [(32, Xmin p); (32, Ymin p); (32, BufferPitch p);
      (8, BitsPerPixel p); (8, Format p); (16, 0); (32, Xsize p); (32, Ysize p);
      (64, BaseAddr p);
      (1, Secure p); (1, UseFence p); (1, TileOn p); (1, WalkY p); (1, UsePPGTT p);
      (1, Use32BitDump p); (1, UseFullFormat p); (25, 0); (32, DirectoryHandle p)].
Definition sizeOf : Z := 44.
End AubCmdDumpBmpHd.

Module AubPpgttContextCreate.
Record t := mk {
  Header : AubCmdHdr.t;
  Handle : Z;
  AdvancedContext : Z;
  SixtyFourBit : Z;
  PageDirPointer : list Z
}.
Definition fields (p : t) : list (Z * Z) :=
  AubCmdHdr.fields (Header p)
  ++ [(32, Handle p); (1, AdvancedContext p); (1, SixtyFourBit p); (30, 0)]
  ++ arrayFields 64 4 (PageDirPointer p).
Definition sizeOf : Z := 44.
End AubPpgttContextCreate.

Module AubCaptureBinaryDumpHD.
Record t := mk {
  Header : AubCmdHdr.t;
  BaseAddr : Z; Width : Z; Height : Z; Pitch : Z;
  SurfaceType : Z; GttType : Z;
  DirectoryHandle : Z;
  ReservedDW1 : Z; ReservedDW2 : Z;
  OutputFile : list Z
}.
Definition fields (p : t) : list (Z * Z) :=
  AubCmdHdr.fields (Header p)
  ++ [(64, BaseAddr p); (64, Width p); (64, Height p); (64, Pitch p);
      (4, SurfaceType p); (2, GttType p); (26, 0); (32, DirectoryHandle p);
      (32, ReservedDW1 p); (32, ReservedDW2 p)]
  ++ arrayFields 8 4 (OutputFile p).
Definition sizeOf : Z := 56.
(** The setters write the two halves, [setMisalignedUint64]. *)
Definition setHeight (h : Z) (p : t) : t :=
  mk (Header p) (BaseAddr p) (Width p) (getMisalignedUint64 (setMisalignedUint64 h)) (Pitch p)
    (SurfaceType p) (GttType p) (DirectoryHandle p) (ReservedDW1 p) (ReservedDW2 p) (OutputFile p).
Definition setWidth (w : Z) (p : t) : t :=
  mk (Header p) (BaseAddr p) (getMisalignedUint64 (setMisalignedUint64 w)) (Height p) (Pitch p)
    (SurfaceType p) (GttType p) (DirectoryHandle p) (ReservedDW1 p) (ReservedDW2 p) (OutputFile p).
Definition setBaseAddr (a : Z) (p : t) : t :=
  mk (Header p) (getMisalignedUint64 (setMisalignedUint64 a)) (Width p) (Height p) (Pitch p)
    (SurfaceType p) (GttType p) (DirectoryHandle p) (ReservedDW1 p) (ReservedDW2 p) (OutputFile p).
Definition setPitch (a : Z) (p : t) : t :=
  mk (Header p) (BaseAddr p) (Width p) (Height p) (getMisalignedUint64 (setMisalignedUint64 a))
    (SurfaceType p) (GttType p) (DirectoryHandle p) (ReservedDW1 p) (ReservedDW2 p) (OutputFile p).
End AubCaptureBinaryDumpHD.

(** ** aub_services.h *)

Module CmdServicesMemTraceVersion.

Record t := mk {
  dwordCount : Z;
  instructionSubOpcode : Z;
  instructionOpcode : Z;
  instructionType : Z;
  memtraceFileVersion : Z;
  metal : Z;
  stepping : Z;
  device : Z;
  csxSwizzling : Z;
  recordingMethod : Z;
  pch : Z;
  captureTool : Z;
  deviceAbbreviation : list Z;
  commandLine : list Z
}.

(** The members in memory order, with their widths in bits. *)
Definition fields (p : t) : list (Z * Z) :=
  [(16, dwordCount p); (7, instructionSubOpcode p); (6, instructionOpcode p);
    (3, instructionType p); (32, memtraceFileVersion p); (3, metal p);
    (5, stepping p); (8, device p); (2, csxSwizzling p); (2, recordingMethod p);
    (8, pch p); (4, captureTool p)]
  ++ arrayFields 8 8 (deviceAbbreviation p)
  ++ arrayFields 8 4 (commandLine p).

Definition sizeOf : Z := 24.

Definition zero : t :=
  mk 0 0 0 0 0 0 0 0 0 0 0 0 [] [].

Definition getPacketSize (p : t) : Z := dwordCount p + 1.
Definition getLengthBias : Z := 1.
Definition getBaseLength : Z := 4.
Definition matchesHeader (p : t) : bool :=
  if negb (instructionType p =? 0x7) then false else
  if negb (instructionOpcode p =? 0x2e) then false else
  if negb (instructionSubOpcode p =? 0xe) then false else
  true.
Definition setHeader (p : t) : t :=
  mk (dwordCount p) 0xe 0x2e 0x7 (memtraceFileVersion p) (metal p) (stepping p)
    (device p) (csxSwizzling p) (recordingMethod p) (pch p) (captureTool p)
    (deviceAbbreviation p) (commandLine p).
Definition type_ : Z := 0x7.
Definition opcode : Z := 0x2e.
Definition subOpcode : Z := 0xe.
Definition getCommandLineLength (p : t) : Z := getPacketSize p - 5.

Module CaptureToolValues.
Definition GenKmdCapture : Z := 1.
Definition Aubload : Z := 0.
Definition Amber : Z := 3.
Definition Ghal3DUlt : Z := 2.
Definition AubDump : Z := 4.
Definition AubStream : Z := 5.
End CaptureToolValues.

Module RecordingMethodValues.
Definition Phy : Z := 1.
Definition Gfx : Z := 0.
End RecordingMethodValues.

Module CsxSwizzlingValues.
Definition Disabled : Z := 0.
Definition Enabled : Z := 1.
End CsxSwizzlingValues.

Module PchValues.
Definition LynxPoint : Z := 4.
Definition CougarPoint : Z := 2.
Definition PantherPoint : Z := 3.
Definition Default : Z := 0.
Definition IbexPeak : Z := 1.
End PchValues.
End CmdServicesMemTraceVersion.

Module CmdServicesMemTraceRegisterCompare.

Record t := mk {
  dwordCount : Z;
  instructionSubOpcode : Z;
  instructionOpcode : Z;
  instructionType : Z;
  registerOffset : Z;
  noReadExpect : Z;
  registerSize : Z;
  registerSpace : Z;
  readMaskLow : Z;
  readMaskHigh : Z;
  data : list Z
}.

(** The members in memory order, with their widths in bits. *)
Definition fields (p : t) : list (Z * Z) :=
  [(16, dwordCount p); (7, instructionSubOpcode p); (6, instructionOpcode p);
    (3, instructionType p); (32, registerOffset p); (1, noReadExpect p); (15, 0);
    (4, registerSize p); (8, 0); (4, registerSpace p); (32, readMaskLow p);
    (32, readMaskHigh p)]
  ++ arrayFields 32 1 (data p).

Definition sizeOf : Z := 24.

Definition zero : t :=
  mk 0 0 0 0 0 0 0 0 0 0 [].

Definition getPacketSize (p : t) : Z := dwordCount p + 1.
Definition getLengthBias : Z := 1.
Definition getBaseLength : Z := 4.
Definition matchesHeader (p : t) : bool :=
  if negb (instructionType p =? 0x7) then false else
  if negb (instructionOpcode p =? 0x2e) then false else
  if negb (instructionSubOpcode p =? 0x1) then false else
  true.
Definition setHeader (p : t) : t :=
  mk (dwordCount p) 0x1 0x2e 0x7 (registerOffset p) (noReadExpect p)
    (registerSize p) (registerSpace p) (readMaskLow p) (readMaskHigh p) (data p).
Definition type_ : Z := 0x7.
Definition opcode : Z := 0x2e.
Definition subOpcode : Z := 0x1.
Definition getDataLength (p : t) : Z := getPacketSize p - 5.

Module RegisterSpaceValues.
Definition MchBar : Z := 1.
Definition Mmio : Z := 0.
Definition VtdBar : Z := 5.
Definition PciConfig : Z := 2.
Definition IO : Z := 4.
Definition AzaliaBar : Z := 3.
End RegisterSpaceValues.

Module RegisterSizeValues.
Definition Qword : Z := 3.
Definition Dword : Z := 2.
Definition Word : Z := 1.
Definition Byte : Z := 0.
End RegisterSizeValues.

Module NoReadExpectValues.
Definition ReadExpect : Z := 0.
Definition ReadWithoutExpect : Z := 1.
End NoReadExpectValues.
End CmdServicesMemTraceRegisterCompare.

Module CmdServicesMemTraceRegisterPoll.

Record t := mk {
  dwordCount : Z;
  instructionSubOpcode : Z;
  instructionOpcode : Z;
  instructionType : Z;
  registerOffset : Z;
  timeoutAction : Z;
  pollNotEqual : Z;
  operationType : Z;
  registerSize : Z;
  registerSpace : Z;
  pollMaskLow : Z;
  pollMaskHigh : Z;
  data : list Z
}.

(** The members in memory order, with their widths in bits. *)
Definition fields (p : t) : list (Z * Z) :=
  [(16, dwordCount p); (7, instructionSubOpcode p); (6, instructionOpcode p);
    (3, instructionType p); (32, registerOffset p); (1, 0); (1, timeoutAction p);
    (1, pollNotEqual p); (1, 0); (4, operationType p); (8, 0); (4, registerSize p);
    (8, 0); (4, registerSpace p); (32, pollMaskLow p); (32, pollMaskHigh p)]
  ++ arrayFields 32 1 (data p).

Definition sizeOf : Z := 24.

Definition zero : t :=
  mk 0 0 0 0 0 0 0 0 0 0 0 0 [].

Definition getPacketSize (p : t) : Z := dwordCount p + 1.
Definition getLengthBias : Z := 1.
Definition getBaseLength : Z := 4.
Definition matchesHeader (p : t) : bool :=
  if negb (instructionType p =? 0x7) then false else
  if negb (instructionOpcode p =? 0x2e) then false else
  if negb (instructionSubOpcode p =? 0x2) then false else
  true.
Definition setHeader (p : t) : t :=
  mk (dwordCount p) 0x2 0x2e 0x7 (registerOffset p) (timeoutAction p)
    (pollNotEqual p) (operationType p) (registerSize p) (registerSpace p)
    (pollMaskLow p) (pollMaskHigh p) (data p).
Definition type_ : Z := 0x7.
Definition opcode : Z := 0x2e.
Definition subOpcode : Z := 0x2.
Definition getDataLength (p : t) : Z := getPacketSize p - 5.

Module OperationTypeValues.
Definition Normal : Z := 0.
Definition InterlacedCrc : Z := 1.
End OperationTypeValues.

Module RegisterSpaceValues.
Definition MchBar : Z := 1.
Definition Mmio : Z := 0.
Definition VtdBar : Z := 5.
Definition PciConfig : Z := 2.
Definition IO : Z := 4.
Definition AzaliaBar : Z := 3.
End RegisterSpaceValues.

Module TimeoutActionValues.
Definition Abort : Z := 0.
Definition Ignore : Z := 1.
End TimeoutActionValues.

Module RegisterSizeValues.
Definition Qword : Z := 3.
Definition Dword : Z := 2.
Definition Word : Z := 1.
Definition Byte : Z := 0.
End RegisterSizeValues.
End CmdServicesMemTraceRegisterPoll.

Module CmdServicesMemTraceRegisterWrite.

Record t := mk {
  dwordCount : Z;
  instructionSubOpcode : Z;
  instructionOpcode : Z;
  instructionType : Z;
  registerOffset : Z;
  messageSourceId : Z;
  registerSize : Z;
  registerSpace : Z;
  writeMaskLow : Z;
  writeMaskHigh : Z;
  data : list Z
}.

(** The members in memory order, with their widths in bits. *)
Definition fields (p : t) : list (Z * Z) :=
  [(16, dwordCount p); (7, instructionSubOpcode p); (6, instructionOpcode p);
    (3, instructionType p); (32, registerOffset p); (4, 0); (4, messageSourceId p);
    (8, 0); (4, registerSize p); (8, 0); (4, registerSpace p);
    (32, writeMaskLow p); (32, writeMaskHigh p)]
  ++ arrayFields 32 1 (data p).

Definition sizeOf : Z := 24.

Definition zero : t :=
  mk 0 0 0 0 0 0 0 0 0 0 [].

Definition getPacketSize (p : t) : Z := dwordCount p + 1.
Definition getLengthBias : Z := 1.
Definition getBaseLength : Z := 4.
Definition matchesHeader (p : t) : bool :=
  if negb (instructionType p =? 0x7) then false else
  if negb (instructionOpcode p =? 0x2e) then false else
  if negb (instructionSubOpcode p =? 0x3) then false else
  true.
Definition setHeader (p : t) : t :=
  mk (dwordCount p) 0x3 0x2e 0x7 (registerOffset p) (messageSourceId p)
    (registerSize p) (registerSpace p) (writeMaskLow p) (writeMaskHigh p) (data p).
Definition type_ : Z := 0x7.
Definition opcode : Z := 0x2e.
Definition subOpcode : Z := 0x3.
Definition getDataLength (p : t) : Z := getPacketSize p - 5.

Module MessageSourceIdValues.
Definition Workaround : Z := 4.
Definition Gt : Z := 2.
Definition Ia : Z := 0.
Definition Me : Z := 1.
Definition Pch : Z := 3.
End MessageSourceIdValues.

Module RegisterSpaceValues.
Definition MchBar : Z := 1.
Definition Mmio : Z := 0.
Definition VtdBar : Z := 5.
Definition PciConfig : Z := 2.
Definition IO : Z := 4.
Definition AzaliaBar : Z := 3.
End RegisterSpaceValues.

Module RegisterSizeValues.
Definition Qword : Z := 3.
Definition Dword : Z := 2.
Definition Word : Z := 1.
Definition Byte : Z := 0.
End RegisterSizeValues.
End CmdServicesMemTraceRegisterWrite.

Module CmdServicesMemTraceMemoryCompare.

Record t := mk {
  dwordCount : Z;
  instructionSubOpcode : Z;
  instructionOpcode : Z;
  instructionType : Z;
  address : Z;
  addressHigh : Z;
  noReadExpect : Z;
  repeatMemory : Z;
  tiling : Z;
  crcCompare : Z;
  compareOperation : Z;
  deferCompareEvaluation : Z;
  dataTypeHint : Z;
  addressSpace : Z;
  dataSizeInBytes : Z;
  data : list Z
}.

(** The members in memory order, with their widths in bits. *)
Definition fields (p : t) : list (Z * Z) :=
  [(16, dwordCount p); (7, instructionSubOpcode p); (6, instructionOpcode p);
    (3, instructionType p); (32, address p); (32, addressHigh p);
    (1, noReadExpect p); (1, repeatMemory p); (2, tiling p); (2, 0);
    (1, crcCompare p); (1, compareOperation p); (1, 0);
    (1, deferCompareEvaluation p); (10, 0); (8, dataTypeHint p);
    (4, addressSpace p); (32, dataSizeInBytes p)]
  ++ arrayFields 32 1 (data p).

Definition sizeOf : Z := 24.

Definition zero : t :=
  mk 0 0 0 0 0 0 0 0 0 0 0 0 0 0 0 [].

Definition getPacketSize (p : t) : Z := dwordCount p + 1.
Definition getLengthBias : Z := 1.
Definition getBaseLength : Z := 4.
Definition matchesHeader (p : t) : bool :=
  if negb (instructionType p =? 0x7) then false else
  if negb (instructionOpcode p =? 0x2e) then false else
  if negb (instructionSubOpcode p =? 0x4) then false else
  true.
Definition setHeader (p : t) : t :=
  mk (dwordCount p) 0x4 0x2e 0x7 (address p) (addressHigh p) (noReadExpect p)
    (repeatMemory p) (tiling p) (crcCompare p) (compareOperation p)
    (deferCompareEvaluation p) (dataTypeHint p) (addressSpace p)
    (dataSizeInBytes p) (data p).
Definition type_ : Z := 0x7.
Definition opcode : Z := 0x2e.
Definition subOpcode : Z := 0x4.
Definition getDataLength (p : t) : Z := getPacketSize p - 5.

Module RepeatMemoryValues.
Definition NoRepeat : Z := 0.
Definition Repeat : Z := 1.
End RepeatMemoryValues.

Module DataTypeHintValues.
Definition TraceInterfaceDescriptor : Z := 29.
Definition TraceCommandBufferPrimary : Z := 39.
Definition TraceRemap : Z := 37.
Definition TraceVertexShaderState : Z := 16.
Definition TraceSfViewport : Z := 23.
Definition TraceMediaObjectIndirectData : Z := 36.
Definition Trace1DMap : Z := 10.
Definition TraceVolumeMap : Z := 9.
Definition TraceVldState : Z := 30.
Definition TraceBatchBufferPrimary : Z := 42.
Definition TraceSamplerDefaultColor : Z := 28.
Definition TraceClipViewport : Z := 22.
Definition TraceStripsFansState : Z := 19.
Definition TraceNotype : Z := 0.
Definition TraceAudioLinkTable : Z := 46.
Definition TraceGeometryShaderState : Z := 17.
Definition TraceConstantBuffer : Z := 11.
Definition TraceBatchBufferBlt : Z := 43.
Definition TraceBinBuffer : Z := 2.
Definition TraceIndexBuffer : Z := 13.
Definition Trace2DMap : Z := 6.
Definition TraceCubeMap : Z := 7.
Definition TraceVfeState : Z := 31.
Definition TraceDepthStencilState : Z := 33.
Definition TraceBatchBufferMfx : Z := 44.
Definition TraceRenderSurfaceState : Z := 35.
Definition TraceWindowerIzState : Z := 20.
Definition TraceCommandBufferMfx : Z := 41.
Definition TraceBatchBuffer : Z := 1.
Definition TraceCcViewport : Z := 24.
Definition TraceColorCalcState : Z := 21.
Definition TraceCommandBuffer : Z := 38.
Definition TraceAudioData : Z := 47.
Definition TraceSlowStateBuffer : Z := 4.
Definition TraceAudioCommandBuffer : Z := 45.
Definition TraceCommandBufferBlt : Z := 40.
Definition TraceKernelInstructions : Z := 26.
Definition TraceConstantUrbEntry : Z := 12.
Definition TraceBlendState : Z := 32.
Definition TraceIndirectStateBuffer : Z := 8.
Definition TraceClipperState : Z := 18.
Definition TraceSamplerState : Z := 25.
Definition TraceBindingTableState : Z := 34.
Definition TraceBinPointerList : Z := 3.
Definition TraceVertexBufferState : Z := 5.
Definition TraceScratchSpace : Z := 27.
End DataTypeHintValues.

Module TilingValues.
Definition NoTiling : Z := 0.
Definition WTiling : Z := 3.
Definition YTiling : Z := 2.
Definition XTiling : Z := 1.
End TilingValues.

Module CrcCompareValues.
Definition Crc : Z := 1.
Definition NoCrc : Z := 0.
End CrcCompareValues.

Module NoReadExpectValues.
Definition ReadExpect : Z := 0.
Definition ReadWithoutExpect : Z := 1.
End NoReadExpectValues.

Module AddressSpaceValues.
Definition TraceGttEntry : Z := 4.
Definition TraceNonapetureGttGfx : Z := 7.
Definition TraceLocal : Z := 1.
Definition TracePml4Entry : Z := 10.
Definition TraceGttGfx : Z := 0.
Definition TraceNonlocal : Z := 2.
Definition TraceGttPdEntry : Z := 3.
Definition TracePpgttEntry : Z := 6.
Definition TracePpgttGfx : Z := 5.
Definition TracePpgttPdEntry : Z := 9.
Definition TracePhysicalPdpEntry : Z := 8.
End AddressSpaceValues.

Module DeferCompareEvaluationValues.
Definition StoreComparison : Z := 1.
Definition CompareImmediately : Z := 0.
End DeferCompareEvaluationValues.
End CmdServicesMemTraceMemoryCompare.

Module CmdServicesMemTraceMemoryPoll.

Record t := mk {
  dwordCount : Z;
  instructionSubOpcode : Z;
  instructionOpcode : Z;
  instructionType : Z;
  address : Z;
  addressHigh : Z;
  pollNotEqual : Z;
  tiling : Z;
  dataSize : Z;
  timeoutAction : Z;
  comparison : Z;
  dataTypeHint : Z;
  addressSpace : Z;
  pollMaskLow : Z;
  pollMaskHigh : Z;
  data : list Z
}.

(** The members in memory order, with their widths in bits. *)
Definition fields (p : t) : list (Z * Z) :=
  [(16, dwordCount p); (7, instructionSubOpcode p); (6, instructionOpcode p);
    (3, instructionType p); (32, address p); (32, addressHigh p);
    (1, pollNotEqual p); (1, 0); (2, tiling p); (2, dataSize p); (2, 0);
    (1, timeoutAction p); (1, 0); (3, comparison p); (7, 0); (8, dataTypeHint p);
    (4, addressSpace p); (32, pollMaskLow p); (32, pollMaskHigh p)]
  ++ arrayFields 32 1 (data p).

Definition sizeOf : Z := 28.

Definition zero : t :=
  mk 0 0 0 0 0 0 0 0 0 0 0 0 0 0 0 [].

Definition getPacketSize (p : t) : Z := dwordCount p + 1.
Definition getLengthBias : Z := 1.
Definition getBaseLength : Z := 5.
Definition matchesHeader (p : t) : bool :=
  if negb (instructionType p =? 0x7) then false else
  if negb (instructionOpcode p =? 0x2e) then false else
  if negb (instructionSubOpcode p =? 0x5) then false else
  true.
Definition setHeader (p : t) : t :=
  mk (dwordCount p) 0x5 0x2e 0x7 (address p) (addressHigh p) (pollNotEqual p)
    (tiling p) (dataSize p) (timeoutAction p) (comparison p) (dataTypeHint p)
    (addressSpace p) (pollMaskLow p) (pollMaskHigh p) (data p).
Definition type_ : Z := 0x7.
Definition opcode : Z := 0x2e.
Definition subOpcode : Z := 0x5.
Definition getDataLength (p : t) : Z := getPacketSize p - 6.

Module DataTypeHintValues.
Definition TraceInterfaceDescriptor : Z := 29.
Definition TraceCommandBufferPrimary : Z := 39.
Definition TraceRemap : Z := 37.
Definition TraceVertexShaderState : Z := 16.
Definition TraceSfViewport : Z := 23.
Definition TraceMediaObjectIndirectData : Z := 36.
Definition Trace1DMap : Z := 10.
Definition TraceVolumeMap : Z := 9.
Definition TraceVldState : Z := 30.
Definition TraceBatchBufferPrimary : Z := 42.
Definition TraceSamplerDefaultColor : Z := 28.
Definition TraceClipViewport : Z := 22.
Definition TraceStripsFansState : Z := 19.
Definition TraceNotype : Z := 0.
Definition TraceAudioLinkTable : Z := 46.
Definition TraceGeometryShaderState : Z := 17.
Definition TraceConstantBuffer : Z := 11.
Definition TraceBatchBufferBlt : Z := 43.
Definition TraceBinBuffer : Z := 2.
Definition TraceIndexBuffer : Z := 13.
Definition Trace2DMap : Z := 6.
Definition TraceCubeMap : Z := 7.
Definition TraceVfeState : Z := 31.
Definition TraceDepthStencilState : Z := 33.
Definition TraceBatchBufferMfx : Z := 44.
Definition TraceRenderSurfaceState : Z := 35.
Definition TraceWindowerIzState : Z := 20.
Definition TraceCommandBufferMfx : Z := 41.
Definition TraceBatchBuffer : Z := 1.
Definition TraceCcViewport : Z := 24.
Definition TraceColorCalcState : Z := 21.
Definition TraceCommandBuffer : Z := 38.
Definition TraceAudioData : Z := 47.
Definition TraceSlowStateBuffer : Z := 4.
Definition TraceAudioCommandBuffer : Z := 45.
Definition TraceCommandBufferBlt : Z := 40.
Definition TraceKernelInstructions : Z := 26.
Definition TraceConstantUrbEntry : Z := 12.
Definition TraceBlendState : Z := 32.
Definition TraceIndirectStateBuffer : Z := 8.
Definition TraceClipperState : Z := 18.
Definition TraceSamplerState : Z := 25.
Definition TraceBindingTableState : Z := 34.
Definition TraceBinPointerList : Z := 3.
Definition TraceVertexBufferState : Z := 5.
Definition TraceScratchSpace : Z := 27.
End DataTypeHintValues.

Module DataSizeValues.
Definition Qword : Z := 3.
Definition Dword : Z := 2.
Definition Word : Z := 1.
Definition Byte : Z := 0.
End DataSizeValues.

Module TilingValues.
Definition NoTiling : Z := 0.
Definition WTiling : Z := 3.
Definition YTiling : Z := 2.
Definition XTiling : Z := 1.
End TilingValues.

Module TimeoutActionValues.
Definition Abort : Z := 0.
Definition Ignore : Z := 1.
End TimeoutActionValues.

Module AddressSpaceValues.
Definition TraceGttEntry : Z := 4.
Definition TraceNonapetureGttGfx : Z := 7.
Definition TraceLocal : Z := 1.
Definition TracePml4Entry : Z := 10.
Definition TraceGttGfx : Z := 0.
Definition TraceNonlocal : Z := 2.
Definition TraceGttPdEntry : Z := 3.
Definition TracePpgttEntry : Z := 6.
Definition TracePpgttGfx : Z := 5.
Definition TracePpgttPdEntry : Z := 9.
Definition TracePhysicalPdpEntry : Z := 8.
End AddressSpaceValues.

Module ComparisonValues.
Definition Legacy : Z := 0.
Definition Equal : Z := 1.
Definition NotEqual : Z := 2.
Definition Less : Z := 3.
Definition LessEqual : Z := 4.
Definition Greater : Z := 5.
Definition GreaterEqual : Z := 6.
End ComparisonValues.
End CmdServicesMemTraceMemoryPoll.

Module CmdServicesMemTraceMemoryWrite.

Record t := mk {
  dwordCount : Z;
  instructionSubOpcode : Z;
  instructionOpcode : Z;
  instructionType : Z;
  address : Z;
  frontDoorAccess : Z;
  repeatMemory : Z;
  tiling : Z;
  dataTypeHint : Z;
  addressSpace : Z;
  dataSizeInBytes : Z;
  data : list Z
}.

(** The members in memory order, with their widths in bits. *)
Definition fields (p : t) : list (Z * Z) :=
  [(16, dwordCount p); (7, instructionSubOpcode p); (6, instructionOpcode p);
    (3, instructionType p); (64, address p); (1, frontDoorAccess p);
    (1, repeatMemory p); (2, tiling p); (16, 0); (8, dataTypeHint p);
    (4, addressSpace p); (32, dataSizeInBytes p)]
  ++ arrayFields 32 1 (data p).

Definition sizeOf : Z := 24.

Definition zero : t :=
  mk 0 0 0 0 0 0 0 0 0 0 0 [].

Definition getAddressLength : Z := 2 - 1 + 1.
Definition getPacketSize (p : t) : Z := dwordCount p + 1.
Definition getLengthBias : Z := 1.
Definition getBaseLength : Z := 4.
Definition matchesHeader (p : t) : bool :=
  if negb (instructionType p =? 0x7) then false else
  if negb (instructionOpcode p =? 0x2e) then false else
  if negb (instructionSubOpcode p =? 0x6) then false else
  true.
Definition setHeader (p : t) : t :=
  mk (dwordCount p) 0x6 0x2e 0x7 (address p) (frontDoorAccess p) (repeatMemory p)
    (tiling p) (dataTypeHint p) (addressSpace p) (dataSizeInBytes p) (data p).
Definition type_ : Z := 0x7.
Definition opcode : Z := 0x2e.
Definition subOpcode : Z := 0x6.
Definition getDataLength (p : t) : Z := getPacketSize p - 5.

Module RepeatMemoryValues.
Definition NoRepeat : Z := 0.
Definition Repeat : Z := 1.
End RepeatMemoryValues.

Module TilingValues.
Definition NoTiling : Z := 0.
Definition WTiling : Z := 3.
Definition YTiling : Z := 2.
Definition XTiling : Z := 1.
End TilingValues.

Module AddressSpaceValues.
Definition TraceGttEntry : Z := 4.
Definition TraceNonapetureGttGfx : Z := 7.
Definition TraceLocal : Z := 1.
Definition TracePml4Entry : Z := 10.
Definition TraceGttGfx : Z := 0.
Definition TraceNonlocal : Z := 2.
Definition TraceGttPdEntry : Z := 3.
Definition TracePpgttEntry : Z := 6.
Definition TracePpgttGfx : Z := 5.
Definition TracePpgttPdEntry : Z := 9.
Definition TracePowerContext : Z := 11.
Definition TracePhysicalPdpEntry : Z := 8.
End AddressSpaceValues.
End CmdServicesMemTraceMemoryWrite.

Module CmdServicesMemTraceMemoryWriteDiscontiguous.

Record t := mk {
  dwordCount : Z;
  instructionSubOpcode : Z;
  instructionOpcode : Z;
  instructionType : Z;
  frontDoorAccess : Z;
  repeatMemory : Z;
  tiling : Z;
  numberOfAddressDataPairs : Z;
  dataTypeHint : Z;
  addressSpace : Z;
  Dword_2_To_190 : list (Z * Z);
  data : list Z
}.

(** The members in memory order, with their widths in bits. *)
Definition fields (p : t) : list (Z * Z) :=
  [(16, dwordCount p); (7, instructionSubOpcode p); (6, instructionOpcode p);
    (3, instructionType p); (1, frontDoorAccess p); (1, repeatMemory p);
    (2, tiling p); (16, numberOfAddressDataPairs p); (8, dataTypeHint p);
    (4, addressSpace p)]
  ++ pairFields 64 32 63 (Dword_2_To_190 p)
  ++ arrayFields 32 1 (data p).

Definition sizeOf : Z := 768.

Definition zero : t :=
  mk 0 0 0 0 0 0 0 0 0 0 [] [].

Definition getDword2To190Length : Z := 190 - 2 + 1.
Definition getPacketSize (p : t) : Z := dwordCount p + 1.
Definition getLengthBias : Z := 1.
Definition getBaseLength : Z := 190.
Definition matchesHeader (p : t) : bool :=
  if negb (instructionType p =? 0x7) then false else
  if negb (instructionOpcode p =? 0x2e) then false else
  if negb (instructionSubOpcode p =? 0xb) then false else
  true.
Definition setHeader (p : t) : t :=
  mk (dwordCount p) 0xb 0x2e 0x7 (frontDoorAccess p) (repeatMemory p) (tiling p)
    (numberOfAddressDataPairs p) (dataTypeHint p) (addressSpace p)
    (Dword_2_To_190 p) (data p).
Definition type_ : Z := 0x7.
Definition opcode : Z := 0x2e.
Definition subOpcode : Z := 0xb.
Definition getDataLength (p : t) : Z := getPacketSize p - 191.

Module RepeatMemoryValues.
Definition NoRepeat : Z := 0.
Definition Repeat : Z := 1.
End RepeatMemoryValues.

Module DataTypeHintValues.
Definition TraceVertexBufferState : Z := 5.
Definition TraceCommandBufferPrimary : Z := 39.
Definition TraceRingContextBcs : Z := 56.
Definition TraceExtendedRootTableEntry : Z := 52.
Definition TraceClipViewport : Z := 22.
Definition Trace1DMap : Z := 10.
Definition TraceBatchBufferPrimary : Z := 42.
Definition TraceClipperState : Z := 18.
Definition TraceRingContextVcs : Z := 57.
Definition TraceVolumeMap : Z := 9.
Definition TraceBlendState : Z := 32.
Definition TraceSlowStateBuffer : Z := 4.
Definition TraceRemap : Z := 37.
Definition TraceDepthStencilState : Z := 33.
Definition TraceAudioData : Z := 47.
Definition TraceColorCalcState : Z := 21.
Definition TraceWindowerIzState : Z := 20.
Definition Trace2DMap : Z := 6.
Definition TraceBindingTableState : Z := 34.
Definition TraceIndirectStateBuffer : Z := 8.
Definition TraceConstantBuffer : Z := 11.
Definition TraceMediaObjectIndirectData : Z := 36.
Definition TraceStripsFansState : Z := 19.
Definition TraceBatchBuffer : Z := 1.
Definition TraceSfViewport : Z := 23.
Definition TraceLogicalRingContextCcs : Z := 64.
Definition TraceCommandBufferBlt : Z := 40.
Definition TraceBinBuffer : Z := 2.
Definition TraceCcViewport : Z := 24.
Definition TraceIndexBuffer : Z := 13.
Definition TraceScratchSpace : Z := 27.
Definition TraceLogicalRingContextVecs : Z := 51.
Definition TraceBatchBufferMfx : Z := 44.
Definition TraceCommandBufferMfx : Z := 41.
Definition TraceBatchBufferBlt : Z := 43.
Definition TraceSamplerState : Z := 25.
Definition TraceRingContextRcs : Z := 55.
Definition TraceAudioLinkTable : Z := 46.
Definition TraceRenderSurfaceState : Z := 35.
Definition TraceSamplerDefaultColor : Z := 28.
Definition TraceVldState : Z := 30.
Definition TraceVfeState : Z := 31.
Definition TraceExtendedContextTableEntry : Z := 53.
Definition TraceLogicalRingContextRcs : Z := 48.
Definition TraceInterfaceDescriptor : Z := 29.
Definition TraceConstantUrbEntry : Z := 12.
Definition TraceCommandBuffer : Z := 38.
Definition TraceVertexShaderState : Z := 16.
Definition TraceBinPointerList : Z := 3.
Definition TraceRingContextVecs : Z := 58.
Definition TraceNotype : Z := 0.
Definition TraceGeometryShaderState : Z := 17.
Definition TraceAudioCommandBuffer : Z := 45.
Definition TraceLogicalRingContextVcs : Z := 50.
Definition TraceKernelInstructions : Z := 26.
Definition TracePasidTableEntry : Z := 54.
Definition TraceCubeMap : Z := 7.
Definition TraceLogicalRingContextBcs : Z := 49.
End DataTypeHintValues.

Module TilingValues.
Definition NoTiling : Z := 0.
Definition WTiling : Z := 3.
Definition YTiling : Z := 2.
Definition XTiling : Z := 1.
End TilingValues.

Module AddressSpaceValues.
Definition TraceGttEntry : Z := 4.
Definition TraceNonapetureGttGfx : Z := 7.
Definition TraceLocal : Z := 1.
Definition TracePml4Entry : Z := 10.
Definition TraceGttGfx : Z := 0.
Definition TraceNonlocal : Z := 2.
Definition TraceGttPdEntry : Z := 3.
Definition TracePpgttEntry : Z := 6.
Definition TracePpgttGfx : Z := 5.
Definition TracePpgttPdEntry : Z := 9.
Definition TracePowerContext : Z := 11.
Definition TracePhysicalPdpEntry : Z := 8.
End AddressSpaceValues.
End CmdServicesMemTraceMemoryWriteDiscontiguous.

Module CmdServicesMemTraceFrameBegin.

Record t := mk {
  dwordCount : Z;
  instructionSubOpcode : Z;
  instructionOpcode : Z;
  instructionType : Z;
  frameNumber : Z
}.

(** The members in memory order, with their widths in bits. *)
Definition fields (p : t) : list (Z * Z) :=
  [(16, dwordCount p); (7, instructionSubOpcode p); (6, instructionOpcode p);
    (3, instructionType p); (16, frameNumber p); (16, 0)].

Definition sizeOf : Z := 8.

Definition zero : t :=
  mk 0 0 0 0 0.

Definition getPacketSize (p : t) : Z := dwordCount p + 1.
Definition getLengthBias : Z := 1.
Definition getBaseLength : Z := 1.
Definition matchesHeader (p : t) : bool :=
  if negb (instructionType p =? 0x7) then false else
  if negb (instructionOpcode p =? 0x2e) then false else
  if negb (instructionSubOpcode p =? 0x7) then false else
  true.
Definition setHeader (p : t) : t :=
  mk (dwordCount p) 0x7 0x2e 0x7 (frameNumber p).
Definition type_ : Z := 0x7.
Definition opcode : Z := 0x2e.
Definition subOpcode : Z := 0x7.
End CmdServicesMemTraceFrameBegin.

Module CmdServicesMemTraceComment.

Record t := mk {
  dwordCount : Z;
  instructionSubOpcode : Z;
  instructionOpcode : Z;
  instructionType : Z;
  syncOnComment : Z;
  syncOnSimulatorDisplay : Z;
  comment : list Z
}.

(** The members in memory order, with their widths in bits. *)
Definition fields (p : t) : list (Z * Z) :=
  [(16, dwordCount p); (7, instructionSubOpcode p); (6, instructionOpcode p);
    (3, instructionType p); (1, syncOnComment p); (1, syncOnSimulatorDisplay p);
    (30, 0)]
  ++ arrayFields 8 4 (comment p).

Definition sizeOf : Z := 12.

Definition zero : t :=
  mk 0 0 0 0 0 0 [].

Definition getPacketSize (p : t) : Z := dwordCount p + 1.
Definition getLengthBias : Z := 1.
Definition getBaseLength : Z := 1.
Definition matchesHeader (p : t) : bool :=
  if negb (instructionType p =? 0x7) then false else
  if negb (instructionOpcode p =? 0x2e) then false else
  if negb (instructionSubOpcode p =? 0x8) then false else
  true.
Definition setHeader (p : t) : t :=
  mk (dwordCount p) 0x8 0x2e 0x7 (syncOnComment p) (syncOnSimulatorDisplay p)
    (comment p).
Definition type_ : Z := 0x7.
Definition opcode : Z := 0x2e.
Definition subOpcode : Z := 0x8.
Definition getCommentLength (p : t) : Z := getPacketSize p - 2.
End CmdServicesMemTraceComment.

Module CmdServicesMemTraceDelay.

Record t := mk {
  dwordCount : Z;
  instructionSubOpcode : Z;
  instructionOpcode : Z;
  instructionType : Z;
  time : Z
}.

(** The members in memory order, with their widths in bits. *)
Definition fields (p : t) : list (Z * Z) :=
  [(16, dwordCount p); (7, instructionSubOpcode p); (6, instructionOpcode p);
    (3, instructionType p); (32, time p)].

Definition sizeOf : Z := 8.

Definition zero : t :=
  mk 0 0 0 0 0.

Definition getPacketSize (p : t) : Z := dwordCount p + 1.
Definition getLengthBias : Z := 1.
Definition getBaseLength : Z := 1.
Definition matchesHeader (p : t) : bool :=
  if negb (instructionType p =? 0x7) then false else
  if negb (instructionOpcode p =? 0x2e) then false else
  if negb (instructionSubOpcode p =? 0x9) then false else
  true.
Definition setHeader (p : t) : t :=
  mk (dwordCount p) 0x9 0x2e 0x7 (time p).
Definition type_ : Z := 0x7.
Definition opcode : Z := 0x2e.
Definition subOpcode : Z := 0x9.
End CmdServicesMemTraceDelay.

Module CmdServicesMemTraceMemoryDump.

Record t := mk {
  dwordCount : Z;
  instructionSubOpcode : Z;
  instructionOpcode : Z;
  instructionType : Z;
  physicalAddressDwordLow : Z;
  physicalAddressDwordHigh : Z;
  stride : Z;
  width : Z;
  height : Z;
  addressSpace : Z;
  tiling : Z;
  filename : list Z
}.

(** The members in memory order, with their widths in bits. *)
Definition fields (p : t) : list (Z * Z) :=
  [(16, dwordCount p); (7, instructionSubOpcode p); (6, instructionOpcode p);
    (3, instructionType p); (32, physicalAddressDwordLow p);
    (32, physicalAddressDwordHigh p); (32, stride p); (32, width p);
    (32, height p); (2, addressSpace p); (2, 0); (2, tiling p); (26, 0)]
  ++ arrayFields 8 4 (filename p).

Definition sizeOf : Z := 32.

Definition zero : t :=
  mk 0 0 0 0 0 0 0 0 0 0 0 [].

Definition getPacketSize (p : t) : Z := dwordCount p + 1.
Definition getLengthBias : Z := 1.
Definition getBaseLength : Z := 5.
Definition matchesHeader (p : t) : bool :=
  if negb (instructionType p =? 0x7) then false else
  if negb (instructionOpcode p =? 0x2e) then false else
  if negb (instructionSubOpcode p =? 0xa) then false else
  true.
Definition setHeader (p : t) : t :=
  mk (dwordCount p) 0xa 0x2e 0x7 (physicalAddressDwordLow p)
    (physicalAddressDwordHigh p) (stride p) (width p) (height p) (addressSpace p)
    (tiling p) (filename p).
Definition type_ : Z := 0x7.
Definition opcode : Z := 0x2e.
Definition subOpcode : Z := 0xa.
Definition getFilenameLength (p : t) : Z := getPacketSize p - 7.

Module TilingValues.
Definition NoTiling : Z := 0.
Definition WTiling : Z := 3.
Definition YTiling : Z := 2.
Definition XTiling : Z := 1.
End TilingValues.

Module AddressSpaceValues.
Definition TraceGttGfx : Z := 0.
Definition TraceLocal : Z := 1.
End AddressSpaceValues.
End CmdServicesMemTraceMemoryDump.

Module CmdServicesMemTraceTestPhaseMarker.

Record t := mk {
  dwordCount : Z;
  instructionSubOpcode : Z;
  instructionOpcode : Z;
  instructionType : Z;
  toolSpecificSubPhase : Z;
  beginTestPhase : Z
}.

(** The members in memory order, with their widths in bits. *)
Definition fields (p : t) : list (Z * Z) :=
  [(16, dwordCount p); (7, instructionSubOpcode p); (6, instructionOpcode p);
    (3, instructionType p); (12, toolSpecificSubPhase p); (4, beginTestPhase p);
    (16, 0)].

Definition sizeOf : Z := 8.

Definition zero : t :=
  mk 0 0 0 0 0 0.

Definition getPacketSize (p : t) : Z := dwordCount p + 1.
Definition getLengthBias : Z := 1.
Definition getBaseLength : Z := 1.
Definition matchesHeader (p : t) : bool :=
  if negb (instructionType p =? 0x7) then false else
  if negb (instructionOpcode p =? 0x2e) then false else
  if negb (instructionSubOpcode p =? 0xc) then false else
  true.
Definition setHeader (p : t) : t :=
  mk (dwordCount p) 0xc 0x2e 0x7 (toolSpecificSubPhase p) (beginTestPhase p).
Definition type_ : Z := 0x7.
Definition opcode : Z := 0x2e.
Definition subOpcode : Z := 0xc.

Module BeginTestPhaseValues.
Definition PollForTestCompletion : Z := 8.
Definition SetupPhase : Z := 2.
Definition DispatchPhase : Z := 3.
Definition VerificationPhase : Z := 10.
Definition MemoryInitializationPhase : Z := 0.
Definition ExecutePhase : Z := 4.
End BeginTestPhaseValues.
End CmdServicesMemTraceTestPhaseMarker.

Module CmdServicesMemTraceMemoryContinuousRegion.

Record t := mk {
  dwordCount : Z;
  instructionSubOpcode : Z;
  instructionOpcode : Z;
  instructionType : Z;
  address : Z;
  regionSize : Z
}.

(** The members in memory order, with their widths in bits. *)
Definition fields (p : t) : list (Z * Z) :=
  [(16, dwordCount p); (7, instructionSubOpcode p); (6, instructionOpcode p);
    (3, instructionType p); (64, address p); (64, regionSize p)].

Definition sizeOf : Z := 20.

Definition zero : t :=
  mk 0 0 0 0 0 0.

Definition getAddressLength : Z := 2 - 1 + 1.
Definition getRegionSizeLength : Z := 4 - 3 + 1.
Definition getPacketSize (p : t) : Z := dwordCount p + 1.
Definition getLengthBias : Z := 1.
Definition getBaseLength : Z := 4.
Definition matchesHeader (p : t) : bool :=
  if negb (instructionType p =? 0x7) then false else
  if negb (instructionOpcode p =? 0x2e) then false else
  if negb (instructionSubOpcode p =? 0xd) then false else
  true.
Definition setHeader (p : t) : t :=
  mk (dwordCount p) 0xd 0x2e 0x7 (address p) (regionSize p).
Definition type_ : Z := 0x7.
Definition opcode : Z := 0x2e.
Definition subOpcode : Z := 0xd.
End CmdServicesMemTraceMemoryContinuousRegion.

Module CmdServicesMemTracePredicate.

Record t := mk {
  dwordCount : Z;
  instructionSubOpcode : Z;
  instructionOpcode : Z;
  instructionType : Z;
  predicateState : Z;
  target : Z
}.

(** The members in memory order, with their widths in bits. *)
Definition fields (p : t) : list (Z * Z) :=
  [(16, dwordCount p); (7, instructionSubOpcode p); (6, instructionOpcode p);
    (3, instructionType p); (1, predicateState p); (4, target p); (27, 0)].

Definition sizeOf : Z := 8.

Definition zero : t :=
  mk 0 0 0 0 0 0.

Definition getPacketSize (p : t) : Z := dwordCount p + 1.
Definition getLengthBias : Z := 1.
Definition getBaseLength : Z := 4.
Definition matchesHeader (p : t) : bool :=
  if negb (instructionType p =? 0x7) then false else
  if negb (instructionOpcode p =? 0x2e) then false else
  if negb (instructionSubOpcode p =? 0xf) then false else
  true.
Definition setHeader (p : t) : t :=
  mk (dwordCount p) 0xf 0x2e 0x7 (predicateState p) (target p).
Definition type_ : Z := 0x7.
Definition opcode : Z := 0x2e.
Definition subOpcode : Z := 0xf.

Module PredicateStateValues.
Definition Disabled : Z := 0.
Definition Enabled : Z := 1.
End PredicateStateValues.

Module TargetValues.
Definition Fpgarunlist : Z := 8.
Definition Simulator : Z := 0.
Definition Pipe : Z := 1.
Definition Silicon : Z := 4.
Definition Uncore : Z := 6.
Definition Emulator : Z := 3.
Definition Pipe2D : Z := 7.
Definition Fpgamedia : Z := 5.
Definition Pipegt : Z := 2.
End TargetValues.
End CmdServicesMemTracePredicate.

Module CmdServicesMemTraceDumpCompress.

Record t := mk {
  dwordCount : Z;
  instructionSubOpcode : Z;
  instructionOpcode : Z;
  instructionType : Z;
  surfaceAddress : Z;
  surfaceWidth : Z;
  surfaceHeight : Z;
  surfacePitch : Z;
  surfaceFormat : Z;
  dumpType : Z;
  surfaceTilingType : Z;
  surfaceType : Z;
  tiledResourceMode : Z;
  useClearValue : Z;
  auxSurfaceAddress : Z;
  auxSurfaceWidth : Z;
  auxSurfaceHeight : Z;
  auxSurfacePitch : Z;
  auxSurfaceQPitch : Z;
  auxSurfaceTilingType : Z;
  auxEncodingFormat : Z;
  auxEncodingValid : Z;
  blockWidth : Z;
  blockHeight : Z;
  blockDepth : Z;
  mode : Z;
  algorithm : Z;
  tileWidth : Z;
  tileHeight : Z;
  tileDepth : Z;
  clearColorRed : Z;
  clearColorGreen : Z;
  clearColorBlue : Z;
  clearColorAlpha : Z;
  gttType : Z;
  clearColorType : Z;
  directoryHandle : Z;
  clearColorAddress : Z
}.

(** The members in memory order, with their widths in bits. *)
Definition fields (p : t) : list (Z * Z) :=
  [(16, dwordCount p); (7, instructionSubOpcode p); (6, instructionOpcode p);
    (3, instructionType p); (64, surfaceAddress p); (32, surfaceWidth p);
    (32, surfaceHeight p); (32, surfacePitch p); (12, surfaceFormat p);
    (3, dumpType p); (1, 0); (3, surfaceTilingType p); (3, 0); (3, surfaceType p);
    (3, 0); (2, tiledResourceMode p); (1, 0); (1, useClearValue p);
    (64, auxSurfaceAddress p); (32, auxSurfaceWidth p); (32, auxSurfaceHeight p);
    (32, auxSurfacePitch p); (17, auxSurfaceQPitch p); (4, 0);
    (3, auxSurfaceTilingType p); (7, auxEncodingFormat p); (1, auxEncodingValid p);
    (8, blockWidth p); (8, blockHeight p); (8, blockDepth p); (1, mode p);
    (3, algorithm p); (4, 0); (32, tileWidth p); (32, tileHeight p);
    (32, tileDepth p); (32, clearColorRed p); (32, clearColorGreen p);
    (32, clearColorBlue p); (32, clearColorAlpha p); (2, gttType p);
    (1, clearColorType p); (29, 0); (32, directoryHandle p);
    (64, clearColorAddress p)].

Definition sizeOf : Z := 100.

Definition zero : t :=
  mk 0 0 0 0 0 0 0 0 0 0 0 0 0 0 0 0 0 0 0 0 0 0 0 0 0 0 0 0 0 0 0 0 0 0 0 0 0 0.

Definition getSurfaceAddress (p : t) : Z := surfaceAddress p.
Definition getSurfaceAddressLength : Z := 2 - 1 + 1.
Definition getAuxSurfaceAddressLength : Z := 8 - 7 + 1.
Definition getClearColorAddressLength : Z := 24 - 23 + 1.
Definition getPacketSize (p : t) : Z := dwordCount p + 1.
Definition getLengthBias : Z := 1.
Definition getBaseLength : Z := 19.
Definition matchesHeader (p : t) : bool :=
  if negb (instructionType p =? 0x7) then false else
  if negb (instructionOpcode p =? 0x2e) then false else
  if negb (instructionSubOpcode p =? 0x10) then false else
  true.
Definition setHeader (p : t) : t :=
  mk (dwordCount p) 0x10 0x2e 0x7 (surfaceAddress p) (surfaceWidth p)
    (surfaceHeight p) (surfacePitch p) (surfaceFormat p) (dumpType p)
    (surfaceTilingType p) (surfaceType p) (tiledResourceMode p) (useClearValue p)
    (auxSurfaceAddress p) (auxSurfaceWidth p) (auxSurfaceHeight p)
    (auxSurfacePitch p) (auxSurfaceQPitch p) (auxSurfaceTilingType p)
    (auxEncodingFormat p) (auxEncodingValid p) (blockWidth p) (blockHeight p)
    (blockDepth p) (mode p) (algorithm p) (tileWidth p) (tileHeight p)
    (tileDepth p) (clearColorRed p) (clearColorGreen p) (clearColorBlue p)
    (clearColorAlpha p) (gttType p) (clearColorType p) (directoryHandle p)
    (clearColorAddress p).
Definition type_ : Z := 0x7.
Definition opcode : Z := 0x2e.
Definition subOpcode : Z := 0x10.

Module GttTypeValues.
Definition Ppgtt : Z := 1.
Definition Ggtt : Z := 0.
End GttTypeValues.

Module SurfaceTilingTypeValues.
Definition YmajorS : Z := 4.
Definition Xmajor : Z := 2.
Definition YmajorF : Z := 5.
Definition Linear : Z := 0.
Definition Wmajor : Z := 1.
Definition Ymajor : Z := 3.
End SurfaceTilingTypeValues.

Module ModeValues.
Definition Horizontal : Z := 1.
Definition Vertical : Z := 0.
End ModeValues.

Module ClearColorTypeValues.
Definition Immediate : Z := 0.
Definition Address : Z := 1.
End ClearColorTypeValues.

Module SurfaceTypeValues.
Definition SurftypeCube : Z := 3.
Definition SurftypeStrbuf : Z := 5.
Definition SurftypeBuffer : Z := 4.
Definition Surftype3D : Z := 2.
Definition Surftype2D : Z := 1.
Definition Surftype1D : Z := 0.
Definition SurftypeNull : Z := 6.
End SurfaceTypeValues.

Module AlgorithmValues.
Definition Uncompressed : Z := 4.
Definition Astc : Z := 1.
Definition Lossless : Z := 2.
Definition Media : Z := 0.
Definition Msaa : Z := 3.
End AlgorithmValues.

Module AuxSurfaceTilingTypeValues.
Definition YmajorS : Z := 4.
Definition Xmajor : Z := 2.
Definition YmajorF : Z := 5.
Definition Linear : Z := 0.
Definition Wmajor : Z := 1.
Definition Ymajor : Z := 3.
End AuxSurfaceTilingTypeValues.

Module DumpTypeValues.
Definition Bin : Z := 1.
Definition Png : Z := 4.
Definition Bmp : Z := 0.
Definition Bmp32 : Z := 2.
Definition Tre : Z := 3.
End DumpTypeValues.

Module TiledResourceModeValues.
Definition TrmodeNone : Z := 0.
Definition TrmodeYf : Z := 1.
Definition TrmodeYs : Z := 2.
End TiledResourceModeValues.
End CmdServicesMemTraceDumpCompress.

(** ** hint_values.h *)

Module DataTypeHintValues.
Definition TraceNotype : Z := 0.
Definition TraceBatchBuffer : Z := 1.
Definition TraceBinBuffer : Z := 2.
Definition TraceBinPointerList : Z := 3.
Definition TraceSlowStateBuffer : Z := 4.
Definition TraceVertexBufferState : Z := 5.
Definition Trace2DMap : Z := 6.
Definition TraceCubeMap : Z := 7.
Definition TraceIndirectStateBuffer : Z := 8.
Definition TraceVolumeMap : Z := 9.
Definition Trace1DMap : Z := 10.
Definition TraceConstantBuffer : Z := 11.
Definition TraceConstantUrbEntry : Z := 12.
Definition TraceIndexBuffer : Z := 13.
Definition TraceVertexShaderState : Z := 16.
Definition TraceGeometryShaderState : Z := 17.
Definition TraceClipperState : Z := 18.
Definition TraceStripsFansState : Z := 19.
Definition TraceWindowerIzState : Z := 20.
Definition TraceColorCalcState : Z := 21.
Definition TraceClipViewport : Z := 22.
Definition TraceSfViewport : Z := 23.
Definition TraceCcViewport : Z := 24.
Definition TraceSamplerState : Z := 25.
Definition TraceKernelInstructions : Z := 26.
Definition TraceScratchSpace : Z := 27.
Definition TraceSamplerDefaultColor : Z := 28.
Definition TraceInterfaceDescriptor : Z := 29.
Definition TraceVldState : Z := 30.
Definition TraceVfeState : Z := 31.
Definition TraceBlendState : Z := 32.
Definition TraceDepthStencilState : Z := 33.
Definition TraceBindingTableState : Z := 34.
Definition TraceRenderSurfaceState : Z := 35.
Definition TraceMediaObjectIndirectData : Z := 36.
Definition TraceRemap : Z := 37.
Definition TraceCommandBuffer : Z := 38.
Definition TraceCommandBufferPrimary : Z := 39.
Definition TraceCommandBufferBlt : Z := 40.
Definition TraceCommandBufferMfx : Z := 41.
Definition TraceBatchBufferPrimary : Z := 42.
Definition TraceBatchBufferBlt : Z := 43.
Definition TraceBatchBufferMfx : Z := 44.
Definition TraceAudioCommandBuffer : Z := 45.
Definition TraceAudioLinkTable : Z := 46.
Definition TraceAudioData : Z := 47.
Definition TraceLogicalRingContextRcs : Z := 48.
Definition TraceLogicalRingContextBcs : Z := 49.
Definition TraceLogicalRingContextVcs : Z := 50.
Definition TraceLogicalRingContextVecs : Z := 51.
Definition TraceExtendedRootTableEntry : Z := 52.
Definition TraceExtendedContextTableEntry : Z := 53.
Definition TracePasidTableEntry : Z := 54.
Definition TraceRingContextRcs : Z := 55.
Definition TraceRingContextBcs : Z := 56.
Definition TraceRingContextVcs : Z := 57.
Definition TraceRingContextVecs : Z := 58.
Definition TraceLri : Z := 59.
Definition TraceGucProcessDescriptor : Z := 60.
Definition TraceGucContextDescriptor : Z := 61.
Definition TraceDummyGgttEntry : Z := 62.
Definition TraceLogicalRingContextCcs : Z := 64.
Definition TracePpgttLevel1 : Z := 65.
Definition TracePpgttLevel2 : Z := 66.
Definition TracePpgttLevel3 : Z := 67.
Definition TracePpgttLevel4 : Z := 68.
Definition TracePpgttLevel5 : Z := 69.
Definition TraceIndirectRingContextRcs : Z := 70.
Definition TraceIndirectRingContextBcs : Z := 71.
Definition TraceIndirectRingContextVcs : Z := 72.
Definition TraceIndirectRingContextVecs : Z := 73.
Definition TraceIndirectRingContextCcs : Z := 74.
End DataTypeHintValues.

(** ** The packet interface

    What the structures promise to the code that writes and reads them: the
    fields fill the object exactly, and the first double word is the header with
    the structure's own sub-opcode. *)

Class Packet (T : Type) := {
  pk_fields : T -> list (Z * Z);
  pk_size : Z;
  pk_dwordCount : T -> Z;
  pk_subOpcode : Z;
  pk_setHeader : T -> T;
  pk_matchesHeader : T -> bool;
  pk_bits : forall p, sumZ (map fst (pk_fields p)) = 8 * pk_size;
  pk_widths : forall p, Forall (fun f => 0 <= f.1) (pk_fields p);
  pk_matches : forall p, pk_matchesHeader (pk_setHeader p) = true;
  pk_header : forall p, take 4 (pk_fields (pk_setHeader p))
    = [(16, pk_dwordCount p); (7, pk_subOpcode); (6, 0x2e); (3, 0x7)]
}.

(** The bytes a write of the whole object appends. *)
Definition encode {T} `{Packet T} (p : T) : list Z :=
  leBytes (Z.to_nat pk_size) (packBits (pk_fields p)).

(** Reading a structure back from its bytes. *)
Definition decodeFields (widths : list Z) (bytes : list Z) : list Z :=
  unpackBits widths (fromLE bytes).

#[export] Program Instance CmdServicesMemTraceVersion_Packet : Packet CmdServicesMemTraceVersion.t := {
  pk_fields := CmdServicesMemTraceVersion.fields;
  pk_size := CmdServicesMemTraceVersion.sizeOf;
  pk_dwordCount := CmdServicesMemTraceVersion.dwordCount;
  pk_subOpcode := CmdServicesMemTraceVersion.subOpcode;
  pk_setHeader := CmdServicesMemTraceVersion.setHeader;
  pk_matchesHeader := CmdServicesMemTraceVersion.matchesHeader
}.
Next Obligation. done. Qed.
Next Obligation. intros p. repeat constructor; done. Qed.
Next Obligation. done. Qed.
Next Obligation. done. Qed.

#[export] Program Instance CmdServicesMemTraceRegisterCompare_Packet : Packet CmdServicesMemTraceRegisterCompare.t := {
  pk_fields := CmdServicesMemTraceRegisterCompare.fields;
  pk_size := CmdServicesMemTraceRegisterCompare.sizeOf;
  pk_dwordCount := CmdServicesMemTraceRegisterCompare.dwordCount;
  pk_subOpcode := CmdServicesMemTraceRegisterCompare.subOpcode;
  pk_setHeader := CmdServicesMemTraceRegisterCompare.setHeader;
  pk_matchesHeader := CmdServicesMemTraceRegisterCompare.matchesHeader
}.
Next Obligation. done. Qed.
Next Obligation. intros p. repeat constructor; done. Qed.
Next Obligation. done. Qed.
Next Obligation. done. Qed.

#[export] Program Instance CmdServicesMemTraceRegisterPoll_Packet : Packet CmdServicesMemTraceRegisterPoll.t := {
  pk_fields := CmdServicesMemTraceRegisterPoll.fields;
  pk_size := CmdServicesMemTraceRegisterPoll.sizeOf;
  pk_dwordCount := CmdServicesMemTraceRegisterPoll.dwordCount;
  pk_subOpcode := CmdServicesMemTraceRegisterPoll.subOpcode;
  pk_setHeader := CmdServicesMemTraceRegisterPoll.setHeader;
  pk_matchesHeader := CmdServicesMemTraceRegisterPoll.matchesHeader
}.
Next Obligation. done. Qed.
Next Obligation. intros p. repeat constructor; done. Qed.
Next Obligation. done. Qed.
Next Obligation. done. Qed.

#[export] Program Instance CmdServicesMemTraceRegisterWrite_Packet : Packet CmdServicesMemTraceRegisterWrite.t := {
  pk_fields := CmdServicesMemTraceRegisterWrite.fields;
  pk_size := CmdServicesMemTraceRegisterWrite.sizeOf;
  pk_dwordCount := CmdServicesMemTraceRegisterWrite.dwordCount;
  pk_subOpcode := CmdServicesMemTraceRegisterWrite.subOpcode;
  pk_setHeader := CmdServicesMemTraceRegisterWrite.setHeader;
  pk_matchesHeader := CmdServicesMemTraceRegisterWrite.matchesHeader
}.
Next Obligation. done. Qed.
Next Obligation. intros p. repeat constructor; done. Qed.
Next Obligation. done. Qed.
Next Obligation. done. Qed.

#[export] Program Instance CmdServicesMemTraceMemoryCompare_Packet : Packet CmdServicesMemTraceMemoryCompare.t := {
  pk_fields := CmdServicesMemTraceMemoryCompare.fields;
  pk_size := CmdServicesMemTraceMemoryCompare.sizeOf;
  pk_dwordCount := CmdServicesMemTraceMemoryCompare.dwordCount;
  pk_subOpcode := CmdServicesMemTraceMemoryCompare.subOpcode;
  pk_setHeader := CmdServicesMemTraceMemoryCompare.setHeader;
  pk_matchesHeader := CmdServicesMemTraceMemoryCompare.matchesHeader
}.
Next Obligation. done. Qed.
Next Obligation. intros p. repeat constructor; done. Qed.
Next Obligation. done. Qed.
Next Obligation. done. Qed.

#[export] Program Instance CmdServicesMemTraceMemoryPoll_Packet : Packet CmdServicesMemTraceMemoryPoll.t := {
  pk_fields := CmdServicesMemTraceMemoryPoll.fields;
  pk_size := CmdServicesMemTraceMemoryPoll.sizeOf;
  pk_dwordCount := CmdServicesMemTraceMemoryPoll.dwordCount;
  pk_subOpcode := CmdServicesMemTraceMemoryPoll.subOpcode;
  pk_setHeader := CmdServicesMemTraceMemoryPoll.setHeader;
  pk_matchesHeader := CmdServicesMemTraceMemoryPoll.matchesHeader
}.
Next Obligation. done. Qed.
Next Obligation. intros p. repeat constructor; done. Qed.
Next Obligation. done. Qed.
Next Obligation. done. Qed.

#[export] Program Instance CmdServicesMemTraceMemoryWrite_Packet : Packet CmdServicesMemTraceMemoryWrite.t := {
  pk_fields := CmdServicesMemTraceMemoryWrite.fields;
  pk_size := CmdServicesMemTraceMemoryWrite.sizeOf;
  pk_dwordCount := CmdServicesMemTraceMemoryWrite.dwordCount;
  pk_subOpcode := CmdServicesMemTraceMemoryWrite.subOpcode;
  pk_setHeader := CmdServicesMemTraceMemoryWrite.setHeader;
  pk_matchesHeader := CmdServicesMemTraceMemoryWrite.matchesHeader
}.
Next Obligation. done. Qed.
Next Obligation. intros p. repeat constructor; done. Qed.
Next Obligation. done. Qed.
Next Obligation. done. Qed.

#[export] Program Instance CmdServicesMemTraceMemoryWriteDiscontiguous_Packet : Packet CmdServicesMemTraceMemoryWriteDiscontiguous.t := {
  pk_fields := CmdServicesMemTraceMemoryWriteDiscontiguous.fields;
  pk_size := CmdServicesMemTraceMemoryWriteDiscontiguous.sizeOf;
  pk_dwordCount := CmdServicesMemTraceMemoryWriteDiscontiguous.dwordCount;
  pk_subOpcode := CmdServicesMemTraceMemoryWriteDiscontiguous.subOpcode;
  pk_setHeader := CmdServicesMemTraceMemoryWriteDiscontiguous.setHeader;
  pk_matchesHeader := CmdServicesMemTraceMemoryWriteDiscontiguous.matchesHeader
}.
Next Obligation. done. Qed.
Next Obligation. intros p. repeat constructor; done. Qed.
Next Obligation. done. Qed.
Next Obligation. done. Qed.

#[export] Program Instance CmdServicesMemTraceFrameBegin_Packet : Packet CmdServicesMemTraceFrameBegin.t := {
  pk_fields := CmdServicesMemTraceFrameBegin.fields;
  pk_size := CmdServicesMemTraceFrameBegin.sizeOf;
  pk_dwordCount := CmdServicesMemTraceFrameBegin.dwordCount;
  pk_subOpcode := CmdServicesMemTraceFrameBegin.subOpcode;
  pk_setHeader := CmdServicesMemTraceFrameBegin.setHeader;
  pk_matchesHeader := CmdServicesMemTraceFrameBegin.matchesHeader
}.
Next Obligation. done. Qed.
Next Obligation. intros p. repeat constructor; done. Qed.
Next Obligation. done. Qed.
Next Obligation. done. Qed.

#[export] Program Instance CmdServicesMemTraceComment_Packet : Packet CmdServicesMemTraceComment.t := {
  pk_fields := CmdServicesMemTraceComment.fields;
  pk_size := CmdServicesMemTraceComment.sizeOf;
  pk_dwordCount := CmdServicesMemTraceComment.dwordCount;
  pk_subOpcode := CmdServicesMemTraceComment.subOpcode;
  pk_setHeader := CmdServicesMemTraceComment.setHeader;
  pk_matchesHeader := CmdServicesMemTraceComment.matchesHeader
}.
Next Obligation. done. Qed.
Next Obligation. intros p. repeat constructor; done. Qed.
Next Obligation. done. Qed.
Next Obligation. done. Qed.

#[export] Program Instance CmdServicesMemTraceDelay_Packet : Packet CmdServicesMemTraceDelay.t := {
  pk_fields := CmdServicesMemTraceDelay.fields;
  pk_size := CmdServicesMemTraceDelay.sizeOf;
  pk_dwordCount := CmdServicesMemTraceDelay.dwordCount;
  pk_subOpcode := CmdServicesMemTraceDelay.subOpcode;
  pk_setHeader := CmdServicesMemTraceDelay.setHeader;
  pk_matchesHeader := CmdServicesMemTraceDelay.matchesHeader
}.
Next Obligation. done. Qed.
Next Obligation. intros p. repeat constructor; done. Qed.
Next Obligation. done. Qed.
Next Obligation. done. Qed.

#[export] Program Instance CmdServicesMemTraceMemoryDump_Packet : Packet CmdServicesMemTraceMemoryDump.t := {
  pk_fields := CmdServicesMemTraceMemoryDump.fields;
  pk_size := CmdServicesMemTraceMemoryDump.sizeOf;
  pk_dwordCount := CmdServicesMemTraceMemoryDump.dwordCount;
  pk_subOpcode := CmdServicesMemTraceMemoryDump.subOpcode;
  pk_setHeader := CmdServicesMemTraceMemoryDump.setHeader;
  pk_matchesHeader := CmdServicesMemTraceMemoryDump.matchesHeader
}.
Next Obligation. done. Qed.
Next Obligation. intros p. repeat constructor; done. Qed.
Next Obligation. done. Qed.
Next Obligation. done. Qed.

#[export] Program Instance CmdServicesMemTraceTestPhaseMarker_Packet : Packet CmdServicesMemTraceTestPhaseMarker.t := {
  pk_fields := CmdServicesMemTraceTestPhaseMarker.fields;
  pk_size := CmdServicesMemTraceTestPhaseMarker.sizeOf;
  pk_dwordCount := CmdServicesMemTraceTestPhaseMarker.dwordCount;
  pk_subOpcode := CmdServicesMemTraceTestPhaseMarker.subOpcode;
  pk_setHeader := CmdServicesMemTraceTestPhaseMarker.setHeader;
  pk_matchesHeader := CmdServicesMemTraceTestPhaseMarker.matchesHeader
}.
Next Obligation. done. Qed.
Next Obligation. intros p. repeat constructor; done. Qed.
Next Obligation. done. Qed.
Next Obligation. done. Qed.

#[export] Program Instance CmdServicesMemTraceMemoryContinuousRegion_Packet : Packet CmdServicesMemTraceMemoryContinuousRegion.t := {
  pk_fields := CmdServicesMemTraceMemoryContinuousRegion.fields;
  pk_size := CmdServicesMemTraceMemoryContinuousRegion.sizeOf;
  pk_dwordCount := CmdServicesMemTraceMemoryContinuousRegion.dwordCount;
  pk_subOpcode := CmdServicesMemTraceMemoryContinuousRegion.subOpcode;
  pk_setHeader := CmdServicesMemTraceMemoryContinuousRegion.setHeader;
  pk_matchesHeader := CmdServicesMemTraceMemoryContinuousRegion.matchesHeader
}.
Next Obligation. done. Qed.
Next Obligation. intros p. repeat constructor; done. Qed.
Next Obligation. done. Qed.
Next Obligation. done. Qed.

#[export] Program Instance CmdServicesMemTracePredicate_Packet : Packet CmdServicesMemTracePredicate.t := {
  pk_fields := CmdServicesMemTracePredicate.fields;
  pk_size := CmdServicesMemTracePredicate.sizeOf;
  pk_dwordCount := CmdServicesMemTracePredicate.dwordCount;
  pk_subOpcode := CmdServicesMemTracePredicate.subOpcode;
  pk_setHeader := CmdServicesMemTracePredicate.setHeader;
  pk_matchesHeader := CmdServicesMemTracePredicate.matchesHeader
}.
Next Obligation. done. Qed.
Next Obligation. intros p. repeat constructor; done. Qed.
Next Obligation. done. Qed.
Next Obligation. done. Qed.

#[export] Program Instance CmdServicesMemTraceDumpCompress_Packet : Packet CmdServicesMemTraceDumpCompress.t := {
  pk_fields := CmdServicesMemTraceDumpCompress.fields;
  pk_size := CmdServicesMemTraceDumpCompress.sizeOf;
  pk_dwordCount := CmdServicesMemTraceDumpCompress.dwordCount;
  pk_subOpcode := CmdServicesMemTraceDumpCompress.subOpcode;
  pk_setHeader := CmdServicesMemTraceDumpCompress.setHeader;
  pk_matchesHeader := CmdServicesMemTraceDumpCompress.matchesHeader
}.
Next Obligation. done. Qed.
Next Obligation. intros p. repeat constructor; done. Qed.
Next Obligation. done. Qed.
Next Obligation. done. Qed.

(** ** Reading packets back *)

Lemma unpackBits_mod ws : forall x m,
  Forall (fun w => 0 <= w) ws -> sumZ ws <= m -> unpackBits ws (x mod 2 ^ m) = unpackBits ws x.
Proof.
  induction ws as [|w ws IH]; intros x m Hall Hm; [done|].
  apply Forall_cons in Hall as [Hw Hall]. cbn [unpackBits].
  assert (Hs : 0 <= sumZ ws).
  { clear - Hall. induction Hall as [|v vs Hv _ IH]; [done|]. simpl in *. unfold sumZ in *. lia. }
  change (sumZ (w :: ws)) with (w + sumZ ws) in Hm.
  assert (Hsplit : 2 ^ m = 2 ^ w * 2 ^ (m - w)) by (rewrite <- Z.pow_add_r by lia; f_equal; lia).
  f_equal.
  - unfold wrap. rewrite Hsplit, Z.rem_mul_r by lia.
    rewrite (Z.mul_comm (2 ^ w)), Z.mod_add by lia. apply Z.mod_mod. lia.
  - rewrite <- (IH (x / 2 ^ w) (m - w)) by (done || lia). f_equal.
    rewrite Hsplit, Z.rem_mul_r by lia. rewrite (Z.mul_comm (2 ^ w)), Z.div_add by lia.
    rewrite (Z.div_small (x mod 2 ^ w)); [done|]. apply Z.mod_pos_bound. lia.
Qed.

Lemma unpackBits_prefix fs1 fs2 :
  Forall (fun f => 0 <= f.1) fs1 ->
  unpackBits (map fst fs1) (packBits (fs1 ++ fs2)) = map (fun f => wrap f.1 f.2) fs1.
Proof.
  induction 1 as [|[w v] fs Hw Hall IH]; [done|]. cbn [packBits map unpackBits fst snd app] in *.
  pose proof (wrap_range w v Hw) as Hv. unfold in_width in Hv.
  f_equal.
  - unfold wrap at 1. rewrite (Z.mul_comm (2 ^ w)), Z.mod_add by lia. by apply Z.mod_small.
  - rewrite (Z.mul_comm (2 ^ w)), Z.div_add, Z.div_small by lia. exact IH.
Qed.

Lemma take_leBytes k : forall n x, (k <= n)%nat -> take k (leBytes n x) = leBytes k x.
Proof.
  induction k as [|k IH]; intros n x Hk; [done|]. destruct n as [|n]; [lia|].
  cbn. f_equal. apply IH. lia.
Qed.

Lemma leBytes_mod k : forall x, leBytes k (x mod 2 ^ (8 * Z.of_nat k)) = leBytes k x.
Proof.
  induction k as [|k IH]; intros x; [done|]. cbn [leBytes].
  replace (8 * Z.of_nat (S k)) with (8 + 8 * Z.of_nat k) by lia.
  rewrite Z.pow_add_r by lia. change (2 ^ 8) with 256. set (m := 2 ^ (8 * Z.of_nat k)) in *.
  assert (0 < m) by (apply Z.pow_pos_nonneg; lia). rewrite Z.rem_mul_r by lia. f_equal.
  - unfold wrap. change (2 ^ 8) with 256.
    rewrite (Z.mul_comm 256), Z.mod_add, Z.mod_mod by lia. done.
  - rewrite (Z.mul_comm 256), Z.div_add by lia.
    rewrite (Z.div_small (x mod 256)) by (apply Z.mod_pos_bound; lia). apply IH.
Qed.

Lemma fromLE_leBytes_mod k x : fromLE (leBytes k x) = x mod 2 ^ (8 * Z.of_nat k).
Proof.
  rewrite <- leBytes_mod. apply fromLE_leBytes. apply Z.mod_pos_bound, Z.pow_pos_nonneg; lia.
Qed.

(** Reading a prefix of the fields from a prefix of the bytes of an object. *)
Lemma decode_prefix fs1 fs2 n k :
  Forall (fun f => 0 <= f.1) fs1 -> (k <= n)%nat -> sumZ (map fst fs1) <= 8 * Z.of_nat k ->
  decodeFields (map fst fs1) (take k (leBytes n (packBits (fs1 ++ fs2))))
    = map (fun f => wrap f.1 f.2) fs1.
Proof.
  intros Hw Hk Hs. unfold decodeFields. rewrite take_leBytes, fromLE_leBytes_mod by done.
  rewrite unpackBits_mod; [by apply unpackBits_prefix| |done].
  clear - Hw. induction Hw as [|f fs Hf _ IH]; simpl; constructor; done.
Qed.

Section PacketTheory.
Context {T : Type} `{!Packet T}.
Implicit Types p : T.

Lemma length_encode p : length (encode p) = Z.to_nat pk_size.
Proof. apply length_leBytes. Qed.

Lemma pk_size_nonneg p : 0 <= pk_size.
Proof.
  pose proof (pk_bits p) as Hb. pose proof (pk_widths p) as Hw.
  enough (0 <= sumZ (map fst (pk_fields p))) by lia.
  clear Hb. induction Hw as [|f fs Hf _ IH]; [done|]. simpl in *. unfold sumZ in *. lia.
Qed.

(** A packet structure written to the file and read back gives every
    member, in memory order, truncated to its declared bit width, and takes
    exactly [sizeof] bytes. *)
Theorem packet_roundtrip p :
  decodeFields (map fst (pk_fields p)) (encode p) = map (fun f => wrap f.1 f.2) (pk_fields p)
  /\ Z.of_nat (length (encode p)) = pk_size.
Proof.
  pose proof (pk_size_nonneg p). split; [|rewrite length_encode; lia].
  unfold encode. rewrite <- (take_ge (leBytes _ _) (Z.to_nat pk_size)) by (rewrite length_leBytes; lia).
  pose proof (decode_prefix (pk_fields p) [] (Z.to_nat pk_size) (Z.to_nat pk_size)) as Hd.
  rewrite app_nil_r in Hd. apply Hd; [apply pk_widths|lia|]. rewrite pk_bits. lia.
Qed.

(** The header double word of a packet whose header was set. *)
Lemma encode_header p :
  4 <= pk_size ->
  decodeFields [16; 7; 6; 3] (take 4 (encode (pk_setHeader p)))
    = [u16 (pk_dwordCount p); wrap 7 pk_subOpcode; 0x2e; 0x7].
Proof.
  intros Hs. unfold encode.
  rewrite <- (take_drop 4 (pk_fields (pk_setHeader p))), pk_header.
  change [16; 7; 6; 3] with
    (map fst [(16, pk_dwordCount p); (7, pk_subOpcode); (6, 0x2e); (3, 0x7)]).
  rewrite decode_prefix; [done|repeat constructor; done|lia|done].
Qed.
End PacketTheory.
