(* ===== verification/AubStream.v ===== *)
(** * Streams: what a memory operation sends to its sink

    [aub_stream.h] and [aub_stream.cpp]. The pure virtual functions of
    [AubStream] the memory operations call are the class [Stream]; the member
    functions of the base class are defined over it, with the page tables and the
    sink as explicit state. [Trace] is the sink that records the calls. *)

From S2P Require Import Prelude Allocator MemoryBanks PageTable Walker AubPackets.
#[local] Open Scope Z_scope.

Module AddressSpaceValues := CmdServicesMemTraceMemoryWrite.AddressSpaceValues.

(** ** The virtual functions *)

(** [SurfaceInfo] of [aubstream.h]. *)
Record SurfaceInfo := mkSurfaceInfo {
  si_address : Z; si_width : Z; si_height : Z; si_pitch : Z; si_format : Z;
  si_surftype : Z; si_tilingType : Z; si_compressed : bool; si_dumpType : Z;
  si_useClearValue : bool; si_clearColorType : Z; si_auxEncodingFormat : Z;
  si_auxSurfaceWidth : Z; si_auxSurfaceHeight : Z; si_auxSurfacePitch : Z;
  si_auxSurfaceQPitch : Z; si_auxSurfaceTilingType : Z; si_clearColorAddress : Z;
  si_auxSurfaceAddress : Z
}.

(** The virtual functions. A read gets the contents of the caller's buffer and gives
    its new contents. *)
Class Stream (Sk : Type) := {
  addComment : string -> M Sk unit;
  writeGttPages : GGTT -> list PageEntryInfo -> M Sk unit;
  expectMemoryTable : list Z -> Z -> list PageInfo -> Z -> M Sk unit;
  reserveContiguousPages : list Z -> M Sk unit;
  readDiscontiguousPages : list Z -> Z -> list PageInfo -> M Sk (list Z);
  writeDiscontiguousPages : list Z -> Z -> list PageInfo -> Z -> M Sk unit;
  writeDiscontiguousEntries : list PageEntryInfo -> Z -> Z -> M Sk unit;
  memoryPoll : list PageInfo -> Z -> Z -> M Sk unit;
  registerPoll : Z -> Z -> Z -> bool -> Z -> M Sk unit;
  writeMMIO : Z -> Z -> Z -> M Sk unit;
  readMMIO : Z -> M Sk Z;
  writePCICFG : Z -> Z -> M Sk unit;
  readPCICFG : Z -> M Sk Z;
  declareContext : Z -> Z * list Z -> M Sk unit;
  dumpBufferBIN : Z -> Z -> Z -> Z -> M Sk unit;
  dumpSurface : Z -> SurfaceInfo -> Z -> M Sk unit;
  arePageTableWritesFullyCommitted : M Sk bool
}.

(** The sink that records its calls, oldest first. *)
Inductive StreamCall :=
| AddComment (message : string)
| WriteGttPages (entries : list PageEntryInfo)
| ExpectMemoryTable (memory : list Z) (size : Z) (entries : list PageInfo) (compareOperation : Z)
| ReserveContiguousPages (pages : list Z)
| ReadDiscontiguousPages (size : Z) (entries : list PageInfo)
| WriteDiscontiguousPages (memory : list Z) (size : Z) (entries : list PageInfo) (hint : Z)
| WriteDiscontiguousEntries (entries : list PageEntryInfo) (addressSpace hint : Z)
| MemoryPoll (entries : list PageInfo) (value compareMode : Z)
| RegisterPoll (registerOffset mask desiredValue : Z) (pollNotEqual : bool) (timeoutAction : Z)
| WriteMMIO (offset value mask : Z)
| ReadMMIO (offset : Z)
| WritePCICFG (offset value : Z)
| ReadPCICFG (offset : Z)
| DeclareContext (handle : Z) (pageDirectories : Z * list Z)
| DumpBufferBIN (gttType gfxAddress size handle : Z)
| DumpSurface (gttType : Z) (surfaceInfo : SurfaceInfo) (handle : Z).

Definition Trace := list StreamCall.
Definition record (c : StreamCall) : M Trace unit := modify (fun t => t ++ [c]).

#[export] Instance PageEntryInfo_eq_dec : EqDecision PageEntryInfo.
Proof. solve_decision. Defined.

#[export] Instance TraceStream : Stream Trace := {
  addComment s := record (AddComment s);
  writeGttPages _ es := record (WriteGttPages es);
  expectMemoryTable m n es c := record (ExpectMemoryTable m n es c);
  reserveContiguousPages ps := record (ReserveContiguousPages ps);
  readDiscontiguousPages m n es := record (ReadDiscontiguousPages n es) ≫= fun _ => mret m;
  writeDiscontiguousPages m n es h := record (WriteDiscontiguousPages m n es h);
  writeDiscontiguousEntries es sp h := record (WriteDiscontiguousEntries es sp h);
  memoryPoll es v c := record (MemoryPoll es v c);
  registerPoll o m d n a := record (RegisterPoll o m d n a);
  writeMMIO o v m := record (WriteMMIO o v m);
  readMMIO o := record (ReadMMIO o) ≫= fun _ => mret 0;
  writePCICFG o v := record (WritePCICFG o v);
  readPCICFG o := record (ReadPCICFG o) ≫= fun _ => mret 0;
  declareContext h p := record (DeclareContext h p);
  dumpBufferBIN g a n h := record (DumpBufferBIN g a n h);
  dumpSurface g s h := record (DumpSurface g s h);
  arePageTableWritesFullyCommitted := mret true
}.

(** ** std::hex << std::showbase *)

Definition hexDigit (d : Z) : string :=
  match String.get (Z.to_nat d) "0123456789abcdef" with
  | Some c => String c EmptyString
  | None => EmptyString
  end.

Fixpoint hexDigits (fuel : nat) (v : Z) (acc : string) : string :=
  match fuel with
  | O => acc
  | S fuel' =>
      if v =? 0 then acc else hexDigits fuel' (Z.shiftr v 4) (hexDigit (Z.land v 15) +:+ acc)
  end.

(** Zero has no base prefix. *)
Definition hex (v : Z) : string :=
  if v =? 0 then "0" else "0x" +:+ hexDigits 16 v "".

(** The text between the kind of table and the banks. *)
Definition rangeComment (kind : string) (gfxAddress size pageSize memoryBanks : Z) : string :=
  kind +:+ hex gfxAddress +:+ " - " +:+ hex (u64 (gfxAddress + size - 1))
  +:+ "  pageSize: " +:+ hex pageSize +:+ "  banks:" +:+ memoryBanksToString memoryBanks " ".

(** ** The base class *)

Record StreamState (A Sk : Type) := mkStreamState {
  tables : Store A;
  sink : Sk
}.
Arguments mkStreamState {A Sk}.
Arguments tables {A Sk}.
Arguments sink {A Sk}.

Section AubStream.
Context {A : Type} `{!PhysicalAddressAllocator A} {Sk : Type} `{!Stream Sk}.
Variable ndebug : bool.
Variable enablePs64 : bool.
Variable gpu : GpuOps.

#[local] Abbreviation SM := (M (StreamState A Sk)).

Definition onTables {B} (m : M (Store A) B) : SM B :=
  fun s => match m (tables s) with
           | Ok (b, t) => Ok (b, mkStreamState t (sink s))
           | Err e => Err e
           end.

Definition onSink {B} (m : M Sk B) : SM B :=
  fun s => match m (sink s) with
           | Ok (b, k) => Ok (b, mkStreamState (tables s) k)
           | Err e => Err e
           end.

(** [PageTableWalker pageWalker; pageWalker.walkMemory(...);] *)
Definition runWalk (m : M (WalkState A) unit) : SM PageTableWalker :=
  fun s => match m (mkWalkState (tables s) newWalker []) with
           | Ok (_, w) => Ok (walker w, mkStreamState (store w) (sink s))
           | Err e => Err e
           end.

(** What [declareContextForDumping] reads of a table, the page directory pointers
    of a context: the root of a 48-bit (or wider)
    table, the four children of a 32-bit one. *)
Definition pageDirPointers (ppgtt : loc) : M (Store A) (Z * list Z) :=
  p ← deref ppgtt;
  if 48 <=? numAddressBits p then mret (1, [physicalAddress p])
  else
    let child i := (entry ← getChild ppgtt i;
      match entry with
      | Some e => pe ← deref e; mret (physicalAddress pe)
      | None => mret 0
      end) in
    p0 ← child 0; p1 ← child 1; p2 ← child 2; p3 ← child 3;
    mret (0, [p0; p1; p2; p3]).

Definition declareContextForDumping (handleDumpContext : Z) (ppgtt : loc) : SM unit :=
  p ← onTables (pageDirPointers ppgtt);
  onSink (declareContext handleDumpContext p).

Definition ggttWalk := walkMemoryGGTT (A := A) ndebug.
Definition ppgttWalk := walkMemory (A := A) ndebug enablePs64 gpu.

Definition gttMemoryPoll (ggtt : GGTT) (gfxAddress value compareMode : Z) : SM unit :=
  w ← runWalk (ggttWalk ggtt gfxAddress 4 mainBank (getPageSize GGTTClass) Expect);
  onSink (memoryPoll (entries w) value compareMode).

Definition expectMemoryGGTT (ggtt : GGTT) (gfxAddress : Z) (memory : list Z)
    (size compareOperation : Z) : SM unit :=
  w ← runWalk (ggttWalk ggtt gfxAddress size mainBank (getPageSize GGTTClass) Expect);
  onSink (expectMemoryTable memory size (entries w) compareOperation).

Definition expectMemory (ppgtt : loc) (gfxAddress : Z) (memory : list Z)
    (size compareOperation : Z) : SM unit :=
  w ← runWalk (ppgttWalk ppgtt
        (mkAllocationParams gfxAddress None size mainBank 0 65536 noParams) Expect None None);
  onSink (expectMemoryTable memory size (entries w) compareOperation).

Definition readMemory (ppgtt : loc) (gfxAddress : Z) (memory : list Z)
    (size memoryBanks pageSize : Z) : SM (list Z) :=
  p ← onTables (deref ppgtt);
  cassert ndebug (1 <? numLevels p) ≫= fun _ =>
  w ← runWalk (ppgttWalk ppgtt
        (mkAllocationParams gfxAddress None size memoryBanks 0 pageSize noParams)
        Expect None None);
  onSink (readDiscontiguousPages memory size (entries w)).

Definition readMemoryGGTT (ggtt : GGTT) (gfxAddress : Z) (memory : list Z)
    (size memoryBanks pageSize : Z) : SM (list Z) :=
  w ← runWalk (ggttWalk ggtt gfxAddress size memoryBanks pageSize Expect);
  onSink (readDiscontiguousPages memory size (entries w)).

Definition writeMemoryGGTT (ggtt : GGTT) (gfxAddress : Z) (memory : option (list Z))
    (size memoryBanks hint pageSize : Z) : SM (list PageInfo) :=
  onSink (addComment (rangeComment "ggtt: " gfxAddress size pageSize memoryBanks)) ≫= fun _ =>
  w ← runWalk (ggttWalk ggtt gfxAddress size memoryBanks pageSize Reserve);
  onSink (writeGttPages ggtt (nth 0 (pageWalkEntries w) [])) ≫= fun _ =>
  match memory with
  | Some m => onSink (writeDiscontiguousPages m size (entries w) hint)
  | None => mret tt
  end ≫= fun _ => mret (entries w).

(** The sinks of one level: the legacy address spaces, or one address space and
    a hint per level. *)
Definition usePml5 (numAddressBits : Z) : bool := 48 <? numAddressBits.
Definition useLegacyAddressSpaces (pageTablesInLocalMemory : bool) (numAddressBits : Z) : bool :=
  negb (usePml5 numAddressBits) && negb pageTablesInLocalMemory.
Definition tableAddressSpace (pageTablesInLocalMemory : bool) : Z :=
  if pageTablesInLocalMemory then AddressSpaceValues.TraceLocal
  else AddressSpaceValues.TraceNonlocal.

Definition writePpgttLevel2 (pageWalkEntry : list PageEntryInfo)
    (pageTablesInLocalMemory : bool) (numAddressBits : Z) : SM unit :=
  if useLegacyAddressSpaces pageTablesInLocalMemory numAddressBits then
    onSink (writeDiscontiguousEntries pageWalkEntry AddressSpaceValues.TracePpgttPdEntry
              DataTypeHintValues.TraceNotype)
  else
    onSink (writeDiscontiguousEntries pageWalkEntry (tableAddressSpace pageTablesInLocalMemory)
              DataTypeHintValues.TracePpgttLevel2).

Definition writePpgttLevel1 (pageWalkEntry : list PageEntryInfo)
    (pageTablesInLocalMemory : bool) (numAddressBits : Z) : SM unit :=
  if useLegacyAddressSpaces pageTablesInLocalMemory numAddressBits then
    onSink (writeDiscontiguousEntries pageWalkEntry AddressSpaceValues.TracePpgttEntry
              DataTypeHintValues.TraceNotype)
  else
    onSink (writeDiscontiguousEntries pageWalkEntry (tableAddressSpace pageTablesInLocalMemory)
              DataTypeHintValues.TracePpgttLevel1).

Definition writePageWalkEntries (pageWalker : PageTableWalker)
    (pageTablesInLocalMemory : bool) (numAddressBits : Z) : SM unit :=
  let level l := nth (Z.to_nat l) (pageWalkEntries pageWalker) [] in
  let send l addressSpace hint :=
    onSink (writeDiscontiguousEntries (level l) addressSpace hint) in
  (if useLegacyAddressSpaces pageTablesInLocalMemory numAddressBits then
     send PageTableLevel.Pml4 AddressSpaceValues.TracePml4Entry
       DataTypeHintValues.TraceNotype ≫= fun _ =>
     send PageTableLevel.Pdp AddressSpaceValues.TracePhysicalPdpEntry
       DataTypeHintValues.TraceNotype ≫= fun _ =>
     send PageTableLevel.Pde AddressSpaceValues.TracePpgttPdEntry
       DataTypeHintValues.TraceNotype ≫= fun _ =>
     send PageTableLevel.Pte AddressSpaceValues.TracePpgttEntry
       DataTypeHintValues.TraceNotype
   else
     let addressSpace := tableAddressSpace pageTablesInLocalMemory in
     when (usePml5 numAddressBits)
       (send PageTableLevel.Pml5 addressSpace DataTypeHintValues.TracePpgttLevel5) ≫= fun _ =>
     send PageTableLevel.Pml4 addressSpace DataTypeHintValues.TracePpgttLevel4 ≫= fun _ =>
     send PageTableLevel.Pdp addressSpace DataTypeHintValues.TracePpgttLevel3 ≫= fun _ =>
     send PageTableLevel.Pde addressSpace DataTypeHintValues.TracePpgttLevel2 ≫= fun _ =>
     send PageTableLevel.Pte addressSpace DataTypeHintValues.TracePpgttLevel1) ≫= fun _ =>
  committed ← onSink arePageTableWritesFullyCommitted;
  when committed
    (mapM_ (fun node => onTables (update node (set_pendingWrite false)))
       (concat (pendingNodes pageWalker))).

Definition writePages (pageWalker : PageTableWalker) (memory : option (list Z))
    (size hint : Z) (pageTablesInLocalMemory : bool) (numAddressBits : Z) : SM unit :=
  when (0 <? Z.of_nat (length (pages64KB pageWalker)))
    (onSink (reserveContiguousPages (pages64KB pageWalker))) ≫= fun _ =>
  writePageWalkEntries pageWalker pageTablesInLocalMemory numAddressBits ≫= fun _ =>
  match memory with
  | Some m => onSink (writeDiscontiguousPages m size (entries pageWalker) hint)
  | None => mret tt
  end.

Definition writeMemory (ppgtt : loc) (ap : AllocationParams) : SM (list PageInfo) :=
  let kind := match memory ap with
              | None => "ppgtt(pages only): "
              | Some _ => "ppgtt:"
              end%string in
  onSink (addComment (rangeComment kind (gfxAddress ap) (size ap) (pageSize ap)
                        (memoryBanks ap))) ≫= fun _ =>
  w ← runWalk (ppgttWalk ppgtt ap Reserve None None);
  p ← onTables (deref ppgtt);
  writePages w (memory ap) (size ap) (hint ap) (isLocalMemory p) (numAddressBits p) ≫= fun _ =>
  mret (entries w).

Definition cloneMemory (ppgtt : loc) (es : list PageInfo) (ap : AllocationParams) : SM unit :=
  p ← onTables (deref ppgtt);
  cassert ndebug (1 <? numLevels p) ≫= fun _ =>
  w ← runWalk (ppgttWalk ppgtt ap Clone (Some es) None);
  p ← onTables (deref ppgtt);
  writePages w None 0 0 (isLocalMemory p) (numAddressBits p).

Definition writeMemoryAndClonePageTables (ppgtt : loc) (ppgttForCloning : list loc)
    (gfxAddress : Z) (memory : option (list Z)) (size memoryBanks hint pageSize : Z)
    : SM unit :=
  let ap := mkAllocationParams gfxAddress memory size memoryBanks hint pageSize noParams in
  onSink (addComment (rangeComment "ppgtt: " gfxAddress size pageSize memoryBanks)) ≫= fun _ =>
  w ← runWalk (ppgttWalk ppgtt ap Reserve None None);
  p ← onTables (deref ppgtt);
  writePages w memory size hint (isLocalMemory p) (numAddressBits p) ≫= fun _ =>
  mapM_ (fun q => cloneMemory q (entries w) ap) ppgttForCloning.

(** [pointer] is the numeric value of [memory]. *)
Definition writePhysicalMemoryPages (pointer : Z) (memory : list Z) (size : Z)
    (es : list PageInfo) (hint : Z) : SM unit :=
  onSink (addComment ("memory only (without page tables entries): " +:+ hex pointer +:+ " - "
                      +:+ hex (u64 (pointer + size - 1)))) ≫= fun _ =>
  onSink (writeDiscontiguousPages memory size es hint).

Definition mapGpuVa (ppgtt : loc) (ap : AllocationParams) (physicalAddress : Z) : SM bool :=
  w ← runWalk (ppgttWalk ppgtt ap Reserve None (Some physicalAddress));
  p ← onTables (deref ppgtt);
  writePages w None 0 (hint ap) (isLocalMemory p) (numAddressBits p) ≫= fun _ =>
  mret true.
End AubStream.

(** [compareMemory]: an unsupported operation fails the assertion. *)
Definition compareMemory {St} (ndebug : bool) (readValue expectedValue compareOperation : Z)
    : M St bool :=
  let op := compareOperation in
  if op =? CmdServicesMemTraceMemoryPoll.ComparisonValues.Equal
  then mret (readValue =? expectedValue)
  else if op =? CmdServicesMemTraceMemoryPoll.ComparisonValues.NotEqual
  then mret (negb (readValue =? expectedValue))
  else if op =? CmdServicesMemTraceMemoryPoll.ComparisonValues.Greater
  then mret (expectedValue <? readValue)
  else if op =? CmdServicesMemTraceMemoryPoll.ComparisonValues.GreaterEqual
  then mret (expectedValue <=? readValue)
  else if op =? CmdServicesMemTraceMemoryPoll.ComparisonValues.Less
  then mret (readValue <? expectedValue)
  else if op =? CmdServicesMemTraceMemoryPoll.ComparisonValues.LessEqual
  then mret (readValue <=? expectedValue)
  else cassert ndebug false ≫= fun _ => mret false.

(** ** freeMemory

    The loop removes a page, and the tables that became empty, per iteration;
    [None] from the descent is the [return] for a missing table. *)

Record FreeEntries := mkFreeEntries {
  fe_pte : list PageEntryInfo;
  fe_pde : list PageEntryInfo;
  fe_pdp : list PageEntryInfo
}.

Record FreeLocals := mkFreeLocals {
  fl_child : option loc;
  fl_pdp : option loc;
  fl_pde : option loc;
  fl_pte : option loc;
  fl_is2MBPage : bool
}.

Section FreeMemory.
Context {A : Type} `{!PhysicalAddressAllocator A} {Sk : Type} `{!Stream Sk}.
Variable ndebug : bool.
Variable enablePs64 : bool.
Variable gpu : GpuOps.

#[local] Abbreviation TM := (M (Store A)).

(** [{table->getPhysicalAddress() + index * sizeof(uint64_t), value}]. *)
Definition freeEntry (table : loc) (index value : Z) : TM PageEntryInfo :=
  p ← deref table; mret (mkPageEntryInfo (u64 (physicalAddress p + index * 8)) value).

(** The loops that write the remaining slots of a broken PS64 group without the
    PS64 bit; [n] slots from [i] on. *)
Fixpoint freeClearPs64 (n : nat) (pte : loc) (i : Z) (acc : list PageEntryInfo)
    : TM (list PageEntryInfo) :=
  match n with
  | O => mret acc
  | S n' =>
      ci ← getChild pte i;
      match ci with
      | None => freeClearPs64 n' pte (i + 1) acc
      | Some c =>
          update c (set_ps64 false) ≫= fun _ =>
          v ← getEntryValue ndebug gpu c;
          e ← freeEntry pte i v;
          freeClearPs64 n' pte (i + 1) (acc ++ [e])
      end
  end.

Definition page64kSize : Z := 65536.

(** [if (child && level == PageTableLevel::Pte) { ... }]: unlink the page. *)
Definition freeUnlinkPage (levels : Z) (pte child : loc) (index : Z)
    (startAddress endAddress gfxAddress size : Z) (fe : FreeEntries) : TM FreeEntries :=
  c ← deref child;
  let wasPs64 := ps64 c in
  setChild pte index None ≫= fun _ =>
  e ← freeEntry pte index 0;
  let acc := fe_pte fe ++ [e] in
  if wasPs64 then
    cassert ndebug enablePs64 ≫= fun _ =>
    cassert ndebug (levels =? 5) ≫= fun _ =>
    let hwBase := Z.ldiff index 0xf in
    acc ← (if (gfxAddress =? startAddress)
              && negb (Z.land startAddress (page64kSize - 1) =? 0)
           then freeClearPs64 (Z.to_nat (index - hwBase)) pte hwBase acc else mret acc);
    acc ← (if (size <=? 4096) && negb (Z.land endAddress (page64kSize - 1) =? 0)
           then freeClearPs64 (Z.to_nat (hwBase + 16 - (index + 1))) pte (index + 1) acc
           else mret acc);
    mret (mkFreeEntries acc (fe_pde fe) (fe_pdp fe))
  else mret (mkFreeEntries acc (fe_pde fe) (fe_pdp fe)).

(** [while (level >= 0)], with [level = n - 1]. *)
Fixpoint freeDescend (n : nat) (levels startAddress endAddress gfxAddress size : Z)
    (v : FreeLocals) (fe : FreeEntries) : TM (option (FreeLocals * FreeEntries)) :=
  match n with
  | O => mret (Some (v, fe))
  | S n' =>
      let level := Z.of_nat n' in
      match fl_child v with
      | None => mret None
      | Some parent =>
          p ← deref parent;
          let index := getIndex (cls p) gfxAddress in
          let pdp := if level =? PageTableLevel.Pdp then Some parent else fl_pdp v in
          let pde := if level =? PageTableLevel.Pde then Some parent else fl_pde v in
          let pte := if negb (level =? PageTableLevel.Pte) then None else Some parent in
          child ← getChild parent index;
          is2MB ← (match child with
            | Some c => if level =? PageTableLevel.Pde then
                          pc ← deref c; mret (getPageSize (cls pc) =? pageSize2MB)
                        else mret false
            | None => mret false
            end);
          if is2MB : bool then mret (Some (mkFreeLocals child pdp pde pte true, fe))
          else
            fe ← (match child, pte with
              | Some c, Some t =>
                  freeUnlinkPage levels t c index startAddress endAddress gfxAddress size fe
              | _, _ => mret fe
              end);
            freeDescend n' levels startAddress endAddress gfxAddress size
              (mkFreeLocals child pdp pde pte false) fe
      end
  end.

(** The objects are at most six levels deep. *)
Definition deleteFuel : nat := 6.

(** [if (is2MBPage) { ... }]. *)
Definition freePage2MB (v : FreeLocals) (gfxAddress : Z) (fe : FreeEntries) : TM FreeEntries :=
  cassert ndebug (bool_decide (is_Some (fl_pde v))) ≫= fun _ =>
  pde ← from_option_M NullDereference (fl_pde v);
  t ← deref pde;
  let index := getIndex (cls t) gfxAddress in
  setChild pde index None ≫= fun _ =>
  e ← freeEntry pde index 0;
  deleteTable deleteFuel (fl_child v) ≫= fun _ =>
  let fe := mkFreeEntries (fe_pte fe) (fe_pde fe ++ [e]) (fe_pdp fe) in
  t ← deref pde;
  match fl_pdp v with
  | Some pdp =>
      if isEmpty t then
        d ← deref pdp;
        let pdpIndex := getIndex (cls d) gfxAddress in
        setChild pdp pdpIndex None ≫= fun _ =>
        e ← freeEntry pdp pdpIndex 0;
        deleteTable deleteFuel (Some pde) ≫= fun _ =>
        mret (mkFreeEntries (fe_pte fe) (fe_pde fe) (fe_pdp fe ++ [e]))
      else mret fe
  | None => mret fe
  end.

(** The [else] branch: delete the page, and the page table when it is empty. *)
Definition freePage (v : FreeLocals) (gfxAddress : Z) (fe : FreeEntries)
    : TM (Z * FreeEntries) :=
  cassert ndebug (bool_decide (is_Some (fl_pte v))) ≫= fun _ =>
  pte ← from_option_M NullDereference (fl_pte v);
  t ← deref pte;
  let sz := getPageSize (cls t) in
  cassert ndebug ((sz =? 4096) || (sz =? 65536)) ≫= fun _ =>
  deleteTable deleteFuel (fl_child v) ≫= fun _ =>
  t ← deref pte;
  match fl_pde v with
  | Some pde =>
      if isEmpty t then
        d ← deref pde;
        let index := getIndex (cls d) gfxAddress in
        setChild pde index None ≫= fun _ =>
        e ← freeEntry pde index 0;
        deleteTable deleteFuel (Some pte) ≫= fun _ =>
        mret (sz, mkFreeEntries (fe_pte fe) (fe_pde fe ++ [e]) (fe_pdp fe))
      else mret (sz, fe)
  | None => mret (sz, fe)
  end.

(** [while (size > 0)]; [None] when the function returned early. *)
Fixpoint freeLoop (fuel : nat) (ppgtt : loc) (levels startAddress endAddress : Z)
    (gfxAddress size : Z) (fe : FreeEntries) : TM (option FreeEntries) :=
  if 0 <? size then
    match fuel with
    | O => fail OutOfFuel
    | S fuel' =>
        r ← freeDescend (Z.to_nat levels) levels startAddress endAddress gfxAddress size
              (mkFreeLocals (Some ppgtt) None None None false) fe;
        match r with
        | None => mret None
        | Some (v, fe) =>
            r ← (if fl_is2MBPage v then
                   fe ← freePage2MB v gfxAddress fe; mret (pageSize2MB, fe)
                 else freePage v gfxAddress fe);
            let '(sz, fe) := r in
            let pageOffset := Z.land gfxAddress (sz - 1) in
            let sizeThisIteration := Z.min size (u64 (sz - pageOffset)) in
            freeLoop fuel' ppgtt levels startAddress endAddress
              (u64 (gfxAddress + sizeThisIteration)) (size - sizeThisIteration) fe
        end
    end
  else mret (Some fe).

Definition freeMemory (ppgtt : loc) (gfxAddress size : Z) : M (StreamState A Sk) unit :=
  p ← onTables (deref ppgtt);
  cassert ndebug (1 <? numLevels p) ≫= fun _ =>
  cassert ndebug (negb (size =? 0)) ≫= fun _ =>
  r ← onTables (freeLoop (walkFuel size) ppgtt (numLevels p) gfxAddress
                  (u64 (gfxAddress + size)) gfxAddress size (mkFreeEntries [] [] []));
  match r with
  | None => mret tt
  | Some fe =>
      writePpgttLevel1 (fe_pte fe) (isLocalMemory p) (numAddressBits p) ≫= fun _ =>
      writePpgttLevel2 (fe_pde fe) (isLocalMemory p) (numAddressBits p) ≫= fun _ =>
      when (negb (bool_decide (fe_pdp fe = [])))
        (onSink (writeDiscontiguousEntries (fe_pdp fe) (tableAddressSpace (isLocalMemory p))
                   DataTypeHintValues.TracePpgttLevel3))
  end.
End FreeMemory.

(** [IsAnyTbxShmMode], [IsAnyTbxMode], with the modes of [aubstream.h]. *)
Module mode.
Definition aubFile : Z := 0.
Definition tbx : Z := 1.
Definition aubFileAndTbx : Z := 2.
Definition tbxShm : Z := 3.
Definition tbxShm3 : Z := 4.
Definition tbxShm4 : Z := 5.
Definition null : Z := 6.
Definition aubFileAndShm : Z := 7.
Definition aubFileAndShm4 : Z := 8.
End mode.

Definition IsAnyTbxShmMode (m : Z) : bool :=
  (m =? mode.tbxShm) || (m =? mode.tbxShm3) || (m =? mode.tbxShm4).

Definition IsAnyTbxMode (m : Z) : bool :=
  (m =? mode.tbx) || (m =? mode.aubFileAndTbx) || IsAnyTbxShmMode m.
