(* ===== verification/StreamTheory.v ===== *)
(** * Memory operations reach the sink

    What [writeMemory] sends: every new table entry, then the data at the
    physical addresses the tables translate the range to; and what [freeMemory]
    forgets to send when it meets a hole in the mapping. *)

From S2P Require Import Prelude Allocator MemoryBanks PageTable TableTheory Walker WalkerTheory.
From S2P Require Import WalkCorrect AubPackets AubStream.
#[local] Open Scope Z_scope.

Section Wp.
Context {A : Type} {Sk : Type}.
Implicit Types s : StreamState A Sk.

Lemma wp_runWalk (m : M (WalkState A) unit) (Q : PageTableWalker -> StreamState A Sk -> Prop) s :
  wp m (fun _ w => Q (walker w) (mkStreamState (store w) (sink s)))
    (mkWalkState (tables s) newWalker []) ->
  wp (runWalk m) Q s.
Proof.
  unfold wp, runWalk. by destruct (m (mkWalkState (tables s) newWalker [])) as [[[] w]|e].
Qed.

Lemma wp_onTables {B} (m : M (Store A) B) (Q : B -> StreamState A Sk -> Prop) s :
  wp m (fun b t => Q b (mkStreamState t (sink s))) (tables s) -> wp (onTables m) Q s.
Proof. unfold wp, onTables. by destruct (m (tables s)) as [[b t]|e]. Qed.

End Wp.

Section Sending.
Context {A : Type} `{!PhysicalAddressAllocator A} `{!AllocatorLaws A}.
Variable ndebug : bool.
Variable enablePs64 : bool.
Variable gpu : GpuOps.

#[local] Abbreviation State := (StreamState A Trace).
Implicit Types s : State.

Lemma wp_record (c : StreamCall) (Q : unit -> State -> Prop) s :
  Q tt (mkStreamState (tables s) (sink s ++ [c])) -> wp (onSink (record c)) Q s.
Proof. done. Qed.

Lemma eta_stream s : mkStreamState (tables s) (sink s) = s.
Proof. by destruct s. Qed.

(** Clearing the pending flags of existing nodes. *)
Definition cleared (l : list loc) s s' : Prop :=
  sink s' = sink s /\ wf (tables s') /\ ext (heap (tables s)) (heap (tables s'))
  /\ (forall m p, heap (tables s') !! m = Some p -> exists p', heap (tables s) !! m = Some p'
       /\ static p' p /\ table p = table p' /\ ps64 p = ps64 p')
  /\ forall n, n ∈ l -> exists p, heap (tables s') !! n = Some p /\ pendingWrite p = false.

Lemma wp_clearPending l (Q : unit -> State -> Prop) s :
  wf (tables s) -> Forall (fun n => is_Some (heap (tables s) !! n)) l ->
  (forall s', cleared l s s' -> Q tt s') ->
  wp (mapM_ (fun node => onTables (update node (set_pendingWrite false))) l) Q s.
Proof.
  intros Hwf Hall HQ.
  eapply wp_mono; [apply (wp_mapM_ _ _ (fun seen s' => cleared seen s s'))|intros []; apply HQ].
  - split_and!; [done|done|done| |].
    + intros m p Hp. exists p. split_and!; auto using static_refl.
    + intros n Hn. by apply elem_of_nil in Hn.
  - intros l1 x s1 [l2 Hl] (Hs1 & Hw1 & Hx1 & Hb1 & Hc1).
    rewrite Hl, Forall_app, Forall_cons in Hall. destruct Hall as (_ & [p Hp] & _).
    destruct (Hx1 x p Hp) as (q & Hq & _ & _).
    assert (Hx : ext (heap (tables s1)) (<[x := set_pendingWrite false q]> (heap (tables s1))))
      by (eapply ext_update; [done|by split_and!|done]).
    apply wp_onTables. eapply wp_update; [exact Hq|]. split_and!; simpl; [done| |by etrans| |].
    + eapply wf_update; [done|exact Hq|done|].
      destruct (wf_node _ Hw1 _ _ Hq) as [Ha Hb Hc]. by split.
    + intros m r Hr. apply lookup_insert_Some in Hr as [[<- <-]|[_ Hr]]; [|by apply Hb1].
      destruct (Hb1 x q Hq) as (p' & ? & ? & ? & ?). by exists p'.
    + intros n [Hn|Hn%list_elem_of_singleton]%elem_of_app.
      * destruct (decide (n = x)) as [->|Hne].
        -- rewrite lookup_insert_eq. by eexists.
        -- rewrite lookup_insert_ne by done. by apply Hc1.
      * subst n. rewrite lookup_insert_eq. by eexists.
Qed.

(** The table writes of a walk, in the order they are sent. *)
Definition tableCalls (k : PageTableWalker) (local : bool) (bits : Z) : list StreamCall :=
  let level l := nth (Z.to_nat l) (pageWalkEntries k) [] in
  let send l sp h := [WriteDiscontiguousEntries (level l) sp h] in
  if useLegacyAddressSpaces local bits then
    send PageTableLevel.Pml4 AddressSpaceValues.TracePml4Entry DataTypeHintValues.TraceNotype
    ++ send PageTableLevel.Pdp AddressSpaceValues.TracePhysicalPdpEntry
         DataTypeHintValues.TraceNotype
    ++ send PageTableLevel.Pde AddressSpaceValues.TracePpgttPdEntry
         DataTypeHintValues.TraceNotype
    ++ send PageTableLevel.Pte AddressSpaceValues.TracePpgttEntry DataTypeHintValues.TraceNotype
  else
    let sp := tableAddressSpace local in
    (if usePml5 bits then send PageTableLevel.Pml5 sp DataTypeHintValues.TracePpgttLevel5
     else [])
    ++ send PageTableLevel.Pml4 sp DataTypeHintValues.TracePpgttLevel4
    ++ send PageTableLevel.Pdp sp DataTypeHintValues.TracePpgttLevel3
    ++ send PageTableLevel.Pde sp DataTypeHintValues.TracePpgttLevel2
    ++ send PageTableLevel.Pte sp DataTypeHintValues.TracePpgttLevel1.

Lemma tableCalls_level k local bits lv :
  0 <= lv < 5 -> (lv = 4 -> usePml5 bits = true) ->
  exists sp h, WriteDiscontiguousEntries (nth (Z.to_nat lv) (pageWalkEntries k) []) sp h
               ∈ tableCalls k local bits.
Proof.
  intros Hlv H4. unfold tableCalls, useLegacyAddressSpaces.
  assert (lv = 0 \/ lv = 1 \/ lv = 2 \/ lv = 3 \/ lv = 4) as Hc by lia.
  destruct Hc as [-> | [-> | [-> | [-> | ->]]]]; try rewrite (H4 eq_refl); cbn [negb andb];
    try (destruct (negb (usePml5 bits) && negb local));
    do 2 eexists; rewrite !elem_of_app, !list_elem_of_singleton; eauto 10.
Qed.

Lemma wp_writePageWalkEntries k local bits (Q : unit -> State -> Prop) s :
  wf (tables s) -> Forall (fun n => is_Some (heap (tables s) !! n)) (concat (pendingNodes k)) ->
  (forall s', sink s' = sink s ++ tableCalls k local bits ->
     cleared (concat (pendingNodes k)) (mkStreamState (tables s) (sink s')) s' -> Q tt s') ->
  wp (writePageWalkEntries (Sk := Trace) k local bits) Q s.
Proof.
  intros Hwf Hall HQ. unfold writePageWalkEntries, tableCalls in *. cbv zeta in *.
  apply wp_bind. destruct (useLegacyAddressSpaces local bits); [|destruct (usePml5 bits)];
    cbn [when];
    repeat first [apply wp_bind, wp_record; cbn [tables sink]
                 |apply wp_record; cbn [tables sink]
                 |apply wp_bind, wp_ret];
    try (apply wp_bind; apply wp_ret); cbn [when tables sink];
    (eapply wp_clearPending; [done|done|]);
    intros s' Hc; (apply HQ; [|destruct Hc as (Hs & Hrest); split; [done|exact Hrest]]);
    destruct Hc as (Hs & _); rewrite Hs; cbn [sink]; rewrite <- !app_assoc; done.
Qed.

(** What [writePages] sends. *)
Definition pagesCalls (k : PageTableWalker) (memory : option (list Z)) (size hint : Z)
    (local : bool) (bits : Z) : list StreamCall :=
  (if 0 <? Z.of_nat (length (pages64KB k)) then [ReserveContiguousPages (pages64KB k)] else [])
  ++ tableCalls k local bits
  ++ match memory with
     | Some m => [WriteDiscontiguousPages m size (entries k) hint]
     | None => []
     end.

Lemma wp_writePages k memory size hint local bits (Q : unit -> State -> Prop) s :
  wf (tables s) -> Forall (fun n => is_Some (heap (tables s) !! n)) (concat (pendingNodes k)) ->
  (forall s', sink s' = sink s ++ pagesCalls k memory size hint local bits ->
     cleared (concat (pendingNodes k)) (mkStreamState (tables s) (sink s')) s' -> Q tt s') ->
  wp (writePages (Sk := Trace) k memory size hint local bits) Q s.
Proof.
  intros Hwf Hall HQ. unfold writePages, pagesCalls in *.
  assert (Hk : forall pre, wp (writePageWalkEntries k local bits ≫= fun _ =>
      match memory with
      | Some m => onSink (writeDiscontiguousPages m size (entries k) hint)
      | None => mret tt
      end) (fun u s' => sink s' = pre ++ tableCalls k local bits ++ match memory with
          | Some m => [WriteDiscontiguousPages m size (entries k) hint]
          | None => []
          end /\ cleared (concat (pendingNodes k)) (mkStreamState (tables s) (sink s')) s')
      (mkStreamState (tables s) pre)).
  { intros pre. apply wp_bind, wp_writePageWalkEntries; [done|done|].
    intros s1 Hs1 (_ & Hc). cbn [sink tables] in *. destruct memory as [m|].
    - apply wp_record. cbn [sink]. rewrite Hs1, <- app_assoc. split; [done|]. by split.
    - apply wp_ret. rewrite app_nil_r. split; [done|]. by split. }
  apply wp_bind, wp_when; intros Hn; rewrite Hn in HQ.
  - apply wp_record. eapply wp_mono; [apply Hk|]. intros [] s' [Hs' Hc]. apply HQ; [|done].
    by rewrite Hs', <- app_assoc.
  - rewrite <- (eta_stream s). eapply wp_mono; [apply Hk|]. intros [] s' [Hs' Hc]. by apply HQ.
Qed.

Lemma emittedEntry_nth (w : WalkState A) lv e :
  emittedEntry w lv e -> e ∈ nth (Z.to_nat lv) (pageWalkEntries (walker w)) [].
Proof. intros (v & Hv & He). by rewrite (nth_lookup_Some _ _ _ v). Qed.

(** The state a memory operation starts its walk from. *)
Definition walkStart (t : Store A) : WalkState A := mkWalkState t newWalker [].

Lemma walkStart_wf t : wf t -> wfW (walkStart t).
Proof. intros Hwf. split_and!; [done|done|constructor]. Qed.

(** Every edge of the tables after the operation was there before with the entry
    it has now, or the calls contain its slot and final entry value (roots that
    set their address width; for walks with PS64, tables that share no child). *)
Definition edgesSent (t : Store A) (root : loc) (ap : AllocationParams) (levels : Z)
    (calls : list StreamCall) (t' : Store A) : Prop :=
  (walkPs64 enablePs64 gpu (walkStart t) root ap = true -> unshared (heap t)) ->
  forall l p i c, edge (heap t') l p i c -> classLevel (cls p) < levels ->
    exists pc, heap t' !! c = Some pc
    /\ ((exists p1 pc1, edge (heap t) l p1 i c /\ heap t !! c = Some pc1
           /\ entryValue gpu pc1 = entryValue gpu pc)
        \/ exists es sp h, WriteDiscontiguousEntries es sp h ∈ calls
             /\ mkPageEntryInfo (u64 (physicalAddress p + u32 i * 8)) (entryValue gpu pc) ∈ es).

Lemma edgesSent_walk t root ap p0 w es memory size hint local s' :
  wf t -> heap t !! root = Some p0 ->
  0 <= numLevels p0 <= 5 -> (numLevels p0 = 5 -> 48 < numAddressBits p0) ->
  walked gpu (walkPs64 enablePs64 gpu (walkStart t) root ap) (walkStart t) w es ->
  cleared (concat (pendingNodes (walker w))) (mkStreamState (store w) (sink s')) s' ->
  edgesSent t root ap (numLevels p0)
    (pagesCalls (walker w) memory size hint local (numAddressBits p0)) (tables s').
Proof.
  intros Hwf Hroot Hlv H5 [Hst _] (_ & _ & Hx & Hback & _) Hps l p i c (Hl & Hi & Hc) Hlt.
  destruct (Hback l p Hl) as (p' & Hl' & Hs & Ht & _). pose proof Hs as (Hcls & _ & _ & Hphys & _).
  rewrite Ht in Hc. assert (He : edge (heapOf w) l p' i c) by done.
  assert (Hval : forall pc pc', heapOf w !! c = Some pc -> heap (tables s') !! c = Some pc' ->
    entryValue gpu pc' = entryValue gpu pc).
  { intros pc pc' Hpc Hpc'. destruct (Hback c pc' Hpc') as (pc0 & Hpc0 & Hsc & _ & Hpsc).
    assert (pc0 = pc) as -> by (unfold heapOf in *; cbn in *; congruence).
    by apply entryValue_static. }
  destruct (wf_children _ _ (wf_node _ (proj1 (st_wf _ _ _ _ Hst)) _ _ Hl') _ _ Hc)
    as (pd & Hpd & Hok). destruct (childOk_level _ _ Hok) as [Hge _].
  destruct (Hx c pd Hpd) as (pc' & Hpc' & _ & _). exists pc'. split; [done|].
  destruct (st_cover _ _ _ _ Hst Hps l p' i c He)
    as [[]|[(p1 & pc1 & pc & He1 & Hpc1 & Hpc & Hsame)|(pc & Hpc & Hem)]].
  - left. exists p1, pc1. split_and!; [done|done|]. rewrite (Hval pc pc' Hpc Hpc').
    destruct (st_ext _ _ _ _ Hst c pc1 Hpc1) as (pc2 & Hpc2 & Hs2 & _).
    cbn in Hpc, Hpc2. assert (pc2 = pc) as -> by (unfold heapOf in *; cbn in *; congruence).
    symmetry. by apply entryValue_static.
  - right. rewrite (Hval pc pc' Hpc Hpc').
    destruct (tableCalls_level (walker w) local (numAddressBits p0) (classLevel (cls p')))
      as (sp & h & Hin); [rewrite Hcls in Hlt; lia| |].
    { intros H4. unfold usePml5. apply Z.ltb_lt, H5. rewrite Hcls in Hlt. lia. }
    exists (nth (Z.to_nat (classLevel (cls p'))) (pageWalkEntries (walker w)) []), sp, h.
    split.
    + unfold pagesCalls. rewrite !elem_of_app. auto.
    + apply emittedEntry_nth in Hem. unfold slotEntry in Hem. by rewrite Hphys.
Qed.

(** [writeMemory] with data, on a well-formed table tree, returns without
    error; the tables stay well-formed; the calls it makes end with the data,
    sent with page entries whose bytes are in order the addresses the tables
    translate the range to; and every table entry it made or changed was sent before. *)
Lemma writeMemory_sends t tr root ap m p0 :
  wf t -> validRequest (walkStart t) root ap -> memory ap = Some m ->
  heap t !! root = Some p0 -> (numLevels p0 = 5 -> 48 < numAddressBits p0) ->
  exists es s' pre,
    writeMemory ndebug enablePs64 gpu root ap (mkStreamState t tr) = Ok (es, s')
    /\ wf (tables s')
    /\ sink s' = tr ++ pre ++ [WriteDiscontiguousPages m (size ap) es (hint ap)]
    /\ concat (map entryBytes es)
       = map (translate (Z.to_nat (numLevels p0)) (heap (tables s')) root)
             (seqZ (gfxAddress ap) (size ap))
    /\ edgesSent t root ap (numLevels p0) pre (tables s').
Proof.
  intros Hwf Hreq Hmem Hroot H5.
  assert (Hlv : 0 <= numLevels p0 <= 5).
  { destruct (vr_root _ _ _ Hreq) as (q & Hq & _ & Hq1 & Hqn). unfold heapOf in Hq. cbn in Hq.
    rewrite Hroot in Hq. injection Hq as <-. pose proof (classLevel_max (cls p0)). lia. }
  pose (post := fun (es : list PageInfo) (s' : State) => exists pre, wf (tables s')
    /\ sink s' = tr ++ pre ++ [WriteDiscontiguousPages m (size ap) es (hint ap)]
    /\ concat (map entryBytes es)
       = map (translate (Z.to_nat (numLevels p0)) (heap (tables s')) root)
             (seqZ (gfxAddress ap) (size ap))
    /\ edgesSent t root ap (numLevels p0) pre (tables s')).
  enough (Hwp : wp (writeMemory ndebug enablePs64 gpu root ap) post (mkStreamState t tr)).
  { destruct (wp_run _ _ _ Hwp) as (es & s' & Hrun & pre & H). by exists es, s', pre. }
  unfold writeMemory. set (msg := rangeComment _ _ _ _ _).
  apply wp_bind, wp_record, wp_bind, wp_runWalk. cbn [tables sink].
  eapply wp_walkMemory; [by apply walkStart_wf|done|]. intros w es Hw Hes _.
  pose proof (walked_wf _ _ _ _ _ Hw) as (Hwfw & _ & Hno).
  destruct (walked_ext _ _ _ _ _ Hw root p0 Hroot) as (p1 & Hp1 & Hst1 & _).
  pose proof Hst1 as (_ & _ & _ & _ & _ & Hbits & _).
  apply wp_bind, wp_onTables. eapply wp_deref; [exact Hp1|]. cbn [tables sink].
  apply wp_bind, wp_writePages; [done|exact Hno|]. intros s' Hs' Hcl. apply wp_ret.
  assert (He : entries (walker w) = es) by by destruct Hw as [_ ->].
  unfold levelsOf, heapOf in Hes. cbn in Hes. rewrite Hroot in Hes.
  exists (AddComment msg :: pagesCalls (walker w) None (size ap) (hint ap) (isLocalMemory p1)
            (numAddressBits p1)). split_and!.
  - apply Hcl.
  - rewrite Hs'. cbn [sink]. unfold pagesCalls. rewrite Hmem, He, app_nil_r.
    cbn [app]. rewrite <- !app_assoc. reflexivity.
  - rewrite He. eapply map_translate_ext; [|exact Hes]. destruct Hcl as (_ & _ & Hx & _). exact Hx.
  - rewrite Hbits. intros Hps l p i c Hedge Hlt.
    destruct (edgesSent_walk t root ap p0 w es None (size ap) (hint ap) (isLocalMemory p1) s'
      Hwf Hroot Hlv H5 Hw Hcl Hps l p i c Hedge Hlt) as (pc & Hpc & [?|(l' & sp & h & H2 & H3)]);
      exists pc; (split; [done|]); [by left|right].
    exists l', sp, h. split; [by right|done].
Qed.
End Sending.

(** ** Concrete instances *)

Definition exData : list Z := [1; 2; 3; 4; 5; 6; 7; 8].
Definition exWrite : AllocationParams :=
  mkAllocationParams 0x10ffc (Some exData) 8 1 2 4096 noParams.

(** ** freeMemory and holes *)

(** The tables after the reservation of [WalkCorrect], as a stream state. *)
Definition exMapped : StreamState Simple.t Trace := mkStreamState (store exWalked) [].

(** when the range of [freeMemory] runs from a mapped page into addresses
    without a page table, the function returns in the middle: the page is
    unlinked from the tables (its address no longer translates), and the stream
    receives no call at all, so that the table entry it already wrote for the
    page stays in the sink's memory. *)
Theorem freeMemory_hole_drops_entries :
  exists s', @freeMemory _ (SimpleAllocatorOps false) _ TraceStream false false exGpu
               1%positive 0x13000 0x200000 exMapped = Ok (tt, s')
    /\ is_Some (translate 4 (heap (tables exMapped)) 1%positive 0x13000)
    /\ translate 4 (heap (tables s')) 1%positive 0x13000 = None
    /\ sink s' = sink exMapped.
Proof.
  eexists. split; [vm_compute; reflexivity|]. split; [|split; by vm_compute].
  vm_compute. by eexists.
Qed.
