(* ===== verification/CloneTheory.v ===== *)
(** * Walks implement the tree specification; cloned tables mirror each other

    [walkMemory] in mode [Reserve] computes [TreeView.mapRange] on the tree of its
    root; in mode [Clone], with the page information of a reservation, it computes
    the same function on another root. So [writeMemoryAndClonePageTables], which
    reserves in the tables of one device and clones into those of the others,
    keeps the tables of all devices equal as trees. *)

From S2P Require Import Prelude Allocator MemoryBanks PageTable TableTheory TreeView Walker WalkerTheory.
From S2P Require Import WalkCorrect AubPackets AubStream StreamTheory.
#[local] Open Scope Z_scope.

(** ** Forests *)

(** A root table of a walk with [n] levels. *)
Definition rootOk (n : nat) (h : gmap loc PageTable) (q : loc) : Prop :=
  exists p, h !! q = Some p /\ cls p <> GGTTClass /\ 1 <= classLevel (cls p)
    /\ numLevels p = classLevel (cls p) + 1 /\ n = S (Z.to_nat (classLevel (cls p))).

(** Roots whose tables share no object. *)
Record forest (n : nat) (h : gmap loc PageTable) (qs : list loc) : Prop := {
  fo_root : forall q, q ∈ qs -> rootOk n h q;
  fo_nodup : forall q, q ∈ qs -> NoDup (nodes n h q);
  fo_apart : forall q q' x, q ∈ qs -> q' ∈ qs -> q <> q' -> x ∈ nodes n h q -> x ∉ nodes n h q'
}.

Lemma rootOk_ext n h h' q : ext h h' -> rootOk n h q -> rootOk n h' q.
Proof.
  intros Hx (p & Hp & Hg & Hlv & Hn & ->). destruct (Hx q p Hp) as (p' & Hp' & Hs & _).
  destruct Hs as (Hc & _ & _ & _ & _ & _ & Hn'). exists p'. by rewrite Hc, Hn'.
Qed.

Lemma rootOk_dom n h q : rootOk n h q -> is_Some (h !! q).
Proof. intros (p & Hp & _). by eexists. Qed.

(** One tree of the forest grows. *)
Lemma forest_walked n h h' qs q :
  linkedOk h -> ext h h' -> forest n h qs -> q ∈ qs -> walkedTree n q h h' -> NoDup (nodes n h' q) ->
  forest n h' qs /\ forall q', q' ∈ qs -> q' <> q -> tree n h' q' = tree n h q'.
Proof.
  intros Hok Hx [Hr Hnd Hap] Hq Hw Hndq.
  assert (Hoth : forall q', q' ∈ qs -> q' <> q ->
    tree n h' q' = tree n h q' /\ nodes n h' q' = nodes n h q').
  { intros q' Hq' Hne. eapply walkedTree_other; [done|by eapply rootOk_dom, Hr| |exact Hw].
    intros x. by apply Hap. }
  assert (Hcl : forall q' x, q' ∈ qs -> x ∈ nodes n h q' -> is_Some (h !! x)).
  { intros q' x Hq'. apply nodes_closed; [done|by eapply rootOk_dom, Hr]. }
  destruct Hw as (_ & (new & Hn & [_ Hfr]) & _).
  assert (Hq1 : forall q' x, q' ∈ qs -> q' <> q -> x ∈ nodes n h q' -> x ∉ nodes n h' q).
  { intros q' x Hq' Hne Hx'. rewrite Hn, elem_of_app. intros [?|Hin].
    - by eapply (Hap q' q x).
    - destruct (Hcl q' x Hq' Hx') as [y Hy]. by rewrite (Hfr x Hin) in Hy. }
  split; [split|by intros; apply Hoth].
  - intros q' Hq'. by eapply rootOk_ext, Hr.
  - intros q' Hq'. destruct (decide (q' = q)) as [->|Hne]; [done|].
    destruct (Hoth q' Hq' Hne) as [_ ->]. by apply Hnd.
  - intros q1 q2 x H1 H2 Hne. destruct (decide (q1 = q)) as [->|Hn1].
    + destruct (Hoth q2 H2 ltac:(done)) as [_ ->]. intros Hx1 Hx2. by eapply Hq1.
    + destruct (Hoth q1 H1 Hn1) as [_ ->]. destruct (decide (q2 = q)) as [->|Hn2].
      * by apply Hq1.
      * destruct (Hoth q2 H2 Hn2) as [_ ->]. by apply Hap.
Qed.

(** No table of the forest changes. *)
Lemma forest_unchanged n h h' qs :
  linkedOk h -> ext h h' -> (forall x, unchanged h h' x) -> forest n h qs ->
  forest n h' qs /\ forall q, q ∈ qs -> tree n h' q = tree n h q.
Proof.
  intros Hok Hx Hu [Hr Hnd Hap].
  assert (Hf : forall q, q ∈ qs -> tree n h' q = tree n h q /\ nodes n h' q = nodes n h q).
  { intros q Hq. apply tree_frame; [done|by eapply rootOk_dom, Hr|auto]. }
  split; [split|by intros; apply Hf].
  - intros q Hq. by eapply rootOk_ext, Hr.
  - intros q Hq. destruct (Hf q Hq) as [_ ->]. by apply Hnd.
  - intros q q' x Hq Hq'. destruct (Hf q Hq) as [_ ->], (Hf q' Hq') as [_ ->]. by apply Hap.
Qed.

(** The hardware's translation is the translation in the tree. *)
Lemma translate_tree n h l a :
  linkedOk h -> rootOk n h l -> translate n h l a = translateTree n (tree n h l) a.
Proof.
  intros Hok (p & Hp & Hg & Hlv & _ & ->).
  pose proof (findPage_tree (Z.to_nat (classLevel (cls p))) h l p a Hok Hp
    ltac:(by rewrite Z2Nat.id by lia) Hg) as Hf.
  unfold translate, translateTree.
  destruct (lookupLeaf _ h l a) as [[c sz]|]; [|by rewrite Hf].
  destruct Hf as (pc & Hpc & Hf). rewrite Hf, Hpc. unfold pageOf. by rewrite wrap_add_wrap.
Qed.

Section Walks.
Context {A : Type} `{!PhysicalAddressAllocator A} `{!AllocatorLaws A}.
Variable ndebug : bool.
Variable enablePs64 : bool.
Variable gpu : GpuOps.
Implicit Types w : WalkState A.

(** ** The clone walk *)

Lemma wp_cloneLoop fuel : forall w call root p infos ci a size t' (Q : unit -> WalkState A -> Prop),
  let n := S (Z.to_nat (classLevel (cls p))) in
  wfW w -> w_mode call = Clone -> w_ppgtt call = root -> w_pageInfos call = Some infos ->
  heapOf w !! root = Some p -> cls p <> GGTTClass ->
  1 <= classLevel (cls p) -> w_levels call = classLevel (cls p) + 1 ->
  sizeLeaf (w_requestedPageSize call) (w_requestedLeafLevel call) ->
  0 <= a -> 0 <= size -> a + size < 2 ^ 64 ->
  (0 < size -> pagesLeft a size <= Z.of_nat fuel) ->
  (forall k, a <= k < a + size -> exists b,
     MemoryBankHelper.getMemoryBank ndebug (w_bankHelper call) k = Ok b /\ valid_bank b) ->
  NoDup (nodes n (heapOf w) root) ->
  mapRange n (w_requestedPageSize call) (additionalParams (w_params call))
    (tree n (heapOf w) root) a size (drop ci infos) = Some t' ->
  (forall w' es, walked gpu (w_ps64Applicable call) w w' es -> tree n (heapOf w') root = t' ->
     walkedTree n root (heapOf w) (heapOf w') -> NoDup (nodes n (heapOf w') root) -> Q tt w') ->
  wp (walkLoop ndebug gpu fuel call ci None a size) Q w.
Proof.
  induction fuel as [|fuel IH]; intros w call root p infos ci a size t' Q n Hwf Hmode Hroot Hinf Hl Hg
    Hlv Hn Hsl Ha Hs Hov Hfuel Hbank Hnd Hmr HQ; cbn [walkLoop]; destruct (Z.ltb_spec 0 size) as [Hpos|Hz];
    destruct (mapRange_inv _ _ _ _ _ _ _ _ Hmr) as [(-> & Hd & Et)|(e & es & Hd & Hsp & He & Hmr')]; try lia.
  - pose proof (pagesLeft_pos a size Ha Hpos). lia.
  - apply wp_ret, (HQ w []); [by apply walked_refl|done|apply walkedTree_refl|done].
  - destruct (Hbank a ltac:(lia)) as (bank & Hbk & Hvb). rewrite Hbk.
    apply wp_bind, wp_ret. rewrite Hmode, bool_decide_eq_true_2 by done.
    assert (Hci : infos !! ci = Some e) by (rewrite <- (Nat.add_0_r ci), <- lookup_drop, Hd; done).
    apply wp_bind, wp_bind. rewrite Hinf. cbn [from_option_M]. apply wp_ret, wp_bind.
    rewrite Hci. cbn [from_option_M]. apply wp_ret, wp_ret. cbv beta zeta.
    assert (Hlvn : Z.to_nat (w_levels call) = n) by (unfold n; lia).
    rewrite Hlvn, Hroot. subst n.
    eapply (wp_walkPage ndebug gpu w); [done|by split|done|done|done|exact Hsl|done|done|].
    cbn [walkGfxAddress walkSize]. intros w1 len Hpw (e1 & He1 & <-).
    pose proof Hpw as (c & pc0 & sz0 & _ & _ & Hw0 & _).
    pose proof (pageWalked_tree gpu _ root p _ w w1 Hwf Hl Hg Hlv (proj1 Hsl) Hnd Hpw)
      as (Hwt & Hnd1 & pc & phys & bk & Hsz & Hw & Hdt & Ht & _).
    cbn [walkGfxAddress walkSize ps64Applicable pageMemoryBank params] in *.
    set (sz := leafSize _ _ a _) in *.
    pose proof (proj2 Hw) as Hw'. rewrite Hw' in He1. apply app_inj_1 in He1 as [_ He1]; [|done].
    injection He1 as <-. cbn [piece pi_size] in *.
    pose proof (pieceSize_bounds a size sz Hsz Hpos) as [Hb1 Hb2].
    pose proof (walked_wf _ _ _ _ _ Hw) as Hwf1.
    destruct (walked_ext _ _ _ _ _ Hw root p Hl) as (p1 & Hl1 & (Hcls & _) & _).
    destruct Hdt as (_ & -> & ->). cbn [clonePageInfo] in *.
    eapply (IH w1 call root p1 infos (S ci) _ _ t'); rewrite ?Hcls;
      [done|done|done|done|done|done|done|done|done|lia|lia|lia| |intros k Hk; apply Hbank; lia|done| |].
    { intros Hmore. specialize (Hfuel Hpos).
      pose proof (pagesLeft_decreases a size sz Hsz Ha Hmore). lia. }
    { rewrite Ht. replace (drop (S ci) infos) with es; [by rewrite <- He|].
      rewrite <- Nat.add_1_r, <- drop_drop, Hd. done. }
    intros w2 es2 Hw2 Et2 Hwt2 Hnd2. apply (HQ w2 ([piece pc bank a size sz] ++ es2));
      [by eapply walked_trans|done| |done].
    eapply walkedTree_trans; [| |exact Hwt|exact Hwt2]; intros y; apply nodes_closed;
      [apply wf_linkedOk, Hwf|by eexists|apply wf_linkedOk, Hwf1|by eexists].
  - apply wp_ret, (HQ w []); [by apply walked_refl|done|apply walkedTree_refl|done].
Qed.

Lemma wp_walkClone w root ap infos n t' (Q : unit -> WalkState A -> Prop) :
  wfW w -> validRequest w root ap -> rootOk n (heapOf w) root -> NoDup (nodes n (heapOf w) root) ->
  mapRange n (requestedSize gpu ap) (additionalParams ap) (tree n (heapOf w) root) (gfxAddress ap) (size ap) infos
    = Some t' ->
  (forall w' es, walked gpu (walkPs64 enablePs64 gpu w root ap) w w' es -> tree n (heapOf w') root = t' ->
     walkedTree n root (heapOf w) (heapOf w') -> NoDup (nodes n (heapOf w') root) -> Q tt w') ->
  wp (walkMemory ndebug enablePs64 gpu root ap Clone (Some infos) None) Q w.
Proof.
  intros Hwf Hreq (p & Hl & Hg & Hlv & _ & ->) Hnd Hmr HQ.
  destruct (vr_address _ _ _ Hreq) as (Ha & Hs & Hov).
  destruct (pageSizeOk_pos _ (vr_pageSize _ _ _ Hreq)) as [Hpos _].
  destruct (Z.eqb_spec (size ap) 0) as [Hz|Hnz].
  { unfold walkMemory. rewrite (proj2 (Z.eqb_eq _ _)) by done. rewrite Hz in Hmr.
    destruct (mapRange_inv _ _ _ _ _ _ _ _ Hmr) as [(_ & _ & ->)|(? & ? & _ & ? & _)]; [|lia].
    apply wp_ret, (HQ w []); [by apply walked_refl|done|apply walkedTree_refl|done]. }
  eapply wp_walkSetup; [done|done|done|]. intros call Hr <- Hm Hinf Hlv' Hrs Hsl Hps Hbank.
  eapply wp_cloneLoop; [|done|done|exact Hinf|exact Hl|done|done|done|exact Hsl|lia|lia|lia| |exact Hbank| | |].
  - destruct Hwf as [H1 H2]. by split.
  - intros _. by apply pagesLeft_fuel.
  - exact Hnd.
  - rewrite Hrs, drop_0. exact Hmr.
  - intros w' es Hw Ht Hwt Hnd'. rewrite Hps in Hw. apply (HQ w' es); [by apply walked_reset|done|done|done].
Qed.

(** A reservation with the tree specification it implements. *)
Lemma wp_walkReserve w root ap n (Q : unit -> WalkState A -> Prop) :
  wfW w -> validRequest w root ap -> rootOk n (heapOf w) root -> NoDup (nodes n (heapOf w) root) ->
  (forall w' es, walked gpu (walkPs64 enablePs64 gpu w root ap) w w' es ->
     concat (map entryBytes es) = map (translate n (heapOf w') root) (seqZ (gfxAddress ap) (size ap)) ->
     mapRange n (requestedSize gpu ap) (additionalParams ap) (tree n (heapOf w) root) (gfxAddress ap) (size ap) es
       = Some (tree n (heapOf w') root) ->
     walkedTree n root (heapOf w) (heapOf w') -> NoDup (nodes n (heapOf w') root) -> Q tt w') ->
  wp (walkMemory ndebug enablePs64 gpu root ap Reserve None None) Q w.
Proof.
  intros Hwf Hreq Hroot Hnd HQ. pose proof Hroot as (p & Hl & _ & Hlv & Hn & Hnn).
  assert (Hlev : levelsOf w root = n) by (unfold levelsOf; rewrite Hl; lia).
  eapply wp_walkMemory; [done|done|]. intros w' es Hw Hb Htm. rewrite Hlev in *.
  destruct (Htm Hnd) as [Hmr Hwt]. apply (HQ w' es); [done|done|done|done|].
  pose proof Hwt as (_ & (new & -> & Hfr) & _). eapply NoDup_fresh; [done| |exact Hfr].
  intros x. apply nodes_closed; [apply wf_linkedOk, Hwf|by eexists].
Qed.

(** C4: a reservation refines the tree specification: on a well-formed root
    whose tables share no object it terminates without error, and the tree of
    the root afterwards is what the pure function [mapRange] computes from the
    tree before and the recorded page information; a root apart from it keeps
    its tree. *)
Theorem walkMemory_refines_mapRange w root ap n qs :
  wfW w -> validRequest w root ap -> root ∈ qs -> forest n (heapOf w) qs ->
  exists w' es, walkMemory ndebug enablePs64 gpu root ap Reserve None None w = Ok (tt, w')
    /\ entries (walker w') = entries (walker w) ++ es
    /\ mapRange n (requestedSize gpu ap) (additionalParams ap) (tree n (heapOf w) root)
         (gfxAddress ap) (size ap) es = Some (tree n (heapOf w') root)
    /\ forest n (heapOf w') qs
    /\ forall q, q ∈ qs -> q <> root -> tree n (heapOf w') q = tree n (heapOf w) q.
Proof.
  intros Hwf Hreq Hin Hfo.
  enough (Hwp : wp (walkMemory ndebug enablePs64 gpu root ap Reserve None None)
    (fun _ w' => exists es, entries (walker w') = entries (walker w) ++ es
      /\ mapRange n (requestedSize gpu ap) (additionalParams ap) (tree n (heapOf w) root)
           (gfxAddress ap) (size ap) es = Some (tree n (heapOf w') root)
      /\ forest n (heapOf w') qs
      /\ forall q, q ∈ qs -> q <> root -> tree n (heapOf w') q = tree n (heapOf w) q) w).
  { destruct (wp_run _ _ _ Hwp) as ([] & w' & Hrun & es & H). by exists w', es. }
  eapply wp_walkReserve; [done|done|by eapply fo_root|by eapply fo_nodup|].
  intros w' es Hw _ Hmr Hwt Hnd. exists es. split; [exact (proj2 Hw)|]. split; [done|].
  eapply forest_walked; [apply wf_linkedOk, Hwf|by eapply walked_ext|done|done|done|done].
Qed.
End Walks.

(** ** The memory operations *)

(** The request at another root of the forest, later. *)
Lemma validRequest_root {A} `{AllocatorLaws A} (w w' : WalkState A) root root' ap n :
  validRequest w root ap -> rootOk n (heapOf w') root' -> validRequest w' root' ap.
Proof.
  intros [_ H1 H2 H3 H4 H5] (p & Hp & Hg & Hlv & Hn & _). split; try done. by exists p.
Qed.

Section Devices.
Context {A : Type} `{!PhysicalAddressAllocator A} `{!AllocatorLaws A}.
Variable ndebug : bool.
Variable enablePs64 : bool.
Variable gpu : GpuOps.

#[local] Abbreviation State := (StreamState A Trace).
Implicit Types s : State.

Lemma cleared_unchanged l s s' x : cleared l s s' -> unchanged (heap (tables s)) (heap (tables s')) x.
Proof.
  intros (_ & _ & Hx & Hback & _) q Hq. destruct (Hx x q Hq) as (q' & Hq' & _ & _).
  destruct (Hback x q' Hq') as (q0 & Hq0 & Hst & Ht & _). assert (q0 = q) as -> by congruence.
  by exists q'.
Qed.

(** The state between two clones: the devices of [dn] have the new tree, the
    others the old one; [tr] was sent. *)
Record mirroring (n : nat) (qs : list loc) (t t' : Tree) (tr : Trace) (dn : list loc) s : Prop := {
  mi_wf : wf (tables s);
  mi_forest : forest n (heap (tables s)) qs;
  mi_done : forall q, q ∈ qs -> q ∈ dn -> tree n (heap (tables s)) q = t';
  mi_todo : forall q, q ∈ qs -> q ∉ dn -> tree n (heap (tables s)) q = t;
  mi_sent : exists post, sink s = tr ++ post
}.

(** A walk of [q] that made the new tree, and the writing of its entries. *)
Lemma mirroring_step n qs t t' tr dn s0 w' es l s' b q more :
  mirroring n qs t t' tr dn s0 -> q ∈ qs ->
  walked gpu b (walkStart (tables s0)) w' es ->
  walkedTree n q (heap (tables s0)) (heapOf w') -> NoDup (nodes n (heapOf w') q) ->
  tree n (heapOf w') q = t' -> cleared l (mkStreamState (store w') (sink s')) s' ->
  sink s' = sink s0 ++ more ->
  mirroring n qs t t' tr (dn ++ [q]) s'.
Proof.
  intros [Hwf Hfo Hdn Htd [post Hpost]] Hq Hw Hwt Hnd Ht Hcl Hsink.
  destruct (forest_walked n _ _ qs q (wf_linkedOk _ Hwf) (walked_ext _ _ _ _ _ Hw) Hfo Hq Hwt Hnd)
    as [Hfo1 Hoth].
  destruct (walked_wf _ _ _ _ _ Hw) as [Hwf1 _].
  destruct (forest_unchanged n _ (heap (tables s')) qs (wf_linkedOk _ Hwf1)) as [Hfo2 Ht2];
    [apply Hcl|intros x; exact (cleared_unchanged _ _ _ x Hcl)|done|].
  change (heap (store w')) with (heapOf w') in *.
  split; [apply Hcl|done| | |exists (post ++ more); by rewrite Hsink, Hpost, app_assoc].
  - intros q' Hqs. rewrite elem_of_app, list_elem_of_singleton, Ht2 by done.
    destruct (decide (q' = q)) as [->|Hne]; [done|]. intros [Hin|?]; [|done].
    rewrite Hoth by done. by apply Hdn.
  - intros q' Hqs. rewrite elem_of_app, list_elem_of_singleton, Ht2 by done. intros Hn.
    rewrite Hoth by tauto. apply Htd; tauto.
Qed.

Lemma wp_cloneMemory n qs t t' tr dn q es ap (Q : unit -> State -> Prop) s :
  mirroring n qs t t' tr dn s -> q ∈ qs -> q ∉ dn -> validRequest (walkStart (tables s)) q ap ->
  mapRange n (requestedSize gpu ap) (additionalParams ap) t (gfxAddress ap) (size ap) es = Some t' ->
  (forall s', mirroring n qs t t' tr (dn ++ [q]) s' -> Q tt s') ->
  wp (cloneMemory (Sk := Trace) ndebug enablePs64 gpu q es ap) Q s.
Proof.
  intros Hmi Hq Hdn Hreq Hmr HQ. pose proof Hmi as [Hwf Hfo _ Htd _].
  destruct (fo_root _ _ _ Hfo q Hq) as (p & Hl & _ & Hlv & Hn & _). unfold cloneMemory.
  apply wp_bind, wp_onTables. eapply wp_deref; [exact Hl|].
  apply wp_bind, wp_cassert; [apply Z.ltb_lt; lia|]. rewrite eta_stream. apply wp_bind, wp_runWalk.
  eapply (wp_walkClone ndebug enablePs64 gpu (walkStart (tables s)) q ap es n t');
    [by apply walkStart_wf|done|by eapply fo_root|by eapply fo_nodup| |].
  { change (heapOf _) with (heap (tables s)). by rewrite Htd. }
  intros w es' Hw Ht Hwt Hnd. pose proof (walked_wf _ _ _ _ _ Hw) as (Hwfw & _ & Hno).
  destruct (walked_ext _ _ _ _ _ Hw q p Hl) as (p1 & Hp1 & _).
  apply wp_bind, wp_onTables. eapply wp_deref; [exact Hp1|]. cbn [tables sink].
  apply wp_writePages; [done|exact Hno|]. intros s' Hs' Hcl. apply HQ.
  by eapply mirroring_step.
Qed.

(** C3: the page tables of all devices stay mirrored: when the tables of
    [root] and of the roots to clone into are separate and equal as trees,
    [writeMemoryAndClonePageTables] terminates without error and leaves them
    separate and equal; the data is sent once, with page information whose bytes
    are the physical addresses that every device translates the range to. *)
Theorem writeMemoryAndClonePageTables_mirrors n tb tr root qs a m size banks hint ps :
  wf tb -> validRequest (walkStart tb) root (mkAllocationParams a (Some m) size banks hint ps noParams) ->
  NoDup (root :: qs) -> forest n (heap tb) (root :: qs) ->
  (forall q, q ∈ qs -> tree n (heap tb) q = tree n (heap tb) root) ->
  exists s' es,
    writeMemoryAndClonePageTables ndebug enablePs64 gpu root qs a (Some m) size banks hint ps
      (mkStreamState tb tr) = Ok (tt, s')
    /\ forest n (heap (tables s')) (root :: qs)
    /\ (forall q, q ∈ qs -> tree n (heap (tables s')) q = tree n (heap (tables s')) root)
    /\ WriteDiscontiguousPages m size es hint ∈ sink s'
    /\ forall q, q ∈ root :: qs ->
         concat (map entryBytes es) = map (translate n (heap (tables s')) q) (seqZ a size).
Proof.
  set (ap := mkAllocationParams a (Some m) size banks hint ps noParams). intros Hwf Hreq Hnd Hfo Heq.
  pose (post := fun (_ : unit) (s' : State) => exists es, forest n (heap (tables s')) (root :: qs)
    /\ (forall q, q ∈ qs -> tree n (heap (tables s')) q = tree n (heap (tables s')) root)
    /\ WriteDiscontiguousPages m size es hint ∈ sink s'
    /\ forall q, q ∈ root :: qs ->
         concat (map entryBytes es) = map (translate n (heap (tables s')) q) (seqZ a size)).
  enough (Hwp : wp (writeMemoryAndClonePageTables ndebug enablePs64 gpu root qs a (Some m) size banks hint ps)
    post (mkStreamState tb tr)).
  { destruct (wp_run _ _ _ Hwp) as ([] & s' & Hrun & es & H). by exists s', es. }
  assert (Hrin : root ∈ root :: qs) by by left.
  destruct (fo_root _ _ _ Hfo root Hrin) as (p & Hl & _).
  unfold writeMemoryAndClonePageTables. apply wp_bind, wp_record, wp_bind, wp_runWalk. cbn [tables sink].
  eapply (wp_walkReserve ndebug enablePs64 gpu (walkStart tb) root ap n);
    [by apply walkStart_wf|done|by eapply fo_root|by eapply fo_nodup|].
  intros w es Hw Hb Hmr Hwt Hndr. pose proof (walked_wf _ _ _ _ _ Hw) as (Hwfw & _ & Hno).
  destruct (walked_ext _ _ _ _ _ Hw root p Hl) as (p1 & Hp1 & _).
  assert (He : entries (walker w) = es) by by destruct Hw as [_ ->].
  apply wp_bind, wp_onTables. eapply wp_deref; [exact Hp1|]. cbn [tables sink].
  apply wp_bind, wp_writePages; [done|exact Hno|]. intros s1 Hs1 Hcl1. rewrite He.
  set (t := tree n (heapOf (walkStart tb)) root) in *. set (t' := tree n (heapOf w) root) in *.
  assert (Hmi : mirroring n (root :: qs) t t' (sink s1) ([] ++ [root]) s1).
  { eapply (mirroring_step n _ t t' tr [] (mkStreamState tb tr)) in Hcl1 as [H1 H2 H3 H4 _]; try done.
    - split; try done. exists []. by rewrite app_nil_r.
    - split; try done; [by intros q _ ?%elem_of_nil| |exists []; by rewrite app_nil_r].
      intros q [->|Hq]%elem_of_cons _; [done|by apply Heq].
    - cbn [sink] in Hs1. rewrite Hs1. rewrite <- app_assoc. done. }
  eapply wp_mono; [eapply (wp_mapM_ _ qs (fun seen s => mirroring n (root :: qs) t t' (sink s1) (root :: seen) s))|].
  - exact Hmi.
  - intros l1 q s [l2 Hl2] Hmi2. assert (Hq : q ∈ qs) by (rewrite Hl2, elem_of_app, elem_of_cons; tauto).
    apply NoDup_cons in Hnd as [Hnr Hnq]. rewrite Hl2 in Hnq. apply NoDup_app in Hnq as (_ & Hdis & _).
    eapply wp_cloneMemory; [exact Hmi2|by right| | |exact Hmr|by intros s'].
    + rewrite elem_of_cons. intros [->|Hin]; [done|]. apply (Hdis q Hin). by left.
    + eapply validRequest_root; [exact Hreq|]. eapply fo_root; [apply Hmi2|by right].
  - intros [] s [Hwf2 Hfo2 Hdn _ [more Hsent]]. exists es. split_and!; [done| | |].
    + intros q Hq. rewrite !Hdn; [done|done|by left|by right|by right].
    + rewrite Hsent, Hs1. unfold pagesCalls. rewrite He, !elem_of_app, list_elem_of_singleton. auto.
    + intros q Hq. rewrite Hb. apply map_ext. intros k.
      rewrite (translate_tree n (heapOf w)), (translate_tree n (heap (tables s)));
        [|by apply wf_linkedOk|by eapply fo_root|by apply wf_linkedOk|].
      * by rewrite Hdn.
      * eapply rootOk_ext; [eapply walked_ext, Hw|]. by eapply fo_root.
Qed.
End Devices.

(** ** A concrete configuration

    Two devices with a four-level root each in one local memory bank. *)

Definition exRoots : result (unit * Store Simple.t) :=
  (r1 ← @newRoot _ (SimpleAllocatorOps false) false PML4 true 1;
   r2 ← @newRoot _ (SimpleAllocatorOps false) false PML4 true 1;
   mret tt) exStore.
Definition exDevices : Store Simple.t := match exRoots with Ok (_, s) => s | Err _ => exStore end.

Lemma exDevices_wf : @wf _ (SimpleAllocatorOps false) exLaws exDevices.
Proof.
  enough (H : wp (fun s => (r1 ← @newRoot _ (SimpleAllocatorOps false) false PML4 true 1;
     r2 ← @newRoot _ (SimpleAllocatorOps false) false PML4 true 1; mret tt) s)
     (fun _ s => @wf _ (SimpleAllocatorOps false) exLaws s) exStore).
  { destruct (wp_run _ _ _ H) as ([] & s & Hrun & Hw). unfold exDevices, exRoots. by rewrite Hrun. }
  apply wp_bind, (@wp_newRoot _ (SimpleAllocatorOps false) exLaws);
    [exact exStore_wf|exact (exBank_valid 0 eq_refl)|done|].
  intros r1 s1 [Hw1 _]. apply wp_bind, (@wp_newRoot _ (SimpleAllocatorOps false) exLaws);
    [exact Hw1|exact (exBank_valid 0 eq_refl)|done|].
  intros r2 s2 [Hw2 _]. apply wp_ret. exact Hw2.
Qed.

Lemma exDevices_root q :
  q ∈ [1%positive; 2%positive : loc] -> rootOk 4 (heap exDevices) q.
Proof.
  intros Hq. assert (H : option_map (fun p => (cls p, numLevels p)) (heap exDevices !! q) = Some (PML4, 4)).
  { apply elem_of_cons in Hq as [->|Hq]; [by vm_compute|].
    apply list_elem_of_singleton in Hq as ->. by vm_compute. }
  destruct (heap exDevices !! q) as [p|] eqn:Hp; [|done]. injection H as Hc Hn.
  exists p. rewrite Hc, Hn. split; [exact Hp|]. by split_and!.
Qed.

Lemma exDevices_nodes q : q ∈ [1%positive; 2%positive : loc] -> nodes 4 (heap exDevices) q = [q].
Proof.
  intros [->|Hq]%elem_of_cons; [by vm_compute|].
  apply list_elem_of_singleton in Hq as ->. by vm_compute.
Qed.

Lemma exDevices_forest : forest 4 (heap exDevices) [1%positive; 2%positive : loc].
Proof.
  split; [exact exDevices_root| |].
  - intros q Hq. rewrite exDevices_nodes by done. apply NoDup_singleton.
  - intros q q' x Hq Hq' Hne. rewrite !exDevices_nodes by done.
    intros ->%list_elem_of_singleton. by rewrite list_elem_of_singleton.
Qed.

Lemma exDevices_request :
  @validRequest _ (SimpleAllocatorOps false) exLaws (walkStart exDevices) 1%positive exWrite.
Proof.
  destruct (exDevices_root 1%positive) as (p & Hp & Hg & Hlv & Hn & _); [by left|].
  split; unfold exWrite; cbn [gfxAddress size pageSize memoryBanks]; try lia.
  - exists p. by split_and!.
  - by left.
  - apply exBank_valid.
Qed.

Lemma walkMemory_refines_mapRange_witness :
  exists w' es, @walkMemory _ (SimpleAllocatorOps false) false false exGpu 1%positive exWrite
                  Reserve None None (walkStart exDevices) = Ok (tt, w')
    /\ entries (walker w') = [] ++ es
    /\ mapRange 4 4096 noParams (tree 4 (heap exDevices) 1%positive) 0x10ffc 8 es
       = Some (tree 4 (heapOf w') 1%positive)
    /\ forest 4 (heapOf w') [1%positive; 2%positive]
    /\ forall q, q ∈ [1%positive; 2%positive : loc] -> q <> 1%positive ->
         tree 4 (heapOf w') q = tree 4 (heap exDevices) q.
Proof.
  exact (@walkMemory_refines_mapRange _ (SimpleAllocatorOps false) exLaws false false exGpu
    (walkStart exDevices) 1%positive exWrite 4 [1%positive; 2%positive] (walkStart_wf _ exDevices_wf)
    exDevices_request (list_elem_of_here _ _) exDevices_forest).
Defined.

Lemma writeMemoryAndClonePageTables_mirrors_witness :
  exists s' es,
    @writeMemoryAndClonePageTables _ (SimpleAllocatorOps false) _ TraceStream false false exGpu
      1%positive [2%positive] 0x10ffc (Some exData) 8 1 2 4096 (mkStreamState exDevices []) = Ok (tt, s')
    /\ forest 4 (heap (tables s')) [1%positive; 2%positive]
    /\ (forall q, q ∈ [2%positive : loc] ->
          tree 4 (heap (tables s')) q = tree 4 (heap (tables s')) 1%positive)
    /\ WriteDiscontiguousPages exData 8 es 2 ∈ sink s'
    /\ forall q, q ∈ [1%positive; 2%positive : loc] ->
         concat (map entryBytes es) = map (translate 4 (heap (tables s')) q) (seqZ 0x10ffc 8).
Proof.
  apply (@writeMemoryAndClonePageTables_mirrors _ (SimpleAllocatorOps false) exLaws false false exGpu 4
    exDevices [] 1%positive [2%positive] 0x10ffc exData 8 1 2 4096 exDevices_wf exDevices_request).
  - apply NoDup_cons. split; [by rewrite list_elem_of_singleton|apply NoDup_singleton].
  - exact exDevices_forest.
  - intros q ->%list_elem_of_singleton. by vm_compute.
Defined.
