(* ===== verification/CommandStreamer.v ===== *)
(** * Command streamers

    [command_streamer_helper.h] and [command_streamer_helper.cpp], with the
    submission functions of the families ([command_streamer_helper_gen12lp.h],
    [command_streamer_helper_xe_core.h], [command_streamer_helper_xe_hpg_core.h],
    [command_streamer_helper_xe3p_core.h]): the logical ring context image, the
    ring commands and the context descriptors of an engine. The dynamic class of
    a helper is its engine class and its family; the engine's MMIO table, data of
    the per-family files, is a member. *)

From S2P Require Import Prelude Allocator MemoryBanks PageTable Walker AubPackets AubStream.
#[local] Open Scope Z_scope.

(** ** Engines *)

Module EngineType.
Definition ENGINE_RCS : Z := 0.
Definition ENGINE_BCS : Z := 1.
Definition ENGINE_VCS : Z := 2.
Definition ENGINE_VECS : Z := 3.
Definition ENGINE_CCS : Z := 4.
Definition ENGINE_CCS1 : Z := 5.
Definition ENGINE_CCS2 : Z := 6.
Definition ENGINE_CCS3 : Z := 7.
Definition ENGINE_CCCS : Z := 8.
Definition ENGINE_BCS1 : Z := 9.
Definition ENGINE_BCS2 : Z := 10.
Definition ENGINE_BCS3 : Z := 11.
Definition ENGINE_BCS4 : Z := 12.
Definition ENGINE_BCS5 : Z := 13.
Definition ENGINE_BCS6 : Z := 14.
Definition ENGINE_BCS7 : Z := 15.
Definition ENGINE_BCS8 : Z := 16.
Definition NUM_ENGINES : Z := 17.
End EngineType.

Definition ccsEngineOffset (engineId : Z) : Z :=
  if engineId <=? 2 then u32 (0x018000 + u32 (engineId * 0x2000))
  else if engineId =? 3 then 0x024000
  else u32 (-1).

Definition bcsLinkEngineOffset (engineId : Z) : Z :=
  if (1 <=? engineId) && (engineId <=? 8) then u32 (0x3DC000 + u32 (engineId * 0x2000))
  else u32 (-1).

(** The engine classes, and the class template of the family around them. *)
Inductive EngineClass :=
| Rcs | Bcs | Vcs | Vecs
| Ccs (engineId : Z)
| Cccs
| LinkBcs (engineId : Z).

Inductive CsFamily := Gen12LP | XeHpgCore | XeCore | Xe3pCore.
#[export] Instance CsFamily_eq_dec : EqDecision CsFamily.
Proof. solve_decision. Defined.

Record CommandStreamerHelper := mkHelper {
  engineClass : EngineClass;
  family : CsFamily;
  mmioEngine : Z;
  sizeLRCA : Z;
  aubHintLRCA : Z;
  aubHintCommandBuffer : Z;
  aubHintBatchBuffer : Z;
  engineType : Z;
  getEngineMMIO : list (Z * Z);
  (* globalSettings *)
  ExeclistSubmitPortSubmission : Z;
  IndirectRingState : Z
}.

(** ** The engine classes

    What the constructor of each engine class sets over the members' initializers
    of [CommandStreamerHelper], and its [addFlushCommands]. The member [name] is a
    label that no code reads. *)

Record EngineTraits := mkTraits {
  traitOffset : Z;
  traitSizeLRCA : Z;
  traitHintLRCA : Z;
  traitHintCommandBuffer : Z;
  traitHintBatchBuffer : Z;
  traitEngineType : Z
}.

(** Two pipe controls; the bits of the second dword of each. *)
Definition pipeControls (header flush invalidate : Z) : list Z :=
  [header; flush; 0; 0; 0; 0; header; invalidate; 0; 0; 0; 0].

(** [MI_FLUSH_DW], of the engines without a pipe control. *)
Definition miFlushDw : list Z := [0x13000003; 0; 0; 0; 0].

Module CommandStreamerHelperRcs.
Definition traits : EngineTraits :=
  mkTraits 0x000000 0x11000 DataTypeHintValues.TraceLogicalRingContextRcs
    DataTypeHintValues.TraceCommandBufferPrimary DataTypeHintValues.TraceBatchBufferPrimary
    EngineType.ENGINE_RCS.

Definition addFlushCommands : list Z :=
  pipeControls 0x7a000004
    (toBitValue [20; 12; 5; 9; 0]) (toBitValue [20; 9; 2; 3; 4; 5; 10; 11; 29]).
End CommandStreamerHelperRcs.

Module CommandStreamerHelperBcs.
Definition traits : EngineTraits :=
  mkTraits 0x020000 0x2000 DataTypeHintValues.TraceLogicalRingContextBcs
    DataTypeHintValues.TraceCommandBufferBlt DataTypeHintValues.TraceBatchBufferBlt
    EngineType.ENGINE_BCS.

Definition addFlushCommands : list Z := miFlushDw.
End CommandStreamerHelperBcs.

Module CommandStreamerHelperVcs.
Definition traits : EngineTraits :=
  mkTraits 0x1be000 0x2000 DataTypeHintValues.TraceLogicalRingContextVcs
    DataTypeHintValues.TraceCommandBufferMfx DataTypeHintValues.TraceBatchBufferMfx
    EngineType.ENGINE_VCS.

Definition addFlushCommands : list Z := miFlushDw.
End CommandStreamerHelperVcs.

Module CommandStreamerHelperVecs.
Definition traits : EngineTraits :=
  mkTraits 0x1c6000 0x2000 DataTypeHintValues.TraceLogicalRingContextVecs
    DataTypeHintValues.TraceCommandBuffer DataTypeHintValues.TraceBatchBuffer
    EngineType.ENGINE_VECS.

Definition addFlushCommands : list Z := miFlushDw.
End CommandStreamerHelperVecs.

Module CommandStreamerHelperCcs.
Definition traits (engineId : Z) : EngineTraits :=
  mkTraits (ccsEngineOffset engineId) 0x2000 DataTypeHintValues.TraceLogicalRingContextCcs
    DataTypeHintValues.TraceCommandBuffer DataTypeHintValues.TraceBatchBuffer
    (u32 (EngineType.ENGINE_CCS + engineId)).

Definition addFlushCommands : list Z :=
  pipeControls 0x7a000004 (toBitValue [20; 5; 9]) (toBitValue [20; 9; 2; 3; 5; 10; 11; 29]).
End CommandStreamerHelperCcs.

(** The class derived from the render engine's. *)
Module CommandStreamerHelperCccs.
Definition traits : EngineTraits :=
  let base := CommandStreamerHelperRcs.traits in
  mkTraits (traitOffset base) (traitSizeLRCA base) (traitHintLRCA base)
    (traitHintCommandBuffer base) (traitHintBatchBuffer base) EngineType.ENGINE_CCCS.
End CommandStreamerHelperCccs.

Module CommandStreamerHelperLinkBcs.
Definition traits (engineId : Z) : EngineTraits :=
  mkTraits (bcsLinkEngineOffset engineId) 0x2000 DataTypeHintValues.TraceLogicalRingContextBcs
    DataTypeHintValues.TraceCommandBufferBlt DataTypeHintValues.TraceBatchBufferBlt
    (u32 (u32 (EngineType.ENGINE_BCS1 + engineId) - 1)).

Definition addFlushCommands : list Z := miFlushDw.
End CommandStreamerHelperLinkBcs.

(** The specializations of [addFlushCommands] of the class template of Xe3p: the
    compute engine has its own, the others call their engine class's. *)
Module CommandStreamerHelperXe3pCore.
Definition addFlushCommands (c : EngineClass) : list Z :=
  match c with
  | Cccs | Rcs => CommandStreamerHelperRcs.addFlushCommands
  | Bcs => CommandStreamerHelperBcs.addFlushCommands
  | LinkBcs _ => CommandStreamerHelperLinkBcs.addFlushCommands
  | Vcs => CommandStreamerHelperVcs.addFlushCommands
  | Vecs => CommandStreamerHelperVecs.addFlushCommands
  | Ccs _ => pipeControls 0x7a001004 (toBitValue [5; 9]) (toBitValue [9; 2; 3; 5; 10; 11; 29])
  end.
End CommandStreamerHelperXe3pCore.

Definition engineTraits (c : EngineClass) : EngineTraits :=
  match c with
  | Rcs => CommandStreamerHelperRcs.traits
  | Bcs => CommandStreamerHelperBcs.traits
  | Vcs => CommandStreamerHelperVcs.traits
  | Vecs => CommandStreamerHelperVecs.traits
  | Ccs engineId => CommandStreamerHelperCcs.traits engineId
  | Cccs => CommandStreamerHelperCccs.traits
  | LinkBcs engineId => CommandStreamerHelperLinkBcs.traits engineId
  end.

Definition offsetEngine (c : EngineClass) : Z := traitOffset (engineTraits c).

(** The constructor of the base class with the derived class's initialization. *)
Definition newHelper (f : CsFamily) (c : EngineClass) (deviceIndex : Z) (mmio : list (Z * Z))
    (submitPort indirectRing : Z) : CommandStreamerHelper :=
  let mmioDevice := u32 (deviceIndex * 0x1000000) in
  let t := engineTraits c in
  mkHelper c f (u32 (mmioDevice + offsetEngine c)) (traitSizeLRCA t) (traitHintLRCA t)
    (traitHintCommandBuffer t) (traitHintBatchBuffer t) (traitEngineType t) mmio
    submitPort indirectRing.

(** ** Layout of the ring context *)

Definition sizeofDword : Z := 4.
Definition offsetContext : Z := 0x1000.
Definition offsetLRI0 : Z := 0x01 * sizeofDword.
Definition numRegsLRI0 : Z := 14.
Definition numNoops0 : Z := 3.
Definition offsetLRI1 : Z := offsetLRI0 + (1 + numRegsLRI0 * 2 + numNoops0) * sizeofDword.
Definition numRegsLRI1 : Z := 9.
Definition numNoops1 : Z := 13.
Definition offsetLRI2 : Z := offsetLRI1 + (1 + numRegsLRI1 * 2 + numNoops1) * sizeofDword.
Definition numRegsLRI2 : Z := 1.
Definition offsetRingRegisters : Z := offsetLRI0 + 3 * sizeofDword.
Definition offsetRingHead : Z := 0x0 * sizeofDword.
Definition offsetRingTail : Z := 0x2 * sizeofDword.
Definition offsetRingBase : Z := 0x4 * sizeofDword.
Definition offsetRingCtrl : Z := 0x6 * sizeofDword.
Definition offsetBbCurrentHeadReg : Z := 0x8 * sizeofDword.
Definition offsetPageTableRegisters : Z := offsetLRI1 + 3 * sizeofDword.
Definition offsetPDP0 : Z := 0xc * sizeofDword.
Definition offsetPDP1 : Z := 0x8 * sizeofDword.
Definition offsetPDP2 : Z := 0x4 * sizeofDword.
Definition offsetPDP3 : Z := 0x0 * sizeofDword.

(** ** Writing the images

    The images are byte arrays the code accesses as arrays of [uint32_t], at
    offsets that are multiples of four: a [Buffer] is the list of its dwords. *)

Definition Buffer := list Z.

(** [*p++ = v; ...] from a byte offset. *)
Definition storeDwords (offset : Z) (vs : list Z) : M Buffer unit :=
  fun buf =>
    let i := Z.to_nat (offset / sizeofDword) in
    if (0 <=? offset) && (i + length vs <=? length buf)%nat
    then Ok (tt, take i buf ++ map (wrap 32) vs ++ drop (i + length vs) buf)
    else Err OutOfBounds.

(** The bytes of [size] bytes from an offset, as [writeMemory] reads them. *)
Definition bufferBytes (offset size : Z) (buf : Buffer) : list Z :=
  concat (map (leBytes 4) (take (Z.to_nat (size / sizeofDword))
                             (drop (Z.to_nat (offset / sizeofDword)) buf))).

(** ** Virtual functions of the families *)

Section Helper.
Variable ndebug : bool.
Variable gpu : GpuOps.
Variable cs : CommandStreamerHelper.

Definition isRingDataEnabled : bool :=
  match family cs with
  | Xe3pCore => if negb (IndirectRingState cs =? -1) then negb (IndirectRingState cs =? 0) else true
  | _ => false
  end.

Definition isExeclistSubmissionEnabled : bool :=
  let chosen (default : bool) :=
    if negb (ExeclistSubmitPortSubmission cs =? -1)
    then negb (ExeclistSubmitPortSubmission cs =? 0) else default in
  match family cs with
  | XeHpgCore => chosen false
  | Xe3pCore => chosen true
  | Gen12LP | XeCore => false
  end.

Definition indirectRingStateEnable : Z := Z.lor (Z.shiftl (Z.shiftl 1 4) 16) (Z.shiftl 1 4).

Definition getInitialContextSaveRestoreCtrlValue : Z :=
  let value := 0x00090009 in
  if isRingDataEnabled then Z.lor value indirectRingStateEnable else value.

Definition getRingContextSaveRestoreCtrlValue : Z :=
  let value := 0x00090008 in
  if isRingDataEnabled then Z.lor value indirectRingStateEnable else value.

Definition getPollForCompletionMask : Z := 0x00008000.

Definition memoryBasedPollForCompletion : bool := false.

Definition getRingDataOffset : Z :=
  match family cs with Xe3pCore => 2 * sizeofDword | _ => 0 end.

Definition getHintForInRingCtx : Z :=
  match family cs with
  | Xe3pCore =>
      if engineType cs =? EngineType.ENGINE_RCS
      then DataTypeHintValues.TraceIndirectRingContextRcs
      else if engineType cs =? EngineType.ENGINE_BCS
      then DataTypeHintValues.TraceIndirectRingContextBcs
      else if engineType cs =? EngineType.ENGINE_VCS
      then DataTypeHintValues.TraceIndirectRingContextVcs
      else if engineType cs =? EngineType.ENGINE_VECS
      then DataTypeHintValues.TraceIndirectRingContextVecs
      else if engineType cs =? EngineType.ENGINE_CCS
      then DataTypeHintValues.TraceIndirectRingContextCcs
      else 0
  | _ => 0
  end.

(** ** Memory support *)

(** [pageSize == Page2MB::pageSize2MB ? 65536 : pageSize == 65536 ? 4096 : 65536]. *)
Definition getSupportedPageSize {St} (memoryBank pageSize : Z) : M St Z :=
  if negb (isMemorySupported gpu memoryBank (u32 pageSize)) then
    let pageSize := if pageSize =? pageSize2MB then 65536
                    else if pageSize =? 65536 then 4096 else 65536 in
    cassert ndebug (isMemorySupported gpu memoryBank (u32 pageSize)) ≫= fun _ =>
    mret pageSize
  else mret pageSize.

(** ** The ring registers of the logical ring context *)

Definition setRingTail (ringTail : Z) : M Buffer unit :=
  storeDwords (offsetContext + offsetRingRegisters + offsetRingTail)
    [u32 (mmioEngine cs + 0x2030); ringTail].

Definition setRingHead (ringHead : Z) : M Buffer unit :=
  storeDwords (offsetContext + offsetRingRegisters + offsetRingHead)
    [u32 (mmioEngine cs + 0x2034); ringHead].

Definition setRingBase (ringBase : Z) : M Buffer unit :=
  storeDwords (offsetContext + offsetRingRegisters + offsetRingBase)
    [u32 (mmioEngine cs + 0x2038); ringBase].

Definition setRingCtrl (ringCtrl : Z) : M Buffer unit :=
  storeDwords (offsetContext + offsetRingRegisters + offsetRingCtrl)
    [u32 (mmioEngine cs + 0x203c); ringCtrl].

Definition setBbCurrentHeadReg : M Buffer unit :=
  storeDwords (offsetContext + offsetRingRegisters + offsetBbCurrentHeadReg)
    [u32 (mmioEngine cs + 0x2168); 0; u32 (mmioEngine cs + 0x2140); 0].

Definition setPDP0 (address : Z) : M Buffer unit :=
  storeDwords (offsetContext + offsetPageTableRegisters + offsetPDP0)
    [u32 (mmioEngine cs + 0x2274); Z.shiftr address 32;
     u32 (mmioEngine cs + 0x2270); Z.land address 0xffffffff].

Definition setPDP1 (address : Z) : M Buffer unit :=
  storeDwords (offsetContext + offsetPageTableRegisters + offsetPDP1)
    [u32 (mmioEngine cs + 0x227c); Z.shiftr address 32;
     u32 (mmioEngine cs + 0x2278); Z.land address 0xffffffff].

Definition setPDP2 (address : Z) : M Buffer unit :=
  storeDwords (offsetContext + offsetPageTableRegisters + offsetPDP2)
    [u32 (mmioEngine cs + 0x2284); Z.shiftr address 32;
     u32 (mmioEngine cs + 0x2280); Z.land address 0xffffffff].

Definition setPDP3 (address : Z) : M Buffer unit :=
  storeDwords (offsetContext + offsetPageTableRegisters + offsetPDP3)
    [u32 (mmioEngine cs + 0x228c); Z.shiftr address 32;
     u32 (mmioEngine cs + 0x2288); Z.land address 0xffffffff].

Definition setPML (address : Z) : M Buffer unit := setPDP0 address.

(** ** initialize *)

(** What [initialize] reads of the page table. *)
Inductive PageDirectories :=
| NoPpgtt
| Pml (address : Z)
| Pdps (pdp0 pdp1 pdp2 pdp3 : Z).

Definition pageDirectories {A} (ppgtt : option loc) : M (Store A) PageDirectories :=
  match ppgtt with
  | None => mret NoPpgtt
  | Some l =>
      p ← deref l;
      if 48 <=? numAddressBits p then mret (Pml (physicalAddress p))
      else
        let child i := (c ← getChild l i;
          cassert ndebug (bool_decide (is_Some c)) ≫= fun _ =>
          pc ← derefPtr c; mret (physicalAddress pc)) in
        p0 ← child 0; p1 ← child 1; p2 ← child 2; p3 ← child 3;
        mret (Pdps p0 p1 p2 p3)
  end.

(** A load of [numRegs] registers, all with the same value. *)
Definition loadRegisters (header reg value : Z) (numRegs : Z) : list Z :=
  Z.lor header (2 * numRegs - 1)
  :: concat (replicate (Z.to_nat numRegs) [u32 (mmioEngine cs + reg); value]).

(** [memset] by the loop over the dwords. *)
Definition clearBuffer (sizeInBytes : Z) : M Buffer unit :=
  storeDwords 0 (replicate (Z.to_nat (sizeInBytes / sizeofDword)) 0).

(** The part of [initialize] after the loop that clears the image. *)
Definition initializeRegisters (dirs : PageDirectories) (flags : Z) : M Buffer unit :=
  let value := Z.lor getInitialContextSaveRestoreCtrlValue flags in
  storeDwords (offsetContext + offsetLRI0)
    (loadRegisters 0x11001000 0x2244 value numRegsLRI0) ≫= fun _ =>
  cassert ndebug (offsetLRI1 =? 0x21 * sizeofDword) ≫= fun _ =>
  storeDwords (offsetContext + offsetLRI1)
    (loadRegisters 0x11001000 0x20d8 0x00200020 numRegsLRI1) ≫= fun _ =>
  cassert ndebug (offsetLRI2 =? 0x41 * sizeofDword) ≫= fun _ =>
  storeDwords (offsetContext + offsetLRI2)
    (loadRegisters 0x11000000 0x2094 0x00000000 numRegsLRI2) ≫= fun _ =>
  setRingHead 0 ≫= fun _ =>
  setRingTail 0 ≫= fun _ =>
  setRingBase 0 ≫= fun _ =>
  setRingCtrl 0 ≫= fun _ =>
  setBbCurrentHeadReg ≫= fun _ =>
  match dirs with
  | NoPpgtt => setPDP0 0 ≫= fun _ => setPDP1 0 ≫= fun _ => setPDP2 0 ≫= fun _ => setPDP3 0
  | Pml address => setPML address
  | Pdps p0 p1 p2 p3 =>
      setPDP0 p0 ≫= fun _ => setPDP1 p1 ≫= fun _ => setPDP2 p2 ≫= fun _ => setPDP3 p3
  end.

Definition initialize (dirs : PageDirectories) (flags : Z) : M Buffer unit :=
  clearBuffer (sizeLRCA cs) ≫= fun _ => initializeRegisters dirs flags.

(** ** The indirect ring state (Xe3p) *)

(** The write to the logical ring context. *)
Definition setIndirectRingState (ringData : Z) : M Buffer unit :=
  when isRingDataEnabled
    (storeDwords (offsetContext + offsetLRI1 + 5 * sizeofDword)
       [u32 (mmioEngine cs + 0x2108); ringData]).

(** The writes to the ring state, when the family has one. *)
Definition initializeRingState (sizeRingData ggttRing ringCtrl : Z) : M Buffer unit :=
  clearBuffer sizeRingData ≫= fun _ =>
  let numRegs := 5 in
  storeDwords (1 * sizeofDword)
    (Z.lor 0x11001000 (2 * numRegs - 1) :: replicate 10 0) ≫= fun _ =>
  let pLRI := 2 * sizeofDword in
  storeDwords (pLRI + offsetRingHead) [u32 (mmioEngine cs + 0x2034); 0] ≫= fun _ =>
  storeDwords (pLRI + offsetRingTail) [u32 (mmioEngine cs + 0x2030); 0] ≫= fun _ =>
  storeDwords (pLRI + offsetRingBase)
    [u32 (mmioEngine cs + 0x2038); ggttRing; u32 (mmioEngine cs + 0x2048); 0] ≫= fun _ =>
  storeDwords (pLRI + offsetRingCtrl + 2 * sizeofDword)
    [u32 (mmioEngine cs + 0x203c); ringCtrl] ≫= fun _ =>
  storeDwords (17 * sizeofDword) [Z.lor 0x11001000 (2 * 9 - 1)].

Definition setRingDataHead (ringHead : Z) : M Buffer unit :=
  match family cs with
  | Xe3pCore => storeDwords (getRingDataOffset + offsetRingHead)
                  [u32 (mmioEngine cs + 0x2034); ringHead]
  | _ => mret tt
  end.

Definition setRingDataTail (ringTail : Z) : M Buffer unit :=
  match family cs with
  | Xe3pCore => storeDwords (getRingDataOffset + offsetRingTail)
                  [u32 (mmioEngine cs + 0x2030); ringTail]
  | _ => mret tt
  end.

(** ** Ring commands *)

Definition addBatchBufferJump (gfxAddress : Z) : list Z :=
  [0x11000001; u32 (mmioEngine cs + 0x2244); getRingContextSaveRestoreCtrlValue;
   0x18800101; u32 gfxAddress; u32 (Z.shiftr (u64 gfxAddress) 32)].

(** The override the dynamic class selects. *)
Definition addFlushCommands : list Z :=
  match family cs, engineClass cs with
  | Xe3pCore, c => CommandStreamerHelperXe3pCore.addFlushCommands c
  | _, (Rcs | Cccs) => CommandStreamerHelperRcs.addFlushCommands
  | _, Bcs => CommandStreamerHelperBcs.addFlushCommands
  | _, Vcs => CommandStreamerHelperVcs.addFlushCommands
  | _, Vecs => CommandStreamerHelperVecs.addFlushCommands
  | _, Ccs _ => CommandStreamerHelperCcs.addFlushCommands
  | _, LinkBcs _ => CommandStreamerHelperLinkBcs.addFlushCommands
  end.

Definition storeFenceValue (gfxAddress fenceValue : Z) : list Z :=
  [0x10400002; u32 gfxAddress; 0; fenceValue].
End Helper.

(** ** Context descriptors *)

Module MiContextDescriptorReg.
Record t := mk {
  Valid : Z; ForcePageDirRestore : Z; ForceRestore : Z; Legacy : Z;
  ADor64bitSupport : Z; LlcCoherencySupport : Z; FaultSupport : Z;
  PrivilegeAccessOrPPGTT : Z; FunctionType : Z; LogicalRingCtxAddress : Z;
  Reserved : Z; ContextID : Z; Reserved2 : Z
}.
Definition fields (d : t) : list (Z * Z) :=
  [(1, Valid d); (1, ForcePageDirRestore d); (1, ForceRestore d); (1, Legacy d);
   (1, ADor64bitSupport d); (1, LlcCoherencySupport d); (2, FaultSupport d);
   (1, PrivilegeAccessOrPPGTT d); (3, FunctionType d); (20, LogicalRingCtxAddress d);
   (7, Reserved d); (16, ContextID d); (9, Reserved2 d)].
Definition zero : t := mk 0 0 0 0 0 0 0 0 0 0 0 0 0.
(** [ulData[0]] and [ulData[1]] of the union. *)
Definition ulData0 (d : t) : Z := u32 (packBits (fields d)).
Definition ulData1 (d : t) : Z := u32 (Z.shiftr (packBits (fields d)) 32).
End MiContextDescriptorReg.

Import MiContextDescriptorReg (ulData0, ulData1).

(** [setPriority]: the base class leaves the descriptor as it is. *)
Definition setPriority (cs : CommandStreamerHelper) (d : MiContextDescriptorReg.t) (priority : Z)
    : MiContextDescriptorReg.t :=
  match family cs with
  | XeCore | Xe3pCore =>
      if negb (priority =? 0) then
        MiContextDescriptorReg.mk
          (MiContextDescriptorReg.Valid d) (MiContextDescriptorReg.ForcePageDirRestore d)
          (MiContextDescriptorReg.ForceRestore d) (MiContextDescriptorReg.Legacy d)
          (MiContextDescriptorReg.ADor64bitSupport d)
          (MiContextDescriptorReg.LlcCoherencySupport d)
          (MiContextDescriptorReg.FaultSupport d)
          (MiContextDescriptorReg.PrivilegeAccessOrPPGTT d) (Z.land priority 0x3)
          (MiContextDescriptorReg.LogicalRingCtxAddress d) (MiContextDescriptorReg.Reserved d)
          (MiContextDescriptorReg.ContextID d) (MiContextDescriptorReg.Reserved2 d)
      else d
  | Gen12LP | XeHpgCore => d
  end.

(** The descriptor both [submit] functions fill in for a context. *)
Definition contextDescriptor (cs : CommandStreamerHelper) (ggttLRCA : Z) (is48Bits : bool)
    (contextId priority : Z) : MiContextDescriptorReg.t :=
  setPriority cs
    (MiContextDescriptorReg.mk 1 0 0 1 (Z.b2z is48Bits) 0 0 1 0 (ggttLRCA / 4096) 0 contextId 0)
    priority.

Section Submission.
Context {Sk : Type} `{!Stream Sk}.
Variable ndebug : bool.
Variable cs : CommandStreamerHelper.

Definition writeMMIO32 (offset value : Z) : M Sk unit := writeMMIO offset value 0xffffffff.

Definition initializeEngineMMIO : M Sk unit :=
  mapM_ (fun mmioPair => writeMMIO32 mmioPair.1 mmioPair.2) (getEngineMMIO cs).

Definition pollForCompletion : M Sk unit :=
  registerPoll (u32 (mmioEngine cs + 0x2234)) getPollForCompletionMask getPollForCompletionMask
    false CmdServicesMemTraceRegisterPoll.TimeoutActionValues.Abort.

(** The loop over the eight registers of the exec list. *)
Definition writeExecList (descriptors : list MiContextDescriptorReg.t) : M Sk unit :=
  mapM_ (fun i =>
    d ← from_option_M OutOfBounds (descriptors !! i);
    writeMMIO32 (u32 (mmioEngine cs + 0x2510 + Z.of_nat i * 8)) (ulData0 d) ≫= fun _ =>
    writeMMIO32 (u32 (mmioEngine cs + 0x2514 + Z.of_nat i * 8)) (ulData1 d)) (seq 0 8).

(** The loop over the submission port. *)
Definition writeSubmitPort (descriptors : list MiContextDescriptorReg.t) : M Sk unit :=
  mapM_ (fun d =>
    writeMMIO32 (u32 (mmioEngine cs + 0x2230)) (ulData0 d) ≫= fun _ =>
    writeMMIO32 (u32 (mmioEngine cs + 0x2230)) (ulData1 d)) descriptors.

Definition submitContext (descriptors : list MiContextDescriptorReg.t) : M Sk unit :=
  (match family cs with
   | Gen12LP | XeCore =>
       cassert ndebug (length descriptors <=? 8)%nat ≫= fun _ => writeExecList descriptors
   | XeHpgCore =>
       cassert ndebug (length descriptors <=? 8)%nat ≫= fun _ =>
       if negb (isExeclistSubmissionEnabled cs) then writeExecList descriptors
       else writeSubmitPort descriptors
   | Xe3pCore =>
       if negb (isExeclistSubmissionEnabled cs) then writeExecList descriptors
       else
         cassert ndebug (length descriptors <=? 64)%nat ≫= fun _ => writeSubmitPort descriptors
   end) ≫= fun _ =>
  writeMMIO32 (u32 (mmioEngine cs + 0x2550)) 1.

(** [submit(stream, ggttLRCA, is48Bits, contextId, priority)]. *)
Definition submit (ggttLRCA : Z) (is48Bits : bool) (contextId priority : Z) : M Sk unit :=
  submitContext (contextDescriptor cs ggttLRCA is48Bits contextId priority
                 :: replicate 7 MiContextDescriptorReg.zero).

(** [submit(stream, hwContexts, is48Bits)]; a context is given by its
    [ggttLRCA], [contextId] and [priority]. *)
Definition submitGroup (hwContexts : list (option (Z * Z * Z))) (is48Bits : bool) : M Sk unit :=
  submitContext (map (fun c =>
    match c with
    | None => MiContextDescriptorReg.zero
    | Some (ggttLRCA, contextId, priority) =>
        contextDescriptor cs ggttLRCA is48Bits contextId priority
    end) hwContexts).
End Submission.
