(* ===== verification/ContextImage.v ===== *)
(** * The ring context image and the context descriptors

    What a command streamer writes, as the hardware reads it: the context image is
    a sequence of register loads at fixed places, a descriptor is a bit-field, a
    submission is a sequence of register writes. *)

From S2P Require Import Prelude Allocator MemoryBanks PageTable Walker AubPackets AubStream.
From S2P Require Import CommandStreamer.
#[local] Open Scope Z_scope.

(** ** Buffers *)

(** [vs] stored from dword [i] on. *)
Definition storeAt (i : nat) (vs : list Z) (b : Buffer) : Buffer :=
  take i b ++ map (wrap 32) vs ++ drop (i + length vs) b.

Lemma storeDwords_run i vs b :
  (i + length vs <= length b)%nat ->
  storeDwords (4 * Z.of_nat i) vs b = Ok (tt, storeAt i vs b).
Proof.
  intros Hl. unfold storeDwords, sizeofDword.
  rewrite (Z.mul_comm 4), Z.div_mul, Nat2Z.id by lia.
  by rewrite (proj2 (Z.leb_le 0 _)), (proj2 (Nat.leb_le _ _)) by lia.
Qed.

Lemma length_storeAt i vs b : (i + length vs <= length b)%nat -> length (storeAt i vs b) = length b.
Proof.
  intros Hl. unfold storeAt. rewrite !length_app, length_take, length_map, length_drop. lia.
Qed.

(** The dwords stored. *)
Lemma storeAt_segment i vs b :
  (i + length vs <= length b)%nat ->
  take (length vs) (drop i (storeAt i vs b)) = map (wrap 32) vs.
Proof.
  intros Hl. unfold storeAt. rewrite drop_app_length' by (rewrite length_take; lia).
  by rewrite take_app_length' by by rewrite length_map.
Qed.

(** Two stores next to each other. *)
Lemma storeAt_adjacent i vs ws b :
  (i + length vs + length ws <= length b)%nat ->
  storeAt (i + length vs) ws (storeAt i vs b) = storeAt i (vs ++ ws) b.
Proof.
  intros Hl. unfold storeAt. rewrite map_app, length_app.
  set (p := take i b). assert (Hp : length p = i) by (unfold p; rewrite length_take; lia).
  rewrite (app_assoc p). rewrite take_app_length' by (rewrite length_app, length_map; lia).
  rewrite <- !app_assoc. do 3 f_equal. rewrite app_assoc, drop_app_ge
    by (rewrite length_app, length_map; lia).
  rewrite drop_drop, length_app, length_map. f_equal. lia.
Qed.

Lemma bufferBytes_storeAt i vs b :
  (i + length vs <= length b)%nat ->
  bufferBytes (4 * Z.of_nat i) (4 * Z.of_nat (length vs)) (storeAt i vs b)
  = concat (map (leBytes 4) (map (wrap 32) vs)).
Proof.
  intros Hl. unfold bufferBytes, sizeofDword.
  rewrite !(Z.mul_comm 4), !Z.div_mul, !Nat2Z.id by lia. by rewrite storeAt_segment.
Qed.

(** A buffer operation that works the same in front of more memory. *)
Definition extends (m : M Buffer unit) : Prop :=
  forall l1 l1' l2, m l1 = Ok (tt, l1') -> m (l1 ++ l2) = Ok (tt, l1' ++ l2).

Lemma extends_ret : extends (mret tt).
Proof. by intros l1 l1' l2 [= <-]. Qed.

Lemma extends_bind m k : extends m -> extends k -> extends (m ≫= fun _ => k).
Proof.
  intros Hm Hk l1 l1' l2 ([] & l & H1 & H2)%bind_Ok.
  unfold mbind, M_bind. rewrite (Hm _ _ l2 H1). by apply Hk.
Qed.

Lemma extends_cassert n b : extends (cassert n b).
Proof. unfold cassert. destruct (n || b); [apply extends_ret|by intros ???]. Qed.

Lemma extends_store o vs : extends (storeDwords o vs).
Proof.
  intros l1 l1' l2. unfold storeDwords. set (i := Z.to_nat _).
  destruct (_ && _) eqn:Hc; [|done]. intros [= <-].
  apply andb_true_iff in Hc as [Ho Hl%Nat.leb_le]. rewrite Ho.
  rewrite (proj2 (Nat.leb_le _ _)) by (rewrite length_app; lia). cbn [andb]. do 2 f_equal.
  rewrite take_app_le, drop_app_le, <- !app_assoc by lia. done.
Qed.

(** ** The image as the hardware reads it *)

Fixpoint registerPairs (n : nat) (l : list Z) : list (Z * Z) :=
  match n, l with
  | S n', r :: v :: l' => (r, v) :: registerPairs n' l'
  | _, _ => []
  end.

(** [MI_LOAD_REGISTER_IMM] at dword [i]: opcode 0x22 in the top bits, twice the
    number of registers less one in the low byte, then the pairs. *)
Definition readLoadRegisters (b : Buffer) (i : nat) : option (list (Z * Z)) :=
  match drop i b with
  | header :: rest =>
      let n := Z.to_nat ((Z.land header 0xff + 1) / 2) in
      if (Z.shiftr header 23 =? 0x22) && (2 * n <=? length rest)%nat
      then Some (registerPairs n rest) else None
  | [] => None
  end.

Section Image.
Variable cs : CommandStreamerHelper.

Definition engineRegister (offset : Z) : Z := u32 (mmioEngine cs + offset).

(** The three loads of the image. *)
Definition ringLoad (saveRestoreCtrl head tail base ctrl : Z) : list (Z * Z) :=
  (engineRegister 0x2244, u32 saveRestoreCtrl)
  :: [(engineRegister 0x2034, u32 head); (engineRegister 0x2030, u32 tail);
      (engineRegister 0x2038, u32 base); (engineRegister 0x203c, u32 ctrl);
      (engineRegister 0x2168, 0); (engineRegister 0x2140, 0)]
  ++ replicate 7 (engineRegister 0x2244, u32 saveRestoreCtrl).

Definition debugMode : Z * Z := (engineRegister 0x20d8, 0x00200020).

Definition pointerPair (upper address : Z) : list (Z * Z) :=
  [(engineRegister (upper + 4), u32 (Z.shiftr address 32));
   (engineRegister upper, u32 (Z.land address 0xffffffff))].

Definition pageTableLoad (dirs : PageDirectories) : list (Z * Z) :=
  debugMode
  :: match dirs with
     | NoPpgtt => pointerPair 0x2288 0 ++ pointerPair 0x2280 0 ++ pointerPair 0x2278 0
                  ++ pointerPair 0x2270 0
     | Pml a => replicate 6 debugMode ++ pointerPair 0x2270 a
     | Pdps p0 p1 p2 p3 => pointerPair 0x2288 p3 ++ pointerPair 0x2280 p2
                           ++ pointerPair 0x2278 p1 ++ pointerPair 0x2270 p0
     end.

(** What [initialize] of a context does to the image. *)
Definition initializeImage (ndebug : bool) (dirs : PageDirectories) (flags ring ctrl : Z)
    : M Buffer unit :=
  initialize ndebug cs dirs flags ≫= fun _ =>
  setRingHead cs 0 ≫= fun _ =>
  setRingTail cs 0 ≫= fun _ =>
  setRingBase cs ring ≫= fun _ =>
  setRingCtrl cs ctrl.


Lemma extends_when b m : extends m -> extends (when b m).
Proof. destruct b; [done|]. intros _. apply extends_ret. Qed.

Ltac extends_steps :=
  repeat (intros; first [apply extends_ret | apply extends_store | apply extends_cassert
    | apply extends_bind | apply extends_when | case_match | progress cbv zeta]).

Lemma clearBuffer_run size b :
  0 <= size -> length b = Z.to_nat (size / 4) ->
  clearBuffer size b = Ok (tt, replicate (length b) 0).
Proof.
  intros Hs Hl. unfold clearBuffer. change 0 with (4 * Z.of_nat 0) at 1.
  unfold sizeofDword. rewrite <- Hl, storeDwords_run by (rewrite length_replicate; lia).
  unfold storeAt. rewrite length_replicate, take_0, drop_ge, app_nil_r by lia. cbn [app].
  do 2 f_equal. clear. induction (length b) as [|n IH]; [done|]. cbn. by rewrite IH.
Qed.

Lemma extends_registers ndebug dirs flags ring ctrl :
  extends (initializeRegisters ndebug cs dirs flags ≫= fun _ => setRingHead cs 0 ≫= fun _ =>
           setRingTail cs 0 ≫= fun _ => setRingBase cs ring ≫= fun _ => setRingCtrl cs ctrl).
Proof. unfold initializeRegisters. extends_steps. Qed.
End Image.

(** The smallest image of the engines: two pages. *)
Definition smallImage : Buffer := replicate 2048 0.

(** Evaluates the words of literals. *)
Ltac closed_wraps :=
  repeat match goal with
  | |- context [wrap 32 (Zpos ?p)] =>
      let v := eval vm_compute in (wrap 32 (Zpos p)) in change (wrap 32 (Zpos p)) with v
  | |- context [wrap 32 0] => change (wrap 32 0) with 0
  end.

Lemma registers_small cs ndebug dirs flags ring ctrl :
  exists l,
    (initializeRegisters ndebug cs dirs flags ≫= fun _ => setRingHead cs 0 ≫= fun _ =>
     setRingTail cs 0 ≫= fun _ => setRingBase cs ring ≫= fun _ => setRingCtrl cs ctrl) smallImage
    = Ok (tt, l)
    /\ length l = 2048%nat
    /\ readLoadRegisters l 0x401
       = Some (ringLoad cs (Z.lor (getInitialContextSaveRestoreCtrlValue cs) flags) 0 0 ring ctrl)
    /\ readLoadRegisters l 0x421 = Some (pageTableLoad cs dirs)
    /\ readLoadRegisters l 0x441 = Some [(engineRegister cs 0x2094, 0)].
Proof.
  unfold initializeRegisters, loadRegisters, setRingHead, setRingTail, setRingBase, setRingCtrl,
    setBbCurrentHeadReg, setPML, setPDP0, setPDP1, setPDP2, setPDP3, ringLoad, pageTableLoad,
    pointerPair, debugMode.
  set (value := Z.lor (getInitialContextSaveRestoreCtrlValue cs) flags). clearbody value.
  repeat match goal with
    |- context [u32 (mmioEngine cs + ?k)] => change (u32 (mmioEngine cs + k)) with (engineRegister cs k)
  end.
  assert (Hr : forall k, u32 (engineRegister cs k) = engineRegister cs k)
    by (intros k; apply wrap_wrap; lia).
  revert Hr. generalize (engineRegister cs). intros r Hr.
  destruct dirs as [|a|p0 p1 p2 p3];
    [|generalize (Z.shiftr a 32) (Z.land a 0xffffffff); intros
     |generalize (Z.shiftr p0 32) (Z.land p0 0xffffffff) (Z.shiftr p1 32) (Z.land p1 0xffffffff)
        (Z.shiftr p2 32) (Z.land p2 0xffffffff) (Z.shiftr p3 32) (Z.land p3 0xffffffff); intros].
  all: destruct ndebug.
  all: eexists; split; [cbv -[wrap]; closed_wraps; reflexivity|].
  all: split_and!; [reflexivity|..]; cbv -[wrap]; closed_wraps; rewrite ?Hr; reflexivity.
Qed.

Lemma registerPairs_app n : forall l l2, (2 * n <= length l)%nat ->
  registerPairs n (l ++ l2) = registerPairs n l.
Proof.
  induction n as [|n IH]; intros l l2 Hl; [by destruct (l ++ l2), l|].
  destruct l as [|r [|v l]]; cbn in *; [lia|lia|]. rewrite IH by lia. done.
Qed.

Lemma readLoadRegisters_app l l2 i r :
  readLoadRegisters l i = Some r -> readLoadRegisters (l ++ l2) i = Some r.
Proof.
  unfold readLoadRegisters. destruct (decide (i <= length l)%nat) as [Hi|Hi].
  2: { by rewrite (drop_ge l) by lia. }
  rewrite drop_app_le by done. destruct (drop i l) as [|h rest]; [done|]. cbn [app]. cbv zeta.
  destruct (_ && _) eqn:Hc; [|done]. apply andb_true_iff in Hc as [Hh Hl%Nat.leb_le].
  rewrite Hh, (proj2 (Nat.leb_le _ _)) by (rewrite length_app; lia).
  by rewrite registerPairs_app.
Qed.

Lemma length_registerPairs n : forall l, (2 * n <= length l)%nat -> length (registerPairs n l) = n.
Proof.
  induction n as [|n IH]; intros l Hl; [done|].
  destruct l as [|r [|v l]]; cbn in *; [lia|lia|]. rewrite IH; lia.
Qed.

(** A store behind the registers of a load. *)
Lemma readLoadRegisters_storeAt b i r j vs :
  readLoadRegisters b i = Some r -> (i + 1 + 2 * length r <= j <= length b)%nat ->
  readLoadRegisters (storeAt j vs b) i = Some r.
Proof.
  unfold readLoadRegisters, storeAt. intros H Hj.
  rewrite drop_app_le by (rewrite length_take; lia). replace j with (i + (j - i))%nat at 1 by lia.
  rewrite <- take_drop_commute. destruct (drop i b) as [|h rest] eqn:Hd; [done|]. cbv zeta in *.
  destruct (_ && _) eqn:Hc in H; [|done]. injection H as <-.
  apply andb_true_iff in Hc as [Hh Hl%Nat.leb_le]. rewrite length_registerPairs in Hj by done.
  set (n := Z.to_nat _) in *. destruct (j - i)%nat as [|k] eqn:Hk; [lia|]. cbn [take app].
  fold n. assert (Hk2 : (2 * n <= length (take k rest))%nat) by (rewrite length_take; lia).
  rewrite Hh, (proj2 (Nat.leb_le _ _)) by (rewrite length_app; lia). cbn [andb]. f_equal.
  rewrite registerPairs_app by done. rewrite <- (registerPairs_app n _ (drop k rest)) by done.
  by rewrite take_drop.
Qed.

Lemma initializeImage_run cs ndebug dirs flags ring ctrl b :
  0x2000 <= sizeLRCA cs -> length b = Z.to_nat (sizeLRCA cs / 4) ->
  exists b', initializeImage cs ndebug dirs flags ring ctrl b = Ok (tt, b')
    /\ length b' = length b
    /\ readLoadRegisters b' 0x401
       = Some (ringLoad cs (Z.lor (getInitialContextSaveRestoreCtrlValue cs) flags) 0 0 ring ctrl)
    /\ readLoadRegisters b' 0x421 = Some (pageTableLoad cs dirs)
    /\ readLoadRegisters b' 0x441 = Some [(engineRegister cs 0x2094, 0)].
Proof.
  intros Hs Hl. destruct (registers_small cs ndebug dirs flags ring ctrl)
    as (l & Hrun & Hlen & H1 & H2 & H3).
  assert (Hb : (2048 <= length b)%nat)
    by (rewrite Hl; change 2048%nat with (Z.to_nat 2048); apply Z2Nat.inj_le;
        [lia|apply Z.div_pos; lia|apply Z.div_le_lower_bound; lia]).
  exists (l ++ replicate (length b - 2048) 0). split_and!.
  - apply (extends_registers _ _ _ _ _ _ _ _ (replicate (length b - 2048) 0)) in Hrun.
    unfold initializeImage, initialize, mbind, M_bind in *.
    rewrite clearBuffer_run by (lia || done). unfold smallImage in Hrun.
    rewrite <- replicate_add in Hrun. replace (2048 + (length b - 2048))%nat with (length b) in Hrun by lia.
    exact Hrun.
  - rewrite length_app, length_replicate, Hlen. lia.
  - by apply readLoadRegisters_app.
  - by apply readLoadRegisters_app.
  - by apply readLoadRegisters_app.
Qed.

(** The ring state of an engine with indirect ring state: one load of the head,
    the tail, the base and the control register. *)
Definition ringStateLoad (cs : CommandStreamerHelper) (head tail base ctrl : Z) : list (Z * Z) :=
  [(engineRegister cs 0x2034, u32 head); (engineRegister cs 0x2030, u32 tail);
   (engineRegister cs 0x2038, u32 base); (engineRegister cs 0x2048, 0);
   (engineRegister cs 0x203c, u32 ctrl)].

Lemma initializeRingState_run cs ring ctrl :
  exists d, initializeRingState cs 4096 ring ctrl (replicate 1024 0) = Ok (tt, d)
    /\ length d = 1024%nat /\ readLoadRegisters d 1 = Some (ringStateLoad cs 0 0 ring ctrl).
Proof.
  unfold initializeRingState, ringStateLoad.
  repeat match goal with
    |- context [u32 (mmioEngine cs + ?k)] => change (u32 (mmioEngine cs + k)) with (engineRegister cs k)
  end.
  assert (Hr : forall k, u32 (engineRegister cs k) = engineRegister cs k)
    by (intros k; apply wrap_wrap; lia).
  revert Hr. generalize (engineRegister cs). intros r Hr.
  eexists; split; [cbv -[wrap]; closed_wraps; reflexivity|].
  split_and!; [reflexivity|]. cbv -[wrap]; closed_wraps; rewrite ?Hr; reflexivity.
Qed.

(** C21: The image a context starts with, on any engine and for any earlier contents of
    the buffer, is three register loads at the places the hardware expects them:
    save/restore control, ring head, tail, base and control; then the page
    directory pointers the page table has (one for a 48-bit or wider table, four
    for a 32-bit one); then the no-op id. *)
Theorem initialize_image_loads cs ndebug dirs flags ring ctrl b :
  0x2000 <= sizeLRCA cs -> length b = Z.to_nat (sizeLRCA cs / 4) ->
  exists b', initializeImage cs ndebug dirs flags ring ctrl b = Ok (tt, b')
    /\ readLoadRegisters b' 0x401
       = Some (ringLoad cs (Z.lor (getInitialContextSaveRestoreCtrlValue cs) flags) 0 0 ring ctrl)
    /\ readLoadRegisters b' 0x421 = Some (pageTableLoad cs dirs)
    /\ readLoadRegisters b' 0x441 = Some [(engineRegister cs 0x2094, 0)].
Proof.
  intros Hs Hl. destruct (initializeImage_run cs ndebug dirs flags ring ctrl b Hs Hl)
    as (b' & H & _ & Hr). by exists b'.
Qed.

Definition exVcs : CommandStreamerHelper := newHelper Xe3pCore Vcs 1 [] (-1) (-1).

Definition exGarbage : Buffer := replicate 2048 0xcd.

Lemma initialize_image_loads_witness :
  exists b', initializeImage exVcs false (Pml 0x123456000) 0 0x40000 0x3001 exGarbage
             = Ok (tt, b')
    /\ exists l, readLoadRegisters b' 0x401 = Some l /\ l !! 3%nat = Some (0x11c0038, 0x40000).
Proof.
  destruct (initialize_image_loads exVcs false (Pml 0x123456000) 0 0x40000 0x3001
    exGarbage) as (b' & H1 & H2 & _).
  - vm_compute. discriminate.
  - reflexivity.
  - exists b'. split; [exact H1|]. eexists. split; [exact H2|]. reflexivity.
Defined.

(** ** Submissions *)

(** The writes of [submitContext] for eight descriptors. *)
Definition writeMMIOCall (offset value : Z) : StreamCall := WriteMMIO offset value 0xffffffff.

Definition execListCalls (cs : CommandStreamerHelper) (ds : list MiContextDescriptorReg.t)
    : list StreamCall :=
  concat (map (fun p : nat * MiContextDescriptorReg.t =>
    [writeMMIOCall (u32 (mmioEngine cs + 0x2510 + Z.of_nat p.1 * 8))
       (MiContextDescriptorReg.ulData0 p.2);
     writeMMIOCall (u32 (mmioEngine cs + 0x2514 + Z.of_nat p.1 * 8))
       (MiContextDescriptorReg.ulData1 p.2)]) (zip (seq 0 8) ds)).

Definition submitPortCalls (cs : CommandStreamerHelper) (ds : list MiContextDescriptorReg.t)
    : list StreamCall :=
  concat (map (fun d =>
    [writeMMIOCall (engineRegister cs 0x2230) (MiContextDescriptorReg.ulData0 d);
     writeMMIOCall (engineRegister cs 0x2230) (MiContextDescriptorReg.ulData1 d)]) ds).

Definition submissionCalls (cs : CommandStreamerHelper) (ds : list MiContextDescriptorReg.t)
    : list StreamCall :=
  (if isExeclistSubmissionEnabled cs then submitPortCalls cs ds else execListCalls cs ds)
  ++ [writeMMIOCall (engineRegister cs 0x2550) 1].

Lemma writeExecList_run cs ds (t : Trace) :
  length ds = 8%nat -> writeExecList cs ds t = Ok (tt, t ++ execListCalls cs ds).
Proof.
  intros Hl. do 9 (destruct ds as [|? ds]; [try discriminate Hl|]); [|discriminate Hl].
  unfold writeExecList, execListCalls. cbn [seq mapM_ zip zip_with map concat app fst snd].
  unfold writeMMIO32, writeMMIOCall. cbn. unfold mbind, M_bind, mret, M_ret, record, modify. cbn.
  rewrite <- !app_assoc. done.
Qed.

Lemma writeSubmitPort_run cs ds : forall t : Trace,
  writeSubmitPort cs ds t = Ok (tt, t ++ submitPortCalls cs ds).
Proof.
  unfold writeSubmitPort, submitPortCalls.
  induction ds as [|d ds IH]; intros t; [cbn; by rewrite app_nil_r|]. cbn [mapM_ map concat].
  unfold mbind, M_bind, writeMMIO32, writeMMIOCall in *. cbn in *. rewrite IH.
  by rewrite <- !app_assoc.
Qed.

Lemma submitContext_run ndebug cs ds (t : Trace) :
  length ds = 8%nat -> submitContext ndebug cs ds t = Ok (tt, t ++ submissionCalls cs ds).
Proof.
  intros Hl. unfold submitContext, submissionCalls.
  assert (Hc : forall n, (8 <= n)%nat -> cassert (St := Trace) ndebug (length ds <=? n)%nat = mret tt)
    by (intros n Hn; unfold cassert; rewrite Hl, (proj2 (Nat.leb_le _ _)), orb_true_r by done; done).
  assert (Hf : family cs = Gen12LP \/ family cs = XeCore -> isExeclistSubmissionEnabled cs = false)
    by (unfold isExeclistSubmissionEnabled; by intros [-> | ->]).
  unfold mbind, M_bind. unfold mret, M_ret in Hc.
  destruct (family cs); try rewrite Hf by auto; rewrite ?Hc by lia;
    try (destruct (isExeclistSubmissionEnabled cs); cbn [negb]; rewrite ?Hc by lia);
    rewrite ?writeExecList_run, ?writeSubmitPort_run by done; unfold writeMMIO32; cbn [writeMMIO TraceStream]; unfold record, modify;
    by rewrite <- ?app_assoc.
Qed.

(** ** Descriptors *)

(** The fields the hardware reads from the two dwords. *)
Definition descriptorWidths : list Z := [1; 1; 1; 1; 1; 1; 2; 1; 3; 20; 7; 16; 9].
Definition readDescriptor (lo hi : Z) : list Z := unpackBits descriptorWidths (lo + 2 ^ 32 * hi).

Lemma descriptor_words d :
  MiContextDescriptorReg.ulData0 d + 2 ^ 32 * MiContextDescriptorReg.ulData1 d
  = packBits (MiContextDescriptorReg.fields d).
Proof.
  unfold MiContextDescriptorReg.ulData0, MiContextDescriptorReg.ulData1.
  pose proof (packBits_range (MiContextDescriptorReg.fields d)
    ltac:(repeat constructor; discriminate)) as Hr.
  change (sumZ (map fst (MiContextDescriptorReg.fields d))) with 64 in Hr.
  set (x := packBits _) in *. rewrite Z.shiftr_div_pow2 by lia.
  rewrite (wrap_small 32 (x / 2 ^ 32)).
  - unfold wrap. pose proof (Z.div_mod x (2 ^ 32)). lia.
  - split; [apply Z.div_pos; lia|apply Z.div_lt_upper_bound; lia].
Qed.

Lemma readDescriptor_fields d :
  readDescriptor (MiContextDescriptorReg.ulData0 d) (MiContextDescriptorReg.ulData1 d)
  = map (fun f => wrap f.1 f.2) (MiContextDescriptorReg.fields d).
Proof.
  unfold readDescriptor. rewrite descriptor_words.
  apply (unpack_pack (MiContextDescriptorReg.fields d)). repeat constructor; discriminate.
Qed.

(** The upper dword from bit 7 on: the context id, then the reserved bits. *)
Lemma descriptor_contextId d :
  Z.shiftr (MiContextDescriptorReg.ulData1 d) 7
  = wrap 16 (MiContextDescriptorReg.ContextID d)
    + 2 ^ 16 * wrap 9 (MiContextDescriptorReg.Reserved2 d).
Proof.
  unfold MiContextDescriptorReg.ulData1.
  set (low := firstn 11 (MiContextDescriptorReg.fields d)).
  assert (Hp : packBits (MiContextDescriptorReg.fields d)
    = packBits low + 2 ^ 39 * (wrap 16 (MiContextDescriptorReg.ContextID d)
        + 2 ^ 16 * wrap 9 (MiContextDescriptorReg.Reserved2 d))).
  { rewrite <- (take_drop 11 (MiContextDescriptorReg.fields d)). fold low.
    rewrite packBits_app by (repeat constructor; discriminate).
    change (sumZ (map fst low)) with 39. do 2 f_equal. cbn [drop MiContextDescriptorReg.fields packBits fst snd]. lia. }
  pose proof (packBits_range low ltac:(repeat constructor; discriminate)) as Hr.
  change (sumZ (map fst low)) with 39 in Hr.
  pose proof (wrap_range 16 (MiContextDescriptorReg.ContextID d)) as H16.
  pose proof (wrap_range 9 (MiContextDescriptorReg.Reserved2 d)) as H9.
  unfold in_width in H16, H9. set (v := wrap 16 _ + _) in *.
  assert (Hv : 0 <= v < 2 ^ 25) by (unfold v; lia).
  rewrite Hp, !Z.shiftr_div_pow2 by lia.
  rewrite wrap_small by (unfold in_width; split; [apply Z.div_pos|apply Z.div_lt_upper_bound]; lia).
  rewrite Z.div_div by lia. change (2 ^ 32 * 2 ^ 7) with (2 ^ 39).
  rewrite (Z.mul_comm (2 ^ 39)), Z.div_add, Z.div_small by lia. lia.
Qed.

Lemma contextDescriptor_id cs lrca is48 id prio :
  MiContextDescriptorReg.ContextID (contextDescriptor cs lrca is48 id prio) = id
  /\ MiContextDescriptorReg.Reserved2 (contextDescriptor cs lrca is48 id prio) = 0.
Proof. unfold contextDescriptor, setPriority. destruct (family cs), (prio =? 0); done. Qed.

(** C22: The descriptor of a submission read back: valid, legacy submission, the page of
    the image, the width of the page tables, the context id without its upper
    sixteen bits, and on the families that have priorities the priority without
    its upper bits. *)
Theorem descriptor_reads_back cs lrca is48 id prio :
  in_width 32 lrca ->
  let d := contextDescriptor cs lrca is48 id prio in
  readDescriptor (MiContextDescriptorReg.ulData0 d) (MiContextDescriptorReg.ulData1 d)
  = [1; 0; 0; 1; Z.b2z is48; 0; 0; 1;
     match family cs with XeCore | Xe3pCore => prio mod 4 | _ => 0 end;
     lrca / 4096; 0; u16 id; 0].
Proof.
  intros Hl d. rewrite readDescriptor_fields. unfold d, contextDescriptor.
  assert (H1 : wrap 20 (lrca / 4096) = lrca / 4096).
  { apply wrap_small. unfold in_width in *.
    split; [apply Z.div_pos; lia|apply Z.div_lt_upper_bound; lia]. }
  assert (H2 : wrap 3 (Z.land prio 3) = prio mod 4).
  { change 3 with (Z.ones 2) at 2. rewrite Z.land_ones by lia. change (2 ^ 2) with 4.
    apply wrap_small. pose proof (Z.mod_pos_bound prio 4). unfold in_width. lia. }
  unfold setPriority. destruct (Z.eqb_spec prio 0) as [->|Hp], (family cs); cbn [negb];
    cbn [MiContextDescriptorReg.fields map fst snd MiContextDescriptorReg.Valid
      MiContextDescriptorReg.ForcePageDirRestore MiContextDescriptorReg.ForceRestore
      MiContextDescriptorReg.Legacy MiContextDescriptorReg.ADor64bitSupport
      MiContextDescriptorReg.LlcCoherencySupport MiContextDescriptorReg.FaultSupport
      MiContextDescriptorReg.PrivilegeAccessOrPPGTT MiContextDescriptorReg.FunctionType
      MiContextDescriptorReg.LogicalRingCtxAddress MiContextDescriptorReg.Reserved
      MiContextDescriptorReg.ContextID MiContextDescriptorReg.Reserved2];
    rewrite ?H1, ?H2; by destruct is48.
Qed.

Lemma descriptor_reads_back_witness :
  in_width 32 0x40000
  /\ readDescriptor
       (MiContextDescriptorReg.ulData0 (contextDescriptor exVcs 0x40000 true 0x10007 2))
       (MiContextDescriptorReg.ulData1 (contextDescriptor exVcs 0x40000 true 0x10007 2))
     = [1; 0; 0; 1; 1; 0; 0; 1; 2; 0x40; 0; 7; 0].
Proof.
  assert (H : in_width 32 0x40000) by (vm_compute; split; [discriminate|reflexivity]).
  split; [exact H|]. exact (descriptor_reads_back exVcs 0x40000 true 0x10007 2 H).
Defined.
