(* ===== verification/HardwareContext.v ===== *)
(** * Hardware contexts

    [hardware_context_imp.h] and [hardware_context_imp.cpp]. Contexts, context
    groups and the global tables are shared objects: contexts live in a heap of
    their own, so that the pointers a group keeps can dangle; groups and global
    tables are referred to by index. The world also holds the stream, with the
    page tables, and the static counter of context ids. *)

From S2P Require Import Prelude Allocator MemoryBanks PageTable Walker AubPackets AubStream.
From S2P Require Import CommandStreamer.
#[local] Open Scope Z_scope.

Module hardwareContextFlags.
Definition contextGroup : Z := Z.shiftl 1 15.
Definition highPriority : Z := Z.shiftl 1 14.
Definition lowPriority : Z := Z.shiftl 1 13.
Definition runAlone : Z := Z.shiftl 1 0.
End hardwareContextFlags.

Definition priorityLow : Z := 0.
Definition priorityNormal : Z := 1.
Definition priorityHigh : Z := 2.

(** [std::numeric_limits<uint32_t>::max()], "not in a group". *)
Definition noGroup : Z := u32 (-1).

(** ** Objects *)

(** A pointer to an array of the context's own: [delete[]] leaves it dangling
    unless the code resets it. *)
Inductive HostArray :=
| NullPtr
| Live (b : Buffer)
| Freed.

Record ContextGroup := mkGroup {
  contextGroupCounter : Z;
  contexts : list (option nat)
}.

(** The members that operations after the constructor change. *)
Record ContextState := mkState {
  ggttRing : Z;
  ringData : Z;
  pRingData : HostArray;
  ggttLRCA : Z;
  ggttGlobalHWSP : Z;
  pLRCA : HostArray;
  ringTail : Z;
  ggttContextFence : Z;
  contextFenceValue : Z;
  contextGroupId : Z
}.

Record HardwareContextImp := mkContext {
  csTraits : CommandStreamerHelper;
  deviceIndex : Z;
  ggtt : nat;
  ppgtt : loc;
  contextGroup : option nat;
  flags : Z;
  priority : Z;
  runAlone : bool;
  contextId : Z;
  state : ContextState
}.

Definition ringSize : Z := 16384.

Definition set_state (f : ContextState -> ContextState) (c : HardwareContextImp)
    : HardwareContextImp :=
  mkContext (csTraits c) (deviceIndex c) (ggtt c) (ppgtt c) (contextGroup c) (flags c)
    (priority c) (runAlone c) (contextId c) (f (state c)).

Definition set_ggttRing v s := mkState v (ringData s) (pRingData s) (ggttLRCA s)
  (ggttGlobalHWSP s) (pLRCA s) (ringTail s) (ggttContextFence s) (contextFenceValue s)
  (contextGroupId s).
Definition set_ringData v s := mkState (ggttRing s) v (pRingData s) (ggttLRCA s)
  (ggttGlobalHWSP s) (pLRCA s) (ringTail s) (ggttContextFence s) (contextFenceValue s)
  (contextGroupId s).
Definition set_pRingData v s := mkState (ggttRing s) (ringData s) v (ggttLRCA s)
  (ggttGlobalHWSP s) (pLRCA s) (ringTail s) (ggttContextFence s) (contextFenceValue s)
  (contextGroupId s).
Definition set_ggttLRCA v s := mkState (ggttRing s) (ringData s) (pRingData s) v
  (ggttGlobalHWSP s) (pLRCA s) (ringTail s) (ggttContextFence s) (contextFenceValue s)
  (contextGroupId s).
Definition set_ggttGlobalHWSP v s := mkState (ggttRing s) (ringData s) (pRingData s)
  (ggttLRCA s) v (pLRCA s) (ringTail s) (ggttContextFence s) (contextFenceValue s)
  (contextGroupId s).
Definition set_pLRCA v s := mkState (ggttRing s) (ringData s) (pRingData s) (ggttLRCA s)
  (ggttGlobalHWSP s) v (ringTail s) (ggttContextFence s) (contextFenceValue s)
  (contextGroupId s).
Definition set_ringTail v s := mkState (ggttRing s) (ringData s) (pRingData s) (ggttLRCA s)
  (ggttGlobalHWSP s) (pLRCA s) v (ggttContextFence s) (contextFenceValue s) (contextGroupId s).
Definition set_ggttContextFence v s := mkState (ggttRing s) (ringData s) (pRingData s)
  (ggttLRCA s) (ggttGlobalHWSP s) (pLRCA s) (ringTail s) v (contextFenceValue s)
  (contextGroupId s).
Definition set_contextFenceValue v s := mkState (ggttRing s) (ringData s) (pRingData s)
  (ggttLRCA s) (ggttGlobalHWSP s) (pLRCA s) (ringTail s) (ggttContextFence s) v
  (contextGroupId s).
Definition set_contextGroupId v s := mkState (ggttRing s) (ringData s) (pRingData s)
  (ggttLRCA s) (ggttGlobalHWSP s) (pLRCA s) (ringTail s) (ggttContextFence s)
  (contextFenceValue s) v.

Record World (A Sk : Type) := mkWorld {
  stream : StreamState A Sk;
  ggtts : list GGTT;
  groups : gmap nat ContextGroup;
  objects : gmap nat HardwareContextImp;
  globalContextId : Z
}.
Arguments mkWorld {A Sk}.
Arguments stream {A Sk}.
Arguments ggtts {A Sk}.
Arguments groups {A Sk}.
Arguments objects {A Sk}.
Arguments globalContextId {A Sk}.

(** ** Access to the world *)

Section World.
Context {A : Type} `{!PhysicalAddressAllocator A} {Sk : Type} `{!Stream Sk}.

#[local] Abbreviation W := (M (World A Sk)).

Definition onStream {B} (m : M (StreamState A Sk) B) : W B :=
  fun w => match m (stream w) with
           | Ok (b, s) => Ok (b, mkWorld s (ggtts w) (groups w) (objects w) (globalContextId w))
           | Err e => Err e
           end.

Definition getContext (this : nat) : W HardwareContextImp :=
  fun w => match objects w !! this with
           | Some c => Ok (c, w)
           | None => Err UseAfterFree
           end.

Definition setContext (this : nat) (c : HardwareContextImp) : W unit :=
  modify (fun w => mkWorld (stream w) (ggtts w) (groups w) (<[this := c]> (objects w))
                     (globalContextId w)).

Definition updateState (this : nat) (f : ContextState -> ContextState) : W unit :=
  c ← getContext this; setContext this (set_state f c).

Definition getGGTT (i : nat) : W GGTT :=
  fun w => match ggtts w !! i with Some g => Ok (g, w) | None => Err OutOfBounds end.

Definition getGroup (g : option nat) : W ContextGroup :=
  match g with
  | None => fail NullDereference
  | Some i => fun w => match groups w !! i with Some x => Ok (x, w) | None => Err UseAfterFree end
  end.

Definition setGroup (g : option nat) (x : ContextGroup) : W unit :=
  match g with
  | None => fail NullDereference
  | Some i => modify (fun w => mkWorld (stream w) (ggtts w) (<[i := x]> (groups w)) (objects w)
                                 (globalContextId w))
  end.

(** [ggtt.gfxAddressAllocator.alignedAlloc(size, alignment)]. *)
Definition alignedAllocGfx (i : nat) (size alignment : Z) : W Z :=
  g ← getGGTT i;
  let '(a, al) := SimpleAllocator.alignedAlloc 32 size alignment (gfxAddressAllocator g) in
  modify (fun w => mkWorld (stream w)
    (<[i := mkGGTT (ggtt_table g) (entryOffset g) al (gttTableOffset g)]> (ggtts w))
    (groups w) (objects w) (globalContextId w)) ≫= fun _ =>
  mret a.

(** Access through a pointer to an array. *)
Definition onArray (p : HostArray) (m : M Buffer unit) : W HostArray :=
  match p with
  | NullPtr => fail NullDereference
  | Freed => fail UseAfterFree
  | Live b => match m b with Ok (_, b') => mret (Live b') | Err e => fail e end
  end.

Definition deleteArray (p : HostArray) : W HostArray :=
  match p with
  | NullPtr => mret NullPtr
  | Live _ => mret Freed
  | Freed => fail DoubleFree
  end.

(** [new uint8_t[size]]; every user clears the array before it reads it. *)
Definition newArray (size : Z) : HostArray := Live (replicate (Z.to_nat (size / sizeofDword)) 0).

(** The bytes of an array from an offset. *)
Definition arrayBytes (p : HostArray) (offset size : Z) : W (list Z) :=
  match p with
  | NullPtr => fail NullDereference
  | Freed => fail UseAfterFree
  | Live b => mret (bufferBytes offset size b)
  end.
End World.

(** ** HardwareContextImp *)

Module HardwareContextImp.
Section Operations.
Context {A : Type} `{!PhysicalAddressAllocator A} {Sk : Type} `{!Stream Sk}.
Variable ndebug : bool.
Variable enablePs64 : bool.
(* [LogLevel & verbose] *)
Variable verbose : bool.
Variable gpu : GpuOps.
(* the low 32 bits of the address of a context *)
Variable handleOf : nat -> Z.

#[local] Abbreviation W := (M (World A Sk)).

(** The constructor. *)
Definition construct (deviceIndex : Z) (traits : CommandStreamerHelper) (ggttIN : nat)
    (ppgttIN : loc) (contextGroupIn : option nat) (flags priorityIn : Z) : W nat :=
  w ← get;
  let this := fresh (dom (objects w)) in
  let contextId := globalContextId w in
  put (mkWorld (stream w) (ggtts w) (groups w) (objects w) (u32 (contextId + 1))) ≫= fun _ =>
  let unset := fun bits => Z.ldiff flags bits in
  let isSet := fun bits => negb (Z.land flags bits =? 0) in
  let '(priority, thisFlags) :=
    if isSet hardwareContextFlags.highPriority
    then (priorityHigh, unset hardwareContextFlags.highPriority)
    else if isSet hardwareContextFlags.lowPriority
    then (priorityLow, unset hardwareContextFlags.lowPriority)
    else (priorityIn, flags) in
  r ← (if isSet hardwareContextFlags.contextGroup then
         g ← getGroup contextGroupIn;
         cassert ndebug (contextGroupCounter g <? Z.of_nat (length (contexts g))) ≫= fun _ =>
         setGroup contextGroupIn
           (mkGroup (u32 (contextGroupCounter g + 1)) (contexts g)) ≫= fun _ =>
         mret (contextGroupCounter g, unset hardwareContextFlags.contextGroup)
       else mret (noGroup, thisFlags));
  let '(groupId, thisFlags) := r in
  let alone := isSet hardwareContextFlags.runAlone in
  let thisFlags := if alone then unset hardwareContextFlags.runAlone else thisFlags in
  setContext this
    (mkContext traits deviceIndex ggttIN ppgttIN contextGroupIn thisFlags priority alone contextId
       (mkState (u32 (-1)) (u32 (-1)) NullPtr (u32 (-1)) (u32 (-1)) NullPtr 0 0 0 groupId)) ≫= fun _ =>
  mret this.

(** [ggtt.getMemoryBank()]. *)
Definition ggttBank (c : HardwareContextImp) : W Z :=
  g ← getGGTT (ggtt c); p ← onStream (onTables (deref (ggtt_table g))); mret (memoryBank p).

(** The page size of the context's own allocations. *)
Definition contextPageSize (c : HardwareContextImp) : W Z :=
  bank ← ggttBank c; mret (if isMemorySupported gpu bank 65536 then 65536 else 4096).

(** [stream.writeMemory(&ggtt, ..., ggtt.getMemoryBank(), hint, pageSize)]. *)
Definition writeGGTT (c : HardwareContextImp) (gfxAddress : Z) (memory : option (list Z))
    (size hint pageSize : Z) : W unit :=
  bank ← ggttBank c;
  g ← getGGTT (ggtt c);
  onStream (writeMemoryGGTT ndebug g gfxAddress memory size bank hint pageSize) ≫= fun _ =>
  mret tt.

Definition writeMMIO_ (offset value : Z) : W unit := onStream (onSink (writeMMIO32 offset value)).

(** The virtual functions no family overrides. *)
Definition initializeContextEnvironment (this : nat) : W unit := mret tt.
Definition invalidateTLB (contextId : Z) : W unit := mret tt.

(** The reads of the LRCA and of the ring state into the stream. *)
Definition writeArray (c : HardwareContextImp) (p : HostArray) (gfxAddress offset size hint pageSize : Z)
    : W unit :=
  bytes ← arrayBytes p offset size;
  writeGGTT c gfxAddress (Some bytes) size hint pageSize.

Definition updateLRCA (this : nat) (m : M Buffer unit) : W unit :=
  c ← getContext this;
  p ← onArray (pLRCA (state c)) m;
  updateState this (set_pLRCA p).

(** [setRingDataHead] and [setRingDataTail] return when the pointer is null. *)
Definition updateRingData (this : nat) (m : M Buffer unit) : W unit :=
  c ← getContext this;
  match family (csTraits c), pRingData (state c) with
  | Xe3pCore, NullPtr => mret tt
  | Xe3pCore, p => p ← onArray p m; updateState this (set_pRingData p)
  | _, _ => mret tt
  end.

(** [initializeRingData] and the write of the ring state. *)
Definition initializeRing (this : nat) (pageSize ringCtrl : Z) : W unit :=
  c ← getContext this;
  let cs := csTraits c in
  when (isRingDataEnabled cs)
    (let sizeRingData := 4096 in
     a ← alignedAllocGfx (ggtt c) sizeRingData (u32 pageSize);
     updateState this (set_ringData a) ≫= fun _ =>
     updateState this (set_pRingData (newArray sizeRingData)) ≫= fun _ =>
     updateLRCA this (setIndirectRingState cs a) ≫= fun _ =>
     updateRingData this
       (initializeRingState cs sizeRingData (ggttRing (state c)) ringCtrl) ≫= fun _ =>
     c ← getContext this;
     writeArray c (pRingData (state c)) a 0 sizeRingData (getHintForInRingCtx cs) pageSize).

(** [if (this->contextGroupId != max) { ... }] of [initialize]. *)
Definition registerInGroup (this : nat) : W unit :=
  c ← getContext this;
  let id := contextGroupId (state c) in
  when (negb (id =? noGroup))
    (g ← getGroup (contextGroup c);
     slot ← from_option_M OutOfBounds (contexts g !! Z.to_nat id);
     cassert ndebug (bool_decide (slot = None)) ≫= fun _ =>
     setGroup (contextGroup c)
       (mkGroup (contextGroupCounter g) (<[Z.to_nat id := Some this]> (contexts g)))).

Definition initialize (this : nat) : W unit :=
  c ← getContext this;
  match pLRCA (state c) with
  | Live _ | Freed => mret tt
  | NullPtr =>
      let cs := csTraits c in
      pageSize ← contextPageSize c;
      let alignment := u32 pageSize in
      onStream (onSink (initializeEngineMMIO cs)) ≫= fun _ =>
      let sizeHWSP := 4096 in
      hwsp ← alignedAllocGfx (ggtt c) sizeHWSP alignment;
      updateState this (set_ggttGlobalHWSP hwsp) ≫= fun _ =>
      writeGGTT c hwsp None sizeHWSP DataTypeHintValues.TraceNotype pageSize ≫= fun _ =>
      fence ← alignedAllocGfx (ggtt c) sizeHWSP alignment;
      updateState this (set_ggttContextFence fence) ≫= fun _ =>
      writeGGTT c fence (Some (leBytes 4 (contextFenceValue (state c)))) 4
        DataTypeHintValues.TraceNotype pageSize ≫= fun _ =>
      writeMMIO_ (u32 (mmioEngine cs + 0x2080)) hwsp ≫= fun _ =>
      ring ← alignedAllocGfx (ggtt c) ringSize alignment;
      updateState this (set_ggttRing ring) ≫= fun _ =>
      writeGGTT c ring None ringSize DataTypeHintValues.TraceNotype pageSize ≫= fun _ =>
      updateState this (set_pLRCA (newArray (sizeLRCA cs))) ≫= fun _ =>
      let ringCtrl := u32 (Z.lor (ringSize - 0x1000) 1) in
      let additionalBits := if runAlone c then 0x800080 else flags c in
      dirs ← onStream (onTables (pageDirectories ndebug (Some (ppgtt c))));
      updateLRCA this
        (CommandStreamer.initialize ndebug cs dirs additionalBits ≫= fun _ =>
         setRingHead cs 0 ≫= fun _ =>
         setRingTail cs 0 ≫= fun _ =>
         setRingBase cs ring ≫= fun _ =>
         setRingCtrl cs ringCtrl) ≫= fun _ =>
      initializeContextEnvironment this ≫= fun _ =>
      lrca ← alignedAllocGfx (ggtt c) (sizeLRCA cs) alignment;
      updateState this (set_ggttLRCA lrca) ≫= fun _ =>
      initializeRing this pageSize ringCtrl ≫= fun _ =>
      c ← getContext this;
      writeArray c (pLRCA (state c)) lrca 0 (sizeLRCA cs) (aubHintLRCA cs) pageSize ≫= fun _ =>
      onStream (declareContextForDumping (handleOf this) (ppgtt c)) ≫= fun _ =>
      registerInGroup this
  end.

(** The loop of [release] over the contexts of the group. *)
Definition evictContext (group : option nat) (i : nat) : W unit :=
  g ← getGroup group;
  slot ← from_option_M OutOfBounds (contexts g !! i);
  match slot with
  | None => mret tt
  | Some c =>
      updateState c (set_contextGroupId noGroup) ≫= fun _ =>
      setGroup group (mkGroup (contextGroupCounter g) (<[i := None]> (contexts g)))
  end.

Definition leaveGroup (this : nat) : W unit :=
  c ← getContext this;
  let id := contextGroupId (state c) in
  when (negb (id =? noGroup))
    (g ← getGroup (contextGroup c);
     from_option_M OutOfBounds (contexts g !! Z.to_nat id) ≫= fun _ =>
     setGroup (contextGroup c)
       (mkGroup (contextGroupCounter g) (<[Z.to_nat id := None]> (contexts g))) ≫= fun _ =>
     when (id =? 0)
       (mapM_ (evictContext (contextGroup c)) (seq 0 (length (contexts g))) ≫= fun _ =>
        g ← getGroup (contextGroup c);
        setGroup (contextGroup c) (mkGroup 0 (contexts g)))).

Definition release (this : nat) : W unit :=
  c ← getContext this;
  deleteArray (pLRCA (state c)) ≫= fun _ =>
  updateState this (set_pLRCA NullPtr) ≫= fun _ =>
  p ← deleteArray (pRingData (state c));
  updateState this (set_pRingData p) ≫= fun _ =>
  leaveGroup this.

(** [delete context]: the destructor, then the memory. *)
Definition destroy (this : nat) : W unit :=
  release this ≫= fun _ =>
  modify (fun w => mkWorld (stream w) (ggtts w) (groups w) (delete this (objects w))
                     (globalContextId w)).

Definition pollForCompletion (this : nat) : W unit :=
  c ← getContext this;
  if memoryBasedPollForCompletion then
    g ← getGGTT (ggtt c);
    onStream (gttMemoryPoll ndebug g (ggttContextFence (state c)) (contextFenceValue (state c))
                CmdServicesMemTraceMemoryPoll.ComparisonValues.GreaterEqual)
  else onStream (onSink (CommandStreamer.pollForCompletion (csTraits c))).

Definition readFence (c : HardwareContextImp) (currentValue : Z) : W Z :=
  pageSize ← contextPageSize c;
  bank ← ggttBank c;
  g ← getGGTT (ggtt c);
  bytes ← onStream (readMemoryGGTT ndebug g (ggttContextFence (state c)) (leBytes 4 currentValue) 4
                      bank pageSize);
  mret (fromLE bytes).

(** [do { ... } while (currentValue != contextFenceValue)]; sleeping between the
    reads leaves no trace. *)
Fixpoint pollFence (fuel : nat) (c : HardwareContextImp) (currentValue : Z) : W unit :=
  match fuel with
  | O => fail OutOfFuel
  | S fuel' =>
      v ← readFence c currentValue;
      if v =? contextFenceValue (state c) then mret tt else pollFence fuel' c v
  end.

Definition pollForFenceCompletion (fuel : nat) (this : nat) : W unit :=
  c ← getContext this; pollFence fuel c 0.

Definition getCurrentFence (this : nat) : W Z := c ← getContext this; readFence c 0.

Definition getExpectedFence (this : nat) : W Z :=
  c ← getContext this; mret (contextFenceValue (state c)).

(** What [submit] reads of the contexts of a group. *)
Definition groupMember (slot : option nat) : W (option (Z * Z * Z)) :=
  match slot with
  | None => mret None
  | Some r => c ← getContext r; mret (Some (ggttLRCA (state c), contextId c, priority c))
  end.

Fixpoint groupMembers (l : list (option nat)) : W (list (option (Z * Z * Z))) :=
  match l with
  | [] => mret []
  | x :: l' => m ← groupMember x; ms ← groupMembers l'; mret (m :: ms)
  end.

Definition resubmit (this : nat) : W unit :=
  c ← getContext this;
  p ← onStream (onTables (deref (ppgtt c)));
  let is48Bits := negb (numAddressBits p =? 32) in
  if negb (contextGroupId (state c) =? noGroup) then
    g ← getGroup (contextGroup c);
    ms ← groupMembers (contexts g);
    onStream (onSink (submitGroup ndebug (csTraits c) ms is48Bits))
  else
    onStream (onSink (submit ndebug (csTraits c) (ggttLRCA (state c)) is48Bits (contextId c)
                        (priority c))).

(** The commands of one submission, padded to a multiple of a qword. *)
Definition ringCommands (cs : CommandStreamerHelper) (gfxAddress fence fenceValue : Z) : list Z :=
  let l := addBatchBufferJump cs gfxAddress ++ addFlushCommands cs
           ++ storeFenceValue fence fenceValue in
  if negb (Z.of_nat (length l) mod 2 =? 0) then l ++ [0] else l.

(** Dwords as bytes. *)
Definition dwordBytes (l : list Z) : list Z := concat (map (leBytes 4) l).

(** [if ((ringTail + sizeCommandsInBytes) >= ringSize) { ... }]; the vector of
    no-ops has four times the bytes that are written. *)
Definition wrapRing (this : nat) (sizeCommandsInBytes pageSize : Z) : W unit :=
  c ← getContext this;
  let tail := ringTail (state c) in
  when (ringSize <=? u32 (tail + sizeCommandsInBytes))
    (let sizeToNoop := ringSize - tail in
     let noops := replicate (Z.to_nat sizeToNoop) 0 in
     writeGGTT c (u32 (ggttRing (state c) + tail))
       (Some (take (Z.to_nat sizeToNoop) (dwordBytes noops))) sizeToNoop
       (aubHintCommandBuffer (csTraits c)) pageSize ≫= fun _ =>
     updateState this (set_ringTail 0) ≫= fun _ =>
     pollForCompletion this).

(** The update of the head and the tail in the images; the byte offset from the
    ring registers and the size of what changed. *)
Definition updateRingRegisters (this : nat) (overrideRingHead : bool) (ringHead : Z)
    : W (Z * Z) :=
  c ← getContext this;
  let cs := csTraits c in
  let tail := ringTail (state c) in
  if overrideRingHead then
    updateLRCA this (setRingHead cs ringHead) ≫= fun _ =>
    updateLRCA this (setRingTail cs tail) ≫= fun _ =>
    updateRingData this (setRingDataHead cs ringHead) ≫= fun _ =>
    updateRingData this (setRingDataTail cs tail) ≫= fun _ =>
    mret (offsetRingHead, 16)
  else
    updateLRCA this (setRingTail cs tail) ≫= fun _ =>
    updateRingData this (setRingDataTail cs tail) ≫= fun _ =>
    mret (offsetRingTail, 8).

(** The writes of the changed registers. *)
Definition writeRingRegisters (this : nat) (offset size pageSize : Z) : W unit :=
  c ← getContext this;
  let s := state c in
  let ringOffset := offsetContext + offsetRingRegisters + offset in
  let ringDataOffset := getRingDataOffset (csTraits c) + offset in
  writeArray c (pLRCA s) (u32 (ggttLRCA s + ringOffset)) ringOffset size
    DataTypeHintValues.TraceNotype pageSize ≫= fun _ =>
  when (isRingDataEnabled (csTraits c))
    (writeArray c (pRingData s) (u32 (ringData s + ringDataOffset)) ringDataOffset size
       DataTypeHintValues.TraceNotype pageSize).

Definition submitBatchBuffer (this : nat) (gfxAddress : Z) (overrideRingHead : bool) : W unit :=
  c ← getContext this;
  let s := state c in
  let commands := ringCommands (csTraits c) gfxAddress (ggttContextFence s)
                    (u32 (contextFenceValue s + 1)) in
  pageSize ← contextPageSize c;
  let sizeCommandsInBytes := u32 (Z.of_nat (length commands) * 4) in
  wrapRing this sizeCommandsInBytes pageSize ≫= fun _ =>
  updateState this (fun s => set_contextFenceValue (u32 (contextFenceValue s + 1)) s) ≫= fun _ =>
  c ← getContext this;
  let ringHead := ringTail (state c) in
  writeGGTT c (u32 (ggttRing (state c) + ringHead)) (Some (dwordBytes commands))
    sizeCommandsInBytes (aubHintCommandBuffer (csTraits c)) pageSize ≫= fun _ =>
  updateState this (set_ringTail (u32 (ringHead + sizeCommandsInBytes))) ≫= fun _ =>
  r ← updateRingRegisters this overrideRingHead ringHead;
  writeRingRegisters this r.1 r.2 pageSize ≫= fun _ =>
  invalidateTLB (contextId c) ≫= fun _ =>
  resubmit this.

Definition writeMemory2 (this : nat) (ap : AllocationParams) : W unit :=
  c ← getContext this;
  pageSize ← getSupportedPageSize ndebug gpu (memoryBanks ap) (pageSize ap);
  onStream (AubStream.writeMemory ndebug enablePs64 gpu (ppgtt c)
    (mkAllocationParams (gfxAddress ap) (memory ap) (size ap) (memoryBanks ap) (hint ap) pageSize
       (additionalParams ap))) ≫= fun _ =>
  mret tt.

Definition writeMemory (this : nat) (gfxAddress : Z) (memory : option (list Z))
    (size memoryBanks hint pageSize : Z) : W unit :=
  writeMemory2 this (mkAllocationParams gfxAddress memory size memoryBanks hint pageSize noParams).

Definition writeAndSubmitBatchBuffer (this : nat) (gfxAddress : Z) (batchBuffer : option (list Z))
    (size memoryBanks pageSize : Z) : W unit :=
  c ← getContext this;
  pageSize ← getSupportedPageSize ndebug gpu memoryBanks pageSize;
  writeMemory this gfxAddress batchBuffer size memoryBanks (aubHintBatchBuffer (csTraits c))
    pageSize ≫= fun _ =>
  submitBatchBuffer this gfxAddress false.

Definition freeMemory (this : nat) (gfxAddress size : Z) : W unit :=
  c ← getContext this;
  onStream (AubStream.freeMemory ndebug enablePs64 gpu (ppgtt c) gfxAddress size).

Definition expectMemory (this : nat) (gfxAddress : Z) (memory : list Z)
    (size compareOperation : Z) : W unit :=
  c ← getContext this;
  onStream (AubStream.expectMemory ndebug enablePs64 gpu (ppgtt c) gfxAddress memory size
              compareOperation).

Definition readMemory (this : nat) (gfxAddress : Z) (memory : list Z)
    (size memoryBanks pageSize : Z) : W (list Z) :=
  c ← getContext this;
  pageSize ← getSupportedPageSize ndebug gpu memoryBanks pageSize;
  bytes ← onStream (AubStream.readMemory ndebug enablePs64 gpu (ppgtt c) gfxAddress memory
                      size memoryBanks pageSize);
  when verbose
    (mapM_ (fun offset =>
       onStream (onSink (readMMIO (u32 (mmioEngine (csTraits c) + offset)))) ≫= fun _ => mret tt)
       [0x2234; 0x2240; 0x2034; 0x2030]) ≫= fun _ =>
  mret bytes.

Definition writeMMIO (this : nat) (offset value : Z) : W unit :=
  getContext this ≫= fun _ => writeMMIO_ offset value.

Definition dumpBufferBIN (this : nat) (gfxAddress size : Z) : W unit :=
  getContext this ≫= fun _ =>
  onStream (onSink (AubStream.dumpBufferBIN 1 gfxAddress size (handleOf this))).

Definition dumpSurface (this : nat) (si : SurfaceInfo) : W unit :=
  getContext this ≫= fun _ => onStream (onSink (AubStream.dumpSurface 1 si (handleOf this))).

Definition isActive (this : nat) : W bool :=
  c ← getContext this;
  if negb (contextGroupId (state c) =? noGroup) then mret false
  else
    lo ← onStream (onSink (readMMIO (u32 (mmioEngine (csTraits c) + 0x2234))));
    if Z.land lo 0x80 =? 0 then mret false
    else
      hi ← onStream (onSink (readMMIO (u32 (mmioEngine (csTraits c) + 0x2234 + 4))));
      mret (Z.shiftr hi 7 =? contextId c).
End Operations.
End HardwareContextImp.
