(* ===== verification/ContextGroups.v ===== *)
(** * Context groups: no dangling member

    The contexts a group lists are the ones a submission of the group reads. The
    invariant of this file: a listed context exists, belongs to that group, and
    its group id is its position. It holds in every world the operations of
    contexts can reach, whatever their order and however often a context is
    released. *)

From S2P Require Import Prelude Allocator MemoryBanks PageTable Walker AubPackets AubStream.
From S2P Require Import WalkCorrect CommandStreamer HardwareContext.
#[local] Open Scope Z_scope.

Section Groups.
Context {A : Type} `{!PhysicalAddressAllocator A} {Sk : Type} `{!Stream Sk}.
Variable ndebug enablePs64 verbose : bool.
Variable gpu : GpuOps.
Variable handleOf : nat -> Z.

#[local] Abbreviation W := (M (World A Sk)).
Implicit Types w : World A Sk.

(** ** The invariant *)

Definition member (c : HardwareContextImp) : option nat * Z :=
  (contextGroup c, contextGroupId (state c)).

Record groupsOk w : Prop := {
  ok_member : forall gi g i r, groups w !! gi = Some g -> contexts g !! i = Some (Some r) ->
    exists c, objects w !! r = Some c /\ member c = (Some gi, Z.of_nat i);
  ok_counter : forall gi g, groups w !! gi = Some g -> 0 <= contextGroupCounter g;
  ok_id : forall r c, objects w !! r = Some c -> 0 <= contextGroupId (state c);
  ok_size : forall gi g, groups w !! gi = Some g -> Z.of_nat (length (contexts g)) <= noGroup
}.

(** No group lists the context. *)
Definition unlisted (r : nat) w : Prop :=
  forall gi g i, groups w !! gi = Some g -> contexts g !! i <> Some (Some r).

(** ** Operations that leave the groups alone *)

(** The groups and what the contexts say of their membership stay; the contexts
    are the same ones. *)
Definition frame w w' : Prop :=
  groups w' = groups w /\ member <$> objects w' = member <$> objects w.

Lemma frame_refl w : frame w w.
Proof. done. Qed.

Lemma frame_trans w1 w2 w3 : frame w1 w2 -> frame w2 w3 -> frame w1 w3.
Proof. intros [H1 H2] [H3 H4]. split; congruence. Qed.

Lemma frame_object w w' r c :
  frame w w' -> objects w !! r = Some c ->
  exists c', objects w' !! r = Some c' /\ member c' = member c.
Proof.
  intros [_ Ho] Hc.
  assert (Hr : (member <$> objects w') !! r = Some (member c))
    by (rewrite Ho, lookup_fmap, Hc; done).
  rewrite lookup_fmap in Hr. apply fmap_Some in Hr as (c' & Hc' & Heq). by exists c'.
Qed.

Lemma frame_sym w w' : frame w w' -> frame w' w.
Proof. by intros [H1 H2]. Qed.

Lemma frame_groupsOk w w' : frame w w' -> groupsOk w -> groupsOk w'.
Proof.
  intros Hf [Hm Hk Hi Hz]. pose proof Hf as [Hg _]. split.
  - intros gi g i r Hgi Hs. rewrite Hg in Hgi. destruct (Hm gi g i r Hgi Hs) as (c & Hc & Heq).
    destruct (frame_object _ _ _ _ Hf Hc) as (c' & Hc' & Heq'). exists c'. by rewrite Heq'.
  - intros gi g. rewrite Hg. apply Hk.
  - intros r c Hc. destruct (frame_object _ _ _ _ (frame_sym _ _ Hf) Hc) as (c' & Hc' & Heq).
    specialize (Hi _ _ Hc'). unfold member in Heq. congruence.
  - intros gi g. rewrite Hg. apply Hz.
Qed.

Definition keeps {B} (m : W B) : Prop := forall w b w', m w = Ok (b, w') -> frame w w'.

Lemma keeps_ret {B} (b : B) : keeps (mret b).
Proof. intros w b' w' [= _ <-]. apply frame_refl. Qed.

Lemma keeps_fail {B} e : keeps (fail (A := B) e).
Proof. by intros ???. Qed.

Lemma keeps_bind {B C} (m : W B) (k : B -> W C) :
  keeps m -> (forall b, keeps (k b)) -> keeps (m ≫= k).
Proof.
  intros Hm Hk w c w' H. unfold mbind, M_bind in H.
  destruct (m w) as [[b w1]|] eqn:Em; [|done].
  eapply frame_trans; [by eapply Hm|by eapply Hk].
Qed.

Lemma keeps_onStream {B} (m : M (StreamState A Sk) B) : keeps (onStream m).
Proof.
  intros w b w' H. unfold onStream in H. destruct (m (stream w)) as [[b' s]|]; [|done].
  by injection H as _ <-.
Qed.

Lemma keeps_getContext r : keeps (getContext r).
Proof.
  intros w b w' H. unfold getContext in H. destruct (objects w !! r); [|done].
  by injection H as _ <-.
Qed.

Lemma keeps_getGGTT i : keeps (getGGTT i).
Proof.
  intros w b w' H. unfold getGGTT in H. destruct (ggtts w !! i); [|done].
  by injection H as _ <-.
Qed.

Lemma keeps_getGroup g : keeps (getGroup g).
Proof.
  intros w b w' H. unfold getGroup in H. destruct g as [i|]; [|done].
  destruct (groups w !! i); [|done]. by injection H as _ <-.
Qed.

Lemma keeps_updateState r f :
  (forall s, contextGroupId (f s) = contextGroupId s) -> keeps (updateState r f).
Proof.
  intros Hf w b w' H. unfold updateState, getContext, setContext, modify, mbind, M_bind in H.
  destruct (objects w !! r) as [c|] eqn:Hr; [|done]. injection H as _ <-.
  split; [done|]. cbn. rewrite fmap_insert. apply insert_id.
  rewrite lookup_fmap, Hr. cbn. unfold member. cbn. by rewrite Hf.
Qed.

Lemma keeps_alignedAllocGfx i n a : keeps (alignedAllocGfx i n a).
Proof.
  apply keeps_bind; [apply keeps_getGGTT|]. intros g. destruct (SimpleAllocator.alignedAlloc _ _ _ _).
  apply keeps_bind; [|intros; apply keeps_ret]. by intros w b w' [= _ <-].
Qed.

Lemma keeps_onArray p m : keeps (onArray p m).
Proof. destruct p; cbn; try apply keeps_fail. destruct (m b) as [[]|]; [apply keeps_ret|apply keeps_fail]. Qed.

Lemma keeps_deleteArray p : keeps (deleteArray p).
Proof. destruct p; [apply keeps_ret|apply keeps_ret|apply keeps_fail]. Qed.

Lemma keeps_arrayBytes p o n : keeps (arrayBytes p o n).
Proof. destruct p; [apply keeps_fail|apply keeps_ret|apply keeps_fail]. Qed.

Lemma keeps_when b (m : W unit) : keeps m -> keeps (when b m).
Proof. destruct b; [done|]. intros _. apply keeps_ret. Qed.

Lemma keeps_cassert n b : keeps (cassert n b).
Proof. unfold cassert. destruct (n || b); [apply keeps_ret|apply keeps_fail]. Qed.

Lemma keeps_from_option {B} e (o : option B) : keeps (from_option_M e o).
Proof. destruct o; [apply keeps_ret|apply keeps_fail]. Qed.

Lemma keeps_mapM_ {X} (f : X -> W unit) l : (forall x, keeps (f x)) -> keeps (mapM_ f l).
Proof.
  intros Hf. induction l as [|x l IH]; [apply keeps_ret|]. by apply keeps_bind.
Qed.
End Groups.

(** The frame lemmas of the steps. *)
Create HintDb keeps.
#[local] Hint Resolve keeps_ret keeps_fail keeps_onStream keeps_getContext keeps_getGGTT
  keeps_getGroup keeps_alignedAllocGfx keeps_onArray keeps_deleteArray keeps_arrayBytes
  keeps_cassert keeps_from_option : keeps.

(** Goes through an operation step by step. *)
Ltac keeps_steps :=
  repeat (intros;
    first [ solve [eauto 1 with keeps]
          | apply keeps_when
          | apply keeps_mapM_
          | apply keeps_updateState; by intros []
          | apply keeps_bind
          | progress cbv zeta
          | case_match ]).

Section Operations.
Context {A : Type} `{!PhysicalAddressAllocator A} {Sk : Type} `{!Stream Sk}.
Variable ndebug enablePs64 verbose : bool.
Variable gpu : GpuOps.
Variable handleOf : nat -> Z.
Implicit Types w : World A Sk.

Import HardwareContextImp.

#[local] Abbreviation W := (M (World A Sk)).

Lemma keeps_writeGGTT c a m n h ps : keeps (A := A) (writeGGTT (Sk := Sk) ndebug c a m n h ps).
Proof. unfold writeGGTT, ggttBank. keeps_steps. Qed.

Lemma keeps_readFence c v : keeps (A := A) (readFence (Sk := Sk) ndebug gpu c v).
Proof. unfold readFence, contextPageSize, ggttBank. keeps_steps. Qed.

Lemma keeps_pollFence fuel : forall c v, keeps (A := A) (pollFence (Sk := Sk) ndebug gpu fuel c v).
Proof.
  induction fuel as [|fuel IH]; intros c v; [apply keeps_fail|]. cbn [pollFence].
  apply keeps_bind; [apply keeps_readFence|]. intros x. case_match; [apply keeps_ret|apply IH].
Qed.

Lemma keeps_getSupportedPageSize b p :
  keeps (A := A) (Sk := Sk) (getSupportedPageSize ndebug gpu b p).
Proof. unfold getSupportedPageSize. keeps_steps. Qed.

Lemma keeps_groupMembers l : keeps (A := A) (groupMembers (Sk := Sk) l).
Proof.
  induction l as [|x l IH]; [apply keeps_ret|]. cbn [groupMembers]. unfold groupMember.
  keeps_steps; apply IH.
Qed.

Lemma keeps_resubmit this : keeps (A := A) (resubmit (Sk := Sk) ndebug this).
Proof. unfold resubmit. keeps_steps; apply keeps_groupMembers. Qed.

#[local] Hint Resolve keeps_writeGGTT keeps_readFence keeps_pollFence
  keeps_getSupportedPageSize keeps_resubmit : keeps.

Lemma keeps_submitBatchBuffer this a o :
  keeps (A := A) (submitBatchBuffer (Sk := Sk) ndebug gpu this a o).
Proof.
  unfold submitBatchBuffer, wrapRing, pollForCompletion, updateRingRegisters, writeRingRegisters,
    updateLRCA, updateRingData, writeArray, contextPageSize, ggttBank, invalidateTLB.
  keeps_steps.
Qed.

Lemma keeps_writeMemory2 this ap :
  keeps (A := A) (Sk := Sk) (writeMemory2 ndebug enablePs64 gpu this ap).
Proof. unfold writeMemory2. keeps_steps. Qed.

#[local] Hint Resolve keeps_submitBatchBuffer keeps_writeMemory2 : keeps.

(** [initialize] up to the registration. *)
Lemma keeps_initializeRing this ps ctrl :
  keeps (A := A) (initializeRing ndebug this ps ctrl).
Proof. unfold initializeRing, updateLRCA, updateRingData, writeArray. keeps_steps. Qed.

(** ** Operations on groups *)

Definition preserves {B} (m : W B) : Prop :=
  forall w b w', m w = Ok (b, w') -> groupsOk w -> groupsOk w'.

Lemma keeps_preserves {B} (m : W B) : keeps m -> preserves m.
Proof. intros Hm w b w' H. eapply frame_groupsOk. by eapply Hm. Qed.

Lemma preserves_bind {B C} (m : W B) (k : B -> W C) :
  preserves m -> (forall b, preserves (k b)) -> preserves (m ≫= k).
Proof.
  intros Hm Hk w c w' H Hw. unfold mbind, M_bind in H.
  destruct (m w) as [[b w1]|] eqn:Em; [|done]. eapply Hk; [done|]. by eapply Hm.
Qed.

Lemma getGroup_Ok g w x w' :
  getGroup g w = Ok (x, w') -> w' = w /\ exists i, g = Some i /\ groups w !! i = Some x.
Proof.
  unfold getGroup. destruct g as [i|]; [|done]. destruct (groups w !! i) as [y|] eqn:Hi; [|done].
  intros [= <- <-]. split; [done|]. by exists i.
Qed.

Lemma getContext_Ok r w c w' :
  getContext r w = Ok (c, w') -> w' = w /\ objects w !! r = Some c.
Proof.
  unfold getContext. destruct (objects w !! r) as [x|] eqn:Hr; [|done]. by intros [= <- <-].
Qed.

(** Changing one slot of a group. *)
Lemma groupsOk_set w gi g k slot i :
  groupsOk w -> groups w !! gi = Some g -> 0 <= k ->
  (forall r, slot = Some r -> exists c, objects w !! r = Some c
     /\ member c = (Some gi, Z.of_nat i)) ->
  groupsOk (mkWorld (stream w) (ggtts w)
    (<[gi := mkGroup k (<[i := slot]> (contexts g))]> (groups w)) (objects w)
    (globalContextId w)).
Proof.
  intros [Hm Hk Hi Hz] Hg Hpos Hslot. split; cbn.
  - intros gj g' j r Hj Hr.
    apply lookup_insert_Some in Hj as [(-> & <-)|[Hne Hj]]; [|by eapply Hm].
    cbn in Hr. apply list_lookup_insert_Some in Hr as [(-> & -> & _)|[Hne Hr]]; [by apply Hslot|].
    by eapply Hm.
  - intros gj g' Hj. apply lookup_insert_Some in Hj as [(-> & <-)|[Hne Hj]]; [done|].
    by eapply Hk.
  - exact Hi.
  - intros gj g' Hj. apply lookup_insert_Some in Hj as [(-> & <-)|[Hne Hj]];
      [cbn; rewrite length_insert|]; by eapply Hz.
Qed.

Lemma preserves_registerInGroup this :
  preserves (registerInGroup (A := A) (Sk := Sk) ndebug this).
Proof.
  intros w [] w' (c & w1 & [-> Hc]%getContext_Ok & H)%bind_Ok Hok. cbv zeta in H. unfold when in H.
  destruct (negb _); [|by injection H as <-].
  apply bind_Ok in H as (g & w1 & (-> & gi & Hgi & Hg)%getGroup_Ok & H).
  apply bind_Ok in H as (slot & w1 & [Hs ->]%from_option_Ok & H).
  apply bind_Ok in H as (x & w1 & ->%cassert_Ok & H). rewrite Hgi in H. injection H as <-.
  eapply groupsOk_set; [done|done|by eapply ok_counter|]. intros r [= <-].
  exists c. split; [done|]. unfold member. rewrite Hgi. f_equal.
  symmetry. apply Z2Nat.id. by eapply ok_id.
Qed.

Lemma preserves_initialize this :
  preserves (initialize (Sk := Sk) ndebug gpu handleOf this).
Proof.
  unfold initialize. apply preserves_bind; [apply keeps_preserves; eauto with keeps|].
  intros c. destruct (pLRCA (state c)); try (apply keeps_preserves, keeps_ret). cbv zeta.
  unfold contextPageSize, ggttBank, writeMMIO_, updateLRCA, initializeContextEnvironment, writeArray.
  repeat first [apply preserves_registerInGroup
    |apply preserves_bind; [apply keeps_preserves; keeps_steps; apply keeps_initializeRing|intros]].
Qed.

(** Taking a context out of its group, once its slot is empty. *)
Lemma groupsOk_outside w r c :
  groupsOk w -> objects w !! r = Some c ->
  unlisted r w ->
  forall f, 0 <= contextGroupId (f (state c)) ->
  groupsOk (mkWorld (stream w) (ggtts w) (groups w) (<[r := set_state f c]> (objects w))
              (globalContextId w)).
Proof.
  intros [Hm Hk Hi Hz] Hr Hno f Hf. split; cbn; [|done| |done].
  - intros gi g i q Hg Hq. destruct (Hm gi g i q Hg Hq) as (d & Hd & Heq).
    exists d. split; [|done]. rewrite lookup_insert_ne; [done|]. intros ->. by eapply Hno.
  - intros q d Hd. apply lookup_insert_Some in Hd as [[_ <-]|[_ Hd]]; [done|by eapply Hi].
Qed.

(** The slot of a context is its only one. *)
Lemma groupsOk_unique w gi g i gj g' j r :
  groupsOk w -> groups w !! gi = Some g -> contexts g !! i = Some (Some r) ->
  groups w !! gj = Some g' -> contexts g' !! j = Some (Some r) -> gi = gj /\ i = j.
Proof.
  intros [Hm _ _ _] Hg Hi Hg' Hj.
  destruct (Hm _ _ _ _ Hg Hi) as (c & Hc & H1). destruct (Hm _ _ _ _ Hg' Hj) as (d & Hd & H2).
  assert (c = d) as <- by congruence. rewrite H1 in H2. injection H2 as -> H2. split; [done|lia].
Qed.

Lemma preserves_evictContext group i : preserves (evictContext (A := A) (Sk := Sk) group i).
Proof.
  intros w [] w' (g & w0 & (-> & gi & -> & Hg)%getGroup_Ok & H)%bind_Ok Hok.
  apply bind_Ok in H as (slot & w0 & [Hs ->]%from_option_Ok & H).
  destruct slot as [r|]; [|by injection H as <-].
  destruct (ok_member _ Hok _ _ _ _ Hg Hs) as (c & Hc & Hm).
  apply bind_Ok in H as ([] & w0 & Hu & H).
  apply bind_Ok in Hu as (c' & w2 & [-> Hc']%getContext_Ok & [= <-]).
  assert (c' = c) as -> by congruence. injection H as <-.
  set (w1 := mkWorld (stream w) (ggtts w)
    (<[gi := mkGroup (contextGroupCounter g) (<[i := None]> (contexts g))]> (groups w)) (objects w)
    (globalContextId w)).
  assert (Hok1 : groupsOk w1)
    by (apply groupsOk_set; [done|done|by eapply ok_counter|done]).
  refine (groupsOk_outside w1 r c Hok1 Hc _ _ _); [|done].
  intros gj g' j Hj Hr. cbn in Hj.
  apply lookup_insert_Some in Hj as [(-> & <-)|[Hne Hj]].
  - cbn in Hr. apply list_lookup_insert_Some in Hr as [(_ & ? & _)|[Hne Hr]]; [done|].
    by destruct (groupsOk_unique _ _ _ _ _ _ _ _ Hok Hg Hs Hg Hr).
  - by destruct (groupsOk_unique _ _ _ _ _ _ _ _ Hok Hg Hs Hj Hr).
Qed.

Lemma preserves_mapM_ {X} (f : X -> W unit) l : (forall x, preserves (f x)) -> preserves (mapM_ f l).
Proof.
  intros Hf. induction l as [|x l IH]; [apply keeps_preserves, keeps_ret|].
  by apply preserves_bind.
Qed.

(** Emptying slots does not list anyone. *)
Lemma unlisted_clear r w gi g k i (s : StreamState A Sk) :
  unlisted r w -> groups w !! gi = Some g ->
  unlisted r (mkWorld s (ggtts w)
    (<[gi := mkGroup k (<[i := None]> (contexts g))]> (groups w)) (objects w) (globalContextId w)).
Proof.
  intros Hno Hg gj g' j Hj Hr. cbn in Hj.
  apply lookup_insert_Some in Hj as [(-> & <-)|[Hne Hj]]; [|by eapply Hno].
  cbn in Hr. apply list_lookup_insert_Some in Hr as [(_ & ? & _)|[_ Hr]]; [done|by eapply Hno].
Qed.

Lemma unlisted_frame r w w' : groups w' = groups w -> unlisted r w -> unlisted r w'.
Proof. intros Hg Hno gi g i. rewrite Hg. apply Hno. Qed.

Lemma evictContext_unlisted r group i w b w' :
  evictContext (A := A) (Sk := Sk) group i w = Ok (b, w') -> unlisted r w -> unlisted r w'.
Proof.
  intros (g & w0 & (-> & gi & -> & Hg)%getGroup_Ok & H)%bind_Ok Hno.
  apply bind_Ok in H as (slot & w0 & [Hs ->]%from_option_Ok & H).
  destruct slot as [q|]; [|by injection H as _ <-].
  apply bind_Ok in H as ([] & w0 & Hu & H).
  apply bind_Ok in Hu as (c' & w2 & [-> Hc']%getContext_Ok & [= <-]).
  injection H as _ <-. cbn.
  apply (unlisted_frame r (mkWorld (stream w) (ggtts w)
    (<[gi := mkGroup (contextGroupCounter g) (<[i := None]> (contexts g))]> (groups w)) (objects w)
    (globalContextId w))); [done|]. by apply unlisted_clear.
Qed.

Lemma evictAll_unlisted r group l : forall w b w',
  mapM_ (evictContext (A := A) (Sk := Sk) group) l w = Ok (b, w') -> unlisted r w -> unlisted r w'.
Proof.
  induction l as [|i l IH]; intros w b w' H Hno; [by injection H as _ <-|]. cbn [mapM_] in H.
  apply bind_Ok in H as (x & w1 & H1 & H2). eapply IH; [done|]. by eapply evictContext_unlisted.
Qed.

Lemma setGroup_counter w gi g :
  groupsOk w -> groups w !! gi = Some g ->
  groupsOk (mkWorld (stream w) (ggtts w) (<[gi := mkGroup 0 (contexts g)]> (groups w)) (objects w)
              (globalContextId w)).
Proof.
  intros Hok Hg. destruct (contexts g) as [|s l] eqn:Hc.
  - rewrite <- (list_insert_ge [] 0 None ltac:(simpl; lia)), <- Hc.
    by apply groupsOk_set.
  - replace (s :: l) with (<[0%nat := s]> (contexts g)) by by rewrite Hc.
    apply groupsOk_set; [done|done|lia|]. intros r ->.
    apply (ok_member _ Hok gi g 0%nat r Hg). by rewrite Hc.
Qed.

Lemma leaveGroup_spec this w b w' :
  leaveGroup (A := A) (Sk := Sk) this w = Ok (b, w') -> groupsOk w ->
  groupsOk w' /\ unlisted this w'.
Proof.
  intros (c & w0 & [-> Hc]%getContext_Ok & H)%bind_Ok Hok. cbv zeta in H.
  destruct (Z.eqb_spec (contextGroupId (state c)) noGroup) as [Hid|Hid]; cbn [negb when] in H.
  { injection H as _ <-. split; [done|]. intros gi g i Hg Hi.
    destruct (ok_member _ Hok _ _ _ _ Hg Hi) as (d & Hd & Hm).
    assert (d = c) as -> by congruence. injection Hm as _ Hm. rewrite Hid in Hm.
    pose proof (ok_size _ Hok _ _ Hg). apply lookup_lt_Some in Hi. lia. }
  apply bind_Ok in H as (g & w0 & (-> & gi & Hgi & Hg)%getGroup_Ok & H).
  apply bind_Ok in H as (slot & w0 & [Hs ->]%from_option_Ok & H). rewrite Hgi in H.
  apply bind_Ok in H as ([] & w1 & [= <-] & H).
  match type of H with _ ?x = _ => set (w1 := x) in H end.
  assert (Hok1 : groupsOk w1) by (apply groupsOk_set; [done|done|by eapply ok_counter|done]).
  assert (Hno1 : unlisted this w1).
  { intros gj g' j Hj Hr. destruct (ok_member _ Hok1 _ _ _ _ Hj Hr) as (d & Hd & Hm).
    cbn in Hd. assert (d = c) as -> by congruence. unfold member in Hm. rewrite Hgi in Hm.
    injection Hm as <- Hm. cbn in Hj.
    apply lookup_insert_Some in Hj as [(_ & <-)|[? _]]; [|done]. cbn in Hr.
    apply list_lookup_insert_Some in Hr as [(_ & ? & _)|[Hne _]]; [done|].
    apply Hne. rewrite Hm. apply Nat2Z.id. }
  destruct (contextGroupId (state c) =? 0); [|injection H as _ <-; by split].
  apply bind_Ok in H as ([] & w2 & He & H).
  pose proof (preserves_mapM_ _ _ (preserves_evictContext (Some gi)) _ _ _ He Hok1) as Hok2.
  pose proof (evictAll_unlisted _ _ _ _ _ _ He Hno1) as Hno2.
  apply bind_Ok in H as (g2 & w3 & (-> & gj & [= <-] & Hg2)%getGroup_Ok & [= _ <-]).
  split; [by apply setGroup_counter|]. intros gj g' j Hj Hr. cbn in Hj.
  apply lookup_insert_Some in Hj as [(-> & <-)|[_ Hj]]; by eapply Hno2.
Qed.

Lemma release_spec this w b w' :
  release (A := A) (Sk := Sk) this w = Ok (b, w') -> groupsOk w -> groupsOk w' /\ unlisted this w'.
Proof.
  unfold release. intros H Hok.
  apply bind_Ok in H as (c & w1 & H1 & H). apply bind_Ok in H as (x1 & w2 & H2 & H).
  apply bind_Ok in H as (x2 & w3 & H3 & H). apply bind_Ok in H as (x3 & w4 & H4 & H).
  apply bind_Ok in H as (x4 & w5 & H5 & H). eapply leaveGroup_spec; [exact H|].
  eapply frame_groupsOk; [|exact Hok].
  eapply frame_trans; [by eapply keeps_getContext|].
  eapply frame_trans; [by eapply keeps_deleteArray|].
  eapply frame_trans; [by eapply keeps_updateState, H3|].
  eapply frame_trans; [by eapply keeps_deleteArray|]. by eapply keeps_updateState, H5.
Qed.

Lemma preserves_release this : preserves (release (A := A) (Sk := Sk) this).
Proof. intros w b w' H Hok. by eapply release_spec. Qed.

Lemma preserves_destroy this : preserves (destroy (A := A) (Sk := Sk) this).
Proof.
  intros w b w' (x & w1 & H & [= _ <-])%bind_Ok Hok.
  destruct (release_spec _ _ _ _ H Hok) as [[Hm Hk Hi Hz] Hno].
  split; cbn; [|done| |done].
  - intros gi g i r Hg Hr. destruct (Hm gi g i r Hg Hr) as (c & Hc & Heq). exists c.
    split; [|done]. rewrite lookup_delete_ne; [done|]. intros ->. by eapply Hno.
  - intros r c [_ Hc]%lookup_delete_Some. by eapply Hi.
Qed.

(** A new context is in no slot. *)
Lemma groupsOk_new w r c :
  groupsOk w -> objects w !! r = None -> 0 <= contextGroupId (state c) ->
  forall (s : StreamState A Sk) k, groupsOk (mkWorld s (ggtts w) (groups w) (<[r := c]> (objects w)) k).
Proof.
  intros [Hm Hk Hi Hz] Hr Hc s k. split; cbn; [|done| |done].
  - intros gi g i q Hg Hq. destruct (Hm gi g i q Hg Hq) as (d & Hd & Heq). exists d.
    split; [|done]. rewrite lookup_insert_ne; [done|]. congruence.
  - intros q d Hd. apply lookup_insert_Some in Hd as [[_ <-]|[_ Hd]]; [done|by eapply Hi].
Qed.

Lemma wrap32_nonneg x : 0 <= u32 x.
Proof. apply Z.mod_pos_bound. lia. Qed.

Lemma preserves_construct d cs gg pp g f p :
  preserves (construct (Sk := Sk) ndebug d cs gg pp g f p).
Proof.
  intros w b w' H Hok. unfold construct in H.
  apply bind_Ok in H as (w0 & w1 & [= <- <-] & H). cbv zeta in H.
  apply bind_Ok in H as ([] & w1 & [= <-] & H).
  set (this := fresh (dom (objects w))) in *.
  assert (Hfresh : objects w !! this = None)
    by (apply not_elem_of_dom, is_fresh).
  match type of H with context [let '(_, _) := ?e in _] => destruct e as [prio fl] end.
  assert (Hfin : forall w1 groupId k (s : StreamState A Sk), groupsOk w1 -> objects w1 = objects w -> 0 <= groupId ->
    (forall c, contextGroupId (state c) = groupId ->
      groupsOk (mkWorld s (ggtts w1) (groups w1) (<[this := c]> (objects w1)) k))).
  { intros w1 groupId k s Hok1 Ho Hpos c Hc. apply groupsOk_new; [done|by rewrite Ho|by rewrite Hc]. }
  destruct (negb (Z.land f hardwareContextFlags.contextGroup =? 0)) in H.
  - apply bind_Ok in H as ([id fl'] & w1 & H1 & H).
    apply bind_Ok in H1 as (gr & w2 & (-> & gi & -> & Hg)%getGroup_Ok & H1).
    apply bind_Ok in H1 as (x & w2 & ->%cassert_Ok & H1).
    apply bind_Ok in H1 as ([] & w2 & [= <-] & [= <- <- <-]).
    apply bind_Ok in H as ([] & w3 & [= <-] & [= _ <-]). cbn in *.
    match goal with |- groupsOk (mkWorld ?s ?g ?gs (<[_ := ?c]> ?o) ?k) =>
      refine (Hfin (mkWorld s g gs o 0) (contextGroupCounter gr) k s _ eq_refl _ c eq_refl) end;
      [|by eapply ok_counter].
    replace (contexts gr) with (<[length (contexts gr) := None]> (contexts gr))
      by (apply list_insert_ge; lia).
    refine (groupsOk_set (mkWorld (stream w) (ggtts w) (groups w) (objects w) 0) gi gr _ None _ _ Hg
      (wrap32_nonneg _) _); [|done].
    by destruct Hok.
  - apply bind_Ok in H as ([id fl'] & w1 & [= <- <- <-] & H).
    apply bind_Ok in H as ([] & w3 & [= <-] & [= _ <-]). cbn in *.
    by apply (Hfin w noGroup _ _ Hok eq_refl).
Qed.

(** ** Reachable worlds *)

(** The operations of contexts, in the order a client calls them. *)
Inductive ContextOp :=
| Construct (deviceIndex : Z) (traits : CommandStreamerHelper) (ggtt : nat) (ppgtt : loc)
    (contextGroup : option nat) (flags priority : Z)
| Initialize (this : nat)
| Release (this : nat)
| Destroy (this : nat)
| PollForCompletion (this : nat)
| PollForFenceCompletion (fuel : nat) (this : nat)
| SubmitBatchBuffer (this : nat) (gfxAddress : Z) (overrideRingHead : bool)
| WriteAndSubmitBatchBuffer (this : nat) (gfxAddress : Z) (batchBuffer : option (list Z))
    (size memoryBanks pageSize : Z)
| Resubmit (this : nat)
| WriteMemory2 (this : nat) (ap : AllocationParams)
| FreeMemory (this : nat) (gfxAddress size : Z)
| ExpectMemory (this : nat) (gfxAddress : Z) (memory : list Z) (size compareOperation : Z)
| ReadMemory (this : nat) (gfxAddress : Z) (memory : list Z) (size memoryBanks pageSize : Z)
| ContextWriteMMIO (this : nat) (offset value : Z)
| ContextDumpBufferBIN (this : nat) (gfxAddress size : Z)
| ContextDumpSurface (this : nat) (si : SurfaceInfo)
| GetCurrentFence (this : nat)
| IsActive (this : nat).

Definition void {B} (m : W B) : W unit := m ≫= fun _ => mret tt.

Definition runContextOp (op : ContextOp) : W unit :=
  match op with
  | Construct d cs gg pp g f p => void (construct ndebug d cs gg pp g f p)
  | Initialize r => initialize ndebug gpu handleOf r
  | Release r => release r
  | Destroy r => destroy r
  | PollForCompletion r => pollForCompletion ndebug r
  | PollForFenceCompletion n r => pollForFenceCompletion ndebug gpu n r
  | SubmitBatchBuffer r a o => submitBatchBuffer ndebug gpu r a o
  | WriteAndSubmitBatchBuffer r a m n b p =>
      writeAndSubmitBatchBuffer ndebug enablePs64 gpu r a m n b p
  | Resubmit r => resubmit ndebug r
  | WriteMemory2 r ap => writeMemory2 ndebug enablePs64 gpu r ap
  | FreeMemory r a n => freeMemory ndebug enablePs64 gpu r a n
  | ExpectMemory r a m n c => expectMemory ndebug enablePs64 gpu r a m n c
  | ReadMemory r a m n b p => void (readMemory ndebug enablePs64 verbose gpu r a m n b p)
  | ContextWriteMMIO r o v => writeMMIO r o v
  | ContextDumpBufferBIN r a n => dumpBufferBIN handleOf r a n
  | ContextDumpSurface r si => dumpSurface handleOf r si
  | GetCurrentFence r => void (getCurrentFence ndebug gpu r)
  | IsActive r => void (isActive r)
  end.

Lemma preserves_runContextOp op : preserves (runContextOp op).
Proof.
  destruct op; cbn [runContextOp];
    try solve [apply preserves_initialize | apply preserves_release | apply preserves_destroy];
    try (apply preserves_bind; [apply preserves_construct|intros; apply keeps_preserves, keeps_ret]);
    apply keeps_preserves; unfold void, pollForCompletion, pollForFenceCompletion,
      writeAndSubmitBatchBuffer, HardwareContextImp.writeMemory, freeMemory, expectMemory, readMemory,
      writeMMIO, writeMMIO_, dumpBufferBIN, dumpSurface, getCurrentFence, isActive; keeps_steps.
Qed.

Definition contextStep w w' : Prop := exists op, runContextOp op w = Ok (tt, w').

(** The worlds the manager starts contexts in: none exists, the groups are empty. *)
Definition noContexts w : Prop :=
  objects w = ∅
  /\ forall gi g, groups w !! gi = Some g ->
       contextGroupCounter g = 0 /\ Z.of_nat (length (contexts g)) <= noGroup
       /\ Forall (fun s => s = None) (contexts g).

(** ** The arrays of a context *)

Definition arrays (c : HardwareContextImp) : HostArray * HostArray :=
  (pLRCA (state c), pRingData (state c)).

Lemma updateState_arrays r f w b w' :
  (forall s, pLRCA (f s) = pLRCA s /\ pRingData (f s) = pRingData s) ->
  updateState (A := A) (Sk := Sk) r f w = Ok (b, w') ->
  arrays <$> objects w' = arrays <$> objects w.
Proof.
  intros Hf (c & w0 & [-> Hc]%getContext_Ok & [= _ <-])%bind_Ok. cbn. rewrite fmap_insert.
  apply insert_id. rewrite lookup_fmap, Hc. cbn. f_equal. unfold arrays. cbn.
  by destruct (Hf (state c)) as [-> ->].
Qed.

Lemma evictAll_arrays group l : forall w b w',
  mapM_ (evictContext (A := A) (Sk := Sk) group) l w = Ok (b, w') ->
  arrays <$> objects w' = arrays <$> objects w.
Proof.
  induction l as [|i l IH]; intros w b w' H; [by injection H as _ <-|]. cbn [mapM_] in H.
  apply bind_Ok in H as (x & w1 & H1 & H2). rewrite (IH _ _ _ H2).
  apply bind_Ok in H1 as (g & w0 & (-> & gi & -> & Hg)%getGroup_Ok & H).
  apply bind_Ok in H as (slot & w0 & [Hs ->]%from_option_Ok & H).
  destruct slot as [q|]; [|by injection H as _ <-].
  apply bind_Ok in H as ([] & w0 & Hu & [= _ <-]). cbn.
  by eapply updateState_arrays in Hu.
Qed.

Lemma leaveGroup_arrays this w b w' :
  leaveGroup (A := A) (Sk := Sk) this w = Ok (b, w') ->
  arrays <$> objects w' = arrays <$> objects w.
Proof.
  intros (c & w0 & [-> Hc]%getContext_Ok & H)%bind_Ok. cbv zeta in H. unfold when in H at 1.
  destruct (negb _) in H; [|by injection H as _ <-].
  apply bind_Ok in H as (g & w0 & (-> & gi & Hgi & Hg)%getGroup_Ok & H).
  apply bind_Ok in H as (slot & w0 & [Hs ->]%from_option_Ok & H). rewrite Hgi in H.
  apply bind_Ok in H as ([] & w1 & [= <-] & H). unfold when in H.
  destruct (contextGroupId (state c) =? 0); [|by injection H as _ <-].
  apply bind_Ok in H as ([] & w2 & He & H). apply evictAll_arrays in He.
  by apply bind_Ok in H as (g2 & w3 & (-> & gj & [= <-] & Hg2)%getGroup_Ok & [= _ <-]).
Qed.

Lemma release_arrays this w c b w' :
  objects w !! this = Some c ->
  release (A := A) (Sk := Sk) this w = Ok (b, w') ->
  exists c', objects w' !! this = Some c' /\ pLRCA (state c') = NullPtr
    /\ pRingData (state c') = (match pRingData (state c) with NullPtr => NullPtr | _ => Freed end).
Proof.
  intros Hc (c0 & w1 & [-> Hc0]%getContext_Ok & H)%bind_Ok. assert (c0 = c) as -> by congruence.
  apply bind_Ok in H as (x1 & w2 & H2 & H).
  assert (w2 = w) as -> by (destruct (pLRCA (state c)); by inversion H2).
  apply bind_Ok in H as (x2 & w3 & H3 & H).
  apply bind_Ok in H3 as (c1 & w4 & [-> Hc1]%getContext_Ok & [= _ <-]).
  assert (c1 = c) as -> by congruence.
  apply bind_Ok in H as (p & w4 & H4 & H).
  match type of H4 with _ ?x = _ => assert (w4 = x) as ->
    by (destruct (pRingData (state c)); by inversion H4) end.
  assert (Hp : p = match pRingData (state c) with NullPtr => NullPtr | _ => Freed end)
    by (destruct (pRingData (state c)); by inversion H4).
  apply bind_Ok in H as (x5 & w5 & H5 & H).
  apply bind_Ok in H5 as (c2 & w6 & [-> Hc2]%getContext_Ok & [= _ <-]). cbn in Hc2.
  rewrite lookup_insert_eq in Hc2. injection Hc2 as <-.
  apply leaveGroup_arrays in H. cbn in H. rewrite insert_insert_eq in H.
  apply (f_equal (lookup this)) in H. rewrite !lookup_fmap, lookup_insert_eq in H.
  apply fmap_Some in H as (c' & Hc' & Heq). exists c'. split; [done|].
  unfold arrays in Heq. cbn in Heq. injection Heq as <- <-. by rewrite Hp.
Qed.

Lemma noContexts_ok w : noContexts w -> groupsOk w.
Proof.
  intros [Ho Hg]. split.
  - intros gi g i r Hgi Hi. destruct (Hg _ _ Hgi) as (_ & _ & Hall).
    by eapply (Forall_lookup_1 _ _ i) in Hall; [|exact Hi].
  - intros gi g Hgi. destruct (Hg _ _ Hgi) as (-> & _). done.
  - intros r c. by rewrite Ho, lookup_empty.
  - intros gi g Hgi. by destruct (Hg _ _ Hgi) as (_ & Hz & _).
Qed.

Lemma reachable_groupsOk w w' : rtc contextStep w w' -> groupsOk w -> groupsOk w'.
Proof.
  induction 1 as [|w1 w2 w3 [op Hop] _ IH]; [done|]. intros Hok.
  by eapply IH, preserves_runContextOp.
Qed.

(** The members of a group can be read. *)
Lemma groupMembers_run l w :
  (forall r, Some r ∈ l -> is_Some (objects w !! r)) ->
  exists ms, groupMembers l w = Ok (ms, w) /\ length ms = length l.
Proof.
  induction l as [|x l IH]; intros Hl; [by exists []|].
  destruct IH as (ms & Hms & Hlen); [intros r Hr; apply Hl; by right|].
  destruct x as [r|].
  - destruct (Hl r) as [c Hc]; [by left|].
    eexists (_ :: ms). cbn [groupMembers groupMember]. unfold getContext, mbind, M_bind, mret, M_ret.
    rewrite Hc. cbn. fold (groupMembers (A := A) (Sk := Sk)). rewrite Hms. split; [done|].
    cbn. by rewrite Hlen.
  - exists (None :: ms). cbn [groupMembers groupMember]. unfold mbind, M_bind, mret, M_ret.
    rewrite Hms. split; [done|]. cbn. by rewrite Hlen.
Qed.
End Operations.

(** C20: In every world that contexts' operations can reach (any order, any number of
    releases, destructions and re-initializations), a context listed in a group
    exists, belongs to that group and has its position as group id; so the reads
    of a group submission never touch a destroyed context. *)
Theorem group_members_alive {A} `{!PhysicalAddressAllocator A} {Sk} `{!Stream Sk}
    ndebug enablePs64 verbose gpu handleOf (w0 w : World A Sk) gi g :
  noContexts w0 -> rtc (contextStep ndebug enablePs64 verbose gpu handleOf) w0 w ->
  groups w !! gi = Some g ->
  (forall i r, contexts g !! i = Some (Some r) ->
     exists c, objects w !! r = Some c /\ contextGroup c = Some gi
       /\ contextGroupId (state c) = Z.of_nat i)
  /\ exists ms, HardwareContextImp.groupMembers (contexts g) w = Ok (ms, w)
       /\ length ms = length (contexts g).
Proof.
  intros H0 Hsteps Hg.
  pose proof (reachable_groupsOk _ _ _ _ _ _ _ Hsteps (noContexts_ok _ H0)) as Hok.
  split.
  - intros i r Hi. destruct (ok_member _ Hok _ _ _ _ Hg Hi) as (c & Hc & [= Hm1 Hm2]). by exists c.
  - apply groupMembers_run. intros r [i Hi]%list_elem_of_lookup.
    destruct (ok_member _ Hok _ _ _ _ Hg Hi) as (c & Hc & _). by exists c.
Qed.

(** [release] leaves the pointer to the ring state dangling: when the context had
    one, releasing it again (as the destructor does after the manager's [close])
    frees it twice. *)
Theorem release_twice_frees_twice {A Sk} this (w w' : World A Sk) c b :
  objects w !! this = Some c -> pRingData (state c) = Live b ->
  HardwareContextImp.release this w = Ok (tt, w') ->
  HardwareContextImp.release this w' = Err DoubleFree.
Proof.
  intros Hc Hb Hrel. destruct (release_arrays _ _ _ _ _ Hc Hrel) as (c' & Hc' & Hl & Hr).
  rewrite Hb in Hr. unfold HardwareContextImp.release, getContext, updateState, setContext, modify,
    mbind, M_bind. cbn. rewrite Hc'. cbn. rewrite Hl. cbn. unfold getContext. rewrite Hc'. cbn. by rewrite Hr.
Qed.

(** ** Concrete worlds *)

#[local] Existing Instance SimpleAllocatorOps.

(** A page table and a global table in local memory, an empty group of eight. *)
Definition exTables : result (GGTT * Store Simple.t) :=
  @newGGTT _ (SimpleAllocatorOps false) false true 1 0 (store exWalk).
Definition exWorld : World Simple.t Trace :=
  match exTables with
  | Ok (g, s) => mkWorld (mkStreamState s []) [g] {[0%nat := mkGroup 0 (replicate 8 None)]} ∅ 0
  | Err _ => mkWorld (mkStreamState exStore []) [] ∅ ∅ 0
  end.

(** A compute engine of a family with indirect ring state, and a copy engine. *)
Definition exCcs : CommandStreamerHelper := newHelper Xe3pCore (Ccs 0) 0 [(0x1a29c, 0x10001)] (-1) (-1).
Definition exBcs : CommandStreamerHelper := newHelper Gen12LP Bcs 0 [] (-1) (-1).

(** The client creates a group of two contexts, opens a capture file, closes it
    and opens another one: the manager's [open] and [close] initialize and release
    every context in the order of their creation. *)
Definition exNew (flags : Z) : ContextOp := Construct 0 exBcs 0 1%positive (Some 0%nat) flags 1.
Definition exReopen : list ContextOp :=
  [exNew hardwareContextFlags.contextGroup; exNew hardwareContextFlags.contextGroup;
   Initialize 0; Initialize 1; Release 0; Release 1; Initialize 0; Initialize 1].

Definition exOp : ContextOp -> M (World Simple.t Trace) unit :=
  @runContextOp _ (SimpleAllocatorOps false) _ TraceStream false false false exGpu Z.of_nat.

Lemma exWorld_empty : noContexts exWorld.
Proof.
  split; [by vm_compute|]. intros gi g Hg.
  assert (g = mkGroup 0 (replicate 8 None)) as ->.
  { change (groups exWorld) with ({[0%nat := mkGroup 0 (replicate 8 None)]} : gmap nat ContextGroup) in Hg.
    by apply lookup_singleton_Some in Hg as [_ <-]. }
  split_and!; [done|done|]. by repeat constructor.
Qed.

Lemma exRun_reaches ops : forall w w',
  mapM_ exOp ops w = Ok (tt, w') ->
  rtc (@contextStep _ (SimpleAllocatorOps false) _ TraceStream false false false exGpu Z.of_nat) w w'.
Proof.
  induction ops as [|op ops IH]; intros w w' H; [by injection H as <-|]. cbn [mapM_] in H.
  apply bind_Ok in H as ([] & w1 & H1 & H). eapply rtc_l; [by exists op|]. by apply IH.
Qed.

(** Closing and reopening drops the group: after [release] and [initialize] of a
    group's two contexts in the order of their creation, only the primary context
    is listed, and the other one has no group id left, so that it submits on its
    own from then on. *)
Theorem reopen_drops_group_members :
  exists w, mapM_ exOp exReopen exWorld = Ok (tt, w)
    /\ contexts <$> groups w !! 0%nat = Some (Some 0%nat :: replicate 7 None)
    /\ (fun c => contextGroupId (state c)) <$> objects w !! 1%nat = Some noGroup.
Proof.
  destruct (run_checked (mapM_ exOp exReopen) exWorld (fun r =>
      contexts <$> groups r.2 !! 0%nat = Some (Some 0%nat :: replicate 7 None)
      /\ (fun c => contextGroupId (state c)) <$> objects r.2 !! 1%nat = Some noGroup))
    as ([] & w & Hrun & H1 & H2).
  - vm_compute. reflexivity.
  - exists w. exact (conj Hrun (conj H1 H2)).
Qed.

Definition exGrouped : list ContextOp :=
  [exNew hardwareContextFlags.contextGroup; exNew hardwareContextFlags.contextGroup;
   Initialize 1; Initialize 0; SubmitBatchBuffer 1 0x10000 false].

Lemma group_members_alive_witness :
  exists w g ms, mapM_ exOp exGrouped exWorld = Ok (tt, w) /\ groups w !! 0%nat = Some g
    /\ contexts g !! 1%nat = Some (Some 1%nat)
    /\ HardwareContextImp.groupMembers (contexts g) w = Ok (ms, w) /\ length ms = 8%nat.
Proof.
  destruct (run_checked (mapM_ exOp exGrouped) exWorld (fun r =>
      (fun g => contexts g !! 1%nat = Some (Some 1%nat) /\ length (contexts g) = 8%nat)
        (default (mkGroup 0 []) (groups r.2 !! 0%nat)) /\ is_Some (groups r.2 !! 0%nat)))
    as ([] & w & Hrun & [Hc Hl] & [g Hg]).
  - vm_compute. reflexivity.
  - cbn in Hc, Hl, Hg. rewrite Hg in Hc, Hl. cbn in Hc, Hl.
    destruct (@group_members_alive _ (SimpleAllocatorOps false) _ TraceStream false false false exGpu
      Z.of_nat exWorld w 0%nat g exWorld_empty (exRun_reaches _ _ _ Hrun) Hg) as [_ (ms & Hms & Hlen)].
    exists w, g, ms. rewrite Hl in Hlen.
    exact (conj Hrun (conj Hg (conj Hc (conj Hms Hlen)))).
Defined.

(** A compute context, opened and closed once. *)
Definition exClosed : list ContextOp :=
  [Construct 0 exCcs 0 1%positive None 0 1; Initialize 0].

Lemma release_twice_frees_twice_witness :
  exists w w', mapM_ exOp exClosed exWorld = Ok (tt, w)
    /\ @HardwareContextImp.release _ _ 0 w = Ok (tt, w')
    /\ @HardwareContextImp.release _ _ 0 w' = Err DoubleFree.
Proof.
  destruct (run_checked (mapM_ exOp exClosed) exWorld (fun r =>
      (match objects r.2 !! 0%nat with
       | Some c => match pRingData (state c) with Live _ => true | _ => false end
       | None => false
       end && is_Ok (@HardwareContextImp.release _ _ 0 r.2)) = true))
    as ([] & w & Hrun & Hd).
  - vm_compute. reflexivity.
  - cbn in Hd. apply andb_true_iff in Hd as [Hd Hr].
    destruct (objects w !! 0%nat) as [c|] eqn:Hc; [|discriminate].
    destruct (pRingData (state c)) as [|b|] eqn:Hb; [discriminate| |discriminate].
    destruct (@HardwareContextImp.release Simple.t Trace 0 w) as [[[] w']|] eqn:Hrel; [|discriminate].
    exists w, w'.
    exact (conj Hrun (conj Hrel (release_twice_frees_twice 0 w w' c b Hc Hb Hrel))).
Defined.
