(* ===== verification/RingTheory.v ===== *)
(** * The command ring

    [submitBatchBuffer] on the recording sink: what it sends, what the ring then
    holds for a consumer that starts at the old tail, and that no command is
    overwritten before the engine was polled. *)

From S2P Require Import Prelude Allocator MemoryBanks PageTable TableTheory Walker WalkerTheory.
From S2P Require Import WalkCorrect GlobalTable AubPackets AubStream StreamTheory.
From S2P Require Import CommandStreamer ContextImage HardwareContext ContextGroups.
#[local] Open Scope Z_scope.

(** ** Weakest preconditions in the world *)

Section Wp.
Context {A : Type} `{!PhysicalAddressAllocator A} {Sk : Type} `{!Stream Sk}.
Implicit Types w : World A Sk.

(** The world with another stream. *)
Definition withStream (s : StreamState A Sk) w : World A Sk :=
  mkWorld s (ggtts w) (groups w) (objects w) (globalContextId w).

Lemma wp_onStream {B} (m : M (StreamState A Sk) B) (Q : B -> World A Sk -> Prop) w :
  wp m (fun b s => Q b (withStream s w)) (stream w) -> wp (onStream m) Q w.
Proof. unfold wp, onStream, withStream. by destruct (m (stream w)) as [[b s]|e]. Qed.

Lemma wp_onSinkRun {B} (m : M Sk B) (Q : B -> StreamState A Sk -> Prop) s b k :
  m (sink s) = Ok (b, k) -> Q b (mkStreamState (tables s) k) -> wp (onSink m) Q s.
Proof. unfold wp, onSink. by intros ->. Qed.

Lemma wp_getContext this c (Q : HardwareContextImp -> World A Sk -> Prop) w :
  objects w !! this = Some c -> Q c w -> wp (getContext this) Q w.
Proof. unfold wp, getContext. by intros ->. Qed.

Lemma wp_getGGTT i g (Q : GGTT -> World A Sk -> Prop) w :
  ggtts w !! i = Some g -> Q g w -> wp (getGGTT i) Q w.
Proof. unfold wp, getGGTT. by intros ->. Qed.

Definition withContext (this : nat) (c : HardwareContextImp) w : World A Sk :=
  mkWorld (stream w) (ggtts w) (groups w) (<[this := c]> (objects w)) (globalContextId w).

Lemma wp_updateState this c f (Q : unit -> World A Sk -> Prop) w :
  objects w !! this = Some c -> Q tt (withContext this (set_state f c) w) ->
  wp (updateState this f) Q w.
Proof.
  intros Hc HQ. unfold updateState. apply wp_bind. eapply wp_getContext; [done|].
  by apply wp_modify.
Qed.
End Wp.

(** ** Writes to the global table *)

Section Ring.
Context {A : Type} `{!PhysicalAddressAllocator A} `{!AllocatorLaws A}.
Variable ndebug : bool.
Variable gpu : GpuOps.

#[local] Abbreviation State := (StreamState A Trace).
#[local] Abbreviation Wd := (World A Trace).

(** The calls of a write of [bytes] at address [a]: the range as comment, the new
    slots, and the data with the physical addresses of the range. *)
Definition sent (h : gmap loc PageTable) (root : loc) (a : Z) (bytes : list Z)
    (calls : list StreamCall) : Prop :=
  exists msg slots es hint,
    calls = [AddComment msg; WriteGttPages slots;
             WriteDiscontiguousPages bytes (Z.of_nat (length bytes)) es hint]
    /\ concat (map entryBytes es)
       = map (translate 1 h root) (seqZ a (Z.of_nat (length bytes))).

Lemma sent_ext h h' root a bytes calls :
  ext h h' -> sent h root a bytes calls -> sent h' root a bytes calls.
Proof.
  intros Hx (msg & slots & es & hint & Hc & Hb). exists msg, slots, es, hint.
  split; [done|]. by eapply map_translate_ext.
Qed.

(** [writeMemory] for the global table, in worlds whose walks use one page size. *)
Lemma wp_reserveGGTT (s : State) ggtt a memory size banks hint ps
    (Q : list PageInfo -> State -> Prop) :
  wf (tables s) -> uniform (ps / 4096) (heap (tables s)) (ggtt_table ggtt) -> pageSizeOk ps ->
  0 <= a -> 0 <= size -> a + size <= 2 ^ 32 ->
  (forall es s' msg slots, wf (tables s') -> ext (heap (tables s)) (heap (tables s')) ->
     uniform (ps / 4096) (heap (tables s')) (ggtt_table ggtt) ->
     sink s' = sink s ++ [AddComment msg; WriteGttPages slots]
               ++ match memory with Some m => [WriteDiscontiguousPages m size es hint] | None => [] end ->
     concat (map entryBytes es)
       = map (translate 1 (heap (tables s')) (ggtt_table ggtt)) (seqZ a size) -> Q es s') ->
  wp (writeMemoryGGTT ndebug ggtt a memory size banks hint ps) Q s.
Proof.
  intros Hwf Hu Hps Ha Hsize Hov HQ. unfold writeMemoryGGTT, ggttWalk.
  set (msg := rangeComment _ _ _ _ _).
  apply wp_bind, wp_record, wp_bind, wp_runWalk. cbn [tables sink].
  eapply (wp_walkGGTT ndebug ggtt _ _ (walkStart (tables s)));
    [by apply walkStart_wf|exact Hu|done|done|lia|lia|done| |].
  { intros _. apply pagesLeft_fuel; lia. }
  intros w es Hw Hu' Hb. apply wp_bind, wp_record. cbn [tables sink].
  assert (He : entries (walker w) = es) by by destruct Hw as [_ ->].
  assert (HQ' : forall tail, tail = match memory with
      Some m => [WriteDiscontiguousPages m size es hint] | None => [] end ->
    Q es (mkStreamState (store w) (((sink s ++ [AddComment msg])
      ++ [WriteGttPages (nth 0 (pageWalkEntries (walker w)) [])]) ++ tail))).
  { intros tail ->. eapply HQ; cbn [tables sink]; [|exact (gwalked_ext _ _ _ _ _ Hw)|exact Hu'| |exact Hb].
    - by destruct (gwalked_wf _ _ _ _ _ Hw) as [H _].
    - by rewrite <- !app_assoc. }
  rewrite He. destruct memory as [m|].
  - apply wp_bind, wp_record, wp_ret. by apply HQ'.
  - apply wp_bind, wp_ret, wp_ret. specialize (HQ' [] eq_refl). by rewrite app_nil_r in HQ'.
Qed.

Lemma wp_writeMemoryGGTT (s : State) ggtt a bytes size banks hint ps
    (Q : list PageInfo -> State -> Prop) :
  wf (tables s) -> uniform (ps / 4096) (heap (tables s)) (ggtt_table ggtt) -> pageSizeOk ps ->
  0 <= a -> size = Z.of_nat (length bytes) -> a + size <= 2 ^ 32 ->
  (forall es s' calls, wf (tables s') -> ext (heap (tables s)) (heap (tables s')) ->
     uniform (ps / 4096) (heap (tables s')) (ggtt_table ggtt) ->
     sink s' = sink s ++ calls ->
     sent (heap (tables s')) (ggtt_table ggtt) a bytes calls -> Q es s') ->
  wp (writeMemoryGGTT ndebug ggtt a (Some bytes) size banks hint ps) Q s.
Proof.
  intros Hwf Hu Hps Ha -> Hov HQ. apply wp_reserveGGTT; try done; [lia|].
  intros es s' msg slots Hwf' Hx Hu' Hs Hb. eapply HQ; [done|done|done|exact Hs|].
  by exists msg, slots, es, hint.
Qed.

(** ** Events

    A submission one level up: writes at addresses of the global table, the poll
    of the engine, and the submission of a descriptor. *)

Inductive Event :=
| Wrote (a : Z) (bytes : list Z)
| Polled
| Submitted (d : MiContextDescriptorReg.t).

(** A context, the helper of its engine, its global table, the memory bank of
    the table and the address width of the context's page table. *)
Variable cs : CommandStreamerHelper.
Variable this i : nat.
Variable root : loc.
Variable bank : Z.
Variable bits : Z.

#[local] Abbreviation ps := (if isMemorySupported gpu bank 65536 then 65536 else 4096).

Definition pollCall : StreamCall :=
  RegisterPoll (engineRegister cs 0x2234) getPollForCompletionMask getPollForCompletionMask false
    CmdServicesMemTraceRegisterPoll.TimeoutActionValues.Abort.

Inductive eventCalls (h : gmap loc PageTable) : Event -> list StreamCall -> Prop :=
| wrote_calls a bytes calls :
    sent h root a bytes calls -> eventCalls h (Wrote a bytes) calls
| polled_calls : eventCalls h Polled [pollCall]
| submitted_calls d :
    eventCalls h (Submitted d)
      (submissionCalls cs (d :: replicate 7 MiContextDescriptorReg.zero)).

Definition sends (h : gmap loc PageTable) (es : list Event) (calls : list StreamCall) : Prop :=
  exists cl, calls = concat cl /\ Forall2 (eventCalls h) es cl.

Lemma eventCalls_ext h h' e calls : ext h h' -> eventCalls h e calls -> eventCalls h' e calls.
Proof. intros Hx []; constructor. by eapply sent_ext. Qed.

Lemma sends_nil h : sends h [] [].
Proof. by exists []. Qed.

Lemma sends_one h e calls : eventCalls h e calls -> sends h [e] calls.
Proof. exists [calls]. cbn. rewrite app_nil_r. split; [done|]. by constructor. Qed.

Lemma sends_app h h' es1 es2 calls1 calls2 :
  ext h h' -> sends h es1 calls1 -> sends h' es2 calls2 -> sends h' (es1 ++ es2) (calls1 ++ calls2).
Proof.
  intros Hx (l1 & -> & H1) (l2 & -> & H2). exists (l1 ++ l2). rewrite concat_app. split; [done|].
  apply Forall2_app; [|done]. eapply Forall2_impl; [exact H1|]. intros. by eapply eventCalls_ext.
Qed.

(** ** Steps of a context *)

Definition ggttHeap (w : Wd) : gmap loc PageTable := heap (tables (stream w)).

(** The context is [c], the root of its table is [root], with walks of one page size. *)
Record running (w : Wd) (c : HardwareContextImp) : Prop := {
  run_context : objects w !! this = Some c;
  run_traits : csTraits c = cs;
  run_index : ggtt c = i;
  run_ggtt : exists g, ggtts w !! i = Some g /\ ggtt_table g = root;
  run_wf : wf (tables (stream w));
  run_uniform : uniform (ps / 4096) (ggttHeap w) root;
  run_bank : exists p, ggttHeap w !! root = Some p
    /\ memoryBank p = bank;
  run_width : exists p, ggttHeap w !! ppgtt c = Some p
    /\ numAddressBits p = bits
}.

(** A change of the context and of the stream only, with the events it sends. *)
Record moved (c c' : HardwareContextImp) (w w' : Wd) (es : list Event) : Prop := {
  mv_objects : objects w' = <[this := c']> (objects w);
  mv_ggtts : ggtts w' = ggtts w;
  mv_groups : groups w' = groups w;
  mv_traits : csTraits c' = csTraits c;
  mv_index : ggtt c' = ggtt c;
  mv_ppgtt : ppgtt c' = ppgtt c;
  mv_wf : wf (tables (stream w'));
  mv_ext : ext (ggttHeap w) (ggttHeap w');
  mv_uniform : uniform (ps / 4096) (ggttHeap w') root;
  mv_calls : exists calls, sink (stream w') = sink (stream w) ++ calls
    /\ sends (ggttHeap w') es calls
}.

Lemma ps_ok : pageSizeOk ps.
Proof. unfold pageSizeOk. case_match; auto. Qed.

Lemma moved_refl w c : running w c -> moved c c w w [].
Proof.
  intros [H1 H2 H3 H4 H5 H6 H7 H8]. split; try done.
  - by rewrite insert_id.
  - exists []. rewrite app_nil_r. split; [done|apply sends_nil].
Qed.

Lemma moved_trans c1 c2 c3 w1 w2 w3 es1 es2 :
  moved c1 c2 w1 w2 es1 -> moved c2 c3 w2 w3 es2 -> moved c1 c3 w1 w3 (es1 ++ es2).
Proof.
  intros [O1 G1 R1 T1 I1 P1 F1 E1 U1 (l1 & S1 & C1)] [O2 G2 R2 T2 I2 P2 F2 E2 U2 (l2 & S2 & C2)].
  split; try congruence; try done.
  - by rewrite O2, O1, insert_insert_eq.
  - by etrans.
  - exists (l1 ++ l2). rewrite S2, S1, app_assoc. split; [done|]. by eapply sends_app.
Qed.

Lemma running_moved c c' w w' es : running w c -> moved c c' w w' es -> running w' c'.
Proof.
  intros [H1 H2 H3 H4 H5 H6 (p & Hp & Hps) (q & Hq & H48)] [O G R T I P F E U C].
  split; try congruence; try done.
  - by rewrite O, lookup_insert_eq.
  - by rewrite G.
  - destruct (E _ _ Hp) as (p' & Hp' & (_ & _ & _ & _ & Hb & _) & _). exists p'. by rewrite Hb.
  - rewrite P. destruct (E _ _ Hq) as (q' & Hq' & (_ & _ & _ & _ & _ & Hb & _) & _).
    exists q'. by rewrite Hb.
Qed.

(** [m] returns [b], changes the context to [c'] and sends the events. *)
Definition performs {B} (c : HardwareContextImp) (m : M Wd B) (b : B) (c' : HardwareContextImp)
    (es : list Event) : Prop :=
  forall w, running w c -> exists w', m w = Ok (b, w') /\ moved c c' w w' es.

Lemma performs_wp {B} c (m : M Wd B) b c' es :
  (forall w, running w c -> wp m (fun x w' => x = b /\ moved c c' w w' es) w) ->
  performs c m b c' es.
Proof. intros H w Hw. destruct (wp_run _ _ _ (H w Hw)) as (x & w' & Hm & -> & Hmv). by exists w'. Qed.

Lemma performs_ret {B} c (b : B) : performs c (mret b) b c [].
Proof. intros w Hw. exists w. split; [done|by apply moved_refl]. Qed.

Lemma performs_bind {B C} c (m : M Wd B) b c1 es1 (k : B -> M Wd C) x c2 es2 :
  performs c m b c1 es1 -> performs c1 (k b) x c2 es2 -> performs c (m ≫= k) x c2 (es1 ++ es2).
Proof.
  intros Hm Hk w Hw. destruct (Hm w Hw) as (w1 & H1 & M1).
  destruct (Hk w1 (running_moved _ _ _ _ _ Hw M1)) as (w2 & H2 & M2). exists w2.
  unfold mbind, M_bind. rewrite H1. split; [done|]. by eapply moved_trans.
Qed.

(** A first part that sends nothing. *)
Lemma performs_quiet {B C} c (m : M Wd B) b c1 (k : B -> M Wd C) x c2 es :
  performs c m b c1 [] -> performs c1 (k b) x c2 es -> performs c (m ≫= k) x c2 es.
Proof. apply performs_bind. Qed.

Lemma performs_getContext c : performs c (getContext this) c c [].
Proof.
  intros w Hw. exists w. unfold getContext. rewrite (run_context _ _ Hw).
  split; [done|by apply moved_refl].
Qed.

Lemma performs_updateState c f : performs c (updateState this f) tt (set_state f c) [].
Proof.
  intros w Hw. pose proof Hw as [H1 H2 H3 H4 H5 H6 H7 H8]. eexists.
  unfold updateState, getContext, mbind, M_bind. rewrite H1. split; [reflexivity|].
  split; try done. exists []. rewrite app_nil_r. split; [done|apply sends_nil].
Qed.

(** The reads of the global table. *)
Lemma performs_onTables {B} c (m : M (Store A) B) b :
  (forall w, running w c -> m (tables (stream w)) = Ok (b, tables (stream w))) ->
  performs c (onStream (onTables m)) b c [].
Proof.
  intros Hm w Hw. exists w. unfold onStream, onTables. rewrite (Hm w Hw).
  split; [by destruct w as [[]]|by apply moved_refl].
Qed.

Lemma performs_ggttBank c c0 : ggtt c0 = i -> performs c (HardwareContextImp.ggttBank c0) bank c [].
Proof.
  intros Hi. unfold HardwareContextImp.ggttBank. rewrite Hi.
  intros w Hw. destruct (run_bank _ _ Hw) as (p & Hp & Hb). unfold ggttHeap in Hp.
  destruct (run_ggtt _ _ Hw) as (g & Hg & <-). exists w.
  unfold getGGTT. unfold mbind, M_bind, onStream, onTables, deref. rewrite Hg, Hp. cbn. rewrite Hb.
  split; [by destruct w as [[]]|by apply moved_refl].
Qed.

Lemma performs_contextPageSize c c0 :
  ggtt c0 = i -> performs c (HardwareContextImp.contextPageSize gpu c0) ps c [].
Proof.
  intros Hi. unfold HardwareContextImp.contextPageSize.
  eapply performs_quiet; [by apply performs_ggttBank|]. apply performs_ret.
Qed.

Lemma performs_writeGGTT c c0 a bytes size hint :
  ggtt c0 = i -> 0 <= a -> size = Z.of_nat (length bytes) -> a + size <= 2 ^ 32 ->
  performs c (HardwareContextImp.writeGGTT ndebug c0 a (Some bytes) size hint ps) tt c
    [Wrote a bytes].
Proof.
  intros Hi Ha Hs Hov. unfold HardwareContextImp.writeGGTT. rewrite Hi.
  eapply performs_quiet; [by apply performs_ggttBank|]. cbn beta.
  apply performs_wp. intros w Hw. pose proof Hw as [H1 H2 H3 (g & H4 & Hg) H5 H6 H7 H8].
  apply wp_bind. eapply wp_getGGTT; [exact H4|]. apply wp_bind, wp_onStream.
  eapply wp_writeMemoryGGTT; [done|rewrite Hg; exact H6|apply ps_ok|done|done|done|].
  rewrite Hg. intros es s' calls Hwf Hx Hu Hsink Hsent. apply wp_ret. split; [done|].
  split; try done.
  - cbn. by rewrite insert_id.
  - exists calls. split; [done|]. by apply sends_one; constructor.
Qed.

(** ** The images *)

Lemma performs_updateLRCA c m b b' :
  pLRCA (state c) = Live b -> m b = Ok (tt, b') ->
  performs c (HardwareContextImp.updateLRCA this m) tt (set_state (set_pLRCA (Live b')) c) [].
Proof.
  intros Hb Hm. unfold HardwareContextImp.updateLRCA.
  eapply performs_quiet; [apply performs_getContext|]. cbn beta.
  eapply performs_quiet; [|apply performs_updateState].
  unfold onArray. rewrite Hb, Hm. apply performs_ret.
Qed.

Lemma performs_updateRingData c m b b' :
  csTraits c = cs -> family cs = Xe3pCore -> pRingData (state c) = Live b -> m b = Ok (tt, b') ->
  performs c (HardwareContextImp.updateRingData this m) tt
    (set_state (set_pRingData (Live b')) c) [].
Proof.
  intros Ht Hf Hb Hm. unfold HardwareContextImp.updateRingData.
  eapply performs_quiet; [apply performs_getContext|]. cbn beta. rewrite Ht, Hf, Hb.
  eapply performs_quiet; [|apply performs_updateState].
  unfold onArray. rewrite Hm. apply performs_ret.
Qed.

Lemma performs_noRingData c m :
  csTraits c = cs -> (family cs = Xe3pCore -> pRingData (state c) = NullPtr) ->
  performs c (HardwareContextImp.updateRingData this m) tt c [].
Proof.
  intros Ht Hn. unfold HardwareContextImp.updateRingData.
  eapply performs_quiet; [apply performs_getContext|]. cbn beta. rewrite Ht.
  destruct (family cs); try apply performs_ret. rewrite Hn by done. apply performs_ret.
Qed.

Lemma performs_writeArray c c0 p b a offset size hint :
  ggtt c0 = i -> p = Live b -> 0 <= a -> a + size <= 2 ^ 32 ->
  size = Z.of_nat (length (bufferBytes offset size b)) ->
  performs c (HardwareContextImp.writeArray ndebug c0 p a offset size hint ps) tt c
    [Wrote a (bufferBytes offset size b)].
Proof.
  intros Hi -> Ha Hov Hs. unfold HardwareContextImp.writeArray.
  eapply performs_quiet; [apply performs_ret|]. by apply performs_writeGGTT.
Qed.

(** ** Poll and submission *)

Lemma performs_send c (m : M Trace unit) e calls :
  (forall t, m t = Ok (tt, t ++ calls)) -> (forall h, eventCalls h e calls) ->
  performs c (onStream (onSink m)) tt c [e].
Proof.
  intros Hm He w Hw. pose proof Hw as [H1 H2 H3 H4 H5 H6 H7 H8]. eexists.
  unfold onStream, onSink. rewrite Hm. split; [reflexivity|].
  split; try done; [by cbn; rewrite insert_id|].
  exists calls. split; [done|]. by apply sends_one.
Qed.

Lemma performs_poll c :
  csTraits c = cs -> performs c (HardwareContextImp.pollForCompletion ndebug this) tt c [Polled].
Proof.
  intros Ht. unfold HardwareContextImp.pollForCompletion.
  eapply performs_quiet; [apply performs_getContext|]. cbn [memoryBasedPollForCompletion].
  rewrite Ht. by eapply performs_send; [|intros; constructor].
Qed.

Definition ownDescriptor (c : HardwareContextImp) : MiContextDescriptorReg.t :=
  contextDescriptor cs (ggttLRCA (state c)) (negb (bits =? 32)) (contextId c) (priority c).

Lemma performs_resubmit c :
  csTraits c = cs -> contextGroupId (state c) = noGroup ->
  performs c (HardwareContextImp.resubmit ndebug this) tt c [Submitted (ownDescriptor c)].
Proof.
  intros Ht Hg. unfold HardwareContextImp.resubmit.
  eapply performs_quiet; [apply performs_getContext|]. cbn beta. rewrite Ht, Hg. cbn [negb].
  intros w Hw. destruct (run_width _ _ Hw) as (p & Hp & H48).
  assert (Hd : onStream (onTables (deref (ppgtt c))) w = Ok (p, w)).
  { unfold onStream, onTables, deref. unfold ggttHeap in Hp. rewrite Hp. by destruct w as [[]]. }
  unfold mbind at 1, M_bind at 1. rewrite Hd. rewrite Z.eqb_refl. cbn [negb]. rewrite H48.
  apply (performs_send c _ _ (submissionCalls cs
    (ownDescriptor c :: replicate 7 MiContextDescriptorReg.zero))); [|by constructor|done].
  intros t. by apply submitContext_run.
Qed.

(** ** The commands *)

Lemma length_dwordBytes l : length (HardwareContextImp.dwordBytes l) = (4 * length l)%nat.
Proof.
  unfold HardwareContextImp.dwordBytes. induction l as [|x l IH]; [done|].
  cbn [map concat]. rewrite length_app, length_leBytes, IH. cbn. lia.
Qed.

Lemma dwordBytes_app l1 l2 :
  HardwareContextImp.dwordBytes (l1 ++ l2)
  = HardwareContextImp.dwordBytes l1 ++ HardwareContextImp.dwordBytes l2.
Proof. unfold HardwareContextImp.dwordBytes. by rewrite map_app, concat_app. Qed.

Lemma dwordBytes_zeros n : HardwareContextImp.dwordBytes (replicate n 0) = replicate (4 * n) 0.
Proof.
  induction n as [|n IH]; [done|]. replace (4 * S n)%nat with (4 + 4 * n)%nat by lia.
  rewrite replicate_add, <- IH. done.
Qed.

(** The commands are whole qwords and far fewer than the ring holds. *)
Lemma length_ringCommands a fence v :
  exists k, length (HardwareContextImp.ringCommands cs a fence v) = (2 * k)%nat /\ (0 < k <= 11)%nat.
Proof.
  unfold HardwareContextImp.ringCommands, addBatchBufferJump, addFlushCommands, storeFenceValue.
  destruct (family cs), (engineClass cs);
    solve [exists 11%nat; split; [reflexivity|lia] | exists 8%nat; split; [reflexivity|lia]].
Qed.

(** ** Contexts a submission can run on *)

Record ringOk (c : HardwareContextImp) : Prop := {
  ro_traits : csTraits c = cs;
  ro_index : ggtt c = i;
  ro_tail : 0 <= ringTail (state c) < ringSize;
  ro_ring : 0 <= ggttRing (state c) /\ ggttRing (state c) + ringSize <= 2 ^ 32;
  ro_image : exists b, pLRCA (state c) = Live b /\ (2048 <= length b)%nat;
  ro_lrca : 0 <= ggttLRCA (state c) /\ ggttLRCA (state c) + 0x2000 <= 2 ^ 32;
  ro_ringData : if isRingDataEnabled cs
    then (exists b, pRingData (state c) = Live b /\ (6 <= length b)%nat)
      /\ 0 <= ringData (state c) /\ ringData (state c) + 4096 <= 2 ^ 32
    else family cs = Xe3pCore -> pRingData (state c) = NullPtr;
  ro_alone : contextGroupId (state c) = noGroup
}.

(** Whether a submission of [n] bytes starts over, and where it starts. *)
Definition wraps (c : HardwareContextImp) (n : Z) : bool := ringSize <=? ringTail (state c) + n.
Definition startOf (c : HardwareContextImp) (n : Z) : Z :=
  if wraps c n then 0 else ringTail (state c).

Definition rewound (c : HardwareContextImp) (n : Z) : HardwareContextImp :=
  if wraps c n then set_state (set_ringTail 0) c else c.

Definition wrapEvents (c : HardwareContextImp) (n : Z) : list Event :=
  if wraps c n
  then [Wrote (ggttRing (state c) + ringTail (state c))
          (replicate (Z.to_nat (ringSize - ringTail (state c))) 0); Polled]
  else [].

Lemma take_dwordBytes_zeros n :
  take n (HardwareContextImp.dwordBytes (replicate n 0)) = replicate n 0.
Proof. rewrite dwordBytes_zeros, take_replicate. f_equal. lia. Qed.

Lemma performs_wrapRing c n :
  ringOk c -> 0 <= n < ringSize ->
  performs c (HardwareContextImp.wrapRing ndebug this n ps) tt (rewound c n) (wrapEvents c n).
Proof.
  intros [Ht Hi [Htl Hth] [Hr1 Hr2] _ _ _ _] Hn. unfold HardwareContextImp.wrapRing.
  eapply performs_quiet; [apply performs_getContext|]. cbn beta zeta.
  unfold rewound, wrapEvents, wraps. unfold ringSize in *.
  rewrite (wrap_small 32 (ringTail _ + n)) by (unfold in_width; lia).
  destruct (Z.leb_spec 16384 (ringTail (state c) + n)) as [Hw|Hw]; cbn [when]; [|apply performs_ret].
  rewrite (wrap_small 32) by (unfold in_width; lia). rewrite take_dwordBytes_zeros.
  change [Wrote ?a ?b; Polled] with ([Wrote a b] ++ ([] ++ [Polled])).
  eapply performs_bind;
    [apply performs_writeGGTT; [done|lia|rewrite length_replicate; lia|lia]|]. cbn beta.
  eapply performs_bind; [apply performs_updateState|]. by apply performs_poll.
Qed.

(** The registers that change, and the first dword of the images they are in. *)
Definition registerWords (overrideRingHead : bool) (head tail : Z) : list Z :=
  let t := [engineRegister cs 0x2030; tail] in
  if overrideRingHead then engineRegister cs 0x2034 :: head :: t else t.
Definition registerOffset (overrideRingHead : bool) : Z :=
  if overrideRingHead then offsetRingHead else offsetRingTail.

Definition imageIndex (overrideRingHead : bool) : nat := if overrideRingHead then 1028%nat else 1030%nat.
Definition ringDataIndex (overrideRingHead : bool) : nat := if overrideRingHead then 2%nat else 4%nat.

(** The context after the update of the registers: the image [b], and the array of
    the ring state. *)
Definition withImages (p q : HostArray) (c : HardwareContextImp) : HardwareContextImp :=
  set_state (fun s => set_pRingData q (set_pLRCA p s)) c.

Lemma performs_setTail c b t :
  csTraits c = cs -> pLRCA (state c) = Live b -> (2048 <= length b)%nat ->
  performs c (HardwareContextImp.updateLRCA this (setRingTail cs t)) tt
    (set_state (set_pLRCA (Live (storeAt 1030 [engineRegister cs 0x2030; t] b))) c) [].
Proof.
  intros Ht Hb Hl. eapply performs_updateLRCA; [done|].
  apply (storeDwords_run 1030). cbn. lia.
Qed.

Lemma performs_setHead c b t :
  csTraits c = cs -> pLRCA (state c) = Live b -> (2048 <= length b)%nat ->
  performs c (HardwareContextImp.updateLRCA this (setRingHead cs t)) tt
    (set_state (set_pLRCA (Live (storeAt 1028 [engineRegister cs 0x2034; t] b))) c) [].
Proof.
  intros Ht Hb Hl. eapply performs_updateLRCA; [done|].
  apply (storeDwords_run 1028). cbn. lia.
Qed.

(** The array of the ring state after a store. *)
Definition dataOk (p : HostArray) : Prop :=
  if isRingDataEnabled cs then exists b, p = Live b /\ (6 <= length b)%nat
  else family cs = Xe3pCore -> p = NullPtr.

Definition storedData (j : nat) (words : list Z) (p : HostArray) : HostArray :=
  match p with
  | Live b => if isRingDataEnabled cs then Live (storeAt j words b) else p
  | _ => p
  end.

Lemma dataOk_stored j words p :
  dataOk p -> (j + length words <= 6)%nat -> dataOk (storedData j words p).
Proof.
  unfold dataOk, storedData. destruct (isRingDataEnabled cs); [|by destruct p].
  intros (b & -> & Hl) Hj. eexists. split; [done|]. rewrite length_storeAt; lia.
Qed.

Lemma storedData_adjacent j words1 words2 p :
  dataOk p -> (j + length words1 + length words2 <= 6)%nat ->
  storedData (j + length words1) words2 (storedData j words1 p) = storedData j (words1 ++ words2) p.
Proof.
  unfold dataOk, storedData. destruct (isRingDataEnabled cs) eqn:He; [|by destruct p].
  intros (b & -> & Hl) Hj. rewrite storeAt_adjacent by lia. done.
Qed.

Lemma performs_storeData c j words (m : M Buffer unit) :
  csTraits c = cs -> dataOk (pRingData (state c)) -> (j + length words <= 6)%nat ->
  (family cs = Xe3pCore -> m = storeDwords (4 * Z.of_nat j) words) ->
  performs c (HardwareContextImp.updateRingData this m) tt
    (set_state (fun s => set_pRingData (storedData j words (pRingData s)) s) c) [].
Proof.
  intros Ht Hd Hj Hm. unfold dataOk in Hd. unfold storedData.
  destruct (isRingDataEnabled cs) eqn:He.
  - destruct Hd as (b & Hb & Hl).
    assert (Hf : family cs = Xe3pCore)
      by (clear -He; unfold isRingDataEnabled in He; by destruct (family cs)).
    replace (set_state _ c) with (set_state (set_pRingData (Live (storeAt j words b))) c)
      by (unfold set_state; by rewrite Hb).
    apply performs_updateRingData with (b := b); [done|done|done|].
    rewrite Hm by done. apply storeDwords_run. lia.
  - replace (set_state _ c) with c; [by apply performs_noRingData|].
    destruct c as [? ? ? ? ? ? ? ? ? [? ? p ? ? ? ? ? ? ?]]. by destruct p.
Qed.

Lemma length_storePair j x y b :
  (j + 2 <= length b)%nat -> length (storeAt j [x; y] b) = length b.
Proof. intros Hl. by apply length_storeAt. Qed.

Lemma performs_updateRingRegisters c o head b :
  csTraits c = cs -> pLRCA (state c) = Live b -> (2048 <= length b)%nat ->
  dataOk (pRingData (state c)) ->
  let words := registerWords o head (ringTail (state c)) in
  performs c (HardwareContextImp.updateRingRegisters this o head)
    (registerOffset o, 4 * Z.of_nat (length words))
    (withImages (Live (storeAt (imageIndex o) words b))
       (storedData (ringDataIndex o) words (pRingData (state c))) c) [].
Proof.
  intros Ht Hb Hl Hd. unfold HardwareContextImp.updateRingRegisters.
  eapply performs_quiet; [apply performs_getContext|]. cbn beta zeta. rewrite Ht.
  set (t := ringTail (state c)). destruct o; cbn [registerOffset registerWords imageIndex ringDataIndex].
  - eapply performs_quiet; [by apply performs_setHead|]. cbn beta.
    eapply performs_quiet;
      [apply (performs_setTail _ (storeAt 1028 [engineRegister cs 0x2034; head] b));
        [exact Ht|reflexivity|by rewrite length_storePair by lia]|].
    eapply performs_quiet;
      [apply (performs_storeData _ 2 [engineRegister cs 0x2034; head]); try done; [cbn; lia|]|].
    { intros Hf. unfold setRingDataHead, getRingDataOffset. by rewrite Hf. }
    eapply performs_quiet;
      [apply (performs_storeData _ 4 [engineRegister cs 0x2030; t]); try done|].
    { apply dataOk_stored; [exact Hd|cbn; lia]. }
    { intros Hf. unfold setRingDataTail, getRingDataOffset. by rewrite Hf. }
    cbn beta.
    change [engineRegister cs 0x2034; head; engineRegister cs 0x2030; t]
      with ([engineRegister cs 0x2034; head] ++ [engineRegister cs 0x2030; t]).
    rewrite <- (storeAt_adjacent 1028 [engineRegister cs 0x2034; head]
      [engineRegister cs 0x2030; t] b) by (cbn [length]; lia).
    rewrite <- (storedData_adjacent 2) by (done || (cbn; lia)).
    apply performs_ret.
  - eapply performs_quiet; [by apply performs_setTail|]. cbn beta.
    eapply performs_quiet; [apply (performs_storeData _ 4 [engineRegister cs 0x2030; t]); try done|].
    { intros Hf. unfold setRingDataTail, getRingDataOffset. by rewrite Hf. }
    apply performs_ret.
Qed.

(** ** The submission *)

(** Where the registers are in the images, as seen by the engine. *)
Definition registersAt (o : bool) (c : HardwareContextImp) : Z :=
  ggttLRCA (state c) + 0x1010 + registerOffset o.
Definition ringDataAt (o : bool) (c : HardwareContextImp) : Z :=
  ringData (state c) + 8 + registerOffset o.

Definition registerBytes (words : list Z) : list Z :=
  HardwareContextImp.dwordBytes (map (wrap 32) words).

Definition imageEvents (c : HardwareContextImp) (o : bool) (words : list Z) : list Event :=
  Wrote (registersAt o c) (registerBytes words)
  :: (if isRingDataEnabled cs then [Wrote (ringDataAt o c) (registerBytes words)] else []).

Lemma length_registerWords o head tail : (length (registerWords o head tail) <= 4)%nat.
Proof. destruct o; cbn; lia. Qed.

Lemma length_registerBytes words : length (registerBytes words) = (4 * length words)%nat.
Proof. unfold registerBytes. by rewrite length_dwordBytes, length_map. Qed.

(** The registers of an image from its array. *)
Lemma performs_writeRegisters c c0 p j words b a hint :
  ggtt c0 = i -> p = Live (storeAt j words b) -> (j + length words <= length b)%nat ->
  0 <= a -> a + 4 * Z.of_nat (length words) <= 2 ^ 32 ->
  performs c (HardwareContextImp.writeArray ndebug c0 p a (4 * Z.of_nat j)
    (4 * Z.of_nat (length words)) hint ps) tt c [Wrote a (registerBytes words)].
Proof.
  intros Hi Hp Hl Ha Hov.
  assert (Hb : bufferBytes (4 * Z.of_nat j) (4 * Z.of_nat (length words)) (storeAt j words b)
               = registerBytes words) by by apply bufferBytes_storeAt.
  rewrite <- Hb. apply performs_writeArray; [done|done|done|done|].
  rewrite Hb, length_registerBytes. lia.
Qed.

Lemma imageIndex_offset o : offsetContext + offsetRingRegisters + registerOffset o = 4 * Z.of_nat (imageIndex o).
Proof. by destruct o. Qed.
Lemma ringDataIndex_offset o :
  isRingDataEnabled cs = true -> getRingDataOffset cs + registerOffset o = 4 * Z.of_nat (ringDataIndex o).
Proof.
  unfold isRingDataEnabled, getRingDataOffset. destruct (family cs); try done. by destruct o.
Qed.

Lemma performs_writeRingRegisters c o words b q :
  csTraits c = cs -> ggtt c = i ->
  pLRCA (state c) = Live (storeAt (imageIndex o) words b) -> (2048 <= length b)%nat ->
  (length words <= 4)%nat -> (o = false -> (length words <= 2)%nat) ->
  pRingData (state c) = storedData (ringDataIndex o) words q -> dataOk q ->
  (0 <= ggttLRCA (state c) /\ ggttLRCA (state c) + 0x2000 <= 2 ^ 32) ->
  (isRingDataEnabled cs = true -> 0 <= ringData (state c) /\ ringData (state c) + 4096 <= 2 ^ 32) ->
  performs c (HardwareContextImp.writeRingRegisters ndebug this (registerOffset o)
    (4 * Z.of_nat (length words)) ps) tt c (imageEvents c o words).
Proof.
  intros Ht Hi Hb Hl Hw Hw2 Hq Hd Hlrca Hdata. unfold HardwareContextImp.writeRingRegisters.
  eapply performs_quiet; [apply performs_getContext|]. cbn beta zeta. rewrite Ht.
  assert (Hro : 0 <= registerOffset o <= 8) by (destruct o; split; discriminate).
  rewrite imageIndex_offset.
  rewrite <- imageIndex_offset at 1. change (offsetContext + offsetRingRegisters) with 0x1010.
  unfold imageEvents. change (Wrote ?x ?y :: ?l) with ([Wrote x y] ++ l).
  rewrite (wrap_small 32 (ggttLRCA (state c) + _)) by (unfold in_width; lia).
  eapply performs_bind.
  { replace (ggttLRCA (state c) + (0x1010 + registerOffset o)) with (registersAt o c)
      by (unfold registersAt; lia).
    eapply performs_writeRegisters; [done|exact Hb| |unfold registersAt; lia|unfold registersAt; lia].
    destruct o; unfold imageIndex; lia. }
  cbn beta. destruct (isRingDataEnabled cs) eqn:He; cbn [when]; [|apply performs_ret].
  specialize (Hdata eq_refl). unfold dataOk in Hd. rewrite He in Hd. destruct Hd as (d & -> & Hdl).
  unfold storedData in Hq. rewrite He in Hq.
  rewrite ringDataIndex_offset by done. rewrite <- ringDataIndex_offset at 1 by done.
  assert (Ho : getRingDataOffset cs = 8).
  { clear -He. unfold isRingDataEnabled in He. unfold getRingDataOffset. by destruct (family cs). }
  rewrite Ho, (wrap_small 32 (ringData (state c) + _)) by (unfold in_width; lia).
  replace (ringData (state c) + (8 + registerOffset o)) with (ringDataAt o c)
    by (unfold ringDataAt; lia).
  eapply performs_writeRegisters; [done|exact Hq| |unfold ringDataAt; lia|unfold ringDataAt; lia].
  destruct o; unfold ringDataIndex; [lia|]. specialize (Hw2 eq_refl). lia.
Qed.

Definition commandsOf (c : HardwareContextImp) (a : Z) : list Z :=
  HardwareContextImp.ringCommands cs a (ggttContextFence (state c))
    (u32 (contextFenceValue (state c) + 1)).
Definition commandSize (c : HardwareContextImp) (a : Z) : Z := 4 * Z.of_nat (length (commandsOf c a)).

Definition headOf (c : HardwareContextImp) (a : Z) : Z := startOf c (commandSize c a).
Definition tailOf (c : HardwareContextImp) (a : Z) : Z := headOf c a + commandSize c a.

Definition storedImage (j : nat) (words : list Z) (p : HostArray) : HostArray :=
  match p with Live b => Live (storeAt j words b) | _ => p end.

(** The context after a submission. *)
Definition submitted (c : HardwareContextImp) (o : bool) (a : Z) : HardwareContextImp :=
  let words := registerWords o (headOf c a) (tailOf c a) in
  withImages (storedImage (imageIndex o) words (pLRCA (state c)))
    (storedData (ringDataIndex o) words (pRingData (state c)))
    (set_state (fun s => set_ringTail (tailOf c a)
       (set_contextFenceValue (u32 (contextFenceValue s + 1)) s)) c).

(** The events of a submission. *)
Definition submissionEvents (c : HardwareContextImp) (o : bool) (a : Z) : list Event :=
  wrapEvents c (commandSize c a)
  ++ [Wrote (ggttRing (state c) + headOf c a) (HardwareContextImp.dwordBytes (commandsOf c a))]
  ++ imageEvents c o (registerWords o (headOf c a) (tailOf c a))
  ++ [Submitted (ownDescriptor c)].

Lemma commandSize_bounds c a : 0 < commandSize c a <= 88 /\ commandSize c a mod 8 = 0.
Proof.
  unfold commandSize, commandsOf.
  destruct (length_ringCommands a (ggttContextFence (state c)) (u32 (contextFenceValue (state c) + 1)))
    as (k & -> & Hk). split; [lia|].
  replace (4 * Z.of_nat (2 * k)) with (Z.of_nat k * 8) by lia. by apply Z.mod_mul.
Qed.

Lemma headOf_bounds c a :
  ringOk c -> 0 <= headOf c a /\ tailOf c a < ringSize.
Proof.
  intros [_ _ Ht _ _ _ _ _]. pose proof (commandSize_bounds c a) as [Hs _].
  unfold tailOf, headOf, startOf, wraps. unfold ringSize in *.
  destruct (Z.leb_spec 16384 (ringTail (state c) + commandSize c a)); lia.
Qed.

Lemma dataOk_ring c : ringOk c -> dataOk (pRingData (state c)).
Proof.
  intros [_ _ _ _ _ _ Hd _]. unfold dataOk. destruct (isRingDataEnabled cs); [by destruct Hd|done].
Qed.

Lemma performs_submitBatchBuffer c a o :
  ringOk c ->
  performs c (HardwareContextImp.submitBatchBuffer ndebug gpu this a o) tt (submitted c o a)
    (submissionEvents c o a).
Proof.
  intros Hok. pose proof Hok as [Ht Hi Htl Hr (b & Hb & Hl) Hlr Hd Hg].
  pose proof (dataOk_ring c Hok) as Hdata. pose proof (headOf_bounds c a Hok) as [Hh1 Hh2].
  destruct (commandSize_bounds c a) as [Hs _].
  unfold HardwareContextImp.submitBatchBuffer.
  eapply performs_quiet; [apply performs_getContext|]. cbn beta zeta. rewrite Ht.
  fold (commandsOf c a).
  eapply performs_quiet; [by apply performs_contextPageSize|]. cbn beta.
  rewrite (Z.mul_comm _ 4), wrap_small by (unfold in_width; fold (commandSize c a); lia).
  fold (commandSize c a).
  eapply performs_bind; [apply performs_wrapRing; [done|unfold ringSize; lia]|]. cbn beta.
  eapply performs_quiet; [apply performs_updateState|]. cbn beta.
  eapply performs_quiet; [apply performs_getContext|]. cbn beta.
  set (c1 := set_state _ (rewound c (commandSize c a))).
  assert (Hc1 : c1 = set_state (fun s => set_ringTail (headOf c a)
                   (set_contextFenceValue (u32 (contextFenceValue s + 1)) s)) c).
  { unfold c1, rewound, headOf, startOf. destruct (wraps c (commandSize c a)); [done|].
    by destruct c as [? ? ? ? ? ? ? ? ? []]. }
  rewrite Hc1. cbn [ggtt csTraits state set_state set_ringTail set_contextFenceValue ringTail ggttRing].
  rewrite !wrap_small by (unfold in_width; unfold tailOf, ringSize in *; lia).
  fold (tailOf c a).
  eapply performs_bind.
  { apply performs_writeGGTT; [exact Hi|lia| |unfold tailOf, ringSize in *; lia].
    rewrite length_dwordBytes. unfold commandSize. lia. }
  cbn beta.
  eapply performs_quiet; [apply performs_updateState|]. cbn beta.
  set (c2 := set_state (set_ringTail (tailOf c a)) _).
  eapply performs_quiet; [by apply (performs_updateRingRegisters c2 o (headOf c a) b)|].
  cbn beta. cbn [fst snd].
  change (ringTail (state c2)) with (tailOf c a).
  set (words := registerWords o (headOf c a) (tailOf c a)).
  assert (Hsub : withImages (Live (storeAt (imageIndex o) words b))
                   (storedData (ringDataIndex o) words (pRingData (state c2))) c2 = submitted c o a).
  { unfold submitted. rewrite Hb. reflexivity. }
  rewrite Hsub.
  eapply performs_bind.
  { change (imageEvents c o words) with (imageEvents (submitted c o a) o words).
    apply (performs_writeRingRegisters _ o words b (pRingData (state c))); try done.
    - unfold submitted. by rewrite Hb.
    - apply length_registerWords.
    - intros ->. cbn. lia.
    - intros He. rewrite He in Hd. by destruct Hd. }
  cbn beta. eapply performs_quiet; [apply performs_ret|].
  change (ownDescriptor c) with (ownDescriptor (submitted c o a)). by apply performs_resubmit.
Qed.

Lemma submitted_ok c o a : ringOk c -> ringOk (submitted c o a).
Proof.
  intros Hok. pose proof Hok as [Ht Hi Htl Hr (b & Hb & Hl) Hlr Hd Hg].
  pose proof (headOf_bounds c a Hok). pose proof (commandSize_bounds c a) as [Hs _].
  split; try done.
  - cbn. unfold tailOf in *. lia.
  - unfold submitted. cbn. rewrite Hb. eexists. split; [done|].
    rewrite length_storeAt; [done|]. destruct o; cbn [imageIndex registerWords length]; lia.
  - cbn. pose proof (dataOk_stored (ringDataIndex o) (registerWords o (headOf c a) (tailOf c a))
      _ (dataOk_ring c Hok) ltac:(destruct o; cbn; lia)) as Hst. unfold dataOk in Hst.
    destruct (isRingDataEnabled cs); [|done]. by destruct Hd.
Qed.
End Ring.
