(* ===== verification/RingCorrect.v ===== *)
(** * What the engine finds in the ring

    The events of submissions applied to the memory behind the global table: the
    bytes from the old tail to the new one are the commands of the submission,
    and no command is written over before the engine was polled. *)

From S2P Require Import Prelude Allocator MemoryBanks PageTable TableTheory Walker WalkerTheory.
From S2P Require Import WalkCorrect GlobalTable AubPackets AubStream StreamTheory.
From S2P Require Import CommandStreamer ContextImage HardwareContext ContextGroups RingTheory.
#[local] Open Scope Z_scope.

(** ** Memory behind the global table *)

Definition Mem : Type := Z -> Z.

Definition writeBytes (a : Z) (bytes : list Z) (mem : Mem) : Mem :=
  fun x => if a <=? x then default (mem x) (bytes !! Z.to_nat (x - a)) else mem x.

Definition applyEvent (mem : Mem) (e : Event) : Mem :=
  match e with Wrote a bytes => writeBytes a bytes mem | _ => mem end.

Definition applyEvents (es : list Event) (mem : Mem) : Mem := foldl applyEvent mem es.

Definition readAt (mem : Mem) (a n : Z) : list Z := map mem (seqZ a n).

(** The bytes of the ring from one offset to another, going around its end. *)
Definition ringBytes (mem : Mem) (ring from to : Z) : list Z :=
  if from <? to then readAt mem (ring + from) (to - from)
  else readAt mem (ring + from) (ringSize - from) ++ readAt mem ring to.

(** The event writes only outside of a range. *)
Definition avoids (a n : Z) (e : Event) : Prop :=
  match e with
  | Wrote b bytes => b + Z.of_nat (length bytes) <= a \/ a + n <= b
  | _ => True
  end.

Lemma writeBytes_other a bytes mem x :
  x < a \/ a + Z.of_nat (length bytes) <= x -> writeBytes a bytes mem x = mem x.
Proof.
  intros Hx. unfold writeBytes. destruct (Z.leb_spec a x); [|done].
  by rewrite lookup_ge_None_2 by lia.
Qed.

Lemma readAt_ext mem mem' a n :
  (forall x, a <= x < a + n -> mem x = mem' x) -> readAt mem a n = readAt mem' a n.
Proof.
  intros H. unfold readAt. apply map_ext_in. intros x Hx. apply H.
  apply list_elem_of_In, elem_of_seqZ in Hx. lia.
Qed.

Lemma readAt_written a bytes mem n :
  n = Z.of_nat (length bytes) -> readAt (writeBytes a bytes mem) a n = bytes.
Proof.
  intros ->. unfold readAt. apply list_eq. intros k. rewrite list_lookup_fmap.
  destruct (decide (k < length bytes)%nat) as [Hk|Hk].
  - rewrite lookup_seqZ_lt by lia. cbn. unfold writeBytes.
    rewrite (proj2 (Z.leb_le _ _)) by lia. replace (a + Z.of_nat k - a) with (Z.of_nat k) by lia.
    rewrite Nat2Z.id. destruct (lookup_lt_is_Some_2 bytes k Hk) as [b ->]. done.
  - rewrite lookup_seqZ_ge by lia. by rewrite lookup_ge_None_2 by lia.
Qed.

Lemma applyEvents_app es1 es2 mem : applyEvents (es1 ++ es2) mem = applyEvents es2 (applyEvents es1 mem).
Proof. apply foldl_app. Qed.

Lemma readAt_avoids es : forall mem a n,
  Forall (avoids a n) es -> readAt (applyEvents es mem) a n = readAt mem a n.
Proof.
  induction es as [|e es IH]; intros mem a n Ha; [done|]. apply Forall_cons in Ha as [He Ha].
  change (applyEvents (e :: es) mem) with (applyEvents es (applyEvent mem e)). rewrite IH by done.
  destruct e as [b bytes| |d]; try done. cbn in He.
  apply readAt_ext. intros x Hx. apply writeBytes_other. lia.
Qed.

(** The last write to a range. *)
Lemma readAt_last es1 a bytes es2 mem n :
  n = Z.of_nat (length bytes) -> Forall (avoids a n) es2 ->
  readAt (applyEvents (es1 ++ Wrote a bytes :: es2) mem) a n = bytes.
Proof.
  intros Hn Ha. rewrite applyEvents_app.
  change (applyEvents (Wrote a bytes :: es2) ?m) with (applyEvents es2 (writeBytes a bytes m)).
  rewrite readAt_avoids by done. by apply readAt_written.
Qed.

(** ** The regions of a context *)

Definition disjointRanges (a n b m : Z) : Prop := a + n <= b \/ b + m <= a.

Record apart (c : HardwareContextImp) : Prop := {
  ap_image : disjointRanges (ggttRing (state c)) ringSize (ggttLRCA (state c)) 0x2000;
  ap_ringData : isRingDataEnabled (csTraits c) = true ->
    disjointRanges (ggttRing (state c)) ringSize (ringData (state c)) 4096
    /\ disjointRanges (ggttLRCA (state c)) 0x2000 (ringData (state c)) 4096
}.

Section Submission.
Variable cs : CommandStreamerHelper.
Variable i : nat.
Variable bits : Z.
Implicit Types c : HardwareContextImp.

Lemma length_registers o head tail :
  Z.of_nat (length (registerBytes (registerWords cs o head tail))) = if o then 16 else 8.
Proof. rewrite length_registerBytes. by destruct o. Qed.

Lemma registerOffset_bounds o : 0 <= registerOffset o <= 8.
Proof. destruct o; split; discriminate. Qed.

(** The writes of the images stay out of the ring. *)
Lemma imageEvents_avoid c o head tail a n :
  csTraits c = cs -> apart c -> ggttRing (state c) <= a -> a + n <= ggttRing (state c) + ringSize ->
  0 <= n ->
  Forall (avoids a n) (imageEvents cs c o (registerWords cs o head tail)).
Proof.
  intros Ht [Hi Hd] Ha Hn Hn0. rewrite Ht in Hd. unfold imageEvents, registersAt, ringDataAt.
  pose proof (registerOffset_bounds o). pose proof (length_registers o head tail) as Hl.
  unfold disjointRanges in *.
  constructor; [cbn; rewrite Hl; destruct o; lia|].
  destruct (isRingDataEnabled cs); [|done]. destruct (Hd eq_refl) as [H1 H2].
  constructor; [|done]. cbn. rewrite Hl. destruct o; lia.
Qed.

(** What the engine reads between the tails. *)
Lemma submission_ringBytes c o a mem :
  ringOk cs i c -> apart c ->
  ringBytes (applyEvents (submissionEvents cs bits c o a) mem) (ggttRing (state c))
    (ringTail (state c)) (tailOf cs c a)
  = (if wraps c (commandSize cs c a)
     then replicate (Z.to_nat (ringSize - ringTail (state c))) 0 else [])
    ++ HardwareContextImp.dwordBytes (commandsOf cs c a).
Proof.
  intros Hok Hap. pose proof (commandSize_bounds cs c a) as [Hs _].
  pose proof (headOf_bounds cs i c a Hok) as [Hh1 Hh2].
  pose proof (ro_tail _ _ _ Hok) as Ht. pose proof (ro_traits _ _ _ Hok) as Hcs.
  assert (Hcl : commandSize cs c a = Z.of_nat (length (HardwareContextImp.dwordBytes (commandsOf cs c a))))
    by (rewrite length_dwordBytes; unfold commandSize; lia).
  set (cmds := HardwareContextImp.dwordBytes (commandsOf cs c a)) in *.
  set (rest := imageEvents cs c o (registerWords cs o (headOf cs c a) (tailOf cs c a))
               ++ [Submitted (ownDescriptor cs bits c)]).
  assert (Hrest : forall b n, ggttRing (state c) <= b -> b + n <= ggttRing (state c) + ringSize ->
            0 <= n -> Forall (avoids b n) rest).
  { intros b n H1 H2 H3. apply Forall_app. split; [by apply imageEvents_avoid|by repeat constructor]. }
  assert (Hev : submissionEvents cs bits c o a
    = wrapEvents c (commandSize cs c a) ++ Wrote (ggttRing (state c) + headOf cs c a) cmds :: rest)
    by done.
  rewrite Hev. clear Hev. unfold ringBytes, tailOf, headOf, startOf, wrapEvents in *.
  destruct (wraps c (commandSize cs c a)) eqn:Hw.
  - unfold wraps in Hw. apply Z.leb_le in Hw. unfold ringSize in *.
    rewrite (proj2 (Z.ltb_ge _ _)) by lia. f_equal.
    + set (late := Wrote (ggttRing (state c) + 0) cmds :: rest).
      change (([Wrote ?x ?y; Polled]) ++ late) with ([] ++ Wrote x y :: Polled :: late).
      apply readAt_last; [rewrite length_replicate; lia|].
      constructor; [done|]. constructor; [cbn; lia|]. apply Hrest; lia.
    + rewrite Z.add_0_r. rewrite Z.add_0_l. apply readAt_last; [done|]. apply Hrest; lia.
  - unfold wraps in Hw. apply Z.leb_gt in Hw.
    rewrite (proj2 (Z.ltb_lt _ _)) by lia.
    replace (ringTail (state c) + commandSize cs c a - ringTail (state c))
      with (commandSize cs c a) by lia.
    apply readAt_last; [done|]. apply Hrest; lia.
Qed.

(** The registers of the images, as the engine reads them back. *)
Lemma submission_registers c o a mem :
  ringOk cs i c -> apart c ->
  let mem' := applyEvents (submissionEvents cs bits c o a) mem in
  let words := registerWords cs o (headOf cs c a) (tailOf cs c a) in
  readAt mem' (registersAt o c) (if o then 16 else 8) = registerBytes words
  /\ (isRingDataEnabled cs = true ->
      readAt mem' (ringDataAt o c) (if o then 16 else 8) = registerBytes words).
Proof.
  intros Hok Hap mem' words. pose proof (ro_traits _ _ _ Hok) as Hcs.
  pose proof (length_registers o (headOf cs c a) (tailOf cs c a)) as Hl. fold words in Hl.
  pose proof (registerOffset_bounds o). destruct Hap as [_ Hd]. rewrite Hcs in Hd.
  set (first := wrapEvents c (commandSize cs c a)
    ++ [Wrote (ggttRing (state c) + headOf cs c a)
          (HardwareContextImp.dwordBytes (commandsOf cs c a))]).
  assert (Hev : submissionEvents cs bits c o a
    = first ++ Wrote (registersAt o c) (registerBytes words)
        :: (if isRingDataEnabled cs then [Wrote (ringDataAt o c) (registerBytes words)] else [])
        ++ [Submitted (ownDescriptor cs bits c)]).
  { unfold first, submissionEvents. rewrite <- app_assoc. done. }
  unfold mem'. rewrite Hev. split.
  - apply readAt_last; [done|]. apply Forall_app. split; [|by repeat constructor].
    destruct (isRingDataEnabled cs); [|done]. destruct (Hd eq_refl) as [_ H2].
    constructor; [|done]. unfold disjointRanges in H2. cbn. rewrite Hl.
    unfold ringDataAt, registersAt. destruct o; lia.
  - intros He. rewrite He. rewrite app_comm_cons.
    change ((Wrote ?x ?y :: [Wrote ?u ?v]) ++ ?l) with ([Wrote x y] ++ Wrote u v :: l).
    rewrite app_assoc. apply readAt_last; [done|]. by repeat constructor.
Qed.
(** Offset [x] of the ring is between the two tails, going around its end. *)
Definition inSegment (from to x : Z) : Prop :=
  if from <? to then from <= x < to else from <= x \/ x < to.

(** The events of a submission after the commands leave the ring alone. *)
Lemma afterCommands_avoid c o a :
  ringOk cs i c -> apart c ->
  Forall (fun e => avoids (ggttRing (state c)) ringSize e /\ e <> Polled)
    (imageEvents cs c o (registerWords cs o (headOf cs c a) (tailOf cs c a))
     ++ [Submitted (ownDescriptor cs bits c)]).
Proof.
  intros Hok Hap. apply Forall_app. split; [|by repeat constructor]. apply Forall_and. split.
  - apply imageEvents_avoid; [apply Hok|done|lia|lia|done].
  - unfold imageEvents. destruct (isRingDataEnabled cs); by repeat constructor.
Qed.

(** The rest of the ring keeps its bytes. *)
Lemma submission_elsewhere c o a mem x :
  ringOk cs i c -> apart c -> 0 <= x < ringSize ->
  ~ inSegment (ringTail (state c)) (tailOf cs c a) x ->
  applyEvents (submissionEvents cs bits c o a) mem (ggttRing (state c) + x)
  = mem (ggttRing (state c) + x).
Proof.
  intros Hok Hap Hx Hout. pose proof (commandSize_bounds cs c a) as [Hs _].
  pose proof (ro_tail _ _ _ Hok) as Ht.
  pose proof (headOf_bounds cs i c a Hok) as [Hh1 Hh2].
  pose (addr := ggttRing (state c) + x). fold addr.
  enough (He : Forall (avoids addr 1) (submissionEvents cs bits c o a)).
  { pose proof (readAt_avoids _ mem _ _ He) as Hr. unfold readAt in Hr.
    rewrite seqZ_cons in Hr by lia. by injection Hr. }
  unfold submissionEvents. rewrite !Forall_app.
  assert (Hcl : Z.of_nat (length (HardwareContextImp.dwordBytes (commandsOf cs c a))) = commandSize cs c a)
    by (rewrite length_dwordBytes; unfold commandSize; lia).
  unfold inSegment, tailOf, headOf, startOf, wrapEvents, wraps, addr, ringSize in *.
  split_and!.
  - destruct (Z.leb_spec 16384 (ringTail (state c) + commandSize cs c a)); [|done].
    rewrite (proj2 (Z.ltb_ge _ _)) in Hout by lia.
    constructor; [cbn; rewrite length_replicate; lia|by repeat constructor].
  - apply Forall_singleton. cbn. rewrite Hcl.
    destruct (Z.leb_spec 16384 (ringTail (state c) + commandSize cs c a)).
    + rewrite (proj2 (Z.ltb_ge _ _)) in Hout by lia. lia.
    + rewrite (proj2 (Z.ltb_lt _ _)) in Hout by lia. lia.
  - apply imageEvents_avoid; [apply Hok|done|lia|unfold ringSize; lia|done].
  - by repeat constructor.
Qed.
End Submission.

(** C8: A submission of a context with an image, a ring in its table and no group, on
    any number of earlier ones, returns, and its calls are the ones of events that are,
    in this order: when the commands would reach the end of the ring, no-ops from the
    old tail to the end of the ring and then a poll of the engine; the commands - batch
    buffer start, flush and store of the next fence value - at the old tail or, after
    the poll, at the ring's start; writes outside of the ring, without another poll;
    and last the context's descriptor. On the memory behind the global table their
    effect is that the ring from the old tail to the new one, around its end, holds the
    no-ops and the commands, that the rest of the ring is unchanged, and that the
    registers of the context image, and of the ring data where the engine has it, hold
    the new tail (and on request the offset of the commands as the head). The context
    can be submitted again. *)
Theorem submission_fills_ring {A} `{AllocatorLaws A} ndebug gpu cs this i root bank bits
    (w : World A Trace) c a o :
  running gpu cs this i root bank bits w c -> ringOk cs i c -> apart c ->
  let ring := ggttRing (state c) in
  let tail := ringTail (state c) in
  let fence := u32 (contextFenceValue (state c) + 1) in
  let commands := HardwareContextImp.dwordBytes
    (HardwareContextImp.ringCommands cs a (ggttContextFence (state c)) fence) in
  let over := ringSize <=? tail + Z.of_nat (length commands) in
  let head := if over then 0 else tail in
  let noops := if over then replicate (Z.to_nat (ringSize - tail)) 0 else [] in
  let tail' := head + Z.of_nat (length commands) in
  exists w' c' calls es rest,
    HardwareContextImp.submitBatchBuffer ndebug gpu this a o w = Ok (tt, w')
    /\ objects w' = <[this := c']> (objects w)
    /\ sink (stream w') = sink (stream w) ++ calls /\ sends cs root (ggttHeap w') es calls
    /\ es = (if over then [Wrote (ring + tail) noops; Polled] else [])
             ++ Wrote (ring + head) commands :: rest
    /\ Forall (fun e => avoids ring ringSize e /\ e <> Polled) rest
    /\ last rest = Some (Submitted (ownDescriptor cs bits c))
    /\ (forall mem, let mem' := applyEvents es mem in
         let registers := registerBytes (registerWords cs o head tail') in
         ringBytes mem' ring tail tail' = noops ++ commands
         /\ (forall x, 0 <= x < ringSize -> ~ inSegment tail tail' x -> mem' (ring + x) = mem (ring + x))
         /\ readAt mem' (registersAt o c) (if o then 16 else 8) = registers
         /\ (isRingDataEnabled cs = true -> readAt mem' (ringDataAt o c) (if o then 16 else 8) = registers))
    /\ ringTail (state c') = tail' /\ contextFenceValue (state c') = fence
    /\ running gpu cs this i root bank bits w' c' /\ ringOk cs i c'.
Proof.
  intros Hrun Hok Hap ring tail fence commands over head noops tail'.
  destruct (performs_submitBatchBuffer ndebug gpu cs this i root bank bits c a o Hok w Hrun)
    as (w' & Hsub & Hmv).
  destruct (mv_calls _ _ _ _ _ _ _ _ _ _ Hmv) as (calls & Hsink & Hsends).
  assert (Hlen : Z.of_nat (length commands) = commandSize cs c a)
    by (unfold commands; rewrite length_dwordBytes; unfold commandSize, commandsOf, fence; lia).
  assert (Hover : over = wraps c (commandSize cs c a)) by (unfold over; by rewrite Hlen).
  assert (Hhead : head = headOf cs c a) by (unfold head; by rewrite Hover).
  assert (Htail : tail' = tailOf cs c a) by (unfold tail', tailOf; by rewrite Hhead, Hlen).
  clearbody over head tail'. subst head tail'.
  exists w', (submitted cs c o a), calls, (submissionEvents cs bits c o a),
    (imageEvents cs c o (registerWords cs o (headOf cs c a) (tailOf cs c a))
     ++ [Submitted (ownDescriptor cs bits c)]).
  split_and!; try done.
  - by destruct Hmv.
  - unfold submissionEvents, wrapEvents, noops. rewrite <- Hover. by destruct over.
  - by apply (afterCommands_avoid cs i).
  - by rewrite last_snoc.
  - intros mem. cbv zeta. split_and!.
    + unfold noops. rewrite Hover. by apply (submission_ringBytes cs i).
    + intros x. by apply (submission_elsewhere cs i).
    + by apply (submission_registers cs i).
    + by apply (submission_registers cs i).
  - by eapply running_moved.
  - by apply submitted_ok.
Qed.

(** ** Sequences of submissions *)

(** The writes to the ring only append: each begins at or after [lo], the end of
    the one before, and stays in the ring; a poll of the engine lets them start at
    the ring's base again. *)
Fixpoint appendOnly (ring lo : Z) (es : list Event) : Prop :=
  match es with
  | [] => True
  | Wrote a bytes :: es' =>
      if (ring <=? a) && (a <? ring + ringSize)
      then lo <= a /\ a + Z.of_nat (length bytes) <= ring + ringSize
           /\ appendOnly ring (a + Z.of_nat (length bytes)) es'
      else appendOnly ring lo es'
  | Polled :: es' => appendOnly ring ring es'
  | Submitted _ :: es' => appendOnly ring lo es'
  end.

Fixpoint eventsOf (cs : CommandStreamerHelper) (bits : Z) (c : HardwareContextImp)
    (bs : list (Z * bool)) : list Event :=
  match bs with
  | [] => []
  | (a, o) :: bs' => submissionEvents cs bits c o a ++ eventsOf cs bits (submitted cs c o a) bs'
  end.

Section Sequence.
Variable cs : CommandStreamerHelper.
Variable i : nat.
Variable bits : Z.
Implicit Types c : HardwareContextImp.

Lemma appendOnly_in ring lo a bytes es :
  ring <= a -> a < ring + ringSize -> lo <= a -> a + Z.of_nat (length bytes) <= ring + ringSize ->
  appendOnly ring (a + Z.of_nat (length bytes)) es -> appendOnly ring lo (Wrote a bytes :: es).
Proof.
  intros H1 H2 H3 H4 Hes. cbn [appendOnly].
  by rewrite (proj2 (Z.leb_le _ _)), (proj2 (Z.ltb_lt _ _)) by lia.
Qed.

Lemma appendOnly_out ring lo l es :
  Forall (fun e => match e with
                   | Wrote a _ => a < ring \/ ring + ringSize <= a
                   | Polled => False
                   | Submitted _ => True
                   end) l ->
  appendOnly ring lo es -> appendOnly ring lo (l ++ es).
Proof.
  induction 1 as [|e l He _ IH]; intros Hes; [done|]. destruct e as [a bytes| |d]; [|done|by apply IH].
  cbn [app appendOnly]. destruct (Z.leb_spec ring a), (Z.ltb_spec a (ring + ringSize));
    cbn [andb]; try lia; by apply IH.
Qed.

Lemma apart_submitted c o a : apart c -> apart (submitted cs c o a).
Proof. intros [H1 H2]. by split. Qed.

Lemma appendOnly_submission c o a es :
  ringOk cs i c -> apart c ->
  appendOnly (ggttRing (state c)) (ggttRing (state c) + tailOf cs c a) es ->
  appendOnly (ggttRing (state c)) (ggttRing (state c) + ringTail (state c))
    (submissionEvents cs bits c o a ++ es).
Proof.
  intros Hok Hap Hes. pose proof (commandSize_bounds cs c a) as [Hs _].
  pose proof (headOf_bounds cs i c a Hok) as [Hh1 Hh2].
  pose proof (ro_tail _ _ _ Hok) as Ht. pose proof (ro_traits _ _ _ Hok) as Hcs.
  assert (Hcl : Z.of_nat (length (HardwareContextImp.dwordBytes (commandsOf cs c a)))
                = commandSize cs c a) by (rewrite length_dwordBytes; unfold commandSize; lia).
  unfold submissionEvents. rewrite <- !app_assoc.
  assert (Hmain : forall lo, lo <= ggttRing (state c) + headOf cs c a ->
    appendOnly (ggttRing (state c)) lo
      ([Wrote (ggttRing (state c) + headOf cs c a)
          (HardwareContextImp.dwordBytes (commandsOf cs c a))]
       ++ imageEvents cs c o (registerWords cs o (headOf cs c a) (tailOf cs c a))
       ++ [Submitted (ownDescriptor cs bits c)] ++ es)).
  { intros lo Hlo. unfold tailOf in *. cbn [app].
    apply appendOnly_in; [lia|lia|lia|lia|]. rewrite Hcl.
    apply appendOnly_out; [|cbn [appendOnly]; by rewrite <- Z.add_assoc].
    destruct Hap as [Hi Hd]. rewrite Hcs in Hd. unfold disjointRanges in *.
    pose proof (registerOffset_bounds o). unfold imageEvents, registersAt, ringDataAt.
    constructor; [lia|]. destruct (isRingDataEnabled cs); [|done].
    destruct (Hd eq_refl) as [H1 _]. constructor; [lia|done]. }
  unfold wrapEvents. unfold headOf, startOf in *.
  destruct (wraps c (commandSize cs c a)) eqn:Hw; [|apply Hmain; lia].
  apply appendOnly_in; [lia|lia|lia| |]; rewrite length_replicate; [lia|].
  cbn [app appendOnly]. apply Hmain. lia.
Qed.

Lemma appendOnly_events : forall bs c,
  ringOk cs i c -> apart c ->
  appendOnly (ggttRing (state c)) (ggttRing (state c) + ringTail (state c)) (eventsOf cs bits c bs).
Proof.
  induction bs as [|[a o] bs IH]; intros c Hok Hap; [done|]. cbn [eventsOf].
  apply appendOnly_submission; [done|done|].
  exact (IH (submitted cs c o a) (submitted_ok _ _ _ _ _ Hok) (apart_submitted _ _ _ Hap)).
Qed.
End Sequence.

(** The submissions of a list of batch buffers. *)
Definition submitAll {A} `{!PhysicalAddressAllocator A} ndebug gpu (this : nat) (bs : list (Z * bool))
    : M (World A Trace) unit :=
  mapM_ (fun b => HardwareContextImp.submitBatchBuffer ndebug gpu this b.1 b.2) bs.

Lemma performs_submitAll {A} `{AllocatorLaws A} ndebug gpu cs this i root bank bits bs : forall c,
  ringOk cs i c ->
  performs gpu cs this i root bank bits c (submitAll ndebug gpu this bs) tt
    (foldl (fun c b => submitted cs c b.2 b.1) c bs) (eventsOf cs bits c bs).
Proof.
  induction bs as [|[a o] bs IH]; intros c Hok; [apply performs_ret|].
  unfold submitAll. cbn [mapM_ foldl eventsOf fst snd].
  eapply performs_bind; [by apply performs_submitBatchBuffer|]. by apply IH, submitted_ok.
Qed.

Lemma foldl_submitted cs i bs : forall c,
  ringOk cs i c ->
  let c' := foldl (fun c b => submitted cs c b.2 b.1) c bs in
  0 <= ringTail (state c') < ringSize
  /\ u32 (contextFenceValue (state c')) = u32 (contextFenceValue (state c) + Z.of_nat (length bs)).
Proof.
  induction bs as [|[a o] bs IH]; intros c Hok; cbn [foldl length fst snd].
  - rewrite Z.add_0_r. split; [apply Hok|done].
  - destruct (IH _ (submitted_ok cs i c o a Hok)) as [IH1 IH2]. split; [exact IH1|].
    rewrite IH2. cbn. unfold wrap. rewrite Zplus_mod_idemp_l. f_equal. lia.
Qed.

(** C9: Any number of submissions, in any mix of sizes and head overrides, returns, and
    no command in the ring is overwritten before the engine was polled for
    completion: between two polls the writes to the ring only append. The tail
    stays in the ring and the fence counts the submissions modulo 2^32. *)
Theorem submissions_never_overwrite {A} `{AllocatorLaws A} ndebug gpu cs this i root bank bits
    (w : World A Trace) c bs :
  running gpu cs this i root bank bits w c -> ringOk cs i c -> apart c ->
  exists w' c' calls es,
    submitAll ndebug gpu this bs w = Ok (tt, w')
    /\ objects w' !! this = Some c'
    /\ sink (stream w') = sink (stream w) ++ calls /\ sends cs root (ggttHeap w') es calls
    /\ appendOnly (ggttRing (state c)) (ggttRing (state c) + ringTail (state c)) es
    /\ 0 <= ringTail (state c') < ringSize
    /\ u32 (contextFenceValue (state c')) = u32 (contextFenceValue (state c) + Z.of_nat (length bs)).
Proof.
  intros Hrun Hok Hap.
  destruct (performs_submitAll ndebug gpu cs this i root bank bits bs c Hok w Hrun)
    as (w' & Hsub & Hmv).
  destruct (mv_calls _ _ _ _ _ _ _ _ _ _ Hmv) as (calls & Hsink & Hsends).
  destruct (foldl_submitted cs i bs c Hok) as [Htail Hfence].
  eexists w', _, calls, _. split; [exact Hsub|]. split_and!; try done; try apply Htail.
  - by rewrite (mv_objects _ _ _ _ _ _ _ _ _ _ Hmv), lookup_insert_eq.
  - by eapply appendOnly_events.
Qed.

(** ** A concrete context

    A compute engine with indirect ring state whose ring is nearly full: the next
    submission starts over. *)

Definition exRingState : ContextState :=
  mkState 0x20000 0x40000 (Live (replicate 1024 0)) 0x30000 0x10000
    (Live (replicate 2048 0)) 16320 0x11000 7 noGroup.
Definition exRingContext : HardwareContextImp :=
  mkContext exCcs 0 0 (ggtt_table exGGTT) None 0 1 false 5 exRingState.
Definition exRingWorld : World Simple.t Trace :=
  mkWorld (mkStreamState (store exGlobalWalk) []) [exGGTT] ∅ {[0%nat := exRingContext]} 1.

Lemma exRing_running :
  @running _ (SimpleAllocatorOps false) exLaws exGpu exCcs 0 0 (ggtt_table exGGTT) 1 32
    exRingWorld exRingContext.
Proof.
  destruct exGlobalWalk_spec as [Hwf Hu]. split; try reflexivity.
  - by exists exGGTT.
  - by destruct Hwf.
  - exact Hu.
  - eexists. split; [by vm_compute|reflexivity].
  - eexists. split; [by vm_compute|reflexivity].
Qed.

Lemma exRing_ok : ringOk exCcs 0 exRingContext.
Proof.
  split; try reflexivity.
  - cbn. unfold ringSize. lia.
  - cbn. unfold ringSize. lia.
  - exists (replicate 2048 0). split; [reflexivity|]. by rewrite length_replicate.
  - cbn. lia.
  - cbn. split; [|lia]. exists (replicate 1024 0). split; [reflexivity|].
    rewrite length_replicate. lia.
Qed.

Lemma exRing_apart : apart exRingContext.
Proof. split; [|intros _]; unfold disjointRanges, ringSize; cbn; lia. Qed.

(** The commands do not fit into the 64 bytes left: the ring starts over. *)
Lemma submission_fills_ring_witness :
  exists w' es rest,
    @HardwareContextImp.submitBatchBuffer _ (SimpleAllocatorOps false) _ _ false exGpu 0 0x123456789000 true
      exRingWorld = Ok (tt, w')
    /\ es = [Wrote (0x20000 + 16320) (replicate 64 0); Polled]
            ++ Wrote 0x20000 (HardwareContextImp.dwordBytes
                 (HardwareContextImp.ringCommands exCcs 0x123456789000 0x11000 8)) :: rest
    /\ ringBytes (applyEvents es (fun _ => 0xff)) 0x20000 16320 88
       = replicate 64 0 ++ HardwareContextImp.dwordBytes
             (HardwareContextImp.ringCommands exCcs 0x123456789000 0x11000 8)
    /\ applyEvents es (fun _ => 0xff) (0x20000 + 88) = 0xff.
Proof.
  destruct (@submission_fills_ring _ (SimpleAllocatorOps false) exLaws false exGpu exCcs 0 0
    (ggtt_table exGGTT) 1 32 exRingWorld exRingContext 0x123456789000 true
    exRing_running exRing_ok exRing_apart)
    as (w' & c' & calls & es & rest & Hrun & _ & _ & _ & Hes & _ & _ & Hmem & _).
  destruct (Hmem (fun _ => 0xff)) as (Hring & Helse & _). exists w', es, rest.
  refine (conj Hrun (conj Hes (conj Hring (Helse 88 _ _)))).
  - split; [discriminate|reflexivity].
  - vm_compute. intros [H|H]; [exact (H eq_refl)|discriminate H].
Defined.

Lemma submissions_never_overwrite_witness :
  exists w' es,
    @submitAll _ (SimpleAllocatorOps false) false exGpu 0 [(0x1000, false); (0x2000, true)] exRingWorld
      = Ok (tt, w')
    /\ appendOnly 0x20000 (0x20000 + 16320) es.
Proof.
  destruct (@submissions_never_overwrite _ (SimpleAllocatorOps false) exLaws false exGpu exCcs 0 0
    (ggtt_table exGGTT) 1 32 exRingWorld exRingContext [(0x1000, false); (0x2000, true)]
    exRing_running exRing_ok exRing_apart)
    as (w' & c' & calls & es & Hrun & _ & _ & _ & Happ & _).
  exists w', es. exact (conj Hrun Happ).
Defined.
