(* ===== verification/RingInit.v ===== *)
(** * Initialization makes a context ready

    [initialize] of a new context: the regions it allocates do not overlap, its
    image loads the registers of an empty ring at the allocated addresses, and the
    context is one that [RingTheory] and [RingCorrect] are about. *)

From S2P Require Import Prelude Allocator MemoryBanks PageTable TableTheory Walker WalkerTheory.
From S2P Require Import WalkCorrect GlobalTable AubPackets AubStream StreamTheory.
From S2P Require Import CommandStreamer ContextImage HardwareContext ContextGroups RingTheory RingCorrect.
#[local] Open Scope Z_scope.

Section Init.
Context {A : Type} `{!PhysicalAddressAllocator A} `{!AllocatorLaws A}.
Variable ndebug : bool.
Variable gpu : GpuOps.
Variable handleOf : nat -> Z.
Variable cs : CommandStreamerHelper.
Variable this i : nat.
Variable root : loc.
Variable bank : Z.
Variable bits : Z.

#[local] Abbreviation Wd := (World A Trace).
#[local] Abbreviation ps := (if isMemorySupported gpu bank 65536 then 65536 else 4096).
#[local] Abbreviation Running := (running gpu cs this i root bank bits).

(** ** Addresses of the global table *)

(** The table's allocator has handed out addresses below [n] and no block of it
    was freed. *)
Definition handedOut (w : Wd) (n : Z) : Prop :=
  exists g, ggtts w !! i = Some g /\ SimpleAllocator.freeAllocationsMap (gfxAddressAllocator g) = []
    /\ SimpleAllocator.nextAddress (gfxAddressAllocator g) = n.

Record starting (c : HardwareContextImp) (n : Z) (w : Wd) : Prop := {
  st_running : Running w c;
  st_handedOut : handedOut w n
}.

Lemma wp_performs {B} c m (b : B) c' es n (Q : B -> Wd -> Prop) w :
  performs gpu cs this i root bank bits c m b c' es -> starting c n w ->
  (forall w', starting c' n w' -> Q b w') -> wp m Q w.
Proof.
  intros Hm [Hr (g & Hg & Hf)] HQ. destruct (Hm w Hr) as (w' & Hw & Hmv).
  unfold wp. rewrite Hw. apply HQ. split; [by eapply running_moved|].
  exists g. by rewrite (mv_ggtts _ _ _ _ _ _ _ _ _ _ Hmv).
Qed.

Lemma wp_alloc c size n (Q : Z -> Wd -> Prop) w :
  starting c n w -> 0 <= n -> 0 < size -> n + 65536 + size < 2 ^ 32 ->
  (forall p w', n <= p -> p + size < 2 ^ 32 -> p < n + 65536 -> starting c (p + size) w' -> Q p w') ->
  wp (alignedAllocGfx i size (u32 ps)) Q w.
Proof.
  intros [Hr (g & Hg & Hf & Hn)] H0 Hs Hroom HQ.
  assert (Hps : u32 ps = ps) by by case_match.
  assert (Hb : 4096 <= ps <= 65536) by (case_match; lia).
  destruct (SimpleAllocator.alignedAlloc_bump 32 ltac:(lia) size ps (gfxAddressAllocator g) Hf)
    as (p & al & Hal & Hp & Hnext & Hfree); [lia|lia|by apply (pageSizeOk_pow2 _ (ps_ok gpu bank))| |].
  { unfold SimpleAllocator.has_room. rewrite Hn. lia. }
  rewrite Hn in Hp. unfold alignedAllocGfx. apply wp_bind. eapply wp_getGGTT; [done|].
  rewrite Hps, Hal. apply wp_bind, wp_modify, wp_ret. apply HQ; [lia|lia|lia|].
  pose proof (lookup_lt_Some _ _ _ Hg) as Hlt.
  destruct Hr as [H1 H2 H3 (g' & H4 & H4') H5 H6 H7 H8].
  assert (g' = g) as -> by congruence.
  split; [split; try done|].
  - cbn. rewrite list_lookup_insert_eq by done. by eexists.
  - eexists. cbn. rewrite list_lookup_insert_eq by done. split; [reflexivity|]. by cbn.
Qed.

(** Calls that do not depend on the tables. *)
Lemma wp_sinkCalls c n (m : M Trace unit) (Q : unit -> Wd -> Prop) w :
  (forall t, exists t', m t = Ok (tt, t')) -> starting c n w ->
  (forall w', starting c n w' -> Q tt w') -> wp (onStream (onSink m)) Q w.
Proof.
  intros Hm [[H1 H2 H3 H4 H5 H6 H7 H8] Hh] HQ. apply wp_onStream.
  destruct (Hm (sink (stream w))) as (t' & Ht). eapply wp_onSinkRun; [done|].
  apply HQ. by split.
Qed.

Lemma wp_writeNothing c c0 a size hint n (Q : unit -> Wd -> Prop) w :
  starting c n w -> ggtt c0 = i -> 0 <= a -> 0 <= size -> a + size <= 2 ^ 32 ->
  (forall w', starting c n w' -> Q tt w') ->
  wp (HardwareContextImp.writeGGTT ndebug c0 a None size hint ps) Q w.
Proof.
  intros Hst Hi Ha Hs Hov HQ. unfold HardwareContextImp.writeGGTT. apply wp_bind.
  eapply wp_performs; [by apply performs_ggttBank|exact Hst|]. cbn beta. clear Hst.
  intros w1 [Hr Hh]. pose proof Hr as [H1 H2 H3 (g & Hg & Hroot) H5 H6 (p & Hp & Hbk) (q & Hq & Hbits)].
  rewrite Hi. apply wp_bind. eapply wp_getGGTT; [done|]. apply wp_bind, wp_onStream.
  apply wp_reserveGGTT; [done|by rewrite Hroot|apply ps_ok|done|done|done|].
  intros es s' msg slots Hwf Hx Hu _ _. apply wp_ret, HQ. rewrite Hroot in Hu.
  split; [|done]. split; try done.
  - by exists g.
  - destruct (Hx _ _ Hp) as (p' & Hp' & (_ & _ & _ & _ & Hb & _) & _). exists p'. by rewrite Hb.
  - destruct (Hx _ _ Hq) as (q' & Hq' & (_ & _ & _ & _ & _ & Hb & _) & _). exists q'. by rewrite Hb.
Qed.

(** The register writes of the engine. *)
Lemma initializeEngineMMIO_run (t : Trace) : exists t', initializeEngineMMIO cs t = Ok (tt, t').
Proof.
  unfold initializeEngineMMIO. revert t. induction (getEngineMMIO cs) as [|x l IH]; intros t; [by exists t|].
  cbn [mapM_]. unfold mbind, M_bind. cbn. apply IH.
Qed.

Lemma wp_pageDirectories c n (Q : PageDirectories -> Wd -> Prop) w :
  starting c n w -> 48 <= bits -> (forall a, Q (Pml a) w) ->
  wp (onStream (onTables (pageDirectories ndebug (Some (ppgtt c))))) Q w.
Proof.
  intros [Hr _] Hbits HQ. destruct (run_width _ _ _ _ _ _ _ _ _ Hr) as (q & Hq & Hb).
  unfold wp, onStream, onTables, pageDirectories, deref, mbind, M_bind. unfold ggttHeap in Hq.
  rewrite Hq, Hb, (proj2 (Z.leb_le _ _)) by done. cbn.
  specialize (HQ (physicalAddress q)). by destruct w as [[]].
Qed.

Lemma wp_declareContext c n handle (Q : unit -> Wd -> Prop) w :
  starting c n w -> 48 <= bits -> (forall w', starting c n w' -> Q tt w') ->
  wp (onStream (declareContextForDumping handle (ppgtt c))) Q w.
Proof.
  intros [[H1 H2 H3 H4 H5 H6 H7 (q & Hq & Hb)] Hh] Hbits HQ. apply wp_onStream.
  unfold declareContextForDumping. apply wp_bind, wp_onTables. unfold pageDirPointers.
  apply wp_bind. eapply wp_deref; [exact Hq|]. rewrite Hb, (proj2 (Z.leb_le _ _)) by done.
  apply wp_ret. eapply wp_onSinkRun; [reflexivity|]. cbn [tables sink]. apply HQ.
  split; [|done]. split; try done. by exists q.
Qed.

(** ** Initialization *)

(** The register values of the ring in a new image. *)
Definition ringCtrl : Z := 0x3001.
Definition contextBits (c : HardwareContextImp) : Z := if runAlone c then 0x800080 else flags c.

(** A context that was constructed and is in no group. *)
Record constructed (c : HardwareContextImp) : Prop := {
  co_traits : csTraits c = cs;
  co_index : ggtt c = i;
  co_image : pLRCA (state c) = NullPtr;
  co_ringData : isRingDataEnabled cs = false -> family cs = Xe3pCore -> pRingData (state c) = NullPtr;
  co_tail : 0 <= ringTail (state c) < ringSize;
  co_alone : contextGroupId (state c) = noGroup
}.

(** What holds once the image has its address. *)
Record placed (c : HardwareContextImp) (ring lrca : Z) (b : Buffer) (c' : HardwareContextImp) : Prop := {
  pl_traits : csTraits c' = cs;
  pl_index : ggtt c' = i;
  pl_image : pLRCA (state c') = Live b;
  pl_ring : ggttRing (state c') = ring;
  pl_lrca : ggttLRCA (state c') = lrca;
  pl_tail : ringTail (state c') = ringTail (state c);
  pl_fence : contextFenceValue (state c') = contextFenceValue (state c);
  pl_group : contextGroupId (state c') = contextGroupId (state c);
  pl_ppgtt : ppgtt c' = ppgtt c
}.

(** The context with its ring state. *)
Definition withRingState (p : Z) (b d : Buffer) (c : HardwareContextImp) : HardwareContextImp :=
  set_state (fun s => set_pRingData (Live d)
    (set_pLRCA (Live (storeAt 1062 [engineRegister cs 0x2108; p] b)) (set_ringData p s))) c.

Lemma enabled_family : isRingDataEnabled cs = true -> family cs = Xe3pCore.
Proof. unfold isRingDataEnabled. by destruct (family cs). Qed.

Lemma wp_initializeRing c n ring lrca b ctrl (Q : unit -> Wd -> Prop) w c0 :
  starting c n w -> placed c0 ring lrca b c -> (2048 <= length b)%nat ->
  0 <= n -> n + 0x20000 < 2 ^ 32 ->
  (isRingDataEnabled cs = false -> Q tt w) ->
  (forall p d w', isRingDataEnabled cs = true -> n <= p -> p + 4096 < 2 ^ 32 ->
     length d = 1024%nat -> readLoadRegisters d 1 = Some (ringStateLoad cs 0 0 ring ctrl) ->
     starting (withRingState p b d c) (p + 4096) w' -> Q tt w') ->
  wp (HardwareContextImp.initializeRing ndebug this ps ctrl) Q w.
Proof.
  intros Hst [Ht Hi Hb Hring _ _ _ _ _] Hl Hn Hroom HQ1 HQ2.
  unfold HardwareContextImp.initializeRing. apply wp_bind.
  eapply wp_getContext; [exact (run_context _ _ _ _ _ _ _ _ _ (st_running _ _ _ Hst))|].
  cbv beta zeta. rewrite Ht.
  apply wp_when; [|exact HQ1]. intros He. clear HQ1. pose proof (enabled_family He) as Hf.
  rewrite Hi. apply wp_bind. apply (wp_alloc c 4096 n); [done|lia|lia|lia|].
  intros p w1 Hp1 Hp2 _ H1.
  apply wp_bind. eapply wp_performs; [apply performs_updateState|exact H1|].
  cbn beta. clear w1 H1. intros w2 H2.
  apply wp_bind. eapply wp_performs; [apply performs_updateState|exact H2|].
  cbn beta. clear w2 H2. intros w3 H3.
  apply wp_bind. eapply wp_performs; [|exact H3|].
  { apply (performs_updateLRCA gpu cs this i root bank bits _ _ b
      (storeAt 1062 [engineRegister cs 0x2108; p] b)); [exact Hb|].
    unfold setIndirectRingState. rewrite He. cbn [when]. apply (storeDwords_run 1062). cbn [length]. lia. }
  cbn beta. clear w3 H3. intros w4 H4.
  destruct (initializeRingState_run cs ring ctrl) as (d & Hd & Hdl & Hload).
  apply wp_bind. eapply wp_performs; [|exact H4|].
  { apply (performs_updateRingData gpu cs this i root bank bits _ _ (replicate 1024 0) d);
      [exact Ht|exact Hf|reflexivity|].
    cbn [state set_state set_pLRCA set_pRingData set_ringData ggttRing]. rewrite Hring. exact Hd. }
  cbn beta. clear w4 H4. intros w5 H5.
  apply wp_bind. eapply wp_performs; [apply performs_getContext|exact H5|].
  cbn beta. clear w5 H5. intros w6 H6.
  eapply wp_performs; [|exact H6|].
  { apply (performs_writeArray ndebug gpu cs this i root bank bits _ _ _ d); [exact Hi|reflexivity|lia|lia|].
    unfold bufferBytes. rewrite Z.div_0_l by done. change (Z.to_nat 0) with 0%nat. rewrite drop_0.
    change (Z.to_nat (4096 / sizeofDword)) with 1024%nat. rewrite take_ge by lia.
    change (concat (map (leBytes 4) d)) with (HardwareContextImp.dwordBytes d).
    rewrite length_dwordBytes, Hdl. done. }
  intros w7 H7. by apply (HQ2 p d).
Qed.

(** A context as it is once initialized: an image that loads an empty ring at the
    ring's address, the ring state of the engines that have one, regions in the
    address space that do not overlap. *)
Record initialized (c c' : HardwareContextImp) : Prop := {
  in_ok : ringOk cs i c';
  in_apart : apart c';
  in_image : exists b, pLRCA (state c') = Live b
    /\ readLoadRegisters b 0x401 = Some (ringLoad cs
         (Z.lor (getInitialContextSaveRestoreCtrlValue cs) (contextBits c)) 0 0
         (ggttRing (state c')) ringCtrl);
  in_ringData : isRingDataEnabled cs = true -> exists d, pRingData (state c') = Live d
    /\ readLoadRegisters d 1 = Some (ringStateLoad cs 0 0 (ggttRing (state c')) ringCtrl);
  in_tail : ringTail (state c') = ringTail (state c);
  in_fence : contextFenceValue (state c') = contextFenceValue (state c)
}.

Lemma ringLoad_length v h t r k : length (ringLoad cs v h t r k) = 14%nat.
Proof. done. Qed.

Lemma bufferBytes_all size (b : Buffer) :
  length b = Z.to_nat (size / sizeofDword) -> bufferBytes 0 size b = HardwareContextImp.dwordBytes b.
Proof.
  intros Hl. unfold bufferBytes. rewrite Z.div_0_l by done. change (Z.to_nat 0) with 0%nat.
  rewrite drop_0, take_ge by lia. done.
Qed.

(** The last steps: the image is written and the context declared. *)
Lemma wp_finish c n lrca b hint (Q : unit -> Wd -> Prop) w :
  starting c n w -> ggtt c = i -> pLRCA (state c) = Live b -> contextGroupId (state c) = noGroup ->
  length b = Z.to_nat (sizeLRCA cs / 4) -> sizeLRCA cs mod 4 = 0 -> 0 <= sizeLRCA cs ->
  0 <= lrca -> lrca + sizeLRCA cs <= 2 ^ 32 -> 48 <= bits ->
  (forall w', starting c n w' -> Q tt w') ->
  wp (c ← getContext this;
      HardwareContextImp.writeArray ndebug c (pLRCA (state c)) lrca 0 (sizeLRCA cs) hint ps ≫= fun _ =>
      onStream (declareContextForDumping (handleOf this) (ppgtt c)) ≫= fun _ =>
      HardwareContextImp.registerInGroup ndebug this) Q w.
Proof.
  intros Hst Hi Hb Hg Hl Hmod Hs Ha Hov Hbits HQ.
  apply wp_bind. eapply wp_performs; [apply performs_getContext|exact Hst|]. clear w Hst. intros w1 H1.
  apply wp_bind. eapply wp_performs; [|exact H1|].
  { apply (performs_writeArray ndebug gpu cs this i root bank bits _ _ _ b); [exact Hi|exact Hb|lia|lia|].
    rewrite bufferBytes_all, length_dwordBytes, Hl by done.
    pose proof (Z.div_mod (sizeLRCA cs) 4 ltac:(lia)). pose proof (Z.div_pos (sizeLRCA cs) 4). lia. }
  clear w1 H1. intros w2 H2. apply wp_bind.
  eapply wp_declareContext; [exact H2|done|]. clear w2 H2. intros w3 H3.
  unfold HardwareContextImp.registerInGroup. apply wp_bind.
  eapply wp_performs; [apply performs_getContext|exact H3|]. clear w3 H3. intros w4 H4.
  cbv beta zeta. rewrite Hg, Z.eqb_refl. cbn [negb when]. apply wp_ret. by apply HQ.
Qed.

Lemma wp_initialize c n (Q : unit -> Wd -> Prop) w :
  starting c n w -> constructed c -> 48 <= bits -> 0 <= n -> n + 0x100000 < 2 ^ 32 ->
  0x2000 <= sizeLRCA cs <= 0x20000 -> sizeLRCA cs mod 4 = 0 ->
  (forall w' c', Running w' c' -> initialized c c' -> Q tt w') ->
  wp (HardwareContextImp.initialize ndebug gpu handleOf this) Q w.
Proof.
  intros Hst [Ht Hi Himg Hrd Htail Hgrp] Hbits Hn Hroom Hsz Hmod HQ.
  unfold HardwareContextImp.initialize. apply wp_bind.
  eapply wp_performs; [apply performs_getContext|exact Hst|]. clear w Hst. intros w H.
  rewrite Himg, Ht, Hi. cbv zeta.
  apply wp_bind. eapply wp_performs; [by apply performs_contextPageSize|exact H|]. clear w H. intros w H.
  apply wp_bind. eapply wp_sinkCalls; [apply initializeEngineMMIO_run|exact H|]. clear w H. intros w H.
  apply wp_bind. eapply wp_alloc; [exact H|lia|lia|lia|]. clear w H. intros hwsp w Hw1 Hw2 Hw3 H.
  apply wp_bind. eapply wp_performs; [apply performs_updateState|exact H|]. clear w H. intros w H.
  apply wp_bind. eapply wp_writeNothing; [exact H|exact Hi|lia|lia|lia|]. clear w H. intros w H.
  apply wp_bind. eapply wp_alloc; [exact H|lia|lia|lia|]. clear w H. intros fence w Hf1 Hf2 Hf3 H.
  apply wp_bind. eapply wp_performs; [apply performs_updateState|exact H|]. clear w H. intros w H.
  apply wp_bind. eapply wp_performs; [|exact H|].
  { apply performs_writeGGTT; [exact Hi|lia|by rewrite length_leBytes|lia]. }
  clear w H. intros w H.
  apply wp_bind. eapply wp_sinkCalls; [intros t; eexists; reflexivity|exact H|]. clear w H. intros w H.
  apply wp_bind. eapply wp_alloc; [exact H|lia|unfold ringSize; lia|unfold ringSize; lia|].
  clear w H. intros ring w Hr1 Hr2 Hr3 H. unfold ringSize in Hr2.
  apply wp_bind. eapply wp_performs; [apply performs_updateState|exact H|]. clear w H. intros w H.
  apply wp_bind. eapply wp_writeNothing; [exact H|exact Hi|lia|unfold ringSize; lia|unfold ringSize; lia|].
  clear w H. intros w H.
  apply wp_bind. eapply wp_performs; [apply performs_updateState|exact H|]. clear w H. intros w H.
  apply wp_bind. apply (wp_pageDirectories _ _ _ _ H Hbits). intros address.
  destruct (initializeImage_run cs ndebug (Pml address) (contextBits c) ring ringCtrl
    (replicate (Z.to_nat (sizeLRCA cs / sizeofDword)) 0)) as (b & Himage & Hlb & Hload & _);
    [lia|by rewrite length_replicate|].
  rewrite length_replicate in Hlb.
  apply wp_bind. eapply wp_performs; [|exact H|].
  { apply performs_updateLRCA with (b := replicate (Z.to_nat (sizeLRCA cs / sizeofDword)) 0) (b' := b);
      [reflexivity|exact Himage]. }
  clear w H. intros w H. apply wp_bind, wp_ret.
  apply wp_bind. eapply wp_alloc; [exact H|unfold ringSize in *; lia|lia|unfold ringSize in *; lia|].
  clear w H. intros lrca w Hl1 Hl2 Hl3 H.
  apply wp_bind. eapply wp_performs; [apply performs_updateState|exact H|]. clear w H. intros w H.
  assert (Hb : (2048 <= length b)%nat).
  { rewrite Hlb. change 2048%nat with (Z.to_nat 2048). apply Z2Nat.inj_le;
      [lia|apply Z.div_pos; unfold sizeofDword; lia|apply Z.div_le_lower_bound; unfold sizeofDword; lia]. }
  match type of H with starting ?x _ _ => set (c5 := x) in * end.
  apply wp_bind. apply (wp_initializeRing c5 _ ring lrca b ringCtrl _ w c H);
    [by split|done|lia|unfold ringSize in *; lia| |].
  - intros He. eapply (wp_finish c5); [exact H|done|done|done|exact Hlb|done|lia|lia|lia|done|].
    clear w H. intros w [H _]. eapply HQ; [exact H|]. clear HQ. unfold ringSize in *.
    split; [split|split|..]; try done; try (unfold ringSize, disjointRanges; cbn; lia).
    + by exists b.
    + rewrite He. by apply Hrd.
    + unfold c5. cbn. rewrite Ht. by rewrite He.
    + by exists b.
    + by rewrite He.
  - intros p d w1 He Hp1 Hp2 Hd Hdl H1.
    eapply (wp_finish (withRingState p b d c5)); [exact H1|done|reflexivity|done| |done|lia|lia|lia|done|].
    { rewrite length_storeAt; [exact Hlb|cbn [length]; lia]. }
    clear w H w1 H1. intros w [H _]. eapply HQ; [exact H|]. clear HQ. unfold ringSize in *.
    assert (Hlen : length (storeAt 1062 [engineRegister cs 0x2108; p] b) = length b)
      by (apply length_storeAt; cbn [length]; lia).
    split; [split|split|..]; try done; try (unfold ringSize, disjointRanges; cbn; lia).
    + eexists. split; [reflexivity|]. by rewrite Hlen.
    + rewrite He. cbn. split; [|lia]. exists d. split; [done|lia].
    + eexists. split; [reflexivity|]. apply readLoadRegisters_storeAt; [exact Hload|].
      rewrite ringLoad_length. lia.
    + intros _. by exists d.
Qed.
End Init.

(** C10: From the constructor on: [initialize] of a context that is in no group, with a
    48-bit or wider page table and a megabyte left in the global table, returns
    without a failed assertion; the ring, the image and the ring state do not
    overlap; the image loads the registers of an empty ring at the ring's address,
    directly or through the ring state; and the context can be submitted any
    number of times. *)
Theorem initialize_ready {A} `{AllocatorLaws A} ndebug gpu handleOf cs this i root bank bits
    (w : World A Trace) c n :
  running gpu cs this i root bank bits w c -> handedOut i w n -> constructed cs i c ->
  48 <= bits -> 0 <= n -> n + 0x100000 < 2 ^ 32 ->
  0x2000 <= sizeLRCA cs <= 0x20000 -> sizeLRCA cs mod 4 = 0 ->
  exists w' c',
    HardwareContextImp.initialize ndebug gpu handleOf this w = Ok (tt, w')
    /\ running gpu cs this i root bank bits w' c' /\ initialized cs i c c'
    /\ forall bs, exists w2, submitAll ndebug gpu this bs w' = Ok (tt, w2).
Proof.
  intros Hr Hh Hc Hbits Hn Hroom Hs Hmod.
  destruct (wp_run _ _ _ (wp_initialize ndebug gpu handleOf cs this i root bank bits c n
    (fun _ w' => exists c', running gpu cs this i root bank bits w' c' /\ initialized cs i c c')
    w (Build_starting _ _ _ _ _ _ _ _ _ _ Hr Hh) Hc Hbits Hn Hroom Hs Hmod
    (fun w' c' H1 H2 => ex_intro _ c' (conj H1 H2)))) as ([] & w' & Hrun & c' & Hr' & Hi').
  exists w', c'. split_and!; [done|done|done|]. intros bs.
  destruct (performs_submitAll ndebug gpu cs this i root bank bits bs c' (in_ok _ _ _ _ Hi') w' Hr')
    as (w2 & Hw2 & _). by exists w2.
Qed.

(** ** A concrete context, before its initialization *)

#[local] Existing Instance SimpleAllocatorOps.

Definition exNewContext : HardwareContextImp :=
  mkContext exCcs 0 0 1%positive None 0 1 false 0
    (mkState (u32 (-1)) (u32 (-1)) NullPtr (u32 (-1)) (u32 (-1)) NullPtr 0 0 0 noGroup).
Definition exRoot : loc := match exTables with Ok (g, _) => ggtt_table g | Err _ => 1%positive end.
Definition exNewWorld : World Simple.t Trace :=
  mkWorld (stream exWorld) (ggtts exWorld) ∅ {[0%nat := exNewContext]} 1.

Lemma exNew_running :
  @running _ (SimpleAllocatorOps false) exLaws exGpu exCcs 0 0 exRoot 1 48 exNewWorld exNewContext.
Proof.
  destruct exWalk_spec as [(Hwf & _) _].
  destruct (wp_run _ _ _ (@wp_newRoot _ (SimpleAllocatorOps false) exLaws false (store exWalk) GGTTClass 1
    (fun l s' => rootSpec (store exWalk) GGTTClass 1 l s') Hwf (exBank_valid 0 eq_refl) eq_refl
    (fun l s' H => H))) as (l & s' & Hrun & Hw & _).
  assert (Hg : exTables = Ok (mkGGTT l 0 (SimpleAllocator.init 0) 0, s'))
    by (unfold exTables, newGGTT, mbind, M_bind; by rewrite Hrun).
  split; try reflexivity.
  - eexists. split; [by vm_compute|by vm_compute].
  - cbn [stream exNewWorld]. unfold exWorld. by rewrite Hg.
  - eapply (uniform_empty _ _ _ (mkPageTable GGTTClass true noParams _ 1 [] false false 32 1));
      by vm_compute.
  - eexists. split; by vm_compute.
  - eexists. split; by vm_compute.
Qed.

Lemma initialize_ready_witness :
  exists w' w2 c',
    @HardwareContextImp.initialize _ (SimpleAllocatorOps false) _ _ false exGpu Z.of_nat 0 exNewWorld
      = Ok (tt, w')
    /\ initialized exCcs 0 exNewContext c'
    /\ @submitAll _ (SimpleAllocatorOps false) false exGpu 0 [(0x1000, false); (0x2000, true)] w'
       = Ok (tt, w2).
Proof.
  destruct (@initialize_ready _ (SimpleAllocatorOps false) exLaws false exGpu Z.of_nat exCcs 0 0 exRoot 1 48
    exNewWorld exNewContext 0 exNew_running) as (w' & c' & Hrun & _ & Hini & Hsub).
  - eexists. split; [by vm_compute|split; reflexivity].
  - split; try reflexivity. split; [discriminate|reflexivity].
  - lia.
  - lia.
  - lia.
  - split; discriminate.
  - reflexivity.
  - destruct (Hsub [(0x1000, false); (0x2000, true)]) as (w2 & Hw2).
    exists w', w2, c'. exact (conj Hrun (conj Hini Hw2)).
Defined.
