(* ===== verification/AubFileStream.v ===== *)
(** * The capture file

    [aub_file_stream.h] and [aub_file_stream.cpp]: [FileHandleWrapper] and
    [AubFileStream], the stream that writes every call as packets of
    [AubPackets]. [OFStream] is the part of [std::ofstream] the wrapper uses, on
    a disk of named files; failures of the operating system are a script the
    model consumes. Log messages are not modelled. *)

From S2P Require Import Prelude Allocator MemoryBanks Gpu PageTable Walker AubPackets AubStream.
#[local] Open Scope Z_scope.

(** ** std::ofstream *)

Module OFStream.
(** A failing write stores [stored] bytes and sets [errno]. *)
Record fault := mkFault { errorCode : Z; stored : nat }.

Record t := mk {
  disk : gmap string (list Z);
  opened : option string;
  badbit : bool;
  failbit : bool;
  errno : Z;
  writeFaults : list (option fault);  (* outcomes of the writes to come; none left: success *)
  openFaults : list bool              (* true: the next open fails *)
}.

Definition is_open (s : t) : bool := bool_decide (is_Some (opened s)).
Definition bad (s : t) : bool := badbit s.
Definition good (s : t) : bool := negb (badbit s || failbit s).

Definition contents (name : string) (s : t) : list Z := default [] (disk s !! name).
Definition store (name : string) (bytes : list Z) (s : t) : t :=
  mk (<[name := contents name s ++ bytes]> (disk s)) (opened s) (badbit s) (failbit s) (errno s)
    (writeFaults s) (openFaults s).

(** Nothing is written in an error state; a write that cannot store all bytes
    sets [badbit]. *)
Definition write (bytes : list Z) (s : t) : t :=
  if negb (good s) then s
  else match opened s with
  | None => mk (disk s) None true (failbit s) (errno s) (writeFaults s) (openFaults s)
  | Some name =>
      match writeFaults s with
      | Some f :: rest =>
          let s' := store name (take (stored f) bytes) s in
          mk (disk s') (opened s) true (failbit s) (errorCode f) rest (openFaults s)
      | fs =>
          let s' := store name bytes s in
          mk (disk s') (opened s) (badbit s) (failbit s) (errno s) (tail fs) (openFaults s)
      end
  end.

Definition flush (s : t) : t := s.

Definition clear (s : t) : t :=
  mk (disk s) (opened s) false false (errno s) (writeFaults s) (openFaults s).

Definition close (s : t) : t :=
  match opened s with
  | None => mk (disk s) None (badbit s) true (errno s) (writeFaults s) (openFaults s)
  | Some _ => mk (disk s) None (badbit s) (failbit s) (errno s) (writeFaults s) (openFaults s)
  end.

(** [open(name, binary)] truncates, [open(name, binary | app)] appends. *)
Definition open (name : string) (app : bool) (s : t) : t :=
  match opened s, openFaults s with
  | Some _, fs => mk (disk s) (opened s) (badbit s) true (errno s) (writeFaults s) fs
  | None, true :: fs => mk (disk s) None (badbit s) true (errno s) (writeFaults s) fs
  | None, fs =>
      mk (if app then <[name := contents name s]> (disk s) else <[name := []]> (disk s))
        (Some name) false false (errno s) (writeFaults s) (tail fs)
  end.
End OFStream.

(** ** FileHandleWrapper *)

Module FileHandleWrapper.
Record t := mk {
  fileHandle : OFStream.t;
  throwOnError : bool
}.

(** The common tail: the exception or the returned status. *)
Definition checked (message : string) (op : OFStream.t -> OFStream.t) : M t bool :=
  modify (fun w => mk (op (fileHandle w)) (throwOnError w)) ≫= fun _ =>
  w ← get;
  if OFStream.bad (fileHandle w) then
    if throwOnError w then fail (StdException message) else mret false
  else mret true.

Definition write (bytes : list Z) : M t bool :=
  checked "write() to file failed" (OFStream.write bytes).
Definition flush : M t bool := checked "flush() to file failed" OFStream.flush.
Definition clear : M t unit :=
  modify (fun w => mk (OFStream.clear (fileHandle w)) (throwOnError w)).
Definition close : M t bool := checked "close() file failed" OFStream.close.
Definition open (name : string) (app : bool) : M t bool :=
  checked "open() file failed" (OFStream.open name app).
Definition isOpen : M t bool := gets (fun w => OFStream.is_open (fileHandle w)).
Definition isBad : M t bool := gets (fun w => OFStream.bad (fileHandle w)).
End FileHandleWrapper.

(** ** AubFileStream *)

Record AubFileStream := mkAubFileStream {
  fileHandle : FileHandleWrapper.t;
  fileName : string;
  tmpWriteBuffer : list Z;
  dumpBinSupported : bool;
  dumpSurfaceSupported : bool
}.

Definition set_fileHandle (h : FileHandleWrapper.t) (s : AubFileStream) : AubFileStream :=
  mkAubFileStream h (fileName s) (tmpWriteBuffer s) (dumpBinSupported s) (dumpSurfaceSupported s).
Definition set_fileName (n : string) (s : AubFileStream) : AubFileStream :=
  mkAubFileStream (fileHandle s) n (tmpWriteBuffer s) (dumpBinSupported s) (dumpSurfaceSupported s).
Definition set_tmpWriteBuffer (b : list Z) (s : AubFileStream) : AubFileStream :=
  mkAubFileStream (fileHandle s) (fileName s) b (dumpBinSupported s) (dumpSurfaceSupported s).
Definition set_dumpSupported (b : bool) (s : AubFileStream) : AubFileStream :=
  mkAubFileStream (fileHandle s) (fileName s) (tmpWriteBuffer s) b b.

Definition EFAULT : Z := 14.
Definition maxU16 : Z := 65535.
Definition sizeofU32 : Z := 4.

#[local] Abbreviation FM := (M AubFileStream).

Definition onFile {B} (m : M FileHandleWrapper.t B) : FM B :=
  fun s => match m (fileHandle s) with
           | Ok (b, h) => Ok (b, set_fileHandle h s)
           | Err e => Err e
           end.

(** Reading [size] bytes of host memory from a pointer: the list is what is
    mapped from the pointer on. *)
Definition readHost (buffer : option (list Z)) (size : Z) : FM (list Z) :=
  match buffer with
  | None => if size <=? 0 then mret [] else fail NullDereference
  | Some l => if Z.of_nat (length l) <? size then fail OutOfBounds
              else mret (take (Z.to_nat size) l)
  end.

Section FileStream.
Variable ndebug : bool.

(** [write]: to the buffer until the file is open; otherwise to the file, with
    one retry through a host copy when the memory was not accessible. *)
Definition write (buffer : option (list Z)) (size : Z) : FM unit :=
  isOpen ← onFile FileHandleWrapper.isOpen;
  if negb isOpen then
    bytes ← readHost buffer size;
    modify (fun s => set_tmpWriteBuffer (tmpWriteBuffer s ++ bytes) s)
  else match buffer with
  | None => cassert ndebug false
  | Some _ =>
      if size <=? 0 then cassert ndebug false
      else
        bytes ← readHost buffer size;
        onFile (FileHandleWrapper.write bytes) ≫= fun _ =>
        isBad ← onFile FileHandleWrapper.isBad;
        if isBad : bool then
          s ← get;
          if OFStream.errno (FileHandleWrapper.fileHandle (fileHandle s)) =? EFAULT then
            onFile FileHandleWrapper.clear ≫= fun _ =>
            onFile FileHandleWrapper.close ≫= fun _ =>
            ok ← onFile (FileHandleWrapper.open (fileName s) true);
            if negb ok then mret tt
            else onFile (FileHandleWrapper.write bytes) ≫= fun _ => mret tt
          else mret tt
        else mret tt
  end.

(** [write(reinterpret_cast<char *>(&cmd), n)]. *)
Definition writeObject {T} `{!Packet T} (p : T) (n : Z) : FM unit := write (Some (encode p)) n.

Definition flush : FM unit := onFile FileHandleWrapper.flush ≫= fun _ => mret tt.

(** The zeros after a payload whose size is not a multiple of four. *)
Definition writePadding (size : Z) : FM unit :=
  let remainder := Z.land size (sizeofU32 - 1) in
  when (negb (remainder =? 0)) (write (Some [0; 0; 0; 0]) (sizeofU32 - remainder)).

(** [isOpen] only distinguishes the assertion. *)
Definition openFile (name : string) : FM unit :=
  onFile (FileHandleWrapper.open name false) ≫= fun _ =>
  isOpen ← onFile FileHandleWrapper.isOpen;
  (if negb isOpen then cassert ndebug false else mret tt) ≫= fun _ =>
  modify (set_fileName name).

Definition closeFile : FM unit :=
  onFile FileHandleWrapper.close ≫= fun _ => modify (set_fileName "").

(** The destructor. *)
Definition destroy : FM unit :=
  isOpen ← onFile FileHandleWrapper.isOpen;
  when isOpen (onFile FileHandleWrapper.close ≫= fun _ => mret tt).

Definition enableThrowOnError (enabled : bool) : FM unit :=
  modify (fun s => set_fileHandle
    (FileHandleWrapper.mk (FileHandleWrapper.fileHandle (fileHandle s)) enabled) s).

(** *** Comments *)

Definition stringBytes (s : string) : list Z :=
  map (fun c => Z.of_N (Ascii.N_of_ascii c)) (String.list_ascii_of_string s).

Definition maxMessageBytesPerRecord : Z := (maxU16 - 1) * sizeofU32.

Definition commentCmd (chunkBytes : Z) : CmdServicesMemTraceComment.t :=
  let dwordLen := (chunkBytes + sizeofU32 - 1) / sizeofU32 in
  CmdServicesMemTraceComment.setHeader
    (CmdServicesMemTraceComment.mk (u32 (dwordLen + 1)) 0 0 0 0 0 []).

(** [sizeof(cmd) - sizeof(cmd.comment)]. *)
Definition commentHeaderSize : Z := CmdServicesMemTraceComment.sizeOf - 4.

(** The [do]-[while] loop; every pass takes at least one byte. *)
Fixpoint addCommentLoop (fuel : nat) (cursor : list Z) (remaining : Z) : FM unit :=
  match fuel with
  | O => fail OutOfFuel
  | S fuel' =>
      let chunkBytes := Z.min remaining maxMessageBytesPerRecord in
      writeObject (commentCmd chunkBytes) commentHeaderSize ≫= fun _ =>
      write (Some cursor) chunkBytes ≫= fun _ =>
      writePadding chunkBytes ≫= fun _ =>
      let remaining := remaining - chunkBytes in
      if 0 <? remaining then
        addCommentLoop fuel' (drop (Z.to_nat chunkBytes) cursor) remaining
      else mret tt
  end.

Definition addCommentFile (message : string) : FM unit :=
  let bytes := stringBytes message ++ [0] in
  let remaining := Z.of_nat (length bytes) in
  addCommentLoop (S (Z.to_nat (remaining / maxMessageBytesPerRecord))) bytes remaining ≫= fun _ =>
  flush.

(** *** Memory *)

Definition memoryWriteHeaderSize : Z := CmdServicesMemTraceMemoryWrite.sizeOf - 4.
Definition maxChunkSize : Z := (maxU16 - memoryWriteHeaderSize / sizeofU32) * sizeofU32.
Definition alignedBlockSize (size : Z) : Z := clear_low (u64 (size + sizeofU32 - 1)) sizeofU32.

Definition memoryWriteCmd (chunkSize physAddress addressSpace hint : Z)
    : CmdServicesMemTraceMemoryWrite.t :=
  let dwordCount := (memoryWriteHeaderSize + alignedBlockSize chunkSize) / sizeofU32 in
  CmdServicesMemTraceMemoryWrite.setHeader
    (CmdServicesMemTraceMemoryWrite.mk (u32 (dwordCount - 1)) 0 0 0 physAddress 0
       CmdServicesMemTraceMemoryWrite.RepeatMemoryValues.NoRepeat
       CmdServicesMemTraceMemoryWrite.TilingValues.NoTiling hint addressSpace
       (u32 chunkSize) []).

Fixpoint writeContiguousLoop (fuel : nat) (currentMemory : list Z)
    (remainingSize currentPhysAddress addressSpace hint : Z) : FM unit :=
  if 0 <? remainingSize then
    match fuel with
    | O => fail OutOfFuel
    | S fuel' =>
        let chunkSize := Z.min remainingSize maxChunkSize in
        let dwordCount := (memoryWriteHeaderSize + alignedBlockSize chunkSize) / sizeofU32 in
        cassert ndebug (dwordCount <=? maxU16) ≫= fun _ =>
        writeObject (memoryWriteCmd chunkSize currentPhysAddress addressSpace hint)
          memoryWriteHeaderSize ≫= fun _ =>
        write (Some currentMemory) chunkSize ≫= fun _ =>
        writePadding chunkSize ≫= fun _ =>
        writeContiguousLoop fuel' (drop (Z.to_nat chunkSize) currentMemory)
          (remainingSize - chunkSize) (u64 (currentPhysAddress + chunkSize)) addressSpace hint
    end
  else mret tt.

Definition writeContiguousPages (memory : list Z) (size physAddress addressSpace hint : Z)
    : FM unit :=
  cassert ndebug (0 <? maxChunkSize) ≫= fun _ =>
  writeContiguousLoop (S (Z.to_nat (size / maxChunkSize))) memory size physAddress addressSpace
    hint ≫= fun _ =>
  flush.

(** [sizeof(Dword_2_To_190) / sizeof(Dword_2_To_190[0])] and the header without
    [data]. *)
Definition maxEntries : Z := CmdServicesMemTraceMemoryWriteDiscontiguous.getDword2To190Length / 3.
Definition discontiguousHeaderSize : Z := CmdServicesMemTraceMemoryWriteDiscontiguous.sizeOf - 4.
Definition headerDwordCount : Z := discontiguousHeaderSize / sizeofU32 - 1.
Definition maxDataDwordCount : Z := maxU16 - headerDwordCount.

(** [cmd] at a flush: its length, the number of pairs and the pairs stored. *)
Definition discontiguousCmd (dwordCount numberOfPairs : Z) (pairs : list (Z * Z))
    (addressSpace hint : Z) : CmdServicesMemTraceMemoryWriteDiscontiguous.t :=
  CmdServicesMemTraceMemoryWriteDiscontiguous.setHeader
    (CmdServicesMemTraceMemoryWriteDiscontiguous.mk dwordCount 0 0 0 0
       CmdServicesMemTraceMemoryWriteDiscontiguous.RepeatMemoryValues.NoRepeat
       CmdServicesMemTraceMemoryWriteDiscontiguous.TilingValues.NoTiling
       numberOfPairs hint addressSpace pairs []).

(** [Dword_2_To_190[index] = pair]; a store past the array is undefined. *)
Definition storePair (index : Z) (pair : Z * Z) (pairs : list (Z * Z)) : FM (list (Z * Z)) :=
  if index <? maxEntries then mret (<[Z.to_nat index := pair]> (resize 63 (0, 0) pairs))
  else fail OutOfBounds.

(** The local variables of [writeDiscontiguousPages]: the iterators are indices
    of the table, the pointers offsets into [memory]. *)
Record Discontiguous := mkDiscontiguous {
  cmdDwordCount : Z;
  cmdPairs : list (Z * Z);
  dIndex : Z;
  itorCurrent : nat;
  itorDumpStart : nat;
  ptrDump : Z;
  ptr : Z;
  writtenSize : Z
}.

Definition toAddressSpace (isLocalMemory : bool) : Z :=
  if isLocalMemory then AddressSpaceValues.TraceLocal else AddressSpaceValues.TraceNonlocal.

Section PageInfos.
Variable memory : list Z.
Variable writeInfoTable : list PageInfo.
Variable isLocalMemory : bool.
Variable hint : Z.

Definition at_ (offset : Z) : list Z := drop (Z.to_nat offset) memory.

Definition unalignedSize (e : PageInfo) : bool := negb (Z.land (pi_size e) (sizeofU32 - 1) =? 0).
Definition unalignedAddress (e : PageInfo) : bool :=
  negb (Z.land (pi_physicalAddress e) (sizeofU32 - 1) =? 0).
Definition differentAddressSpace (e : PageInfo) : bool :=
  negb (eqb isLocalMemory (pi_isLocalMemory e)).

(** The data of the entries of a packet. *)
Fixpoint dumpEntries (es : list PageInfo) (dump : Z) : FM Z :=
  match es with
  | [] => mret dump
  | e :: es' =>
      when (negb (unalignedSize e) && negb (unalignedAddress e)
            && negb (differentAddressSpace e))
        (write (Some (at_ dump)) (pi_size e)) ≫= fun _ =>
      dumpEntries es' (dump + pi_size e)
  end.

Definition flushDiscontiguousToken (v : Discontiguous) : FM Discontiguous :=
  if dIndex v =? 0 then mret v
  else
    writeObject (discontiguousCmd (cmdDwordCount v) (dIndex v) (cmdPairs v)
                   (toAddressSpace isLocalMemory) hint) discontiguousHeaderSize ≫= fun _ =>
    dump ← dumpEntries
             (take (itorCurrent v - itorDumpStart v) (drop (itorDumpStart v) writeInfoTable))
             (ptrDump v);
    mret (mkDiscontiguous 0 (cmdPairs v) 0 (itorCurrent v) (itorCurrent v) dump (ptr v)
            (writtenSize v)).

Definition set_cmdDwordCount (n : Z) (v : Discontiguous) : Discontiguous :=
  mkDiscontiguous n (cmdPairs v) (dIndex v) (itorCurrent v) (itorDumpStart v) (ptrDump v)
    (ptr v) (writtenSize v).
Definition set_index (n : Z) (v : Discontiguous) : Discontiguous :=
  mkDiscontiguous (cmdDwordCount v) (cmdPairs v) n (itorCurrent v) (itorDumpStart v)
    (ptrDump v) (ptr v) (writtenSize v).

Definition assertSynchronised (v : Discontiguous) : FM unit :=
  cassert ndebug (itorDumpStart v =? itorCurrent v)%nat ≫= fun _ =>
  cassert ndebug (ptrDump v =? ptr v).

(** One pass of [while (itorCurrent != writeInfoTable.end())]. *)
Definition discontiguousStep (e : PageInfo) (v : Discontiguous) : FM Discontiguous :=
  let dwordCount := u32 (alignedBlockSize (pi_size e) / sizeofU32) in
  if unalignedSize e || unalignedAddress e || differentAddressSpace e
     || (maxDataDwordCount <? dwordCount) then
    v ← flushDiscontiguousToken v;
    writeContiguousPages (at_ (ptr v)) (pi_size e) (pi_physicalAddress e)
      (toAddressSpace (pi_isLocalMemory e)) hint ≫= fun _ =>
    let ptr' := ptr v + pi_size e in
    mret (mkDiscontiguous (cmdDwordCount v) (cmdPairs v) (dIndex v) (S (itorCurrent v))
            (S (itorCurrent v)) ptr' ptr' (writtenSize v + pi_size e))
  else
    v ← (if cmdDwordCount v =? 0 then
           assertSynchronised v ≫= fun _ =>
           mret (set_index 0 (set_cmdDwordCount headerDwordCount v))
         else mret v);
    v ← (if (maxEntries <=? dIndex v) || (maxU16 <? dwordCount + cmdDwordCount v) then
           v ← flushDiscontiguousToken v;
           assertSynchronised v ≫= fun _ =>
           mret (set_cmdDwordCount headerDwordCount v)
         else mret v);
    pairs ← storePair (dIndex v) (pi_physicalAddress e, u32 (pi_size e)) (cmdPairs v);
    mret (mkDiscontiguous (u16 (cmdDwordCount v + dwordCount)) pairs (dIndex v + 1)
            (S (itorCurrent v)) (itorDumpStart v) (ptrDump v) (ptr v + pi_size e)
            (writtenSize v + pi_size e)).

Fixpoint discontiguousLoop (es : list PageInfo) (v : Discontiguous) : FM Discontiguous :=
  match es with
  | [] => mret v
  | e :: es' => v ← discontiguousStep e v; discontiguousLoop es' v
  end.
End PageInfos.

Definition writeDiscontiguousPagesFile (memory : list Z) (size : Z)
    (writeInfoTable : list PageInfo) (hint : Z) : FM unit :=
  match writeInfoTable with
  | [] => fail OutOfBounds
  | [entry] =>
      writeContiguousPages memory size (pi_physicalAddress entry)
        (toAddressSpace (pi_isLocalMemory entry)) hint
  | entry :: _ =>
      let isLocalMemory := pi_isLocalMemory entry in
      v ← discontiguousLoop memory writeInfoTable isLocalMemory hint writeInfoTable
            (mkDiscontiguous 0 [] 0 0 0 0 0 0);
      v ← flushDiscontiguousToken memory writeInfoTable isLocalMemory hint v;
      flush ≫= fun _ =>
      cassert ndebug (writtenSize v =? size)
  end.

(** *** Page table entries *)

Section EntryInfos.
Variable writeInfoTable : list PageEntryInfo.
Variable addressSpace hint : Z.

Fixpoint dumpTableEntries (es : list PageEntryInfo) : FM unit :=
  match es with
  | [] => mret tt
  | e :: es' => write (Some (leBytes 8 (pe_tableEntry e))) 8 ≫= fun _ => dumpTableEntries es'
  end.

(** [cmd.numberOfAddressDataPairs = index; write(...)] and the data loop. *)
Definition flushEntries (v : Discontiguous) : FM Discontiguous :=
  writeObject (discontiguousCmd (cmdDwordCount v) (dIndex v) (cmdPairs v) addressSpace hint)
    discontiguousHeaderSize ≫= fun _ =>
  dumpTableEntries
    (take (itorCurrent v - itorDumpStart v) (drop (itorDumpStart v) writeInfoTable)) ≫= fun _ =>
  mret (mkDiscontiguous (cmdDwordCount v) (cmdPairs v) (dIndex v) (itorCurrent v)
          (itorCurrent v) 0 0 0).

Definition entryStep (e : PageEntryInfo) (v : Discontiguous) : FM Discontiguous :=
  let dwordCount := 8 / sizeofU32 in
  v ← (if (maxEntries <=? dIndex v) || (65535 <? dwordCount + cmdDwordCount v) then
         v ← flushEntries v; mret (set_cmdDwordCount 0 v)
       else mret v);
  v ← (if cmdDwordCount v =? 0 then
         cassert ndebug (itorDumpStart v =? itorCurrent v)%nat ≫= fun _ =>
         mret (set_index 0 (set_cmdDwordCount headerDwordCount v))
       else mret v);
  cassert ndebug (dIndex v <? maxEntries) ≫= fun _ =>
  pairs ← storePair (dIndex v) (pe_physicalAddress e, 8) (cmdPairs v);
  mret (mkDiscontiguous (u16 (cmdDwordCount v + dwordCount)) pairs (dIndex v + 1)
          (S (itorCurrent v)) (itorDumpStart v) 0 0 0).

Fixpoint entryLoop (es : list PageEntryInfo) (v : Discontiguous) : FM Discontiguous :=
  match es with
  | [] => mret v
  | e :: es' => v ← entryStep e v; entryLoop es' v
  end.

Definition writeDiscontiguousEntriesFile : FM unit :=
  match writeInfoTable with
  | [entry] =>
      writeContiguousPages (leBytes 8 (pe_tableEntry entry)) 8 (pe_physicalAddress entry)
        addressSpace hint
  | _ =>
      v ← entryLoop writeInfoTable (mkDiscontiguous 0 [] 0 0 0 0 0 0);
      (if negb (dIndex v =? 0) then
         cassert ndebug (negb (itorDumpStart v =? itorCurrent v)%nat) ≫= fun _ =>
         flushEntries v ≫= fun _ => mret tt
       else mret tt) ≫= fun _ =>
      flush
  end.
End EntryInfos.

Definition writeGttPagesFile (writeInfoTable : list PageEntryInfo) : FM unit :=
  writeDiscontiguousEntriesFile writeInfoTable AddressSpaceValues.TraceGttEntry
    DataTypeHintValues.TraceNotype.

(** *** Expectations, reservations, registers *)

Definition compareHeaderSize : Z := CmdServicesMemTraceMemoryCompare.sizeOf - 4.

(** [last]: [&entry == &entries.back()]. *)
Definition compareCmd (entry : PageInfo) (last : bool) (compareOperation : Z)
    : CmdServicesMemTraceMemoryCompare.t :=
  let dwordCount := u64 (compareHeaderSize + pi_size entry + sizeofU32 - 1) / sizeofU32 in
  CmdServicesMemTraceMemoryCompare.setHeader
    (CmdServicesMemTraceMemoryCompare.mk (u32 (dwordCount - 1)) 0 0 0
       (u32 (pi_physicalAddress entry)) (u32 (Z.shiftr (pi_physicalAddress entry) 32))
       CmdServicesMemTraceMemoryCompare.NoReadExpectValues.ReadExpect
       CmdServicesMemTraceMemoryCompare.RepeatMemoryValues.NoRepeat
       CmdServicesMemTraceMemoryCompare.TilingValues.NoTiling
       CmdServicesMemTraceMemoryCompare.CrcCompareValues.NoCrc
       compareOperation
       (if last || (compareOperation =? 0)
        then CmdServicesMemTraceMemoryCompare.DeferCompareEvaluationValues.CompareImmediately
        else CmdServicesMemTraceMemoryCompare.DeferCompareEvaluationValues.StoreComparison)
       CmdServicesMemTraceMemoryCompare.DataTypeHintValues.TraceNotype
       (toAddressSpace (pi_isLocalMemory entry)) (u32 (pi_size entry)) []).

Fixpoint expectLoop (memory : list Z) (es : list PageInfo) (compareOperation sizeWritten : Z)
    : FM Z :=
  match es with
  | [] => mret sizeWritten
  | e :: es' =>
      writeObject (compareCmd e (bool_decide (es' = [])) compareOperation)
        compareHeaderSize ≫= fun _ =>
      write (Some memory) (pi_size e) ≫= fun _ =>
      writePadding (pi_size e) ≫= fun _ =>
      expectLoop (drop (Z.to_nat (pi_size e)) memory) es' compareOperation
        (sizeWritten + pi_size e)
  end.

Definition expectMemoryTableFile (memory : list Z) (size : Z) (es : list PageInfo)
    (compareOperation : Z) : FM unit :=
  sizeWritten ← expectLoop memory es compareOperation 0;
  flush ≫= fun _ =>
  cassert ndebug (sizeWritten =? size).

Definition regionCmd (page : Z) : CmdServicesMemTraceMemoryContinuousRegion.t :=
  CmdServicesMemTraceMemoryContinuousRegion.setHeader
    (CmdServicesMemTraceMemoryContinuousRegion.mk
       (CmdServicesMemTraceMemoryContinuousRegion.sizeOf / sizeofU32 - 1) 0 0 0 page 0x10000).

Definition reserveContiguousPagesFile (es : list Z) : FM unit :=
  mapM_ (fun page => writeObject (regionCmd page)
                       CmdServicesMemTraceMemoryContinuousRegion.sizeOf) es ≫= fun _ =>
  flush.

Definition writeMMIOFile (offset value mask : Z) : FM unit :=
  writeObject
    (CmdServicesMemTraceRegisterWrite.setHeader
       (CmdServicesMemTraceRegisterWrite.mk
          (CmdServicesMemTraceRegisterWrite.sizeOf / sizeofU32 - 1) 0 0 0 offset
          CmdServicesMemTraceRegisterWrite.MessageSourceIdValues.Ia
          CmdServicesMemTraceRegisterWrite.RegisterSizeValues.Dword
          CmdServicesMemTraceRegisterWrite.RegisterSpaceValues.Mmio mask 0 [value]))
    CmdServicesMemTraceRegisterWrite.sizeOf ≫= fun _ =>
  flush.

Definition registerPollFile (registerOffset mask desiredValue : Z) (pollNotEqual : bool)
    (timeoutAction : Z) : FM unit :=
  writeObject
    (CmdServicesMemTraceRegisterPoll.setHeader
       (CmdServicesMemTraceRegisterPoll.mk
          (CmdServicesMemTraceRegisterPoll.sizeOf / sizeofU32 - 1) 0 0 0 registerOffset
          timeoutAction (Z.b2z pollNotEqual)
          CmdServicesMemTraceRegisterPoll.OperationTypeValues.Normal
          CmdServicesMemTraceRegisterPoll.RegisterSizeValues.Dword
          CmdServicesMemTraceRegisterPoll.RegisterSpaceValues.Mmio mask 0 [desiredValue]))
    CmdServicesMemTraceRegisterPoll.sizeOf ≫= fun _ =>
  flush.

Definition memoryPollFile (es : list PageInfo) (value compareMode : Z) : FM unit :=
  cassert ndebug ((CmdServicesMemTraceMemoryPoll.ComparisonValues.Equal <=? compareMode)
    && (compareMode <=? CmdServicesMemTraceMemoryPoll.ComparisonValues.GreaterEqual)) ≫= fun _ =>
  cassert ndebug (length es =? 1)%nat ≫= fun _ =>
  e ← from_option_M OutOfBounds (head es);
  writeObject
    (CmdServicesMemTraceMemoryPoll.setHeader
       (CmdServicesMemTraceMemoryPoll.mk
          (CmdServicesMemTraceMemoryPoll.sizeOf / sizeofU32 - 1) 0 0 0
          (u32 (Z.land (pi_physicalAddress e) 0xffffffff))
          (u32 (Z.shiftr (pi_physicalAddress e) 32)) 0
          CmdServicesMemTraceMemoryPoll.TilingValues.NoTiling
          CmdServicesMemTraceMemoryPoll.DataSizeValues.Dword
          CmdServicesMemTraceMemoryPoll.TimeoutActionValues.Abort compareMode
          CmdServicesMemTraceMemoryPoll.DataTypeHintValues.TraceNotype
          (toAddressSpace (pi_isLocalMemory e)) 0xffffffff 0xffffffff [value]))
    CmdServicesMemTraceMemoryPoll.sizeOf ≫= fun _ =>
  flush.

(** *** Dumps *)

Definition dumpHeader (size subOp : Z) : AubCmdHdr.t :=
  AubCmdHdr.mk ((size - AubCmdHdr.sizeOf) / sizeofU32 - 1) subOp 0x1 0x7.

Definition writeContextCreate (handle sixtyFourBit : Z) (pageDirPointer : list Z) : FM unit :=
  let cmd := AubPpgttContextCreate.mk (dumpHeader AubPpgttContextCreate.sizeOf 0x14) handle 0
               sixtyFourBit pageDirPointer in
  write (Some (leBytes (Z.to_nat AubPpgttContextCreate.sizeOf)
                 (packBits (AubPpgttContextCreate.fields cmd))))
    AubPpgttContextCreate.sizeOf ≫= fun _ =>
  flush.

Definition dumpBufferBINFile (gttType gfxAddress size handleDumpContext : Z) : FM unit :=
  s ← get;
  if negb (dumpBinSupported s) then mret tt
  else
    let zero := AubCaptureBinaryDumpHD.mk (dumpHeader AubCaptureBinaryDumpHD.sizeOf 0x15)
                  0 0 0 0 0 gttType handleDumpContext 0 0 [] in
    let cmd := AubCaptureBinaryDumpHD.setPitch size (AubCaptureBinaryDumpHD.setBaseAddr gfxAddress
                 (AubCaptureBinaryDumpHD.setWidth size (AubCaptureBinaryDumpHD.setHeight 1 zero))) in
    write (Some (leBytes (Z.to_nat AubCaptureBinaryDumpHD.sizeOf)
                   (packBits (AubCaptureBinaryDumpHD.fields cmd))))
      AubCaptureBinaryDumpHD.sizeOf ≫= fun _ =>
    flush.

Definition surfaceCmd (gttType : Z) (si : SurfaceInfo) (handleDumpContext : Z)
    : CmdServicesMemTraceDumpCompress.t :=
  CmdServicesMemTraceDumpCompress.mk
    ((CmdServicesMemTraceDumpCompress.sizeOf - 1) / 4) 0x10 0x2e 0x7
    (si_address si) (si_width si) (si_height si) (si_pitch si) (si_format si)
    (si_dumpType si) (si_tilingType si) (si_surftype si) 0 (Z.b2z (si_useClearValue si))
    (si_auxSurfaceAddress si) (si_auxSurfaceWidth si) (si_auxSurfaceHeight si)
    (si_auxSurfacePitch si) (si_auxSurfaceQPitch si) (si_auxSurfaceTilingType si)
    (si_auxEncodingFormat si) 0 0 0 0
    (if si_compressed si then CmdServicesMemTraceDumpCompress.ModeValues.Horizontal else 0)
    (if si_compressed si then CmdServicesMemTraceDumpCompress.AlgorithmValues.Lossless
     else CmdServicesMemTraceDumpCompress.AlgorithmValues.Uncompressed)
    0 0 0 0 0 0 0 gttType (si_clearColorType si) handleDumpContext (si_clearColorAddress si).

Definition dumpSurfaceFile (gttType : Z) (si : SurfaceInfo) (handleDumpContext : Z) : FM unit :=
  s ← get;
  if negb (dumpSurfaceSupported s) then mret tt
  else
    writeObject (surfaceCmd gttType si handleDumpContext)
      CmdServicesMemTraceDumpCompress.sizeOf ≫= fun _ =>
    flush.

(** *** init *)

(** [getHeaderStr]: the four bytes it leaves in a zeroed header. *)
Definition getHeaderStr (caller : Z) : list Z :=
  stringBytes (if caller =? 1 then "RLR" else if caller =? 2 then "RLC"
               else if caller =? 3 then "RLL" else if caller =? 4 then "RL"
               else if caller =? 0 then "NEO" else "UNK") ++ [0].

Definition versionCmd (stepping aubStreamCaller : Z) (gpu : GpuDescriptor)
    : CmdServicesMemTraceVersion.t :=
  let header := CmdServicesMemTraceVersion.setHeader CmdServicesMemTraceVersion.zero in
  CmdServicesMemTraceVersion.mk
    (CmdServicesMemTraceVersion.sizeOf / sizeofU32 - 1)
    (CmdServicesMemTraceVersion.instructionSubOpcode header)
    (CmdServicesMemTraceVersion.instructionOpcode header)
    (CmdServicesMemTraceVersion.instructionType header)
    (CmdServicesMemTraceVersion.memtraceFileVersion header) 0 stepping (deviceId gpu)
    CmdServicesMemTraceVersion.CsxSwizzlingValues.Disabled
    CmdServicesMemTraceVersion.RecordingMethodValues.Phy
    CmdServicesMemTraceVersion.PchValues.Default
    CmdServicesMemTraceVersion.CaptureToolValues.AubStream
    (if deviceId gpu =? 0 then take 8 (stringBytes (productAbbreviation gpu)) else [])
    (getHeaderStr aubStreamCaller).

(** With the file closed the source inserts the buffer into itself, which is
    undefined; the model takes it as an out-of-bounds access. *)
Definition init (aubStreamCaller stepping : Z) (gpu : GpuDescriptor) : FM bool :=
  modify (set_dumpSupported ((CoreFamily.XeHpCore <=? gfxCoreFamily gpu)
                             && (gfxCoreFamily gpu <=? CoreFamily.XeHpgCore))) ≫= fun _ =>
  writeObject (versionCmd stepping aubStreamCaller gpu)
    CmdServicesMemTraceVersion.sizeOf ≫= fun _ =>
  s ← get;
  when (0 <? Z.of_nat (length (tmpWriteBuffer s)))
    ((if OFStream.is_open (FileHandleWrapper.fileHandle (fileHandle s)) then
        write (Some (tmpWriteBuffer s)) (Z.of_nat (length (tmpWriteBuffer s)))
      else fail OutOfBounds) ≫= fun _ =>
     modify (set_tmpWriteBuffer [])) ≫= fun _ =>
  flush ≫= fun _ => mret true.
End FileStream.

(** The stream interface of the base class. *)
#[export] Instance FileStream (ndebug : bool) : Stream AubFileStream := {
  addComment := addCommentFile ndebug;
  writeGttPages _ es := writeGttPagesFile ndebug es;
  expectMemoryTable := expectMemoryTableFile ndebug;
  reserveContiguousPages := reserveContiguousPagesFile ndebug;
  readDiscontiguousPages memory _ _ := mret memory;
  writeDiscontiguousPages := writeDiscontiguousPagesFile ndebug;
  writeDiscontiguousEntries := writeDiscontiguousEntriesFile ndebug;
  memoryPoll := memoryPollFile ndebug;
  registerPoll := registerPollFile ndebug;
  writeMMIO := writeMMIOFile ndebug;
  readMMIO _ := mret 0;
  writePCICFG _ _ := mret tt;
  readPCICFG _ := mret 0;
  declareContext h p := writeContextCreate ndebug h p.1 p.2;
  dumpBufferBIN := dumpBufferBINFile ndebug;
  dumpSurface := dumpSurfaceFile ndebug;
  arePageTableWritesFullyCommitted := mret true
}.
