(* ===== verification/FileTheory.v ===== *)
(** * What the capture file says

    A reader of the file format, and the theorems that what [AubFileStream]
    writes reads back as the memory contents it was given. *)

From S2P Require Import Prelude Allocator MemoryBanks Gpu PageTable Walker AubPackets AubStream.
From S2P Require Import AubFileStream.
#[local] Open Scope Z_scope.

(** ** Writes to a file that accepts them *)

(** The file is open under [name] and no operation to come fails. *)
Record goodFile (name : string) (s : AubFileStream) : Prop := {
  gf_open : OFStream.opened (FileHandleWrapper.fileHandle (fileHandle s)) = Some name;
  gf_good : OFStream.good (FileHandleWrapper.fileHandle (fileHandle s)) = true;
  gf_faults : OFStream.writeFaults (FileHandleWrapper.fileHandle (fileHandle s)) = [];
  gf_exists : is_Some (OFStream.disk (FileHandleWrapper.fileHandle (fileHandle s)) !! name)
}.

Definition appendFile (name : string) (bytes : list Z) (s : AubFileStream) : AubFileStream :=
  set_fileHandle (FileHandleWrapper.mk
    (OFStream.store name bytes (FileHandleWrapper.fileHandle (fileHandle s)))
    (FileHandleWrapper.throwOnError (fileHandle s))) s.

(** The bytes of the capture file. *)
Definition fileBytes (name : string) (s : AubFileStream) : list Z :=
  OFStream.contents name (FileHandleWrapper.fileHandle (fileHandle s)).

Lemma fileBytes_append name bytes s :
  fileBytes name (appendFile name bytes s) = fileBytes name s ++ bytes.
Proof. unfold fileBytes, appendFile, OFStream.contents. cbn. by rewrite lookup_insert_eq. Qed.

Lemma goodFile_append name bytes s : goodFile name s -> goodFile name (appendFile name bytes s).
Proof.
  intros [H1 H2 H3 H4]. split; try done. unfold appendFile. cbn. rewrite lookup_insert_eq. by eexists.
Qed.

Lemma appendFile_nil name s : goodFile name s -> appendFile name [] s = s.
Proof.
  intros [_ _ _ [l Hl]]. destruct s as [[[d o b f e ws os] t] n tb b1 b2]. cbn in *.
  unfold appendFile, OFStream.store, OFStream.contents, set_fileHandle. cbn.
  rewrite Hl. cbn. by rewrite app_nil_r, insert_id.
Qed.

Lemma appendFile_app name b1 b2 s :
  appendFile name b2 (appendFile name b1 s) = appendFile name (b1 ++ b2) s.
Proof.
  unfold appendFile, OFStream.store, OFStream.contents, set_fileHandle. cbn.
  rewrite lookup_insert_eq, insert_insert_eq. cbn. by rewrite app_assoc.
Qed.

(** [m] returns [b] and appends [bytes], whatever good file it runs on. *)
Definition emits {B} (name : string) (m : M AubFileStream B) (b : B) (bytes : list Z) : Prop :=
  forall s, goodFile name s -> m s = Ok (b, appendFile name bytes s).

Section Emits.
Variable name : string.
Variable ndebug : bool.
#[local] Abbreviation Emits := (emits name).

Lemma emits_ret {B} (b : B) : Emits (mret b) b [].
Proof. intros s Hs. by rewrite appendFile_nil. Qed.

Lemma emits_bind {B C} (m : M AubFileStream B) (k : B -> M AubFileStream C) b c bs cs :
  Emits m b bs -> Emits (k b) c cs -> Emits (m ≫= k) c (bs ++ cs).
Proof.
  intros Hm Hk s Hs. unfold mbind, M_bind. rewrite Hm by done.
  rewrite Hk by by apply goodFile_append. by rewrite appendFile_app.
Qed.

(** A step that writes nothing. *)
Lemma emits_skip {B C} (m : M AubFileStream B) (k : B -> M AubFileStream C) b c cs :
  Emits m b [] -> Emits (k b) c cs -> Emits (m ≫= k) c cs.
Proof. exact (emits_bind m k b c [] cs). Qed.

Lemma emits_cassert b : b = true -> Emits (cassert ndebug b) tt [].
Proof. intros ->. unfold cassert. rewrite orb_true_r. apply emits_ret. Qed.

Lemma emits_write l n :
  0 < n <= Z.of_nat (length l) -> Emits (write ndebug (Some l) n) tt (take (Z.to_nat n) l).
Proof.
  intros Hn s [Ho Hg Hf He]. unfold write, onFile, readHost.
  destruct s as [[[d o b f e ws os] t] nm tb b1 b2]. cbn in *. subst o ws.
  unfold OFStream.good in Hg. cbn in Hg. destruct b, f; try done.
  rewrite (proj2 (Z.leb_gt n 0)) by lia. cbn.
  by rewrite (proj2 (Z.ltb_ge _ _)) by lia.
Qed.

Lemma emits_flush : Emits flush tt [].
Proof.
  intros s Hs. rewrite appendFile_nil by done. destruct Hs as [Ho Hg Hf He].
  destruct s as [[[d o b f e ws os] t] nm tb b1 b2]. cbn in *.
  unfold OFStream.good in Hg. cbn in Hg. destruct b; done.
Qed.

Lemma emits_writeObject {T} `{!Packet T} (p : T) n :
  0 < n <= pk_size -> Emits (writeObject ndebug p n) tt (take (Z.to_nat n) (encode p)).
Proof. intros Hn. apply emits_write. rewrite length_encode. lia. Qed.

Definition padding (n : Z) : list Z := replicate (Z.to_nat ((4 - n mod 4) mod 4)) 0.

Lemma emits_padding n : Emits (writePadding ndebug n) tt (padding n).
Proof.
  unfold writePadding, when, padding. change (sizeofU32 - 1) with (2 ^ 2 - 1).
  rewrite land_low_mod by lia. change (2 ^ 2) with 4. unfold sizeofU32.
  pose proof (Z.mod_pos_bound n 4 ltac:(lia)).
  destruct (Z.eqb_spec (n mod 4) 0) as [->|Hne]; [apply emits_ret|]. cbn [negb].
  rewrite (Z.mod_small (4 - n mod 4)) by lia.
  assert (n mod 4 = 1 \/ n mod 4 = 2 \/ n mod 4 = 3) as [->|[->| ->]] by lia;
    by apply (emits_write [0; 0; 0; 0]).
Qed.
End Emits.

(** ** The reader *)

(** The header double word: length, opcodes and type. *)
Definition headerOf (bytes : list Z) : list Z := decodeFields [16; 7; 6; 3] (take 4 bytes).

(** The next packet takes [dwordCount + 1] double words. *)
(** The length of a packet from its header: the dwords that follow the length
    field's bias, which is two for the commands of [aub_header.h] and one for
    those of [aub_services.h]. *)
Definition packetLength (header : list Z) : Z :=
  4 * (nth 0 header 0 + if nth 2 header 0 =? 0x1 then 2 else 1).

Lemma packetLength_memtrace n sub t : packetLength [n; sub; 0x2e; t] = 4 * (n + 1).
Proof. done. Qed.

Definition readPacket (bytes : list Z) : option (list Z * list Z) :=
  let n := packetLength (headerOf bytes) in
  if (Z.of_nat (length bytes) <? 4) || (Z.of_nat (length bytes) <? n) then None
  else Some (take (Z.to_nat n) bytes, drop (Z.to_nat n) bytes).

Fixpoint readPackets (fuel : nat) (bytes : list Z) : option (list (list Z)) :=
  match bytes, fuel with
  | [], _ => Some []
  | _, O => None
  | _, S fuel' =>
      p ← readPacket bytes;
      ps ← readPackets fuel' p.2;
      Some (p.1 :: ps)
  end.

(** A byte of memory a packet defines: address space, address, value. *)
Definition Cell : Type := Z * Z * Z.

Fixpoint pairsOf (l : list Z) : list (Z * Z) :=
  match l with
  | a :: n :: l' => (a, n) :: pairsOf l'
  | _ => []
  end.

Definition rangeOf (space address size : Z) : list (Z * Z) := map (pair space) (seqZ address size).

Definition writeWidths : list Z := [16; 7; 6; 3; 64; 1; 1; 2; 16; 8; 4; 32].
Definition discontiguousWidths : list Z :=
  [16; 7; 6; 3; 1; 1; 2; 16; 8; 4] ++ map fst (pairFields 64 32 63 []).

(** The memory a packet writes; none for packets that do not write memory. *)
Definition cellsOf (packet : list Z) : list Cell :=
  match headerOf packet with
  | [_; subOp; 0x2e; 0x7] =>
      if subOp =? CmdServicesMemTraceMemoryWrite.subOpcode then
        let h := decodeFields writeWidths (take 20 packet) in
        zip (rangeOf (nth 10 h 0) (nth 4 h 0) (nth 11 h 0)) (drop 20 packet)
      else if subOp =? CmdServicesMemTraceMemoryWriteDiscontiguous.subOpcode then
        let h := decodeFields discontiguousWidths (take 764 packet) in
        let pairs := take (Z.to_nat (nth 7 h 0)) (pairsOf (drop 10 h)) in
        zip (concat (map (fun p => rangeOf (nth 9 h 0) p.1 p.2) pairs)) (drop 764 packet)
      else []
  | _ => []
  end.

Definition readMemoryImage (bytes : list Z) : option (list Cell) :=
  ps ← readPackets (length bytes) bytes; Some (concat (map cellsOf ps)).

(** ** Framing *)

Definition framed (packet : list Z) : Prop :=
  (4 <= length packet)%nat
  /\ Z.of_nat (length packet) = packetLength (headerOf packet).

Lemma headerOf_app p rest : (4 <= length p)%nat -> headerOf (p ++ rest) = headerOf p.
Proof. intros Hp. unfold headerOf. by rewrite take_app_le. Qed.

Lemma readPacket_framed p rest : framed p -> readPacket (p ++ rest) = Some (p, rest).
Proof.
  intros [H4 Hn]. unfold readPacket. rewrite headerOf_app by done. rewrite <- Hn, length_app.
  rewrite (proj2 (orb_false_iff _ _)) by (split; apply Z.ltb_ge; lia).
  by rewrite Nat2Z.id, take_app_length, drop_app_length.
Qed.

Lemma readPackets_concat ps : Forall framed ps ->
  forall fuel, (length (concat ps) <= fuel)%nat -> readPackets fuel (concat ps) = Some ps.
Proof.
  induction 1 as [|p ps Hp Hps IH]; intros fuel Hf; [by destruct fuel|].
  cbn [concat] in *. rewrite length_app in Hf. pose proof Hp as [H4 _].
  destruct fuel as [|fuel]; [lia|].
  assert (Hne : exists b bs, p ++ concat ps = b :: bs)
    by (destruct p as [|b p]; [simpl in H4; lia|by exists b, (p ++ concat ps)]).
  destruct Hne as (b & bs & Hbs). rewrite Hbs. cbn [readPackets]. rewrite <- Hbs.
  rewrite readPacket_framed by done. cbn. rewrite IH by lia. done.
Qed.

(** Objects whose header was set: [setHeader] changes nothing any more. *)
Lemma headerOf_object {T} `{!Packet T} (p : T) n rest :
  pk_setHeader p = p -> (4 <= n)%nat -> Z.of_nat n <= pk_size ->
  headerOf (take n (encode p) ++ rest)
  = [u16 (pk_dwordCount p); wrap 7 pk_subOpcode; 0x2e; 0x7].
Proof.
  intros Hp H4 Hn. unfold headerOf.
  rewrite take_app_le by (rewrite length_take, length_encode; lia).
  rewrite take_take, Nat.min_l, <- Hp, encode_header by lia. by rewrite Hp.
Qed.

Lemma framed_object {T} `{!Packet T} (p : T) n rest :
  pk_setHeader p = p -> (4 <= n)%nat -> Z.of_nat n <= pk_size -> in_width 16 (pk_dwordCount p) ->
  Z.of_nat n + Z.of_nat (length rest) = 4 * (pk_dwordCount p + 1) ->
  framed (take n (encode p) ++ rest).
Proof.
  intros Hp H4 Hn Hd Hl.
  assert (Hlen : length (take n (encode p)) = n) by (rewrite length_take, length_encode; lia).
  split; rewrite length_app, Hlen; [lia|].
  rewrite headerOf_object, packetLength_memtrace, wrap_small by done. lia.
Qed.

Lemma alignedBlockSize_padding n :
  0 <= n < 2 ^ 63 -> alignedBlockSize n = n + Z.of_nat (length (padding n)).
Proof.
  intros Hn. unfold alignedBlockSize, padding, sizeofU32. change 4 with (2 ^ 2) at 2.
  rewrite wrap_small by (unfold in_width; lia). rewrite clear_low_mod, length_replicate by lia.
  change (2 ^ 2) with 4. rewrite Z2Nat.id by (apply Z.mod_pos_bound; lia). dlia.
Qed.

Lemma alignedBlockSize_mod n : 0 <= n < 2 ^ 63 -> alignedBlockSize n mod 4 = 0.
Proof.
  intros Hn. rewrite alignedBlockSize_padding by done. unfold padding.
  rewrite length_replicate, Z2Nat.id by (apply Z.mod_pos_bound; lia). dlia.
Qed.

Lemma length_rangeOf space a n : length (rangeOf space a n) = Z.to_nat n.
Proof. unfold rangeOf. by rewrite length_map, length_seqZ. Qed.

Lemma rangeOf_app space a n m :
  0 <= n -> 0 <= m -> rangeOf space a (n + m) = rangeOf space a n ++ rangeOf space (a + n) m.
Proof. intros Hn Hm. unfold rangeOf. by rewrite seqZ_app, map_app by lia. Qed.

Lemma zip_take_r {A B} (l : list A) (k : list B) rest :
  (length l <= length k)%nat -> zip l (take (length l) k ++ rest) = zip l k.
Proof.
  revert k. induction l as [|x l IH]; intros [|y k] Hk; simpl in *; try done; [lia|].
  by rewrite IH by lia.
Qed.

Lemma zip_app_l {A B} (l1 l2 : list A) (k : list B) :
  (length l1 <= length k)%nat -> zip (l1 ++ l2) k = zip l1 k ++ zip l2 (drop (length l1) k).
Proof.
  revert k. induction l1 as [|x l1 IH]; intros [|y k] Hk; simpl in *; try done; [lia|].
  by rewrite IH by lia.
Qed.

(** ** A memory write packet *)

Section Chunk.
Variables (mem : list Z) (chunk phys space hint : Z).
Hypothesis Hchunk : 0 < chunk <= maxChunkSize.
Hypothesis Hmem : chunk <= Z.of_nat (length mem).
Hypothesis Hphys : in_width 64 phys.
Hypothesis Hspace : 0 <= space < 16.

Definition chunkPacket : list Z :=
  take 20 (encode (memoryWriteCmd chunk phys space hint))
  ++ take (Z.to_nat chunk) mem ++ padding chunk.

Lemma chunk_bound : chunk <= 65530 * 4 .
Proof. change maxChunkSize with (65530 * 4) in Hchunk. lia. Qed.

Lemma chunk_dwordCount :
  let dw := (memoryWriteHeaderSize + alignedBlockSize chunk) / sizeofU32 in
  5 <= dw <= maxU16 /\ 4 * dw = 20 + chunk + Z.of_nat (length (padding chunk)).
Proof.
  pose proof chunk_bound as Hb.
  rewrite <- Z.add_assoc, <- alignedBlockSize_padding by lia.
  pose proof (alignedBlockSize_mod chunk ltac:(lia)) as Hm.
  pose proof (alignedBlockSize_padding chunk ltac:(lia)) as Hp.
  unfold padding in Hp. rewrite length_replicate, Z2Nat.id in Hp by (apply Z.mod_pos_bound; lia).
  unfold sizeofU32, maxU16. change memoryWriteHeaderSize with 20. dlia.
Qed.

Lemma chunk_framed : framed chunkPacket.
Proof.
  pose proof chunk_dwordCount as [Hd Hl]. unfold maxU16 in Hd.
  assert (Hw : pk_dwordCount (memoryWriteCmd chunk phys space hint)
               = (memoryWriteHeaderSize + alignedBlockSize chunk) / sizeofU32 - 1).
  { apply wrap_small. unfold in_width. lia. }
  apply framed_object; [done|lia|vm_compute; congruence| |]; rewrite Hw.
  - unfold in_width. lia.
  - rewrite length_app, length_take. lia.
Qed.

Lemma chunk_fields :
  decodeFields writeWidths (take 20 chunkPacket)
  = map (fun f => wrap f.1 f.2)
      (take 12 (CmdServicesMemTraceMemoryWrite.fields (memoryWriteCmd chunk phys space hint))).
Proof.
  unfold chunkPacket. rewrite take_app_le by (rewrite length_take, length_encode; apply Nat.leb_le; by vm_compute).
  rewrite take_take. change (20 `min` 20)%nat with 20%nat. unfold encode.
  set (p := memoryWriteCmd chunk phys space hint).
  change (pk_fields p) with (CmdServicesMemTraceMemoryWrite.fields p).
  rewrite <- (take_drop 12 (CmdServicesMemTraceMemoryWrite.fields p)) at 1.
  change writeWidths with (map fst (take 12 (CmdServicesMemTraceMemoryWrite.fields p))).
  apply decode_prefix; [repeat constructor; done|apply Nat.leb_le; by vm_compute|done].
Qed.

Lemma chunk_cells : cellsOf chunkPacket = zip (rangeOf space phys chunk) mem.
Proof.
  pose proof chunk_bound as Hb.
  unfold cellsOf. unfold chunkPacket at 1.
  rewrite headerOf_object by (done || lia || (vm_compute; congruence)). cbn [Z.eqb].
  change (wrap 7 pk_subOpcode =? CmdServicesMemTraceMemoryWrite.subOpcode) with true. cbn iota.
  rewrite chunk_fields.
  cbn [take map nth CmdServicesMemTraceMemoryWrite.fields app fst snd].
  change (CmdServicesMemTraceMemoryWrite.addressSpace _) with space.
  change (CmdServicesMemTraceMemoryWrite.address _) with phys.
  change (CmdServicesMemTraceMemoryWrite.dataSizeInBytes _) with (u32 chunk).
  rewrite wrap_wrap, (wrap_small 64), (wrap_small 4), (wrap_small 32)
    by (done || (unfold in_width; lia)).
  unfold chunkPacket. rewrite drop_app_length' by (rewrite length_take, length_encode; by vm_compute).
  rewrite <- (length_rangeOf space phys chunk). apply zip_take_r. rewrite length_rangeOf. lia.
Qed.
End Chunk.

(** ** Operations whose bytes read back as memory *)

(** [m] writes whole packets, and [read] of the packets gives [xs]. *)
Definition recordsBy {X} (read : list Z -> list X) (name : string) {B} (m : M AubFileStream B)
    (b : B) (xs : list X) : Prop :=
  exists ps, emits name m b (concat ps) /\ Forall framed ps /\ concat (map read ps) = xs.

(** Reading back memory. *)
Abbreviation records := (recordsBy cellsOf).

Section Records.
Variable name : string.
Variable ndebug : bool.
Context {X : Type} (read : list Z -> list X).
#[local] Abbreviation Records := (recordsBy read name).

Lemma records_ret {B} (b : B) : Records (mret b) b [].
Proof. exists []. split; [apply emits_ret|done]. Qed.

Lemma records_bind {B C} (m : M AubFileStream B) (k : B -> M AubFileStream C) b c cs ds :
  Records m b cs -> Records (k b) c ds -> Records (m ≫= k) c (cs ++ ds).
Proof.
  intros (ps & Hm & Hf & <-) (qs & Hk & Hg & <-). exists (ps ++ qs). split_and!.
  - rewrite concat_app. by eapply emits_bind.
  - by apply Forall_app.
  - by rewrite map_app, concat_app.
Qed.

Lemma records_skip {B C} (m : M AubFileStream B) (k : B -> M AubFileStream C) b c cs :
  emits name m b [] -> Records (k b) c cs -> Records (m ≫= k) c cs.
Proof. intros Hm (qs & Hk & H). exists qs. split; [by eapply emits_skip|done]. Qed.

Lemma records_flush {B} (m : M AubFileStream B) b cs :
  Records m b cs -> Records (m ≫= fun _ => flush) tt cs.
Proof.
  intros (ps & Hm & Hf). exists ps. split; [|done].
  rewrite <- (app_nil_r (concat ps)). eapply emits_bind; [done|apply emits_flush].
Qed.

Lemma records_packet {B} (m : M AubFileStream B) b p :
  emits name m b p -> framed p -> Records m b (read p).
Proof.
  intros Hm Hf. exists [p]. cbn. rewrite app_nil_r. split_and!; [done|by constructor|].
  by rewrite app_nil_r.
Qed.

Lemma emits_chunk mem chunk phys space hint :
  0 < chunk <= maxChunkSize -> chunk <= Z.of_nat (length mem) ->
  emits name
    (writeObject ndebug (memoryWriteCmd chunk phys space hint) memoryWriteHeaderSize ≫= fun _ =>
     write ndebug (Some mem) chunk ≫= fun _ => writePadding ndebug chunk)
    tt (chunkPacket mem chunk phys space hint).
Proof.
  intros Hc Hm. eapply emits_bind; [by apply emits_writeObject|].
  eapply emits_bind; [apply emits_write; lia|apply emits_padding].
Qed.

Lemma bind_assoc3 {B C D} (a : M AubFileStream unit) (b : M AubFileStream B)
    (c : M AubFileStream C) (k : M AubFileStream D) s :
  (a ≫= fun _ => b ≫= fun _ => c ≫= fun _ => k) s
  = ((a ≫= fun _ => b ≫= fun _ => c) ≫= fun _ => k) s.
Proof.
  unfold mbind, M_bind. destruct (a s) as [[? s1]|]; [|done].
  destruct (b s1) as [[? s2]|]; [|done]. by destruct (c s2) as [[? s3]|].
Qed.

Lemma records_ext {B} (m m' : M AubFileStream B) b cs :
  (forall s, m s = m' s) -> Records m' b cs -> Records m b cs.
Proof. intros He (ps & Hm & H). exists ps. split; [|done]. intros s Hs. by rewrite He, Hm. Qed.

End Records.

Section Contiguous.
Variable name : string.
Variable ndebug : bool.

Lemma records_contiguousLoop space hint fuel : forall mem rem phys,
  0 <= space < 16 -> 0 <= rem <= Z.of_nat (length mem) -> rem <= Z.of_nat fuel * maxChunkSize ->
  0 <= phys -> phys + rem <= 2 ^ 64 ->
  records name (writeContiguousLoop ndebug fuel mem rem phys space hint) tt
    (zip (rangeOf space phys rem) mem).
Proof.
  induction fuel as [|fuel IH]; intros mem rem phys Hsp Hm Hf Hp Hb.
  { assert (rem = 0) as -> by lia. apply records_ret. }
  cbn [writeContiguousLoop]. destruct (Z.ltb_spec 0 rem) as [Hr|Hr].
  2: { assert (rem = 0) as -> by lia. apply records_ret. }
  change maxChunkSize with 262120 in Hf. set (chunk := Z.min rem maxChunkSize).
  assert (Hc : 0 < chunk <= maxChunkSize) by (subst chunk; change maxChunkSize with 262120; lia).
  assert (Hcm : chunk <= Z.of_nat (length mem)) by lia.
  pose proof (chunk_dwordCount mem chunk space Hc Hsp) as [Hd _].
  eapply records_skip; [apply emits_cassert, Z.leb_le, Hd|].
  eapply records_ext; [intros s; apply bind_assoc3|].
  assert (Hsplit : rangeOf space phys rem
                   = rangeOf space phys chunk ++ rangeOf space (phys + chunk) (rem - chunk)).
  { rewrite <- rangeOf_app by lia. f_equal. lia. }
  rewrite Hsplit, zip_app_l by (rewrite length_rangeOf; lia). rewrite length_rangeOf.
  eapply records_bind.
  - rewrite <- (chunk_cells mem chunk phys space hint) by (done || (unfold in_width; lia)).
    apply records_packet; [by apply emits_chunk|by apply chunk_framed].
  - destruct (decide (rem - chunk = 0)) as [->|Hne].
    + cbn. destruct fuel; apply records_ret.
    + rewrite (wrap_small 64) by (unfold in_width; lia).
      assert (chunk = 262120) by (subst chunk; change maxChunkSize with 262120 in *; lia).
      apply IH; rewrite ?length_drop; lia.
Qed.

Lemma records_contiguous mem size phys space hint :
  0 <= space < 16 -> 0 <= size <= Z.of_nat (length mem) -> 0 <= phys -> phys + size <= 2 ^ 64 ->
  records name (writeContiguousPages ndebug mem size phys space hint) tt
    (zip (rangeOf space phys size) mem).
Proof.
  intros Hs Hm Hp Hb. unfold writeContiguousPages.
  eapply records_skip; [by apply emits_cassert|]. eapply records_flush.
  apply records_contiguousLoop; try done. change maxChunkSize with 262120. dlia.
Qed.
End Contiguous.

(** ** A discontiguous write packet *)

Lemma pairsOf_pairFields (l : list (Z * Z)) (js : list nat) :
  pairsOf (map (fun f : Z * Z => wrap f.1 f.2)
    (concat (map (fun i => [(64, (nth i l (0, 0)).1); (32, (nth i l (0, 0)).2)]) js)))
  = map (fun i => (u64 (nth i l (0, 0)).1, u32 (nth i l (0, 0)).2)) js.
Proof. induction js as [|i js IH]; [done|]. cbn. by rewrite IH. Qed.

Lemma map_nth_seq {A B} (f : A -> B) (d : A) l : forall n, (n <= length l)%nat ->
  map (fun i => f (nth i l d)) (seq 0 n) = map f (take n l).
Proof.
  induction l as [|x l IH]; intros [|n] Hn; simpl in *; try done; [lia|].
  f_equal. rewrite <- seq_shift, map_map. apply IH. lia.
Qed.

(** The pairs of a packet: [ps] followed by anything up to 63. *)
Record storedPairs (ps pairs : list (Z * Z)) : Prop := {
  sp_length : length pairs = 63%nat;
  sp_prefix : take (length ps) pairs = ps;
  sp_count : (length ps <= 63)%nat;
  sp_width : Forall (fun p => in_width 64 p.1 /\ in_width 32 p.2) ps
}.

Lemma pairsOf_stored ps pairs :
  storedPairs ps pairs ->
  take (length ps) (pairsOf (map (fun f : Z * Z => wrap f.1 f.2) (pairFields 64 32 63 pairs))) = ps.
Proof.
  intros [Hl Hp Hc Hw]. unfold pairFields. rewrite pairsOf_pairFields, firstn_map.
  rewrite take_seq, Nat.min_l by lia.
  rewrite (map_nth_seq (fun p : Z * Z => (u64 p.1, u32 p.2))), Hp by lia.
  clear - Hw. induction Hw as [|[a n] ps [Ha Hn] _ IH]; [done|].
  cbn in *. by rewrite !wrap_small, IH.
Qed.

Definition pairRanges (space : Z) (ps : list (Z * Z)) : list (Z * Z) :=
  concat (map (fun p => rangeOf space p.1 p.2) ps).

Section DiscontiguousPacket.
Variables (dw space hint : Z) (ps pairs : list (Z * Z)) (data : list Z).
Hypothesis Hdw : in_width 16 dw.
Hypothesis Hdata : 764 + Z.of_nat (length data) = 4 * (dw + 1).
Hypothesis Hps : storedPairs ps pairs.
Hypothesis Hspace : 0 <= space < 16.

Definition discontiguousPacket : list Z :=
  take 764 (encode (discontiguousCmd dw (Z.of_nat (length ps)) pairs space hint)) ++ data.

Lemma discontiguous_framed : framed discontiguousPacket.
Proof. apply framed_object; [done|lia|vm_compute; congruence|done|cbn; lia]. Qed.

Lemma discontiguous_fields :
  decodeFields discontiguousWidths (take 764 discontiguousPacket)
  = map (fun f => wrap f.1 f.2)
      (take 136 (CmdServicesMemTraceMemoryWriteDiscontiguous.fields
         (discontiguousCmd dw (Z.of_nat (length ps)) pairs space hint))).
Proof.
  unfold discontiguousPacket.
  rewrite take_app_le by (rewrite length_take, length_encode; apply Nat.leb_le; by vm_compute).
  rewrite take_take, Nat.min_l by lia. unfold encode.
  set (p := discontiguousCmd _ _ _ _ _).
  change (pk_fields p) with (CmdServicesMemTraceMemoryWriteDiscontiguous.fields p).
  rewrite <- (take_drop 136 (CmdServicesMemTraceMemoryWriteDiscontiguous.fields p)) at 1.
  change discontiguousWidths
    with (map fst (take 136 (CmdServicesMemTraceMemoryWriteDiscontiguous.fields p))).
  apply decode_prefix; [repeat constructor; done|apply Nat.leb_le; by vm_compute|done].
Qed.

Lemma discontiguous_cells : cellsOf discontiguousPacket = zip (pairRanges space ps) data.
Proof.
  unfold cellsOf. unfold discontiguousPacket at 1.
  rewrite headerOf_object by (done || lia || (vm_compute; congruence)). cbn [Z.eqb].
  change (wrap 7 pk_subOpcode =? CmdServicesMemTraceMemoryWrite.subOpcode) with false. cbn iota.
  change (wrap 7 pk_subOpcode =? CmdServicesMemTraceMemoryWriteDiscontiguous.subOpcode) with true.
  cbn iota. rewrite discontiguous_fields.
  set (p := discontiguousCmd _ _ _ _ _).
  change (take 136 (CmdServicesMemTraceMemoryWriteDiscontiguous.fields p))
    with (take 10 (CmdServicesMemTraceMemoryWriteDiscontiguous.fields p)
          ++ pairFields 64 32 63 pairs).
  rewrite map_app. set (q := map _ (pairFields 64 32 63 pairs)).
  change (take 10 (CmdServicesMemTraceMemoryWriteDiscontiguous.fields p))
    with [(16, dw); (7, 0xb); (6, 0x2e); (3, 0x7); (1, 0);
          (1, CmdServicesMemTraceMemoryWriteDiscontiguous.RepeatMemoryValues.NoRepeat);
          (2, CmdServicesMemTraceMemoryWriteDiscontiguous.TilingValues.NoTiling);
          (16, Z.of_nat (length ps)); (8, hint); (4, space)].
  cbn [map app nth drop fst snd]. destruct Hps as [_ _ Hc _].
  rewrite (wrap_small 16), (wrap_small 4) by (unfold in_width; lia).
  rewrite Nat2Z.id. subst q. rewrite drop_0, (pairsOf_stored ps pairs Hps).
  unfold discontiguousPacket.
  by rewrite drop_app_length' by (rewrite length_take, length_encode; by vm_compute).
Qed.
End DiscontiguousPacket.

(** ** Pages of memory *)

Definition pageRange (e : PageInfo) : list (Z * Z) :=
  rangeOf (toAddressSpace (pi_isLocalMemory e)) (pi_physicalAddress e) (pi_size e).
Definition tableRanges (es : list PageInfo) : list (Z * Z) := concat (map pageRange es).
Definition sizes (es : list PageInfo) : Z := sumZ (map pi_size es).

Definition validEntry (e : PageInfo) : Prop :=
  0 < pi_size e < 2 ^ 32 /\ 0 <= pi_physicalAddress e
  /\ pi_physicalAddress e + pi_size e <= 2 ^ 64.

Lemma toAddressSpace_range b : 0 <= toAddressSpace b < 16.
Proof. destruct b; vm_compute; split; congruence. Qed.

Lemma sizes_app es fs : sizes (es ++ fs) = sizes es + sizes fs.
Proof. unfold sizes. by rewrite map_app, sumZ_app. Qed.

Lemma sizes_cons e es : sizes (e :: es) = pi_size e + sizes es.
Proof. done. Qed.

Lemma sizes_nonneg es : Forall validEntry es -> 0 <= sizes es.
Proof. induction 1 as [|e es [? _] _ IH]; [done|]. rewrite sizes_cons. lia. Qed.

Lemma tableRanges_app es fs : tableRanges (es ++ fs) = tableRanges es ++ tableRanges fs.
Proof. unfold tableRanges. by rewrite map_app, concat_app. Qed.

Lemma length_tableRanges es :
  Forall validEntry es -> Z.of_nat (length (tableRanges es)) = sizes es.
Proof.
  induction 1 as [|e es [? _] _ IH]; [done|]. unfold tableRanges in *. cbn [map concat].
  rewrite length_app, Nat2Z.inj_add, IH, sizes_cons. unfold pageRange. rewrite length_rangeOf. lia.
Qed.

Lemma zip_take {A B} (l : list A) (k : list B) n :
  length l = n -> (n <= length k)%nat -> zip l (take n k) = zip l k.
Proof. intros <- Hk. rewrite <- (app_nil_r (take _ _)). by apply zip_take_r. Qed.

Lemma length_toNat {A} (l : list A) n : Z.of_nat (length l) = n -> length l = Z.to_nat n.
Proof. lia. Qed.

(** Storing the next pair extends the stored prefix. *)
Lemma storedPairs_store ps pairs x :
  (ps = [] \/ storedPairs ps pairs) -> (length ps < 63)%nat ->
  in_width 64 x.1 -> in_width 32 x.2 ->
  storedPairs (ps ++ [x]) (<[length ps := x]> (resize 63 (0, 0) pairs)).
Proof.
  intros Hps Hlt H64 H32.
  assert (Hr : take (length ps) (resize 63 (0, 0) pairs) = ps).
  { destruct Hps as [-> |[Hl Hp _ _]]; [done|].
    unfold resize. rewrite take_app_le, take_take, Nat.min_l by (rewrite ?length_take; lia). done. }
  assert (Hlen : length (resize 63 (0, 0) pairs) = 63%nat) by apply length_resize.
  split.
  - by rewrite length_insert.
  - rewrite length_app. cbn [length]. rewrite Nat.add_1_r.
    rewrite (take_S_r _ _ x) by (apply list_lookup_insert_eq; lia).
    rewrite take_insert_ge by lia. by rewrite Hr.
  - rewrite length_app. cbn. lia.
  - apply Forall_app. split; [|by constructor].
    destruct Hps as [-> |[_ _ _ Hw]]; [constructor|done].
Qed.

Section Pages.
Variable name : string.
Variable ndebug : bool.
Variable memory : list Z.
Variable isLocalMemory : bool.
Variable hint : Z.

#[local] Abbreviation at_ := (at_ memory).
#[local] Abbreviation space := (toAddressSpace isLocalMemory).

Definition image (es : list PageInfo) : list Cell := zip (tableRanges es) memory.

Lemma image_app es fs :
  Forall validEntry es -> sizes es <= Z.of_nat (length memory) ->
  image (es ++ fs) = image es ++ zip (tableRanges fs) (at_ (sizes es)).
Proof.
  intros Hv Hm. pose proof (length_tableRanges es Hv) as Hl.
  unfold image. rewrite tableRanges_app, zip_app_l by lia.
  by rewrite (length_toNat _ _ Hl).
Qed.

(** Entries that can share a packet. *)
Definition plain (e : PageInfo) : Prop :=
  unalignedSize e = false /\ unalignedAddress e = false
  /\ differentAddressSpace isLocalMemory e = false.

Lemma plain_space e : plain e -> pi_isLocalMemory e = isLocalMemory.
Proof.
  intros (_ & _ & H). unfold differentAddressSpace in H.
  destruct isLocalMemory, (pi_isLocalMemory e); done.
Qed.

Lemma plain_size e : plain e -> pi_size e mod 4 = 0.
Proof.
  intros (H & _ & _). unfold unalignedSize in H. change (sizeofU32 - 1) with (2 ^ 2 - 1) in H.
  rewrite land_low_mod in H by lia. by apply negb_false_iff, Z.eqb_eq in H.
Qed.

Definition pairOf (e : PageInfo) : Z * Z := (pi_physicalAddress e, u32 (pi_size e)).

Lemma pairRanges_plain es :
  Forall validEntry es -> Forall plain es -> pairRanges space (map pairOf es) = tableRanges es.
Proof.
  induction 1 as [|e es He Hes IH]; intros Hp; [done|]. apply Forall_cons in Hp as [Hp Hps].
  unfold pairRanges, tableRanges in *. cbn [map concat]. rewrite IH by done. f_equal.
  unfold pageRange, pairOf. cbn [fst snd]. rewrite (plain_space e Hp), wrap_small; [done|].
  destruct He as [? _]. unfold in_width. lia.
Qed.

Lemma emits_dumpEntries es : forall dump,
  Forall validEntry es -> Forall plain es -> 0 <= dump ->
  dump + sizes es <= Z.of_nat (length memory) ->
  emits name (dumpEntries ndebug memory isLocalMemory es dump) (dump + sizes es)
    (take (Z.to_nat (sizes es)) (at_ dump)).
Proof.
  induction es as [|e es IH]; intros dump Hv Hp Hd Hm; cbn [dumpEntries].
  { rewrite Z.add_0_r. apply emits_ret. }
  apply Forall_cons in Hv as [He Hv]. apply Forall_cons in Hp as [(Hp1 & Hp2 & Hp3) Hp].
  pose proof (sizes_nonneg es Hv). destruct He as [Hs _]. rewrite sizes_cons in *.
  rewrite Hp1, Hp2, Hp3. cbn [negb andb when].
  rewrite Z.add_assoc. rewrite Z2Nat.inj_add, <- take_take_drop by lia.
  eapply emits_bind.
  - apply emits_write. unfold AubFileStream.at_. rewrite length_drop. lia.
  - replace (drop (Z.to_nat (pi_size e)) (at_ dump)) with (at_ (dump + pi_size e)).
    + apply IH; done || lia.
    + unfold AubFileStream.at_. rewrite drop_drop. f_equal. lia.
Qed.
End Pages.

(** ** Concrete instances *)

(** An open, empty capture file. *)
Definition exFile : AubFileStream :=
  mkAubFileStream
    (FileHandleWrapper.mk
       (OFStream.mk {["a.aub" := []]} (Some "a.aub") false false 0 [] []) false)
    "a.aub" [] false false.

Lemma exFile_good : goodFile "a.aub" exFile.
Proof. split; [done|done|done|]. by eexists. Qed.
