(* ===== verification/FileCorrect.v ===== *)
(** * Memory writes read back from the capture file

    The loops of [AubFileStream::writeDiscontiguousPages], for memory pages and
    for page table entries. *)

From S2P Require Import Prelude Allocator MemoryBanks Gpu PageTable Walker AubPackets AubStream.
From S2P Require Import AubFileStream FileTheory.
#[local] Open Scope Z_scope.

Section PageLoop.
Variable name : string.
Variable ndebug : bool.
Variable memory : list Z.
Variable table : list PageInfo.
Variable isLocalMemory : bool.
Variable hint : Z.
Hypothesis Hvalid : Forall validEntry table.
Hypothesis Hmemory : sizes table <= Z.of_nat (length memory).

#[local] Abbreviation at_ := (at_ memory).
#[local] Abbreviation space := (toAddressSpace isLocalMemory).
#[local] Abbreviation image := (image memory).

(** The loop state after the entries [done]: the entries from [itorDumpStart]
    on are stored in the packet under construction. *)
Record dinv (finished : list PageInfo) (v : Discontiguous)
    (sent pending : list PageInfo) : Prop := {
  di_split : finished = sent ++ pending;
  di_cur : itorCurrent v = length finished;
  di_start : itorDumpStart v = length sent;
  di_index : dIndex v = Z.of_nat (length pending);
  di_empty : pending = [] -> cmdDwordCount v = 0;
  di_length : pending <> [] -> 4 * cmdDwordCount v = 760 + sizes pending;
  di_bound : 0 <= cmdDwordCount v <= 65535;
  di_pairs : pending <> [] -> storedPairs (map pairOf pending) (cmdPairs v);
  di_plain : Forall (plain isLocalMemory) pending;
  di_ptrDump : ptrDump v = sizes sent;
  di_ptr : ptr v = sizes finished;
  di_written : writtenSize v = sizes finished
}.

Lemma valid_prefix finished rest :
  table = finished ++ rest -> Forall validEntry finished
  /\ 0 <= sizes finished <= Z.of_nat (length memory).
Proof.
  intros ->. apply Forall_app in Hvalid as [Hf Hr]. rewrite sizes_app in Hmemory.
  pose proof (sizes_nonneg _ Hf). pose proof (sizes_nonneg _ Hr). split; [done|lia].
Qed.

(** Flushing writes the pending entries and leaves no packet open. *)
Lemma records_flushToken finished rest v sent pending :
  table = finished ++ rest -> dinv finished v sent pending ->
  exists v', dinv finished v' finished []
    /\ records name (flushDiscontiguousToken ndebug memory table isLocalMemory hint v) v'
         (zip (tableRanges pending) (at_ (sizes sent))).
Proof.
  intros Htab [Hsp Hcur Hst Hix Hem Hlen Hbd Hpr Hpl Hpd Hpt Hwr].
  pose proof (valid_prefix _ _ Htab) as [Hvf Hm]. rewrite Hsp in Hvf, Hm.
  apply Forall_app in Hvf as [Hvs Hvp]. rewrite sizes_app in Hm.
  pose proof (sizes_nonneg _ Hvs). pose proof (sizes_nonneg _ Hvp).
  unfold flushDiscontiguousToken. rewrite Hix.
  destruct (decide (pending = [])) as [-> |Hne].
  { exists v. rewrite app_nil_r in Hsp. subst sent. split; [|apply records_ret].
    split; try done. by rewrite app_nil_r. }
  destruct (Z.eqb_spec (Z.of_nat (length pending)) 0) as [Hz|Hz].
  { destruct pending; [done|simpl in Hz; lia]. }
  eexists. split; cycle 1.
  - specialize (Hlen Hne). specialize (Hpr Hne).
    set (data := take (Z.to_nat (sizes pending)) (at_ (sizes sent))).
    assert (Hdl : Z.of_nat (length data) = sizes pending).
    { subst data. unfold AubFileStream.at_. rewrite length_take, length_drop. lia. }
    assert (Hpk : cellsOf (discontiguousPacket (cmdDwordCount v) space hint (map pairOf pending)
                     (cmdPairs v) data)
                  = zip (tableRanges pending) (at_ (sizes sent))).
    { rewrite discontiguous_cells by (done || apply toAddressSpace_range || (unfold in_width; lia)).
      rewrite (pairRanges_plain isLocalMemory) by done. subst data.
      apply zip_take; [by apply length_toNat, length_tableRanges|].
      unfold AubFileStream.at_. rewrite length_drop. lia. }
    rewrite <- Hpk. apply records_packet.
    + unfold discontiguousPacket. rewrite length_map.
      eapply emits_bind; [by apply emits_writeObject|].
      rewrite <- (app_nil_r data). eapply emits_bind; [|apply emits_ret].
      replace (take _ _) with pending.
      * rewrite Hpd. by apply emits_dumpEntries; try done; lia.
      * rewrite Htab, Hcur, Hst, Hsp, length_app, <- app_assoc, drop_app_length.
        rewrite take_app_length'; [done|lia].
    + by apply discontiguous_framed; try done; try apply toAddressSpace_range; unfold in_width; lia.
  - split; cbn; try done; try lia; [by rewrite app_nil_r|]. by rewrite Hsp, sizes_app.
Qed.

Lemma image_split finished rest sent pending :
  table = finished ++ rest -> finished = sent ++ pending ->
  image finished = image sent ++ zip (tableRanges pending) (at_ (sizes sent)).
Proof.
  intros Ht ->. rewrite <- app_assoc in Ht. pose proof (valid_prefix _ _ Ht) as [Hv Hm].
  apply image_app; [done|lia].
Qed.

Lemma toAddressSpace_different e :
  differentAddressSpace isLocalMemory e = false -> pi_isLocalMemory e = isLocalMemory.
Proof.
  intros H. unfold differentAddressSpace in H. by destruct isLocalMemory, (pi_isLocalMemory e).
Qed.

(** An entry written in packets of its own. *)
Lemma records_alone e rest finished v sent pending :
  table = finished ++ e :: rest -> dinv finished v sent pending ->
  exists v', dinv (finished ++ [e]) v' (finished ++ [e]) []
    /\ records name
         (v ← flushDiscontiguousToken ndebug memory table isLocalMemory hint v;
          writeContiguousPages ndebug (at_ (ptr v)) (pi_size e) (pi_physicalAddress e)
            (toAddressSpace (pi_isLocalMemory e)) hint ≫= fun _ =>
          mret (mkDiscontiguous (cmdDwordCount v) (cmdPairs v) (dIndex v) (S (itorCurrent v))
                  (S (itorCurrent v)) (ptr v + pi_size e) (ptr v + pi_size e)
                  (writtenSize v + pi_size e))) v'
         (zip (tableRanges (pending ++ [e])) (at_ (sizes sent))).
Proof.
  intros Htab Hv. destruct (records_flushToken _ _ _ _ _ Htab Hv) as (v1 & Hv1 & Hrec).
  pose proof (di_split _ _ _ _ Hv) as Hsp.
  assert (Htab' : table = (finished ++ [e]) ++ rest) by by rewrite <- app_assoc.
  pose proof (valid_prefix _ _ Htab') as [Hvf Hm].
  rewrite sizes_app, sizes_cons in Hm. apply Forall_app in Hvf as [Hvf He].
  apply Forall_inv in He as (Hs & Hp & Hb). pose proof (sizes_nonneg _ Hvf).
  assert (Hvs : Forall validEntry pending) by (rewrite Hsp in Hvf; by apply Forall_app in Hvf as [??]).
  assert (Hss : 0 <= sizes sent) by (apply sizes_nonneg; rewrite Hsp in Hvf; by apply Forall_app in Hvf as [??]).
  change (sizes []) with 0 in Hm. rewrite Hsp, sizes_app in *.
  pose proof (sizes_nonneg _ Hvs). pose proof (length_tableRanges _ Hvs) as Hlt.
  eexists. split; cycle 1.
  - rewrite tableRanges_app, zip_app_l
      by (unfold AubFileStream.at_; rewrite length_drop; lia).
    eapply records_bind; [exact Hrec|].
    rewrite <- (app_nil_r (zip _ _)). eapply records_bind; [|apply records_ret].
    assert (Hone : tableRanges [e] = pageRange e) by apply app_nil_r. rewrite Hone.
    replace (drop _ (at_ (sizes sent))) with (at_ (ptr v1)).
    + apply records_contiguous; try done; [apply toAddressSpace_range|].
      unfold AubFileStream.at_. rewrite length_drop, (di_ptr _ _ _ _ Hv1), sizes_app. lia.
    + unfold AubFileStream.at_. rewrite drop_drop, (di_ptr _ _ _ _ Hv1), sizes_app. f_equal. lia.
  - destruct Hv1 as [_ Hcur Hst Hix Hem _ Hbd _ _ Hpd Hpt Hwr].
    split; cbn; rewrite ?Hcur, ?Hpt, ?Hwr, ?app_nil_r, ?length_app, ?sizes_app, ?sizes_cons; cbn;
      change (sizes []) with 0; try done; try lia.
Qed.

(** A packet is open: its length is set even when it has no entry yet. *)
Record openInv (finished : list PageInfo) (v : Discontiguous)
    (sent pending : list PageInfo) : Prop := {
  oi_inv : dinv finished
    (set_cmdDwordCount (if pending is [] then 0 else cmdDwordCount v) v) sent pending;
  oi_length : 4 * cmdDwordCount v = 760 + sizes pending
}.

Lemma dwordCount_plain e :
  validEntry e -> plain isLocalMemory e ->
  4 * u32 (alignedBlockSize (pi_size e) / sizeofU32) = pi_size e.
Proof.
  intros [Hs _] Hp%plain_size. rewrite alignedBlockSize_padding by lia.
  unfold padding, sizeofU32. rewrite Hp. change (length _) with 0%nat.
  rewrite wrap_small by (unfold in_width; dlia). dlia.
Qed.

Lemma emits_store finished e w sent pending :
  openInv finished w sent pending -> validEntry e -> plain isLocalMemory e ->
  (length pending < 63)%nat -> 
  u32 (alignedBlockSize (pi_size e) / sizeofU32) + cmdDwordCount w <= 65535 ->
  exists v', dinv (finished ++ [e]) v' sent (pending ++ [e])
    /\ emits name
         (pairs ← storePair (dIndex w) (pi_physicalAddress e, u32 (pi_size e)) (cmdPairs w);
          mret (mkDiscontiguous
                  (u16 (cmdDwordCount w + u32 (alignedBlockSize (pi_size e) / sizeofU32))) pairs
                  (dIndex w + 1) (S (itorCurrent w)) (itorDumpStart w) (ptrDump w)
                  (ptr w + pi_size e) (writtenSize w + pi_size e))) v' [].
Proof.
  intros [[Hsp Hcur Hst Hix _ _ Hbd Hpr Hpl Hpd Hpt Hwr] Hlen] He Hp Hlt Hroom.
  cbn in *.
  assert (Hbd' : 0 <= cmdDwordCount w)
    by (destruct pending; [change (sizes []) with 0 in Hlen; lia|lia]).
  pose proof (dwordCount_plain e He Hp) as Hdw. destruct He as (Hs & Hph & Hb).
  set (dw := u32 (alignedBlockSize (pi_size e) / sizeofU32)) in *.
  assert (Hn : pending ++ [e] <> []) by by destruct pending.
  eexists. split; cycle 1.
  - eapply emits_skip; [|apply emits_ret]. unfold storePair. rewrite Hix.
    change maxEntries with 63. rewrite (proj2 (Z.ltb_lt _ _)) by lia. apply emits_ret.
  - rewrite (wrap_small 16) by (unfold in_width; lia).
    split; cbn; rewrite ?length_app, ?sizes_app, ?sizes_cons; cbn; change (sizes []) with 0;
      try done; try lia.
    + by rewrite Hsp, app_assoc.
    + intros _. rewrite map_app, Nat2Z.id, <- (length_map pairOf). cbn [map].
      apply storedPairs_store; cbn; rewrite ?length_map; try (unfold in_width; lia).
      * destruct pending; [by left|right; by apply Hpr].
      * apply wrap_range. lia.
    + apply Forall_app. split; [done|by constructor].
Qed.

Lemma emits_synchronised finished v :
  dinv finished v finished [] -> emits name (assertSynchronised ndebug v) tt [].
Proof.
  intros Hv. unfold assertSynchronised.
  rewrite (di_cur _ _ _ _ Hv), (di_start _ _ _ _ Hv), (di_ptr _ _ _ _ Hv), (di_ptrDump _ _ _ _ Hv).
  eapply emits_skip; apply emits_cassert; [apply Nat.eqb_refl|apply Z.eqb_refl].
Qed.

(** A flushed state, opened for the next packet. *)
Lemma openInv_fresh finished v :
  dinv finished v finished [] -> openInv finished (set_cmdDwordCount headerDwordCount v) finished [].
Proof.
  intros [Hsp Hcur Hst Hix Hem Hlen Hbd Hpr Hpl Hpd Hpt Hwr]. split; [|done].
  split; cbn; try done; lia.
Qed.

(** One pass of the loop: what is sent and what is pending together cover the
    entries so far. *)
Lemma records_step e rest finished v sent pending :
  table = finished ++ e :: rest -> dinv finished v sent pending ->
  exists v' sent' pending' cs, dinv (finished ++ [e]) v' sent' pending'
    /\ records name (discontiguousStep ndebug memory table isLocalMemory hint e v) v' cs
    /\ image sent' = image sent ++ cs.
Proof.
  intros Htab Hv. pose proof (di_split _ _ _ _ Hv) as Hsp.
  assert (He : validEntry e).
  { rewrite Htab in Hvalid. apply Forall_app in Hvalid as [_ H]. by apply Forall_inv in H. }
  unfold discontiguousStep.
  destruct (unalignedSize e || unalignedAddress e || differentAddressSpace isLocalMemory e
            || (maxDataDwordCount <? u32 (alignedBlockSize (pi_size e) / sizeofU32))) eqn:Hout.
  { destruct (records_alone e rest finished v sent pending Htab Hv) as (v' & Hv' & Hr).
    eexists _, _, _, _. split; [exact Hv'|]. split; [exact Hr|].
    rewrite (image_split (finished ++ [e]) rest sent (pending ++ [e])); [done| |].
    - by rewrite <- app_assoc.
    - by rewrite Hsp, app_assoc. }
  apply orb_false_iff in Hout as [Hout Hfit%Z.ltb_ge].
  apply orb_false_iff in Hout as [Hout Hp3]. apply orb_false_iff in Hout as [Hp1 Hp2].
  assert (Hp : plain isLocalMemory e) by done. change maxDataDwordCount with 65345 in Hfit.
  destruct (decide (pending = [])) as [-> |Hne].
  - rewrite app_nil_r in Hsp. subst sent. rewrite (di_empty _ _ _ _ Hv eq_refl). cbn [Z.eqb].
    pose proof (openInv_fresh _ _ Hv) as Hopen.
    destruct (emits_store _ e _ _ _ Hopen He Hp) as (v' & Hv' & Hst); [simpl; lia| |].
    { cbn [cmdDwordCount set_cmdDwordCount]. change headerDwordCount with 190. lia. }
    exists v', finished, [e], []. split; [exact Hv'|]. split; [|by rewrite app_nil_r].
    eapply records_skip; [eapply emits_skip; [by eapply emits_synchronised|apply emits_ret]|].
    assert (Hz : set_index 0 (set_cmdDwordCount headerDwordCount v)
                 = set_cmdDwordCount headerDwordCount v).
    { pose proof (di_index _ _ _ _ Hv) as Hi. destruct v. cbn in *. by subst. }
    rewrite Hz. cbn [dIndex cmdDwordCount set_cmdDwordCount].
    rewrite (di_index _ _ _ _ Hv). cbn [length]. change (maxEntries <=? Z.of_nat 0) with false.
    rewrite (proj2 (Z.ltb_ge maxU16 _)) by (unfold maxU16; change headerDwordCount with 190; lia).
    eapply records_skip; [apply emits_ret|].
    by exists [].
  - pose proof (di_length _ _ _ _ Hv Hne) as Hlen.
    pose proof (valid_prefix _ _ Htab) as [Hvf _]. rewrite Hsp in Hvf.
    apply Forall_app in Hvf as [_ Hvp]. pose proof (sizes_nonneg _ Hvp).
    rewrite (proj2 (Z.eqb_neq (cmdDwordCount v) 0)) by lia.
    destruct ((maxEntries <=? dIndex v)
      || (maxU16 <? u32 (alignedBlockSize (pi_size e) / sizeofU32) + cmdDwordCount v)) eqn:Hroom.
    + destruct (records_flushToken _ _ _ _ _ Htab Hv) as (v1 & Hv1 & Hr).
      pose proof (openInv_fresh _ _ Hv1) as Hopen.
      destruct (emits_store _ e _ _ _ Hopen He Hp) as (v' & Hv' & Hst); [simpl; lia| |].
    { cbn [cmdDwordCount set_cmdDwordCount]. change headerDwordCount with 190. lia. }
      eexists v', finished, [e], _. split; [exact Hv'|]. split; cycle 1.
      { exact (image_split finished (e :: rest) sent pending Htab Hsp). }
      eapply records_skip; [apply emits_ret|]. rewrite Hroom.
      rewrite <- (app_nil_r (zip _ _)). eapply records_bind.
      * rewrite <- (app_nil_r (zip _ _)). eapply records_bind; [exact Hr|].
        eapply records_skip; [by eapply emits_synchronised|]. apply records_ret.
      * by exists [].
    + pose proof Hroom as Hno. apply orb_false_iff in Hroom as [Hix%Z.leb_gt Hdw%Z.ltb_ge]. change maxEntries with 63 in Hix.
      rewrite (di_index _ _ _ _ Hv) in Hix. unfold maxU16 in Hdw.
      assert (Hopen : openInv finished v sent pending).
      { split; [|done]. destruct pending; [done|]. by destruct v. }
      destruct (emits_store _ e _ _ _ Hopen He Hp) as (v' & Hv' & Hst); [lia|lia|].
      exists v', sent, (pending ++ [e]), []. split; [exact Hv'|]. split; [|by rewrite app_nil_r].
      eapply records_skip; [apply emits_ret|]. rewrite Hno.
      eapply records_skip; [apply emits_ret|].
      by exists [].
Qed.

Lemma records_loop rest : forall finished v sent pending,
  table = finished ++ rest -> dinv finished v sent pending ->
  exists v' sent' pending' cs, dinv table v' sent' pending'
    /\ records name (discontiguousLoop ndebug memory table isLocalMemory hint rest v) v' cs
    /\ image sent' = image sent ++ cs.
Proof.
  induction rest as [|e rest IH]; intros finished v sent pending Htab Hv; cbn [discontiguousLoop].
  - rewrite app_nil_r in Htab. subst finished. exists v, sent, pending, [].
    split_and!; [done|apply records_ret|by rewrite app_nil_r].
  - destruct (records_step _ _ _ _ _ _ Htab Hv) as (v1 & s1 & p1 & c1 & Hv1 & Hr1 & Hi1).
    destruct (IH (finished ++ [e]) v1 s1 p1) as (v2 & s2 & p2 & c2 & Hv2 & Hr2 & Hi2);
      [by rewrite <- app_assoc|done|].
    exists v2, s2, p2, (c1 ++ c2). split_and!; [done|by eapply records_bind|].
    by rewrite Hi2, Hi1, app_assoc.
Qed.

Lemma records_pages size :
  size = sizes table ->
  records name
    (v ← discontiguousLoop ndebug memory table isLocalMemory hint table
           (mkDiscontiguous 0 [] 0 0 0 0 0 0);
     v ← flushDiscontiguousToken ndebug memory table isLocalMemory hint v;
     flush ≫= fun _ => cassert ndebug (writtenSize v =? size)) tt (image table).
Proof.
  intros ->.
  assert (Hinit : dinv [] (mkDiscontiguous 0 [] 0 0 0 0 0 0) [] []).
  { split; cbn; try done. }
  destruct (records_loop table [] _ [] [] eq_refl Hinit) as (v & s & p & cs & Hv & Hr & Hi).
  assert (Htab : table = table ++ []) by by rewrite app_nil_r.
  destruct (records_flushToken table [] v s p Htab Hv) as (v1 & Hv1 & Hf).
  rewrite (image_split table [] s p Htab (di_split _ _ _ _ Hv)), Hi. cbn [image tableRanges map concat zip app].
  eapply records_bind; [exact Hr|].
  rewrite <- (app_nil_r (zip _ _)). eapply records_bind; [exact Hf|].
  eapply records_skip; [apply emits_flush|].
  exists []. split; [|done]. apply emits_cassert. rewrite (di_written _ _ _ _ Hv1). apply Z.eqb_refl.
Qed.
End PageLoop.

(** ** Memory pages *)

Lemma records_run {B} name (m : M AubFileStream B) b cells s :
  records name m b cells -> goodFile name s ->
  exists bytes s', m s = Ok (b, s') /\ goodFile name s'
    /\ fileBytes name s' = fileBytes name s ++ bytes
    /\ readMemoryImage bytes = Some cells.
Proof.
  intros (ps & Hm & Hf & <-) Hs. exists (concat ps), (appendFile name (concat ps) s). split_and!.
  - by apply Hm.
  - by apply goodFile_append.
  - apply fileBytes_append.
  - unfold readMemoryImage. by rewrite readPackets_concat.
Qed.

Lemma records_writeDiscontiguousPages name ndebug memory size table hint :
  table <> [] -> Forall validEntry table -> size = sizes table ->
  size <= Z.of_nat (length memory) ->
  records name (writeDiscontiguousPagesFile ndebug memory size table hint) tt (image memory table).
Proof.
  intros Hne Hv Hs Hm. destruct table as [|e [|f table]]; [done| |].
  - apply Forall_inv in Hv as (Hes & Hp & Hb). rewrite sizes_cons in Hs. change (sizes []) with 0 in Hs.
    unfold image, tableRanges. cbn [map concat]. rewrite app_nil_r. unfold pageRange.
    replace (pi_size e) with size by lia.
    apply records_contiguous; try lia; apply toAddressSpace_range.
  - apply records_pages; [done|lia|done].
Qed.

(** C30: Memory written for a list of pages reads back from the file as exactly the
    bytes of the memory at the pages' physical addresses, in their address space,
    however the pages are aligned, sized and mixed: the packets are framed by
    their length fields, and data that does not fit a packet is split. *)
Theorem writeDiscontiguousPages_roundtrip name ndebug s memory table hint :
  goodFile name s -> table <> [] -> Forall validEntry table ->
  sizes table = Z.of_nat (length memory) ->
  exists bytes s',
    writeDiscontiguousPagesFile ndebug memory (Z.of_nat (length memory)) table hint s = Ok (tt, s')
    /\ fileBytes name s' = fileBytes name s ++ bytes
    /\ readMemoryImage bytes = Some (zip (tableRanges table) memory).
Proof.
  intros Hs Hne Hv Hsz.
  destruct (records_run name _ tt _ s
    (records_writeDiscontiguousPages name ndebug memory _ table hint Hne Hv (eq_sym Hsz)
       ltac:(lia)) Hs) as (bytes & s' & H1 & _ & H2 & H3).
  by exists bytes, s'.
Qed.

(** ** Page table entries *)

Section EntryLoop.
Variable name : string.
Variable ndebug : bool.
Variable table : list PageEntryInfo.
Variables space hint : Z.
Hypothesis Hspace : 0 <= space < 16.
Hypothesis Hvalid : Forall (fun e => in_width 64 (pe_physicalAddress e)) table.

(** The eight little-endian bytes of an entry at its address. *)
Definition entryCells (e : PageEntryInfo) : list Cell :=
  zip (rangeOf space (pe_physicalAddress e) 8) (leBytes 8 (pe_tableEntry e)).
Definition entriesImage (es : list PageEntryInfo) : list Cell := concat (map entryCells es).
Definition entryPair (e : PageEntryInfo) : Z * Z := (pe_physicalAddress e, 8).
Definition entryData (es : list PageEntryInfo) : list Z :=
  concat (map (fun e => leBytes 8 (pe_tableEntry e)) es).

Lemma length_entryData es : length (entryData es) = (8 * length es)%nat.
Proof.
  unfold entryData. induction es as [|e es IH]; [done|]. cbn [map concat].
  rewrite length_app, length_leBytes, IH. simpl. lia.
Qed.

Lemma entriesImage_zip es :
  entriesImage es = zip (pairRanges space (map entryPair es)) (entryData es).
Proof.
  induction es as [|e es IH]; [done|]. unfold entriesImage, pairRanges, entryData in *.
  cbn [map concat]. rewrite IH. symmetry. apply zip_with_app.
  by rewrite length_leBytes, length_rangeOf.
Qed.

Lemma emits_dumpTableEntries es : emits name (dumpTableEntries ndebug es) tt (entryData es).
Proof.
  induction es as [|e es IH]; [apply emits_ret|]. cbn [dumpTableEntries].
  unfold entryData. cbn [map concat]. eapply emits_bind; [|exact IH].
  pose proof (emits_write name ndebug (leBytes 8 (pe_tableEntry e)) 8) as H.
  rewrite length_leBytes, take_ge in H by (rewrite length_leBytes; done). apply H. lia.
Qed.

Record einv (finished : list PageEntryInfo) (v : Discontiguous)
    (sent pending : list PageEntryInfo) : Prop := {
  ei_split : finished = sent ++ pending;
  ei_cur : itorCurrent v = length finished;
  ei_start : itorDumpStart v = length sent;
  ei_index : dIndex v = Z.of_nat (length pending);
  ei_max : (length pending <= 63)%nat;
  ei_length : cmdDwordCount v
    = if pending is [] then 0 else 190 + 2 * Z.of_nat (length pending);
  ei_pairs : pending <> [] -> storedPairs (map entryPair pending) (cmdPairs v)
}.

Lemma records_flushEntries finished rest v sent pending :
  table = finished ++ rest -> einv finished v sent pending -> pending <> [] ->
  records name (flushEntries ndebug table space hint v)
    (mkDiscontiguous (cmdDwordCount v) (cmdPairs v) (dIndex v) (length finished)
       (length finished) 0 0 0) (entriesImage pending).
Proof.
  intros Htab [Hsp Hcur Hst Hix Hmax Hlen Hpr] Hne. specialize (Hpr Hne).
  assert (Hlen' : cmdDwordCount v = 190 + 2 * Z.of_nat (length pending)) by by destruct pending.
  rewrite entriesImage_zip.
  rewrite <- (discontiguous_cells (cmdDwordCount v) space hint (map entryPair pending)
    (cmdPairs v) (entryData pending))
    by (done || (unfold in_width; lia) || (rewrite length_entryData; lia)).
  apply records_packet.
  - unfold flushEntries, discontiguousPacket. rewrite Hix, length_map.
    eapply emits_bind; [by apply emits_writeObject|].
    rewrite <- (app_nil_r (entryData _)).
    replace (take _ _) with pending; [|].
    + eapply emits_bind; [apply emits_dumpTableEntries|].
      rewrite Hcur. apply emits_ret.
    + rewrite Htab, Hcur, Hst, Hsp, length_app, <- app_assoc, drop_app_length.
      rewrite take_app_length'; [done|lia].
  - apply discontiguous_framed; try done; try (unfold in_width; lia).
    rewrite length_entryData. lia.
Qed.

(** The tail of a pass, from a state with an open packet of [pending] entries. *)
Lemma emits_storeEntry finished e w sent pending :
  finished = sent ++ pending -> itorCurrent w = length finished ->
  itorDumpStart w = length sent -> dIndex w = Z.of_nat (length pending) ->
  (length pending < 63)%nat -> cmdDwordCount w = 190 + 2 * Z.of_nat (length pending) ->
  (pending <> [] -> storedPairs (map entryPair pending) (cmdPairs w)) ->
  in_width 64 (pe_physicalAddress e) ->
  exists v', einv (finished ++ [e]) v' sent (pending ++ [e])
    /\ emits name
         (cassert ndebug (dIndex w <? maxEntries) ≫= fun _ =>
          pairs ← storePair (dIndex w) (pe_physicalAddress e, 8) (cmdPairs w);
          mret (mkDiscontiguous (u16 (cmdDwordCount w + 8 / sizeofU32)) pairs (dIndex w + 1)
                  (S (itorCurrent w)) (itorDumpStart w) 0 0 0)) v' [].
Proof.
  intros Hsp Hcur Hst Hix Hmax Hlen Hpr He.
  change maxEntries with 63. eexists. split; cycle 1.
  - eapply emits_skip; [apply emits_cassert, Z.ltb_lt; lia|].
    eapply emits_skip; [|apply emits_ret]. unfold storePair. rewrite Hix.
    change maxEntries with 63. rewrite (proj2 (Z.ltb_lt _ _)) by lia. apply emits_ret.
  - change (8 / sizeofU32) with 2. rewrite wrap_small by (unfold in_width; lia).
    split; cbn; rewrite ?length_app; cbn; try lia.
    + by rewrite Hsp, app_assoc.
    + destruct pending; simpl in *; lia.
    + intros _. rewrite map_app, Nat2Z.id, <- (length_map entryPair). cbn [map].
      apply storedPairs_store; cbn; rewrite ?length_map; try done.
      destruct pending; [by left|right; by apply Hpr].
Qed.

Lemma entriesImage_app es fs : entriesImage (es ++ fs) = entriesImage es ++ entriesImage fs.
Proof. unfold entriesImage. by rewrite map_app, concat_app. Qed.

Lemma records_entryStep e rest finished v sent pending :
  table = finished ++ e :: rest -> einv finished v sent pending ->
  exists v' sent' pending' cs, einv (finished ++ [e]) v' sent' pending'
    /\ records name (entryStep ndebug table space hint e v) v' cs
    /\ entriesImage sent' = entriesImage sent ++ cs.
Proof.
  intros Htab Hv. pose proof Hv as [Hsp Hcur Hst Hix Hmax Hlen Hpr].
  assert (He : in_width 64 (pe_physicalAddress e)).
  { rewrite Htab in Hvalid. apply Forall_app in Hvalid as [_ H]. by apply Forall_inv in H. }
  unfold entryStep. change maxEntries with 63. change (8 / sizeofU32) with 2.
  rewrite (proj2 (Z.ltb_ge 65535 _)), orb_false_r by (destruct pending; lia).
  destruct (Z.leb_spec 63 (dIndex v)) as [Hfull|Hroom].
  - assert (Hne : pending <> []) by (destruct pending; simpl in *; [lia|done]).
    set (w := mkDiscontiguous 190 (cmdPairs v) 0 (length finished) (length finished) 0 0 0).
    destruct (emits_storeEntry finished e w finished []) as (v' & Hv' & Hs); try done;
      [by rewrite app_nil_r|simpl; lia|].
    exists v', finished, [e], (entriesImage pending). split; [exact Hv'|].
    split; [|by rewrite Hsp, entriesImage_app].
    rewrite <- (app_nil_r (entriesImage _)). eapply records_bind.
    + rewrite <- (app_nil_r (entriesImage _)). eapply records_bind; [|apply records_ret].
      by apply (records_flushEntries _ _ _ _ _ Htab Hv).
    + cbn [cmdDwordCount set_cmdDwordCount Z.eqb itorDumpStart itorCurrent].
      eapply records_skip;
        [eapply emits_skip; [apply emits_cassert, Nat.eqb_refl|apply emits_ret]|].
      by exists [].
  - destruct pending as [|e0 pending].
    + rewrite app_nil_r in Hsp. subst sent.
      set (w := mkDiscontiguous 190 (cmdPairs v) 0 (itorCurrent v) (itorDumpStart v)
                  (ptrDump v) (ptr v) (writtenSize v)).
      destruct (emits_storeEntry finished e w finished []) as (v' & Hv' & Hs); try done;
        [by rewrite app_nil_r|simpl; lia|].
      exists v', finished, [e], []. split; [exact Hv'|]. split; [|by rewrite app_nil_r].
      eapply records_skip; [apply emits_ret|]. rewrite Hlen. cbn [Z.eqb].
      eapply records_skip;
        [eapply emits_skip; [apply emits_cassert; rewrite Hcur, Hst; apply Nat.eqb_refl|apply emits_ret]|].
      by exists [].
    + destruct (emits_storeEntry finished e v sent (e0 :: pending)) as (v' & Hv' & Hs); try done;
        [lia|].
      exists v', sent, ((e0 :: pending) ++ [e]), []. split; [exact Hv'|].
      split; [|by rewrite app_nil_r].
      eapply records_skip; [apply emits_ret|].
      rewrite (proj2 (Z.eqb_neq (cmdDwordCount v) 0)) by lia.
      eapply records_skip; [apply emits_ret|]. by exists [].
Qed.

Lemma records_entryLoop rest : forall finished v sent pending,
  table = finished ++ rest -> einv finished v sent pending ->
  exists v' sent' pending' cs, einv table v' sent' pending'
    /\ records name (entryLoop ndebug table space hint rest v) v' cs
    /\ entriesImage sent' = entriesImage sent ++ cs.
Proof.
  induction rest as [|e rest IH]; intros finished v sent pending Htab Hv; cbn [entryLoop].
  - rewrite app_nil_r in Htab. subst finished. exists v, sent, pending, [].
    split_and!; [done|apply records_ret|by rewrite app_nil_r].
  - destruct (records_entryStep _ _ _ _ _ _ Htab Hv) as (v1 & s1 & p1 & c1 & Hv1 & Hr1 & Hi1).
    destruct (IH (finished ++ [e]) v1 s1 p1) as (v2 & s2 & p2 & c2 & Hv2 & Hr2 & Hi2);
      [by rewrite <- app_assoc|done|].
    exists v2, s2, p2, (c1 ++ c2). split_and!; [done|by eapply records_bind|].
    by rewrite Hi2, Hi1, app_assoc.
Qed.

Lemma records_entries :
  Forall (fun e => pe_physicalAddress e + 8 <= 2 ^ 64) table ->
  records name (writeDiscontiguousEntriesFile ndebug table space hint) tt (entriesImage table).
Proof.
  intros Hend. unfold writeDiscontiguousEntriesFile.
  assert (Hgen : records name
    (v ← entryLoop ndebug table space hint table (mkDiscontiguous 0 [] 0 0 0 0 0 0);
     (if negb (dIndex v =? 0) then
        cassert ndebug (negb (itorDumpStart v =? itorCurrent v)%nat) ≫= fun _ =>
        flushEntries ndebug table space hint v ≫= fun _ => mret tt
      else mret tt) ≫= fun _ => flush) tt (entriesImage table)).
  { assert (Hinit : einv [] (mkDiscontiguous 0 [] 0 0 0 0 0 0) [] []).
    { split; cbn; try done. lia. }
    destruct (records_entryLoop table [] _ [] [] eq_refl Hinit) as (v & s & p & cs & Hv & Hr & Hi).
    assert (Htab : table = table ++ []) by by rewrite app_nil_r.
    pose proof (ei_split _ _ _ _ Hv) as Hsp. cbn in Hi. subst cs.
    replace (entriesImage table) with (entriesImage s ++ entriesImage p)
      by (by rewrite Hsp, entriesImage_app).
    eapply records_bind; [exact Hr|]. eapply records_flush. rewrite (ei_index _ _ _ _ Hv).
    destruct p as [|e p]; [apply records_ret|].
    change (Z.of_nat (length (e :: p)) =? 0) with false. cbn [negb].
    eapply records_skip.
    - apply emits_cassert, negb_true_iff, Nat.eqb_neq.
      rewrite (ei_start _ _ _ _ Hv), (ei_cur _ _ _ _ Hv), Hsp, length_app. simpl. lia.
    - rewrite <- (app_nil_r (entriesImage _)). eapply records_bind; [|apply records_ret].
      by apply (records_flushEntries _ _ _ _ _ Htab Hv). }
  destruct table as [|e [|f tb]]; [exact Hgen| |exact Hgen].
  apply Forall_inv in Hend. apply Forall_inv in Hvalid as [Hp _].
  unfold entriesImage. cbn [map concat]. rewrite app_nil_r.
  apply records_contiguous; rewrite ?length_leBytes; done || lia.
Qed.
End EntryLoop.

(** C31: Page table entries written in any number read back as the eight little-endian
    bytes of each entry at its address, in the address space of their level. *)
Theorem writeEntries_roundtrip name ndebug s table space hint :
  goodFile name s -> 0 <= space < 16 ->
  Forall (fun e => 0 <= pe_physicalAddress e /\ pe_physicalAddress e + 8 <= 2 ^ 64) table ->
  exists bytes s',
    writeDiscontiguousEntriesFile ndebug table space hint s = Ok (tt, s')
    /\ fileBytes name s' = fileBytes name s ++ bytes
    /\ readMemoryImage bytes = Some (entriesImage space table).
Proof.
  intros Hs Hsp Ht.
  destruct (records_run name (writeDiscontiguousEntriesFile ndebug table space hint) tt
    (entriesImage space table) s) as (bytes & s' & H1 & _ & H2 & H3); [|done|by exists bytes, s'].
  apply records_entries; [done| |]; eapply Forall_impl; [exact Ht| |exact Ht|];
    intros e He; cbn beta in *; unfold in_width; lia.
Qed.

(** ** Concrete instances *)

(** Three pages: local memory, an unaligned system page, local memory again. *)
Definition exTable : list PageInfo :=
  [mkPageInfo 0x10000 8 true 1; mkPageInfo 0x20002 3 false 0; mkPageInfo 0x11000 4 true 1].
Definition exBytes : list Z := [1; 2; 3; 4; 5; 6; 7; 8; 9; 10; 11; 12; 13; 14; 15].

Lemma writeDiscontiguousPages_roundtrip_witness :
  exists bytes s',
    writeDiscontiguousPagesFile false exBytes 15 exTable 2 exFile = Ok (tt, s')
    /\ fileBytes "a.aub" s' = fileBytes "a.aub" exFile ++ bytes
    /\ readMemoryImage bytes = Some (zip (tableRanges exTable) exBytes).
Proof.
  apply (writeDiscontiguousPages_roundtrip "a.aub" false exFile exBytes exTable 2 exFile_good);
    [discriminate| |reflexivity].
  repeat constructor; cbn; lia.
Defined.

Definition exEntries : list PageEntryInfo :=
  [mkPageEntryInfo 0x3000 0x10003; mkPageEntryInfo 0x3008 0x20803].

Lemma writeEntries_roundtrip_witness :
  exists bytes s',
    writeDiscontiguousEntriesFile false exEntries 6 0 exFile = Ok (tt, s')
    /\ fileBytes "a.aub" s' = fileBytes "a.aub" exFile ++ bytes
    /\ readMemoryImage bytes = Some (entriesImage 6 exEntries).
Proof.
  apply (writeEntries_roundtrip "a.aub" false exFile exEntries 6 0 exFile_good); [lia|].
  repeat constructor; cbn; lia.
Defined.
