(* ===== verification/FileRecords.v ===== *)
(** * Comments, expectations and the file handle

    The other packets of [AubFileStream] read back, what is written before the
    file is open, and the retry of a failed write. *)

From S2P Require Import Prelude Allocator MemoryBanks Gpu PageTable Walker AubPackets AubStream.
From S2P Require Import AubFileStream FileTheory FileCorrect.
#[local] Open Scope Z_scope.

(** ** Comments *)

(** The text of a comment packet. *)
Definition commentOf (packet : list Z) : list Z :=
  match headerOf packet with
  | [_; subOp; 0x2e; 0x7] =>
      if subOp =? CmdServicesMemTraceComment.subOpcode then drop 8 packet else []
  | _ => []
  end.

Definition compareWidths : list Z :=
  [16; 7; 6; 3; 32; 32; 1; 1; 2; 2; 1; 1; 1; 1; 10; 8; 4; 32].

(** What a comparison packet says: the operation, whether its evaluation is
    deferred, and the bytes expected at addresses of a space. *)
Definition Expectation : Type := Z * Z * list Cell.
Definition expectationOf (packet : list Z) : list Expectation :=
  match headerOf packet with
  | [_; subOp; 0x2e; 0x7] =>
      if subOp =? CmdServicesMemTraceMemoryCompare.subOpcode then
        let h := decodeFields compareWidths (take 20 packet) in
        let address := nth 4 h 0 + 2 ^ 32 * nth 5 h 0 in
        [(nth 11 h 0, nth 13 h 0,
          zip (rangeOf (nth 16 h 0) address (nth 17 h 0)) (drop 20 packet))]
      else []
  | _ => []
  end.

(** What a packet says. *)
Inductive Event :=
| MemoryWrite (c : Cell)
| CommentByte (b : Z)
| Compare (e : Expectation).

Definition eventsOf (packet : list Z) : list Event :=
  map MemoryWrite (cellsOf packet) ++ map CommentByte (commentOf packet)
  ++ map Compare (expectationOf packet).

Definition cellOf (e : Event) : option Cell := if e is MemoryWrite c then Some c else None.
Definition textOf (e : Event) : option Z := if e is CommentByte b then Some b else None.
Definition compareOf (e : Event) : option Expectation := if e is Compare x then Some x else None.

Lemma omap_map_Some {A B C} (f : B -> option C) (g : A -> B) (h : A -> C) l :
  (forall x, f (g x) = Some (h x)) -> omap f (map g l) = map h l.
Proof. intros Hf. induction l as [|x l IH]; [done|]. cbn. by rewrite Hf, IH. Qed.

Lemma omap_map_None {A B C} (f : B -> option C) (g : A -> B) l :
  (forall x, f (g x) = None) -> omap f (map g l) = [].
Proof. intros Hf. induction l as [|x l IH]; [done|]. cbn. by rewrite Hf, IH. Qed.

Lemma cells_events p : omap cellOf (eventsOf p) = cellsOf p.
Proof.
  unfold eventsOf. rewrite !omap_app, (omap_map_Some cellOf MemoryWrite id), map_id by done.
  rewrite !omap_map_None by done. by rewrite !app_nil_r.
Qed.

Lemma text_events p : omap textOf (eventsOf p) = commentOf p.
Proof.
  unfold eventsOf. rewrite !omap_app, (omap_map_Some textOf CommentByte id), map_id by done.
  rewrite !omap_map_None by done. by rewrite !app_nil_r.
Qed.

Lemma compare_events p : omap compareOf (eventsOf p) = expectationOf p.
Proof.
  unfold eventsOf. rewrite !omap_app, (omap_map_Some compareOf Compare id), map_id by done.
  by rewrite !omap_map_None by done.
Qed.

(** What one reader sees of the events. *)
Lemma records_view {X B} (view : Event -> option X) (read : list Z -> list X) name
    (m : M AubFileStream B) b xs :
  (forall p, omap view (eventsOf p) = read p) ->
  recordsBy eventsOf name m b xs -> recordsBy read name m b (omap view xs).
Proof.
  intros Hv (ps & Hm & Hf & <-). exists ps. split_and!; [done|done|].
  clear - Hv. induction ps as [|p ps IH]; [done|]. cbn [map concat]. by rewrite omap_app, Hv, IH.
Qed.

(** The text of a sequence of comment packets ends at the first zero byte. *)
Fixpoint untilZero (bytes : list Z) : list Z :=
  match bytes with
  | [] => []
  | b :: bs => if b =? 0 then [] else b :: untilZero bs
  end.

Definition readComments (bytes : list Z) : option (list Z) :=
  ps ← readPackets (length bytes) bytes; Some (untilZero (concat (map commentOf ps))).

Lemma untilZero_app bs rest :
  Forall (fun b => b <> 0) bs -> untilZero (bs ++ 0 :: rest) = bs.
Proof.
  induction 1 as [|b bs Hb _ IH]; [done|]. cbn. rewrite (proj2 (Z.eqb_neq _ _)) by done. by rewrite IH.
Qed.

Section Comment.
Variable name : string.
Variable ndebug : bool.

Lemma records_comment chunk cursor :
  0 < chunk <= maxMessageBytesPerRecord -> chunk <= Z.of_nat (length cursor) ->
  recordsBy eventsOf name
    (writeObject ndebug (commentCmd chunk) commentHeaderSize ≫= fun _ =>
     write ndebug (Some cursor) chunk ≫= fun _ => writePadding ndebug chunk) tt
    (map CommentByte (take (Z.to_nat chunk) cursor ++ padding chunk)).
Proof.
  intros Hc Hm. change maxMessageBytesPerRecord with 262136 in Hc.
  set (text := take (Z.to_nat chunk) cursor ++ padding chunk).
  set (packet := take 8 (encode (commentCmd chunk)) ++ text).
  assert (Hl : Z.of_nat (length text) = 4 * ((chunk + 3) / 4)).
  { subst text. rewrite length_app, length_take. unfold padding. rewrite length_replicate.
    pose proof (Z.mod_pos_bound (4 - chunk mod 4) 4). dlia. }
  assert (Hdw : pk_dwordCount (commentCmd chunk) = (chunk + 3) / 4 + 1).
  { unfold commentCmd, sizeofU32. cbn. rewrite wrap_small by (unfold in_width; dlia).
    do 2 f_equal. lia. }
  assert (Hread : eventsOf packet = map CommentByte text).
  { assert (Hh : headerOf packet = [u16 (pk_dwordCount (commentCmd chunk)); 8; 0x2e; 0x7])
      by exact (headerOf_object (commentCmd chunk) 8 text eq_refl ltac:(lia)
                  ltac:(vm_compute; congruence)).
    unfold eventsOf, cellsOf, commentOf, expectationOf. rewrite Hh.
    change (8 =? CmdServicesMemTraceMemoryWrite.subOpcode) with false.
    change (8 =? CmdServicesMemTraceMemoryWriteDiscontiguous.subOpcode) with false.
    change (8 =? CmdServicesMemTraceComment.subOpcode) with true.
    change (8 =? CmdServicesMemTraceMemoryCompare.subOpcode) with false.
    cbn [map app]. rewrite app_nil_r. f_equal. }
  rewrite <- Hread.
  apply records_packet.
  - eapply emits_bind; [by apply emits_writeObject|].
    eapply emits_bind; [apply emits_write; lia|apply emits_padding].
  - apply framed_object; [done|lia|vm_compute; congruence| |]; rewrite Hdw.
    + unfold in_width. dlia.
    + lia.
Qed.

Lemma records_commentLoop fuel : forall cursor remaining,
  0 < remaining -> remaining = Z.of_nat (length cursor) ->
  remaining <= Z.of_nat fuel * maxMessageBytesPerRecord ->
  recordsBy eventsOf name (addCommentLoop ndebug fuel cursor remaining) tt
    (map CommentByte (cursor ++ padding remaining)).
Proof.
  induction fuel as [|fuel IH]; intros cursor remaining Hr Hl Hf; [lia|].
  cbn [addCommentLoop]. set (chunk := Z.min remaining maxMessageBytesPerRecord).
  change maxMessageBytesPerRecord with 262136 in Hf.
  assert (Hc : 0 < chunk <= maxMessageBytesPerRecord)
    by (subst chunk; change maxMessageBytesPerRecord with 262136; lia).
  eapply records_ext; [intros s; apply bind_assoc3|].
  pose proof (records_comment chunk cursor Hc ltac:(lia)) as Hp.
  destruct (Z.ltb_spec 0 (remaining - chunk)) as [Hlt|Hge].
  - assert (Hmax : chunk = 262136)
      by (subst chunk; change maxMessageBytesPerRecord with 262136 in *; lia).
    replace (cursor ++ padding remaining)
      with ((take (Z.to_nat chunk) cursor ++ padding chunk)
            ++ (drop (Z.to_nat chunk) cursor ++ padding (remaining - chunk))).
    + rewrite map_app. eapply records_bind; [exact Hp|]. apply IH; rewrite ?length_drop; lia.
    + rewrite Hmax. change (padding 262136) with ([] : list Z). rewrite app_nil_r, app_assoc, take_drop.
      f_equal. unfold padding. do 4 f_equal. dlia.
  - assert (chunk = remaining) as Heq by lia. rewrite Heq in *.
    rewrite take_ge in Hp by lia. rewrite <- (app_nil_r (map _ _)).
    eapply records_bind; [exact Hp|apply records_ret].
Qed.

Lemma records_addComment message :
  let text := stringBytes message ++ [0] in
  recordsBy eventsOf name (addCommentFile ndebug message) tt
    (map CommentByte (text ++ padding (Z.of_nat (length text)))).
Proof.
  intros text. unfold addCommentFile. eapply records_flush. fold text.
  assert (0 < Z.of_nat (length text)) by (subst text; rewrite length_app; simpl; lia).
  apply records_commentLoop; [done|done|]. change maxMessageBytesPerRecord with 262136. dlia.
Qed.
End Comment.

(** A comment of any length without NUL characters reads back from its packets. *)
Theorem addComment_roundtrip name ndebug s message :
  goodFile name s -> Forall (fun b => b <> 0) (stringBytes message) ->
  exists bytes s',
    addCommentFile ndebug message s = Ok (tt, s')
    /\ fileBytes name s' = fileBytes name s ++ bytes
    /\ readComments bytes = Some (stringBytes message).
Proof.
  intros Hs Hz.
  destruct (records_view textOf commentOf _ _ _ _ text_events (records_addComment name ndebug message))
    as (ps & Hm & Hf & Hx).
  exists (concat ps), (appendFile name (concat ps) s).
  split_and!; [by apply Hm|apply fileBytes_append|].
  unfold readComments. rewrite readPackets_concat by done. cbn.
  rewrite Hx, (omap_map_Some textOf CommentByte id), map_id by done.
  rewrite <- app_assoc. cbn [app]. by rewrite untilZero_app.
Qed.

(** ** Expectations *)

(** The largest entry whose packet length fits the 16-bit length field. *)
Definition maxCompareSize : Z := 4 * 2 ^ 16 - compareHeaderSize.

Section Compare.
Variable e : PageInfo.
Variable last : bool.
Variable op : Z.
Variable mem : list Z.
Hypothesis He : validEntry e.
Hypothesis Hop : op = 0 \/ op = 1.
Hypothesis Hmem : pi_size e <= Z.of_nat (length mem).

Definition comparePacket : list Z :=
  take 20 (encode (compareCmd e last op))
  ++ take (Z.to_nat (pi_size e)) mem ++ padding (pi_size e).

Lemma compare_length :
  Z.of_nat (length comparePacket) = 4 * ((20 + pi_size e + 3) / 4).
Proof.
  unfold comparePacket. rewrite !length_app, !length_take, length_encode.
  unfold padding. rewrite length_replicate. change (Z.to_nat pk_size) with 24%nat.
  destruct He as [Hs _]. pose proof (Z.mod_pos_bound (4 - pi_size e mod 4) 4). dlia.
Qed.

Lemma compare_dwordCount :
  pk_dwordCount (compareCmd e last op) = (20 + pi_size e + 3) / 4 - 1.
Proof.
  destruct He as [Hs _]. unfold compareCmd, sizeofU32. change compareHeaderSize with 20.
  cbn [pk_dwordCount CmdServicesMemTraceMemoryCompare_Packet CmdServicesMemTraceMemoryCompare.setHeader
    CmdServicesMemTraceMemoryCompare.dwordCount].
  rewrite (wrap_small 64) by (unfold in_width; lia).
  replace (20 + pi_size e + 4 - 1) with (20 + pi_size e + 3) by lia.
  apply wrap_small. unfold in_width. dlia.
Qed.

Definition expectation : Expectation :=
  (op, if last || (op =? 0) then 0 else 1, zip (pageRange e) mem).

Lemma compare_framed : pi_size e <= maxCompareSize -> framed comparePacket.
Proof.
  intros Hmax. change maxCompareSize with (4 * 2 ^ 16 - 20) in Hmax.
  destruct He as [Hs _].
  apply framed_object; [done|lia|vm_compute; congruence| |]; rewrite compare_dwordCount.
  - unfold in_width. dlia.
  - pose proof compare_length as Hl. unfold comparePacket in Hl.
    rewrite length_app in Hl. rewrite length_take, length_encode in Hl at 1.
    change (20 `min` Z.to_nat pk_size)%nat with 20%nat in Hl. lia.
Qed.

Lemma compare_fields :
  decodeFields compareWidths (take 20 comparePacket)
  = map (fun f => wrap f.1 f.2)
      (take 18 (CmdServicesMemTraceMemoryCompare.fields (compareCmd e last op))).
Proof.
  unfold comparePacket.
  rewrite take_app_le by (rewrite length_take, length_encode; apply Nat.leb_le; by vm_compute).
  rewrite take_take. change (20 `min` 20)%nat with 20%nat. unfold encode.
  set (p := compareCmd e last op).
  change (pk_fields p) with (CmdServicesMemTraceMemoryCompare.fields p).
  rewrite <- (take_drop 18 (CmdServicesMemTraceMemoryCompare.fields p)) at 1.
  change compareWidths with (map fst (take 18 (CmdServicesMemTraceMemoryCompare.fields p))).
  apply decode_prefix; [repeat constructor; done|apply Nat.leb_le; by vm_compute|done].
Qed.

Lemma compare_reads : expectationOf comparePacket = [expectation].
Proof.
  unfold expectationOf. unfold comparePacket at 1.
  rewrite headerOf_object by (done || lia || (vm_compute; congruence)).
  change (wrap 7 pk_subOpcode =? CmdServicesMemTraceMemoryCompare.subOpcode) with true. cbn iota.
  rewrite compare_fields.
  cbn [take map nth CmdServicesMemTraceMemoryCompare.fields app fst snd].
  change (CmdServicesMemTraceMemoryCompare.address _) with (u32 (pi_physicalAddress e)).
  change (CmdServicesMemTraceMemoryCompare.addressHigh _)
    with (u32 (Z.shiftr (pi_physicalAddress e) 32)).
  change (CmdServicesMemTraceMemoryCompare.compareOperation _) with op.
  change (CmdServicesMemTraceMemoryCompare.deferCompareEvaluation _)
    with (if last || (op =? 0)
          then CmdServicesMemTraceMemoryCompare.DeferCompareEvaluationValues.CompareImmediately
          else CmdServicesMemTraceMemoryCompare.DeferCompareEvaluationValues.StoreComparison).
  change (CmdServicesMemTraceMemoryCompare.addressSpace _)
    with (toAddressSpace (pi_isLocalMemory e)).
  change (CmdServicesMemTraceMemoryCompare.dataSizeInBytes _) with (u32 (pi_size e)).
  destruct He as (Hs & Hp & Hb). pose proof (toAddressSpace_range (pi_isLocalMemory e)).
  rewrite !wrap_wrap, (wrap_small 32 (pi_size e)), (wrap_small 4), (wrap_small 1 op)
    by (unfold in_width; lia).
  assert (Haddr : u32 (pi_physicalAddress e) + 2 ^ 32 * u32 (Z.shiftr (pi_physicalAddress e) 32)
                  = pi_physicalAddress e).
  { rewrite Z.shiftr_div_pow2 by lia. rewrite (wrap_small 32 (_ / _)) by (unfold in_width; dlia).
    unfold wrap. dlia. }
  rewrite Haddr. unfold expectation. do 2 f_equal.
  - f_equal. by destruct (last || (op =? 0)).
  - unfold comparePacket.
    rewrite drop_app_length' by (rewrite length_take, length_encode; by vm_compute).
    unfold pageRange. rewrite <- (length_rangeOf (toAddressSpace (pi_isLocalMemory e))
      (pi_physicalAddress e) (pi_size e)).
    apply zip_take_r. rewrite length_rangeOf. lia.
Qed.

Lemma compare_event : eventsOf comparePacket = [Compare expectation].
Proof.
  unfold eventsOf. rewrite compare_reads.
  assert (Hh : headerOf comparePacket = [u16 (pk_dwordCount (compareCmd e last op)); 4; 0x2e; 0x7])
    by exact (headerOf_object (compareCmd e last op) 20 _ eq_refl ltac:(lia)
                ltac:(vm_compute; congruence)).
  unfold cellsOf, commentOf. rewrite Hh.
  change (4 =? CmdServicesMemTraceMemoryWrite.subOpcode) with false.
  change (4 =? CmdServicesMemTraceMemoryWriteDiscontiguous.subOpcode) with false.
  change (4 =? CmdServicesMemTraceComment.subOpcode) with false. done.
Qed.

(** Above the limit the length field no longer describes the packet. *)
Lemma compare_misframed :
  maxCompareSize < pi_size e -> ~ framed comparePacket.
Proof.
  intros Hmax [_ Hl]. change maxCompareSize with (4 * 2 ^ 16 - 20) in Hmax.
  rewrite compare_length in Hl. unfold comparePacket in Hl.
  rewrite headerOf_object, packetLength_memtrace in Hl by (done || lia || (vm_compute; congruence)).
  pose proof (wrap_range 16 (pk_dwordCount (compareCmd e last op)) ltac:(lia)) as Hr.
  unfold in_width in Hr. dlia.
Qed.
End Compare.

Section ExpectTable.
Variable name : string.
Variable ndebug : bool.
Variable op : Z.
Hypothesis Hop : op = 0 \/ op = 1.

Lemma emits_compare e last mem :
  validEntry e -> pi_size e <= Z.of_nat (length mem) ->
  emits name
    (writeObject ndebug (compareCmd e last op) compareHeaderSize ≫= fun _ =>
     write ndebug (Some mem) (pi_size e) ≫= fun _ => writePadding ndebug (pi_size e))
    tt (comparePacket e last op mem).
Proof.
  intros [Hs _] Hm. eapply emits_bind; [by apply emits_writeObject|].
  eapply emits_bind; [apply emits_write; lia|apply emits_padding].
Qed.

(** The comparisons of a table, the last one closing the group. *)
Fixpoint expectations (es : list PageInfo) (mem : list Z) : list Expectation :=
  match es with
  | [] => []
  | e :: es' =>
      expectation e (bool_decide (es' = [])) op mem
      :: expectations es' (drop (Z.to_nat (pi_size e)) mem)
  end.

Lemma records_expectLoop es : forall mem written,
  Forall validEntry es -> Forall (fun e => pi_size e <= maxCompareSize) es ->
  sizes es <= Z.of_nat (length mem) ->
  recordsBy eventsOf name (expectLoop ndebug mem es op written) (written + sizes es)
    (map Compare (expectations es mem)).
Proof.
  induction es as [|e es IH]; intros mem written Hv Hmax Hm; cbn [expectLoop expectations].
  { rewrite Z.add_0_r. apply records_ret. }
  apply Forall_cons in Hv as [He Hv]. apply Forall_cons in Hmax as [Hme Hmax].
  pose proof (sizes_nonneg _ Hv). pose proof He as [Hs _]. rewrite sizes_cons in *.
  eapply records_ext; [intros s; apply bind_assoc3|].
  rewrite Z.add_assoc.
  cbn [map]. change (Compare (expectation e ?l op mem) :: ?r)
    with ([Compare (expectation e l op mem)] ++ r).
  eapply records_bind.
  - rewrite <- compare_event by (done || lia).
    apply records_packet; [apply emits_compare; [done|lia]|by apply compare_framed; try lia].
  - apply IH; rewrite ?length_drop; done || lia.
Qed.

Lemma records_expectMemoryTable mem size es :
  Forall validEntry es -> Forall (fun e => pi_size e <= maxCompareSize) es ->
  size = sizes es -> size <= Z.of_nat (length mem) ->
  recordsBy eventsOf name (expectMemoryTableFile ndebug mem size es op) tt
    (map Compare (expectations es mem)).
Proof.
  intros Hv Hmax -> Hm. rewrite <- (app_nil_r (map _ _)).
  eapply records_bind; [by apply (records_expectLoop es mem 0)|].
  eapply records_skip; [apply emits_flush|].
  exists []. split; [|done]. apply emits_cassert, Z.eqb_eq. lia.
Qed.
End ExpectTable.

(** C33: An expected memory table reads back as one comparison per entry, with the
    operation, the physical addresses and the expected bytes, and only the last
    one evaluated at once unless equality is asked for; entries up to
    [maxCompareSize] bytes. *)
Theorem expectMemoryTable_roundtrip name ndebug s memory table op :
  goodFile name s -> op = 0 \/ op = 1 -> Forall validEntry table ->
  Forall (fun e => pi_size e <= maxCompareSize) table ->
  sizes table = Z.of_nat (length memory) ->
  exists ps s',
    expectMemoryTableFile ndebug memory (Z.of_nat (length memory)) table op s = Ok (tt, s')
    /\ fileBytes name s' = fileBytes name s ++ concat ps
    /\ readPackets (length (concat ps)) (concat ps) = Some ps
    /\ concat (map expectationOf ps) = expectations op table memory.
Proof.
  intros Hs Hop Hv Hmax Hsz.
  destruct (records_view compareOf expectationOf _ _ _ _ compare_events
    (records_expectMemoryTable name ndebug op Hop memory _ table Hv Hmax (eq_sym Hsz) ltac:(lia)))
    as (ps & Hm & Hf & Hx).
  exists ps, (appendFile name (concat ps) s).
  split_and!; [by apply Hm|apply fileBytes_append|by apply readPackets_concat|].
  by rewrite Hx, (omap_map_Some compareOf Compare id), map_id by done.
Qed.

(** For a larger entry, such as the 2MB page of a local memory, the 16-bit length
    field is truncated: a reader of the file leaves the packet before its end. *)
Theorem expectMemoryTable_large_misframed name ndebug s memory e op :
  goodFile name s -> op = 0 \/ op = 1 -> validEntry e -> maxCompareSize < pi_size e ->
  pi_size e = Z.of_nat (length memory) ->
  exists bytes s',
    expectMemoryTableFile ndebug memory (Z.of_nat (length memory)) [e] op s = Ok (tt, s')
    /\ fileBytes name s' = fileBytes name s ++ bytes /\ ~ framed bytes
    /\ packetLength (headerOf bytes) < Z.of_nat (length bytes).
Proof.
  intros Hs Hop He Hmax Hsz. set (p := comparePacket e true op memory).
  exists p, (appendFile name p s).
  assert (Hmis : ~ framed p) by (apply compare_misframed; done || lia).
  split_and!; [|apply fileBytes_append|done|].
  - enough (Hem : emits name (expectMemoryTableFile ndebug memory (Z.of_nat (length memory)) [e] op)
                   tt p) by by apply Hem.
    rewrite <- (app_nil_r p). eapply (emits_bind _ _ _ (0 + pi_size e)).
    + cbn [expectLoop]. rewrite <- (app_nil_r p). intros s0 Hs0. rewrite bind_assoc3. revert s0 Hs0.
      eapply emits_bind; [apply emits_compare; [done|lia]|apply emits_ret].
    + eapply emits_skip; [apply emits_flush|]. apply emits_cassert, Z.eqb_eq. lia.
  - pose proof (compare_length e true op memory He ltac:(lia)) as Hl. fold p in Hl. rewrite Hl.
    unfold p, comparePacket.
    rewrite headerOf_object, packetLength_memtrace by (done || lia || (vm_compute; congruence)).
    pose proof (wrap_range 16 (pk_dwordCount (compareCmd e true op)) ltac:(lia)) as Hr.
    unfold in_width in Hr. change maxCompareSize with (4 * 2 ^ 16 - 20) in Hmax. dlia.
Qed.

Lemma run_bind {St A B} (m : M St A) (k : A -> M St B) s a s' :
  m s = Ok (a, s') -> (m ≫= k) s = k a s'.
Proof. intros H. unfold mbind, M_bind. by rewrite H. Qed.

(** ** Before the file is open *)

(** No file is open and no coming operation fails. *)
Record closedFile (s : AubFileStream) : Prop := {
  cf_closed : OFStream.opened (FileHandleWrapper.fileHandle (fileHandle s)) = None;
  cf_good : OFStream.good (FileHandleWrapper.fileHandle (fileHandle s)) = true;
  cf_writes : OFStream.writeFaults (FileHandleWrapper.fileHandle (fileHandle s)) = [];
  cf_opens : OFStream.openFaults (FileHandleWrapper.fileHandle (fileHandle s)) = []
}.

Lemma write_closed ndebug s l :
  closedFile s ->
  write ndebug (Some l) (Z.of_nat (length l)) s
  = Ok (tt, set_tmpWriteBuffer (tmpWriteBuffer s ++ l) s).
Proof.
  intros [Hc _ _ _]. unfold write, onFile, readHost.
  destruct s as [[[d o b f e ws os] t] nm tb b1 b2]. cbn in *. subst o. cbn.
  rewrite Z.ltb_irrefl, Nat2Z.id, take_ge by done. done.
Qed.

Lemma writes_closed ndebug bufs : forall s,
  closedFile s ->
  mapM_ (fun l => write ndebug (Some l) (Z.of_nat (length l))) bufs s
  = Ok (tt, set_tmpWriteBuffer (tmpWriteBuffer s ++ concat bufs) s).
Proof.
  induction bufs as [|l bufs IH]; intros s Hs; cbn [mapM_ concat].
  - rewrite app_nil_r. by destruct s.
  - rewrite (run_bind _ _ _ _ _ (write_closed ndebug s l Hs)), IH by by destruct Hs.
    cbn. by rewrite app_assoc.
Qed.

Lemma openFile_good ndebug name s :
  closedFile s ->
  exists s', openFile ndebug name s = Ok (tt, s') /\ goodFile name s'
    /\ fileBytes name s' = [] /\ tmpWriteBuffer s' = tmpWriteBuffer s.
Proof.
  intros [Hc Hg Hw Ho]. destruct s as [[[d o b f e ws os] t] nm tb b1 b2]. cbn in *. subst o ws os.
  unfold OFStream.good in Hg. cbn in Hg. destruct b, f; try done.
  eexists. split; [reflexivity|].
  unfold fileBytes, OFStream.contents. cbn. rewrite lookup_insert_eq.
  split_and!; [|done|done]. split; cbn; try done. rewrite lookup_insert_eq. by eexists.
Qed.

(** Whatever is written before the file is open is kept, in order, and follows
    the version header when the stream is opened and initialised. *)
Theorem writes_before_open_kept ndebug name s bufs caller stepping gpu :
  closedFile s -> tmpWriteBuffer s = [] ->
  exists s',
    (mapM_ (fun l => write ndebug (Some l) (Z.of_nat (length l))) bufs ≫= fun _ =>
     openFile ndebug name ≫= fun _ => init ndebug caller stepping gpu) s = Ok (true, s')
    /\ goodFile name s' /\ tmpWriteBuffer s' = []
    /\ fileBytes name s' = encode (versionCmd stepping caller gpu) ++ concat bufs.
Proof.
  intros Hs Hb. rewrite (run_bind _ _ _ _ _ (writes_closed ndebug bufs s Hs)), Hb. cbn [app].
  set (s1 := set_tmpWriteBuffer (concat bufs) s).
  destruct (openFile_good ndebug name s1) as (s2 & Hopen & Hgood & Hempty & Htmp); [by destruct Hs|].
  rewrite (run_bind _ _ _ _ _ Hopen). unfold init.
  set (dump := (CoreFamily.XeHpCore <=? _) && _). set (s3 := set_dumpSupported dump s2).
  rewrite (run_bind (modify (set_dumpSupported dump)) _ s2 tt s3 eq_refl).
  assert (Hg3 : goodFile name s3) by (destruct Hgood; by split).
  assert (Ht3 : tmpWriteBuffer s3 = concat bufs) by exact Htmp.
  assert (Hb3 : fileBytes name s3 = []) by exact Hempty.
  clearbody s3. set (header := versionCmd stepping caller gpu).
  pose proof (emits_writeObject name ndebug header CmdServicesMemTraceVersion.sizeOf ltac:(done)) as Hw.
  rewrite take_ge in Hw by (rewrite length_encode; by vm_compute).
  rewrite (run_bind _ _ _ _ _ (Hw s3 Hg3)).
  set (s4 := appendFile name (encode header) s3).
  assert (Hg4 : goodFile name s4) by by apply goodFile_append.
  rewrite (run_bind get _ s4 s4 s4 eq_refl). change (tmpWriteBuffer s4) with (tmpWriteBuffer s3).
  rewrite Ht3. unfold OFStream.is_open. rewrite (gf_open _ _ Hg4).
  rewrite bool_decide_eq_true_2 by by eexists.
  assert (Hfin : fileBytes name s4 = encode header) by (unfold s4; by rewrite fileBytes_append, Hb3).
  destruct (Z.ltb_spec 0 (Z.of_nat (length (concat bufs)))) as [Hlt|Hge]; cbn [when].
  - pose proof (emits_write name ndebug (concat bufs) _ (conj Hlt (Z.le_refl _))) as Hc.
    rewrite Nat2Z.id, take_ge in Hc by done.
    set (s5 := set_tmpWriteBuffer [] (appendFile name (concat bufs) s4)).
    rewrite (run_bind _ _ s4 tt s5) by by rewrite (run_bind _ _ _ _ _ (Hc s4 Hg4)).
    assert (Hg5 : goodFile name s5).
    { pose proof (goodFile_append name (concat bufs) _ Hg4) as []. by split. }
    rewrite (run_bind _ _ _ _ _ (emits_flush name s5 Hg5)), appendFile_nil by done.
    exists s5. split_and!; [done|done|done|].
    change (fileBytes name s5) with (fileBytes name (appendFile name (concat bufs) s4)).
    by rewrite fileBytes_append, Hfin.
  - destruct (concat bufs) as [|x l] eqn:Hcb; [|simpl in Hge; lia].
    rewrite (run_bind (mret tt) _ s4 tt s4 eq_refl).
    rewrite (run_bind _ _ _ _ _ (emits_flush name s4 Hg4)), appendFile_nil by done.
    exists s4. split_and!; [done|done|by rewrite <- Ht3|by rewrite app_nil_r].
Qed.

(** ** Failing writes *)

(** The open file of [s], where the next write fails. *)
Record faultyFile (name : string) (f : OFStream.fault) (s : AubFileStream) : Prop := {
  ff_open : OFStream.opened (FileHandleWrapper.fileHandle (fileHandle s)) = Some name;
  ff_name : fileName s = name;
  ff_good : OFStream.good (FileHandleWrapper.fileHandle (fileHandle s)) = true;
  ff_faults : OFStream.writeFaults (FileHandleWrapper.fileHandle (fileHandle s)) = [Some f];
  ff_opens : OFStream.openFaults (FileHandleWrapper.fileHandle (fileHandle s)) = [];
  ff_exists : is_Some (OFStream.disk (FileHandleWrapper.fileHandle (fileHandle s)) !! name);
  ff_throw : FileHandleWrapper.throwOnError (fileHandle s) = false
}.

(** A write whose memory the system call could not read (EFAULT) is retried from
    a host copy on the reopened file: the bytes end up in the file as if nothing
    had happened, when the failing write had stored nothing; the part it had
    stored is in the file twice. *)
Theorem write_efault_retry name ndebug s stored l n :
  faultyFile name (OFStream.mkFault EFAULT stored) s -> 0 < n <= Z.of_nat (length l) ->
  exists s', write ndebug (Some l) n s = Ok (tt, s') /\ goodFile name s'
    /\ fileBytes name s'
       = fileBytes name s ++ take stored (take (Z.to_nat n) l) ++ take (Z.to_nat n) l.
Proof.
  intros [Ho Hn Hg Hf Hos [bs Hbs] Ht] Hlen. unfold write, onFile, readHost, fileBytes.
  destruct s as [[[d o b f e ws os] t] nm tb b1 b2]. cbn in *. subst o ws os nm t.
  unfold OFStream.good in Hg. cbn in Hg. destruct b, f; try done.
  rewrite (proj2 (Z.leb_gt n 0)) by lia. cbn.
  rewrite (proj2 (Z.ltb_ge _ _)) by lia. cbn. eexists. split; [reflexivity|].
  unfold OFStream.contents. cbn. rewrite !lookup_insert_eq, Hbs. cbn.
  split; [split; cbn; try done; by rewrite lookup_insert_eq|].
  unfold OFStream.contents. cbn. rewrite !lookup_insert_eq, Hbs. cbn. by rewrite <- !app_assoc.
Qed.

(** After any other write error the stream stays in its error state: without
    [throwOnError] every later write and flush returns normally and stores
    nothing. *)
Theorem write_error_silences name ndebug s f l n :
  faultyFile name f s -> OFStream.errorCode f <> EFAULT -> 0 < n <= Z.of_nat (length l) ->
  exists s', write ndebug (Some l) n s = Ok (tt, s')
    /\ fileBytes name s' = fileBytes name s ++ take (OFStream.stored f) (take (Z.to_nat n) l)
    /\ forall bufs, Forall (fun l => l <> []) bufs ->
         (mapM_ (fun l => write ndebug (Some l) (Z.of_nat (length l))) bufs ≫= fun _ => flush) s'
         = Ok (tt, s').
Proof.
  intros [Ho Hn Hg Hf Hos [bs Hbs] Ht] Hne Hlen. unfold write at 1, onFile, readHost.
  destruct s as [[[d o b fb e ws os] t] nm tb b1 b2]. cbn in *. subst o ws os nm t.
  unfold OFStream.good in Hg. cbn in Hg. destruct b, fb; try done.
  rewrite (proj2 (Z.leb_gt n 0)) by lia. cbn.
  rewrite (proj2 (Z.ltb_ge _ _)) by lia.
  unfold FileHandleWrapper.write, FileHandleWrapper.checked, mbind, M_bind. cbn.
  rewrite (proj2 (Z.eqb_neq _ EFAULT)) by done. cbn.
  set (s' := mkAubFileStream (FileHandleWrapper.mk (OFStream.mk
    (<[name := default [] (d !! name) ++ take (OFStream.stored f) (take (Z.to_nat n) l)]> d)
    (Some name) true false (OFStream.errorCode f) [] []) false) name tb b1 b2).
  exists s'. split; [reflexivity|]. split.
  { unfold fileBytes, OFStream.contents. cbn. by rewrite lookup_insert_eq, Hbs. }
  assert (Hskip : forall k, k <> [] -> write ndebug (Some k) (Z.of_nat (length k)) s' = Ok (tt, s')).
  { intros k Hk. assert (0 < Z.of_nat (length k)) by (destruct k; simpl; [done|lia]).
    unfold write, onFile, readHost. rewrite (proj2 (Z.leb_gt _ 0)), Z.ltb_irrefl by lia.
    unfold FileHandleWrapper.write, FileHandleWrapper.checked, mbind, M_bind. cbn.
    by rewrite (proj2 (Z.eqb_neq _ EFAULT)) by done. }
  assert (Hflush : flush s' = Ok (tt, s')) by done. clearbody s'.
  intros bufs Hbufs.
  enough (Hm : mapM_ (fun l => write ndebug (Some l) (Z.of_nat (length l))) bufs s' = Ok (tt, s'))
    by by rewrite Hm.
  induction Hbufs as [|k bufs Hk _ IH]; [done|]. cbn [mapM_].
  by rewrite (run_bind _ _ _ _ _ (Hskip k Hk)).
Qed.

(** ** Concrete instances *)

Lemma addComment_roundtrip_witness :
  exists bytes s',
    addCommentFile false "hello" exFile = Ok (tt, s')
    /\ fileBytes "a.aub" s' = fileBytes "a.aub" exFile ++ bytes
    /\ readComments bytes = Some [104; 101; 108; 108; 111].
Proof.
  apply (addComment_roundtrip "a.aub" false exFile "hello" exFile_good).
  repeat constructor; discriminate.
Defined.

Lemma expectMemoryTable_roundtrip_witness :
  exists ps s',
    expectMemoryTableFile false exBytes 15 exTable 1 exFile = Ok (tt, s')
    /\ fileBytes "a.aub" s' = fileBytes "a.aub" exFile ++ concat ps
    /\ readPackets (length (concat ps)) (concat ps) = Some ps
    /\ concat (map expectationOf ps) = expectations 1 exTable exBytes.
Proof.
  apply (expectMemoryTable_roundtrip "a.aub" false exFile exBytes exTable 1 exFile_good).
  - by right.
  - repeat constructor; cbn; lia.
  - repeat constructor; vm_compute; discriminate.
  - reflexivity.
Defined.

(** The smallest page that does not fit, in steps of a double word. *)
Definition exLarge : PageInfo := mkPageInfo 0x200000 262128 true 1.

Lemma expectMemoryTable_large_misframed_witness :
  exists bytes s',
    expectMemoryTableFile false (replicate (Z.to_nat 262128) 0)
      (Z.of_nat (length (replicate (Z.to_nat 262128) 0))) [exLarge] 0 exFile = Ok (tt, s')
    /\ fileBytes "a.aub" s' = fileBytes "a.aub" exFile ++ bytes /\ ~ framed bytes
    /\ packetLength (headerOf bytes) < Z.of_nat (length bytes).
Proof.
  apply (expectMemoryTable_large_misframed "a.aub" false exFile _ exLarge 0 exFile_good).
  - by left.
  - repeat split; cbn; lia.
  - reflexivity.
  - rewrite length_replicate. cbn. lia.
Defined.

(** A stream on which no file was opened yet. *)
Definition exClosed : AubFileStream :=
  mkAubFileStream (FileHandleWrapper.mk (OFStream.mk ∅ None false false 0 [] []) false) "" []
    false false.
Definition exDescriptor : GpuDescriptor := mkGpuDescriptor 1 CoreFamily.XeHpgCore "dg2" 0 1.

Lemma writes_before_open_kept_witness :
  exists s',
    (mapM_ (fun l => write false (Some l) (Z.of_nat (length l))) [[1; 2]; [3]] ≫= fun _ =>
     openFile false "a.aub" ≫= fun _ => init false 0 7 exDescriptor) exClosed = Ok (true, s')
    /\ goodFile "a.aub" s' /\ tmpWriteBuffer s' = []
    /\ fileBytes "a.aub" s' = encode (versionCmd 7 0 exDescriptor) ++ [1; 2; 3].
Proof.
  apply (writes_before_open_kept false "a.aub" exClosed [[1; 2]; [3]] 0 7 exDescriptor);
    [by split|reflexivity].
Defined.

Definition exFaulty (code : Z) (stored : nat) : AubFileStream :=
  mkAubFileStream
    (FileHandleWrapper.mk
       (OFStream.mk {["a.aub" := [9]]} (Some "a.aub") false false 0
          [Some (OFStream.mkFault code stored)] []) false)
    "a.aub" [] false false.

Lemma exFaulty_faulty code stored :
  faultyFile "a.aub" (OFStream.mkFault code stored) (exFaulty code stored).
Proof. by split. Qed.

Lemma write_efault_retry_witness :
  exists s', write false (Some [1; 2; 3]) 3 (exFaulty EFAULT 0) = Ok (tt, s')
    /\ goodFile "a.aub" s' /\ fileBytes "a.aub" s' = [9; 1; 2; 3].
Proof.
  apply (write_efault_retry "a.aub" false (exFaulty EFAULT 0) 0 [1; 2; 3] 3 (exFaulty_faulty _ _)).
  simpl. lia.
Defined.

(** ENOSPC after two bytes. *)
Lemma write_error_silences_witness :
  exists s', write false (Some [1; 2; 3]) 3 (exFaulty 28 2) = Ok (tt, s')
    /\ fileBytes "a.aub" s' = [9; 1; 2]
    /\ forall bufs, Forall (fun l => l <> []) bufs ->
         (mapM_ (fun l => write false (Some l) (Z.of_nat (length l))) bufs ≫= fun _ => flush) s'
         = Ok (tt, s').
Proof.
  apply (write_error_silences "a.aub" false (exFaulty 28 2) _ [1; 2; 3] 3 (exFaulty_faulty _ _)).
  - discriminate.
  - simpl. lia.
Defined.
