(* ===== verification/FileControl.v ===== *)
(** * The control records of the capture file

    The bytes of the packets of [AubFileStream] that carry no memory contents:
    register writes and polls, memory polls, reserved regions, contexts and
    buffer dumps, written down double word by double word and compared with
    what the methods of the stream write. *)

From S2P Require Import Prelude Allocator MemoryBanks Gpu PageTable Walker AubPackets AubStream.
From S2P Require Import AubFileStream FileTheory.
#[local] Open Scope Z_scope.

(** ** Double words *)

(** Little-endian double words; a value counts modulo 2^32. *)
Definition dwords (l : list Z) : list Z := concat (map (leBytes 4) l).

Lemma length_dwords l : length (dwords l) = (4 * length l)%nat.
Proof.
  induction l as [|x l IH]; [done|]. unfold dwords in *. cbn [map concat length].
  rewrite length_app, length_leBytes, IH. lia.
Qed.

Lemma leBytes_app a : forall b x, leBytes (a + b) x = leBytes a x ++ leBytes b (x / 2 ^ (8 * Z.of_nat a)).
Proof.
  induction a as [|a IH]; intros b x.
  - change (2 ^ (8 * Z.of_nat 0)) with 1. by rewrite Z.div_1_r.
  - cbn [Nat.add leBytes app]. rewrite IH. do 3 f_equal.
    rewrite Z.div_div by (lia || apply Z.pow_pos_nonneg; lia). f_equal.
    replace (8 * Z.of_nat (S a)) with (8 + 8 * Z.of_nat a) by lia. by rewrite Z.pow_add_r by lia.
Qed.

Lemma leBytes_wrap32 x : leBytes 4 (wrap 32 x) = leBytes 4 x.
Proof. apply (leBytes_mod 4). Qed.

(** Two lists of double words that agree modulo 2^32. *)
Lemma dwords_ext l k : Forall2 (fun x y => wrap 32 x = wrap 32 y) l k -> dwords l = dwords k.
Proof.
  induction 1 as [|x y l k Hx _ IH]; [done|].
  change (leBytes 4 x ++ dwords l = leBytes 4 y ++ dwords k). f_equal; [|done].
  by rewrite <- (leBytes_wrap32 x), Hx, leBytes_wrap32.
Qed.

(** A 64-bit member is its two halves. *)
Definition halved (fs : list (Z * Z)) : list (Z * Z) :=
  concat (map (fun f => if f.1 =? 64 then [(32, f.2); (32, f.2 / 2 ^ 32)] else [f]) fs).

Lemma packBits_halved fs : packBits (halved fs) = packBits fs.
Proof.
  induction fs as [|[w x] fs IH]; [done|].
  change (halved ((w, x) :: fs))
    with ((if w =? 64 then [(32, x); (32, x / 2 ^ 32)] else [(w, x)]) ++ halved fs).
  destruct (Z.eqb_spec w 64) as [->|_]; cbn [app packBits fst snd]; rewrite IH; [|done].
  unfold wrap. pose proof (Z.rem_mul_r x (2 ^ 32) (2 ^ 32) ltac:(lia) ltac:(lia)) as H.
  change (2 ^ 32 * 2 ^ 32) with (2 ^ 64) in H. rewrite H. lia.
Qed.

(** Members that fill double words are written double word by double word. *)
Lemma leBytes_groups gs :
  Forall (fun g => Forall (fun f => 0 <= f.1) g /\ sumZ (map fst g) = 32) gs ->
  leBytes (4 * length gs) (packBits (concat gs)) = dwords (map packBits gs).
Proof.
  induction 1 as [|g gs [Hw Hs] _ IH]; [done|].
  cbn [length concat map]. replace (4 * S (length gs))%nat with (4 + 4 * length gs)%nat by lia.
  rewrite packBits_app, Hs by done. rewrite leBytes_app.
  change (8 * Z.of_nat 4) with 32. pose proof (packBits_range g Hw) as Hr. rewrite Hs in Hr.
  rewrite (Z.mul_comm (2 ^ 32)), Z.div_add, (Z.div_small (packBits g)) by lia.
  change (dwords (packBits g :: map packBits gs)) with (leBytes 4 (packBits g) ++ dwords (map packBits gs)).
  rewrite Z.add_0_l, IH. f_equal.
  rewrite <- (leBytes_mod 4). change (8 * Z.of_nat 4) with 32.
  rewrite Z.mod_add by lia. by rewrite Z.mod_small.
Qed.

(** ** The records *)

(** The calls of the stream that write them. *)
Inductive Control :=
| WriteRegister (offset value mask : Z)
| PollRegister (offset mask desired : Z) (notEqual : bool) (timeoutAction : Z)
| PollMemory (page : PageInfo) (value compareMode : Z)
| ReservePages (pages : list Z)
| DeclareContext (handle sixtyFourBit : Z) (pageDirPointers : list Z)
| DumpBuffer (gttType gfxAddress size handle : Z).

Definition runControl (ndebug : bool) (c : Control) : M AubFileStream unit :=
  match c with
  | WriteRegister o v m => writeMMIO (Stream := FileStream ndebug) o v m
  | PollRegister o m v ne t => registerPoll (Stream := FileStream ndebug) o m v ne t
  | PollMemory e v cmp => memoryPoll (Stream := FileStream ndebug) [e] v cmp
  | ReservePages pages => reserveContiguousPages (Stream := FileStream ndebug) pages
  | DeclareContext h b ps => declareContext (Stream := FileStream ndebug) h (b, ps)
  | DumpBuffer t a n h => dumpBufferBIN (Stream := FileStream ndebug) t a n h
  end.

(** The calls [memoryPoll] asserts. *)
Definition pollable (c : Control) : bool :=
  if c is PollMemory _ _ cmp then (1 <=? cmp) && (cmp <=? 6) else true.

(** The two halves of a 64-bit value. *)
Definition halves (x : Z) : list Z := [x; x / 2 ^ 32].

(** The packets of a call as double words, each from its first to its last. *)
Definition layout (dumpSupported : bool) (c : Control) : list (list Z) :=
  match c with
  | WriteRegister o v m => [[0xF7030005; o; 0x20000; m; 0; v]]
  | PollRegister o m v ne t =>
      [[0xF7020005; o; 0x20000 + 4 * Z.b2z ne + 2 * (t mod 2); m; 0; v]]
  | PollMemory e v cmp =>
      [0xF7050006 :: halves (pi_physicalAddress e)
       ++ [(if pi_isLocalMemory e then 0x10000000 else 0x20000000) + 0x400 * cmp + 0x20;
           0xffffffff; 0xffffffff; v]]
  | ReservePages pages => map (fun p => 0xF70D0004 :: halves p ++ [0x10000; 0]) pages
  | DeclareContext h b ps =>
      [[0xE0940009; h; 2 * (b mod 2)] ++ halves (nth 0 ps 0) ++ halves (nth 1 ps 0)
       ++ halves (nth 2 ps 0) ++ halves (nth 3 ps 0)]
  | DumpBuffer t a n h =>
      if dumpSupported then
        [0xE095000C :: halves a ++ halves n ++ [1; 0] ++ halves n
         ++ [16 * (t mod 4); h; 0; 0; 0]]
      else []
  end.

Definition controlBytes (dumpSupported : bool) (c : Control) : list Z :=
  concat (map dwords (layout dumpSupported c)).

(** *** The packets *)

Lemma leBytes_dwords gs n fs l :
  n = (4 * length gs)%nat -> halved fs = concat gs ->
  Forall (fun g => Forall (fun f => 0 <= f.1) g /\ sumZ (map fst g) = 32) gs ->
  Forall2 (fun x y => wrap 32 x = wrap 32 y) (map packBits gs) l ->
  leBytes n (packBits fs) = dwords l.
Proof.
  intros -> Hf Hg Hl. rewrite <- packBits_halved, Hf, leBytes_groups by done. by apply dwords_ext.
Qed.

Lemma dword_single v : wrap 32 (packBits [(32, v)]) = wrap 32 v.
Proof.
  cbn [packBits fst snd]. rewrite Z.mul_0_r, Z.add_0_r.
  unfold wrap. apply Z.mod_mod. lia.
Qed.

(** Cuts an object into the given double words. *)
Ltac by_dwords gs :=
  apply (leBytes_dwords gs); [reflexivity
    |reflexivity
    |repeat constructor; cbn; lia
    |cbn [map]; repeat (apply Forall2_cons; split); [..|by apply Forall2_nil];
     first [apply dword_single | reflexivity | idtac]].

Section Layout.
Variable name : string.
Variable ndebug : bool.

(** An object written whole, and the stream flushed. *)
Lemma emits_object {T} `{!Packet T} (p : T) n l :
  n = pk_size -> 0 < n -> leBytes (Z.to_nat n) (packBits (pk_fields p)) = dwords l ->
  emits name (writeObject ndebug p n) tt (dwords l).
Proof.
  intros -> Hs He. change (encode p = dwords l) in He. rewrite <- He.
  rewrite <- (take_ge (encode p) (Z.to_nat pk_size)) by (rewrite length_encode; lia).
  apply emits_writeObject. lia.
Qed.

Lemma emits_flushed (m : M AubFileStream unit) bs :
  emits name m tt bs -> emits name (m ≫= fun _ => flush) tt bs.
Proof. intros Hm. rewrite <- (app_nil_r bs). eapply emits_bind; [done|apply emits_flush]. Qed.

Lemma layout_writeMMIO o v m :
  emits name (writeMMIOFile ndebug o v m) tt (dwords [0xF7030005; o; 0x20000; m; 0; v]).
Proof.
  unfold writeMMIOFile. apply emits_flushed, emits_object; [done..|].
  by_dwords [[(16, 5); (7, 3); (6, 0x2e); (3, 7)]; [(32, o)];
    [(4, 0); (4, 0); (8, 0); (4, 2); (8, 0); (4, 0)]; [(32, m)]; [(32, 0)]; [(32, v)]].
Qed.

Lemma layout_registerPoll o m v ne t :
  emits name (registerPollFile ndebug o m v ne t) tt
    (dwords [0xF7020005; o; 0x20000 + 4 * Z.b2z ne + 2 * (t mod 2); m; 0; v]).
Proof.
  unfold registerPollFile. apply emits_flushed, emits_object; [done..|].
  by_dwords [[(16, 5); (7, 2); (6, 0x2e); (3, 7)]; [(32, o)];
    [(1, 0); (1, t); (1, Z.b2z ne); (1, 0); (4, 0); (8, 0); (4, 2); (8, 0); (4, 0)];
    [(32, m)]; [(32, 0)]; [(32, v)]].
  unfold packBits, wrap. cbn [fst snd]. change (2 ^ 1) with 2.
  pose proof (Z.mod_pos_bound t 2 ltac:(lia)).
  f_equal. destruct ne; cbn; dlia.
Qed.

Lemma layout_memoryPoll e v cmp :
  1 <= cmp <= 6 ->
  emits name (memoryPollFile ndebug [e] v cmp) tt
    (dwords (0xF7050006 :: halves (pi_physicalAddress e)
       ++ [(if pi_isLocalMemory e then 0x10000000 else 0x20000000) + 0x400 * cmp + 0x20;
           0xffffffff; 0xffffffff; v])).
Proof.
  intros Hc. unfold memoryPollFile.
  assert (Hb : (1 <=? cmp) && (cmp <=? 6) = true) by lia.
  eapply emits_skip; [exact (emits_cassert _ _ _ Hb)|].
  eapply emits_skip; [by apply emits_cassert|].
  eapply emits_skip; [apply emits_ret|].
  apply emits_flushed, emits_object; [done..|].
  by_dwords [[(16, 6); (7, 5); (6, 0x2e); (3, 7)];
    [(32, u32 (Z.land (pi_physicalAddress e) 0xffffffff))];
    [(32, u32 (Z.shiftr (pi_physicalAddress e) 32))];
    [(1, 0); (1, 0); (2, 0); (2, 2); (2, 0); (1, 0); (1, 0); (3, cmp); (7, 0); (8, 0);
     (4, toAddressSpace (pi_isLocalMemory e))];
    [(32, 0xffffffff)]; [(32, 0xffffffff)]; [(32, v)]].
  - rewrite dword_single. unfold wrap. change 0xffffffff with (2 ^ 32 - 1).
    rewrite land_low_mod by lia. by rewrite !Z.mod_mod by lia.
  - rewrite dword_single. unfold wrap. rewrite Z.shiftr_div_pow2 by lia. by rewrite Z.mod_mod by lia.
  - assert (cmp = 1 \/ cmp = 2 \/ cmp = 3 \/ cmp = 4 \/ cmp = 5 \/ cmp = 6)
      as [->|[->|[->|[->|[->| ->]]]]] by lia; by destruct (pi_isLocalMemory e).
Qed.

Lemma layout_region page :
  emits name (writeObject ndebug (regionCmd page) CmdServicesMemTraceMemoryContinuousRegion.sizeOf)
    tt (dwords (0xF70D0004 :: halves page ++ [0x10000; 0])).
Proof.
  apply emits_object; [done..|].
  by_dwords [[(16, 4); (7, 13); (6, 0x2e); (3, 7)]; [(32, page)]; [(32, page / 2 ^ 32)];
    [(32, 0x10000)]; [(32, 0)]].
Qed.

Lemma layout_reserve pages :
  emits name (reserveContiguousPagesFile ndebug pages) tt
    (concat (map dwords (map (fun p => 0xF70D0004 :: halves p ++ [0x10000; 0]) pages))).
Proof.
  unfold reserveContiguousPagesFile. apply emits_flushed.
  induction pages as [|page pages IH]; [apply emits_ret|].
  cbn [mapM_ map concat]. eapply emits_bind; [apply layout_region|exact IH].
Qed.

(** A structure of [aub_header.h]. *)
Lemma emits_bytes n fs l :
  0 < n -> leBytes (Z.to_nat n) (packBits fs) = dwords l ->
  emits name (write ndebug (Some (leBytes (Z.to_nat n) (packBits fs))) n) tt (dwords l).
Proof.
  intros Hn <-. rewrite <- (take_ge (leBytes _ _) (Z.to_nat n)) at 2 by (rewrite length_leBytes; lia).
  apply emits_write. rewrite length_leBytes. lia.
Qed.

Lemma layout_context h b ps :
  emits name (writeContextCreate ndebug h b ps) tt
    (dwords ([0xE0940009; h; 2 * (b mod 2)] ++ halves (nth 0 ps 0) ++ halves (nth 1 ps 0)
       ++ halves (nth 2 ps 0) ++ halves (nth 3 ps 0))).
Proof.
  unfold writeContextCreate. apply emits_flushed, emits_bytes; [done|].
  by_dwords [[(16, 9); (7, 0x14); (6, 1); (3, 7)]; [(32, h)]; [(1, 0); (1, b); (30, 0)];
    [(32, nth 0 ps 0)]; [(32, nth 0 ps 0 / 2 ^ 32)]; [(32, nth 1 ps 0)]; [(32, nth 1 ps 0 / 2 ^ 32)];
    [(32, nth 2 ps 0)]; [(32, nth 2 ps 0 / 2 ^ 32)]; [(32, nth 3 ps 0)]; [(32, nth 3 ps 0 / 2 ^ 32)]].
  f_equal. cbn [packBits fst snd]. rewrite !Z.mul_0_r, Z.add_0_r. cbn. unfold wrap. by change (2 ^ 1) with 2.
Qed.

Lemma misaligned_value x : getMisalignedUint64 (setMisalignedUint64 x) = wrap 64 x.
Proof.
  unfold getMisalignedUint64, setMisalignedUint64, wrap. cbn [nth].
  rewrite Z.shiftr_div_pow2, Z.lor_comm by lia.
  set (hi := (x / 2 ^ 32) mod 2 ^ 32). set (lo := x mod 2 ^ 32).
  assert (Hl : Z.land lo (Z.shiftl hi 32) = 0).
  { apply Z.bits_inj'. intros i Hi. rewrite Z.land_spec, Z.bits_0.
    destruct (Z.lt_ge_cases i 32); [by rewrite Z.shiftl_spec_low, andb_false_r|].
    unfold lo. by rewrite Z.mod_pow2_bits_high by lia. }
  rewrite <- Z.lxor_lor, <- Z.add_nocarry_lxor, Z.shiftl_mul_pow2 by (done || lia).
  pose proof (Z.rem_mul_r x (2 ^ 32) (2 ^ 32) ltac:(lia) ltac:(lia)) as H.
  change (2 ^ 32 * 2 ^ 32) with (2 ^ 64) in H. rewrite H. unfold lo, hi. lia.
Qed.

Lemma wrap_halves x :
  wrap 32 (wrap 64 x) = wrap 32 x /\ wrap 32 (wrap 64 x / 2 ^ 32) = wrap 32 (x / 2 ^ 32).
Proof.
  unfold wrap. pose proof (Z.rem_mul_r x (2 ^ 32) (2 ^ 32) ltac:(lia) ltac:(lia)) as H.
  change (2 ^ 32 * 2 ^ 32) with (2 ^ 64) in H. rewrite H, (Z.mul_comm (2 ^ 32)).
  rewrite Z.mod_add, Z.div_add, (Z.div_small (x mod 2 ^ 32)), Z.add_0_l, !Z.mod_mod by dlia. done.
Qed.

Lemma layout_dump s t a n h :
  goodFile name s -> dumpBinSupported s = true ->
  dumpBufferBINFile ndebug t a n h s
  = Ok (tt, appendFile name (dwords (0xE095000C :: halves a ++ halves n ++ [1; 0] ++ halves n
        ++ [16 * (t mod 4); h; 0; 0; 0])) s).
Proof.
  intros Hs Hd. unfold dumpBufferBINFile, mbind, M_bind. cbn [get]. rewrite Hd. cbn [negb].
  revert s Hs Hd. enough (He : emits name
    (write ndebug (Some (leBytes (Z.to_nat AubCaptureBinaryDumpHD.sizeOf) (packBits
      (AubCaptureBinaryDumpHD.fields (AubCaptureBinaryDumpHD.setPitch n
        (AubCaptureBinaryDumpHD.setBaseAddr a (AubCaptureBinaryDumpHD.setWidth n
          (AubCaptureBinaryDumpHD.setHeight 1
            (AubCaptureBinaryDumpHD.mk (dumpHeader AubCaptureBinaryDumpHD.sizeOf 0x15)
               0 0 0 0 0 t h 0 0 [])))))))))
      AubCaptureBinaryDumpHD.sizeOf ≫= fun _ => flush) tt
    (dwords (0xE095000C :: halves a ++ halves n ++ [1; 0] ++ halves n
        ++ [16 * (t mod 4); h; 0; 0; 0]))) by (intros s Hs _; exact (He s Hs)).
  apply emits_flushed, emits_bytes; [done|].
  set (ma := getMisalignedUint64 (setMisalignedUint64 a)).
  set (mn := getMisalignedUint64 (setMisalignedUint64 n)).
  by_dwords [[(16, 12); (7, 0x15); (6, 1); (3, 7)]; [(32, ma)]; [(32, ma / 2 ^ 32)];
    [(32, mn)]; [(32, mn / 2 ^ 32)]; [(32, 1)]; [(32, 0)]; [(32, mn)]; [(32, mn / 2 ^ 32)];
    [(4, 0); (2, t); (26, 0)]; [(32, h)]; [(32, 0)]; [(32, 0)]; [(8, 0); (8, 0); (8, 0); (8, 0)]].
  all: try (rewrite dword_single; unfold ma, mn; rewrite misaligned_value; apply wrap_halves).
  f_equal. cbn [packBits fst snd]. rewrite !Z.mul_0_r, Z.add_0_r. cbn. unfold wrap. by change (2 ^ 2) with 4.
Qed.

Lemma layout_control s c :
  goodFile name s -> pollable c = true ->
  runControl ndebug c s = Ok (tt, appendFile name (controlBytes (dumpBinSupported s) c) s).
Proof.
  intros Hs Hp. unfold controlBytes. destruct c as [o v m|o m v ne t|e v cmp|pages|h b ps|t a n h];
    cbn [layout map concat]; rewrite ?app_nil_r.
  - exact (layout_writeMMIO o v m s Hs).
  - exact (layout_registerPoll o m v ne t s Hs).
  - unfold pollable in Hp. assert (Hc : 1 <= cmp <= 6) by lia. exact (layout_memoryPoll e v cmp Hc s Hs).
  - exact (layout_reserve pages s Hs).
  - exact (layout_context h b ps s Hs).
  - destruct (dumpBinSupported s) eqn:Hd; cbn [map concat]; rewrite ?app_nil_r; [by apply layout_dump|].
    rewrite appendFile_nil by done. cbn. unfold dumpBufferBINFile, mbind, M_bind. cbn. by rewrite Hd.
Qed.
End Layout.

(** ** Framing *)

Lemma headerOf_dwords c l : headerOf (dwords (c :: l)) = unpackBits [16; 7; 6; 3] (wrap 32 c).
Proof.
  unfold headerOf, decodeFields. change (dwords (c :: l)) with (leBytes 4 c ++ dwords l).
  rewrite take_app_le, take_ge by by rewrite length_leBytes.
  rewrite fromLE_leBytes_mod. done.
Qed.

Lemma framed_dwords c l :
  Z.of_nat (4 * S (length l)) = packetLength (unpackBits [16; 7; 6; 3] (wrap 32 c)) ->
  framed (dwords (c :: l)).
Proof.
  intros Hl. split; rewrite length_dwords; cbn [length]; [lia|]. by rewrite headerOf_dwords.
Qed.

Lemma layout_framed b c : Forall framed (map dwords (layout b c)).
Proof.
  destruct c as [o v m|o m v ne t|e v cmp|pages|h x ps|t a n h]; cbn [layout map];
    try (apply Forall_singleton; by apply framed_dwords).
  - induction pages as [|page pages IH]; constructor; [by apply framed_dwords|exact IH].
  - destruct b; [|constructor]. apply Forall_singleton. by apply framed_dwords.
Qed.

Definition packetsOf (b : bool) (cs : list Control) : list (list Z) :=
  map dwords (concat (map (layout b) cs)).

Lemma packetsOf_cons b c cs : packetsOf b (c :: cs) = map dwords (layout b c) ++ packetsOf b cs.
Proof. unfold packetsOf. cbn. by rewrite map_app. Qed.

Lemma packetsOf_framed b cs : Forall framed (packetsOf b cs).
Proof.
  induction cs as [|c cs IH]; [constructor|]. rewrite packetsOf_cons.
  apply Forall_app. split; [apply layout_framed|done].
Qed.

(** C32: any sequence of register writes, register polls, memory polls,
    reservations, context declarations and buffer dumps on an open capture file
    succeeds, and appends exactly the double words of [layout], call after call:
    packet type, opcode and length, the register offset, the mask and the value
    of a register access, the conditions of a poll at their bit positions, the
    address space, the halves of the 64-bit addresses. The bytes divide into
    these packets again by the lengths in their headers alone. *)
Theorem control_records_layout name ndebug cs : forall s,
  goodFile name s -> forallb pollable cs = true ->
  exists s', mapM_ (runControl ndebug) cs s = Ok (tt, s')
  /\ fileBytes name s' = fileBytes name s ++ concat (packetsOf (dumpBinSupported s) cs)
  /\ readPackets (length (concat (packetsOf (dumpBinSupported s) cs)))
       (concat (packetsOf (dumpBinSupported s) cs)) = Some (packetsOf (dumpBinSupported s) cs).
Proof.
  intros s Hs Hp. set (b := dumpBinSupported s).
  exists (appendFile name (concat (packetsOf b cs)) s).
  split_and!; [|apply fileBytes_append|apply readPackets_concat; [apply packetsOf_framed|done]].
  assert (Hb : dumpBinSupported s = b) by done. clearbody b. revert s Hs Hb.
  induction cs as [|c cs IH]; intros s Hs Hb; [by rewrite appendFile_nil|].
  cbn [forallb] in Hp. apply andb_true_iff in Hp as [Hc Hp].
  cbn [mapM_]. unfold mbind, M_bind. rewrite (layout_control name) by done.
  rewrite IH by (done || by apply goodFile_append).
  rewrite appendFile_app, packetsOf_cons, concat_app. unfold controlBytes. by rewrite Hb.
Qed.

(** ** Concrete instances *)

(** The end of a submission: the tail is written, and the engine and a memory
    location are polled. *)
Definition exControls : list Control :=
  [WriteRegister 0x2230 0x1000 0xffffffff; PollRegister 0x2234 0x100 0x100 false 1;
   PollMemory (mkPageInfo 0x1200000040 4 true 1) 7 6; ReservePages [0x10000; 0x500020000];
   DeclareContext 1 1 [0x100001000]; DumpBuffer 1 0x800010000 0x40 3].

Lemma control_records_layout_witness :
  exists s', mapM_ (runControl false) exControls exFile = Ok (tt, s')
  /\ fileBytes "a.aub" s' = fileBytes "a.aub" exFile ++ concat (packetsOf false exControls)
  /\ length (packetsOf false exControls) = 6%nat
  /\ nth 0 (packetsOf false exControls) []
     = [0x05; 0x00; 0x03; 0xF7; 0x30; 0x22; 0; 0; 0; 0; 2; 0; 0xff; 0xff; 0xff; 0xff;
        0; 0; 0; 0; 0; 0x10; 0; 0].
Proof.
  destruct (control_records_layout "a.aub" false exControls exFile exFile_good eq_refl)
    as (s' & H1 & H2 & _).
  exists s'. split_and!; [exact H1|exact H2|reflexivity|vm_compute; reflexivity].
Defined.
