(* ===== verification/FileSim.v ===== *)
(** * The capture file implements the stream

    Every operation of the base class, run on the sink that records calls and run
    on the capture file, does the same to the page tables; and the file reads back
    as the memory the recorded calls describe. *)

From S2P Require Import Prelude Allocator MemoryBanks Gpu PageTable Walker AubPackets AubStream.
From S2P Require Import AubFileStream FileTheory FileCorrect FileRecords.
#[local] Open Scope Z_scope.

(** ** What a call means *)

(** The calls whose packets do not depend on the file's state and which the
    capture file can represent: no physical range runs past the address space, the
    sizes add up, comparisons fit a packet. Dumps are sent only when the file
    supports them, and are left out. *)
Definition callOk (c : StreamCall) : Prop :=
  match c with
  | WriteGttPages es => Forall (fun e => 0 <= pe_physicalAddress e /\ pe_physicalAddress e + 8 <= 2 ^ 64) es
  | WriteDiscontiguousEntries es space _ =>
      0 <= space < 16
      /\ Forall (fun e => 0 <= pe_physicalAddress e /\ pe_physicalAddress e + 8 <= 2 ^ 64) es
  | WriteDiscontiguousPages m n es _ =>
      es <> [] /\ Forall validEntry es /\ n = sizes es /\ n <= Z.of_nat (length m)
  | ExpectMemoryTable m n es op =>
      (op = 0 \/ op = 1) /\ Forall validEntry es /\ Forall (fun e => pi_size e <= maxCompareSize) es
      /\ n = sizes es /\ n <= Z.of_nat (length m)
  | MemoryPoll es _ compareMode => length es = 1%nat /\ 1 <= compareMode <= 6
  | DumpBufferBIN _ _ _ _ | DumpSurface _ _ _ => False
  | _ => True
  end.

#[export] Instance validEntry_dec e : Decision (validEntry e).
Proof. unfold validEntry. apply _. Defined.

#[export] Instance callOk_dec c : Decision (callOk c).
Proof. destruct c; cbn; apply _. Defined.

(** The memory a call writes. *)
Definition callCells (c : StreamCall) : list Cell :=
  match c with
  | WriteGttPages es => entriesImage AddressSpaceValues.TraceGttEntry es
  | WriteDiscontiguousEntries es space _ => entriesImage space es
  | WriteDiscontiguousPages m _ es _ => image m es
  | _ => []
  end.

(** The virtual function of the capture file a call stands for. *)
Definition runCall (ndebug : bool) (c : StreamCall) : M AubFileStream unit :=
  match c with
  | AddComment m => addCommentFile ndebug m
  | WriteGttPages es => writeGttPagesFile ndebug es
  | ExpectMemoryTable m n es op => expectMemoryTableFile ndebug m n es op
  | ReserveContiguousPages ps => reserveContiguousPagesFile ndebug ps
  | ReadDiscontiguousPages _ _ => mret tt
  | WriteDiscontiguousPages m n es h => writeDiscontiguousPagesFile ndebug m n es h
  | WriteDiscontiguousEntries es space h => writeDiscontiguousEntriesFile ndebug es space h
  | MemoryPoll es v mode => memoryPollFile ndebug es v mode
  | RegisterPoll o m d n a => registerPollFile ndebug o m d n a
  | WriteMMIO o v m => writeMMIOFile ndebug o v m
  | ReadMMIO _ | WritePCICFG _ _ | ReadPCICFG _ => mret tt
  | DeclareContext h p => writeContextCreate ndebug h p.1 p.2
  | DumpBufferBIN g a n h => dumpBufferBINFile ndebug g a n h
  | DumpSurface g s h => dumpSurfaceFile ndebug g s h
  end.

(** Packets that do not write memory. *)
Lemma cellsOf_other packet n subOp opcode t :
  headerOf packet = [n; subOp; opcode; t] -> opcode <> 0x2e \/ subOp <> 6 /\ subOp <> 11 ->
  cellsOf packet = [].
Proof.
  intros Hh Hno. unfold cellsOf. rewrite Hh.
  change CmdServicesMemTraceMemoryWrite.subOpcode with 6.
  change CmdServicesMemTraceMemoryWriteDiscontiguous.subOpcode with 11.
  destruct Hno as [Hop|[H6 H11]].
  - repeat case_match; done.
  - rewrite !(proj2 (Z.eqb_neq _ _)) by done. repeat case_match; done.
Qed.

Section Calls.
Variable name : string.
Variable ndebug : bool.

(** A packet written whole. *)
Lemma records_wholeObject {T} `{!Packet T} (p : T) :
  pk_setHeader p = p -> 4 <= pk_size -> pk_size = 4 * (pk_dwordCount p + 1) ->
  in_width 16 (pk_dwordCount p) -> wrap 7 pk_subOpcode <> 6 -> wrap 7 pk_subOpcode <> 11 ->
  records name (writeObject ndebug p pk_size) tt [].
Proof.
  intros Hp H4 Hs Hw H6 H11. set (n := Z.to_nat pk_size).
  rewrite <- (cellsOf_other (take n (encode p)) (u16 (pk_dwordCount p)) (wrap 7 pk_subOpcode) 0x2e 7);
    try (by right).
  - apply records_packet; [apply emits_writeObject; lia|].
    rewrite <- (app_nil_r (take _ _)). apply framed_object; try done; subst n; simpl; lia.
  - rewrite <- (app_nil_r (take _ _)). apply headerOf_object; try done; subst n; lia.
Qed.

Lemma records_reserve pages : records name (reserveContiguousPagesFile ndebug pages) tt [].
Proof.
  unfold reserveContiguousPagesFile. eapply records_flush.
  induction pages as [|p pages IH]; [apply records_ret|]. cbn [mapM_].
  change ([] : list Cell) with (([] : list Cell) ++ []). eapply records_bind; [|exact IH].
  refine (records_wholeObject (regionCmd p) _ _ _ _ _ _); try done; vm_compute; congruence.
Qed.

Lemma records_memoryPoll es v mode :
  length es = 1%nat -> 1 <= mode <= 6 -> records name (memoryPollFile ndebug es v mode) tt [].
Proof.
  intros Hl Hm. destruct es as [|e [|]]; try done. unfold memoryPollFile.
  eapply records_skip; [apply emits_cassert|].
  { change CmdServicesMemTraceMemoryPoll.ComparisonValues.Equal with 1.
    change CmdServicesMemTraceMemoryPoll.ComparisonValues.GreaterEqual with 6.
    apply andb_true_iff. split; apply Z.leb_le; lia. }
  eapply records_skip; [by apply emits_cassert|]. eapply records_skip; [apply emits_ret|].
  eapply records_flush. 
  match goal with |- records _ (writeObject _ ?p _) _ _ =>
    refine (records_wholeObject p _ _ _ _ _ _); try done; vm_compute; congruence end.
Qed.

Lemma records_writeMMIO o v m : records name (writeMMIOFile ndebug o v m) tt [].
Proof.
  eapply records_flush.
  match goal with |- records _ (writeObject _ ?p _) _ _ =>
    refine (records_wholeObject p _ _ _ _ _ _); try done; vm_compute; congruence end.
Qed.

Lemma records_registerPoll o m d n a : records name (registerPollFile ndebug o m d n a) tt [].
Proof.
  eapply records_flush.
  match goal with |- records _ (writeObject _ ?p _) _ _ =>
    refine (records_wholeObject p _ _ _ _ _ _); try done; vm_compute; congruence end.
Qed.

(** The context declaration has the header of [aub_header.h]. *)
Lemma records_contextCreate h b ps : records name (writeContextCreate ndebug h b ps) tt [].
Proof.
  eapply records_flush. cbv zeta.
  set (cmd := AubPpgttContextCreate.mk _ _ _ _ _).
  set (packet := leBytes 44 (packBits (AubPpgttContextCreate.fields cmd))).
  assert (Hlen : length packet = 44%nat) by apply length_leBytes.
  assert (Hh : headerOf packet = [9; 0x14; 0x1; 0x7]).
  { unfold headerOf, packet. rewrite <- (take_drop 4 (AubPpgttContextCreate.fields cmd)).
    change [16; 7; 6; 3] with (map fst (take 4 (AubPpgttContextCreate.fields cmd))).
    rewrite decode_prefix; [done|repeat constructor; done|lia|done]. }
  rewrite <- (cellsOf_other packet 9 0x14 0x1 0x7 Hh) by (by left).
  apply records_packet.
  - pose proof (emits_write name ndebug packet 44 ltac:(lia)) as He.
    by rewrite take_ge in He by lia.
  - split; [lia|]. by rewrite Hlen, Hh.
Qed.

Lemma records_call c : callOk c -> records name (runCall ndebug c) tt (callCells c).
Proof.
  destruct c as [m|es|m n es op|ps|n es|m n es h|es sp h|es v mode|o m d n a|o v m|o|o v|o|h p|g a n h|g si h];
    cbn [callOk runCall callCells].
  - intros _. pose proof (records_view cellOf cellsOf _ _ _ _ cells_events
      (records_addComment name ndebug m)) as H.
    by rewrite omap_map_None in H.
  - intros Hes. apply records_entries; [vm_compute; split; congruence| |];
      (eapply Forall_impl; [exact Hes|]); intros e He; cbn beta in *; unfold in_width; lia.
  - intros (Hop & Hv & Hmax & Hn & Hm).
    pose proof (records_view cellOf cellsOf _ _ _ _ cells_events
      (records_expectMemoryTable name ndebug op Hop m n es Hv Hmax Hn Hm)) as H.
    by rewrite omap_map_None in H.
  - intros _. apply records_reserve.
  - intros _. apply records_ret.
  - intros (Hne & Hv & Hn & Hm). by apply records_writeDiscontiguousPages.
  - intros [Hsp Hes]. apply records_entries; [done| |];
      (eapply Forall_impl; [exact Hes|]); intros e He; cbn beta in *; unfold in_width; lia.
  - intros [Hl Hm]. by apply records_memoryPoll.
  - intros _. apply records_registerPoll.
  - intros _. apply records_writeMMIO.
  - intros _. apply records_ret.
  - intros _. apply records_ret.
  - intros _. apply records_ret.
  - intros _. apply records_contextCreate.
  - done.
  - done.
Qed.
End Calls.

(** ** Simulation *)

Section Simulation.
Context {A : Type} `{!PhysicalAddressAllocator A}.
Variable name : string.
Variable ndebug : bool.

(** When [mT] succeeds on the recording sink with calls the file can represent,
    [mF] succeeds on the file with the same result and tables, and the file says
    what the calls say. *)
Definition sim {B} (mT : M (StreamState A Trace) B) (mF : M (StreamState A AubFileStream) B)
    : Prop :=
  forall t tr b sT, mT (mkStreamState t tr) = Ok (b, sT) ->
  exists calls, sink sT = tr ++ calls
    /\ (Forall callOk calls -> exists ps,
          Forall framed ps /\ concat (map cellsOf ps) = concat (map callCells calls)
          /\ forall s, goodFile name s ->
             mF (mkStreamState t s)
             = Ok (b, mkStreamState (tables sT) (appendFile name (concat ps) s))).

Lemma sim_ret {B} (b : B) : sim (mret b) (mret b).
Proof.
  intros t tr b' sT [= <- <-]. exists []. cbn. split; [by rewrite app_nil_r|]. intros _.
  exists []. split_and!; [done|done|]. intros s Hs. cbn. by rewrite appendFile_nil.
Qed.

Lemma sim_bind {B C} mT mF (kT : B -> M _ C) (kF : B -> M _ C) :
  sim mT mF -> (forall b, sim (kT b) (kF b)) -> sim (mT ≫= kT) (mF ≫= kF).
Proof.
  intros Hm Hk t tr c sT Hrun. unfold mbind, M_bind in Hrun.
  destruct (mT (mkStreamState t tr)) as [[b s1]|] eqn:Em; [|done].
  destruct (Hm _ _ _ _ Em) as (c1 & Hs1 & H1). destruct s1 as [t1 tr1]. cbn in Hs1, H1.
  destruct (Hk b _ _ _ _ Hrun) as (c2 & Hs2 & H2).
  exists (c1 ++ c2). split; [by rewrite Hs2, Hs1, app_assoc|]. intros [Ho1 Ho2]%Forall_app.
  destruct (H1 Ho1) as (ps1 & Hf1 & Hc1 & Hr1). destruct (H2 Ho2) as (ps2 & Hf2 & Hc2 & Hr2).
  exists (ps1 ++ ps2). split_and!; [by apply Forall_app| |].
  - by rewrite !map_app, !concat_app, Hc1, Hc2.
  - intros s Hs. rewrite (run_bind _ _ _ _ _ (Hr1 s Hs)), Hr2 by by apply goodFile_append.
    by rewrite appendFile_app, concat_app.
Qed.

Lemma sim_onTables {B} (m : M (Store A) B) : sim (onTables m) (onTables m).
Proof.
  intros t tr b sT Hrun. unfold onTables in Hrun. cbn in Hrun.
  destruct (m t) as [[b' t']|] eqn:Em; [|done]. injection Hrun as -> <-. exists [].
  cbn. split; [by rewrite app_nil_r|]. intros _. exists []. split_and!; [done|done|].
  intros s Hs. unfold onTables. cbn. rewrite Em. by rewrite appendFile_nil.
Qed.

Lemma sim_runWalk (m : M (WalkState A) unit) : sim (runWalk m) (runWalk m).
Proof.
  intros t tr b sT Hrun. unfold runWalk in Hrun. cbn in Hrun.
  destruct (m _) as [[[] w]|] eqn:Em; [|done]. injection Hrun as <- <-. exists [].
  cbn. split; [by rewrite app_nil_r|]. intros _. exists []. split_and!; [done|done|].
  intros s Hs. unfold runWalk. cbn. rewrite Em. by rewrite appendFile_nil.
Qed.

(** A call of a virtual function; [committed] and reads answer the same. *)
Lemma sim_call c : sim (onSink (record c)) (onSink (runCall ndebug c)).
Proof.
  intros t tr b sT [= <- <-]. exists [c]. split; [done|]. intros Hc%Forall_inv. cbn.
  destruct (records_call name ndebug c Hc) as (ps & Hm & Hf & Hx).
  exists ps. rewrite app_nil_r. split_and!; [done|done|]. intros s Hs. unfold onSink. cbn.
  by rewrite Hm.
Qed.

Lemma sim_read m n es :
  sim (onSink (Sk := Trace) (readDiscontiguousPages m n es))
    (onSink (readDiscontiguousPages (Stream := FileStream ndebug) m n es)).
Proof.
  intros t tr b sT [= <- <-]. exists [ReadDiscontiguousPages n es]. split; [done|]. intros _.
  exists []. split_and!; [done|done|]. intros s Hs. unfold onSink. cbn. by rewrite appendFile_nil.
Qed.

Lemma sim_readMMIO o :
  sim (onSink (Sk := Trace) (readMMIO o)) (onSink (readMMIO (Stream := FileStream ndebug) o)).
Proof.
  intros t tr b sT [= <- <-]. exists [ReadMMIO o]. split; [done|]. intros _.
  exists []. split_and!; [done|done|]. intros s Hs. unfold onSink. cbn. by rewrite appendFile_nil.
Qed.

Lemma sim_writePCICFG o v :
  sim (onSink (Sk := Trace) (writePCICFG o v))
    (onSink (writePCICFG (Stream := FileStream ndebug) o v)).
Proof. exact (sim_call (WritePCICFG o v)). Qed.

Lemma sim_committed :
  sim (onSink (Sk := Trace) arePageTableWritesFullyCommitted)
    (onSink (arePageTableWritesFullyCommitted (Stream := FileStream ndebug))).
Proof.
  intros t tr b sT [= <- <-]. exists []. split; [by rewrite app_nil_r|]. intros _.
  exists []. split_and!; [done|done|]. intros s Hs. unfold onSink. cbn. by rewrite appendFile_nil.
Qed.

Lemma sim_when b mT mF : (b = true -> sim mT mF) -> sim (when b mT) (when b mF).
Proof. intros H. destruct b; [by apply H|apply sim_ret]. Qed.

Lemma sim_cassert b : sim (cassert ndebug b) (cassert ndebug b).
Proof. unfold cassert. destruct (ndebug || b); [apply sim_ret|]. by intros ????. Qed.

Lemma sim_mapM_ {X} (fT fF : X -> M _ unit) l :
  (forall x, sim (fT x) (fF x)) -> sim (mapM_ fT l) (mapM_ fF l).
Proof.
  intros Hf. induction l as [|x l IH]; [apply sim_ret|]. cbn [mapM_]. by apply sim_bind.
Qed.
End Simulation.

(** Goes through an operation call by call. *)
Ltac sim_steps :=
  repeat (intros;
    first [ done
          | apply sim_ret | apply sim_onTables | apply sim_runWalk | apply sim_read
          | apply sim_committed | apply sim_cassert
          | apply (sim_call _ _ (AddComment _))
          | apply (sim_call _ _ (WriteGttPages _))
          | apply (sim_call _ _ (ExpectMemoryTable _ _ _ _))
          | apply (sim_call _ _ (ReserveContiguousPages _))
          | apply (sim_call _ _ (WriteDiscontiguousPages _ _ _ _))
          | apply (sim_call _ _ (WriteDiscontiguousEntries _ _ _))
          | apply (sim_call _ _ (MemoryPoll _ _ _))
          | apply (sim_call _ _ (RegisterPoll _ _ _ _ _))
          | apply (sim_call _ _ (WriteMMIO _ _ _))
          | apply (sim_call _ _ (DeclareContext _ _))
          | apply sim_readMMIO | apply sim_writePCICFG
          | apply sim_when | apply sim_mapM_ | apply sim_bind
          | progress cbv zeta | case_match ]).

(** ** The operations of the base class *)

Inductive StreamOp :=
| OpGttMemoryPoll (ggtt : GGTT) (gfxAddress value compareMode : Z)
| OpExpectMemoryGGTT (ggtt : GGTT) (gfxAddress : Z) (memory : list Z) (size compareOperation : Z)
| OpExpectMemory (ppgtt : loc) (gfxAddress : Z) (memory : list Z) (size compareOperation : Z)
| OpWriteMemoryGGTT (ggtt : GGTT) (gfxAddress : Z) (memory : option (list Z))
    (size memoryBanks hint pageSize : Z)
| OpWriteMemory (ppgtt : loc) (ap : AllocationParams)
| OpMapGpuVa (ppgtt : loc) (ap : AllocationParams) (physicalAddress : Z)
| OpFreeMemory (ppgtt : loc) (gfxAddress size : Z)
| OpCloneMemory (ppgtt : loc) (es : list PageInfo) (ap : AllocationParams)
| OpWriteMemoryAndClonePageTables (ppgtt : loc) (ppgttForCloning : list loc) (gfxAddress : Z)
    (memory : option (list Z)) (size memoryBanks hint pageSize : Z)
| OpWritePhysicalMemoryPages (pointer : Z) (memory : list Z) (size : Z) (es : list PageInfo)
    (hint : Z)
| OpRegisterPoll (registerOffset mask desiredValue : Z) (pollNotEqual : bool) (timeoutAction : Z)
| OpWriteMMIO (offset value mask : Z)
| OpWritePCICFG (offset value : Z)
| OpDeclareContextForDumping (handle : Z) (ppgtt : loc).

Section Operations.
Context {A : Type} `{!PhysicalAddressAllocator A}.
Variable ndebug enablePs64 : bool.
Variable gpu : GpuOps.

Definition runOp {Sk} `{!Stream Sk} (op : StreamOp) : M (StreamState A Sk) unit :=
  match op with
  | OpGttMemoryPoll ggtt a v c => gttMemoryPoll ndebug ggtt a v c
  | OpExpectMemoryGGTT ggtt a m n c => expectMemoryGGTT ndebug ggtt a m n c
  | OpExpectMemory p a m n c => expectMemory ndebug enablePs64 gpu p a m n c
  | OpWriteMemoryGGTT ggtt a m n banks h ps =>
      writeMemoryGGTT ndebug ggtt a m n banks h ps ≫= fun _ => mret tt
  | OpWriteMemory p ap => writeMemory ndebug enablePs64 gpu p ap ≫= fun _ => mret tt
  | OpMapGpuVa p ap phys => mapGpuVa ndebug enablePs64 gpu p ap phys ≫= fun _ => mret tt
  | OpFreeMemory p a n => freeMemory ndebug enablePs64 gpu p a n
  | OpCloneMemory p es ap => cloneMemory ndebug enablePs64 gpu p es ap
  | OpWriteMemoryAndClonePageTables p qs a m n banks h ps =>
      writeMemoryAndClonePageTables ndebug enablePs64 gpu p qs a m n banks h ps
  | OpWritePhysicalMemoryPages ptr m n es h => writePhysicalMemoryPages ptr m n es h
  | OpRegisterPoll o m d n a => onSink (registerPoll o m d n a)
  | OpWriteMMIO o v m => onSink (writeMMIO o v m)
  | OpWritePCICFG o v => onSink (writePCICFG o v)
  | OpDeclareContextForDumping h p => declareContextForDumping h p
  end.

Lemma sim_writePages name k m n h local bits :
  sim name (writePages (A := A) (Sk := Trace) k m n h local bits)
    (writePages (Stream0 := FileStream ndebug) k m n h local bits).
Proof. unfold writePages, writePageWalkEntries. sim_steps. Qed.

Lemma sim_cloneMemory name p es ap :
  sim name (cloneMemory (A := A) (Sk := Trace) ndebug enablePs64 gpu p es ap)
    (cloneMemory (Stream0 := FileStream ndebug) ndebug enablePs64 gpu p es ap).
Proof. unfold cloneMemory. sim_steps; apply sim_writePages. Qed.

Lemma sim_runOp name op :
  sim name (runOp (Sk := Trace) op) (runOp (Stream0 := FileStream ndebug) op).
Proof.
  destruct op; cbn [runOp]; unfold gttMemoryPoll, expectMemoryGGTT, expectMemory, writeMemoryGGTT,
    writeMemory, mapGpuVa, freeMemory, writeMemoryAndClonePageTables, writePhysicalMemoryPages,
    writePpgttLevel1, writePpgttLevel2, declareContextForDumping; sim_steps;
    first [apply sim_writePages | apply sim_cloneMemory].
Qed.
End Operations.

(** C2: The file refines the recording sink: an operation that succeeds there, with
    calls the file can represent, succeeds on the file, leaves the same page
    tables, and the bytes it appends read back as the memory the calls write, in
    order. *)
Theorem fileStream_refines_trace {A} `{!PhysicalAddressAllocator A} ndebug enablePs64 gpu
    name op (t : Store A) sT s :
  runOp ndebug enablePs64 gpu (Sk := Trace) op (mkStreamState t []) = Ok (tt, sT) ->
  Forall callOk (sink sT) -> goodFile name s ->
  exists bytes s',
    runOp ndebug enablePs64 gpu (Stream0 := FileStream ndebug) op (mkStreamState t s)
    = Ok (tt, mkStreamState (tables sT) s')
    /\ goodFile name s' /\ fileBytes name s' = fileBytes name s ++ bytes
    /\ readMemoryImage bytes = Some (concat (map callCells (sink sT))).
Proof.
  intros Hrun Hok Hs.
  destruct (sim_runOp ndebug enablePs64 gpu name op t [] tt sT Hrun) as (calls & Hc & H).
  cbn in Hc. subst calls. destruct (H Hok) as (ps & Hf & Hx & Hr).
  exists (concat ps), (appendFile name (concat ps) s). split_and!.
  - by apply Hr.
  - by apply goodFile_append.
  - apply fileBytes_append.
  - unfold readMemoryImage. rewrite readPackets_concat by done. cbn. by rewrite Hx.
Qed.
