(* ===== verification/EndToEnd.v ===== *)
(** * From a memory write to the replay of the capture file

    The page table walk, the stream and the capture file together: who replays
    the file finds the page tables that translate the written range and the data
    at the addresses they translate to. *)

From S2P Require Import Prelude Allocator MemoryBanks Gpu PageTable TableTheory Walker.
From S2P Require Import WalkerTheory WalkCorrect AubPackets AubStream StreamTheory.
From S2P Require Import AubFileStream FileTheory FileCorrect FileRecords FileSim.
#[local] Open Scope Z_scope.

(** ** Memory described by a table of pages *)

Lemma entryBytes_range e :
  validEntry e -> entryBytes e = map (fun c => Some c.2) (pageRange e).
Proof.
  intros (Hs & Hp & Hb). unfold entryBytes, pageRange, rangeOf. rewrite map_map.
  rewrite (map_seqZ_shift (fun c => Some (toAddressSpace (pi_isLocalMemory e), c).2)).
  apply map_ext_in. intros j Hj%list_elem_of_In%elem_of_seqZ. cbn. f_equal.
  apply wrap_small. unfold in_width. lia.
Qed.

Lemma tableBytes_ranges es :
  Forall validEntry es -> concat (map entryBytes es) = map (fun c => Some c.2) (tableRanges es).
Proof.
  induction 1 as [|e es He _ IH]; [done|]. unfold tableRanges in *. cbn [map concat].
  by rewrite map_app, IH, entryBytes_range.
Qed.

(** Byte [j] of the data is in the image, at the address byte [j] of the table. *)
Lemma image_byte m es j r b :
  Forall validEntry es -> concat (map entryBytes es) !! j = Some r -> m !! j = Some b ->
  exists space phys, r = Some phys /\ (space, phys, b) ∈ image m es.
Proof.
  intros Hv Hb Hm. rewrite tableBytes_ranges in Hb by done.
  rewrite list_lookup_fmap, fmap_Some in Hb. destruct Hb as ([space a] & Ha & ->).
  exists space, a. split; [done|]. apply (list_elem_of_lookup_2 _ j). unfold image.
  change (space, a, b) with ((space, a), b). by apply lookup_zip_Some.
Qed.

Lemma lookup_leBytes n : forall x k, (k < n)%nat ->
  leBytes n x !! k = Some (wrap 8 (x / 256 ^ Z.of_nat k)).
Proof.
  induction n as [|n IH]; intros x [|k] Hk; [lia|lia| |].
  - cbn. by rewrite Z.div_1_r.
  - cbn [leBytes lookup list_lookup]. rewrite IH by lia. do 2 f_equal.
    rewrite Nat2Z.inj_succ, Z.pow_succ_r, Z.div_div by lia. done.
Qed.

(** Byte [k] of an entry is in the image of its call. *)
Lemma entriesImage_byte space es e k :
  e ∈ es -> 0 <= k < 8 ->
  (space, pe_physicalAddress e + k, wrap 8 (pe_tableEntry e / 256 ^ k)) ∈ entriesImage space es.
Proof.
  intros He Hk. unfold entriesImage. apply list_elem_of_In, in_concat.
  exists (entryCells space e). split; [by apply in_map, list_elem_of_In|].
  apply list_elem_of_In, (list_elem_of_lookup_2 _ (Z.to_nat k)). unfold entryCells, rangeOf.
  apply lookup_zip_Some. split.
  - rewrite list_lookup_fmap, lookup_seqZ_lt by lia. cbn. do 2 f_equal. lia.
  - rewrite lookup_leBytes by lia. by rewrite Z2Nat.id by lia.
Qed.

Section EndToEnd.
Context {A : Type} `{AllocatorLaws A}.
Variable ndebug enablePs64 : bool.
Variable gpu : GpuOps.

(** C1: [writeMemory] with data into the capture file, on a well-formed table tree.
    The bytes it appends to the file replay as memory in which every byte of the
    data is at the physical address the page tables translate its graphics
    address to. Every edge of the tables either was there before with the entry
    it has now, or is in its parent's slot as the eight bytes of the child's
    entry: new edges, and with PS64 also the entries of a completed or broken up
    group. For walks that use PS64 no table or page is assumed to hang below two
    slots. The recorded calls are to be ones that the file can represent: physical
    ranges within 64 bits, and a buffer that holds the size given. *)
Theorem capture_replays_writeMemory name t root ap m p0 es sT s :
  wf t -> validRequest (walkStart t) root ap -> memory ap = Some m ->
  heap t !! root = Some p0 -> (numLevels p0 = 5 -> 48 < numAddressBits p0) ->
  writeMemory (Sk := Trace) ndebug enablePs64 gpu root ap (mkStreamState t []) = Ok (es, sT) ->
  Forall callOk (sink sT) -> goodFile name s ->
  exists bytes s' image,
    writeMemory (Stream0 := FileStream ndebug) ndebug enablePs64 gpu root ap (mkStreamState t s)
    = Ok (es, mkStreamState (tables sT) s')
    /\ fileBytes name s' = fileBytes name s ++ bytes
    /\ readMemoryImage bytes = Some image
    /\ (forall j b, 0 <= j < size ap -> m !! Z.to_nat j = Some b ->
         exists space phys,
           translate (Z.to_nat (numLevels p0)) (heap (tables sT)) root (gfxAddress ap + j)
           = Some phys /\ (space, phys, b) ∈ image)
    /\ ((walkPs64 enablePs64 gpu (walkStart t) root ap = true -> unshared (heap t)) ->
        forall l p i c, edge (heap (tables sT)) l p i c -> classLevel (cls p) < numLevels p0 ->
          exists pc, heap (tables sT) !! c = Some pc
          /\ ((exists p1 pc1, edge (heap t) l p1 i c /\ heap t !! c = Some pc1
                 /\ entryValue gpu pc1 = entryValue gpu pc)
              \/ exists space, forall k, 0 <= k < 8 ->
                   (space, u64 (physicalAddress p + u32 i * 8) + k,
                    wrap 8 (entryValue gpu pc / 256 ^ k)) ∈ image)).
Proof.
  intros Hwf Hreq Hmem Hroot H5 Hrun Hok Hs.
  destruct (writeMemory_sends ndebug enablePs64 gpu t [] root ap m p0 Hwf Hreq Hmem Hroot H5)
    as (es1 & s1 & pre & Hrun1 & _ & Hsink & Hbytes & Hedges).
  pose proof (eq_trans (eq_sym Hrun) Hrun1) as Heq. injection Heq as <- <-. cbn [app] in Hsink.
  assert (Hsim : sim name (writeMemory (A := A) (Sk := Trace) ndebug enablePs64 gpu root ap)
    (writeMemory (Stream0 := FileStream ndebug) ndebug enablePs64 gpu root ap))
    by (unfold writeMemory; sim_steps; apply sim_writePages).
  destruct (Hsim t [] es sT Hrun) as (calls & Hc & Hfile). cbn in Hc. subst calls.
  destruct (Hfile Hok) as (ps & Hf & Hx & Hr).
  exists (concat ps), (appendFile name (concat ps) s), (concat (map callCells (sink sT))).
  rewrite Hsink in Hok. apply Forall_app in Hok as [_ (Hne & Hv & Hsz & Hlen)%Forall_inv].
  split_and!; [by apply Hr|apply fileBytes_append| | |].
  - unfold readMemoryImage. rewrite readPackets_concat by done. cbn. by rewrite Hx.
  - intros j b Hj Hb.
    destruct (image_byte m es (Z.to_nat j)
      (translate (Z.to_nat (numLevels p0)) (heap (tables sT)) root (gfxAddress ap + j)) b)
      as (space & phys & Htr & Hin); [done| |done|].
    { rewrite Hbytes, list_lookup_fmap, lookup_seqZ_lt by lia. cbn. by rewrite Z2Nat.id by lia. }
    exists space, phys. split; [done|]. rewrite Hsink, map_app, concat_app.
    apply elem_of_app. right. cbn. by rewrite app_nil_r.
  - intros Hps l p i c He Hlt.
    destruct (Hedges Hps l p i c He Hlt) as (pc & Hpc & [Hold|(es' & sp & h & Hcall & Hin)]);
      exists pc; (split; [done|]); [by left|right].
    exists sp. intros k Hk. rewrite Hsink, map_app, concat_app. apply elem_of_app. left.
    apply list_elem_of_In, in_concat. exists (entriesImage sp es').
    split; [|by apply list_elem_of_In, (entriesImage_byte sp es' _ k Hin)].
    apply in_map_iff. exists (WriteDiscontiguousEntries es' sp h). split; [done|].
    by apply list_elem_of_In.
Qed.
End EndToEnd.

(** ** Concrete instances *)

(** Eight bytes across a page boundary of a five-level table, with PS64. *)
Lemma exWrite_calls :
  exists es sT,
    @writeMemory _ (SimpleAllocatorOps false) _ TraceStream false true exGpu 1%positive exWrite
      (mkStreamState (store exWalk5) []) = Ok (es, sT)
    /\ Forall callOk (sink sT)
    /\ option_map (fun p => (classLevel (cls p), physicalAddress p, tableChild (table p) 0))
         (heap (tables sT) !! (1%positive : loc)) = Some (4, 4096, Some 2%positive).
Proof.
  apply (run_checked _ _ (fun r => Forall callOk (sink r.2)
    /\ option_map (fun p => (classLevel (cls p), physicalAddress p, tableChild (table p) 0))
         (heap (tables r.2) !! (1%positive : loc)) = Some (4, 4096, Some 2%positive))). by vm_compute.
Qed.

Lemma exWrite5_request :
  @validRequest _ (SimpleAllocatorOps false) exLaws (walkStart (store exWalk5)) 1%positive exWrite.
Proof.
  destruct exWalk5_spec as [_ (p & Hp & Hc & Hn)].
  split; unfold exWrite; cbn [gfxAddress size pageSize memoryBanks]; try lia.
  - exists p. rewrite Hc, Hn. split; [exact Hp|]. by split_and!.
  - by left.
  - apply exBank_valid.
Qed.

(** The last byte is where the tables translate it, and the root's first entry
    is in the root's page. *)
Lemma capture_replays_writeMemory_witness :
  walkPs64 true exGpu (walkStart (store exWalk5)) 1%positive exWrite = true
  /\ exists bytes s' image es (sT : StreamState Simple.t Trace),
    @writeMemory _ (SimpleAllocatorOps false) _ (FileStream false) false true exGpu 1%positive
      exWrite (mkStreamState (store exWalk5) exFile) = Ok (es, mkStreamState (tables sT) s')
    /\ fileBytes "a.aub" s' = bytes
    /\ readMemoryImage bytes = Some image
    /\ (exists space phys,
          translate 5 (heap (tables sT)) 1%positive 0x11003 = Some phys
          /\ (space, phys, 8) ∈ image)
    /\ exists pc space, heap (tables sT) !! (2%positive : loc) = Some pc
         /\ (space, 4096, wrap 8 (entryValue exGpu pc)) ∈ image.
Proof.
  split; [by vm_compute|].
  destruct exWalk5_spec as [(Hwf & _) (p & Hp & Hc & Hn)].
  destruct exWrite_calls as (es & sT & Hrun & Hok & Hroot).
  destruct (@capture_replays_writeMemory _ (SimpleAllocatorOps false) exLaws false true exGpu
    "a.aub" (store exWalk5) 1%positive exWrite exData p es sT exFile Hwf exWrite5_request eq_refl Hp)
    as (bytes & s' & image & H1 & H2 & H3 & H4 & H5).
  - intros _. assert (H : option_map numAddressBits (heapOf exWalk5 !! 1%positive) = Some 57)
      by by vm_compute. rewrite Hp in H. injection H as ->. reflexivity.
  - exact Hrun.
  - exact Hok.
  - exact exFile_good.
  - exists bytes, s', image, es, sT. split; [exact H1|]. split; [exact H2|]. split; [exact H3|]. split.
    + destruct (H4 7 8) as (space & phys & Htr & Hin); [split; [discriminate|reflexivity]|reflexivity|].
      rewrite Hn in Htr. exact (ex_intro _ space (ex_intro _ phys (conj Htr Hin))).
    + destruct (heap (tables sT) !! (1%positive : loc)) as [q|] eqn:Hq; [|discriminate Hroot].
      cbn [option_map] in Hroot. injection Hroot as Hlv Ha Hch.
      assert (Hedge : edge (heap (tables sT)) 1%positive q 0 2%positive)
        by exact (conj Hq (conj (Z.le_refl 0) Hch)).
      destruct (H5 (fun _ => exWalk5_unshared) _ _ _ _ Hedge) as (pc & Hpc & [(p1 & pc1 & (Hp1 & _ & He1) & _)|(space & Hin)]).
      * rewrite Hlv, Hn. reflexivity.
      * exfalso. change (heapOf exWalk5 !! (1%positive : loc) = Some p1) in Hp1.
        assert (H : option_map (fun p => tableChild (table p) 0)
          (heapOf exWalk5 !! (1%positive : loc)) = Some None) by by vm_compute.
        rewrite Hp1 in H. cbn [option_map] in H. injection H as H. rewrite H in He1. discriminate He1.
      * exists pc, space. split; [exact Hpc|]. specialize (Hin 0). rewrite Ha in Hin.
        rewrite Z.div_1_r in Hin. apply Hin. split; [discriminate|reflexivity].
Defined.

(** Freeing a page, on the recording sink and on the file. *)
Definition exFree : StreamOp := OpFreeMemory 1%positive 0x13000 4096.

Lemma exFree_calls :
  exists sT,
    @runOp _ (SimpleAllocatorOps false) false false exGpu _ TraceStream exFree
      (mkStreamState (store exWalked) []) = Ok (tt, sT)
    /\ Forall callOk (sink sT).
Proof.
  destruct (run_checked (@runOp _ (SimpleAllocatorOps false) false false exGpu _ TraceStream exFree)
    (mkStreamState (store exWalked) []) (fun r => Forall callOk (sink r.2))) as ([] & sT & H).
  - by vm_compute.
  - by exists sT.
Qed.

Lemma fileStream_refines_trace_witness :
  exists (sT : StreamState Simple.t Trace) bytes s',
    @runOp _ (SimpleAllocatorOps false) false false exGpu _ (FileStream false) exFree
      (mkStreamState (store exWalked) exFile) = Ok (tt, mkStreamState (tables sT) s')
    /\ goodFile "a.aub" s' /\ fileBytes "a.aub" s' = fileBytes "a.aub" exFile ++ bytes
    /\ readMemoryImage bytes = Some (concat (map callCells (sink sT))).
Proof.
  destruct exFree_calls as (sT & Hrun & Hok).
  destruct (@fileStream_refines_trace _ (SimpleAllocatorOps false) false false exGpu "a.aub" exFree
    (store exWalked) sT exFile Hrun Hok exFile_good) as (bytes & s' & H).
  exists sT, bytes, s'. exact H.
Defined.
