(* ===== verification/FencePoll.v ===== *)
(** * Waiting for a fence

    [pollForFenceCompletion] reads the fence of a context until it has the value
    of the last submission: it ends when the device makes progress, and never on
    a stream that cannot read memory back, such as the capture file. *)

From S2P Require Import Prelude Allocator MemoryBanks PageTable TableTheory Walker WalkerTheory.
From S2P Require Import WalkCorrect GlobalTable AubPackets AubStream StreamTheory.
From S2P Require Import CommandStreamer HardwareContext ContextGroups RingTheory RingCorrect RingInit.
From S2P Require Import AubFileStream FileTheory.
#[local] Open Scope Z_scope.

Section Fence.
Context {A : Type} `{!PhysicalAddressAllocator A} {Sk : Type} `{!Stream Sk}.
Variable ndebug : bool.
Variable gpu : GpuOps.
Implicit Types w : World A Sk.

Definition withSink (k : Sk) w : World A Sk := withStream (mkStreamState (tables (stream w)) k) w.

(** The page of the global table that the fence starts, as the piece of it that
    is read; nothing if the table does not map it. *)
Definition fencePiece (c : HardwareContextImp) w : option PageInfo :=
  let a := ggttContextFence (state c) in
  g ← ggtts w !! ggtt c;
  p ← heap (tables (stream w)) !! ggtt_table g;
  l ← tableChild (table p) (a / 4096);
  pc ← heap (tables (stream w)) !! l;
  if (0 <=? a) && (a <? 2 ^ 32) && (a mod 65536 =? 0)
  then Some (mkPageInfo (u64 (physicalAddress pc)) 4 (isLocalMemory pc) 0) else None.

Definition fencePage (c : HardwareContextImp) w (e : PageInfo) : Prop := fencePiece c w = Some e.

Lemma fencePage_parts c w e :
  fencePage c w e ->
  exists g p l pc, ggtts w !! ggtt c = Some g
    /\ heap (tables (stream w)) !! ggtt_table g = Some p
    /\ 0 <= ggttContextFence (state c) < 2 ^ 32
    /\ ggttContextFence (state c) mod 65536 = 0
    /\ tableChild (table p) (ggttContextFence (state c) / 4096) = Some l
    /\ heap (tables (stream w)) !! l = Some pc
    /\ e = mkPageInfo (u64 (physicalAddress pc)) 4 (isLocalMemory pc) 0.
Proof.
  unfold fencePage, fencePiece. cbv zeta.
  intros (g & Hg & (p & Hp & (l & Hl & (pc & Hpc & He)%bind_Some)%bind_Some)%bind_Some)%bind_Some.
  destruct (_ && _ && _) eqn:Hb; [|done]. injection He as <-.
  exists g, p, l, pc. split_and!; try done; lia.
Qed.

Lemma aligned_land a ps : ps = 4096 \/ ps = 65536 -> 0 <= a -> a mod 65536 = 0 -> Z.land a (ps - 1) = 0.
Proof.
  intros Hps Ha Hm. rewrite (land_mod_size a ps) by (unfold pageSizeOk; tauto).
  destruct Hps as [-> | ->]; [|done].
  rewrite (Z.div_mod a 65536), Hm by lia. replace (65536 * (a / 65536) + 0) with (16 * (a / 65536) * 4096) by lia.
  apply Z.mod_mul. lia.
Qed.

(** A read of the fence is one read of the stream. *)
Lemma readFence_run c w e v bytes k :
  fencePage c w e ->
  readDiscontiguousPages (leBytes 4 v) 4 [e] (sink (stream w)) = Ok (bytes, k) ->
  HardwareContextImp.readFence ndebug gpu c v w = Ok (fromLE bytes, withSink k w).
Proof.
  intros (g & p & l & pc & Hg & Hp & Ha & Hal & Hl & Hpc & ->)%fencePage_parts Hread.
  assert (Hwp : wp (HardwareContextImp.readFence ndebug gpu c v)
    (fun x w' => x = fromLE bytes /\ w' = withSink k w) w).
  { unfold HardwareContextImp.readFence, HardwareContextImp.contextPageSize, HardwareContextImp.ggttBank.
    assert (Heta : withStream (mkStreamState (tables (stream w)) (sink (stream w))) w = w)
      by by destruct w as [[]].
    assert (Hbank : forall (Q : Z -> World A Sk -> Prop), Q (memoryBank p) w ->
      wp (g ← getGGTT (ggtt c); p ← onStream (onTables (deref (ggtt_table g))); mret (memoryBank p)) Q w).
    { intros Q HQ. apply wp_bind. eapply wp_getGGTT; [exact Hg|]. apply wp_bind, wp_onStream.
      apply wp_onTables. eapply wp_deref; [exact Hp|]. apply wp_ret. by rewrite Heta. }
    apply wp_bind, wp_bind, Hbank, wp_ret. apply wp_bind, Hbank.
    apply wp_bind. eapply wp_getGGTT; [exact Hg|].
    set (ps := if isMemorySupported gpu (memoryBank p) 65536 then 65536 else 4096).
    assert (Hps : ps = 4096 \/ ps = 65536) by (unfold ps; case_match; auto).
    apply wp_bind, wp_onStream. unfold readMemoryGGTT, ggttWalk, walkMemoryGGTT.
    apply wp_bind, wp_runWalk. change (walkFuel 4) with 2%nat.
    assert (Hoff : Z.land (ggttContextFence (state c)) (ps - 1) = 0) by (apply aligned_land; [done|lia|done]).
    cbn [walkGGTT]. change (0 <? 4) with true. cbv iota. apply wp_bind.
    unfold ggttStep. cbv zeta. rewrite Hoff, (Z.sub_0_r (ggttContextFence (state c))).
    rewrite (wrap_small 32 (ggttContextFence (state c))) by (unfold in_width; lia).
    rewrite getIndex_global by done.
    apply wp_bind. eapply wp_wgetChild; [exact Hp|]. rewrite Hl. apply wp_bind, wp_ret. cbv iota.
    apply wp_bind. eapply wp_wderef; [exact Hpc|].
    rewrite Z.sub_0_r, Z.add_0_r.
    assert (Hmin : Z.min (u64 ps) 4 = 4) by (destruct Hps as [-> | ->]; reflexivity).
    rewrite Hmin. apply wp_bind, wp_modify, wp_ret. cbv iota beta. rewrite Z.sub_diag.
    change (0 <? 0) with false. cbv iota. apply wp_ret. cbn [walker store tables sink entries].
    eapply wp_onSinkRun; [exact Hread|]. apply wp_ret. by split. }
  destruct (wp_run _ _ _ Hwp) as (x & w' & Hrun & -> & ->). exact Hrun.
Qed.
End Fence.

(** The loop, from any value read before. *)
Lemma pollFence_returns {A} `{!PhysicalAddressAllocator A} {Sk} `{!Stream Sk} ndebug gpu c e
    (I : Sk -> Prop) (mu : Sk -> nat) :
  in_width 32 (contextFenceValue (state c)) ->
  (forall k v, I k -> exists bytes k', readDiscontiguousPages (leBytes 4 v) 4 [e] k = Ok (bytes, k')
     /\ I k' /\ (bytes = leBytes 4 (contextFenceValue (state c)) \/ (mu k' < mu k)%nat)) ->
  forall m (w : World A Sk) v, (mu (sink (stream w)) <= m)%nat -> fencePage c w e -> I (sink (stream w)) ->
  exists n k', (n <= S m)%nat
    /\ HardwareContextImp.pollFence ndebug gpu n c v w = Ok (tt, withSink k' w) /\ I k'.
Proof.
  intros Hv Hdev. induction m as [|m IH]; intros w v Hmu Hpage HI;
    destruct (Hdev _ v HI) as (bytes & k' & Hread & HI' & Hcase);
    pose proof (readFence_run ndebug gpu c w e v bytes k' Hpage Hread) as Hrun.
  - destruct Hcase as [-> |Hlt]; [|lia]. exists 1%nat, k'. split; [done|]. split; [|done].
    cbn [HardwareContextImp.pollFence]. unfold mbind, M_bind. rewrite Hrun.
    rewrite fromLE_leBytes by done. by rewrite Z.eqb_refl.
  - destruct (Z.eqb_spec (fromLE bytes) (contextFenceValue (state c))) as [Heq|Hne].
    + exists 1%nat, k'. split; [lia|]. split; [|done].
      cbn [HardwareContextImp.pollFence]. unfold mbind, M_bind. rewrite Hrun.
      by rewrite Heq, Z.eqb_refl.
    + destruct Hcase as [-> |Hlt]; [by rewrite fromLE_leBytes in Hne|].
      destruct (IH (withSink k' w) (fromLE bytes)) as (n & k2 & Hn & Hpoll & HI2);
        [cbn; lia|done|done|].
      exists (S n), k2. split; [lia|]. split; [|done].
      cbn [HardwareContextImp.pollFence]. unfold mbind, M_bind. rewrite Hrun.
      rewrite (proj2 (Z.eqb_neq _ _)) by done. exact Hpoll.
Qed.

Lemma pollFence_stuck {A} `{!PhysicalAddressAllocator A} ndebug gpu c e fuel :
  contextFenceValue (state c) <> 0 ->
  forall (w : World A AubFileStream), fencePage c w e ->
  HardwareContextImp.pollFence (Sk := AubFileStream) (Stream0 := FileStream ndebug) ndebug gpu fuel c 0 w
    = Err OutOfFuel.
Proof.
  intros Hv. induction fuel as [|fuel IH]; intros w Hpage; [done|].
  cbn [HardwareContextImp.pollFence]. unfold mbind, M_bind.
  rewrite (readFence_run (Stream0 := FileStream ndebug) ndebug gpu c w e 0 (leBytes 4 0)
             (sink (stream w)) Hpage eq_refl).
  rewrite fromLE_leBytes by done. rewrite (proj2 (Z.eqb_neq _ _)) by done. by apply IH.
Qed.

(** C27: [pollForFenceCompletion] ends when the device makes progress: if in the states
    [I] each read of the fence either gives the expected value or leads nearer to
    it by the measure [mu], the wait returns after at most [mu] + 1 reads and has
    done nothing but read. *)
Theorem fence_poll_returns {A} `{!PhysicalAddressAllocator A} {Sk} `{!Stream Sk} ndebug gpu this
    (w : World A Sk) c e (I : Sk -> Prop) (mu : Sk -> nat) :
  objects w !! this = Some c -> fencePage c w e -> in_width 32 (contextFenceValue (state c)) ->
  I (sink (stream w)) ->
  (forall k v, I k -> exists bytes k', readDiscontiguousPages (leBytes 4 v) 4 [e] k = Ok (bytes, k')
     /\ I k' /\ (bytes = leBytes 4 (contextFenceValue (state c)) \/ (mu k' < mu k)%nat)) ->
  exists n k', (n <= S (mu (sink (stream w))))%nat
    /\ HardwareContextImp.pollForFenceCompletion ndebug gpu n this w = Ok (tt, withSink k' w)
    /\ I k'.
Proof.
  intros Hc Hpage Hv HI Hdev.
  destruct (pollFence_returns ndebug gpu c e I mu Hv Hdev _ w 0 (le_n _) Hpage HI)
    as (n & k' & Hn & Hpoll & HI').
  exists n, k'. split; [done|]. split; [|done].
  unfold HardwareContextImp.pollForFenceCompletion, mbind, M_bind, getContext. by rewrite Hc.
Qed.

(** C28: On the capture file, which reads nothing back, [pollForFenceCompletion] of a
    context that was submitted loops for ever: no number of iterations is
    enough. *)
Theorem fence_poll_capture_diverges {A} `{!PhysicalAddressAllocator A} ndebug gpu this
    (w : World A AubFileStream) c e fuel :
  objects w !! this = Some c -> fencePage c w e -> contextFenceValue (state c) <> 0 ->
  HardwareContextImp.pollForFenceCompletion (Sk := AubFileStream) (Stream0 := FileStream ndebug)
    ndebug gpu fuel this w = Err OutOfFuel.
Proof.
  intros Hc Hpage Hv. unfold HardwareContextImp.pollForFenceCompletion, mbind, M_bind, getContext.
  rewrite Hc. by eapply pollFence_stuck.
Qed.

(** ** A concrete context, after a submission *)

#[local] Instance exAllocator : PhysicalAddressAllocator Simple.t := SimpleAllocatorOps false.

Definition exReady {Sk} (k : Sk) : World Simple.t Sk :=
  match HardwareContextImp.initialize false exGpu Z.of_nat 0 exNewWorld
  with
  | Ok (_, w) =>
      match submitAll false exGpu 0 [(0x1000, false)] w with
      | Ok (_, w) => mkWorld (mkStreamState (tables (stream w)) k) (ggtts w) ∅ (objects w) 1
      | Err _ => mkWorld (mkStreamState (tables (stream exNewWorld)) k) [] ∅ ∅ 1
      end
  | Err _ => mkWorld (mkStreamState (tables (stream exNewWorld)) k) [] ∅ ∅ 1
  end.

Definition exReadyContext : HardwareContextImp :=
  default exNewContext (objects (exReady tt) !! 0%nat).

(** A device that writes the fence after some reads. *)
#[local] Instance exDevice : Stream nat := {
  addComment _ := mret tt; writeGttPages _ _ := mret tt; expectMemoryTable _ _ _ _ := mret tt;
  reserveContiguousPages _ := mret tt;
  readDiscontiguousPages memory _ _ k :=
    Ok (match k with O => (leBytes 4 1, O) | S k' => (memory, k') end);
  writeDiscontiguousPages _ _ _ _ := mret tt; writeDiscontiguousEntries _ _ _ := mret tt;
  memoryPoll _ _ _ := mret tt; registerPoll _ _ _ _ _ := mret tt; writeMMIO _ _ _ := mret tt;
  readMMIO _ := mret 0; writePCICFG _ _ := mret tt; readPCICFG _ := mret 0;
  declareContext _ _ := mret tt; dumpBufferBIN _ _ _ _ := mret tt; dumpSurface _ _ _ := mret tt;
  arePageTableWritesFullyCommitted := mret true
}.

Lemma exReady_context {Sk} (k : Sk) : objects (exReady k) !! 0%nat = Some exReadyContext.
Proof. by vm_compute. Qed.

Lemma exReady_fence : contextFenceValue (state exReadyContext) = 1.
Proof. by vm_compute. Qed.

Definition exPiece : PageInfo :=
  default (mkPageInfo 0 0 false 0) (fencePiece exReadyContext (exReady tt)).

Lemma exReady_page {Sk} (k : Sk) : fencePage exReadyContext (exReady k) exPiece.
Proof. by vm_compute. Qed.

(** The device that answers at the fourth read. *)
Lemma fence_poll_returns_witness :
  exists n k', (n <= 4)%nat
    /\ HardwareContextImp.pollForFenceCompletion (Stream0 := exDevice) false exGpu n 0 (exReady 3%nat)
       = Ok (tt, withSink k' (exReady 3%nat)).
Proof.
  destruct (fence_poll_returns false exGpu 0 (exReady 3%nat) exReadyContext exPiece (fun _ => True) id
    (exReady_context 3%nat) (exReady_page 3%nat)) as (n & k' & Hn & Hrun & _).
  - by rewrite exReady_fence.
  - done.
  - intros k v _. rewrite exReady_fence. destruct k as [|k].
    + exists (leBytes 4 1), 0%nat. split_and!; [done|done|by left].
    + exists (leBytes 4 v), k. split_and!; [done|done|right]. unfold id. lia.
  - exists n, k'. exact (conj Hn Hrun).
Defined.

Lemma fence_poll_capture_diverges_witness :
  HardwareContextImp.pollForFenceCompletion (Sk := AubFileStream) (Stream0 := FileStream false)
    false exGpu 1000 0 (exReady exFile) = Err OutOfFuel.
Proof.
  refine (fence_poll_capture_diverges false exGpu 0 (exReady exFile) exReadyContext exPiece 1000
    (exReady_context exFile) (exReady_page exFile) _).
  rewrite exReady_fence. discriminate.
Defined.
