(* ===== verification/TbxSockets.v ===== *)
(** * The connection to the simulator

    [tbx_sockets.h], [tbx_proto.h], [tbx_sockets_imp.h] and [tbx_sockets_imp.cpp]
    (the branches for Linux): the interface the streams use, the messages of the
    HAS protocol that it sends and receives, and the code that sends them. The
    calls of the operating system are the class [SocketApi]. These are the functions
    of one thread; the mutex is in [TbxThreads]. The error texts are left out. *)

From S2P Require Import Prelude AubPackets.
#[local] Open Scope Z_scope.

(** ** The interface

    A read gets the old contents of its target and gives the status and the new
    contents. *)

Class TbxSockets (T : Type) := {
  socketClose : M T unit;
  stillConnected : M T bool;
  socketWriteGTT : Z -> Z -> M T bool;
  socketReadMemory : Z -> list Z -> Z -> bool -> M T (bool * list Z);
  socketWriteMemory : Z -> list Z -> Z -> bool -> M T bool;
  socketReadMMIO : Z -> Z -> M T (bool * Z);
  socketWriteMMIO : Z -> Z -> M T bool;
  socketReadPCICFG : Z -> Z -> Z -> Z -> Z -> M T (bool * Z);
  socketWritePCICFG : Z -> Z -> Z -> Z -> Z -> M T bool
}.

(** ** Messages *)

Definition MEM_TYPE_SYSTEM : Z := 0.
Definition MEM_TYPE_LOCALMEM : Z := 1.

Module HAS_MSG_TYPE.
Definition HAS_MMIO_REQ_TYPE : Z := 0.
Definition HAS_MMIO_RES_TYPE : Z := 1.
Definition HAS_GTT_REQ_TYPE : Z := 2.
Definition HAS_WRITE_DATA_REQ_TYPE : Z := 4.
Definition HAS_READ_DATA_REQ_TYPE : Z := 5.
Definition HAS_READ_DATA_RES_TYPE : Z := 6.
Definition HAS_MARKER_REQ_TYPE : Z := 7.
Definition HAS_MARKER_RES_TYPE : Z := 8.
Definition HAS_CONTROL_REQ_TYPE : Z := 11.
Definition HAS_PCICFG_REQ_TYPE : Z := 14.
Definition HAS_PCICFG_RES_TYPE : Z := 15.
End HAS_MSG_TYPE.
Import HAS_MSG_TYPE.

Definition MSG_TYPE_MMIO : Z := 0.

Module HAS_HDR.
Record t := mk { msg_type : Z; trans_id : Z; size : Z }.
Definition fields (p : t) : list (Z * Z) := [(32, msg_type p); (32, trans_id p); (32, size p)].
Definition sizeOf : Z := 12.
End HAS_HDR.

Module HAS_MMIO_REQ.
Record t := mk { write : Z; size : Z; dev_idx : Z; msg_type : Z; delay : Z; offset : Z; data : Z }.
Definition fields (p : t) : list (Z * Z) :=
  [(1, write p); (3, size p); (2, dev_idx p); (3, msg_type p); (7, 0); (16, delay p);
   (32, offset p); (32, data p)].
Definition sizeOf : Z := 12.
End HAS_MMIO_REQ.

Module HAS_MMIO_RES.
Definition widths : list Z := [32].
Definition sizeOf : Z := 4.
End HAS_MMIO_RES.

Module HAS_GTT64_REQ.
Record t := mk { write : Z; offset : Z; data : Z; data_h : Z }.
Definition fields (p : t) : list (Z * Z) :=
  [(1, write p); (31, 0); (32, offset p); (32, data p); (32, data_h p)].
Definition sizeOf : Z := 16.
End HAS_GTT64_REQ.

Module HAS_WRITE_DATA_REQ.
Record t := mk {
  addr_type : Z; mask_exist : Z; frontdoor : Z; take_ownership : Z; model_owned : Z;
  cacheline_disable : Z; memory_type : Z; address_h : Z; address : Z; size : Z
}.
Definition fields (p : t) : list (Z * Z) :=
  [(1, addr_type p); (1, mask_exist p); (1, frontdoor p); (1, take_ownership p);
   (1, model_owned p); (1, cacheline_disable p); (2, memory_type p); (16, 0);
   (8, address_h p); (32, address p); (32, size p)].
Definition sizeOf : Z := 12.
End HAS_WRITE_DATA_REQ.

Module HAS_WRITE_DATA_EXT_REQ.
Record t := mk { write_req : HAS_WRITE_DATA_REQ.t; address_h : Z }.
Definition fields (p : t) : list (Z * Z) :=
  HAS_WRITE_DATA_REQ.fields (write_req p) ++ [(32, address_h p)].
Definition sizeOf : Z := 16.
End HAS_WRITE_DATA_EXT_REQ.

Module HAS_READ_DATA_REQ.
Record t := mk {
  addr_type : Z; frontdoor : Z; ownership_req : Z; model_owned : Z;
  cacheline_disable : Z; memory_type : Z; address_h : Z; address : Z; size : Z
}.
Definition fields (p : t) : list (Z * Z) :=
  [(1, addr_type p); (1, frontdoor p); (1, ownership_req p); (1, model_owned p);
   (1, cacheline_disable p); (2, memory_type p); (17, 0); (8, address_h p);
   (32, address p); (32, size p)].
Definition sizeOf : Z := 12.
End HAS_READ_DATA_REQ.

Module HAS_READ_DATA_EXT_REQ.
Record t := mk { read_req : HAS_READ_DATA_REQ.t; address_h : Z }.
Definition fields (p : t) : list (Z * Z) :=
  HAS_READ_DATA_REQ.fields (read_req p) ++ [(32, address_h p)].
Definition sizeOf : Z := 16.
End HAS_READ_DATA_EXT_REQ.

Module HAS_READ_DATA_RES.
Definition sizeOf : Z := 12.
End HAS_READ_DATA_RES.

Module HAS_READ_DATA_EXT_RES.
Definition sizeOf : Z := 16.
End HAS_READ_DATA_EXT_RES.

Module HAS_CONTROL_REQ.
Record flags := mkFlags {
  reset : Z; has : Z; rd_on_demand : Z; write_mask : Z; time_adv : Z; async_msg : Z; quit : Z;
  cncry_enb : Z; stime_enb : Z; full_reset : Z; auto_ownership : Z; backdoor_model : Z; flush : Z
}.
(* the values, and which of them are set *)
Record t := mk { values : flags; masks : flags }.
Definition flagFields (f : flags) : list (Z * Z) :=
  [(1, reset f); (1, has f); (1, rd_on_demand f); (1, write_mask f); (1, time_adv f);
   (1, async_msg f); (1, quit f); (1, cncry_enb f); (1, stime_enb f); (1, full_reset f);
   (1, auto_ownership f); (1, backdoor_model f); (1, flush f); (3, 0)].
Definition fields (p : t) : list (Z * Z) := flagFields (values p) ++ flagFields (masks p).
Definition sizeOf : Z := 4.
End HAS_CONTROL_REQ.

Module HAS_PCICFG_REQ.
Record t := mk {
  write : Z; size : Z; bus : Z; device : Z; function : Z; offset : Z; data : Z
}.
Definition fields (p : t) : list (Z * Z) :=
  [(1, write p); (3, size p); (8, bus p); (5, device p); (3, function p); (12, 0);
   (32, offset p); (32, data p)].
Definition sizeOf : Z := 12.
End HAS_PCICFG_REQ.

Module HAS_PCICFG_RES.
Definition widths : list Z := [32].
Definition sizeOf : Z := 4.
End HAS_PCICFG_RES.

(** The members of the union that are sent. *)
Inductive HAS_MSG_BODY :=
| mmio_req (b : HAS_MMIO_REQ.t)
| gtt64_req (b : HAS_GTT64_REQ.t)
| write_req (b : HAS_WRITE_DATA_REQ.t)
| write_ext_req (b : HAS_WRITE_DATA_EXT_REQ.t)
| read_req (b : HAS_READ_DATA_REQ.t)
| read_ext_req (b : HAS_READ_DATA_EXT_REQ.t)
| control_req (b : HAS_CONTROL_REQ.t)
| pcicfg_req (b : HAS_PCICFG_REQ.t)
| emptyBody.

Definition bodyFields (b : HAS_MSG_BODY) : list (Z * Z) :=
  match b with
  | mmio_req b => HAS_MMIO_REQ.fields b
  | gtt64_req b => HAS_GTT64_REQ.fields b
  | write_req b => HAS_WRITE_DATA_REQ.fields b
  | write_ext_req b => HAS_WRITE_DATA_EXT_REQ.fields b
  | read_req b => HAS_READ_DATA_REQ.fields b
  | read_ext_req b => HAS_READ_DATA_EXT_REQ.fields b
  | control_req b => HAS_CONTROL_REQ.fields b
  | pcicfg_req b => HAS_PCICFG_REQ.fields b
  | emptyBody => []
  end.

Definition bodySize (b : HAS_MSG_BODY) : Z :=
  match b with
  | mmio_req _ => HAS_MMIO_REQ.sizeOf
  | gtt64_req _ => HAS_GTT64_REQ.sizeOf
  | write_req _ => HAS_WRITE_DATA_REQ.sizeOf
  | write_ext_req _ => HAS_WRITE_DATA_EXT_REQ.sizeOf
  | read_req _ => HAS_READ_DATA_REQ.sizeOf
  | read_ext_req _ => HAS_READ_DATA_EXT_REQ.sizeOf
  | control_req _ => HAS_CONTROL_REQ.sizeOf
  | pcicfg_req _ => HAS_PCICFG_REQ.sizeOf
  | emptyBody => 0
  end.

Record HAS_MSG := mkMsg { hdr : HAS_HDR.t; u : HAS_MSG_BODY }.

(** The bytes of a message, up to the end of the member. *)
Definition encodeMsg (m : HAS_MSG) : list Z :=
  leBytes (Z.to_nat (HAS_HDR.sizeOf + bodySize (u m)))
    (packBits (HAS_HDR.fields (hdr m) ++ bodyFields (u m))).

(** The header at the start of received bytes. *)
Definition decodeHdr (bytes : list Z) : HAS_HDR.t :=
  match decodeFields [32; 32; 32] (take 12 bytes) with
  | [t; i; s] => HAS_HDR.mk t i s
  | _ => HAS_HDR.mk 0 0 0
  end.

(** The double word behind the header. *)
Definition responseData (bytes : list Z) : Z := fromLE (take 4 (drop 12 bytes)).

(** ** The operating system *)

Class SocketApi (C : Type) := {
  os_socket : M C Z;
  os_connect : Z -> Z -> Z -> M C Z;  (* socket, address, port *)
  os_send : Z -> list Z -> M C Z;     (* socket, bytes *)
  os_recv : Z -> Z -> M C (Z * list Z);  (* socket, length; result and bytes *)
  os_close : Z -> M C unit;           (* shutdown and close *)
  os_sleep : Z -> M C unit;
  os_now : M C Z                      (* in seconds *)
}.

Definition SOCKET_ERROR : Z := -1.
Definition INVALID_SOCKET : Z := -1.
Definition WSAECONNRESET : Z := -1.

Record TbxSocketsImp (C : Type) := mkImp {
  connection : C;
  m_socket : Z;
  transID : Z;
  frontdoorMode : bool;
  lmembar : Z;
  inErrorState : bool;
  throwOnError : bool
}.
Arguments mkImp {C}.
Arguments connection {C}.
Arguments m_socket {C}.
Arguments transID {C}.
Arguments frontdoorMode {C}.
Arguments lmembar {C}.
Arguments inErrorState {C}.
Arguments throwOnError {C}.

Module TbxSocketsImpl.
Section Imp.
Context {C : Type} `{!SocketApi C}.
Variable ndebug : bool.
Implicit Types s : TbxSocketsImp C.

#[local] Abbreviation I := (M (TbxSocketsImp C)).

Definition set_connection (c : C) s := mkImp c (m_socket s) (transID s) (frontdoorMode s) (lmembar s)
  (inErrorState s) (throwOnError s).
Definition set_m_socket (v : Z) s := mkImp (connection s) v (transID s) (frontdoorMode s) (lmembar s)
  (inErrorState s) (throwOnError s).
Definition set_transID (v : Z) s := mkImp (connection s) (m_socket s) v (frontdoorMode s) (lmembar s)
  (inErrorState s) (throwOnError s).
Definition set_frontdoor (v : bool) (l : Z) s := mkImp (connection s) (m_socket s) (transID s) v l
  (inErrorState s) (throwOnError s).
Definition set_lmembar (l : Z) s := set_frontdoor (frontdoorMode s) l s.
Definition set_inErrorState (v : bool) s := mkImp (connection s) (m_socket s) (transID s)
  (frontdoorMode s) (lmembar s) v (throwOnError s).
Definition set_throwOnError (v : bool) s := mkImp (connection s) (m_socket s) (transID s)
  (frontdoorMode s) (lmembar s) (inErrorState s) v.

(** The object when it is constructed. *)
Definition newImp (c : C) : TbxSocketsImp C := mkImp c 0 0 false 0 false false.

Definition onOs {B} (m : M C B) : I B :=
  fun s => match m (connection s) with
           | Ok (b, c) => Ok (b, set_connection c s)
           | Err e => Err e
           end.

Definition close : I unit :=
  s ← get;
  when (negb (0 =? m_socket s)) (onOs (os_close (m_socket s)) ≫= fun _ => modify (set_m_socket 0)).

Definition enableThrowOnError (enabled : bool) : I unit := modify (set_throwOnError enabled).

Definition logErrorInfo : I unit :=
  modify (set_inErrorState true) ≫= fun _ => cassert ndebug false.

(** [transID++]. *)
Definition getNextTransID : I Z :=
  t ← gets transID; modify (set_transID (u32 (t + 1))) ≫= fun _ => mret t.

(** The argument [static_cast<int>(n)] of a length; a negative one would be taken
    for a huge one. *)
Definition intLength {B} (n : nat) (m : I B) : I B :=
  if Z.of_nat n <? 2 ^ 31 then m else fail OutOfBounds.

(** The [do] loops; [rest] is what is still to send, [got] what was received. *)
Fixpoint sendLoop (fuel : nat) (rest : list Z) : I bool :=
  match fuel with
  | O => fail OutOfFuel
  | S fuel' =>
      k ← gets m_socket;
      bytesSent ← intLength (length rest) (onOs (os_send k rest));
      if (bytesSent =? 0) || (bytesSent =? WSAECONNRESET) then
        logErrorInfo ≫= fun _ => modify (set_inErrorState true) ≫= fun _ => mret false
      else if bytesSent =? SOCKET_ERROR then
        logErrorInfo ≫= fun _ => modify (set_inErrorState true) ≫= fun _ => mret false
      else
        let rest := drop (Z.to_nat bytesSent) rest in
        match rest with [] => mret true | _ => sendLoop fuel' rest end
  end.

(** A call sends at least a byte: an iteration per byte is enough. *)
Definition sendWriteData (buffer : list Z) (sizeInBytes : Z) : I bool :=
  s ← get;
  if inErrorState s then mret false
  else if Z.of_nat (length buffer) <? sizeInBytes then fail OutOfBounds
  else sendLoop (S (Z.to_nat sizeInBytes)) (take (Z.to_nat sizeInBytes) buffer).

Fixpoint recvLoop (fuel : nat) (got : list Z) (n : nat) : I (bool * list Z) :=
  match fuel with
  | O => fail OutOfFuel
  | S fuel' =>
      k ← gets m_socket;
      r ← intLength (n - length got) (onOs (os_recv k (Z.of_nat (n - length got))));
      if (r.1 =? 0) || (r.1 =? WSAECONNRESET) then
        logErrorInfo ≫= fun _ => modify (set_inErrorState true) ≫= fun _ => mret (false, got)
      else if r.1 =? SOCKET_ERROR then
        logErrorInfo ≫= fun _ => modify (set_inErrorState true) ≫= fun _ => mret (false, got)
      else
        let got := got ++ r.2 in
        if (length got <? n)%nat then recvLoop fuel' got n else mret (true, got)
  end.

(** The status, and the buffer, of which the start was overwritten. *)
Definition getResponseData (buffer : list Z) (sizeInBytes : Z) : I (bool * list Z) :=
  s ← get;
  if inErrorState s then mret (false, buffer)
  else
    r ← recvLoop (S (Z.to_nat sizeInBytes)) [] (Z.to_nat sizeInBytes);
    mret (r.1, r.2 ++ drop (length r.2) buffer).

(** [HAS_MSG resp;] and its first bytes from the connection. *)
Definition getResponse (sizeInBytes : Z) : I (bool * list Z) :=
  getResponseData (replicate (Z.to_nat sizeInBytes) 0) sizeInBytes.

(** The message with its header, sent. *)
Definition sendMsg (msg_type trans_id : Z) (body : HAS_MSG_BODY) : I bool :=
  let cmd := mkMsg (HAS_HDR.mk msg_type trans_id (bodySize body)) body in
  sendWriteData (encodeMsg cmd) (HAS_HDR.sizeOf + bodySize body).

(** The response to the ping of [stillConnected]. *)
Definition markerResponse (t : Z) : I bool :=
  r ← getResponse HAS_HDR.sizeOf;
  if negb r.1 then mret false
  else
    let h := decodeHdr r.2 in
    mret (negb (negb (HAS_HDR.msg_type h =? HAS_MARKER_RES_TYPE)
                || negb (t =? HAS_HDR.trans_id h))).

Definition stillConnected : I bool :=
  t ← getNextTransID;
  success ← (
    ok ← sendMsg HAS_MARKER_REQ_TYPE t emptyBody;
    if negb ok then mret false else markerResponse t);
  s ← get;
  if negb success && throwOnError s
  then fail (StdException "Socket failed ping request to simulator.")
  else mret success.

(** What [readMMIO] and [readPCICFG] share: a request, and the double word of the
    response. *)
Definition dwordResponse (resType t data : Z) : I (bool * Z) :=
  r ← getResponse (HAS_HDR.sizeOf + 4);
  if negb r.1 then mret (false, data)
  else
    let h := decodeHdr r.2 in
    if negb (HAS_HDR.msg_type h =? resType) || negb (t =? HAS_HDR.trans_id h) then
      cassert ndebug false ≫= fun _ => mret (false, 0xdeadbeef)
    else mret (true, responseData r.2).

Definition requestDword (reqType resType : Z) (body : HAS_MSG_BODY) (data : Z) : I (bool * Z) :=
  t ← getNextTransID;
  ok ← sendMsg reqType t body;
  if negb ok then mret (false, data) else dwordResponse resType t data.

Definition readMMIO (offset data : Z) : I (bool * Z) :=
  s ← get;
  if inErrorState s then mret (false, data)
  else
    requestDword HAS_MMIO_REQ_TYPE HAS_MMIO_RES_TYPE
      (mmio_req (HAS_MMIO_REQ.mk 0 4 0 MSG_TYPE_MMIO 0 offset 0)) data.

Definition writeMMIO (offset value : Z) : I bool :=
  t ← getNextTransID;
  sendMsg HAS_MMIO_REQ_TYPE t (mmio_req (HAS_MMIO_REQ.mk 1 4 0 MSG_TYPE_MMIO 0 offset value)).

Definition writePCICFG (bus device function offset value : Z) : I bool :=
  t ← getNextTransID;
  sendMsg HAS_PCICFG_REQ_TYPE t
    (pcicfg_req (HAS_PCICFG_REQ.mk 1 4 bus device function offset value)).

Definition readPCICFG (bus device function offset data : Z) : I (bool * Z) :=
  requestDword HAS_PCICFG_REQ_TYPE HAS_PCICFG_RES_TYPE
    (pcicfg_req (HAS_PCICFG_REQ.mk 0 4 bus device function offset 0)) data.

(** The request of a read, the response, then the data. *)
Definition dataResponse (resSize : Z) (t : Z) (data : list Z) (size : Z) : I (bool * list Z) :=
  r ← getResponse (HAS_HDR.sizeOf + resSize);
  if negb r.1 then mret (false, data)
  else
    let h := decodeHdr r.2 in
    if negb (HAS_HDR.msg_type h =? HAS_READ_DATA_RES_TYPE) || negb (HAS_HDR.trans_id h =? t) then
      cassert ndebug false ≫= fun _ => mret (false, data)
    else getResponseData data size.

Definition readRequest (body : HAS_MSG_BODY) (resSize : Z) (t : Z) (data : list Z) (size : Z)
    : I (bool * list Z) :=
  ok ← sendMsg HAS_READ_DATA_REQ_TYPE t body;
  if negb ok then mret (false, data) else dataResponse resSize t data size.

(** The request of a write, then the data. *)
Definition writeRequest (body : HAS_MSG_BODY) (t : Z) (data : list Z) (size : Z) : I bool :=
  ok ← sendMsg HAS_WRITE_DATA_REQ_TYPE t body;
  if negb ok then mret false else sendWriteData data size.

Definition readMemoryExt (addrOffset : Z) (data : list Z) (size : Z) (isLocalMemory : bool)
    : I (bool * list Z) :=
  t ← getNextTransID;
  s ← get;
  let addrOffset := if isLocalMemory then u64 (addrOffset + lmembar s) else addrOffset in
  readRequest
    (read_ext_req (HAS_READ_DATA_EXT_REQ.mk
       (HAS_READ_DATA_REQ.mk 0 1 0 0 1 MEM_TYPE_SYSTEM 0 (u32 addrOffset) (u32 size))
       (u32 (Z.shiftr addrOffset 32))))
    HAS_READ_DATA_EXT_RES.sizeOf t data size.

Definition readMemory (addrOffset : Z) (data : list Z) (size : Z) (isLocalMemory : bool)
    : I (bool * list Z) :=
  s ← get;
  if frontdoorMode s then readMemoryExt addrOffset data size isLocalMemory
  else
    t ← getNextTransID;
    readRequest
      (read_req (HAS_READ_DATA_REQ.mk 0 0 0 0 0
         (if isLocalMemory then MEM_TYPE_LOCALMEM else MEM_TYPE_SYSTEM)
         (u32 (Z.shiftr addrOffset 32)) (u32 addrOffset) (u32 size)))
      HAS_READ_DATA_RES.sizeOf t data size.

Definition writeMemoryExt (physAddr : Z) (data : list Z) (size : Z) (isLocalMemory : bool) : I bool :=
  t ← getNextTransID;
  s ← get;
  let physAddr := if isLocalMemory then u64 (physAddr + lmembar s) else physAddr in
  writeRequest
    (write_ext_req (HAS_WRITE_DATA_EXT_REQ.mk
       (HAS_WRITE_DATA_REQ.mk 0 0 1 0 0 1 MEM_TYPE_SYSTEM 0 (u32 physAddr) (u32 size))
       (u32 (Z.shiftr physAddr 32))))
    t data size.

Definition writeMemory (physAddr : Z) (data : list Z) (size : Z) (isLocalMemory : bool) : I bool :=
  s ← get;
  if frontdoorMode s then writeMemoryExt physAddr data size isLocalMemory
  else
    t ← getNextTransID;
    writeRequest
      (write_req (HAS_WRITE_DATA_REQ.mk 0 0 0 0 0 0
         (if isLocalMemory then MEM_TYPE_LOCALMEM else MEM_TYPE_SYSTEM)
         (u32 (Z.shiftr physAddr 32)) (u32 physAddr) (u32 size)))
      t data size.

Definition writeGTT (offset entry : Z) : I bool :=
  t ← getNextTransID;
  sendMsg HAS_GTT_REQ_TYPE t
    (gtt64_req (HAS_GTT64_REQ.mk 1 (offset / 8) (u32 (Z.land entry 0xffffffff))
       (u32 (Z.shiftr entry 32)))).

(** ** Opening the connection *)

Section Init.
(* [isalpha] of the first character, [gethostbyname] and [inet_addr] *)
Variable isalpha : Ascii.ascii -> bool.
Variable gethostbyname : string -> option Z.
Variable inet_addr : string -> Z.
(* [TbxConnectionDelayInSeconds], -1 when it is not set *)
Variable TbxConnectionDelayInSeconds : Z.
(* the attempts to connect *)
Variable fuel : nat.

Definition timeoutInSeconds : Z := 60.

(** The attempts; [mret tt] is the [break] or the end of the loop. *)
Fixpoint connectLoop (fuel : nat) (hostNameOrIp : string) (port startTime : Z) : I unit :=
  match fuel with
  | O => fail OutOfFuel
  | S fuel' =>
      first ← from_option_M (StdException "out_of_range") (String.get 0 hostNameOrIp);
      address ← mret (if isalpha first then gethostbyname hostNameOrIp
                      else Some (inet_addr hostNameOrIp));
      match address with
      | None => mret tt
      | Some a =>
          k ← gets m_socket;
          r ← onOs (os_connect k a port);
          if r =? SOCKET_ERROR then
            now ← onOs os_now;
            if u64 (now - startTime) <? timeoutInSeconds
            then connectLoop fuel' hostNameOrIp port startTime
            else logErrorInfo
          else mret tt
      end
  end.

Definition connectToServer (hostNameOrIp : string) (port : Z) : I bool :=
  let delay := if TbxConnectionDelayInSeconds =? -1 then 1 else u32 TbxConnectionDelayInSeconds in
  onOs (os_sleep delay) ≫= fun _ =>
  startTime ← onOs os_now;
  connectLoop fuel hostNameOrIp port startTime ≫= fun _ =>
  s ← get; mret (negb (m_socket s =? 0)).

Definition LMEMBAR_DFLT : Z := 0x000ffff000000000.
Definition LMEMBAR_MASK : Z := 0xfffffffff0000000.

Definition checkServerConfig (frontdoor : bool) : I bool :=
  when frontdoor
    (dataLo ← readPCICFG 0 2 0 0x18 0;
     dataHi ← readPCICFG 0 2 0 0x1C 0;
     let bar := Z.land (Z.lor (Z.shiftl dataHi.2 32) dataLo.2) LMEMBAR_MASK in
     modify (set_lmembar (if bar =? 0 then LMEMBAR_DFLT else bar)) ≫= fun _ =>
     s ← get; modify (set_frontdoor true (lmembar s))) ≫= fun _ =>
  mret true.

(** The control request: no time advance, no asynchronous messages, HAS on. *)
Definition controlMsg : HAS_CONTROL_REQ.t :=
  HAS_CONTROL_REQ.mk
    (HAS_CONTROL_REQ.mkFlags 0 1 0 0 0 0 0 0 0 0 0 0 0)
    (HAS_CONTROL_REQ.mkFlags 0 1 0 0 1 1 0 0 0 0 0 0 0).

Definition init (hostNameOrIp : string) (port : Z) (frontdoor : bool) : I bool :=
  k ← onOs os_socket;
  modify (set_m_socket k) ≫= fun _ =>
  (if k =? INVALID_SOCKET then logErrorInfo
   else
     connected ← connectToServer hostNameOrIp port;
     when connected
       (t ← getNextTransID;
        sendMsg HAS_CONTROL_REQ_TYPE t (control_req controlMsg) ≫= fun _ =>
        checkServerConfig frontdoor ≫= fun _ => mret tt)) ≫= fun _ =>
  s ← get; mret (negb (m_socket s =? INVALID_SOCKET)).
End Init.

#[export] Instance TbxSocketsOverTcp : TbxSockets (TbxSocketsImp C) := {
  socketClose := close;
  stillConnected := stillConnected;
  socketWriteGTT := writeGTT;
  socketReadMemory := readMemory;
  socketWriteMemory := writeMemory;
  socketReadMMIO := readMMIO;
  socketWriteMMIO := writeMMIO;
  socketReadPCICFG := readPCICFG;
  socketWritePCICFG := writePCICFG
}.
End Imp.
End TbxSocketsImpl.
