(* ===== verification/TbxWire.v ===== *)
(** * What goes over the connection

    However the operating system splits the transfers, a request is sent whole and
    reads back, on the other side, as what was asked; a response is received
    whole; and the error state is never left. *)

From S2P Require Import Prelude AubPackets TbxSockets.
Import TbxSocketsImpl HAS_MSG_TYPE.
#[local] Open Scope Z_scope.

(** A connection that is up: [send] takes some of the bytes, [recv] gives some of
    those that the peer has sent, which [peer] gives for all the bytes it got. *)
Class SocketLaws (C : Type) `{!SocketApi C} (peer : list Z -> list Z) := {
  sent : C -> list Z;
  taken : C -> nat;
  send_law k bytes c : bytes <> [] ->
    exists n c', os_send k bytes c = Ok (Z.of_nat n, c')
      /\ (0 < n <= length bytes)%nat /\ sent c' = sent c ++ take n bytes /\ taken c' = taken c;
  recv_law k n c : drop (taken c) (peer (sent c)) <> [] -> 0 < n ->
    exists r c', os_recv k n c
        = Ok ((Z.of_nat r, take r (drop (taken c) (peer (sent c)))), c')
      /\ (0 < r <= length (drop (taken c) (peer (sent c))))%nat /\ Z.of_nat r <= n
      /\ sent c' = sent c /\ taken c' = (taken c + r)%nat
}.

Section Wire.
Context {C : Type} `{!SocketApi C} {peer : list Z -> list Z} `{!SocketLaws C peer}.
Variable ndebug : bool.
Implicit Types s : TbxSocketsImp C.

(** [s'] is [s] after [out] was sent and [n] bytes were received. *)
Definition moved s s' (out : list Z) (n : nat) : Prop :=
  s' = set_connection (connection s') s
  /\ sent (connection s') = sent (connection s) ++ out
  /\ taken (connection s') = (taken (connection s) + n)%nat.

Lemma reaches_refl s : moved s s [] 0.
Proof. split_and!; [by destruct s|by rewrite app_nil_r|lia]. Qed.

Lemma reaches_trans s1 s2 s3 o1 o2 n1 n2 :
  moved s1 s2 o1 n1 -> moved s2 s3 o2 n2 -> moved s1 s3 (o1 ++ o2) (n1 + n2).
Proof.
  intros (E1 & S1 & T1) (E2 & S2 & T2). split_and!.
  - rewrite E2, E1. by destruct s1.
  - by rewrite S2, S1, app_assoc.
  - lia.
Qed.

Lemma reaches_error s s' o n : moved s s' o n -> inErrorState s' = inErrorState s.
Proof. intros (-> & _). done. Qed.

(** What the peer has sent that was not received. *)
Definition incoming s : list Z := drop (taken (connection s)) (peer (sent (connection s))).

Lemma incoming_moved s s' n : moved s s' [] n -> incoming s' = drop n (incoming s).
Proof.
  intros (_ & Hs & Ht). unfold incoming. by rewrite Hs, Ht, app_nil_r, drop_drop.
Qed.

Lemma wp_onOs {B} (m : M C B) Q s b c :
  m (connection s) = Ok (b, c) -> Q b (set_connection c s) -> wp (onOs m) Q s.
Proof. intros Hm HQ. unfold wp, onOs. by rewrite Hm. Qed.

Lemma wp_intLength {B} n (m : M _ B) Q s :
  Z.of_nat n < 2 ^ 31 -> wp m Q s -> wp (intLength n m) Q s.
Proof. intros Hn HQ. unfold intLength. by rewrite (proj2 (Z.ltb_lt _ _) Hn). Qed.

(** ** Sending *)

Lemma wp_sendLoop fuel : forall rest Q s,
  rest <> [] -> (length rest < fuel)%nat -> Z.of_nat (length rest) < 2 ^ 31 ->
  (forall s', moved s s' rest 0 -> Q true s') -> wp (sendLoop ndebug fuel rest) Q s.
Proof.
  induction fuel as [|fuel IH]; intros rest Q s Hne Hf Hi HQ; [lia|]. cbn [sendLoop].
  apply wp_bind, wp_gets, wp_bind, wp_intLength; [done|].
  destruct (send_law (m_socket s) rest (connection s) Hne) as (n & c' & Hs & Hn & Hsent & Htaken).
  eapply wp_onOs; [exact Hs|].
  unfold WSAECONNRESET, SOCKET_ERROR. rewrite !(proj2 (Z.eqb_neq _ _)) by lia. cbn [orb]. cbv iota zeta.
  rewrite Nat2Z.id. set (s1 := set_connection c' s).
  assert (H1 : moved s s1 (take n rest) 0) by (split_and!; [done|done|cbn; lia]).
  destruct (drop n rest) as [|b rest'] eqn:Ed.
  - apply wp_ret, HQ. rewrite <- (take_drop n rest), Ed, app_nil_r. done.
  - rewrite <- Ed. apply IH; [by rewrite Ed|rewrite length_drop; lia|rewrite length_drop; lia|].
    intros s2 H2. apply HQ. pose proof (reaches_trans _ _ _ _ _ _ _ H1 H2) as H. by rewrite take_drop in H.
Qed.

Lemma wp_sendWriteData buffer size Q s :
  inErrorState s = false -> 0 < size < 2 ^ 31 -> size <= Z.of_nat (length buffer) ->
  (forall s', moved s s' (take (Z.to_nat size) buffer) 0 -> Q true s') ->
  wp (sendWriteData ndebug buffer size) Q s.
Proof.
  intros He Hs Hl HQ. unfold sendWriteData. apply wp_bind, wp_get. rewrite He.
  rewrite (proj2 (Z.ltb_ge _ _)) by lia.
  assert (Hlen : length (take (Z.to_nat size) buffer) = Z.to_nat size) by (rewrite length_take; lia).
  apply wp_sendLoop; [|lia|lia|done]. intros H. rewrite H in Hlen. cbn in Hlen. lia.
Qed.

Lemma bodySize_range b : 0 <= bodySize b <= 16.
Proof. destruct b; cbn; split; discriminate. Qed.

Lemma length_encodeMsg m : length (encodeMsg m) = Z.to_nat (12 + bodySize (u m)).
Proof. apply length_leBytes. Qed.

Definition message (msg_type t : Z) (body : HAS_MSG_BODY) : HAS_MSG :=
  mkMsg (HAS_HDR.mk msg_type t (bodySize body)) body.

Lemma wp_sendMsg msg_type t body Q s :
  inErrorState s = false ->
  (forall s', moved s s' (encodeMsg (message msg_type t body)) 0 -> Q true s') ->
  wp (sendMsg ndebug msg_type t body) Q s.
Proof.
  intros He HQ. unfold sendMsg. pose proof (bodySize_range body).
  apply wp_sendWriteData; [done|unfold HAS_HDR.sizeOf; lia| |].
  - rewrite length_encodeMsg. unfold HAS_HDR.sizeOf. cbn [u]. lia.
  - intros s' H'. apply HQ. rewrite take_ge in H'; [done|].
    rewrite length_encodeMsg. unfold HAS_HDR.sizeOf. cbn [u]. lia.
Qed.

(** ** Receiving *)

Lemma wp_recvLoop fuel : forall got n Q s,
  (length got < n)%nat -> (n - length got < fuel)%nat -> Z.of_nat n < 2 ^ 31 ->
  (n - length got <= length (incoming s))%nat ->
  (forall s', moved s s' [] (n - length got) ->
     Q (true, got ++ take (n - length got) (incoming s)) s') ->
  wp (recvLoop ndebug fuel got n) Q s.
Proof.
  induction fuel as [|fuel IH]; intros got n Q s Hg Hf Hi Hin HQ; [lia|]. cbn [recvLoop].
  apply wp_bind, wp_gets, wp_bind, wp_intLength; [lia|].
  destruct (recv_law (m_socket s) (Z.of_nat (n - length got)) (connection s))
    as (r & c' & Hs & Hr & Hrn & Hsent & Htaken).
  { intros H. unfold incoming in Hin. rewrite H in Hin. cbn in Hin. lia. }
  { lia. }
  change (drop (taken (connection s)) (peer (sent (connection s)))) with (incoming s) in *.
  eapply wp_onOs; [exact Hs|]. cbn [fst snd].
  unfold WSAECONNRESET, SOCKET_ERROR. rewrite !(proj2 (Z.eqb_neq _ _)) by lia. cbn [orb]. cbv iota zeta.
  set (s1 := set_connection c' s).
  assert (H1 : moved s s1 [] r) by (split_and!; [done|cbn; by rewrite app_nil_r|cbn; lia]).
  assert (Hlen : length (got ++ take r (incoming s)) = (length got + r)%nat)
    by (rewrite length_app, length_take; lia).
  rewrite Hlen. destruct (Nat.ltb_spec (length got + r) n) as [Hlt|Hge].
  - apply IH; [lia|lia|done| |].
    + rewrite (incoming_moved _ _ _ H1), length_drop. lia.
    + intros s2 H2. pose proof (reaches_trans _ _ _ _ _ _ _ H1 H2) as H. rewrite Hlen in H |- *.
      rewrite (incoming_moved _ _ _ H1), <- app_assoc, take_take_drop.
      replace (r + (n - (length got + r)))%nat with (n - length got)%nat in * by lia. by apply HQ.
  - assert (r = n - length got)%nat as -> by lia. by apply wp_ret, HQ.
Qed.

Lemma wp_getResponseData buffer size Q s :
  inErrorState s = false -> 0 < size < 2 ^ 31 -> size = Z.of_nat (length buffer) ->
  size <= Z.of_nat (length (incoming s)) ->
  (forall s', moved s s' [] (Z.to_nat size) -> Q (true, take (Z.to_nat size) (incoming s)) s') ->
  wp (getResponseData ndebug buffer size) Q s.
Proof.
  intros He Hs Hl Hin HQ. unfold getResponseData. apply wp_bind, wp_get. rewrite He.
  apply wp_bind. apply wp_recvLoop; cbn [length]; rewrite ?Nat.sub_0_r; [lia|lia|lia|lia|].
  intros s' H'. apply wp_ret. cbn [fst snd app].
  rewrite (drop_ge buffer), app_nil_r by (rewrite length_take; lia). by apply HQ.
Qed.
End Wire.

(** ** The other side

    A request for memory, as the simulator reads it from the bytes it receives: the
    header, the fixed part, the high double word of the address in the extended
    form, and behind a write request its data. *)

Record DataRequest := mkDataRequest {
  dr_type : Z; dr_trans_id : Z; dr_frontdoor : Z; dr_memory_type : Z; dr_address : Z; dr_size : Z
}.

Definition writeWidths : list Z := [1; 1; 1; 1; 1; 1; 2; 16; 8; 32; 32].
Definition readWidths : list Z := [1; 1; 1; 1; 1; 2; 17; 8; 32; 32].

Definition decodeRequest (bytes : list Z) : option (DataRequest * list Z) :=
  let h := decodeHdr bytes in
  let fixedPart := take 12 (drop 12 bytes) in
  let extended := HAS_HDR.size h =? 16 in
  let high address_h := if extended then fromLE (take 4 (drop 24 bytes)) else address_h in
  let rest := drop (if extended then 28 else 24) bytes in
  let request frontdoor memory_type address_h address size :=
    Some (mkDataRequest (HAS_HDR.msg_type h) (HAS_HDR.trans_id h) frontdoor memory_type
            (address + 2 ^ 32 * high address_h) size, rest) in
  if HAS_HDR.msg_type h =? HAS_WRITE_DATA_REQ_TYPE then
    match decodeFields writeWidths fixedPart with
    | [_; _; frontdoor; _; _; _; memory_type; _; address_h; address; size] =>
        request frontdoor memory_type address_h address size
    | _ => None
    end
  else if HAS_HDR.msg_type h =? HAS_READ_DATA_REQ_TYPE then
    match decodeFields readWidths fixedPart with
    | [_; frontdoor; _; _; _; memory_type; _; address_h; address; size] =>
        request frontdoor memory_type address_h address size
    | _ => None
    end
  else None.

Lemma drop_leBytes k : forall n x, drop k (leBytes (k + n) x) = leBytes n (x / 2 ^ (8 * Z.of_nat k)).
Proof.
  induction k as [|k IH]; intros n x; [cbn; by rewrite Z.div_1_r|].
  cbn [Nat.add leBytes drop]. rewrite IH. f_equal.
  replace (8 * Z.of_nat (S k)) with (8 + 8 * Z.of_nat k) by lia.
  rewrite Z.pow_add_r by lia. change (2 ^ 8) with 256. rewrite Z.div_div; [done|lia|].
  apply Z.pow_pos_nonneg; lia.
Qed.

(** The bytes behind a prefix of the fields. *)
Lemma drop_packed fs1 fs2 k n :
  Forall (fun f => 0 <= f.1) fs1 -> sumZ (map fst fs1) = 8 * Z.of_nat k ->
  drop k (leBytes (k + n) (packBits (fs1 ++ fs2))) = leBytes n (packBits fs2).
Proof.
  intros Hw Hs. rewrite drop_leBytes, packBits_app, <- Hs by done.
  pose proof (packBits_range fs1 Hw) as Hr. set (m := 2 ^ _) in *.
  rewrite (Z.mul_comm m), Z.div_add, Z.div_small by lia. done.
Qed.

Lemma widths_message m :
  Forall (fun f => 0 <= f.1) (HAS_HDR.fields (hdr m) ++ bodyFields (u m)).
Proof. apply Forall_app. split; [|destruct (u m)]; repeat constructor; done. Qed.

Lemma decodeHdr_message ty t body rest :
  in_width 32 ty -> in_width 32 t ->
  decodeHdr (encodeMsg (message ty t body) ++ rest) = HAS_HDR.mk ty t (bodySize body).
Proof.
  intros Hty Ht. pose proof (bodySize_range body) as Hb. unfold decodeHdr.
  rewrite take_app_le by (rewrite length_encodeMsg; unfold message; cbn [u]; lia).
  unfold encodeMsg, message. cbn [hdr u].
  change [32; 32; 32] with (map fst (HAS_HDR.fields (HAS_HDR.mk ty t (bodySize body)))).
  rewrite decode_prefix.
  - cbn [HAS_HDR.fields map fst snd HAS_HDR.msg_type HAS_HDR.trans_id HAS_HDR.size].
    by rewrite !wrap_small by (try done; unfold in_width; lia).
  - repeat constructor; done.
  - unfold HAS_HDR.sizeOf. lia.
  - done.
Qed.

Lemma body_message ty t body :
  drop 12 (encodeMsg (message ty t body)) = leBytes (Z.to_nat (bodySize body)) (packBits (bodyFields body)).
Proof.
  pose proof (bodySize_range body) as Hb. unfold encodeMsg, message. cbn [hdr u].
  replace (Z.to_nat (HAS_HDR.sizeOf + bodySize body)) with (12 + Z.to_nat (bodySize body))%nat
    by (unfold HAS_HDR.sizeOf; lia).
  apply drop_packed; [repeat constructor; done|done].
Qed.

Lemma decode_fixed ty t body fs1 fs2 rest :
  bodyFields body = fs1 ++ fs2 -> sumZ (map fst fs1) = 96 -> 12 <= bodySize body ->
  decodeFields (map fst fs1) (take 12 (drop 12 (encodeMsg (message ty t body) ++ rest)))
  = map (fun f => wrap f.1 f.2) fs1.
Proof.
  intros Hb Hs Hn. pose proof (widths_message (message ty t body)) as Hw.
  unfold message in Hw. cbn [hdr u] in Hw. rewrite Hb in Hw.
  apply Forall_app in Hw as [_ [Hw _]%Forall_app].
  rewrite drop_app_le by (rewrite length_encodeMsg; unfold message; cbn [u]; lia).
  rewrite body_message, take_app_le by (rewrite length_leBytes; lia).
  rewrite Hb. by apply decode_prefix; [|lia|lia].
Qed.

(** The extended requests end with the high half of the address. *)
Lemma decode_high ty t body fs1 h rest :
  bodyFields body = fs1 ++ [(32, h)] -> sumZ (map fst fs1) = 96 -> bodySize body = 16 ->
  in_width 32 h ->
  fromLE (take 4 (drop 24 (encodeMsg (message ty t body) ++ rest))) = h.
Proof.
  intros Hb Hs Hn Hh. pose proof (widths_message (message ty t body)) as Hw.
  unfold message in Hw. cbn [hdr u] in Hw. rewrite Hb in Hw.
  apply Forall_app in Hw as [_ [Hw _]%Forall_app].
  change 24%nat with (12 + 12)%nat. rewrite <- drop_drop.
  rewrite drop_app_le by (rewrite length_encodeMsg; unfold message; cbn [u]; lia).
  rewrite body_message, drop_app_le by (rewrite length_leBytes; lia).
  rewrite Hb, Hn. change (Z.to_nat 16) with (12 + 4)%nat. rewrite drop_packed by done.
  rewrite take_app_le, take_ge by (rewrite length_leBytes; lia).
  cbn [packBits fst snd]. rewrite Z.mul_0_r, Z.add_0_r, (wrap_small 32 h) by done.
  by apply fromLE_leBytes.
Qed.

(** Where and in which memory the simulator is asked to access. *)
Definition requestAddress {C} (s : TbxSocketsImp C) (addr : Z) (isLocalMemory : bool) : Z :=
  if frontdoorMode s then (if isLocalMemory then u64 (addr + lmembar s) else addr)
  else addr mod 2 ^ 40.

Definition requestMemoryType {C} (s : TbxSocketsImp C) (isLocalMemory : bool) : Z :=
  if negb (frontdoorMode s) && isLocalMemory then MEM_TYPE_LOCALMEM else MEM_TYPE_SYSTEM.

Definition requestOf {C} (s : TbxSocketsImp C) (msg_type addr size : Z) (isLocalMemory : bool)
    : DataRequest :=
  mkDataRequest msg_type (transID s) (if frontdoorMode s then 1 else 0)
    (requestMemoryType s isLocalMemory) (requestAddress s addr isLocalMemory) (u32 size).

(** The halves of an address. *)
Lemma split64 a : 0 <= a < 2 ^ 64 -> u32 a + 2 ^ 32 * u32 (Z.shiftr a 32) = a.
Proof.
  intros Ha. rewrite Z.shiftr_div_pow2 by lia. unfold wrap.
  rewrite (Z.mod_small (a / 2 ^ 32)); [pose proof (Z.div_mod a (2 ^ 32)); lia|].
  split; [apply Z.div_pos; lia|apply Z.div_lt_upper_bound; lia].
Qed.

Lemma split40 a : 0 <= a < 2 ^ 64 -> u32 a + 2 ^ 32 * wrap 8 (u32 (Z.shiftr a 32)) = a mod 2 ^ 40.
Proof.
  intros Ha. rewrite Z.shiftr_div_pow2 by lia. unfold wrap.
  rewrite (Z.mod_small (a / 2 ^ 32) (2 ^ 32));
    [|split; [apply Z.div_pos; lia|apply Z.div_lt_upper_bound; lia]].
  change (2 ^ 40) with (2 ^ 32 * 2 ^ 8). rewrite Z.rem_mul_r by lia. lia.
Qed.

Lemma u32_width a : in_width 32 (u32 a).
Proof. apply wrap_range. lia. Qed.

Lemma wrap32_twice a : wrap 32 (u32 a) = u32 a.
Proof. apply wrap_small, u32_width. Qed.

(** The requests that the four functions send. *)
Definition writeBody (frontdoor : bool) (memory_type address size : Z) : HAS_MSG_BODY :=
  if frontdoor then
    write_ext_req (HAS_WRITE_DATA_EXT_REQ.mk
      (HAS_WRITE_DATA_REQ.mk 0 0 1 0 0 1 memory_type 0 (u32 address) (u32 size))
      (u32 (Z.shiftr address 32)))
  else
    write_req (HAS_WRITE_DATA_REQ.mk 0 0 0 0 0 0 memory_type
      (u32 (Z.shiftr address 32)) (u32 address) (u32 size)).

Definition readBody (frontdoor : bool) (memory_type address size : Z) : HAS_MSG_BODY :=
  if frontdoor then
    read_ext_req (HAS_READ_DATA_EXT_REQ.mk
      (HAS_READ_DATA_REQ.mk 0 1 0 0 1 memory_type 0 (u32 address) (u32 size))
      (u32 (Z.shiftr address 32)))
  else
    read_req (HAS_READ_DATA_REQ.mk 0 0 0 0 0 memory_type
      (u32 (Z.shiftr address 32)) (u32 address) (u32 size)).

Section Decode.
Variables (t memory_type address size : Z) (rest : list Z).
Hypothesis Ht : in_width 32 t.
Hypothesis Hm : 0 <= memory_type < 4.
Hypothesis Ha : 0 <= address < 2 ^ 64.

Lemma decode_write frontdoor :
  decodeRequest (encodeMsg (message HAS_WRITE_DATA_REQ_TYPE t
                              (writeBody frontdoor memory_type address size)) ++ rest)
  = Some (mkDataRequest HAS_WRITE_DATA_REQ_TYPE t (if frontdoor then 1 else 0) memory_type
            (if frontdoor then address else address mod 2 ^ 40) (u32 size), rest).
Proof.
  unfold decodeRequest. rewrite decodeHdr_message by done.
  cbn [HAS_HDR.size HAS_HDR.msg_type HAS_HDR.trans_id]. rewrite Z.eqb_refl.
  destruct frontdoor; unfold writeBody.
  - match goal with |- context [write_ext_req (HAS_WRITE_DATA_EXT_REQ.mk ?r ?h)] =>
      rewrite (decode_fixed _ _ (write_ext_req (HAS_WRITE_DATA_EXT_REQ.mk r h))
        (HAS_WRITE_DATA_REQ.fields r) [(32, h)]) by done;
      change (bodySize (write_ext_req (HAS_WRITE_DATA_EXT_REQ.mk r h)) =? 16) with true;
      cbv iota; rewrite (decode_high _ _ _ (HAS_WRITE_DATA_REQ.fields r) h) by (done || apply u32_width);
      rewrite (drop_app_length' (encodeMsg _)) by by rewrite length_encodeMsg
    end.
    cbn -[wrap Z.modulo Z.pow Z.add Z.mul Z.shiftr]. rewrite !wrap32_twice, split64 by done.
    by rewrite (wrap_small 2 memory_type).
  - match goal with |- context [write_req ?r] =>
      rewrite (decode_fixed _ _ (write_req r) (HAS_WRITE_DATA_REQ.fields r) [])
        by (done || by rewrite app_nil_r);
      change (bodySize (write_req r) =? 16) with false; cbv iota;
      rewrite (drop_app_length' (encodeMsg _)) by by rewrite length_encodeMsg
    end.
    cbn -[wrap Z.modulo Z.pow Z.add Z.mul Z.shiftr]. rewrite !wrap32_twice, split40 by done.
    by rewrite (wrap_small 2 memory_type).
Qed.

Lemma decode_read frontdoor :
  decodeRequest (encodeMsg (message HAS_READ_DATA_REQ_TYPE t
                              (readBody frontdoor memory_type address size)) ++ rest)
  = Some (mkDataRequest HAS_READ_DATA_REQ_TYPE t (if frontdoor then 1 else 0) memory_type
            (if frontdoor then address else address mod 2 ^ 40) (u32 size), rest).
Proof.
  unfold decodeRequest. rewrite decodeHdr_message by done.
  cbn [HAS_HDR.size HAS_HDR.msg_type HAS_HDR.trans_id].
  change (HAS_READ_DATA_REQ_TYPE =? HAS_WRITE_DATA_REQ_TYPE) with false. cbv iota. rewrite Z.eqb_refl.
  destruct frontdoor; unfold readBody.
  - match goal with |- context [read_ext_req (HAS_READ_DATA_EXT_REQ.mk ?r ?h)] =>
      rewrite (decode_fixed _ _ (read_ext_req (HAS_READ_DATA_EXT_REQ.mk r h))
        (HAS_READ_DATA_REQ.fields r) [(32, h)]) by done;
      change (bodySize (read_ext_req (HAS_READ_DATA_EXT_REQ.mk r h)) =? 16) with true;
      cbv iota; rewrite (decode_high _ _ _ (HAS_READ_DATA_REQ.fields r) h) by (done || apply u32_width);
      rewrite (drop_app_length' (encodeMsg _)) by by rewrite length_encodeMsg
    end.
    cbn -[wrap Z.modulo Z.pow Z.add Z.mul Z.shiftr]. rewrite !wrap32_twice, split64 by done.
    by rewrite (wrap_small 2 memory_type).
  - match goal with |- context [read_req ?r] =>
      rewrite (decode_fixed _ _ (read_req r) (HAS_READ_DATA_REQ.fields r) [])
        by (done || by rewrite app_nil_r);
      change (bodySize (read_req r) =? 16) with false; cbv iota;
      rewrite (drop_app_length' (encodeMsg _)) by by rewrite length_encodeMsg
    end.
    cbn -[wrap Z.modulo Z.pow Z.add Z.mul Z.shiftr]. rewrite !wrap32_twice, split40 by done.
    by rewrite (wrap_small 2 memory_type).
Qed.
End Decode.

(** ** Memory requests *)

Section Memory.
Context {C : Type} `{!SocketApi C} {peer : list Z -> list Z} `{!SocketLaws C peer}.
Variable ndebug : bool.
Implicit Types s : TbxSocketsImp C.

(** The address before it is split. *)
Definition barAddress s (addr : Z) (isLocalMemory : bool) : Z :=
  if frontdoorMode s && isLocalMemory then u64 (addr + lmembar s) else addr.

Definition nextTrans s := set_transID (u32 (transID s + 1)) s.

Lemma writeMemory_request addr data size isLocalMemory s :
  writeMemory ndebug addr data size isLocalMemory s
  = writeRequest ndebug (writeBody (frontdoorMode s) (requestMemoryType s isLocalMemory)
      (barAddress s addr isLocalMemory) size) (transID s) data size (nextTrans s).
Proof.
  unfold writeMemory, writeMemoryExt, writeBody, requestMemoryType, barAddress, mbind, M_bind, get.
  destruct (frontdoorMode s) eqn:Ef; cbn [negb andb]; done.
Qed.

Lemma readMemory_request addr data size isLocalMemory s :
  readMemory ndebug addr data size isLocalMemory s
  = readRequest ndebug (readBody (frontdoorMode s) (requestMemoryType s isLocalMemory)
      (barAddress s addr isLocalMemory) size)
      (if frontdoorMode s then HAS_READ_DATA_EXT_RES.sizeOf else HAS_READ_DATA_RES.sizeOf)
      (transID s) data size (nextTrans s).
Proof.
  unfold readMemory, readMemoryExt, readBody, requestMemoryType, barAddress, mbind, M_bind, get.
  destruct (frontdoorMode s) eqn:Ef; cbn [negb andb]; done.
Qed.

Lemma requestMemoryType_range s b : 0 <= requestMemoryType s b < 4.
Proof. unfold requestMemoryType. case_match; split; done. Qed.

Lemma barAddress_range s addr b : 0 <= addr < 2 ^ 64 -> 0 <= barAddress s addr b < 2 ^ 64.
Proof. unfold barAddress. case_match; [|done]. intros _. apply wrap_range. lia. Qed.

Lemma requestAddress_bar s addr b :
  (if frontdoorMode s then barAddress s addr b else barAddress s addr b mod 2 ^ 40)
  = requestAddress s addr b.
Proof. unfold barAddress, requestAddress. by destruct (frontdoorMode s). Qed.

Lemma u32_small n : 0 < n < 2 ^ 31 -> u32 n = n.
Proof. intros Hn. apply wrap_small. unfold in_width. lia. Qed.
End Memory.

(** C25: However the operating system splits the transfers, [writeMemory] succeeds, and
    what it sends reads as the request to write the bytes of the caller at the
    address: at its low 40 bits through the back door, at the address in the bar,
    with all 64 bits, through the front door. *)
Theorem write_reaches_simulator {C} `{!SocketApi C} {peer} `{!SocketLaws C peer} ndebug
    (s : TbxSocketsImp C) addr data size isLocalMemory :
  inErrorState s = false -> in_width 32 (transID s) -> 0 <= addr < 2 ^ 64 ->
  0 < size < 2 ^ 31 -> size <= Z.of_nat (length data) ->
  exists s' request, writeMemory ndebug addr data size isLocalMemory s = Ok (true, s')
    /\ sent (connection s') = sent (connection s) ++ request
    /\ decodeRequest request
       = Some (requestOf s HAS_WRITE_DATA_REQ_TYPE addr size isLocalMemory,
               take (Z.to_nat size) data)
    /\ inErrorState s' = false /\ transID s' = u32 (transID s + 1).
Proof.
  intros He Ht Ha Hs Hl. rewrite writeMemory_request. unfold writeRequest.
  set (body := writeBody _ _ _ _). set (m := encodeMsg (message HAS_WRITE_DATA_REQ_TYPE (transID s) body)).
  assert (Hwp : wp (ok ← sendMsg ndebug HAS_WRITE_DATA_REQ_TYPE (transID s) body;
      if negb ok then mret false else sendWriteData ndebug data size)
    (fun ok s' => ok = true /\ moved (nextTrans s) s' (m ++ take (Z.to_nat size) data) 0) (nextTrans s)).
  { apply wp_bind, wp_sendMsg; [done|]. intros s1 H1. cbn [negb].
    apply wp_sendWriteData; [by rewrite (reaches_error _ _ _ _ H1)|done|done|].
    intros s2 H2. split; [done|]. exact (reaches_trans _ _ _ _ _ _ _ H1 H2). }
  destruct (wp_run _ _ _ Hwp) as (ok & s' & Hrun & -> & Hm).
  exists s', (m ++ take (Z.to_nat size) data). split_and!; [done| | |by rewrite (reaches_error _ _ _ _ Hm)|].
  - apply Hm.
  - unfold m, body. rewrite decode_write;
      [|done|apply requestMemoryType_range|by apply barAddress_range].
    unfold requestOf. by rewrite requestAddress_bar.
  - destruct Hm as (-> & _). done.
Qed.

(** C26: If the simulator answers the request for these bytes with a response of the
    request's number and the data, [readMemory] succeeds, fills the buffer of the
    caller with the data and leaves in the connection what follows. *)
Theorem read_returns_answer {C} `{!SocketApi C} {peer} `{!SocketLaws C peer} ndebug
    (s : TbxSocketsImp C) addr data size isLocalMemory response answer more :
  inErrorState s = false -> in_width 32 (transID s) -> 0 <= addr < 2 ^ 64 ->
  0 < size < 2 ^ 31 -> size = Z.of_nat (length data) ->
  length response = (if frontdoorMode s then 28%nat else 24%nat) ->
  HAS_HDR.msg_type (decodeHdr response) = HAS_READ_DATA_RES_TYPE ->
  HAS_HDR.trans_id (decodeHdr response) = transID s ->
  length answer = length data ->
  (forall request,
     decodeRequest request
     = Some (requestOf s HAS_READ_DATA_REQ_TYPE addr size isLocalMemory, []) ->
     drop (taken (connection s)) (peer (sent (connection s) ++ request))
     = response ++ answer ++ more) ->
  exists s', readMemory ndebug addr data size isLocalMemory s = Ok ((true, answer), s')
    /\ incoming s' = more /\ inErrorState s' = false.
Proof.
  intros He Ht Ha Hs Hl Hr Hty Htr Hlen Hpeer. rewrite readMemory_request. unfold readRequest, dataResponse.
  set (body := readBody _ _ _ _). set (m := encodeMsg (message HAS_READ_DATA_REQ_TYPE (transID s) body)).
  set (resSize := if frontdoorMode s then _ else _).
  assert (Hres : HAS_HDR.sizeOf + resSize = Z.of_nat (length response))
    by (rewrite Hr; unfold resSize; by destruct (frontdoorMode s)).
  assert (Hin : drop (taken (connection s)) (peer (sent (connection s) ++ m)) = response ++ answer ++ more).
  { apply Hpeer. unfold m, body. rewrite <- (app_nil_r (encodeMsg _)), decode_read;
      [|done|apply requestMemoryType_range|by apply barAddress_range].
    unfold requestOf. by rewrite requestAddress_bar. }
  match goal with |- exists s', ?p (nextTrans s) = _ /\ _ =>
    assert (Hwp : wp p (fun r s' => r = (true, answer) /\ incoming s' = more /\ inErrorState s' = false)
      (nextTrans s)) end.
  { apply wp_bind, wp_sendMsg; [done|]. intros s1 H1. cbn [negb]. fold m in H1.
    assert (Hin1 : incoming s1 = response ++ answer ++ more).
    { unfold incoming. destruct H1 as (_ & -> & ->). cbn. by rewrite Nat.add_0_r. }
    assert (He1 : inErrorState s1 = false) by by rewrite (reaches_error _ _ _ _ H1).
    assert (Hpos : 0 < Z.of_nat (length response) < 2 ^ 31) by (rewrite Hr; by destruct (frontdoorMode s)).
    rewrite Hres. apply wp_bind. unfold getResponse.
    apply (wp_getResponseData (peer := peer)); [done|done|by rewrite length_replicate; lia| |].
    { rewrite Hin1, !length_app. lia. }
    intros s2 H2. cbn [fst snd negb]. cbv zeta.
    rewrite Hin1, Nat2Z.id, take_app_length, Hty, Htr, !Z.eqb_refl. cbn [negb orb].
    assert (Hin2 : incoming s2 = answer ++ more).
    { rewrite (incoming_moved _ _ _ H2), Hin1, Nat2Z.id. apply drop_app_length. }
    apply (wp_getResponseData (peer := peer));
      [by rewrite (reaches_error _ _ _ _ H2)|done|done|rewrite Hin2, length_app; lia|].
    intros s3 H3. rewrite (incoming_moved _ _ _ H3), Hin2, (reaches_error _ _ _ _ H3),
      (reaches_error _ _ _ _ H2), Hl, Nat2Z.id, <- Hlen, take_app_length, drop_app_length. done. }
  destruct (wp_run _ _ _ Hwp) as (r & s' & Hrun & -> & Hx). by exists s'.
Qed.

(** ** The error state

    After a failed transfer nothing is sent or received any more. *)
Section ErrorState.
Context {C : Type} `{!SocketApi C}.
Variable ndebug : bool.
Implicit Types s : TbxSocketsImp C.

Lemma sendMsg_error ty t body s : inErrorState s = true -> sendMsg ndebug ty t body s = Ok (false, s).
Proof. intros He. unfold sendMsg, sendWriteData, mbind, M_bind, get. by rewrite He. Qed.

Lemma error_state_silent s : inErrorState s = true ->
  (forall addr data size b, writeMemory ndebug addr data size b s = Ok (false, nextTrans s))
  /\ (forall addr data size b, readMemory ndebug addr data size b s = Ok ((false, data), nextTrans s))
  /\ (forall offset data, readMMIO ndebug offset data s = Ok ((false, data), s))
  /\ (forall offset value, writeMMIO ndebug offset value s = Ok (false, nextTrans s))
  /\ (forall offset entry, writeGTT ndebug offset entry s = Ok (false, nextTrans s))
  /\ stillConnected ndebug s
     = if throwOnError s then Err (StdException "Socket failed ping request to simulator.")
       else Ok (false, nextTrans s).
Proof.
  intros He. assert (Hn : inErrorState (nextTrans s) = true) by done. split_and!; intros.
  - rewrite writeMemory_request. unfold writeRequest, mbind, M_bind. by rewrite sendMsg_error.
  - rewrite readMemory_request. unfold readRequest, mbind, M_bind. by rewrite sendMsg_error.
  - unfold readMMIO, mbind, M_bind, get. by rewrite He.
  - apply (sendMsg_error _ _ _ (nextTrans s) Hn).
  - apply (sendMsg_error _ _ _ (nextTrans s) Hn).
  - unfold stillConnected, mbind, M_bind.
    change (getNextTransID s) with (@Ok (Z * TbxSocketsImp C) (transID s, nextTrans s)). cbv beta iota.
    rewrite (sendMsg_error _ _ _ (nextTrans s) Hn). cbn. by destruct (throwOnError s).
Qed.
End ErrorState.

(** ** A concrete connection

    At most three bytes are sent, and at most five received, at a time; the peer
    answers a read with the numbers from one on. *)

Record ExConn := mkExConn { exSent : list Z; exTaken : nat }.

Definition exPeer (stream : list Z) : list Z :=
  match decodeRequest stream with
  | Some (r, []) =>
      if dr_type r =? HAS_READ_DATA_REQ_TYPE then
        leBytes 4 HAS_READ_DATA_RES_TYPE ++ leBytes 4 (dr_trans_id r) ++ leBytes 4 0
        ++ replicate (if dr_frontdoor r =? 1 then 16 else 12) 0
        ++ seqZ 1 (dr_size r)
      else []
  | _ => []
  end.

#[local] Instance exApi : SocketApi ExConn := {
  os_socket := mret 3;
  os_connect _ _ _ := mret 0;
  os_send _ bytes c :=
    let n := Nat.min 3 (length bytes) in Ok (Z.of_nat n, mkExConn (exSent c ++ take n bytes) (exTaken c));
  os_recv _ n c :=
    let rest := drop (exTaken c) (exPeer (exSent c)) in
    let r := Nat.min (Nat.min 5 (Z.to_nat n)) (length rest) in
    Ok ((Z.of_nat r, take r rest), mkExConn (exSent c) (exTaken c + r));
  os_close _ := mret tt;
  os_sleep _ := mret tt;
  os_now := mret 0
}.

#[local] Program Instance exSocketLaws : SocketLaws ExConn exPeer := { sent := exSent; taken := exTaken }.
Next Obligation.
  intros k bytes c Hne. do 2 eexists. split; [done|]. split_and!; [|lia|done|done].
  destruct bytes; [done|cbn; lia].
Qed.
Next Obligation.
  intros k n c Hne Hn. do 2 eexists. split; [done|]. split_and!; [|lia|lia|done|done].
  destruct (drop _ _); [done|cbn [length]; lia].
Qed.

Definition exImp (frontdoor : bool) : TbxSocketsImp ExConn :=
  mkImp (mkExConn [] 0) 3 7 frontdoor 0x000ffff000000000 false false.

(** Through the front door the local memory is behind the bar. *)
Lemma write_reaches_simulator_witness :
  exists s' request,
    writeMemory false 0x123456789a000 [1; 2; 3; 4; 5] 4 true (exImp true) = Ok (true, s')
    /\ decodeRequest request
       = Some (mkDataRequest HAS_WRITE_DATA_REQ_TYPE 7 1 MEM_TYPE_SYSTEM 0x1123356789a000 4, [1; 2; 3; 4])
    /\ transID s' = 8.
Proof.
  destruct (write_reaches_simulator false (exImp true) 0x123456789a000 [1; 2; 3; 4; 5] 4 true)
    as (s' & request & Hrun & _ & Hd & _ & Ht).
  - reflexivity.
  - split; [discriminate|reflexivity].
  - split; [discriminate|reflexivity].
  - split; reflexivity.
  - discriminate.
  - exists s', request. exact (conj Hrun (conj Hd Ht)).
Defined.

Lemma read_returns_answer_witness :
  exists s', readMemory false 0x1000 [0; 0; 0; 0] 4 true (exImp false) = Ok ((true, [1; 2; 3; 4]), s').
Proof.
  destruct (read_returns_answer false (exImp false) 0x1000 [0; 0; 0; 0] 4 true
    (leBytes 4 HAS_READ_DATA_RES_TYPE ++ leBytes 4 7 ++ leBytes 4 0 ++ replicate 12 0) [1; 2; 3; 4] [])
    as (s' & Hrun & _).
  - reflexivity.
  - split; [discriminate|reflexivity].
  - split; [discriminate|reflexivity].
  - split; reflexivity.
  - reflexivity.
  - reflexivity.
  - reflexivity.
  - reflexivity.
  - reflexivity.
  - intros request Hreq. cbn [connection exImp taken exSocketLaws sent exTaken exSent app drop].
    unfold exPeer. rewrite Hreq. reflexivity.
  - exists s'. exact Hrun.
Defined.
