(* ===== verification/TbxThreads.v ===== *)
(** * Threads that share the connection to the simulator

    The functions of [TbxSocketsImp] as several threads run them: in steps, with
    [socket_mutex] held where [tbx_sockets_imp.cpp] holds it. A function numbers its
    request with [transID++], which is a read and a write; some do so before they
    take the lock. With the lock held a thread sends the request and then receives
    the response, or sends the data. *)

From S2P Require Import Prelude AubPackets TbxSockets TbxWire.
Import TbxSocketsImpl HAS_MSG_TYPE.
#[local] Open Scope Z_scope.

(** ** Operations *)

Inductive SocketOp :=
| StillConnected
| ReadMMIO (offset data : Z)
| WriteMMIO (offset value : Z)
| WritePCICFG (bus device function offset value : Z)
| ReadPCICFG (bus device function offset data : Z)
| ReadMemory (addrOffset : Z) (data : list Z) (size : Z) (isLocalMemory : bool)
| WriteMemory (physAddr : Z) (data : list Z) (size : Z) (isLocalMemory : bool)
| WriteGTT (offset entry : Z).

Inductive SocketResult :=
| Status (success : bool)
| Dword (success : bool) (data : Z)
| Bytes (success : bool) (data : list Z).
#[export] Instance SocketResult_eq_dec : EqDecision SocketResult.
Proof. solve_decision. Defined.

(** The result when nothing could be sent. *)
Definition failed (op : SocketOp) : SocketResult :=
  match op with
  | ReadMMIO _ data | ReadPCICFG _ _ _ _ data => Dword false data
  | ReadMemory _ data _ _ => Bytes false data
  | _ => Status false
  end.

(** Whether [transID++] comes after the lock was taken. *)
Definition numbersUnderLock (op : SocketOp) : bool :=
  match op with
  | StillConnected | ReadMMIO _ _ | WriteMMIO _ _ | WritePCICFG _ _ _ _ _ => true
  | ReadPCICFG _ _ _ _ _ | ReadMemory _ _ _ _ | WriteMemory _ _ _ _ | WriteGTT _ _ => false
  end.

Section Operations.
Context {C : Type} `{!SocketApi C}.
Variable ndebug : bool.
Implicit Types s : TbxSocketsImp C.

#[local] Abbreviation I := (M (TbxSocketsImp C)).

(** [readMMIO] looks at the error state before it takes the lock. *)
Definition refused (op : SocketOp) s : bool :=
  match op with
  | ReadMMIO _ _ => inErrorState s
  | _ => false
  end.

(** The request, of which the members that [init] sets are part. *)
Definition request (op : SocketOp) s : Z * HAS_MSG_BODY :=
  match op with
  | StillConnected => (HAS_MARKER_REQ_TYPE, emptyBody)
  | ReadMMIO offset _ =>
      (HAS_MMIO_REQ_TYPE, mmio_req (HAS_MMIO_REQ.mk 0 4 0 MSG_TYPE_MMIO 0 offset 0))
  | WriteMMIO offset value =>
      (HAS_MMIO_REQ_TYPE, mmio_req (HAS_MMIO_REQ.mk 1 4 0 MSG_TYPE_MMIO 0 offset value))
  | WritePCICFG bus device function offset value =>
      (HAS_PCICFG_REQ_TYPE, pcicfg_req (HAS_PCICFG_REQ.mk 1 4 bus device function offset value))
  | ReadPCICFG bus device function offset _ =>
      (HAS_PCICFG_REQ_TYPE, pcicfg_req (HAS_PCICFG_REQ.mk 0 4 bus device function offset 0))
  | ReadMemory addrOffset _ size isLocalMemory =>
      (HAS_READ_DATA_REQ_TYPE,
       readBody (frontdoorMode s) (requestMemoryType s isLocalMemory)
         (barAddress s addrOffset isLocalMemory) size)
  | WriteMemory physAddr _ size isLocalMemory =>
      (HAS_WRITE_DATA_REQ_TYPE,
       writeBody (frontdoorMode s) (requestMemoryType s isLocalMemory)
         (barAddress s physAddr isLocalMemory) size)
  | WriteGTT offset entry =>
      (HAS_GTT_REQ_TYPE,
       gtt64_req (HAS_GTT64_REQ.mk 1 (offset / 8) (u32 (Z.land entry 0xffffffff))
         (u32 (Z.shiftr entry 32))))
  end.

(** The first step with the lock held: the request is sent. *)
Definition sendPart (op : SocketOp) (t : Z) : I bool :=
  s ← get;
  sendMsg ndebug (request op s).1 t (request op s).2.

(** The second: the response is received, or the data is sent. *)
Definition finishPart (op : SocketOp) (t : Z) : I SocketResult :=
  match op with
  | StillConnected => b ← markerResponse ndebug t; mret (Status b)
  | ReadMMIO _ data => r ← dwordResponse ndebug HAS_MMIO_RES_TYPE t data; mret (Dword r.1 r.2)
  | ReadPCICFG _ _ _ _ data =>
      r ← dwordResponse ndebug HAS_PCICFG_RES_TYPE t data; mret (Dword r.1 r.2)
  | ReadMemory _ data size _ =>
      s ← get;
      r ← dataResponse ndebug
            (if frontdoorMode s then HAS_READ_DATA_EXT_RES.sizeOf else HAS_READ_DATA_RES.sizeOf)
            t data size;
      mret (Bytes r.1 r.2)
  | WriteMemory _ data size _ => b ← sendWriteData ndebug data size; mret (Status b)
  | WriteMMIO _ _ | WritePCICFG _ _ _ _ _ | WriteGTT _ _ => mret (Status true)
  end.

(** What is done with the lock held, but for the numbering. *)
Definition exchange (op : SocketOp) (t : Z) : I SocketResult :=
  ok ← sendPart op t;
  if ok : bool then finishPart op t else mret (failed op).

(** The functions of the source, by operation. *)
Definition runOp (op : SocketOp) : I SocketResult :=
  match op with
  | StillConnected => b ← TbxSocketsImpl.stillConnected ndebug; mret (Status b)
  | ReadMMIO offset data => r ← readMMIO ndebug offset data; mret (Dword r.1 r.2)
  | WriteMMIO offset value => b ← writeMMIO ndebug offset value; mret (Status b)
  | WritePCICFG bus device function offset value =>
      b ← writePCICFG ndebug bus device function offset value; mret (Status b)
  | ReadPCICFG bus device function offset data =>
      r ← readPCICFG ndebug bus device function offset data; mret (Dword r.1 r.2)
  | ReadMemory addrOffset data size isLocalMemory =>
      r ← readMemory ndebug addrOffset data size isLocalMemory; mret (Bytes r.1 r.2)
  | WriteMemory physAddr data size isLocalMemory =>
      b ← writeMemory ndebug physAddr data size isLocalMemory; mret (Status b)
  | WriteGTT offset entry => b ← writeGTT ndebug offset entry; mret (Status b)
  end.

(** The exception of [stillConnected], after the lock was released. *)
Definition throwAfter (op : SocketOp) (r : SocketResult) : I SocketResult :=
  s ← get;
  match op, r with
  | StillConnected, Status false =>
      if throwOnError s then fail (StdException "Socket failed ping request to simulator.")
      else mret r
  | _, _ => mret r
  end.

(** ** What the exchanges touch

    They change the connection and the error state, and do not look at the number
    of the next request, which other threads may change meanwhile. *)

Definition onlyWire s s' : Prop :=
  s' = set_connection (connection s') (set_inErrorState (inErrorState s') s).

Definition wireOp {B} (m : I B) : Prop :=
  forall s v, match m s with
  | Ok (b, s') => onlyWire s s' /\ m (set_transID v s) = Ok (b, set_transID v s')
  | Err e => m (set_transID v s) = Err e
  end.

Lemma onlyWire_refl s : onlyWire s s.
Proof. by destruct s. Qed.
Lemma onlyWire_trans s1 s2 s3 : onlyWire s1 s2 -> onlyWire s2 s3 -> onlyWire s1 s3.
Proof. unfold onlyWire. intros -> ->. by destruct s1. Qed.

Lemma wire_ret {B} (b : B) : wireOp (mret b).
Proof. intros s v. split; [apply onlyWire_refl|done]. Qed.
Lemma wire_fail {B} e : wireOp (fail (A := B) e).
Proof. done. Qed.

Lemma wire_bind {B D} (m : I B) (k : B -> I D) :
  wireOp m -> (forall b, wireOp (k b)) -> wireOp (m ≫= k).
Proof.
  intros Hm Hk s v. specialize (Hm s v). unfold mbind, M_bind.
  destruct (m s) as [[b s1]|e]; [|by rewrite Hm]. destruct Hm as [H1 ->]. specialize (Hk b s1 v).
  destruct (k b s1) as [[d s2]|e]; [|done]. destruct Hk as [H2 ->].
  split; [by eapply onlyWire_trans|done].
Qed.

Lemma wire_get {B} (k : TbxSocketsImp C -> I B) :
  (forall s v, k (set_transID v s) = k s) -> (forall s, wireOp (k s)) -> wireOp (s ← get; k s).
Proof.
  intros Hv Hk s v. unfold mbind, M_bind, get. rewrite Hv. apply Hk.
Qed.

Lemma wire_gets {B} (f : TbxSocketsImp C -> B) :
  (forall s v, f (set_transID v s) = f s) -> wireOp (gets f).
Proof. intros Hf s v. split; [apply onlyWire_refl|]. unfold gets. by rewrite Hf. Qed.

Lemma wire_modify_error b : wireOp (modify (set_inErrorState b)).
Proof. done. Qed.

Lemma wire_onOs {B} (m : M C B) : wireOp (onOs m).
Proof. intros s v. unfold onOs. cbn. destruct (m (connection s)) as [[b c]|e]; done. Qed.

Lemma wire_intLength {B} n (m : I B) : wireOp m -> wireOp (intLength n m).
Proof. unfold intLength. by case_match. Qed.

Lemma wire_cassert b : wireOp (cassert ndebug b).
Proof. unfold cassert. case_match; [apply wire_ret|apply wire_fail]. Qed.

Lemma wire_logErrorInfo : wireOp (logErrorInfo ndebug).
Proof. apply wire_bind; [apply wire_modify_error|intros _; apply wire_cassert]. Qed.

Create HintDb wire.
Hint Resolve wire_ret wire_fail wire_modify_error wire_onOs wire_intLength wire_cassert wire_logErrorInfo
  : wire.

Ltac wire_steps :=
  cbv zeta;
  lazymatch goal with
  | |- forall _, _ => intros ?; wire_steps
  | |- wireOp (if ?b then _ else _) => destruct b; wire_steps
  | |- wireOp (match ?l with [] => _ | _ => _ end) => destruct l; wire_steps
  | |- wireOp _ =>
      first
        [ solve [auto with wire]
        | apply wire_get; [intros; reflexivity|]; wire_steps
        | apply wire_gets; intros; reflexivity
        | apply wire_bind; wire_steps ]
  end.

Lemma wire_sendLoop fuel : forall rest, wireOp (sendLoop ndebug fuel rest).
Proof. induction fuel; intros rest; cbn [sendLoop]; wire_steps. Qed.

Lemma wire_recvLoop fuel : forall got n, wireOp (recvLoop ndebug fuel got n).
Proof. induction fuel; intros got n; cbn [recvLoop]; wire_steps. Qed.
Hint Resolve wire_sendLoop wire_recvLoop : wire.

Lemma wire_sendWriteData buffer n : wireOp (sendWriteData ndebug buffer n).
Proof. unfold sendWriteData. wire_steps. Qed.
Lemma wire_getResponseData buffer n : wireOp (getResponseData ndebug buffer n).
Proof. unfold getResponseData. wire_steps. Qed.
Hint Resolve wire_sendWriteData wire_getResponseData : wire.

Lemma wire_sendPart op t : wireOp (sendPart op t).
Proof. unfold sendPart, sendMsg. apply wire_get; [by intros; destruct op|]. wire_steps. Qed.

Lemma wire_finishPart op t : wireOp (finishPart op t).
Proof.
  destruct op; unfold finishPart, markerResponse, dwordResponse, dataResponse, getResponse; wire_steps.
Qed.

Lemma wire_exchange op t : wireOp (exchange op t).
Proof.
  apply wire_bind; [apply wire_sendPart|]. intros []; [apply wire_finishPart|apply wire_ret].
Qed.

Lemma onlyWire_members s s' : onlyWire s s' ->
  m_socket s' = m_socket s /\ transID s' = transID s /\ frontdoorMode s' = frontdoorMode s
  /\ lmembar s' = lmembar s /\ throwOnError s' = throwOnError s.
Proof. by intros ->. Qed.

Lemma wire_run {B} (m : I B) s b s' : wireOp m -> m s = Ok (b, s') -> onlyWire s s'.
Proof. intros Hm Hr. specialize (Hm s 0). rewrite Hr in Hm. apply Hm. Qed.

(** One thread alone: the steps make up the functions of [TbxSockets]. *)
Lemma runOp_exchange op s :
  runOp op s
  = (s0 ← get;
     if refused op s0 then mret (failed op)
     else t ← getNextTransID; r ← exchange op t; throwAfter op r) s.
Proof.
  assert (Hfr : forall op t s1 s2, sendPart op t s1 = Ok (true, s2) -> frontdoorMode s2 = frontdoorMode s1).
  { intros op' t s1 s2 Hr. apply (wire_run _ _ _ _ (wire_sendPart op' t)), onlyWire_members in Hr. apply Hr. }
  destruct op as [|o d|o v|b d f o v|b d f o d'|a d n l|a d n l|o e]; unfold runOp, refused;
    unfold mbind, M_bind; rewrite ?readMemory_request, ?writeMemory_request;
    unfold TbxSocketsImpl.stillConnected, readMMIO, writeMMIO, writePCICFG, readPCICFG, writeGTT,
      requestDword, readRequest, writeRequest;
    unfold exchange, throwAfter, failed, getNextTransID, mbind, M_bind, mret, M_ret, get, gets, modify, fail;
    cbv beta iota.
  2: destruct (inErrorState s); [done|].
  all: match goal with |- context [sendPart ?op ?t ?s1] => specialize (Hfr op t s1); revert Hfr end.
  all: unfold sendPart, request, requestMemoryType, barAddress, mbind, M_bind, get; cbv beta iota; cbn [fst snd].
  all: change (set_transID (u32 (transID s + 1)) s) with (nextTrans s);
    change (frontdoorMode (nextTrans s)) with (frontdoorMode s);
    change (lmembar (nextTrans s)) with (lmembar s).
  all: match goal with |- context [sendMsg ?a ?b ?c ?d ?e] =>
    destruct (sendMsg a b c d e) as [[[] s1]|] eqn:E; intros Hfr; try done end; cbn [negb].
  all: cbn [finishPart]; unfold mbind, M_bind, get, mret, M_ret; cbv beta iota.
  all: try (rewrite (Hfr s1 eq_refl)).
  1: destruct (markerResponse _ _ s1) as [[[] s2]|]; cbn [negb andb]; [done| |done].
  1: by destruct (throwOnError s2).
  1: by destruct (throwOnError s1).
  all: match goal with
    | |- context [dwordResponse ?a ?b ?c ?d ?e] => by destruct (dwordResponse a b c d e) as [[]|]
    | |- context [dataResponse ?a ?b ?c ?d ?e ?f] => by destruct (dataResponse a b c d e f) as [[]|]
    | |- context [sendWriteData ?a ?b ?c ?d] => by destruct (sendWriteData a b c d) as [[]|]
    end.
Qed.
End Operations.

(** ** Threads

    A thread runs its operations one after the other. Where it is in one of them
    is its [Phase]: it holds the lock and is about to number its request, it read
    [transID], it wrote it back, it sent the request. *)

Inductive Phase :=
| Idle
| Locked (op : SocketOp)
| Loaded (op : SocketOp) (t : Z)
| Numbered (op : SocketOp) (t : Z)
| Sent (op : SocketOp) (t : Z).

Record Thread := mkThread { todo : list SocketOp; phase : Phase }.

(** The object, the holder of [socket_mutex], and the threads. *)
Record Shared (C : Type) := mkShared {
  object : TbxSocketsImp C;
  owner : option nat;
  threads : list Thread
}.
Arguments mkShared {C}.
Arguments object {C}.
Arguments owner {C}.
Arguments threads {C}.

(** A function that returned: who called it, the number its request had, and what
    it returned. *)
Record SocketEvent := mkEvent {
  ev_thread : nat;
  ev_op : SocketOp;
  ev_id : Z;
  ev_result : SocketResult
}.

Section Threads.
Context {C : Type} `{!SocketApi C}.
Variable ndebug : bool.
Implicit Types s : TbxSocketsImp C.
Implicit Types w : Shared C.

#[local] Abbreviation T := (M (Shared C)).

Definition onObject {B} (m : M (TbxSocketsImp C) B) : T B :=
  fun w => match m (object w) with
           | Ok (b, s) => Ok (b, mkShared s (owner w) (threads w))
           | Err e => Err e
           end.

Definition setThread (i : nat) (th : Thread) : T unit :=
  modify (fun w => mkShared (object w) (owner w) (<[i := th]> (threads w))).

Definition setOwner (o : option nat) : T unit :=
  modify (fun w => mkShared (object w) o (threads w)).

(** The next step of thread [i]; a thread that waits for the lock does nothing. *)
Definition threadStep (i : nat) : T (list SocketEvent) :=
  w ← get;
  match threads w !! i with
  | None => mret []
  | Some (mkThread ops ph) =>
      match ph with
      | Idle =>
          match ops with
          | [] => mret []
          | op :: ops =>
              if refused op (object w) then
                setThread i (mkThread ops Idle) ≫= fun _ =>
                mret [mkEvent i op (transID (object w)) (failed op)]
              else if numbersUnderLock op then
                match owner w with
                | None =>
                    setOwner (Some i) ≫= fun _ =>
                    setThread i (mkThread ops (Locked op)) ≫= fun _ => mret []
                | Some _ => mret []
                end
              else
                setThread i (mkThread ops (Loaded op (transID (object w)))) ≫= fun _ => mret []
          end
      | Locked op =>
          setThread i (mkThread ops (Loaded op (transID (object w)))) ≫= fun _ => mret []
      | Loaded op t =>
          onObject (modify (set_transID (u32 (t + 1)))) ≫= fun _ =>
          setThread i (mkThread ops (Numbered op t)) ≫= fun _ => mret []
      | Numbered op t =>
          match owner w with
          | None => setOwner (Some i) ≫= fun _ => mret []
          | Some j =>
              if Nat.eqb j i then
                ok ← onObject (sendPart ndebug op t);
                if ok : bool then setThread i (mkThread ops (Sent op t)) ≫= fun _ => mret []
                else
                  setOwner None ≫= fun _ =>
                  setThread i (mkThread ops Idle) ≫= fun _ => mret [mkEvent i op t (failed op)]
              else mret []
          end
      | Sent op t =>
          r ← onObject (finishPart ndebug op t);
          setOwner None ≫= fun _ =>
          setThread i (mkThread ops Idle) ≫= fun _ => mret [mkEvent i op t r]
      end
  end.

(** The threads' steps in the order that the scheduler chose, and the functions
    that returned, in order. *)
Fixpoint runThreads (schedule : list nat) : T (list SocketEvent) :=
  match schedule with
  | [] => mret []
  | i :: rest => es ← threadStep i; es' ← runThreads rest; mret (es ++ es')
  end.

(** The same exchanges, one after the other. *)
Fixpoint replay (es : list SocketEvent) : M (TbxSocketsImp C) (list SocketResult) :=
  match es with
  | [] => mret []
  | e :: rest => r ← exchange ndebug (ev_op e) (ev_id e); rs ← replay rest; mret (r :: rs)
  end.

(** ** The steps as a relation *)

Definition setTh (i : nat) (ops : list SocketOp) (ph : Phase) (o : option nat) w : Shared C :=
  mkShared (object w) o (<[i := mkThread ops ph]> (threads w)).
Definition setObj s w : Shared C := mkShared s (owner w) (threads w).

Inductive ThreadStep (i : nat) w : list SocketEvent -> Shared C -> Prop :=
| step_wait : ThreadStep i w [] w
| step_refused op ops :
    threads w !! i = Some (mkThread (op :: ops) Idle) -> refused op (object w) = true ->
    ThreadStep i w [mkEvent i op (transID (object w)) (failed op)] (setTh i ops Idle (owner w) w)
| step_lock op ops :
    threads w !! i = Some (mkThread (op :: ops) Idle) -> numbersUnderLock op = true -> owner w = None ->
    ThreadStep i w [] (setTh i ops (Locked op) (Some i) w)
| step_load op ops :
    threads w !! i = Some (mkThread (op :: ops) Idle) -> numbersUnderLock op = false ->
    ThreadStep i w [] (setTh i ops (Loaded op (transID (object w))) (owner w) w)
| step_loadLocked op ops :
    threads w !! i = Some (mkThread ops (Locked op)) ->
    ThreadStep i w [] (setTh i ops (Loaded op (transID (object w))) (owner w) w)
| step_store op t ops :
    threads w !! i = Some (mkThread ops (Loaded op t)) ->
    ThreadStep i w []
      (setTh i ops (Numbered op t) (owner w) (setObj (set_transID (u32 (t + 1)) (object w)) w))
| step_acquire op t ops :
    threads w !! i = Some (mkThread ops (Numbered op t)) -> owner w = None ->
    ThreadStep i w [] (setTh i ops (Numbered op t) (Some i) w)
| step_send op t ops s :
    threads w !! i = Some (mkThread ops (Numbered op t)) -> owner w = Some i ->
    sendPart ndebug op t (object w) = Ok (true, s) ->
    ThreadStep i w [] (setTh i ops (Sent op t) (Some i) (setObj s w))
| step_sendFailed op t ops s :
    threads w !! i = Some (mkThread ops (Numbered op t)) -> owner w = Some i ->
    sendPart ndebug op t (object w) = Ok (false, s) ->
    ThreadStep i w [mkEvent i op t (failed op)] (setTh i ops Idle None (setObj s w))
| step_finish op t ops r s :
    threads w !! i = Some (mkThread ops (Sent op t)) ->
    finishPart ndebug op t (object w) = Ok (r, s) ->
    ThreadStep i w [mkEvent i op t r] (setTh i ops Idle None (setObj s w)).

Lemma threadStep_cases i w es w' : threadStep i w = Ok (es, w') -> ThreadStep i w es w'.
Proof.
  unfold threadStep, setThread, setOwner, onObject, modify, mbind, M_bind, mret, M_ret, get.
  assert (Hid : forall th, threads w !! i = Some th -> <[i := th]> (threads w) = threads w)
    by apply list_insert_id.
  destruct (threads w !! i) as [[ops ph]|] eqn:Hi; [|intros [= <- <-]; constructor].
  destruct ph as [|op|op t|op t|op t].
  - destruct ops as [|op ops]; [intros [= <- <-]; constructor|].
    destruct (refused op (object w)) eqn:Hr; [intros [= <- <-]; by eapply step_refused|].
    destruct (numbersUnderLock op) eqn:Hn; [|intros [= <- <-]; by eapply step_load].
    destruct (owner w) eqn:Ho; intros [= <- <-]; [constructor|by eapply step_lock].
  - intros [= <- <-]. by eapply step_loadLocked.
  - intros [= <- <-]. by eapply step_store.
  - destruct (owner w) as [j|] eqn:Ho.
    + destruct (Nat.eqb_spec j i) as [->|]; [|intros [= <- <-]; constructor].
      destruct (sendPart ndebug op t (object w)) as [[[] s]|] eqn:Hs; [| |done]; rewrite Ho in *;
        intros [= <- <-]; [by eapply step_send|by eapply step_sendFailed].
    + intros [= <- <-]. pose proof (step_acquire i w op t ops Hi Ho) as H.
      unfold setTh in H. by rewrite Hid in H.
  - destruct (finishPart ndebug op t (object w)) as [[r s]|] eqn:Hs; [|done].
    intros [= <- <-]. by eapply step_finish.
Qed.
End Threads.
