(* ===== verification/TbxLinear.v ===== *)
(** * Interleavings of the socket's functions

    Whatever the scheduler does, the exchanges of the threads happen one after the
    other, and every thread gets what its own exchange returned; no interleaving
    leaves the threads waiting for each other. The numbers of the requests are in
    [TbxNumbers]. *)

From S2P Require Import Prelude AubPackets TbxSockets TbxWire TbxThreads.
Import TbxSocketsImpl HAS_MSG_TYPE.
#[local] Open Scope Z_scope.

(** The operation that a thread is in. *)
Definition inFlight (ph : Phase) : list SocketOp :=
  match ph with
  | Idle => []
  | Locked op | Loaded op _ | Numbered op _ | Sent op _ => [op]
  end.

(** Phases that only the holder of the lock is in. *)
Definition inSection (ph : Phase) : bool :=
  match ph with
  | Idle => false
  | Locked _ | Sent _ _ => true
  | Loaded op _ | Numbered op _ => numbersUnderLock op
  end.

Definition sentPhase (ph : Phase) : option (SocketOp * Z) :=
  match ph with Sent op t => Some (op, t) | _ => None end.

Definition opsOf (i : nat) (es : list SocketEvent) : list SocketOp :=
  map ev_op (filter (fun e => ev_thread e = i) es).

Lemma opsOf_app i es1 es2 : opsOf i (es1 ++ es2) = opsOf i es1 ++ opsOf i es2.
Proof. unfold opsOf. by rewrite filter_app, map_app. Qed.

Lemma opsOf_other i j es : Forall (fun e => ev_thread e = i) es -> j <> i -> opsOf j es = [].
Proof.
  intros Hes Hne. unfold opsOf. induction Hes as [|e es He _ IH]; [done|].
  rewrite filter_cons_False; [apply IH|congruence].
Qed.

Section Linear.
Context {C : Type} `{!SocketApi C}.
Variable ndebug : bool.
Implicit Types s : TbxSocketsImp C.
Implicit Types w : Shared C.

(** ** The object, but for the number of the next request *)

Definition sameWire s s' : Prop := s = set_transID (transID s) s'.

Lemma sameWire_refl s : sameWire s s.
Proof. by destruct s. Qed.

Lemma wire_same {B} (m : M (TbxSocketsImp C) B) s s' b s1 :
  wireOp m -> sameWire s s' -> m s' = Ok (b, s1) ->
  m s = Ok (b, set_transID (transID s) s1) /\ sameWire (set_transID (transID s) s1) s1.
Proof.
  intros Hm Hs Hr. specialize (Hm s' (transID s)). rewrite Hr in Hm. destruct Hm as [_ Hm].
  unfold sameWire in *. split; [|done]. rewrite Hs at 1. exact Hm.
Qed.

Lemma sendMsg_ok ty t body s s' :
  sendMsg ndebug ty t body s = Ok (true, s') -> inErrorState s' = inErrorState s /\ inErrorState s = false.
Proof.
  unfold sendMsg, sendWriteData. unfold mbind at 1, M_bind at 1, get. cbv beta iota.
  destruct (inErrorState s) eqn:He; [done|]. case_match; [done|].
  generalize (S (Z.to_nat (HAS_HDR.sizeOf + bodySize body))) as fuel.
  intros fuel Hr. split; [|done]. rewrite <- He. revert Hr. clear He.
  generalize (take (Z.to_nat (HAS_HDR.sizeOf + bodySize body))
    (encodeMsg {| hdr := HAS_HDR.mk ty t (bodySize body); u := body |})) as rest.
  revert s s'. induction fuel as [|fuel IH]; intros s s' rest; cbn [sendLoop]; [done|].
  unfold mbind, M_bind, gets, intLength, onOs, logErrorInfo, modify, cassert, mret, M_ret, fail.
  destruct (Z.of_nat (length rest) <? 2 ^ 31); [|done]. destruct (os_send _ _ _) as [[n c]|]; [|done].
  assert (Hfail : forall s1, (match (if ndebug || false then fun s0 => Ok (tt, s0)
      else fun _ => Err AssertionFailed) s1 with
    | Ok (_, s2) => Ok (false, set_inErrorState true s2) | Err e => Err e end) <> Ok (true, s')).
  { intros s1. by destruct ndebug. }
  destruct ((n =? 0) || (n =? WSAECONNRESET)); [by intros ?%Hfail|].
  destruct (n =? SOCKET_ERROR); [by intros ?%Hfail|].
  destruct (drop _ rest); [by intros [= <-]|]. intros Hr. by apply IH in Hr.
Qed.

Lemma sendPart_ok op t s s' :
  sendPart ndebug op t s = Ok (true, s') -> inErrorState s' = false.
Proof. intros Hr. apply sendMsg_ok in Hr as [-> ->]. done. Qed.

Lemma exchange_error op t s : inErrorState s = true -> exchange ndebug op t s = Ok (failed op, s).
Proof.
  intros He. unfold exchange, sendPart, mbind, M_bind, get. by rewrite sendMsg_error.
Qed.

Lemma replay_app es1 es2 s rs1 s1 rs2 s2 :
  replay ndebug es1 s = Ok (rs1, s1) -> replay ndebug es2 s1 = Ok (rs2, s2) ->
  replay ndebug (es1 ++ es2) s = Ok (rs1 ++ rs2, s2).
Proof.
  revert s rs1. induction es1 as [|e es1 IH]; intros s rs1; cbn [replay app].
  - by intros [= <- <-].
  - unfold mbind, M_bind. destruct (exchange _ _ _ s) as [[r s']|]; [|done].
    destruct (replay ndebug es1 s') as [[rs s'']|] eqn:Hr; [|done].
    intros [= <- <-] H2. by rewrite (IH _ _ Hr H2).
Qed.

Lemma replay_one e s s' : exchange ndebug (ev_op e) (ev_id e) s = Ok (ev_result e, s') ->
  replay ndebug [e] s = Ok ([ev_result e], s').
Proof. intros H. cbn [replay]. unfold mbind, M_bind. by rewrite H. Qed.

(** ** The invariant *)

(** The exchange that was begun. *)
Definition pending w : option (SocketOp * Z) :=
  match owner w with
  | Some i => match threads w !! i with Some th => sentPhase (phase th) | None => None end
  | None => None
  end.

(** The object is where the finished exchanges left it, but for the request that
    the holder of the lock sent. *)
Definition atPoint w s : Prop :=
  match pending w with
  | None => sameWire s (object w)
  | Some (op, t) => sendPart ndebug op t s = Ok (true, set_transID (transID s) (object w))
  end.

(** Who is between lock and unlock holds the lock, and its holder is in an
    operation. *)
Definition lockInv w : Prop :=
  (forall i th, threads w !! i = Some th -> inSection (phase th) = true -> owner w = Some i)
  /\ forall i, owner w = Some i -> exists th, threads w !! i = Some th /\ phase th <> Idle.

Definition pointInv s0 es w : Prop :=
  exists s, replay ndebug es s0 = Ok (map ev_result es, s) /\ atPoint w s.

(** The operations of each thread, returned, begun and still to do. *)
Definition programsOf (es : list SocketEvent) w (i : nat) : option (list SocketOp) :=
  option_map (fun th => opsOf i es ++ inFlight (phase th) ++ todo th) (threads w !! i).

Lemma threads_setTh i ops ph o w th : threads w !! i = Some th ->
  threads (setTh i ops ph o w) !! i = Some (mkThread ops ph)
  /\ forall j, j <> i -> threads (setTh i ops ph o w) !! j = threads w !! j.
Proof.
  intros Hi. cbn [setTh threads]. split.
  - apply list_lookup_insert_eq. by eapply lookup_lt_Some.
  - intros j Hj. by apply list_lookup_insert_ne.
Qed.

Lemma lock_setTh i ops ph o w th :
  lockInv w -> threads w !! i = Some th ->
  o = owner w \/ (owner w = None \/ owner w = Some i) /\ (o = None \/ o = Some i) ->
  (inSection ph = true -> o = Some i) -> (o = Some i -> ph <> Idle) ->
  lockInv (setTh i ops ph o w).
Proof.
  intros [Hs Ho] Hi Hc Hph Hid. destruct (threads_setTh i ops ph o w th Hi) as [Hti Htj]. split.
  - intros j th' Hj Hin. destruct (decide (j = i)) as [->|Hne].
    + rewrite Hti in Hj. injection Hj as <-. by apply Hph.
    + rewrite Htj in Hj by done. specialize (Hs j th' Hj Hin). cbn [owner setTh].
      destruct Hc as [->|[[E|E] _]]; [done| |]; rewrite E in Hs; congruence.
  - cbn [owner setTh]. intros j Hj. destruct (decide (j = i)) as [->|Hne].
    + exists (mkThread ops ph). split; [done|]. by apply Hid.
    + rewrite Htj by done. apply Ho. destruct Hc as [<-|[_ [E|E]]]; [done| |]; congruence.
Qed.

Lemma program_setTh i ops ph o w th es es' (prog : nat -> option (list SocketOp)) :
  (forall j, programsOf es w j = prog j) -> threads w !! i = Some th ->
  Forall (fun e => ev_thread e = i) es' ->
  opsOf i es' ++ inFlight ph ++ ops = inFlight (phase th) ++ todo th ->
  forall j, programsOf (es ++ es') (setTh i ops ph o w) j = prog j.
Proof.
  intros Hp Hi Hes He j. rewrite <- Hp. unfold programsOf.
  destruct (threads_setTh i ops ph o w th Hi) as [Hti Htj]. destruct (decide (j = i)) as [->|Hne].
  - rewrite Hti, Hi. cbn [option_map phase todo]. by rewrite opsOf_app, <- app_assoc, He.
  - rewrite Htj by done. destruct (threads w !! j); [|done]. cbn [option_map].
    by rewrite opsOf_app, (opsOf_other i j es' Hes Hne), app_nil_r.
Qed.

Lemma pending_same i ops ph w th :
  threads w !! i = Some th -> sentPhase (phase th) = None -> sentPhase ph = None ->
  pending (setTh i ops ph (owner w) w) = pending w.
Proof.
  intros Hi Hs Hph. unfold pending. change (owner (setTh i ops ph (owner w) w)) with (owner w).
  destruct (owner w) as [j|]; [|done].
  destruct (threads_setTh i ops ph (Some j) w th Hi) as [Hti Htj].
  destruct (decide (j = i)) as [->|Hne]; [by rewrite Hti, Hi, Hs|by rewrite Htj].
Qed.

Lemma pending_holder i ops ph w th :
  threads w !! i = Some th -> pending (setTh i ops ph (Some i) w) = sentPhase ph.
Proof.
  intros Hi. destruct (threads_setTh i ops ph (Some i) w th Hi) as [Hti _].
  unfold pending. change (owner (setTh i ops ph (Some i) w)) with (Some i). cbv iota beta. by rewrite Hti.
Qed.

Lemma pending_owner i w th :
  owner w = Some i -> threads w !! i = Some th -> pending w = sentPhase (phase th).
Proof. unfold pending. by intros -> ->. Qed.

Lemma pending_free w : owner w = None -> pending w = None.
Proof. unfold pending. by intros ->. Qed.

Lemma pending_setObj i ops ph o s w : pending (setTh i ops ph o (setObj s w)) = pending (setTh i ops ph o w).
Proof. done. Qed.

(** A step that leaves the exchanges alone. *)
Lemma point_quiet s0 es w w' :
  pointInv s0 es w -> pending w' = pending w -> (exists v, object w' = set_transID v (object w)) ->
  pointInv s0 es w'.
Proof.
  intros (s & Hr & Hp) Hpe [v Hv]. exists s. split; [done|]. unfold atPoint in *.
  rewrite Hpe, Hv. destruct (pending w) as [[op t]|]; [done|]. unfold sameWire in *. rewrite Hp at 1. done.
Qed.

(** A finished exchange. *)
Lemma point_event s0 es w' e s s1 :
  replay ndebug es s0 = Ok (map ev_result es, s) ->
  exchange ndebug (ev_op e) (ev_id e) s = Ok (ev_result e, s1) ->
  pending w' = None -> sameWire s1 (object w') -> pointInv s0 (es ++ [e]) w'.
Proof.
  intros Hr He Hp Hs. exists s1. split.
  - rewrite map_app. eapply replay_app; [done|]. by apply replay_one.
  - unfold atPoint. by rewrite Hp.
Qed.

(** ** Every step keeps the invariant *)

Lemma step_lock_inv i w es w' : lockInv w -> ThreadStep ndebug i w es w' -> lockInv w'.
Proof.
  intros Hinv Hst. pose proof Hinv as [Hsec Hown].
  assert (Hidle : forall th, threads w !! i = Some th -> owner w = Some i -> phase th <> Idle).
  { intros th Hi Ho. destruct (Hown i Ho) as (th' & Hi' & Hne). congruence. }
  destruct Hst as [|op ops Hi Hr|op ops Hi Hn Ho|op ops Hi Hn|op ops Hi|op t ops Hi|op t ops Hi Ho
    |op t ops s Hi Ho Hs|op t ops s Hi Ho Hs|op t ops r s Hi Hs]; [done| | | | | | | | |];
    change (lockInv (setTh i ?a ?b ?c (setObj ?s w))) with (lockInv (setTh i a b c w));
    (eapply lock_setTh; [done|exact Hi| | |]); try (by left); try (by auto); try done.
  - intros Ho. by destruct (Hidle _ Hi Ho).
  - cbn [inSection]. by rewrite Hn.
  - intros _. by apply (Hsec i _ Hi).
  - apply (Hsec i _ Hi).
  - right. split; [|by left]. right. by apply (Hsec i _ Hi).
Qed.

Lemma step_program_inv i w es es' w' (prog : nat -> option (list SocketOp)) :
  (forall j, programsOf es w j = prog j) -> ThreadStep ndebug i w es' w' ->
  forall j, programsOf (es ++ es') w' j = prog j.
Proof.
  intros Hp Hst. assert (He : forall e, ev_thread e = i -> opsOf i [e] = [ev_op e]).
  { intros e He. unfold opsOf. by rewrite filter_cons_True. }
  destruct Hst; [by rewrite app_nil_r| | | | | | | | |];
    change (programsOf ?x (setTh i ?a ?b ?c (setObj ?s w))) with (programsOf x (setTh i a b c w));
    (eapply program_setTh; [exact Hp|done|by repeat constructor|]); by rewrite ?He.
Qed.

Lemma step_point_inv s0 i w es es' w' :
  lockInv w -> pointInv s0 es w -> ThreadStep ndebug i w es' w' -> pointInv s0 (es ++ es') w'.
Proof.
  intros Hlk Hpt Hst. pose proof Hlk as [Hsec _].
  assert (Hq : forall w1, pending w1 = pending w -> (exists v, object w1 = set_transID v (object w)) ->
    pointInv s0 (es ++ []) w1) by (intros w1; rewrite app_nil_r; by apply point_quiet).
  assert (Hv : exists v, object w = set_transID v (object w)).
  { exists (transID (object w)). apply sameWire_refl. }
  destruct Hst as [|op ops Hi Hr|op ops Hi Hn Ho|op ops Hi Hn|op ops Hi|op t ops Hi|op t ops Hi Ho
    |op t ops s Hi Ho Hs|op t ops s Hi Ho Hs|op t ops r s Hi Hs].
  - by apply Hq.
  - destruct Hpt as (s & Hrep & Hat). unfold atPoint in Hat.
    assert (He : inErrorState (object w) = true) by by destruct op.
    destruct (pending w) as [[op' t']|] eqn:Hp; [apply sendPart_ok in Hat; cbn in Hat; congruence|].
    eapply point_event; [exact Hrep| |by erewrite pending_same|exact Hat].
    apply exchange_error. rewrite Hat. exact He.
  - apply Hq; [|exact Hv]. erewrite pending_holder by done. symmetry. by apply pending_free.
  - apply Hq; [by erewrite pending_same|exact Hv].
  - apply Hq; [by erewrite pending_same|exact Hv].
  - apply Hq; [|by eexists]. rewrite pending_setObj. by erewrite pending_same.
  - apply Hq; [|exact Hv]. erewrite pending_holder by done. symmetry. by apply pending_free.
  - rewrite app_nil_r. destruct Hpt as (s1 & Hrep & Hat). unfold atPoint in Hat.
    erewrite pending_owner in Hat by done. exists s1. split; [done|]. unfold atPoint.
    rewrite pending_setObj. erewrite pending_holder by done. exact (proj1 (wire_same _ s1 (object w) _ _ (wire_sendPart ndebug op t) Hat Hs)).
  - destruct Hpt as (s1 & Hrep & Hat). unfold atPoint in Hat. erewrite pending_owner in Hat by done.
    destruct (wire_same _ s1 (object w) _ _ (wire_sendPart ndebug op t) Hat Hs) as [Hs1 Hsame].
    eapply point_event; [exact Hrep| |by apply pending_free|exact Hsame].
    unfold exchange, mbind, M_bind. cbn [ev_op ev_id ev_result]. by rewrite Hs1.
  - destruct Hpt as (s1 & Hrep & Hat). unfold atPoint in Hat.
    erewrite pending_owner in Hat by (done || by apply (Hsec i _ Hi)). cbn [phase sentPhase] in Hat.
    assert (Hsame : sameWire (set_transID (transID s1) (object w)) (object w)) by done.
    destruct (wire_same _ _ (object w) _ _ (wire_finishPart ndebug op t) Hsame Hs) as [Hs1 Hsame'].
    eapply point_event; [exact Hrep| |by apply pending_free|exact Hsame'].
    unfold exchange, mbind, M_bind. cbn [ev_op ev_id ev_result]. rewrite Hat. exact Hs1.
Qed.

(** The invariant of a run. *)
Record threadsInv (s0 : TbxSocketsImp C) (prog : nat -> option (list SocketOp)) (es : list SocketEvent) w : Prop := {
  ti_lock : lockInv w;
  ti_point : pointInv s0 es w;
  ti_program : forall i, programsOf es w i = prog i
}.

Lemma runThreads_inv schedule : forall s0 prog es es' w w',
  threadsInv s0 prog es w -> runThreads ndebug schedule w = Ok (es', w') -> threadsInv s0 prog (es ++ es') w'.
Proof.
  induction schedule as [|i schedule IH]; intros s0 prog es es' w w' Hinv; cbn [runThreads].
  - intros [= <- <-]. by rewrite app_nil_r.
  - unfold mbind, M_bind. destruct (threadStep ndebug i w) as [[es1 w1]|] eqn:Hs; [|done].
    destruct (runThreads ndebug schedule w1) as [[es2 w2]|] eqn:Hr; [|done]. intros [= <- <-].
    apply threadStep_cases in Hs. destruct Hinv as [H1 H2 H3]. rewrite app_assoc.
    eapply IH; [|exact Hr]. split; [by eapply step_lock_inv|by eapply step_point_inv|by eapply step_program_inv].
Qed.

(** Before the threads run: nobody holds the lock or is in an operation. *)
Definition atRest w : Prop := owner w = None /\ Forall (fun th => phase th = Idle) (threads w).

Lemma atRest_inv w : atRest w -> threadsInv (object w) (programsOf [] w) [] w.
Proof.
  intros [Ho Hall]. split; [split| |done].
  - intros i th Hi. rewrite Forall_lookup in Hall. by rewrite (Hall i th Hi).
  - intros i. by rewrite Ho.
  - exists (object w). split; [done|]. unfold atPoint. rewrite pending_free by done. apply sameWire_refl.
Qed.

(** C11: However the scheduler interleaves the threads, the exchanges of the functions
    that returned are those of a sequence of exchanges, with the same results, and
    the object is where that sequence leaves it (but for a request that the holder
    of the lock has sent, and for the number of the next request); every thread
    went through its operations in order; and at most one thread is between lock
    and unlock. *)
Theorem threads_linearizable w0 schedule es w :
  atRest w0 -> runThreads ndebug schedule w0 = Ok (es, w) ->
  (exists s, replay ndebug es (object w0) = Ok (map ev_result es, s) /\ atPoint w s)
  /\ (forall i, option_map (fun th => opsOf i es ++ inFlight (phase th) ++ todo th) (threads w !! i)
               = option_map todo (threads w0 !! i))
  /\ forall i j thi thj, threads w !! i = Some thi -> threads w !! j = Some thj ->
       inSection (phase thi) = true -> inSection (phase thj) = true -> i = j.
Proof.
  intros Hrest Hrun.
  pose proof (runThreads_inv _ _ _ [] es w0 w (atRest_inv w0 Hrest) Hrun) as [[Hsec _] Hpt Hpr].
  split_and!; [exact Hpt| |].
  - intros i. specialize (Hpr i). unfold programsOf in Hpr. cbn [app] in Hpr. rewrite Hpr.
    destruct Hrest as [_ Hall]. destruct (threads w0 !! i) as [th|] eqn:Hi; [|done]. cbn [option_map].
    rewrite Forall_lookup in Hall. by rewrite (Hall i th Hi).
  - intros i j thi thj Hi Hj Hsi Hsj. pose proof (Hsec i thi Hi Hsi). pose proof (Hsec j thj Hj Hsj).
    congruence.
Qed.

(** ** No deadlock *)

Definition phaseCost (ph : Phase) : nat :=
  match ph with Idle => 0 | Locked _ => 5 | Loaded _ _ => 4 | Numbered _ _ => 3 | Sent _ _ => 2 end.

Definition threadCost (th : Thread) : nat := 8 * length (todo th) + phaseCost (phase th).

(** The steps that are left, at most. *)
Definition stepsLeft w : nat :=
  sum_list (map threadCost (threads w)) + match owner w with None => 1 | Some _ => 0 end.

Lemma sum_list_insert (l : list Thread) i x y : l !! i = Some x ->
  (sum_list (map threadCost (<[i := y]> l)) + threadCost x = sum_list (map threadCost l) + threadCost y)%nat.
Proof.
  revert i. induction l as [|z l IH]; intros [|i]; [done|done| |].
  - intros [= ->]. change (<[0%nat := y]> (x :: l)) with (y :: l). cbn [map sum_list_with id]. lia.
  - intros Hi. specialize (IH i Hi). change (<[S i := y]> (z :: l)) with (z :: <[i := y]> l).
    cbn [map sum_list_with id]. lia.
Qed.

Lemma stepsLeft_setTh i ops ph o w th : threads w !! i = Some th ->
  (threadCost (mkThread ops ph) + match o with None => 1 | _ => 0 end
   < threadCost th + match owner w with None => 1 | _ => 0 end)%nat ->
  (stepsLeft (setTh i ops ph o w) < stepsLeft w)%nat.
Proof.
  intros Hi Hlt. unfold stepsLeft. cbn [threads owner setTh].
  pose proof (sum_list_insert (threads w) i th (mkThread ops ph) Hi). lia.
Qed.

Definition finished w : Prop := owner w = None /\ Forall (fun th => th = mkThread [] Idle) (threads w).

(** A thread whose send or receive ends the process. *)
Definition aborts (i : nat) w : Prop := exists e, threadStep ndebug i w = Err e.

(** The holder of the lock, or any other thread when it is free, can go on. *)
Definition runnable (i : nat) w : Prop :=
  exists th, threads w !! i = Some th /\ th <> mkThread [] Idle /\ (owner w = None \/ owner w = Some i /\ phase th <> Idle).

Lemma runnable_step i w : lockInv w -> runnable i w ->
  aborts i w \/ exists es w', threadStep ndebug i w = Ok (es, w') /\ (stepsLeft w' < stepsLeft w)%nat.
Proof.
  intros [Hsec _] ([ops ph] & Hi & Hne & Hown). unfold aborts, threadStep, setThread, setOwner, onObject, modify.
  unfold mbind, M_bind, mret, M_ret, get. rewrite Hi.
  assert (Hset : forall ops' ph' o s, 
    (threadCost (mkThread ops' ph') + match o with None => 1 | _ => 0 end
     < threadCost (mkThread ops ph) + match owner w with None => 1 | _ => 0 end)%nat ->
    (stepsLeft (mkShared s o (<[i := mkThread ops' ph']> (threads w))) < stepsLeft w)%nat).
  { intros ops' ph' o s Hlt. exact (stepsLeft_setTh i ops' ph' o w _ Hi Hlt). }
  destruct ph as [|op|op t|op t|op t].
  - destruct ops as [|op ops]; [done|]. destruct Hown as [Ho|[_ ?]]; [|done].
    right. rewrite Ho in *. destruct (refused op (object w)); [|destruct (numbersUnderLock op)];
      (do 2 eexists; split; [reflexivity|]); cbn [object owner threads]; rewrite ?Ho; apply Hset;
      unfold threadCost; cbn [length todo phase phaseCost]; lia.
  - right. do 2 eexists. split; [reflexivity|]. cbn [object owner threads]. apply Hset.
    unfold threadCost. cbn [length todo phase phaseCost]. destruct (owner w); lia.
  - right. do 2 eexists. split; [reflexivity|]. cbn [object owner threads]. apply Hset.
    unfold threadCost. cbn [length todo phase phaseCost]. destruct (owner w); lia.
  - destruct Hown as [Ho|[Ho _]]; rewrite Ho in *.
    + right. do 2 eexists. split; [reflexivity|]. unfold stepsLeft. cbn [threads owner]. rewrite Ho. lia.
    + rewrite Nat.eqb_refl. destruct (sendPart ndebug op t (object w)) as [[[] s]|e]; [right|right|left; by eexists];
        do 2 eexists; (split; [reflexivity|]); cbn [object owner threads]; rewrite ?Ho; apply Hset; unfold threadCost; cbn [length todo phase phaseCost]; lia.
  - destruct (finishPart ndebug op t (object w)) as [[r s]|e]; [right|left; by eexists].
    do 2 eexists. split; [reflexivity|]. cbn [object owner threads]. apply Hset. unfold threadCost. cbn [length todo phase phaseCost].
    rewrite (Hsec i _ Hi) by done. lia.
Qed.

Lemma finished_or_runnable w : lockInv w -> finished w \/ exists i, runnable i w.
Proof.
  intros [_ Hown]. destruct (owner w) as [i|] eqn:Ho.
  - destruct (Hown i eq_refl) as (th & Hi & Hne). right. exists i, th. split_and!; [done|by intros ->|by right].
  - destruct (Forall_Exists_dec (fun th => th = mkThread [] Idle) (fun th => th <> mkThread [] Idle))
      with (l := threads w) as [Hall|Hex].
    + intros [[|op ops] ph]; [|by right]. destruct ph; [by left|by right..].
    + by left.
    + apply Exists_exists in Hex as (th & Hin & Hne). apply list_elem_of_lookup in Hin as [i Hi].
      right. exists i, th. split_and!; [done|done|by left].
Qed.

Lemma runs_to_end n : forall w, (stepsLeft w < n)%nat -> lockInv w ->
  exists schedule es w', runThreads ndebug schedule w = Ok (es, w') /\ (finished w' \/ exists i, aborts i w').
Proof.
  induction n as [|n IH]; intros w Hn Hlk; [lia|].
  destruct (finished_or_runnable w Hlk) as [Hfin|[i Hi]]; [by exists [], [], w; auto|].
  destruct (runnable_step i w Hlk Hi) as [Hab|(es & w1 & Hs & Hlt)].
  - exists [], [], w. split; [done|]. right. by exists i.
  - pose proof (threadStep_cases _ _ _ _ _ Hs) as Hst.
    destruct (IH w1) as (schedule & es' & w' & Hr & Hend); [lia|by eapply step_lock_inv|].
    exists (i :: schedule), (es ++ es'), w'. split; [|done].
    cbn [runThreads]. unfold mbind, M_bind. by rewrite Hs, Hr.
Qed.

(** C12: The threads never wait for each other for ever: from every state that some
    interleaving reaches, there is a continuation in which every function returns,
    unless a send or a receive of one of them ends the process. *)
Theorem threads_never_deadlock w0 schedule es w :
  atRest w0 -> runThreads ndebug schedule w0 = Ok (es, w) ->
  exists schedule' es' w', runThreads ndebug schedule' w = Ok (es', w')
    /\ (finished w' \/ exists i, aborts i w').
Proof.
  intros Hrest Hrun.
  pose proof (runThreads_inv _ _ _ [] es w0 w (atRest_inv w0 Hrest) Hrun) as [Hlk _ _].
  by apply (runs_to_end (S (stepsLeft w))); [lia|].
Qed.
End Linear.

(** ** A concrete interleaving

    The first thread writes a table entry; the second one wants to write a register
    while the first holds the lock. *)

#[local] Existing Instance exApi.

Definition exThreads : Shared ExConn :=
  mkShared (exImp false) None [mkThread [WriteGTT 8 5] Idle; mkThread [WriteMMIO 0x2080 1] Idle].

Definition exSchedule : list nat := [0; 0; 0; 1; 0; 1; 0; 1; 1; 1; 1; 1]%nat.

Definition exInterleaved : list SocketEvent * Shared ExConn :=
  match runThreads false exSchedule exThreads with Ok r => r | Err _ => ([], exThreads) end.

Lemma exInterleaved_run : runThreads false exSchedule exThreads = Ok (exInterleaved.1, exInterleaved.2).
Proof. by vm_compute. Qed.

Lemma exThreads_rest : atRest exThreads.
Proof. split; [done|by repeat constructor]. Qed.

Lemma threads_linearizable_witness :
  map ev_thread exInterleaved.1 = [0; 1]%nat
  /\ (exists s, replay false exInterleaved.1 (exImp false) = Ok (map ev_result exInterleaved.1, s)
       /\ atPoint false exInterleaved.2 s)
  /\ (forall i, option_map (fun th => opsOf i exInterleaved.1 ++ inFlight (phase th) ++ todo th)
                  (threads exInterleaved.2 !! i) = option_map todo (threads exThreads !! i))
  /\ forall i j thi thj, threads exInterleaved.2 !! i = Some thi -> threads exInterleaved.2 !! j = Some thj ->
       inSection (phase thi) = true -> inSection (phase thj) = true -> i = j.
Proof.
  split; [by vm_compute|].
  exact (threads_linearizable false exThreads exSchedule _ _ exThreads_rest exInterleaved_run).
Defined.

(** After three steps the first thread has the lock and the second one waits. *)
Definition exHalfway : list SocketEvent * Shared ExConn :=
  match runThreads false [0; 0; 0; 1]%nat exThreads with Ok r => r | Err _ => ([], exThreads) end.

Lemma threads_never_deadlock_witness :
  owner exHalfway.2 = Some 0%nat
  /\ exists schedule' es' w', runThreads false schedule' exHalfway.2 = Ok (es', w')
       /\ (finished w' \/ exists i, aborts false i w').
Proof.
  split; [by vm_compute|].
  apply (threads_never_deadlock false exThreads [0; 0; 0; 1]%nat exHalfway.1 exHalfway.2 exThreads_rest).
  by vm_compute.
Defined.
