(* ===== verification/TbxNumbers.v ===== *)
(** * The numbers of the requests

    [transID++] stands before the [lock_guard] in some functions of
    [tbx_sockets_imp.cpp] and after it in others. Which functions number their
    requests safely, over the interleavings of [TbxThreads]. *)

From S2P Require Import Prelude AubPackets TbxSockets TbxWire TbxThreads TbxLinear.
Import TbxSocketsImpl HAS_MSG_TYPE.
#[local] Open Scope Z_scope.

(** [readPCICFG], [readMemory] and [readMemoryExt], [writeMemory] and
    [writeMemoryExt], [writeGTT]: the number is taken before the lock. *)
Inductive beforeLock : SocketOp -> Prop :=
| before_readPCICFG bus device function offset data :
    beforeLock (ReadPCICFG bus device function offset data)
| before_readMemory addrOffset data size isLocalMemory :
    beforeLock (ReadMemory addrOffset data size isLocalMemory)
| before_writeMemory physAddr data size isLocalMemory :
    beforeLock (WriteMemory physAddr data size isLocalMemory)
| before_writeGTT offset entry : beforeLock (WriteGTT offset entry).

(** [stillConnected], [writeMMIO] and [writePCICFG]: the number is taken under the
    lock, whatever the state of the connection. *)
Inductive underLock : SocketOp -> Prop :=
| under_stillConnected : underLock StillConnected
| under_writeMMIO offset value : underLock (WriteMMIO offset value)
| under_writePCICFG bus device function offset value :
    underLock (WritePCICFG bus device function offset value).

Lemma beforeLock_numbers op : beforeLock op -> numbersUnderLock op = false.
Proof. by intros []. Qed.
Lemma underLock_numbers op : underLock op -> numbersUnderLock op = true.
Proof. by intros []. Qed.

Lemma beforeLock_accepted {C} op (s : TbxSocketsImp C) : beforeLock op -> refused op s = false.
Proof. by intros []. Qed.
Lemma underLock_accepted {C} op (s : TbxSocketsImp C) : underLock op -> refused op s = false.
Proof. by intros []. Qed.

(** The number of the [k]-th request after the one numbered [t]. *)
Definition numberAfter (t : Z) (k : nat) : Z := Nat.iter k (fun t => u32 (t + 1)) t.

Lemma numberAfter_S t k : numberAfter t (S k) = u32 (numberAfter t k + 1).
Proof. done. Qed.

Section Numbers.
Context {C : Type} `{!SocketApi C}.
Variable ndebug : bool.
Implicit Types s : TbxSocketsImp C.
Implicit Types w : Shared C.

(** ** The invariant of functions that number under the lock *)

Definition programOk (th : Thread) : Prop := Forall underLock (inFlight (phase th) ++ todo th).

(** Thread [i] at a point where [k] requests were finished. *)
Definition phaseOk t0 (k : nat) w (i : nat) (ph : Phase) : Prop :=
  match ph with
  | Idle => True
  | Locked _ => owner w = Some i /\ transID (object w) = numberAfter t0 k
  | Loaded _ t => owner w = Some i /\ t = numberAfter t0 k
  | Numbered _ t | Sent _ t =>
      owner w = Some i /\ t = numberAfter t0 k /\ transID (object w) = numberAfter t0 (S k)
  end.

Record numbersInv t0 (k : nat) w : Prop := {
  ni_program : Forall programOk (threads w);
  ni_phase : forall i th, threads w !! i = Some th -> phaseOk t0 k w i (phase th);
  ni_free : owner w = None -> transID (object w) = numberAfter t0 k
}.

(** While the lock is free or with thread [i], the others are idle. *)
Lemma others_idle t0 k w i j th :
  numbersInv t0 k w -> owner w = None \/ owner w = Some i -> threads w !! j = Some th -> j <> i ->
  phase th = Idle.
Proof.
  intros [_ Hph _] Ho Hj Hne. specialize (Hph j th Hj).
  destruct (phase th); [done|..]; destruct Hph as [Hj' _]; destruct Ho; congruence.
Qed.

(** A step of thread [i] with the lock free or its own. *)
Lemma numbers_setTh t0 k k' w s i ops ph o th :
  numbersInv t0 k w -> threads w !! i = Some th ->
  owner w = None \/ owner w = Some i ->
  inFlight (phase th) ++ todo th = inFlight ph ++ ops
    \/ inFlight ph = [] /\ (exists op, inFlight (phase th) ++ todo th = op :: ops) ->
  phaseOk t0 k' (setTh i ops ph o (setObj s w)) i ph ->
  (o = None -> transID s = numberAfter t0 k') ->
  numbersInv t0 k' (setTh i ops ph o (setObj s w)).
Proof.
  intros Hinv Hi Ho Hops Hnew Hnone. pose proof Hinv as [Hprog _ _]. split; [| |exact Hnone].
  - apply Forall_insert; [done|]. pose proof (Forall_lookup_1 _ _ _ _ Hprog Hi) as Hp.
    unfold programOk in *. cbn [phase todo]. destruct Hops as [<-|[-> [op Hop]]]; [done|].
    rewrite Hop in Hp. by apply Forall_cons in Hp as [_ Hp].
  - intros j th' Hj. destruct (decide (j = i)) as [->|Hne]; cbn in Hj.
    + rewrite list_lookup_insert_eq in Hj by (by eapply lookup_lt_Some). by injection Hj as <-.
    + rewrite list_lookup_insert_ne in Hj by done. by erewrite (others_idle t0 k w i j th').
Qed.

(** Every function that returns had the next number. *)
Lemma step_numbers t0 k i w es w' :
  numbersInv t0 k w -> ThreadStep ndebug i w es w' ->
  map ev_id es = map (numberAfter t0) (seq k (length es)) /\ numbersInv t0 (k + length es) w'.
Proof.
  intros Hinv Hst. pose proof Hinv as [Hprog Hph Hfree].
  assert (Hunder : forall op ops ph, threads w !! i = Some (mkThread ops ph) ->
            In op (inFlight ph ++ ops) -> underLock op).
  { intros op ops ph Hi Hin. pose proof (Forall_lookup_1 _ _ _ _ Hprog Hi) as Hp.
    by apply (proj1 (Forall_forall _ _) Hp), list_elem_of_In. }
  assert (Hid : setObj (object w) w = w) by by destruct w.
  destruct Hst as [|op ops Hi Hr|op ops Hi Hn Ho|op ops Hi Hn|op ops Hi|op t ops Hi|op t ops Hi Ho
    |op t ops s Hi Ho Hs|op t ops s Hi Ho Hs|op t ops r s Hi Hs]; cbn [length seq map].
  all: rewrite ?Nat.add_0_r, ?Nat.add_1_r.
  all: try (pose proof (Hph i _ Hi) as Hat; cbn [phase phaseOk] in Hat).
  - done.
  - exfalso. rewrite (underLock_accepted op) in Hr; [done|]. by eapply Hunder; [exact Hi|left].
  - split; [done|]. rewrite <- Hid. eapply numbers_setTh; [done|exact Hi|by left|by left| |done].
    split; [done|]. by apply Hfree.
  - exfalso. rewrite (underLock_numbers op) in Hn; [done|]. by eapply Hunder; [exact Hi|left].
  - destruct Hat as [Ho Ht]. split; [done|]. rewrite <- Hid.
    eapply numbers_setTh; [done|exact Hi|by right|by left|done|congruence].
  - destruct Hat as [Ho ->]. split; [done|].
    eapply numbers_setTh; [done|exact Hi|by right|by left|done|congruence].
  - destruct Hat as [Ho' _]. congruence.
  - destruct Hat as (_ & -> & Ht). split; [done|].
    apply (wire_run _ _ _ _ (wire_sendPart ndebug op _)), onlyWire_members in Hs as (_ & Htr & _).
    eapply numbers_setTh; [done|exact Hi|by right|by left| |done]. cbn. by rewrite Htr.
  - destruct Hat as (_ & -> & Ht). split; [done|].
    apply (wire_run _ _ _ _ (wire_sendPart ndebug op _)), onlyWire_members in Hs as (_ & Htr & _).
    eapply numbers_setTh; [done|exact Hi|by right|right; by eauto|done|]. intros _. by rewrite Htr.
  - destruct Hat as (Ho & -> & Ht). split; [done|].
    apply (wire_run _ _ _ _ (wire_finishPart ndebug op _)), onlyWire_members in Hs as (_ & Htr & _).
    eapply numbers_setTh; [done|exact Hi|by right|right; by eauto|done|]. intros _. by rewrite Htr.
Qed.

Lemma run_numbers t0 schedule : forall k w es w',
  numbersInv t0 k w -> runThreads ndebug schedule w = Ok (es, w') ->
  map ev_id es = map (numberAfter t0) (seq k (length es)).
Proof.
  induction schedule as [|i schedule IH]; intros k w es w' Hinv; cbn [runThreads]; [by intros [= <- <-]|].
  unfold mbind, M_bind. destruct (threadStep ndebug i w) as [[es1 w1]|] eqn:Hs; [|done].
  destruct (runThreads ndebug schedule w1) as [[es2 w2]|] eqn:Hr; [|done]. intros [= <- <-].
  apply threadStep_cases in Hs. destruct (step_numbers t0 k i w es1 w1 Hinv Hs) as [He Hinv'].
  rewrite length_app, seq_app, !map_app, He. f_equal. by eapply IH.
Qed.

Lemma atRest_numbers w :
  atRest w -> Forall (fun th => Forall underLock (todo th)) (threads w) ->
  numbersInv (transID (object w)) 0 w.
Proof.
  intros [Ho Hidle] Hops. rewrite !Forall_lookup in *. split; [| |done].
  - apply Forall_lookup. intros i th Hi. unfold programOk. rewrite (Hidle i th Hi). by apply (Hops i).
  - intros i th Hi. by rewrite (Hidle i th Hi).
Qed.

(** C40: The numbers of requests. Two threads in [readPCICFG], [readMemory],
    [writeMemory] or [writeGTT] can use the same number: when the second reads
    [transID] before the first wrote it back, both requests get it, and neither holds
    the lock yet. Threads that only call [stillConnected], [writeMMIO] and
    [writePCICFG] never do: in every interleaving the functions that return had
    consecutive numbers, in the order they returned. *)
Theorem request_numbers :
  (forall s op1 op2 ops1 ops2, beforeLock op1 -> beforeLock op2 ->
     runThreads ndebug [0; 1; 0; 1]%nat
       (mkShared s None [mkThread (op1 :: ops1) Idle; mkThread (op2 :: ops2) Idle])
     = Ok ([], mkShared (set_transID (u32 (transID s + 1)) s) None
                 [mkThread ops1 (Numbered op1 (transID s)); mkThread ops2 (Numbered op2 (transID s))]))
  /\ (forall w0 schedule es w, atRest w0 -> Forall (fun th => Forall underLock (todo th)) (threads w0) ->
       runThreads ndebug schedule w0 = Ok (es, w) ->
       map ev_id es = map (numberAfter (transID (object w0))) (seq 0 (length es))).
Proof.
  split.
  - intros s op1 op2 ops1 ops2 H1 H2.
    assert (Hr : forall op, beforeLock op -> forall s, refused op s = false)
      by (intros; by apply beforeLock_accepted).
    unfold runThreads, threadStep, setThread, onObject, modify, mbind, M_bind, mret, M_ret, get.
    cbn. rewrite !Hr, !beforeLock_numbers by done. cbn. by rewrite !Hr, !beforeLock_numbers by done.
  - intros w0 schedule es w Hrest Hops. by apply run_numbers, atRest_numbers.
Qed.
End Numbers.

(** ** Two threads

    A table entry and a read of memory get the number 7; two register writes get 7
    and 8, although the second one wants to begin while the first holds the lock. *)

#[local] Existing Instance exApi.

Definition exWriters : Shared ExConn :=
  mkShared (exImp false) None
    [mkThread [WriteMMIO 0x2080 1] Idle; mkThread [WriteMMIO 0x2084 2] Idle].

Definition exWritten : list SocketEvent * Shared ExConn :=
  match runThreads false [0; 1; 0; 1; 0; 0; 0; 1; 1; 1; 1; 1]%nat exWriters with
  | Ok r => r
  | Err _ => ([], exWriters)
  end.

Lemma request_numbers_witness :
  runThreads false [0; 1; 0; 1]%nat
    (mkShared (exImp false) None [mkThread [WriteGTT 8 5] Idle; mkThread [ReadMemory 0x1000 [0] 1 true] Idle])
  = Ok ([], mkShared (set_transID 8 (exImp false)) None
              [mkThread [] (Numbered (WriteGTT 8 5) 7); mkThread [] (Numbered (ReadMemory 0x1000 [0] 1 true) 7)])
  /\ length exWritten.1 = 2%nat /\ map ev_id exWritten.1 = [7; 8].
Proof.
  destruct (request_numbers (C := ExConn) false) as [Hearly Hlate]. split.
  - apply (Hearly (exImp false) (WriteGTT 8 5) (ReadMemory 0x1000 [0] 1 true) [] []); constructor.
  - split; [vm_compute; reflexivity|].
    apply (Hlate exWriters [0; 1; 0; 1; 0; 0; 0; 1; 1; 1; 1; 1]%nat exWritten.1 exWritten.2).
    + split; [reflexivity|repeat constructor].
    + repeat constructor.
    + vm_compute. reflexivity.
Defined.
