(* ===== verification/TbxStream.v ===== *)
(** * Streams to a simulator

    [tbx_stream.h], [tbx_stream.cpp], [tbx_shm_stream.h], [tbx_shm_stream.cpp],
    [memcpy_s.h], [aub_tbx_stream.h] and [aub_shm_stream.h]: the streams that talk
    to a simulator through [TbxSockets] or through memory shared with it, and the
    ones that also write the capture file. The streams' logs are not modelled. *)

From S2P Require Import Prelude Allocator MemoryBanks PageTable Walker AubPackets AubStream.
From S2P Require Import TbxSockets.
#[local] Open Scope Z_scope.

Definition isLocalSpace (addressSpace : Z) : bool := addressSpace =? AddressSpaceValues.TraceLocal.

(** [(currentValue & ~mask) | (value & mask)]. *)
Definition maskedValue (currentValue value mask : Z) : Z :=
  Z.lor (Z.ldiff currentValue mask) (Z.land value mask).

(** ** TbxStream *)

Section TbxStream.
Context {T : Type} `{!TbxSockets T}.
Variable ndebug : bool.
(* the iterations of the polling loops *)
Variable fuel : nat.
(* what an uninitialised variable holds *)
Variable indeterminate : Z.

(** The loop over the pieces of a table. [memory] points behind what was read. *)
Fixpoint tbxReadPages (memory : list Z) (es : list PageInfo) : M T (list Z) :=
  match es with
  | [] => mret memory
  | e :: es' =>
      r ← socketReadMemory (pi_physicalAddress e) (take (Z.to_nat (pi_size e)) memory) (pi_size e)
            (pi_isLocalMemory e);
      rest ← tbxReadPages (drop (Z.to_nat (pi_size e)) memory) es';
      mret (r.2 ++ rest)
  end.

Fixpoint tbxWritePages (memory : list Z) (es : list PageInfo) : M T unit :=
  match es with
  | [] => mret tt
  | e :: es' =>
      socketWriteMemory (pi_physicalAddress e) memory (pi_size e) (pi_isLocalMemory e) ≫= fun _ =>
      tbxWritePages (drop (Z.to_nat (pi_size e)) memory) es'
  end.

Definition tbxWriteEntries (es : list PageEntryInfo) (addressSpace hint : Z) : M T unit :=
  if addressSpace =? AddressSpaceValues.TraceGttEntry then
    mapM_ (fun e => socketWriteGTT (u32 (pe_physicalAddress e)) (pe_tableEntry e) ≫= fun _ => mret tt) es
  else
    mapM_ (fun e =>
      socketWriteMemory (pe_physicalAddress e) (leBytes 8 (pe_tableEntry e)) 8
        (isLocalSpace addressSpace) ≫= fun _ => mret tt) es.

Definition tbxReadContiguousPages (memory : list Z) (size physAddress addressSpace hint : Z)
    : M T (list Z) :=
  r ← socketReadMemory physAddress memory size (isLocalSpace addressSpace); mret r.2.

Definition tbxWriteContiguousPages (memory : list Z) (size physAddress addressSpace hint : Z)
    : M T unit :=
  socketWriteMemory physAddress memory size (isLocalSpace addressSpace) ≫= fun _ => mret tt.

(** The loops of the polls. *)
Fixpoint tbxMemoryPoll (fuel : nat) (e : PageInfo) (value compareMode : Z) : M T unit :=
  match fuel with
  | O => fail OutOfFuel
  | S fuel' =>
      r ← socketReadMemory (pi_physicalAddress e) (leBytes 4 0) 4 (pi_isLocalMemory e);
      if negb r.1 then mret tt
      else
        matches ← compareMemory ndebug (fromLE r.2) value compareMode;
        if (matches : bool) then mret tt else tbxMemoryPoll fuel' e value compareMode
  end.

Fixpoint tbxRegisterPoll (fuel : nat) (registerOffset mask desiredValue : Z) (pollNotEqual : bool)
    : M T unit :=
  match fuel with
  | O => fail OutOfFuel
  | S fuel' =>
      r ← socketReadMMIO registerOffset 0;
      if negb r.1 then mret tt
      else
        let matches := Z.land r.2 mask =? desiredValue in
        if negb (Z.land r.2 1 =? 0) then mret tt
        else if eqb matches pollNotEqual
        then tbxRegisterPoll fuel' registerOffset mask desiredValue pollNotEqual
        else mret tt
  end.

Definition tbxReadMMIO (offset : Z) : M T Z := r ← socketReadMMIO offset indeterminate; mret r.2.

Definition tbxWriteMMIO (offset value mask : Z) : M T unit :=
  value ← (if negb (mask =? 0xFFFFFFFF) then
             currentValue ← tbxReadMMIO offset; mret (maskedValue currentValue value mask)
           else mret value);
  socketWriteMMIO offset value ≫= fun _ => mret tt.

Definition tbxReadPCICFG (offset : Z) : M T Z :=
  r ← socketReadPCICFG 0 2 0 offset indeterminate; mret r.2.

Definition tbxWritePCICFG (offset value : Z) : M T unit :=
  socketWritePCICFG 0 2 0 offset value ≫= fun _ => mret tt.

Definition onSingle {B} (es : list PageInfo) (f : PageInfo -> M T B) : M T B :=
  cassert ndebug (Nat.eqb (length es) 1) ≫= fun _ =>
  e ← from_option_M OutOfBounds (es !! 0%nat); f e.

#[export] Instance TbxStream : Stream T := {
  addComment _ := mret tt;
  writeGttPages _ es := tbxWriteEntries es AddressSpaceValues.TraceGttEntry DataTypeHintValues.TraceNotype;
  expectMemoryTable _ _ _ _ := mret tt;
  reserveContiguousPages _ := mret tt;
  readDiscontiguousPages memory _ es := tbxReadPages memory es;
  writeDiscontiguousPages memory _ es _ := tbxWritePages memory es;
  writeDiscontiguousEntries := tbxWriteEntries;
  memoryPoll es value mode := onSingle es (fun e => tbxMemoryPoll fuel e value mode);
  registerPoll o m d n _ := tbxRegisterPoll fuel o m d n;
  writeMMIO := tbxWriteMMIO;
  readMMIO := tbxReadMMIO;
  writePCICFG := tbxWritePCICFG;
  readPCICFG := tbxReadPCICFG;
  declareContext _ _ := mret tt;
  dumpBufferBIN _ _ _ _ := mret tt;
  dumpSurface _ _ _ := mret tt;
  arePageTableWritesFullyCommitted := mret true
}.
End TbxStream.

(** ** TbxShmStream *)

(** The socket, the host memory shared with the simulator, and the clock: the
    readings still to come, in seconds, and the last one acted on. *)
Record ShmState (T : Type) := mkShm {
  shmSocket : T;
  hostMemory : gmap Z Z;
  clockReadings : list Z;
  lastTimeCheck : Z
}.
Arguments mkShm {T}.
Arguments shmSocket {T}.
Arguments hostMemory {T}.
Arguments clockReadings {T}.
Arguments lastTimeCheck {T}.

Definition EINVAL : Z := 22.
Definition ERANGE : Z := 34.

(** The result of [memcpy_s]; it copies when the result is 0. *)
Definition memcpy_s (dst : option Z) (destSize : Z) (src : option Z) (count : Z) : Z :=
  if bool_decide (dst = None) || bool_decide (src = None) then - EINVAL
  else if destSize <? count then - ERANGE
  else 0.

Section TbxShmStream.
Context {T : Type} `{!TbxSockets T}.
Variable ndebug : bool.
Variable fuel : nat.
Variable indeterminate : Z.
(* [translatePhysicalAddressToSystemMemory]: a host address, or null, and the bytes
   available there *)
Variable translateFn : Z -> Z -> bool -> option Z * Z.
(* [ggtt->isLocalMemory()] *)
Variable ggttIsLocal : GGTT -> bool.

#[local] Abbreviation SH := (M (ShmState T)).

Definition onSocket {B} (m : M T B) : SH B :=
  fun s => match m (shmSocket s) with
           | Ok (b, t) => Ok (b, mkShm t (hostMemory s) (clockReadings s) (lastTimeCheck s))
           | Err e => Err e
           end.

(** Accesses to host memory; a byte that is not mapped faults. *)
Definition hostLoad (p count : Z) : SH (list Z) :=
  s ← get;
  from_option_M OutOfBounds (mapM (fun a => hostMemory s !! a) (seqZ p count)).

Definition storeBytes (p : Z) (bytes : list Z) (m : gmap Z Z) : gmap Z Z :=
  foldl (fun m x => <[x.1 := x.2]> m) m (zip (seqZ p (Z.of_nat (length bytes))) bytes).

Definition hostStore (p : Z) (bytes : list Z) : SH unit :=
  s ← get;
  from_option_M OutOfBounds
    (mapM (fun a => hostMemory s !! a) (seqZ p (Z.of_nat (length bytes)))) ≫= fun _ =>
  put (mkShm (shmSocket s) (storeBytes p bytes (hostMemory s)) (clockReadings s) (lastTimeCheck s)).

Definition checkSocketAlive : SH unit :=
  s ← get;
  let currentTime := default (lastTimeCheck s) (head (clockReadings s)) in
  put (mkShm (shmSocket s) (hostMemory s) (tail (clockReadings s)) (lastTimeCheck s)) ≫= fun _ =>
  when (10 <? currentTime - lastTimeCheck s)
    (onSocket stillConnected ≫= fun _ =>
     modify (fun s => mkShm (shmSocket s) (hostMemory s) (clockReadings s) currentTime)).

(** A read of one piece into the caller's buffer, which is not null. *)
Definition shmRead (physAddress size : Z) (isLocal : bool) (old : list Z) : SH (list Z) :=
  let '(p, availableSize) := translateFn physAddress size isLocal in
  if memcpy_s (Some 0) availableSize p size =? 0 then
    a ← from_option_M NullDereference p; hostLoad a size
  else mret old.

Fixpoint shmReadLoop (memory : list Z) (es : list PageInfo) : SH (list Z) :=
  match es with
  | [] => mret memory
  | e :: es' =>
      bytes ← shmRead (pi_physicalAddress e) (pi_size e) (pi_isLocalMemory e)
                (take (Z.to_nat (pi_size e)) memory);
      rest ← shmReadLoop (drop (Z.to_nat (pi_size e)) memory) es';
      mret (bytes ++ rest)
  end.

(** A write of the first [size] bytes of [memory]; [memory] is not null. *)
Definition shmWrite (physAddress size : Z) (isLocal : bool) (memory : list Z) : SH unit :=
  let '(p, destSize) := translateFn physAddress size isLocal in
  when (memcpy_s p destSize (Some 0) size =? 0)
    (a ← from_option_M NullDereference p; hostStore a (take (Z.to_nat size) memory)).

Fixpoint shmWriteLoop (memory : list Z) (es : list PageInfo) : SH unit :=
  match es with
  | [] => mret tt
  | e :: es' =>
      shmWrite (pi_physicalAddress e) (pi_size e) (pi_isLocalMemory e) memory ≫= fun _ =>
      shmWriteLoop (drop (Z.to_nat (pi_size e)) memory) es'
  end.

Definition shmReadContiguousPages (memory : list Z) (size physAddress addressSpace hint : Z)
    : SH (list Z) :=
  bytes ← shmRead physAddress size (isLocalSpace addressSpace) (take (Z.to_nat size) memory);
  checkSocketAlive ≫= fun _ => mret (bytes ++ drop (Z.to_nat size) memory).

Definition shmWriteContiguousPages (memory : list Z) (size physAddress addressSpace hint : Z)
    : SH unit :=
  shmWrite physAddress size (isLocalSpace addressSpace) memory ≫= fun _ => checkSocketAlive.

Definition shmWriteEntries (es : list PageEntryInfo) (addressSpace hint : Z) : SH unit :=
  cassert ndebug (negb (addressSpace =? AddressSpaceValues.TraceGttEntry)) ≫= fun _ =>
  mapM_ (fun e => shmWrite (pe_physicalAddress e) 8 (isLocalSpace addressSpace)
                    (leBytes 8 (pe_tableEntry e))) es ≫= fun _ =>
  checkSocketAlive.

Definition shmWriteGttPages (ggtt : GGTT) (es : list PageEntryInfo) : SH unit :=
  mapM_ (fun e => shmWrite (u64 (gttTableOffset ggtt + pe_physicalAddress e)) 8 (ggttIsLocal ggtt)
                    (leBytes 8 (pe_tableEntry e))) es ≫= fun _ =>
  checkSocketAlive.

Fixpoint shmRegisterPoll (fuel : nat) (registerOffset mask desiredValue : Z) (pollNotEqual : bool)
    : SH unit :=
  match fuel with
  | O => fail OutOfFuel
  | S fuel' =>
      r ← onSocket (socketReadMMIO registerOffset 0);
      if eqb (Z.land r.2 mask =? desiredValue) pollNotEqual
      then shmRegisterPoll fuel' registerOffset mask desiredValue pollNotEqual
      else mret tt
  end.

Fixpoint shmMemoryPoll (fuel : nat) (e : PageInfo) (value compareMode : Z) : SH unit :=
  match fuel with
  | O => fail OutOfFuel
  | S fuel' =>
      let '(p, availableSize) :=
        translateFn (pi_physicalAddress e) (pi_size e) (pi_isLocalMemory e) in
      bytes ← (if memcpy_s (Some 0) 4 p 4 =? 0 then
                 a ← from_option_M NullDereference p; hostLoad a 4
               else mret (leBytes 4 0));
      matches ← compareMemory ndebug (fromLE bytes) value compareMode;
      if (matches : bool) then mret tt else shmMemoryPoll fuel' e value compareMode
  end.

Definition shmWriteMMIO (offset value mask : Z) : SH unit :=
  value ← (if negb (mask =? 0xFFFFFFFF) then
             r ← onSocket (socketReadMMIO offset 0); mret (maskedValue r.2 value mask)
           else mret value);
  onSocket (socketWriteMMIO offset value) ≫= fun _ => mret tt.

#[export] Instance TbxShmStream : Stream (ShmState T) := {
  addComment _ := mret tt;
  writeGttPages := shmWriteGttPages;
  expectMemoryTable _ _ _ _ := mret tt;
  reserveContiguousPages _ := mret tt;
  readDiscontiguousPages memory _ es :=
    bytes ← shmReadLoop memory es; checkSocketAlive ≫= fun _ => mret bytes;
  writeDiscontiguousPages memory _ es _ := shmWriteLoop memory es ≫= fun _ => checkSocketAlive;
  writeDiscontiguousEntries := shmWriteEntries;
  memoryPoll es value mode :=
    cassert ndebug (Nat.eqb (length es) 1) ≫= fun _ =>
    e ← from_option_M OutOfBounds (es !! 0%nat); shmMemoryPoll fuel e value mode;
  registerPoll o m d n _ := shmRegisterPoll fuel o m d n;
  writeMMIO := shmWriteMMIO;
  readMMIO o := r ← onSocket (socketReadMMIO o indeterminate); mret r.2;
  writePCICFG o v := onSocket (socketWritePCICFG 0 2 0 o v) ≫= fun _ => mret tt;
  readPCICFG o := r ← onSocket (socketReadPCICFG 0 2 0 o indeterminate); mret r.2;
  declareContext _ _ := mret tt;
  dumpBufferBIN _ _ _ _ := mret tt;
  dumpSurface _ _ _ := mret tt;
  arePageTableWritesFullyCommitted := mret true
}.
End TbxShmStream.

(** ** Capture file and simulator

    The two streams side by side; the capture can be paused, and for shared memory
    the writes to the simulator's memory can be blocked. *)

Record AubTbxStream (F T : Type) := mkAubTbx {
  aubFileStream : F;
  tbxStream : T;
  isAubFileStreamPaused : bool
}.
Arguments mkAubTbx {F T}.
Arguments aubFileStream {F T}.
Arguments tbxStream {F T}.
Arguments isAubFileStreamPaused {F T}.

Section AubTbxStream.
Context {F T : Type} `{!Stream F} `{!Stream T}.

#[local] Abbreviation AT := (M (AubTbxStream F T)).

Definition onFile {B} (m : M F B) : AT B :=
  fun s => match m (aubFileStream s) with
           | Ok (b, f) => Ok (b, mkAubTbx f (tbxStream s) (isAubFileStreamPaused s))
           | Err e => Err e
           end.
Definition onTbx {B} (m : M T B) : AT B :=
  fun s => match m (tbxStream s) with
           | Ok (b, t) => Ok (b, mkAubTbx (aubFileStream s) t (isAubFileStreamPaused s))
           | Err e => Err e
           end.

(** [if (!isAubFileStreamPaused) { ... }], then the simulator. *)
Definition tee (f : M F unit) (t : M T unit) : AT unit :=
  s ← get; when (negb (isAubFileStreamPaused s)) (onFile f) ≫= fun _ => onTbx t.

Definition pauseAubFileStream (onoff : bool) : AT unit :=
  modify (fun s => mkAubTbx (aubFileStream s) (tbxStream s) onoff).

#[export] Instance AubTbx : Stream (AubTbxStream F T) := {
  addComment m := tee (addComment m) (addComment m);
  writeGttPages g es := tee (writeGttPages g es) (writeGttPages g es);
  expectMemoryTable m n es c := tee (expectMemoryTable m n es c) (expectMemoryTable m n es c);
  reserveContiguousPages l := tee (reserveContiguousPages l) (reserveContiguousPages l);
  readDiscontiguousPages m n es := onTbx (readDiscontiguousPages m n es);
  writeDiscontiguousPages m n es h :=
    tee (writeDiscontiguousPages m n es h) (writeDiscontiguousPages m n es h);
  writeDiscontiguousEntries es a h :=
    tee (writeDiscontiguousEntries es a h) (writeDiscontiguousEntries es a h);
  memoryPoll es v c := tee (memoryPoll es v c) (memoryPoll es v c);
  registerPoll o m d n a := tee (registerPoll o m d n a) (registerPoll o m d n a);
  writeMMIO o v m := tee (writeMMIO o v m) (writeMMIO o v m);
  readMMIO o := onTbx (readMMIO o);
  writePCICFG o v := tee (writePCICFG o v) (writePCICFG o v);
  readPCICFG o := onTbx (readPCICFG o);
  declareContext h p := tee (declareContext h p) (declareContext h p);
  dumpBufferBIN g a n h := tee (dumpBufferBIN g a n h) (dumpBufferBIN g a n h);
  dumpSurface g si h := tee (dumpSurface g si h) (dumpSurface g si h);
  arePageTableWritesFullyCommitted := s ← get; mret (negb (isAubFileStreamPaused s))
}.
End AubTbxStream.

Record AubShmStream (F T : Type) := mkAubShm {
  streams : AubTbxStream F T;
  isTbxStreamBlockedForMemWrites : bool
}.
Arguments mkAubShm {F T}.
Arguments streams {F T}.
Arguments isTbxStreamBlockedForMemWrites {F T}.

Section AubShmStream.
Context {F T : Type} `{!Stream F} `{!Stream T}.

#[local] Abbreviation AS := (M (AubShmStream F T)).

Definition onStreams {B} (m : M (AubTbxStream F T) B) : AS B :=
  fun s => match m (streams s) with
           | Ok (b, x) => Ok (b, mkAubShm x (isTbxStreamBlockedForMemWrites s))
           | Err e => Err e
           end.

Definition teeShm (f : M F unit) (t : M T unit) : AS unit := onStreams (tee f t).

(** The memory writes. *)
Definition teeMemory (f : M F unit) (t : M T unit) : AS unit :=
  s ← get;
  when (negb (isAubFileStreamPaused (streams s))) (onStreams (onFile f)) ≫= fun _ =>
  when (negb (isTbxStreamBlockedForMemWrites s)) (onStreams (onTbx t)).

Definition blockMemWritesViaTbxStream (onoff : bool) : AS unit :=
  modify (fun s => mkAubShm (streams s) onoff).

(** The branch for the capture file also writes to the simulator. *)
Definition shmWritePCICFG (o v : Z) : AS unit :=
  s ← get;
  when (negb (isAubFileStreamPaused (streams s))) (onStreams (onTbx (writePCICFG o v))) ≫= fun _ =>
  onStreams (onTbx (writePCICFG o v)).

#[export] Instance AubShm : Stream (AubShmStream F T) := {
  addComment m := teeShm (addComment m) (addComment m);
  writeGttPages g es := teeShm (writeGttPages g es) (writeGttPages g es);
  expectMemoryTable m n es c := teeShm (expectMemoryTable m n es c) (expectMemoryTable m n es c);
  reserveContiguousPages l := teeShm (reserveContiguousPages l) (reserveContiguousPages l);
  readDiscontiguousPages m n es := onStreams (onTbx (readDiscontiguousPages m n es));
  writeDiscontiguousPages m n es h :=
    teeMemory (writeDiscontiguousPages m n es h) (writeDiscontiguousPages m n es h);
  writeDiscontiguousEntries es a h :=
    teeMemory (writeDiscontiguousEntries es a h) (writeDiscontiguousEntries es a h);
  memoryPoll es v c := teeShm (memoryPoll es v c) (memoryPoll es v c);
  registerPoll o m d n a := teeShm (registerPoll o m d n a) (registerPoll o m d n a);
  writeMMIO o v m := teeShm (writeMMIO o v m) (writeMMIO o v m);
  readMMIO o := onStreams (onTbx (readMMIO o));
  writePCICFG := shmWritePCICFG;
  readPCICFG o := onStreams (onTbx (readPCICFG o));
  declareContext h p := teeShm (declareContext h p) (declareContext h p);
  dumpBufferBIN g a n h := teeShm (dumpBufferBIN g a n h) (dumpBufferBIN g a n h);
  dumpSurface g si h := teeShm (dumpSurface g si h) (dumpSurface g si h);
  arePageTableWritesFullyCommitted :=
    s ← get; mret (negb (isAubFileStreamPaused (streams s)) && negb (isTbxStreamBlockedForMemWrites s))
}.
End AubShmStream.
