(* ===== verification/TbxTheory.v ===== *)
(** * What the simulator streams do

    The stream that captures and simulates does to each of its two parts what the
    part alone does; the shared memory reads back what was written to it; and what
    a broken connection does to a poll. *)

From S2P Require Import Prelude Allocator MemoryBanks Gpu PageTable Walker AubPackets AubStream.
From S2P Require Import WalkCorrect CommandStreamer HardwareContext RingTheory RingCorrect RingInit.
From S2P Require Import AubFileStream FileTheory FileSim TbxSockets TbxWire TbxStream.
#[local] Open Scope Z_scope.

(** ** Two streams side by side *)

(** A stream that commits the writes of page tables at once: all but a paused
    capture. *)
Class Commits (Sk : Type) `{!Stream Sk} : Prop :=
  commits : arePageTableWritesFullyCommitted = mret (M := M Sk) true.

Section Tee.
Context {A : Type} `{!PhysicalAddressAllocator A}.
Context {F T : Type} `{!Stream F} `{!Stream T} `{!Commits F} `{!Commits T}.

(** What the operation does on the pair follows from what it does on each part. *)
Definition teeSim {B} (mF : M (StreamState A F) B) (mT : M (StreamState A T) B)
    (mAT : M (StreamState A (AubTbxStream F T)) B) : Prop :=
  forall t f x b bT sF sT,
  mF (mkStreamState t f) = Ok (b, sF) -> mT (mkStreamState t x) = Ok (bT, sT) ->
  bT = b /\ tables sT = tables sF
  /\ mAT (mkStreamState t (mkAubTbx f x false))
     = Ok (b, mkStreamState (tables sF) (mkAubTbx (sink sF) (sink sT) false)).

Lemma tee_ret {B} (b : B) : teeSim (mret b) (mret b) (mret b).
Proof. intros t f x b1 bT sF sT [= <- <-] [= <- <-]. done. Qed.

Lemma tee_bind {B C} mF mT mAT (kF : B -> M _ C) kT kAT :
  teeSim mF mT mAT -> (forall b, teeSim (kF b) (kT b) (kAT b)) ->
  teeSim (mF ≫= kF) (mT ≫= kT) (mAT ≫= kAT).
Proof.
  intros Hm Hk t f x b bT sF sT HF HT. unfold mbind, M_bind in HF, HT |- *.
  destruct (mF _) as [[b1 [t1 f1]]|] eqn:EF; [|done].
  destruct (mT _) as [[b2 [t2 x1]]|] eqn:ET; [|done].
  destruct (Hm _ _ _ _ _ _ _ EF ET) as (-> & Ht & HAT). cbn in Ht, HAT. subst t2.
  rewrite HAT. by apply Hk.
Qed.

Lemma tee_onTables {B} (m : M (Store A) B) : teeSim (onTables m) (onTables m) (onTables m).
Proof.
  intros t f x b bT sF sT HF HT. unfold onTables in *. cbn in *.
  destruct (m t) as [[b' t']|]; [|done]. by injection HF as <- <-; injection HT as <- <-.
Qed.

Lemma tee_runWalk (m : M (WalkState A) unit) : teeSim (runWalk m) (runWalk m) (runWalk m).
Proof.
  intros t f x b bT sF sT HF HT. unfold runWalk in *. cbn in *.
  destruct (m _) as [[[] w]|]; [|done]. by injection HF as <- <-; injection HT as <- <-.
Qed.

Lemma tee_call mF mT : teeSim (onSink mF) (onSink mT) (onSink (tee mF mT)).
Proof.
  intros t f x [] [] sF sT HF HT. unfold onSink in *. cbn in *.
  destruct (mF f) as [[[] f']|] eqn:EF; [|done]. destruct (mT x) as [[[] x']|] eqn:ET; [|done].
  injection HF as <-. injection HT as <-. unfold tee, mbind, M_bind, onFile, onTbx. cbn.
  by rewrite EF; cbn; rewrite ET.
Qed.

Lemma tee_committed :
  teeSim (onSink arePageTableWritesFullyCommitted) (onSink arePageTableWritesFullyCommitted)
    (onSink arePageTableWritesFullyCommitted).
Proof.
  intros t f x b bT sF sT HF HT. rewrite (commits (Sk := F)) in HF. rewrite (commits (Sk := T)) in HT.
  by injection HF as <- <-; injection HT as <- <-.
Qed.

Lemma tee_when b mF mT mAT : (b = true -> teeSim mF mT mAT) -> teeSim (when b mF) (when b mT) (when b mAT).
Proof. intros H. destruct b; [by apply H|apply tee_ret]. Qed.

Lemma tee_cassert ndebug b : teeSim (cassert ndebug b) (cassert ndebug b) (cassert ndebug b).
Proof. unfold cassert. destruct (ndebug || b); [apply tee_ret|]. by intros ????????. Qed.

Lemma tee_mapM_ {X} (fF : X -> M _ unit) fT fAT l :
  (forall x, teeSim (fF x) (fT x) (fAT x)) -> teeSim (mapM_ fF l) (mapM_ fT l) (mapM_ fAT l).
Proof.
  intros Hf. induction l as [|x l IH]; [apply tee_ret|]. cbn [mapM_]. by apply tee_bind.
Qed.
End Tee.

(** Goes through an operation call by call. *)
Ltac tee_steps :=
  repeat (intros;
    first [ done
          | apply tee_ret | apply tee_onTables | apply tee_runWalk | apply tee_committed
          | apply tee_cassert | apply tee_call
          | apply tee_when | apply tee_mapM_ | apply tee_bind
          | progress cbv zeta | case_match ]).

Section TeeOperations.
Context {A : Type} `{!PhysicalAddressAllocator A}.
Context {F T : Type} `{!Stream F} `{!Stream T} `{!Commits F} `{!Commits T}.
Variable ndebug enablePs64 : bool.
Variable gpu : GpuOps.

Lemma tee_writePages k m n h local bits :
  teeSim (A := A) (writePages (Sk := F) k m n h local bits) (writePages (Sk := T) k m n h local bits)
    (writePages (Sk := AubTbxStream F T) k m n h local bits).
Proof. unfold writePages, writePageWalkEntries. tee_steps. Qed.

Lemma tee_cloneMemory p es ap :
  teeSim (A := A) (cloneMemory (Sk := F) ndebug enablePs64 gpu p es ap)
    (cloneMemory (Sk := T) ndebug enablePs64 gpu p es ap)
    (cloneMemory (Sk := AubTbxStream F T) ndebug enablePs64 gpu p es ap).
Proof. unfold cloneMemory. tee_steps; apply tee_writePages. Qed.

Lemma tee_runOp op :
  teeSim (A := A) (runOp (Sk := F) ndebug enablePs64 gpu op) (runOp (Sk := T) ndebug enablePs64 gpu op)
    (runOp (Sk := AubTbxStream F T) ndebug enablePs64 gpu op).
Proof.
  destruct op; cbn [runOp]; unfold gttMemoryPoll, expectMemoryGGTT, expectMemory, writeMemoryGGTT,
    writeMemory, mapGpuVa, freeMemory, writeMemoryAndClonePageTables, writePhysicalMemoryPages,
    writePpgttLevel1, writePpgttLevel2, declareContextForDumping; tee_steps;
    first [apply tee_writePages | apply tee_cloneMemory].
Qed.
End TeeOperations.

(** ** A paused capture

    The pair then runs as the simulator alone, except that it does not commit the
    writes of page tables. *)

Definition Uncommitted {T} (s : Stream T) : Stream T := {|
  addComment := addComment; writeGttPages := writeGttPages; expectMemoryTable := expectMemoryTable;
  reserveContiguousPages := reserveContiguousPages;
  readDiscontiguousPages := readDiscontiguousPages;
  writeDiscontiguousPages := writeDiscontiguousPages;
  writeDiscontiguousEntries := writeDiscontiguousEntries;
  memoryPoll := memoryPoll; registerPoll := registerPoll; writeMMIO := writeMMIO; readMMIO := readMMIO;
  writePCICFG := writePCICFG; readPCICFG := readPCICFG; declareContext := declareContext;
  dumpBufferBIN := dumpBufferBIN; dumpSurface := dumpSurface;
  arePageTableWritesFullyCommitted := mret false
|}.

Section Paused.
Context {A : Type} `{!PhysicalAddressAllocator A}.
Context {F T : Type} `{!Stream F} {sT : Stream T}.

(** [s] as the state of the pair with the file [f]. *)
Definition beside (f : F) (s : StreamState A T) : StreamState A (AubTbxStream F T) :=
  mkStreamState (tables s) (mkAubTbx f (sink s) true).

Definition pausedSim {B} (mT : M (StreamState A T) B) (mAT : M (StreamState A (AubTbxStream F T)) B)
    : Prop :=
  forall f s, mAT (beside f s)
    = match mT s with Ok (b, s') => Ok (b, beside f s') | Err e => Err e end.

Lemma paused_ret {B} (b : B) : pausedSim (mret b) (mret b).
Proof. done. Qed.

Lemma paused_bind {B C} mT mAT (kT : B -> M _ C) kAT :
  pausedSim mT mAT -> (forall b, pausedSim (kT b) (kAT b)) -> pausedSim (mT ≫= kT) (mAT ≫= kAT).
Proof.
  intros Hm Hk f s. unfold mbind, M_bind. rewrite (Hm f s). destruct (mT s) as [[b s']|]; [|done].
  apply Hk.
Qed.

Lemma paused_onTables {B} (m : M (Store A) B) : pausedSim (onTables m) (onTables m).
Proof. intros f s. unfold onTables, beside. cbn. by destruct (m (tables s)) as [[b t]|]. Qed.

Lemma paused_runWalk (m : M (WalkState A) unit) : pausedSim (runWalk m) (runWalk m).
Proof. intros f s. unfold runWalk, beside. cbn. by destruct (m _) as [[b t]|]. Qed.

Lemma paused_call mF mT : pausedSim (onSink mT) (onSink (tee mF mT)).
Proof.
  intros f s. unfold onSink, beside, tee, mbind, M_bind, onTbx. cbn.
  by destruct (mT (sink s)) as [[b t]|].
Qed.

Lemma paused_committed :
  pausedSim (onSink (arePageTableWritesFullyCommitted (Stream := Uncommitted sT)))
    (onSink arePageTableWritesFullyCommitted).
Proof. done. Qed.

Lemma paused_when b mT mAT : (b = true -> pausedSim mT mAT) -> pausedSim (when b mT) (when b mAT).
Proof. intros H. destruct b; [by apply H|apply paused_ret]. Qed.

Lemma paused_cassert ndebug b : pausedSim (cassert ndebug b) (cassert ndebug b).
Proof. unfold cassert. by destruct (ndebug || b). Qed.

Lemma paused_mapM_ {X} (fT : X -> M _ unit) fAT l :
  (forall x, pausedSim (fT x) (fAT x)) -> pausedSim (mapM_ fT l) (mapM_ fAT l).
Proof.
  intros Hf. induction l as [|x l IH]; [apply paused_ret|]. cbn [mapM_]. by apply paused_bind.
Qed.
End Paused.

Ltac paused_steps :=
  repeat (intros;
    first [ done
          | apply paused_ret | apply paused_onTables | apply paused_runWalk
          | apply paused_committed | apply paused_cassert | apply paused_call
          | apply paused_when | apply paused_mapM_ | apply paused_bind
          | progress cbv zeta | case_match ]).

Section PausedOperations.
Context {A : Type} `{!PhysicalAddressAllocator A}.
Context {F T : Type} `{!Stream F} {sT : Stream T}.
Variable ndebug enablePs64 : bool.
Variable gpu : GpuOps.

Lemma paused_writePages k m n h local bits :
  pausedSim (A := A) (F := F) (writePages (Stream0 := Uncommitted sT) k m n h local bits)
    (writePages (Sk := AubTbxStream F T) k m n h local bits).
Proof. unfold writePages, writePageWalkEntries. paused_steps. Qed.

Lemma paused_cloneMemory p es ap :
  pausedSim (A := A) (F := F)
    (cloneMemory (Stream0 := Uncommitted sT) ndebug enablePs64 gpu p es ap)
    (cloneMemory (Sk := AubTbxStream F T) ndebug enablePs64 gpu p es ap).
Proof. unfold cloneMemory. paused_steps; apply paused_writePages. Qed.

Lemma paused_runOp op :
  pausedSim (A := A) (F := F) (runOp (Stream0 := Uncommitted sT) ndebug enablePs64 gpu op)
    (runOp (Sk := AubTbxStream F T) ndebug enablePs64 gpu op).
Proof.
  destruct op; cbn [runOp]; unfold gttMemoryPoll, expectMemoryGGTT, expectMemory, writeMemoryGGTT,
    writeMemory, mapGpuVa, freeMemory, writeMemoryAndClonePageTables, writePhysicalMemoryPages,
    writePpgttLevel1, writePpgttLevel2, declareContextForDumping; paused_steps;
    first [apply paused_writePages | apply paused_cloneMemory].
Qed.
End PausedOperations.

(** ** All operations

    Those of the base class and the calls that go straight to the sink; and those
    that return something read. *)

Inductive TeeOp :=
| Operation (op : StreamOp)
| OpAddComment (message : string)
| OpDumpBufferBIN (gttType gfxAddress size handle : Z)
| OpDumpSurface (gttType : Z) (surfaceInfo : SurfaceInfo) (handle : Z).

Inductive QueryOp :=
| QueryMemory (ppgtt : loc) (gfxAddress : Z) (memory : list Z) (size memoryBanks pageSize : Z)
| QueryMemoryGGTT (ggtt : GGTT) (gfxAddress : Z) (memory : list Z) (size memoryBanks pageSize : Z)
| QueryMMIO (offset : Z)
| QueryPCICFG (offset : Z).

Section AllOperations.
Context {A : Type} `{!PhysicalAddressAllocator A}.
Variable ndebug enablePs64 : bool.
Variable gpu : GpuOps.

Definition runTeeOp {Sk} `{!Stream Sk} (op : TeeOp) : M (StreamState A Sk) unit :=
  match op with
  | Operation op => runOp ndebug enablePs64 gpu op
  | OpAddComment m => onSink (addComment m)
  | OpDumpBufferBIN g a n h => onSink (dumpBufferBIN g a n h)
  | OpDumpSurface g si h => onSink (dumpSurface g si h)
  end.

(** What is read: the bytes of the memory, or the value of the register. *)
Definition runQuery {Sk} `{!Stream Sk} (q : QueryOp) : M (StreamState A Sk) (list Z) :=
  match q with
  | QueryMemory p a m n banks ps => readMemory ndebug enablePs64 gpu p a m n banks ps
  | QueryMemoryGGTT ggtt a m n banks ps => readMemoryGGTT ndebug ggtt a m n banks ps
  | QueryMMIO o => v ← onSink (readMMIO o); mret [v]
  | QueryPCICFG o => v ← onSink (readPCICFG o); mret [v]
  end.

Section Queries.
Context {F T : Type} `{!Stream F} `{!Stream T}.

(** [s] as the state of the pair with the file [f], paused or not. *)
Definition besideAt (b : bool) (f : F) (s : StreamState A T) : StreamState A (AubTbxStream F T) :=
  mkStreamState (tables s) (mkAubTbx f (sink s) b).

Definition querySim {B} (mT : M (StreamState A T) B) (mAT : M (StreamState A (AubTbxStream F T)) B)
    : Prop :=
  forall b f s, mAT (besideAt b f s)
    = match mT s with Ok (r, s') => Ok (r, besideAt b f s') | Err e => Err e end.

Lemma query_bind {B C} mT mAT (kT : B -> M _ C) kAT :
  querySim mT mAT -> (forall r, querySim (kT r) (kAT r)) -> querySim (mT ≫= kT) (mAT ≫= kAT).
Proof.
  intros Hm Hk b f s. unfold mbind, M_bind. rewrite (Hm b f s). destruct (mT s) as [[r s']|]; [|done].
  apply Hk.
Qed.

Lemma query_ret {B} (r : B) : querySim (mret r) (mret r).
Proof. done. Qed.

Lemma query_onTables {B} (m : M (Store A) B) : querySim (onTables m) (onTables m).
Proof. intros b f s. unfold onTables, besideAt. cbn. by destruct (m (tables s)) as [[r t]|]. Qed.

Lemma query_runWalk (m : M (WalkState A) unit) : querySim (runWalk m) (runWalk m).
Proof. intros b f s. unfold runWalk, besideAt. cbn. by destruct (m _) as [[r t]|]. Qed.

Lemma query_cassert c : querySim (cassert ndebug c) (cassert ndebug c).
Proof. unfold cassert. by destruct (ndebug || c). Qed.

Lemma query_call {B} (m : M T B) : querySim (onSink m) (onSink (onTbx m)).
Proof.
  intros b f s. unfold onSink, besideAt, onTbx. cbn. by destruct (m (sink s)) as [[r t]|].
Qed.

Lemma query_runQuery q : querySim (runQuery (Sk := T) q) (runQuery (Sk := AubTbxStream F T) q).
Proof.
  destruct q; cbn [runQuery]; unfold readMemory, readMemoryGGTT;
    repeat (intros; first [ done | apply query_ret | apply query_onTables | apply query_runWalk
                          | apply query_cassert | apply query_call | apply query_bind ]).
Qed.
End Queries.

Lemma tee_runTeeOp {F T} `{!Stream F} `{!Stream T} `{!Commits F} `{!Commits T} op :
  teeSim (runTeeOp (Sk := F) op) (runTeeOp (Sk := T) op) (runTeeOp (Sk := AubTbxStream F T) op).
Proof. destruct op; [apply tee_runOp|apply tee_call..]. Qed.

Lemma paused_runTeeOp {F T} `{!Stream F} {sT : Stream T} op :
  pausedSim (F := F) (runTeeOp (Stream0 := Uncommitted sT) op) (runTeeOp (Sk := AubTbxStream F T) op).
Proof. destruct op; [apply paused_runOp|apply paused_call..]. Qed.
End AllOperations.

(** C13: The stream that captures and simulates. Every operation that writes, polls,
    expects, comments or dumps: while the capture is not paused, the capture gets what
    it gets when it is alone, the simulator what it gets when it is alone, with the
    same page tables; while it is paused, the operation, errors included, is that of
    the simulator alone with page tables that stay uncommitted, and the capture is
    untouched. Every operation that reads - memory, registers, PCI configuration -
    answers, paused or not, with what the simulator answers, errors included, and
    leaves the capture alone. *)
Theorem capture_and_simulate {A} `{!PhysicalAddressAllocator A} {F T} `{!Stream F} {sT : Stream T}
    `{!Commits F} `{!Commits T} ndebug enablePs64 gpu :
  (forall op (t : Store A) (f f' : F) (x x' : T) tF tT,
     runTeeOp ndebug enablePs64 gpu op (mkStreamState t f) = Ok (tt, mkStreamState tF f') ->
     runTeeOp ndebug enablePs64 gpu op (mkStreamState t x) = Ok (tt, mkStreamState tT x') ->
     tT = tF
     /\ runTeeOp ndebug enablePs64 gpu op (mkStreamState t (mkAubTbx f x false))
        = Ok (tt, mkStreamState tF (mkAubTbx f' x' false)))
  /\ (forall op (g : F) (s : StreamState A T),
       runTeeOp ndebug enablePs64 gpu op (mkStreamState (tables s) (mkAubTbx g (sink s) true))
       = match runTeeOp (Stream0 := Uncommitted sT) ndebug enablePs64 gpu op s with
         | Ok (r, s') => Ok (r, mkStreamState (tables s') (mkAubTbx g (sink s') true))
         | Err e => Err e
         end)
  /\ (forall q paused (g : F) (s : StreamState A T),
       runQuery ndebug enablePs64 gpu q (mkStreamState (tables s) (mkAubTbx g (sink s) paused))
       = match runQuery ndebug enablePs64 gpu q s with
         | Ok (r, s') => Ok (r, mkStreamState (tables s') (mkAubTbx g (sink s') paused))
         | Err e => Err e
         end).
Proof.
  split_and!.
  - intros op t f f' x x' tF tT HF HT.
    destruct (tee_runTeeOp ndebug enablePs64 gpu op _ _ _ _ _ _ _ HF HT) as (_ & Ht & Hrun). done.
  - intros op g s. apply (paused_runTeeOp ndebug enablePs64 gpu op g s).
  - intros q paused g s. apply (query_runQuery ndebug enablePs64 gpu q paused g s).
Qed.

(** The capture and the shared memory: a PCI configuration write that is not paused
    reaches the simulator twice and the capture never. *)
Lemma aubShm_writePCICFG_twice {F T} `{!Stream F} `{!Stream T} o v (f : F) (x x1 x2 : T) b :
  writePCICFG o v x = Ok (tt, x1) -> writePCICFG o v x1 = Ok (tt, x2) ->
  writePCICFG o v (mkAubShm (mkAubTbx f x false) b) = Ok (tt, mkAubShm (mkAubTbx f x2 false) b).
Proof.
  intros H1 H2. cbn [writePCICFG AubShm]. unfold shmWritePCICFG, mbind, M_bind, onStreams, onTbx. cbn.
  rewrite H1. cbn. by rewrite H2.
Qed.

#[export] Instance FileStream_commits ndebug : Commits AubFileStream (Stream0 := FileStream ndebug).
Proof. done. Qed.

#[export] Instance TbxStream_commits {T} `{!TbxSockets T} ndebug fuel v :
  Commits T (Stream0 := TbxStream ndebug fuel v).
Proof. done. Qed.

(** A write to the global table of a new device, to the file and over the example
    connection. *)
Section Example1.
#[local] Instance exAllocator : PhysicalAddressAllocator Simple.t := SimpleAllocatorOps false.
#[local] Existing Instances exApi.

Definition exSimulator : Stream (TbxSocketsImp ExConn) :=
  TbxStream (TbxSockets0 := TbxSocketsImpl.TbxSocketsOverTcp false) false 10 0.
#[local] Existing Instance exSimulator.
#[local] Instance exCapture : Stream AubFileStream := FileStream false.

Definition exOp : StreamOp :=
  OpWriteMemoryGGTT (mkGGTT exRoot 0 (SimpleAllocator.init 0) 0) 0x1000 (Some [1; 2; 3; 4]) 4 1 0 4096.
Definition exStore : Store Simple.t := tables (stream exNewWorld).

Definition afterOp {Sk} `{!Stream Sk} (k : Sk) : StreamState Simple.t Sk :=
  match runTeeOp false false exGpu (Operation exOp) (mkStreamState exStore k) with
  | Ok (_, s) => s
  | Err _ => mkStreamState exStore k
  end.

Lemma capture_and_simulate_witness :
  runTeeOp false false exGpu (Operation exOp) (mkStreamState exStore (mkAubTbx exFile (exImp false) false))
  = Ok (tt, mkStreamState (tables (afterOp exFile))
              (mkAubTbx (sink (afterOp exFile)) (sink (afterOp (exImp false))) false)).
Proof.
  refine (proj2 (proj1 (capture_and_simulate false false exGpu) (Operation exOp) exStore exFile
    (sink (afterOp exFile)) (exImp false) (sink (afterOp (exImp false))) (tables (afterOp exFile))
    (tables (afterOp (exImp false))) _ _)); vm_compute; reflexivity.
Defined.
End Example1.
