(* ===== verification/GpuFamily.v ===== *)
(** * What a GPU provides

    The virtual functions of [Gpu] ([gpu.h]) that the manager calls, as the class
    [GpuFamily]; a product's instance is in the file of its family. What the
    families share: the engine tables, the devices' register offsets, and the
    register file their initialization programs, as an instance of [Stream]. *)

From S2P Require Import Prelude Allocator MemoryBanks Gpu PageTable Walker AubPackets AubStream.
From S2P Require Import Settings CommandStreamer TbxSockets TbxStream.
#[local] Open Scope Z_scope.

(** [initializeDefaultMemoryPools] gets the mode of the stream, which its
    [getStreamMode] gives; addresses are [Err] when [stolenMemory] is null or its
    storage has no such device. *)
Class GpuFamily := {
  familyDescriptor : GpuDescriptor;
  familyOps : GpuOps;
  getCommandStreamerHelper : Z -> Z -> result CommandStreamerHelper;  (* device, engine *)
  getSupportedEngines : list Z;
  initializeGlobalMMIO : forall Sk, Stream Sk -> Z -> Z -> Z -> M Sk unit;
    (* devicesCount, memoryBankSize, stepping *)
  setMemoryBankSize : forall Sk, Stream Sk -> Z -> Z -> M Sk unit;
  setGGTTBaseAddresses : forall Sk, Stream Sk -> Z -> Z -> M Sk unit;
  initializeDefaultMemoryPools : forall Sk, Stream Sk -> Z -> Z -> Z -> M Sk unit;
  requireLocalMemoryForPageTables : bool;
  ppgttClass : Z -> PageTableClass;
  getContextGroupCount : Z;
  familySizes : GpuSizes;
  stolenMemory : option StolenMemory;
  isValidStolenSize : Z -> bool;  (* [isValidDataStolenMemorySize] *)
  isValidWOPCMSize : Z -> bool;
  familyGSMBaseAddress : Z -> result Z
}.

(** The state of a [Gpu] object: the overridden sizes, the stolen memory and the
    option for additional engine registers. *)
Record GpuObject := mkGpuObject {
  gpuSizes : GpuSizes;
  gpuStolenMemory : option StolenMemory;
  programAdditionalEngineMMIO : bool
}.

(** The base class's address functions on an object. *)
Definition stolenAddress (address : GpuSizes -> StolenMemory -> Z -> option Z) (ndebug : bool)
    (g : GpuObject) (device : Z) : result Z :=
  match gpuStolenMemory g with
  | Some s => match address (gpuSizes g) s device with Some a => Ok a | None => Err OutOfBounds end
  | None => Err (if ndebug then NullDereference else AssertionFailed)
  end.

(** [stolenMemory->getBaseAddress(device)]. *)
Definition stolenBaseAddress : GpuObject -> Z -> result Z :=
  stolenAddress (fun _ => getBaseAddress) true.

Definition from_result {St A} (r : result A) : M St A := fun s =>
  match r with Ok a => Ok (a, s) | Err e => Err e end.

(** ** Engines *)

(** The registers of an engine, at its offset. *)
Definition atEngine (mmioEngine : Z) (l : list (Z * Z)) : list (Z * Z) :=
  map (fun p => (u32 (mmioEngine + p.1), p.2)) l.

(** The engine classes a constructor puts into [commandStreamerHelperTable] for every
    device, with the family's class around them; other entries stay null.
    [getCommandStreamerHelper] writes [gpu] into the entry. *)
Definition tableHelper (settings : Settings) (f : CsFamily)
    (engineMMIO : EngineClass -> Z -> list (Z * Z)) (numSupportedDevices : Z)
    (table : list (Z * EngineClass)) (device engine : Z) : result CommandStreamerHelper :=
  if (0 <=? device) && (device <? numSupportedDevices)
     && (0 <=? engine) && (engine <? EngineType.NUM_ENGINES) then
    match list_find (fun p => p.1 = engine) table with
    | Some (_, (_, c)) =>
        Ok (newHelper f c device
              (engineMMIO c (u32 (u32 (device * 0x1000000) + offsetEngine c)))
              (value (Settings.ExeclistSubmitPortSubmission settings))
              (value (Settings.IndirectRingState settings)))
    | None => Err NullDereference
    end
  else Err OutOfBounds.

(** [const std::array<EngineType, n> engines = {{...}}]: the elements without an
    initializer are zero, which is [ENGINE_RCS]. *)
Definition engineArray (n : nat) (engines : list Z) : list Z := resize n EngineType.ENGINE_RCS engines.

(** ** Registers of several devices *)

(** [for (device...) { ...; mmioDevice += mmioDeviceOffset; }]. *)
Fixpoint forDevices {St} (n : nat) (mmioDevice : Z) (body : Z -> M St unit) : M St unit :=
  match n with
  | O => mret tt
  | S n' =>
      body mmioDevice ≫= fun _ => forDevices n' (u32 (mmioDevice + mmioDeviceOffset)) body
  end.

Section Writes.
Context {Sk : Type} `{!Stream Sk}.

(** The loop over a list of pairs, with the default mask. *)
Definition writePairs (mmioDevice : Z) (l : list (Z * Z)) : M Sk unit :=
  mapM_ (fun p => writeMMIO32 (u32 (mmioDevice + p.1)) p.2) l.

Definition writeMasked (l : list (Z * Z * Z)) : M Sk unit :=
  mapM_ (fun m => writeMMIO m.1.1 m.1.2 m.2) l.

(** [Gpu::initializeGlobalMMIO]. *)
Definition baseInitializeGlobalMMIO (globalMMIO platformSpecific : list (Z * Z)) : M Sk unit :=
  writeMasked (Gpu.initializeGlobalMMIO globalMMIO platformSpecific).
End Writes.

(** ** What several families do *)

Module ProductFamily.
Definition Tgllp : Z := 7.
Definition Adls : Z := 8.
Definition Adlp : Z := 9.
Definition Adln : Z := 10.
Definition Dg1 : Z := 11.
Definition Dg2 : Z := 13.
Definition Pvc : Z := 14.
Definition Mtl : Z := 15.
Definition Arl : Z := 15.
Definition Bmg : Z := 17.
Definition Lnl : Z := 18.
Definition Ptl : Z := 21.
Definition Cri : Z := 22.
Definition Nvlp : Z := 23.
End ProductFamily.

Module SteppingValues.
Definition A : Z := 0.
Definition B : Z := 1.
End SteppingValues.

Definition MEMORY_BANK_1 : Z := 2.
Definition MEMORY_BANK_2 : Z := 4.
Definition MEMORY_BANK_3 : Z := 8.

(** The value of a range register of local memory: [uint32_t value = 0;
    value |= gb << 8; value |= base << 1; value |= 1]. *)
Definition memoryRangeValue (gb base : Z) : Z :=
  let value := u32 (Z.lor 0 (u64 (Z.shiftl gb 8))) in
  let value := u32 (Z.lor value (u64 (Z.shiftl base 1))) in
  Z.lor value 1.

Section Shared.
Context {Sk : Type} `{!Stream Sk}.
Variable ndebug : bool.

(** The loop over the devices of [setMemoryBankSize]. *)
Fixpoint memoryRangeLoop (n : nat) (gb base offset : Z) : M Sk unit :=
  match n with
  | O => mret tt
  | S n' =>
      writeMMIO32 offset (memoryRangeValue gb base) ≫= fun _ =>
      memoryRangeLoop n' gb (u64 (base + gb)) (u32 (offset + 4))
  end.

(** [maxDevices] is [this->deviceCount]. *)
Definition setMemoryRanges (maxDevices deviceCount memoryBankSize : Z) : M Sk unit :=
  cassert ndebug (0 <? deviceCount) ≫= fun _ =>
  cassert ndebug (deviceCount <=? maxDevices) ≫= fun _ =>
  if 1 =? deviceCount then mret tt
  else
    let gb := memoryBankSize / GB in
    cassert ndebug (0 <? gb) ≫= fun _ =>
    cassert ndebug (gb <? 128) ≫= fun _ =>
    memoryRangeLoop (Z.to_nat deviceCount) gb 0 0x4900.

Definition gsmBase : Z := 0x108100.

(** The two registers of a global table's base address. *)
Definition writeGsmBase (base gttBase : Z) : M Sk unit :=
  writeMMIO32 (u32 (base + 4)) (u32 (Z.shiftr gttBase 32)) ≫= fun _ =>
  writeMMIO32 (u32 (base + 0)) (u32 (Z.land gttBase 0xFFF00000)).

Definition mmioDevice : list Z := [0; 16 * MB; 32 * MB; 48 * MB].

(** The base of a device's table, in its own registers and, from the second device
    on, in the first device's registers for remote devices. *)
Definition setGGTTBase (gsmBaseAddress : Z -> result Z) (device : Z) : M Sk unit :=
  gttBase ← from_result (gsmBaseAddress device);
  offset ← from_option_M OutOfBounds (mmioDevice !! Z.to_nat device);
  writeGsmBase (u32 (offset + gsmBase)) gttBase ≫= fun _ =>
  when (1 =? device) (writeGsmBase (u32 (0 + 0x108108)) gttBase) ≫= fun _ =>
  when (2 =? device) (writeGsmBase (u32 (0 + 0x108110)) gttBase) ≫= fun _ =>
  when (3 =? device) (writeGsmBase (u32 (0 + 0x108118)) gttBase).

Definition setGGTTBases (gsmBaseAddress : Z -> result Z) (maxDevices deviceCount : Z) : M Sk unit :=
  cassert ndebug (0 <? deviceCount) ≫= fun _ =>
  cassert ndebug (deviceCount <=? maxDevices) ≫= fun _ =>
  mapM_ (setGGTTBase gsmBaseAddress) (seqZ 0 deviceCount).

(** [setGGTTBaseAddresses] of the integrated products with one device. *)
Definition setOneGGTTBase (gsmBaseAddress : Z -> result Z) (numSupportedDevices maxDevices deviceCount : Z)
    : M Sk unit :=
  cassert ndebug (0 <? deviceCount) ≫= fun _ =>
  cassert ndebug (deviceCount <=? maxDevices) ≫= fun _ =>
  cassert ndebug (numSupportedDevices =? maxDevices) ≫= fun _ =>
  gttBase ← from_result (gsmBaseAddress 0);
  writeGsmBase (u32 (0 + gsmBase)) gttBase.

(** The flat CCS of the XeHpg and XeCore families. *)
Definition initializeFlatCcsBase (deviceIndex flatCcsBaseAddress : Z) : M Sk unit :=
  let mmioDevice := u32 (deviceIndex * mmioDeviceOffset) in
  let mmioValue := u32 (Z.shiftr flatCcsBaseAddress 8) in
  let mmioValue := Z.lor mmioValue 1 in
  writeMMIO32 (u32 (mmioDevice + 0x4910)) mmioValue.

Definition initializeFlatCcsPools (g : GpuObject) (mode devicesCount : Z) : M Sk unit :=
  when (IsAnyTbxMode mode)
    (mapM_ (fun i =>
       flatCcsBaseAddr ← from_result (stolenBaseAddress g i);
       initializeFlatCcsBase i flatCcsBaseAddr) (seqZ 0 devicesCount)).
End Shared.

(** ** A register file

    The device the initialization programs: it keeps the last value written to a
    register, and nothing of the other calls. *)

Abbreviation RegisterFile := (gmap Z Z).

Definition register (r : RegisterFile) (offset : Z) : Z := default 0 (r !! offset).

#[export] Instance RegisterFileStream : Stream RegisterFile := {
  addComment _ := mret tt;
  writeGttPages _ _ := mret tt;
  expectMemoryTable _ _ _ _ := mret tt;
  reserveContiguousPages _ := mret tt;
  readDiscontiguousPages memory _ _ := mret memory;
  writeDiscontiguousPages _ _ _ _ := mret tt;
  writeDiscontiguousEntries _ _ _ := mret tt;
  memoryPoll _ _ _ := mret tt;
  registerPoll _ _ _ _ _ := mret tt;
  writeMMIO o v m := modify (fun r =>
    <[o := if m =? 0xffffffff then v else maskedValue (register r o) v m]> r);
  readMMIO o := gets (fun r => register r o);
  writePCICFG _ _ := mret tt;
  readPCICFG _ := mret 0;
  declareContext _ _ := mret tt;
  dumpBufferBIN _ _ _ _ := mret tt;
  dumpSurface _ _ _ := mret tt;
  arePageTableWritesFullyCommitted := mret true
}.

(** The registers after a list of writes. *)
Definition programmed (l : list (Z * Z)) (r : RegisterFile) : RegisterFile :=
  foldl (fun r p => <[p.1 := p.2]> r) r l.

Lemma programmed_app l1 l2 r : programmed (l1 ++ l2) r = programmed l2 (programmed l1 r).
Proof. apply foldl_app. Qed.

Lemma programmed_other l r o : o ∉ map fst l -> register (programmed l r) o = register r o.
Proof.
  revert r. induction l as [|[a v] l IH]; intros r Ho; [done|]. cbn in Ho.
  rewrite not_elem_of_cons in Ho. destruct Ho as [Hne Ho].
  change (register (programmed l (<[a:=v]> r)) o = register r o). rewrite IH by done.
  unfold register. by rewrite lookup_insert_ne.
Qed.

Lemma programmed_lookup l r o v :
  NoDup (map fst l) -> (o, v) ∈ l -> register (programmed l r) o = v.
Proof.
  revert r. induction l as [|[a w] l IH]; intros r Hnd Hin; [by apply not_elem_of_nil in Hin|].
  cbn in Hnd. apply NoDup_cons in Hnd as [Ha Hnd].
  change (register (programmed l (<[a:=w]> r)) o = v).
  apply elem_of_cons in Hin as [[= -> ->]|Hin]; [|by apply IH].
  rewrite programmed_other by done. unfold register. by rewrite lookup_insert_eq.
Qed.

Lemma wp_writeMMIO32 o v (Q : unit -> RegisterFile -> Prop) r :
  Q tt (programmed [(o, v)] r) -> wp (writeMMIO32 o v) Q r.
Proof. done. Qed.

Lemma wp_writePairs d l (Q : unit -> RegisterFile -> Prop) r :
  Q tt (programmed (map (fun p => (u32 (d + p.1), p.2)) l) r) -> wp (writePairs d l) Q r.
Proof.
  revert r. induction l as [|[a v] l IH]; intros r HQ; [done|]. unfold writePairs. cbn [mapM_].
  apply wp_bind, wp_writeMMIO32, IH, HQ.
Qed.

Lemma wp_readMMIO o (Q : Z -> RegisterFile -> Prop) r :
  Q (register r o) r -> wp (readMMIO o) Q r.
Proof. done. Qed.

Lemma wp_from_result {St A} (x : result A) a (Q : A -> St -> Prop) s :
  x = Ok a -> Q a s -> wp (from_result x) Q s.
Proof. by intros ->. Qed.
