(* ===== verification/FamilyGen12LP.v ===== *)
(** * Gen12LP

    [gen12lp/command_streamer_helper_gen12lp.h] and [.cpp], and the products tgllp,
    adls, adlp, adln and dg1: one device, page tables with four legacy levels, and
    nothing of the stolen memory in use. *)

From S2P Require Import Prelude Allocator MemoryBanks Gpu PageTable Walker AubPackets AubStream.
From S2P Require Import Settings CommandStreamer TbxSockets TbxStream GpuFamily.
#[local] Open Scope Z_scope.

Module CommandStreamerHelperGen12LP.
Definition getEngineMMIO_Rcs (mmioEngine : Z) : list (Z * Z) :=
  atEngine mmioEngine
    [(0x2058, 0); (0x20a8, 0); (0x229c, 0xffff8280); (0x24d0, 0x7014); (0x24d4, 0x7304);
     (0x24d8, 0x20c8); (0x24dc, 0xd924); (0x24e0, 0x10002351); (0x24e4, 0x10002341);
     (0x24e8, 0x100320e8); (0x24ec, 0x10032260); (0x24f0, 0x10032670); (0x24f4, 0x28a0);
     (0x24f8, 0x2754); (0x24fc, 0x7010); (0x2010, 0xd922); (0x2014, 0xda12); (0x2018, 0xdb1c);
     (0x201c, 0x20006100); (0x21e0, 0); (0x21e4, 0); (0x21e8, 0); (0x21ec, 0)].

Definition getEngineMMIO_Bcs (mmioEngine : Z) : list (Z * Z) :=
  atEngine mmioEngine
    [(0x229c, 0xffff8280)].

Definition getEngineMMIO_Vcs (mmioEngine : Z) : list (Z * Z) :=
  atEngine mmioEngine
    [(0x229c, 0xffff8280); (0x24d0, 0x100320e8); (0x24d4, 0x10032260); (0x24d8, 0x10032670);
     (0x24dc, 0x10032881); (0x24e0, 0x10032861); (0x24e4, 0x10032871); (0x24e8, 0x10032891);
     (0x24ec, 0x100328a1); (0x24f0, 0x100328b1); (0x24f4, 0x100328c1); (0x24f8, 0x100328d1);
     (0x24fc, 0); (0x2010, 0); (0x2014, 0); (0x2018, 0); (0x201c, 0); (0x21e0, 0); (0x21e4, 0);
     (0x21e8, 0); (0x21ec, 0)].

Definition getEngineMMIO_Vecs (mmioEngine : Z) : list (Z * Z) :=
  atEngine mmioEngine
    [(0x229c, 0xffff8280); (0x24d0, 0x100320e8); (0x24d4, 0x10032260); (0x24d8, 0x10032670);
     (0x24dc, 0); (0x24e0, 0); (0x24e4, 0); (0x24e8, 0); (0x24ec, 0); (0x24f0, 0); (0x24f4, 0);
     (0x24f8, 0); (0x24fc, 0); (0x2010, 0); (0x2014, 0); (0x2018, 0); (0x201c, 0); (0x21e0, 0);
     (0x21e4, 0); (0x21e8, 0); (0x21ec, 0)].

Definition getEngineMMIO_Ccs (mmioEngine : Z) : list (Z * Z) :=
  atEngine mmioEngine
    [(0x229c, 0xffff8280); (0x24d0, 0x1a0c8); (0x24d4, 0xd922); (0x24d8, 0xda12);
     (0x24dc, 0xdb1c); (0x24e0, 0); (0x24e4, 0); (0x24e8, 0); (0x24ec, 0); (0x24f0, 0);
     (0x24f4, 0); (0x24f8, 0); (0x24fc, 0); (0x2010, 0); (0x2014, 0); (0x2018, 0); (0x201c, 0);
     (0x21e0, 0); (0x21e4, 0); (0x21e8, 0); (0x21ec, 0)].

(** The specializations; the family has no other engines. *)
Definition getEngineMMIO (c : EngineClass) : Z -> list (Z * Z) :=
  match c with
  | Rcs => getEngineMMIO_Rcs
  | Bcs => getEngineMMIO_Bcs
  | Vcs => getEngineMMIO_Vcs
  | Vecs => getEngineMMIO_Vecs
  | Ccs _ => getEngineMMIO_Ccs
  | Cccs | LinkBcs _ => fun _ => []
  end.
End CommandStreamerHelperGen12LP.

Module GpuGen12LP.
Definition numSupportedDevices : Z := 1.

Definition commandStreamerHelperTable : list (Z * EngineClass) :=
  [(EngineType.ENGINE_RCS, Rcs); (EngineType.ENGINE_BCS, Bcs); (EngineType.ENGINE_VCS, Vcs);
   (EngineType.ENGINE_VECS, Vecs); (EngineType.ENGINE_CCS, Ccs 0)].

Definition getCommandStreamerHelper (settings : Settings) : Z -> Z -> result CommandStreamerHelper :=
  tableHelper settings Gen12LP CommandStreamerHelperGen12LP.getEngineMMIO numSupportedDevices
    commandStreamerHelperTable.

Definition getSupportedEngines : list Z :=
  engineArray 5 [EngineType.ENGINE_RCS; EngineType.ENGINE_BCS; EngineType.ENGINE_VCS;
    EngineType.ENGINE_VECS; EngineType.ENGINE_CCS].

Definition getGlobalMMIO : list (Z * Z) :=
  [(0x2090, 0xffff0000); (0x20d8, 0x20000); (0x20e0, 0xffff4000); (0x20e4, 0xffff0000);
   (0x20ec, 0xffff0051); (0x2580, 0xffff0005); (0x4000, 8); (0x4004, 0x38); (0x4008, 0x38);
   (0x400c, 8); (0x4010, 0x18); (0x4014, 0x60038); (0x4018, 0); (0x401c, 0x33);
   (0x4020, 0x60037); (0x4024, 0x3b); (0x4028, 0x32); (0x402c, 0x36); (0x4030, 0x3a);
   (0x4034, 0x33); (0x4038, 0x37); (0x403c, 0x3b); (0x4040, 0x30); (0x4044, 0x34);
   (0x4048, 0x38); (0x404c, 0x31); (0x4050, 0x32); (0x4054, 0x36); (0x4058, 0x3a);
   (0x405c, 0x33); (0x4060, 0x37); (0x4064, 0x3b); (0x4068, 0x32); (0x406c, 0x36);
   (0x4070, 0x3a); (0x4074, 0x33); (0x4078, 0x37); (0x407c, 0x3b); (0x4080, 0x30);
   (0x4084, 0x34); (0x4088, 0x38); (0x408c, 0x31); (0x4090, 0x32); (0x4094, 0x36);
   (0x4098, 0x3a); (0x409c, 0x33); (0x40a0, 0x37); (0x40a4, 0x3b); (0x40a8, 0x32);
   (0x40ac, 0x36); (0x40b0, 0x3a); (0x40b4, 0x33); (0x40b8, 0x37); (0x40bc, 0x3b);
   (0x40c0, 0x38); (0x40c4, 0x34); (0x40c8, 0x38); (0x40cc, 0x31); (0x40d0, 0x32);
   (0x40d4, 0x36); (0x40d8, 0x3a); (0x40dc, 0x33); (0x40e0, 0x37); (0x40e4, 0x3b);
   (0x40e8, 0x32); (0x40ec, 0x36); (0x40f0, 0x38); (0x40f4, 0x38); (0x40f8, 0x38);
   (0x40fc, 0x38); (0xb020, 0x300010); (0xb024, 0x300010); (0xb028, 0x300030); (0xb02c, 0);
   (0xb030, 0x30001f); (0xb034, 0x170013); (0xb038, 0x1f); (0xb03c, 0); (0xb040, 0x100000);
   (0xb044, 0x170013); (0xb048, 0x10001f); (0xb04c, 0x170013); (0xb050, 0x30001f);
   (0xb054, 0x170013); (0xb058, 0x1f); (0xb05c, 0); (0xb060, 0x100000); (0xb064, 0x170013);
   (0xb068, 0x10001f); (0xb06c, 0x170013); (0xb070, 0x30001f); (0xb074, 0x170013);
   (0xb078, 0x1f); (0xb07c, 0); (0xb080, 0x30); (0xb084, 0x170013); (0xb088, 0x10001f);
   (0xb08c, 0x170013); (0xb090, 0x30001f); (0xb094, 0x170013); (0xb098, 0x300010);
   (0xb09c, 0x300010); (0x4100, 0); (0x4104, 0); (0x4108, 0); (0x410c, 0); (0x4110, 0);
   (0x4114, 0); (0x4118, 0); (0x411c, 0); (0x4b80, 0xffff1001); (0x7000, 0xffff0000);
   (0x7004, 0xffff0000); (0x9008, 0x200); (0x900c, 0x1b40); (0xb120, 0x14000002);
   (0xb134, 0xd0000020); (0xb234, 0xd0000020); (0xce90, 0x30003); (0xcf58, 0x80000000);
   (0xe194, 0xffff0002); (0x14800, 0x10001); (0x1a0d8, 0x20000); (0x42080, 0)].

Definition getGlobalMMIOPlatformSpecific : list (Z * Z) :=
  [(0xe48c, 0x2020202)].

Definition isMemorySupported (memoryBanks alignment : Z) : bool :=
  (memoryBanks =? MEMORY_BANK_SYSTEM) && ((alignment =? 4096) || (alignment =? 65536)).

Definition setMemoryBankSize Sk (_ : Stream Sk) (deviceCount memoryBankSize : Z) : M Sk unit :=
  writeMMIO32 0x4900 0.

Definition setGGTTBaseAddresses Sk (_ : Stream Sk) (deviceCount memoryBankSize : Z) : M Sk unit :=
  mret tt.

Definition getGSMBaseAddress (device : Z) : result Z := Ok 0.

(** The class, with the two functions that products override. *)
Definition family (descriptor : GpuDescriptor) (isMemorySupported : Z -> Z -> bool)
    (setMemoryBankSize : forall Sk, Stream Sk -> Z -> Z -> M Sk unit)
    (settings : Settings) (g : GpuObject) : GpuFamily := {|
  familyDescriptor := descriptor;
  familyOps := mkGpuOps isMemorySupported (fun _ => 0);
  GpuFamily.getCommandStreamerHelper := getCommandStreamerHelper settings;
  GpuFamily.getSupportedEngines := getSupportedEngines;
  initializeGlobalMMIO _ _ _ _ _ :=
    baseInitializeGlobalMMIO getGlobalMMIO getGlobalMMIOPlatformSpecific;
  GpuFamily.setMemoryBankSize := setMemoryBankSize;
  GpuFamily.setGGTTBaseAddresses := setGGTTBaseAddresses;
  initializeDefaultMemoryPools _ _ _ _ _ := mret tt;
  requireLocalMemoryForPageTables := false;
  ppgttClass _ := LegacyPML4;
  getContextGroupCount := 8;
  familySizes := gpuSizes g;
  stolenMemory := gpuStolenMemory g;
  isValidStolenSize := isValidDataStolenMemorySize;
  isValidWOPCMSize _ := true;
  familyGSMBaseAddress := getGSMBaseAddress
|}.
End GpuGen12LP.

Module GpuTgllp.
Definition descriptor : GpuDescriptor :=
  mkGpuDescriptor ProductFamily.Tgllp CoreFamily.Gen12lp "tgllp" 0x16 1.
Definition family : Settings -> GpuObject -> GpuFamily :=
  GpuGen12LP.family descriptor GpuGen12LP.isMemorySupported GpuGen12LP.setMemoryBankSize.
End GpuTgllp.

Module GpuAdls.
Definition descriptor : GpuDescriptor :=
  mkGpuDescriptor ProductFamily.Adls CoreFamily.Gen12lp "adls" 0x25 1.
Definition family : Settings -> GpuObject -> GpuFamily :=
  GpuGen12LP.family descriptor GpuGen12LP.isMemorySupported GpuGen12LP.setMemoryBankSize.
End GpuAdls.

Module GpuAdlp.
Definition descriptor : GpuDescriptor :=
  mkGpuDescriptor ProductFamily.Adlp CoreFamily.Gen12lp "adlp" 0x22 1.
Definition family : Settings -> GpuObject -> GpuFamily :=
  GpuGen12LP.family descriptor GpuGen12LP.isMemorySupported GpuGen12LP.setMemoryBankSize.
End GpuAdlp.

Module GpuAdln.
Definition descriptor : GpuDescriptor :=
  mkGpuDescriptor ProductFamily.Adln CoreFamily.Gen12lp "adln" 0x22 1.
Definition family : Settings -> GpuObject -> GpuFamily :=
  GpuGen12LP.family descriptor GpuGen12LP.isMemorySupported GpuGen12LP.setMemoryBankSize.
End GpuAdln.

Module GpuDg1.
Definition descriptor : GpuDescriptor :=
  mkGpuDescriptor ProductFamily.Dg1 CoreFamily.Gen12lp "dg1" 0x1e 1.

Definition isMemorySupported (memoryBanks alignment : Z) : bool :=
  let supportedBanks := Z.lor MEMORY_BANK_SYSTEM MEMORY_BANK_0 in
  let unsupportedBanks := Z.lxor MEMORY_BANKS_ALL supportedBanks in
  if negb (Z.land unsupportedBanks memoryBanks =? 0) then false
  else if negb (Z.land memoryBanks supportedBanks =? 0)
  then (alignment =? 4096) || (alignment =? 65536)
  else (alignment =? 4096) || (alignment =? 65536).

Definition setMemoryBankSize (ndebug : bool) Sk (_ : Stream Sk) (deviceCount memoryBankSize : Z)
    : M Sk unit :=
  cassert ndebug (deviceCount =? 1) ≫= fun _ =>
  cassert ndebug (deviceCount <=? Gpu.deviceCount descriptor) ≫= fun _ =>
  let gb := memoryBankSize / GB in
  cassert ndebug (0 <? gb) ≫= fun _ =>
  cassert ndebug (gb <? 128) ≫= fun _ =>
  writeMMIO32 0x4900 (memoryRangeValue gb 0).

Definition family (ndebug : bool) : Settings -> GpuObject -> GpuFamily :=
  GpuGen12LP.family descriptor isMemorySupported (setMemoryBankSize ndebug).
End GpuDg1.
