(* ===== verification/FamilyXeHpg.v ===== *)
(** * XeHpgCore

    [xe_hpg_core/command_streamer_helper_xe_hpg_core.h] and [.cpp], and the products
    dg2 and mtl. *)

From S2P Require Import Prelude Allocator MemoryBanks Gpu PageTable Walker AubPackets AubStream.
From S2P Require Import Settings CommandStreamer TbxSockets TbxStream GpuFamily.
#[local] Open Scope Z_scope.

Module CommandStreamerHelperXeHpgCore.
Definition getEngineMMIO_Rcs (mmioEngine : Z) : list (Z * Z) :=
  atEngine mmioEngine
    [(0x2058, 0); (0x20a8, 0); (0x229c, 0xffff8280); (0x209c, 0x10000000); (0x24d0, 0x40002580);
     (0x24d4, 0x7014); (0x24d8, 0x7304); (0x24dc, 0xd924); (0x24e0, 0x103860e8);
     (0x24e4, 0x10386260); (0x24e8, 0x10386670); (0x24ec, 0x20006100); (0x24f0, 0); (0x24f4, 0);
     (0x24f8, 0); (0x24fc, 0)].

Definition getEngineMMIO_Bcs (mmioEngine : Z) : list (Z * Z) :=
  atEngine mmioEngine
    [(0x229c, 0xffff8280)].

Definition getEngineMMIO_Vcs (mmioEngine : Z) : list (Z * Z) :=
  atEngine mmioEngine
    [(0x229c, 0xffff8280); (0x24d0, 0x103860e8); (0x24d4, 0x10386260); (0x24d8, 0x10386670);
     (0x24dc, 0x10386674); (0x24e0, 0x10386678); (0x24e4, 0x10386264); (0x24e8, 0x10386268);
     (0x24ec, 0x10386861); (0x24f0, 0x10386871); (0x24f4, 0x10386881); (0x24f8, 0x10386891);
     (0x24fc, 0x103868a1); (0x2010, 0x103868b1); (0x2014, 0x103868c1); (0x2018, 0x103868d1);
     (0x201c, 0); (0x21e0, 0); (0x21e4, 0); (0x21e8, 0); (0x21ec, 0)].

Definition getEngineMMIO_Vecs (mmioEngine : Z) : list (Z * Z) :=
  atEngine mmioEngine
    [(0x229c, 0xffff8280); (0x24d0, 0x103860e8); (0x24d4, 0x10386260); (0x24d8, 0x10386670);
     (0x24dc, 0); (0x24e0, 0); (0x24e4, 0); (0x24e8, 0); (0x24ec, 0); (0x24f0, 0); (0x24f4, 0);
     (0x24f8, 0); (0x24fc, 0); (0x2010, 0); (0x2014, 0); (0x2018, 0); (0x201c, 0); (0x21e0, 0);
     (0x21e4, 0); (0x21e8, 0); (0x21ec, 0)].

Definition getEngineMMIO_Ccs (mmioEngine : Z) : list (Z * Z) :=
  atEngine mmioEngine
    [(0x229c, 0xffff8280); (0x209c, 0x10000000)].

(** [assert(false)], and no registers in a release build; no table has the engine. *)
Definition getEngineMMIO_Cccs {St} (ndebug : bool) (mmioEngine : Z) : M St (list (Z * Z)) :=
  cassert ndebug false ≫= fun _ => mret [].
Definition getEngineMMIO_LinkBcs {St} (ndebug : bool) (mmioEngine : Z) : M St (list (Z * Z)) :=
  cassert ndebug false ≫= fun _ => mret [].

(** The specializations of the engines in the table. *)
Definition getEngineMMIO (c : EngineClass) : Z -> list (Z * Z) :=
  match c with
  | Rcs => getEngineMMIO_Rcs
  | Bcs => getEngineMMIO_Bcs
  | Vcs => getEngineMMIO_Vcs
  | Vecs => getEngineMMIO_Vecs
  | Ccs _ => getEngineMMIO_Ccs
  | Cccs | LinkBcs _ => fun _ => []
  end.
End CommandStreamerHelperXeHpgCore.

Module GpuXeHpgCore.
Definition numSupportedDevices : Z := 1.

Definition patIndexBit1 : Z := toBitValue [4].
Definition patIndex0 : Z := 0.
Definition patIndex2 : Z := patIndexBit1.

Definition commandStreamerHelperTable : list (Z * EngineClass) :=
  [(EngineType.ENGINE_RCS, Rcs); (EngineType.ENGINE_BCS, Bcs); (EngineType.ENGINE_VCS, Vcs);
   (EngineType.ENGINE_VECS, Vecs); (EngineType.ENGINE_CCS, Ccs 0); (EngineType.ENGINE_CCS1, Ccs 1);
   (EngineType.ENGINE_CCS2, Ccs 2); (EngineType.ENGINE_CCS3, Ccs 3)].

Definition getCommandStreamerHelper (settings : Settings) : Z -> Z -> result CommandStreamerHelper :=
  tableHelper settings XeHpgCore CommandStreamerHelperXeHpgCore.getEngineMMIO numSupportedDevices
    commandStreamerHelperTable.

Definition getSupportedEngines : list Z :=
  engineArray 4 [EngineType.ENGINE_RCS; EngineType.ENGINE_BCS; EngineType.ENGINE_CCS].

(** The index is at most 4. *)
Definition getPatIndexMmioAddr (index : Z) : Z := u32 (0x4800 + u32 (index * 4)).

Definition getGlobalMMIO : list (Z * Z) :=
  [(0x2090, 0xffff0000); (0x20d8, 0x20000); (0x20e0, 0xffff4000); (0x20e4, 0xffff0000);
   (0x20ec, 0xffff0051); (0x2580, 0xffff0005); (0x4000, 0xc); (0x4004, 0x10c);
   (0x4008, 0x130); (0x400c, 0x13c); (0x4010, 0x100); (0x4014, 0x60038); (0x4018, 0);
   (0x401c, 0x33); (0x4020, 0x60037); (0x4024, 0x3b); (0x4028, 0x32); (0x402c, 0x36);
   (0x4030, 0x3a); (0x4034, 0x33); (0x4038, 0x37); (0x403c, 0x3b); (0x4040, 0x30);
   (0x4044, 0x34); (0x4048, 0x38); (0x404c, 0x31); (0x4050, 0x32); (0x4054, 0x36);
   (0x4058, 0x3a); (0x405c, 0x33); (0x4060, 0x37); (0x4064, 0x3b); (0x4068, 0x32);
   (0x406c, 0x36); (0x4070, 0x3a); (0x4074, 0x33); (0x4078, 0x37); (0x407c, 0x3b);
   (0x4080, 0x30); (0x4084, 0x34); (0x4088, 0x38); (0x408c, 0x31); (0x4090, 0x32);
   (0x4094, 0x36); (0x4098, 0x3a); (0x409c, 0x33); (0x40a0, 0x37); (0x40a4, 0x3b);
   (0x40a8, 0x32); (0x40ac, 0x36); (0x40b0, 0x3a); (0x40b4, 0x33); (0x40b8, 0x37);
   (0x40bc, 0x3b); (0x40c0, 0x38); (0x40c4, 0x34); (0x40c8, 0x38); (0x40cc, 0x31);
   (0x40d0, 0x32); (0x40d4, 0x36); (0x40d8, 0x3a); (0x40dc, 0x33); (0x40e0, 0x37);
   (0x40e4, 0x3b); (0x40e8, 0x32); (0x40ec, 0x36); (0x40f0, 0x38); (0x40f4, 0x38);
   (0x40f8, 0x38); (0x40fc, 0x38); (0xb020, 0xd00090); (0xb024, 0xb00050); (0xb028, 0xb00010);
   (0xb02c, 0); (0xb030, 0x30001f); (0xb034, 0x170013); (0xb038, 0x1f); (0xb03c, 0);
   (0xb040, 0x100000); (0xb044, 0x170013); (0xb048, 0x10001f); (0xb04c, 0x170013);
   (0xb050, 0x30001f); (0xb054, 0x170013); (0xb058, 0x1f); (0xb05c, 0); (0xb060, 0x100000);
   (0xb064, 0x170013); (0xb068, 0x10001f); (0xb06c, 0x170013); (0xb070, 0x30001f);
   (0xb074, 0x170013); (0xb078, 0x1f); (0xb07c, 0); (0xb080, 0x9000b0); (0xb084, 0x170013);
   (0xb088, 0x10001f); (0xb08c, 0x170013); (0xb090, 0x30001f); (0xb094, 0x170013);
   (0xb098, 0x100010); (0xb09c, 0x100010); (0x4100, 0); (0x4104, 0); (0x4108, 0); (0x410c, 0);
   (0x4110, 0); (0x4114, 0); (0x4118, 0); (0x411c, 0); (0x4b80, 0xffff1001);
   (0x7000, 0xffff0000); (0x7004, 0xffff0000); (0x9008, 0x200); (0x900c, 0x1b40);
   (0xb120, 0x14000002); (0xb134, 0xa0000000); (0xb234, 0xa0000000); (0xce90, 0x30003);
   (0xcf58, 0x80000000); (0xe194, 0xffff0002); (0x14800, 0x30003); (0x14804, 0xfff0000);
   (0x1a0d8, 0x20000); (0x42080, 0)].

(** The platform's registers are written without the device's offset. *)
Definition initializeGlobalMMIO (platformSpecific : list (Z * Z)) Sk (_ : Stream Sk)
    (devicesCount memoryBankSize stepping : Z) : M Sk unit :=
  forDevices (Z.to_nat devicesCount) 0 (fun mmioDevice =>
    writePairs mmioDevice getGlobalMMIO ≫= fun _ => writePairs 0 platformSpecific).

Definition isMemorySupported (memoryBanks alignment : Z) : bool :=
  let supportedBanks := Z.lor MEMORY_BANK_SYSTEM MEMORY_BANK_0 in
  let unsupportedBanks := Z.lxor MEMORY_BANKS_ALL supportedBanks in
  if negb (Z.land unsupportedBanks memoryBanks =? 0) then false
  else if negb (Z.land memoryBanks supportedBanks =? 0)
  then (alignment =? 4096) || (alignment =? 65536)
  else (alignment =? 4096) || (alignment =? 65536).

Section Virtual.
Variable ndebug : bool.
Variable descriptor : GpuDescriptor.
Variable g : GpuObject.

Definition setMemoryBankSize Sk (_ : Stream Sk) (deviceCount memoryBankSize : Z) : M Sk unit :=
  setMemoryRanges ndebug (Gpu.deviceCount descriptor) deviceCount memoryBankSize.

Definition getGSMBaseAddress : Z -> result Z := stolenAddress Gpu.getGSMBaseAddress ndebug g.

Definition setGGTTBaseAddresses Sk (_ : Stream Sk) (deviceCount memoryBankSize : Z) : M Sk unit :=
  cassert ndebug (0 <? deviceCount) ≫= fun _ =>
  cassert ndebug (deviceCount <=? Gpu.deviceCount descriptor) ≫= fun _ =>
  cassert ndebug (numSupportedDevices =? Gpu.deviceCount descriptor) ≫= fun _ =>
  mapM_ (setGGTTBase getGSMBaseAddress) (seqZ 0 deviceCount).

Definition initializeFlatCcsBaseAddressMmio {Sk} `{!Stream Sk} (deviceIndex flatCcsBaseAddress : Z)
    : M Sk unit := initializeFlatCcsBase deviceIndex flatCcsBaseAddress.

Definition initializeDefaultMemoryPools Sk (_ : Stream Sk) (mode devicesCount memoryBankSize : Z)
    : M Sk unit := initializeFlatCcsPools g mode devicesCount.
End Virtual.

(** The class, with the functions that its products override. *)
Definition family (descriptor : GpuDescriptor) (supportedEngines : list Z)
    (isMemorySupported : Z -> Z -> bool) (getPPGTTExtraEntryBits : AdditionalParams -> Z)
    (platformSpecific : list (Z * Z))
    (initializeDefaultMemoryPools : forall Sk, Stream Sk -> Z -> Z -> Z -> M Sk unit)
    (ndebug : bool) (settings : Settings) (g : GpuObject) : GpuFamily := {|
  familyDescriptor := descriptor;
  familyOps := mkGpuOps isMemorySupported getPPGTTExtraEntryBits;
  GpuFamily.getCommandStreamerHelper := getCommandStreamerHelper settings;
  GpuFamily.getSupportedEngines := supportedEngines;
  GpuFamily.initializeGlobalMMIO := initializeGlobalMMIO platformSpecific;
  GpuFamily.setMemoryBankSize := setMemoryBankSize ndebug descriptor;
  GpuFamily.setGGTTBaseAddresses := setGGTTBaseAddresses ndebug descriptor g;
  GpuFamily.initializeDefaultMemoryPools := initializeDefaultMemoryPools;
  requireLocalMemoryForPageTables := false;
  ppgttClass _ := PML4;
  getContextGroupCount := 8;
  familySizes := gpuSizes g;
  stolenMemory := gpuStolenMemory g;
  isValidStolenSize := isValidDataStolenMemorySize;
  isValidWOPCMSize _ := true;
  familyGSMBaseAddress := getGSMBaseAddress ndebug g
|}.
End GpuXeHpgCore.

Module GpuDg2.
Definition descriptor : GpuDescriptor :=
  mkGpuDescriptor ProductFamily.Dg2 CoreFamily.XeHpgCore "dg2" 0x24 GpuXeHpgCore.numSupportedDevices.

Definition getSupportedEngines : list Z :=
  engineArray 7 [EngineType.ENGINE_RCS; EngineType.ENGINE_BCS; EngineType.ENGINE_CCS;
    EngineType.ENGINE_CCS1; EngineType.ENGINE_CCS2; EngineType.ENGINE_CCS3].

Definition getPPGTTExtraEntryBits (allocationParams : AdditionalParams) : Z :=
  toBitValue [PpgttEntryBits.atomicEnableBit].

Definition family (ndebug : bool) (settings : Settings) (g : GpuObject) : GpuFamily :=
  GpuXeHpgCore.family descriptor getSupportedEngines GpuXeHpgCore.isMemorySupported
    getPPGTTExtraEntryBits [] (GpuXeHpgCore.initializeDefaultMemoryPools g) ndebug settings g.
End GpuDg2.

Module GpuMtl.
Import GpuXeHpgCore (getPatIndexMmioAddr).
Definition descriptor : GpuDescriptor :=
  mkGpuDescriptor ProductFamily.Mtl CoreFamily.XeHpgCore "mtl" 42 GpuXeHpgCore.numSupportedDevices.

Definition getPPGTTExtraEntryBits (allocationParams : AdditionalParams) : Z :=
  let bits := toBitValue [PpgttEntryBits.atomicEnableBit] in
  Z.lor bits (if uncached allocationParams then GpuXeHpgCore.patIndex2 else GpuXeHpgCore.patIndex0).

Definition initializeDefaultMemoryPools Sk (_ : Stream Sk) (mode devicesCount memoryBankSize : Z)
    : M Sk unit := mret tt.

Definition getGlobalMMIOPlatformSpecific : list (Z * Z) :=
  [(getPatIndexMmioAddr 0, 0); (getPatIndexMmioAddr 1, 4); (getPatIndexMmioAddr 2, 0xc);
   (getPatIndexMmioAddr 3, 2); (getPatIndexMmioAddr 4, 3)].

Definition isMemorySupported (memoryBanks alignment : Z) : bool :=
  let supportedBanks := MEMORY_BANK_SYSTEM in
  let unsupportedBanks := Z.lxor MEMORY_BANKS_ALL supportedBanks in
  if negb (Z.land unsupportedBanks memoryBanks =? 0) then false
  else (alignment =? 4096) || (alignment =? 65536).

Definition family (ndebug : bool) (settings : Settings) (g : GpuObject) : GpuFamily :=
  GpuXeHpgCore.family descriptor GpuXeHpgCore.getSupportedEngines isMemorySupported
    getPPGTTExtraEntryBits getGlobalMMIOPlatformSpecific initializeDefaultMemoryPools ndebug settings g.
End GpuMtl.
