(* ===== verification/FamilyXeCore.v ===== *)
(** * XeCore and XeHpcCore

    [xe_core/command_streamer_helper_xe_core.h] and [.cpp], the base of the families
    from XeHpcCore on; [xe_hpc_core/command_streamer_helper_xe_hpc_core.h] and
    [.cpp], and the product pvc. *)

From S2P Require Import Prelude Allocator MemoryBanks Gpu PageTable Walker AubPackets AubStream.
From S2P Require Import Settings CommandStreamer TbxSockets TbxStream GpuFamily.
#[local] Open Scope Z_scope.

Module CommandStreamerHelperXeCore.
Definition getEngineMMIO_Rcs (mmioEngine : Z) : list (Z * Z) :=
  atEngine mmioEngine
    [(0x2058, 0); (0x20a8, 0); (0x229c, 0xffff8280); (0x24d0, 0x10032a83); (0x24d4, 0x10032264);
     (0x24d8, 0x10032268); (0x24dc, 0x7014); (0x24e0, 0x20006100); (0x24e4, 0xd924);
     (0x24e8, 0x2248); (0x24ec, 0x10032883); (0x24f0, 0x10032861); (0x24f4, 0x10032678);
     (0x24f8, 0x7010); (0x24fc, 0xdb1c); (0x2010, 0x7304); (0x2014, 0x10032674);
     (0x2018, 0x10032b83); (0x201c, 0x10032871); (0x21e0, 0x10032983); (0x21e4, 0); (0x21e8, 0);
     (0x21ec, 0)].

Definition getEngineMMIO_Bcs (mmioEngine : Z) : list (Z * Z) :=
  atEngine mmioEngine
    [(0x229c, 0xffff8280)].

Definition getEngineMMIO_Vcs (mmioEngine : Z) : list (Z * Z) :=
  atEngine mmioEngine
    [(0x229c, 0xffff8280); (0x24d0, 0x100320e8); (0x24d4, 0x10032260); (0x24d8, 0x10032670);
     (0x24dc, 0x10032883); (0x24e0, 0x10032861); (0x24e4, 0x10032871); (0x24e8, 0x10032891);
     (0x24ec, 0x100328a1); (0x24f0, 0x100328b1); (0x24f4, 0x100328c1); (0x24f8, 0x100328d1);
     (0x24fc, 0x10032983); (0x2010, 0x10032a83); (0x2014, 0x10032b83); (0x2018, 0x10032264);
     (0x201c, 0x10032268); (0x21e0, 0x10032674); (0x21e4, 0x10032678); (0x21e8, 0); (0x21ec, 0)].

Definition getEngineMMIO_Vecs (mmioEngine : Z) : list (Z * Z) :=
  atEngine mmioEngine
    [(0x229c, 0xffff8280); (0x24d0, 0x100320e8); (0x24d4, 0x10032260); (0x24d8, 0x10032670);
     (0x24dc, 0x10032883); (0x24e0, 0x10032861); (0x24e4, 0x10032871); (0x24e8, 0x10032983);
     (0x24ec, 0x10032a83); (0x24f0, 0x10032b83); (0x24f4, 0x10032264); (0x24f8, 0x10032268);
     (0x24fc, 0x10032674); (0x2010, 0x10032678); (0x2014, 0); (0x2018, 0); (0x201c, 0);
     (0x21e0, 0); (0x21e4, 0); (0x21e8, 0); (0x21ec, 0)].

Definition getEngineMMIO_Ccs (mmioEngine : Z) : list (Z * Z) :=
  atEngine mmioEngine
    [(0x229c, 0xffff8280); (0x24d0, 0x1a0c8); (0x24d4, 0xd922); (0x24d8, 0xda12);
     (0x24dc, 0xdb1c); (0x24e0, 0x10032264); (0x24e4, 0x10032268); (0x24e8, 0x10032674);
     (0x24ec, 0x10032678); (0x24f0, 0x10032861); (0x24f4, 0x10032871); (0x24f8, 0x10032883);
     (0x24fc, 0x10032983); (0x2010, 0x10032a83); (0x2014, 0x10032b83); (0x2018, 0x2248);
     (0x201c, 0); (0x21e0, 0); (0x21e4, 0); (0x21e8, 0); (0x21ec, 0)].

(** [assert(false)], and no registers in a release build. Every family that derives
    from XeCore overrides the function. *)
Definition getEngineMMIO_Cccs {St} (ndebug : bool) (mmioEngine : Z) : M St (list (Z * Z)) :=
  cassert ndebug false ≫= fun _ => mret [].
Definition getEngineMMIO_LinkBcs {St} (ndebug : bool) (mmioEngine : Z) : M St (list (Z * Z)) :=
  cassert ndebug false ≫= fun _ => mret [].
End CommandStreamerHelperXeCore.

Module GpuXeCore.
Definition isMemorySupported (memoryBanks alignment : Z) : bool :=
  let supportedBanks := Z.lor (Z.lor (Z.lor (Z.lor MEMORY_BANK_SYSTEM MEMORY_BANK_0) MEMORY_BANK_1)
                                MEMORY_BANK_2) MEMORY_BANK_3 in
  let unsupportedBanks := Z.lxor MEMORY_BANKS_ALL supportedBanks in
  if negb (Z.land unsupportedBanks memoryBanks =? 0) then false
  else if negb (Z.land memoryBanks supportedBanks =? 0) then alignment =? 65536
  else (alignment =? 4096) || (alignment =? 65536).

Definition allocatePPGTT (gpuAddressSpace : Z) : PageTableClass := PML4.

Section Virtual.
Variable ndebug : bool.
Variable descriptor : GpuDescriptor.
Variable g : GpuObject.

Definition setMemoryBankSize Sk (_ : Stream Sk) (deviceCount memoryBankSize : Z) : M Sk unit :=
  setMemoryRanges ndebug (Gpu.deviceCount descriptor) deviceCount memoryBankSize.

Definition getGSMBaseAddress : Z -> result Z := stolenAddress Gpu.getGSMBaseAddress ndebug g.

Definition setGGTTBaseAddresses Sk (_ : Stream Sk) (deviceCount memoryBankSize : Z) : M Sk unit :=
  setGGTTBases ndebug getGSMBaseAddress (Gpu.deviceCount descriptor) deviceCount.

Definition initializeFlatCcsBaseAddressMmio {Sk} `{!Stream Sk} (deviceIndex flatCcsBaseAddress : Z)
    : M Sk unit := initializeFlatCcsBase deviceIndex flatCcsBaseAddress.

Definition initializeDefaultMemoryPools Sk (_ : Stream Sk) (mode devicesCount memoryBankSize : Z)
    : M Sk unit := initializeFlatCcsPools g mode devicesCount.
End Virtual.
End GpuXeCore.

Module CommandStreamerHelperXeHpcCore.
Definition getEngineMMIO_Rcs (mmioEngine : Z) : list (Z * Z) :=
  atEngine mmioEngine
    [(0x2058, 0); (0x20a8, 0); (0x229c, 0xffff8280); (0x209c, 0x10000000); (0x24d0, 0x7014);
     (0x24d4, 0xe48c); (0x24d8, 0xe18c); (0x24dc, 0x4de0); (0x24e0, 0x4de4); (0x24e4, 0xf180);
     (0x24e8, 0xe194); (0x24ec, 0xe000); (0x24f0, 0xe000); (0x24f4, 0xe000); (0x24f8, 0xe000);
     (0x24fc, 0xe000)].

Definition getEngineMMIO_Cccs (mmioEngine : Z) : list (Z * Z) :=
  atEngine mmioEngine
    [(0x2058, 0); (0x20a8, 0); (0x229c, 0xffff8280); (0x209c, 0x10000000); (0x24d0, 0x7014);
     (0x24d4, 0xe48c); (0x24d8, 0xe18c); (0x24dc, 0x4de0); (0x24e0, 0x4de4); (0x24e4, 0xf180);
     (0x24e8, 0xe194); (0x24ec, 0xe000); (0x24f0, 0xe000); (0x24f4, 0xe000); (0x24f8, 0xe000);
     (0x24fc, 0xe000)].

Definition getEngineMMIO_Bcs (mmioEngine : Z) : list (Z * Z) :=
  atEngine mmioEngine
    [(0x229c, 0xffff8280)].

Definition getEngineMMIO_Vcs (mmioEngine : Z) : list (Z * Z) :=
  atEngine mmioEngine
    [(0x229c, 0xffff8280)].

Definition getEngineMMIO_Vecs (mmioEngine : Z) : list (Z * Z) :=
  atEngine mmioEngine
    [(0x229c, 0xffff8280)].

Definition getEngineMMIO_Ccs (mmioEngine : Z) : list (Z * Z) :=
  atEngine mmioEngine
    [(0x229c, 0xffff8280); (0x209c, 0x10000000); (0x24d0, 0x7014); (0x24d4, 0xe48c);
     (0x24d8, 0xe18c); (0x24dc, 0x4de0); (0x24e0, 0x4de4); (0x24e4, 0xf180); (0x24e8, 0xe194);
     (0x24ec, 0xe000); (0x24f0, 0xe000); (0x24f4, 0xe000); (0x24f8, 0xe000); (0x24fc, 0xe000)].

Definition getEngineMMIO_LinkBcs (mmioEngine : Z) : list (Z * Z) :=
  atEngine mmioEngine
    [(0x229c, 0xffff8280)].

Definition getEngineMMIO (c : EngineClass) : Z -> list (Z * Z) :=
  match c with
  | Rcs => getEngineMMIO_Rcs
  | Bcs => getEngineMMIO_Bcs
  | Vcs => getEngineMMIO_Vcs
  | Vecs => getEngineMMIO_Vecs
  | Ccs _ => getEngineMMIO_Ccs
  | Cccs => getEngineMMIO_Cccs
  | LinkBcs _ => getEngineMMIO_LinkBcs
  end.
End CommandStreamerHelperXeHpcCore.

Module GpuXeHpcCore.
Definition numSupportedDevices : Z := 4.
Definition patIndexBit0 : Z := toBitValue [3].
Definition patIndexBit1 : Z := toBitValue [4].
Definition patIndex0 : Z := 0.
Definition patIndex3 : Z := Z.lor patIndexBit0 patIndexBit1.

Definition commandStreamerHelperTable : list (Z * EngineClass) :=
  [(EngineType.ENGINE_CCCS, Cccs); (EngineType.ENGINE_RCS, Rcs); (EngineType.ENGINE_BCS, Bcs);
   (EngineType.ENGINE_VCS, Vcs); (EngineType.ENGINE_VECS, Vecs); (EngineType.ENGINE_CCS, Ccs 0);
   (EngineType.ENGINE_CCS1, Ccs 1); (EngineType.ENGINE_CCS2, Ccs 2); (EngineType.ENGINE_CCS3, Ccs 3);
   (EngineType.ENGINE_BCS1, LinkBcs 1); (EngineType.ENGINE_BCS2, LinkBcs 2);
   (EngineType.ENGINE_BCS3, LinkBcs 3); (EngineType.ENGINE_BCS4, LinkBcs 4);
   (EngineType.ENGINE_BCS5, LinkBcs 5); (EngineType.ENGINE_BCS6, LinkBcs 6);
   (EngineType.ENGINE_BCS7, LinkBcs 7); (EngineType.ENGINE_BCS8, LinkBcs 8)].

Definition allocatePPGTT (gpuAddressSpace : Z) : PageTableClass :=
  if gpuAddressSpace =? 2 ^ 57 - 1 then PML5 else PML4.

Definition getCommandStreamerHelper (settings : Settings) : Z -> Z -> result CommandStreamerHelper :=
  tableHelper settings XeCore CommandStreamerHelperXeHpcCore.getEngineMMIO numSupportedDevices
    commandStreamerHelperTable.

Definition getSupportedEngines : list Z :=
  engineArray 17 [EngineType.ENGINE_BCS; EngineType.ENGINE_VCS; EngineType.ENGINE_VECS;
    EngineType.ENGINE_CCS; EngineType.ENGINE_CCS1; EngineType.ENGINE_CCS2; EngineType.ENGINE_CCS3;
    EngineType.ENGINE_CCCS; EngineType.ENGINE_BCS1; EngineType.ENGINE_BCS2; EngineType.ENGINE_BCS3;
    EngineType.ENGINE_BCS4; EngineType.ENGINE_BCS5; EngineType.ENGINE_BCS6; EngineType.ENGINE_BCS7;
    EngineType.ENGINE_BCS8].

(** The index is at most 7. *)
Definition getPatIndexMmioAddr (index : Z) : Z := u32 (0x4800 + u32 (index * 4)).

Definition getGlobalMMIO : list (Z * Z) :=
  [(0x2090, 0xffff0000); (0x20d8, 0x20000); (0x20e0, 0xffff4000); (0x20e4, 0xffff0000);
   (0x20ec, 0xffff0051); (0x2580, 0xffff0005); (0x4000, 0xc); (0x4004, 0x10c);
   (0x4008, 0x130); (0x400c, 0x13c); (0x4010, 0x100); (0x4014, 0x60038); (0x4018, 0);
   (0x401c, 0x33); (0x4020, 0x60037); (0x4024, 0x3b); (0x4028, 0x32); (0x402c, 0x36);
   (0x4030, 0x3a); (0x4034, 0x33); (0x4038, 0x37); (0x403c, 0x3b); (0x4040, 0x30);
   (0x4044, 0x34); (0x4048, 0x38); (0x404c, 0x31); (0x4050, 0x32); (0x4054, 0x36);
   (0x4058, 0x3a); (0x405c, 0x33); (0x4060, 0x37); (0x4064, 0x3b); (0x4068, 0x32);
   (0x406c, 0x36); (0x4070, 0x3a); (0x4074, 0x33); (0x4078, 0x37); (0x407c, 0x3b);
   (0x4080, 0x30); (0x4084, 0x34); (0x4088, 0x38); (0x408c, 0x31); (0x4090, 0x32);
   (0x4094, 0x36); (0x4098, 0x3a); (0x409c, 0x33); (0x40a0, 0x37); (0x40a4, 0x3b);
   (0x40a8, 0x32); (0x40ac, 0x36); (0x40b0, 0x3a); (0x40b4, 0x33); (0x40b8, 0x37);
   (0x40bc, 0x3b); (0x40c0, 0x38); (0x40c4, 0x34); (0x40c8, 0x38); (0x40cc, 0x31);
   (0x40d0, 0x32); (0x40d4, 0x36); (0x40d8, 0x3a); (0x40dc, 0x33); (0x40e0, 0x37);
   (0x40e4, 0x3b); (0x40e8, 0x32); (0x40ec, 0x36); (0x40f0, 0x38); (0x40f4, 0x38);
   (0x40f8, 0x38); (0x40fc, 0x38); (0xb020, 0x100000); (0xb024, 0x500030); (0xb028, 0xb00010);
   (0xb02c, 0); (0xb030, 0x30001f); (0xb034, 0x170013); (0xb038, 0x1f); (0xb03c, 0);
   (0xb040, 0x100000); (0xb044, 0x170013); (0xb048, 0x10001f); (0xb04c, 0x170013);
   (0xb050, 0x30001f); (0xb054, 0x170013); (0xb058, 0x1f); (0xb05c, 0); (0xb060, 0x100000);
   (0xb064, 0x170013); (0xb068, 0x10001f); (0xb06c, 0x170013); (0xb070, 0x30001f);
   (0xb074, 0x170013); (0xb078, 0x1f); (0xb07c, 0); (0xb080, 0x9000b0); (0xb084, 0x170013);
   (0xb088, 0x10001f); (0xb08c, 0x170013); (0xb090, 0x30001f); (0xb094, 0x170013);
   (0xb098, 0x100010); (0xb09c, 0x100010); (0x4100, 0); (0x4104, 0); (0x4108, 0); (0x410c, 0);
   (0x4110, 0); (0x4114, 0); (0x4118, 0); (0x411c, 0); (0x4b80, 0xffff1001);
   (0x7000, 0xffff0000); (0x7004, 0xffff0000); (0x9008, 0x200); (0x900c, 0x1b40);
   (0xb120, 0x14000002); (0xb134, 0xa0000000); (0xb234, 0xa0000000); (0xce90, 0x30003);
   (0xcf58, 0x80000000); (0xe194, 0xffff0002); (0x14800, 0x30003); (0x14804, 0xfff0000);
   (0x1a0d8, 0x20000); (0x42080, 0); (getPatIndexMmioAddr 0, 0); (getPatIndexMmioAddr 1, 1);
   (getPatIndexMmioAddr 2, 2); (getPatIndexMmioAddr 3, 3); (getPatIndexMmioAddr 4, 6);
   (getPatIndexMmioAddr 5, 7); (getPatIndexMmioAddr 6, 0xa); (getPatIndexMmioAddr 7, 0xb)].

Definition getPPGTTExtraEntryBits (allocationParams : AdditionalParams) : Z :=
  let bits := toBitValue [PpgttEntryBits.atomicEnableBit] in
  Z.lor bits (if uncached allocationParams then patIndex0 else patIndex3).
End GpuXeHpcCore.

Module GpuPvc.
Definition descriptor : GpuDescriptor :=
  mkGpuDescriptor ProductFamily.Pvc CoreFamily.XeHpcCore "pvc" 0x27 GpuXeHpcCore.numSupportedDevices.

Definition getGlobalMMIO : list (Z * Z) :=
  [(0x2090, 0xffff0000); (0x20d8, 0x20000); (0x20e0, 0xffff4000); (0x20e4, 0xffff0000);
   (0x20ec, 0xffff0051); (0x2580, 0xffff0005); (0x4000, 8); (0x4004, 0x38); (0x4008, 0x38);
   (0x400c, 8); (0x4010, 0x18); (0x4014, 0x60038); (0x4018, 0); (0x401c, 0x33);
   (0x4020, 0x60037); (0x4024, 0x3b); (0x4028, 0x32); (0x402c, 0x36); (0x4030, 0x3a);
   (0x4034, 0x33); (0x4038, 0x37); (0x403c, 0x3b); (0x4040, 0x30); (0x4044, 0x34);
   (0x4048, 0x38); (0x404c, 0x31); (0x4050, 0x32); (0x4054, 0x36); (0x4058, 0x3a);
   (0x405c, 0x33); (0x4060, 0x37); (0x4064, 0x3b); (0x4068, 0x32); (0x406c, 0x36);
   (0x4070, 0x3a); (0x4074, 0x33); (0x4078, 0x37); (0x407c, 0x3b); (0x4080, 0x30);
   (0x4084, 0x34); (0x4088, 0x38); (0x408c, 0x31); (0x4090, 0x32); (0x4094, 0x36);
   (0x4098, 0x3a); (0x409c, 0x33); (0x40a0, 0x37); (0x40a4, 0x3b); (0x40a8, 0x32);
   (0x40ac, 0x36); (0x40b0, 0x3a); (0x40b4, 0x33); (0x40b8, 0x37); (0x40bc, 0x3b);
   (0x40c0, 0x38); (0x40c4, 0x34); (0x40c8, 0x38); (0x40cc, 0x31); (0x40d0, 0x32);
   (0x40d4, 0x36); (0x40d8, 0x3a); (0x40dc, 0x33); (0x40e0, 0x37); (0x40e4, 0x3b);
   (0x40e8, 0x32); (0x40ec, 0x36); (0x40f0, 0x38); (0x40f4, 0x38); (0x40f8, 0x38);
   (0x40fc, 0x38); (0xb020, 0x100000); (0xb024, 0x500030); (0xb028, 0xb00010); (0xb02c, 0);
   (0xb030, 0x30001f); (0xb034, 0x170013); (0xb038, 0x1f); (0xb03c, 0); (0xb040, 0x100000);
   (0xb044, 0x170013); (0xb048, 0x10001f); (0xb04c, 0x170013); (0xb050, 0x30001f);
   (0xb054, 0x170013); (0xb058, 0x1f); (0xb05c, 0); (0xb060, 0x100000); (0xb064, 0x170013);
   (0xb068, 0x10001f); (0xb06c, 0x170013); (0xb070, 0x30001f); (0xb074, 0x170013);
   (0xb078, 0x1f); (0xb07c, 0); (0xb080, 0x9000b0); (0xb084, 0x170013); (0xb088, 0x10001f);
   (0xb08c, 0x170013); (0xb090, 0x30001f); (0xb094, 0x170013); (0xb098, 0x100010);
   (0xb09c, 0x100010); (0x4100, 0); (0x4104, 0); (0x4108, 0); (0x410c, 0); (0x4110, 0);
   (0x4114, 0); (0x4118, 0); (0x411c, 0); (0x4b80, 0xffff1001); (0x7000, 0xffff0000);
   (0x7004, 0xffff0000); (0x9008, 0x200); (0x900c, 0x1b40); (0xb134, 0xa0000000);
   (0xb234, 0xa0000000); (0xce90, 0x30003); (0xcf58, 0x80000000); (0xe194, 0xffff0002);
   (0x14800, 0x30003); (0x14804, 0xfff0000); (0x1a0d8, 0x20000); (0x42080, 0)].

Definition initializeGlobalMMIO Sk (_ : Stream Sk) (devicesCount memoryBankSize stepping : Z)
    : M Sk unit :=
  forDevices (Z.to_nat devicesCount) 0 (fun mmioDevice =>
    writePairs mmioDevice getGlobalMMIO ≫= fun _ =>
    if stepping =? SteppingValues.A
    then writeMMIO32 (u32 (mmioDevice + 0xb120)) 0x54000002
    else writeMMIO32 (u32 (mmioDevice + 0xb120)) 0x14000002).

Definition family (ndebug : bool) (settings : Settings) (g : GpuObject) : GpuFamily := {|
  familyDescriptor := descriptor;
  familyOps := mkGpuOps GpuXeCore.isMemorySupported GpuXeHpcCore.getPPGTTExtraEntryBits;
  getCommandStreamerHelper := GpuXeHpcCore.getCommandStreamerHelper settings;
  getSupportedEngines := GpuXeHpcCore.getSupportedEngines;
  GpuFamily.initializeGlobalMMIO := initializeGlobalMMIO;
  setMemoryBankSize := GpuXeCore.setMemoryBankSize ndebug descriptor;
  setGGTTBaseAddresses := GpuXeCore.setGGTTBaseAddresses ndebug descriptor g;
  initializeDefaultMemoryPools := GpuXeCore.initializeDefaultMemoryPools g;
  requireLocalMemoryForPageTables := false;
  ppgttClass := GpuXeHpcCore.allocatePPGTT;
  getContextGroupCount := 8;
  familySizes := gpuSizes g;
  stolenMemory := gpuStolenMemory g;
  isValidStolenSize := isValidDataStolenMemorySize;
  isValidWOPCMSize _ := true;
  familyGSMBaseAddress := GpuXeCore.getGSMBaseAddress ndebug g
|}.
End GpuPvc.
