(* ===== verification/StolenPools.v ===== *)
(** * The memory pools of the families from Xe2 on

    What [xe2_hpg_core/command_streamer_helper_xe2_hpg_core.cpp],
    [xe3_core/command_streamer_helper_xe3_core.cpp] and
    [xe3p_core/command_streamer_helper_xe3p_core.cpp] share: the encoded sizes of the
    stolen memory and the registers of its regions. *)

From S2P Require Import Prelude Allocator MemoryBanks Gpu PageTable Walker AubPackets AubStream.
From S2P Require Import Settings CommandStreamer TbxSockets TbxStream GpuFamily.
#[local] Open Scope Z_scope.

(** [std::find_if] on a table of encodings, and [0xff] when the size is not in it. *)
Definition encodeSize (mappings : list (Z * Z)) (size : Z) : Z :=
  match list_find (fun m => m.2 = size) mappings with
  | Some (_, (code, _)) => code
  | None => 0xff
  end.

Definition sizeToGMSMappings : list (Z * Z) :=
  [(0x00, 0 * MB); (0x01, 32 * MB); (0x02, 64 * MB); (0x03, 96 * MB); (0x04, 128 * MB);
   (0xf0, 4 * MB); (0xf1, 8 * MB); (0xf2, 12 * MB); (0xf3, 16 * MB); (0xf4, 20 * MB);
   (0xf5, 24 * MB); (0xf6, 28 * MB); (0xf7, 32 * MB); (0xf8, 36 * MB); (0xf9, 40 * MB);
   (0xfa, 44 * MB); (0xfb, 48 * MB); (0xfc, 52 * MB); (0xfd, 56 * MB); (0xfe, 60 * MB)].

Definition sizeToGMS (dataStolenMemorySize : Z) : Z := encodeSize sizeToGMSMappings dataStolenMemorySize.

(** The index is at most 31. *)
Definition getPatIndexMmioAddr (index : Z) : Z :=
  let address := u32 (0x4800 + u32 (index * 4)) in
  if 8 <=? index then u32 (address + 0x28) else address.

(** The bits of [getPPGTTExtraEntryBits] that select a PAT entry. *)
Definition patIndexBit0 : Z := toBitValue [3].
Definition patIndexBit1 : Z := toBitValue [4].
Definition patIndexBit2 : Z := toBitValue [7].
Definition patIndexBit3 : Z := toBitValue [62].
Definition patIndex0 : Z := 0.
Definition patIndex3 : Z := Z.lor patIndexBit1 patIndexBit0.
Definition patIndex9 : Z := Z.lor patIndexBit3 patIndexBit0.
Definition patIndex12 : Z := Z.lor patIndexBit3 patIndexBit2.

Section Pools.
Context {Sk : Type} `{!Stream Sk}.
Variable ndebug : bool.

Definition initializeTileRangeMmio (deviceIndex lmemBaseAddress lmemSize : Z) : M Sk unit :=
  let mmioDevice := u32 (deviceIndex * mmioDeviceOffset) in
  cassert ndebug (lmemSize mod GB =? 0) ≫= fun _ =>
  cassert ndebug (lmemBaseAddress mod GB =? 0) ≫= fun _ =>
  let lmemSizeInGB := lmemSize / GB in
  let lmemBaseAddressInGB := lmemBaseAddress / GB in
  cassert ndebug (lmemSizeInGB <=? 127) ≫= fun _ =>
  let mmioVal := Z.lor (u32 (Z.shiftl (u32 lmemSizeInGB) 8)) (u32 (Z.shiftl (u32 lmemBaseAddressInGB) 1)) in
  let mmioVal := if 0 <? lmemSizeInGB then Z.lor mmioVal 1 else mmioVal in
  writeMMIO32 (u32 (mmioDevice + 0x4900)) mmioVal ≫= fun _ =>
  writeMMIO32 (u32 (mmioDevice + 0x384900)) mmioVal.

Definition initializeFlatCcsBaseAddressMmio (deviceIndex flatCcsBaseAddress size : Z) : M Sk unit :=
  let mmioDevice := u32 (deviceIndex * mmioDeviceOffset) in
  let flatCcsSize := u32 (size / (128 * KB)) in
  let flatCcsSize := Z.min flatCcsSize 0x3FF in
  (* address low *)
  cassert ndebug (Z.land flatCcsBaseAddress 0x3F =? 0) ≫= fun _ =>
  let mmioLow := u32 (Z.land flatCcsBaseAddress 0xFFFFFFFF) in
  let mmioLow := if 0 <? flatCcsSize then Z.lor mmioLow 1 else mmioLow in
  writeMMIO32 (u32 (mmioDevice + 0x8800)) mmioLow ≫= fun _ =>
  writeMMIO32 (u32 (mmioDevice + 0x1344b0)) mmioLow ≫= fun _ =>
  (* address high *)
  let addressHigh := u32 (Z.shiftr flatCcsBaseAddress 32) in
  cassert ndebug (Z.land addressHigh 0xFFFFF00 =? 0) ≫= fun _ =>
  let mmioHigh := Z.lor addressHigh (u32 (Z.shiftl flatCcsSize 14)) in
  writeMMIO32 (u32 (mmioDevice + 0x8804)) mmioHigh ≫= fun _ =>
  writeMMIO32 (u32 (mmioDevice + 0x1344b4)) mmioHigh ≫= fun _ =>
  let mmioVal := if 0 <? flatCcsSize then Z.lor 0 1 else 0 in
  writeMMIO32 (u32 (mmioDevice + 0x4910)) mmioVal ≫= fun _ =>
  writeMMIO32 (u32 (mmioDevice + 0x384910)) mmioVal.

(** [initializeDefaultMemoryPools]: its virtual functions, and the bits it adds to the
    base address of the WOPCM. *)
Variable isMemorySupported : Z -> Z -> bool.
Variable initializeFlatCcs : Z -> Z -> Z -> M Sk unit.
Variable wopcmBits : Z.
Variable g : GpuObject.

(** The registers of the stolen memory of device [i]. *)
Definition stolenRegisters (i memoryBankSize dsm : Z) : M Sk unit :=
  let at_ offset := u32 (u32 (i * mmioDeviceOffset) + offset) in
  writeMMIO32 (at_ 0x1080c0) (u32 dsm) ≫= fun _ =>
  writeMMIO32 (at_ 0x1080c4) (u32 (Z.shiftr dsm 32)) ≫= fun _ =>
  writeMMIO32 (at_ 0x108040)
    (Z.lor 0xc0 (u32 (Z.shiftl (sizeToGMS (getDSMSize (gpuSizes g))) 8))) ≫= fun _ =>
  writeMMIO32 (at_ 0xC050) 0x1f0000 ≫= fun _ =>
  writeMMIO32 (at_ 0xC340) 0x600002 ≫= fun _ =>
  let wopcmBase := u64 (memoryBankSize - getWOPCMSize (gpuSizes g)) in
  writeMMIO32 (at_ 0x1082C0) (u32 (Z.lor (Z.lor wopcmBase 0x5) wopcmBits)) ≫= fun _ =>
  writeMMIO32 (at_ 0x1082C4) (u32 (Z.shiftr wopcmBase 32)) ≫= fun _ =>
  let rc6Base := u64 (memoryBankSize - 64 * 1024) in
  writeMMIO32 (at_ 0xd48) (u32 (Z.lor rc6Base 1)) ≫= fun _ =>
  writeMMIO32 (at_ 0xd4c) (u32 (Z.shiftr rc6Base 32)) ≫= fun _ =>
  writeMMIO32 (at_ 0xd40) 0x80000001 ≫= fun _ =>
  writeMMIO32 (at_ 0x1083a0) (u32 (Z.lor (Z.shiftl 8 8) 1)).

(** The flat CCS of a device: its base and size for each L3 bank, or nothing when the
    device reports no bank. *)
Definition flatCcsOf (isLocalMemSupported : bool) (flatCcsBaseAddr flatCcsSize : Z)
    : M Sk (option (Z * Z)) :=
  if isLocalMemSupported then
    val ← readMMIO 0x9118;
    let numL3Banks := countBits (u16 (Z.shiftr val 16)) in
    if numL3Banks =? 0 then mret None
    else mret (Some (flatCcsBaseAddr / numL3Banks, flatCcsSize / numL3Banks))
  else mret (Some (flatCcsBaseAddr, flatCcsSize)).

(** The loop over the devices; [flatCcsSize] is a variable outside of it, and a
    device without L3 banks ends the function. *)
Fixpoint poolLoop (n : nat) (i mode memoryBankSize flatCcsSize : Z) : M Sk unit :=
  match n with
  | O => mret tt
  | S n' =>
      let isLocalMemSupported := isMemorySupported (MEMORY_BANK i) 0x10000 in
      dsm ← from_result (stolenAddress Gpu.getDSMBaseAddress ndebug g i);
      stolenRegisters i memoryBankSize dsm ≫= fun _ =>
      if negb (mode =? mode.aubFile) then
        flatCcsBaseAddr ← from_result (stolenBaseAddress g i);
        flat ← flatCcsOf isLocalMemSupported flatCcsBaseAddr flatCcsSize;
        match flat with
        | None => mret tt
        | Some (flatCcsBaseAddr, flatCcsSize) =>
            initializeFlatCcs i flatCcsBaseAddr flatCcsSize ≫= fun _ =>
            poolLoop n' (i + 1) mode memoryBankSize flatCcsSize
        end
      else poolLoop n' (i + 1) mode memoryBankSize flatCcsSize
  end.

Definition initializeDefaultMemoryPools (mode devicesCount memoryBankSize : Z) : M Sk unit :=
  if negb (mode =? mode.tbxShm3) && negb (mode =? mode.null) then
    poolLoop (Z.to_nat devicesCount) 0 mode memoryBankSize (memoryBankSize / 512)
  else
    when (mode =? mode.tbxShm3)
      (mapM_ (fun i =>
         initializeFlatCcs i 0 0 ≫= fun _ =>
         when (isMemorySupported (MEMORY_BANK i) 0x10000) (initializeTileRangeMmio i 0 0))
         (seqZ 0 devicesCount)).
End Pools.

(** The entry bits, with those of a cached page that is not compressed. *)
Definition extraEntryBits (uncompressedCached : Z) (allocationParams : AdditionalParams) : Z :=
  let bits := toBitValue [PpgttEntryBits.atomicEnableBit] in
  if uncached allocationParams
  then Z.lor bits (if compressionEnabled allocationParams then patIndex12 else patIndex3)
  else Z.lor bits (if compressionEnabled allocationParams then patIndex9 else uncompressedCached).

(** [isMemorySupported] of the products without local memory. *)
Definition systemMemorySupported (memoryBanks alignment : Z) : bool :=
  let supportedBanks := MEMORY_BANK_SYSTEM in
  let unsupportedBanks := Z.lxor MEMORY_BANKS_ALL supportedBanks in
  if negb (Z.land unsupportedBanks memoryBanks =? 0) then false
  else (alignment =? 4096) || (alignment =? 65536).

(** The constructor's table of the families with all engines. *)
Definition allEngines : list (Z * EngineClass) :=
  [(EngineType.ENGINE_CCCS, Cccs); (EngineType.ENGINE_RCS, Rcs); (EngineType.ENGINE_BCS, Bcs);
   (EngineType.ENGINE_VCS, Vcs); (EngineType.ENGINE_VECS, Vecs); (EngineType.ENGINE_CCS, Ccs 0);
   (EngineType.ENGINE_CCS1, Ccs 1); (EngineType.ENGINE_CCS2, Ccs 2); (EngineType.ENGINE_CCS3, Ccs 3);
   (EngineType.ENGINE_BCS1, LinkBcs 1); (EngineType.ENGINE_BCS2, LinkBcs 2);
   (EngineType.ENGINE_BCS3, LinkBcs 3); (EngineType.ENGINE_BCS4, LinkBcs 4);
   (EngineType.ENGINE_BCS5, LinkBcs 5); (EngineType.ENGINE_BCS6, LinkBcs 6);
   (EngineType.ENGINE_BCS7, LinkBcs 7); (EngineType.ENGINE_BCS8, LinkBcs 8)].
