(* ===== verification/FamilyXe3.v ===== *)
(** * Xe3Core

    [xe3_core/command_streamer_helper_xe3_core.h] and [.cpp], and the product ptl *)

From S2P Require Import Prelude Allocator MemoryBanks Gpu PageTable Walker AubPackets AubStream.
From S2P Require Import Settings CommandStreamer TbxSockets TbxStream GpuFamily FamilyXeCore StolenPools.
#[local] Open Scope Z_scope.

Module CommandStreamerHelperXe3Core.
Definition getEngineMMIO_Rcs (mmioEngine : Z) : list (Z * Z) :=
  atEngine mmioEngine
    [(0x2058, 0); (0x20a8, 0); (0x229c, 0xffff8280); (0x209c, 0x10000000); (0x24d0, 0x7304)].

Definition getEngineMMIO_Cccs (mmioEngine : Z) : list (Z * Z) :=
  atEngine mmioEngine
    [(0x2058, 0); (0x20a8, 0); (0x229c, 0xffff8280); (0x209c, 0x10000000)].

Definition getEngineMMIO_Bcs (mmioEngine : Z) : list (Z * Z) :=
  atEngine mmioEngine
    [(0x229c, 0xffff8280)].

Definition getEngineMMIO_Vcs (mmioEngine : Z) : list (Z * Z) :=
  atEngine mmioEngine
    [(0x229c, 0xffff8280); (0x24d0, 0x2920)].

Definition getEngineMMIO_Vecs (mmioEngine : Z) : list (Z * Z) :=
  atEngine mmioEngine
    [(0x229c, 0xffff8280)].

Definition getEngineMMIO_Ccs (mmioEngine : Z) : list (Z * Z) :=
  atEngine mmioEngine
    [(0x229c, 0xffff8280); (0x209c, 0x10000000)].

Definition getEngineMMIO_LinkBcs (mmioEngine : Z) : list (Z * Z) :=
  atEngine mmioEngine
    [(0x229c, 0xffff8280)].

Definition getEngineMMIO (c : EngineClass) : Z -> list (Z * Z) :=
  match c with
  | Rcs => getEngineMMIO_Rcs
  | Bcs => getEngineMMIO_Bcs
  | Vcs => getEngineMMIO_Vcs
  | Vecs => getEngineMMIO_Vecs
  | Ccs _ => getEngineMMIO_Ccs
  | Cccs => getEngineMMIO_Cccs
  | LinkBcs _ => getEngineMMIO_LinkBcs
  end.
End CommandStreamerHelperXe3Core.

Module GpuXe3Core.
Definition numSupportedDevices : Z := 1.

Definition commandStreamerHelperTable : list (Z * EngineClass) :=
  [(EngineType.ENGINE_CCCS, Cccs); (EngineType.ENGINE_RCS, Rcs); (EngineType.ENGINE_BCS, Bcs);
   (EngineType.ENGINE_VCS, Vcs); (EngineType.ENGINE_VECS, Vecs); (EngineType.ENGINE_CCS, Ccs 0);
   (EngineType.ENGINE_BCS8, LinkBcs 8)].

Definition allocatePPGTT (gpuAddressSpace : Z) : PageTableClass := PML5.

Definition getCommandStreamerHelper (settings : Settings) : Z -> Z -> result CommandStreamerHelper :=
  tableHelper settings XeCore CommandStreamerHelperXe3Core.getEngineMMIO numSupportedDevices
    commandStreamerHelperTable.

Definition getSupportedEngines : list Z :=
  engineArray 6 [EngineType.ENGINE_BCS; EngineType.ENGINE_VCS; EngineType.ENGINE_VECS;
    EngineType.ENGINE_CCS; EngineType.ENGINE_CCCS; EngineType.ENGINE_BCS8].

Definition getGlobalMMIO : list (Z * Z) :=
  [(0x4000, 0xc); (0x4004, 0x10c); (0x4008, 0x130); (0x400c, 0x13c); (0x4010, 0x100);
   (getPatIndexMmioAddr 0, 0xc); (getPatIndexMmioAddr 1, 0xe); (getPatIndexMmioAddr 2, 0xf);
   (getPatIndexMmioAddr 3, 0x3c); (getPatIndexMmioAddr 4, 0x32);
   (getPatIndexMmioAddr 5, 0x3e); (getPatIndexMmioAddr 6, 0x41c);
   (getPatIndexMmioAddr 7, 0x33); (getPatIndexMmioAddr 8, 0x30);
   (getPatIndexMmioAddr 9, 0x20c); (getPatIndexMmioAddr 10, 0x230);
   (getPatIndexMmioAddr 11, 0x61c); (getPatIndexMmioAddr 12, 0x23c);
   (getPatIndexMmioAddr 13, 0); (getPatIndexMmioAddr 14, 0x200);
   (getPatIndexMmioAddr 15, 0x614); (getPatIndexMmioAddr 16, 0x20e);
   (getPatIndexMmioAddr 20, 0x4c); (getPatIndexMmioAddr 21, 0x24c);
   (getPatIndexMmioAddr 22, 0x4e); (getPatIndexMmioAddr 23, 0x4f);
   (getPatIndexMmioAddr 24, 0x8c); (getPatIndexMmioAddr 25, 0x28c);
   (getPatIndexMmioAddr 26, 0x8e); (getPatIndexMmioAddr 27, 0x8f);
   (getPatIndexMmioAddr 28, 0xcc); (getPatIndexMmioAddr 29, 0x2cc);
   (getPatIndexMmioAddr 30, 0xce); (getPatIndexMmioAddr 31, 0xcf); (0x47fc, 0xf);
   (0x4820, 0xc); (0x2090, 0xffff0000); (0x20d8, 0x20000); (0x20e0, 0xffff4000);
   (0x20e4, 0xffff0000); (0x20ec, 0xffff0051); (0x2580, 0xffff0005); (0x4b80, 0xffff1001);
   (0x7000, 0xffff0000); (0x7004, 0xffff0000); (0x9008, 0x200); (0x900c, 0x1b40);
   (0xb120, 0x14000002); (0xb134, 0xa0000000); (0xb234, 0xa0000000); (0xce90, 0x30003);
   (0xcf58, 0x80000000); (0xe194, 0xffff0002); (0x14800, 0x30003); (0x14804, 0xfff0000);
   (0x1a0d8, 0x20000); (0x42080, 0); (0xe7c8, 0); (0x0000e7c8 + 4, 0x1000)].

Definition sizeToGMS (dataStolenMemorySize : Z) : Z :=
  encodeSize sizeToGMSMappings dataStolenMemorySize.

Definition isValidDataStolenMemorySize (dataStolenMemorySize : Z) : bool :=
  negb (sizeToGMS dataStolenMemorySize =? 0xff).


Definition getPPGTTExtraEntryBits : AdditionalParams -> Z := extraEntryBits patIndex0.

Section Pools.
Context {Sk : Type} `{!Stream Sk}.
Variable ndebug : bool.

Definition initializeTileRangeMmio : Z -> Z -> Z -> M Sk unit :=
  StolenPools.initializeTileRangeMmio ndebug.

Definition initializeFlatCcsBaseAddressMmio : Z -> Z -> Z -> M Sk unit :=
  StolenPools.initializeFlatCcsBaseAddressMmio ndebug.

Definition initializeDefaultMemoryPools (isMemorySupported : Z -> Z -> bool)
    (g : GpuObject) : Z -> Z -> Z -> M Sk unit :=
  StolenPools.initializeDefaultMemoryPools ndebug isMemorySupported initializeFlatCcsBaseAddressMmio
    (0x180) g.
End Pools.

(** The class, with the functions that its products override. *)
Definition family (descriptor : GpuDescriptor) (supportedEngines : list Z)
    (isMemorySupported : Z -> Z -> bool) (platformSpecific : list (Z * Z))
    (setGGTTBaseAddresses : forall Sk, Stream Sk -> Z -> Z -> M Sk unit)
    (ndebug : bool) (settings : Settings) (g : GpuObject) : GpuFamily := {|
  familyDescriptor := descriptor;
  familyOps := mkGpuOps isMemorySupported (getPPGTTExtraEntryBits);
  GpuFamily.getCommandStreamerHelper := getCommandStreamerHelper settings;
  GpuFamily.getSupportedEngines := supportedEngines;
  GpuFamily.initializeGlobalMMIO := (fun Sk _ _ _ _ => baseInitializeGlobalMMIO getGlobalMMIO platformSpecific);
  setMemoryBankSize := GpuXeCore.setMemoryBankSize ndebug descriptor;
  GpuFamily.setGGTTBaseAddresses := setGGTTBaseAddresses;
  GpuFamily.initializeDefaultMemoryPools Sk _ :=
    initializeDefaultMemoryPools (Sk := Sk) ndebug isMemorySupported g;
  requireLocalMemoryForPageTables := false;
  ppgttClass := allocatePPGTT;
  getContextGroupCount := 8;
  familySizes := gpuSizes g;
  stolenMemory := gpuStolenMemory g;
  isValidStolenSize := isValidDataStolenMemorySize;
  GpuFamily.isValidWOPCMSize := (fun _ => true);
  familyGSMBaseAddress := GpuXeCore.getGSMBaseAddress ndebug g
|}.
End GpuXe3Core.

Module GpuPtl.
Definition numSupportedDevices : Z := 1.

Definition descriptor : GpuDescriptor :=
  mkGpuDescriptor ProductFamily.Ptl CoreFamily.Xe3Core "ptl" 51 numSupportedDevices.

Definition setGGTTBaseAddresses (ndebug : bool) (g : GpuObject) Sk (_ : Stream Sk)
    (deviceCount memoryBankSize : Z) : M Sk unit :=
  setOneGGTTBase ndebug (GpuXeCore.getGSMBaseAddress ndebug g) numSupportedDevices
    (Gpu.deviceCount descriptor) deviceCount.

Definition isMemorySupported : Z -> Z -> bool := systemMemorySupported.

Definition family (ndebug : bool) (settings : Settings) (g : GpuObject) : GpuFamily :=
  GpuXe3Core.family descriptor GpuXe3Core.getSupportedEngines isMemorySupported []
    (setGGTTBaseAddresses ndebug g) ndebug settings g.
End GpuPtl.
