(* ===== verification/FamilyXe3p.v ===== *)
(** * Xe3pCore

    [xe3p_core/command_streamer_helper_xe3p_core.h], [.cpp] and
    [command_streamer_helper_xe3p_core_additional.cpp], and the products cri and nvlp *)

From S2P Require Import Prelude Allocator MemoryBanks Gpu PageTable Walker AubPackets AubStream.
From S2P Require Import Settings CommandStreamer TbxSockets TbxStream GpuFamily FamilyXeCore StolenPools.
#[local] Open Scope Z_scope.

Module CommandStreamerHelperXe3pCore.
Section Additional.
(* [gpu->programAdditionalEngineMMIO] *)
Variable additional : bool.

Definition appendAdditionalEngineMMIO (engineMMIO : list (Z * Z)) : list (Z * Z) := engineMMIO.

(** The end of every engine's function. *)
Definition withAdditional (engineMMIO : list (Z * Z)) : list (Z * Z) :=
  if additional then appendAdditionalEngineMMIO engineMMIO else engineMMIO.

Definition getEngineMMIO_Rcs (mmioEngine : Z) : list (Z * Z) :=
  withAdditional (atEngine mmioEngine
    [(0x2058, 0); (0x20a8, 0); (0x229c, 0xffff8280); (0x209c, 0x10000000); (0x24d0, 0x7304)]).

Definition getEngineMMIO_Cccs (mmioEngine : Z) : list (Z * Z) :=
  withAdditional (atEngine mmioEngine
    [(0x2058, 0); (0x20a8, 0); (0x229c, 0xffff8280); (0x209c, 0x10000000)]).

Definition getEngineMMIO_Bcs (mmioEngine : Z) : list (Z * Z) :=
  withAdditional (atEngine mmioEngine
    [(0x229c, 0xffff8284)]).

Definition getEngineMMIO_Vcs (mmioEngine : Z) : list (Z * Z) :=
  withAdditional (atEngine mmioEngine
    [(0x229c, 0xffff8280); (0x24d0, 0x2920)]).

Definition getEngineMMIO_Vecs (mmioEngine : Z) : list (Z * Z) :=
  withAdditional (atEngine mmioEngine
    [(0x229c, 0xffff8280)]).

Definition getEngineMMIO_Ccs (mmioEngine : Z) : list (Z * Z) :=
  withAdditional (atEngine mmioEngine
    [(0x229c, 0xffff8284); (0x209c, 0x10000000)]).

Definition getEngineMMIO_LinkBcs (mmioEngine : Z) : list (Z * Z) :=
  withAdditional (atEngine mmioEngine
    [(0x229c, 0xffff8284)]).

Definition getEngineMMIO (c : EngineClass) : Z -> list (Z * Z) :=
  match c with
  | Rcs => getEngineMMIO_Rcs
  | Bcs => getEngineMMIO_Bcs
  | Vcs => getEngineMMIO_Vcs
  | Vecs => getEngineMMIO_Vecs
  | Ccs _ => getEngineMMIO_Ccs
  | Cccs => getEngineMMIO_Cccs
  | LinkBcs _ => getEngineMMIO_LinkBcs
  end.
End Additional.
End CommandStreamerHelperXe3pCore.

Module GpuXe3pCore.
Definition numSupportedDevices : Z := 4.

Definition commandStreamerHelperTable : list (Z * EngineClass) :=
  allEngines.

Definition allocatePPGTT (gpuAddressSpace : Z) : PageTableClass := PML5.

Definition getCommandStreamerHelper (settings : Settings) (g : GpuObject) : Z -> Z -> result CommandStreamerHelper :=
  tableHelper settings Xe3pCore
    (CommandStreamerHelperXe3pCore.getEngineMMIO (programAdditionalEngineMMIO g)) numSupportedDevices
    commandStreamerHelperTable.

Definition getSupportedEngines : list Z :=
  engineArray 17 [EngineType.ENGINE_BCS; EngineType.ENGINE_VCS; EngineType.ENGINE_VECS;
    EngineType.ENGINE_CCS; EngineType.ENGINE_CCS1; EngineType.ENGINE_CCS2; EngineType.ENGINE_CCS3;
    EngineType.ENGINE_CCCS; EngineType.ENGINE_BCS1; EngineType.ENGINE_BCS2; EngineType.ENGINE_BCS3;
    EngineType.ENGINE_BCS4; EngineType.ENGINE_BCS5; EngineType.ENGINE_BCS6; EngineType.ENGINE_BCS7;
    EngineType.ENGINE_BCS8].

Definition getGlobalMMIO : list (Z * Z) :=
  [(0x4b80, 0xffff1001); (0x7000, 0xffff0000); (0x7004, 0xffff0000); (0x9008, 0x200);
   (0x900c, 0x1b40); (0xb120, 0x14000002); (0xb134, 0xa0000000); (0xb234, 0xa0000000);
   (0xce90, 0x30003); (0xcf58, 0x80000000); (0xe194, 0xffff0002); (0x14800, 0x10001);
   (0x14804, 0xfff0000); (0x1a0d8, 0x20000); (0x42080, 0)].

Definition sizeToGMS (dataStolenMemorySize : Z) : Z :=
  encodeSize sizeToGMSMappings dataStolenMemorySize.

Definition isValidDataStolenMemorySize (dataStolenMemorySize : Z) : bool :=
  negb (sizeToGMS dataStolenMemorySize =? 0xff).

Definition sizeToPAVPCMappings : list (Z * Z) :=
  [(0, 1 * MB); (1, 2 * MB); (2, 4 * MB); (3, 8 * MB); (5, 16 * MB); (6, 32 * MB)].

Definition sizeToPAVPC (wopcmMemorySize : Z) : Z := encodeSize sizeToPAVPCMappings wopcmMemorySize.

Definition isValidWOPCMSize (wopcmSize : Z) : bool := negb (sizeToPAVPC wopcmSize =? 0xff).

Definition initializeFlatCcsBaseAddressMmio Sk (_ : Stream Sk)
    (deviceIndex flatCcsBaseAddress size : Z) : M Sk unit := mret tt.

Definition getContextGroupCount : Z := 64.


Definition patIndexBit4 : Z := toBitValue [61].
Definition patIndex18 : Z := Z.lor patIndexBit4 patIndexBit1.

Definition getPPGTTExtraEntryBits (settings : Settings) : AdditionalParams -> Z :=
  extraEntryBits (if value (AppTransientForUncompressedCachedPages settings) then patIndex18
                  else patIndex0).

Definition initializeGlobalMMIO (platformSpecific : list (Z * Z)) Sk (_ : Stream Sk)
    (devicesCount memoryBankSize stepping : Z) : M Sk unit :=
  forDevices (Z.to_nat devicesCount) 0 (fun mmioDevice =>
    writePairs mmioDevice getGlobalMMIO ≫= fun _ =>
    writePairs mmioDevice platformSpecific).

Section Pools.
Context {Sk : Type} `{!Stream Sk}.
Variable ndebug : bool.

Definition initializeTileRangeMmio : Z -> Z -> Z -> M Sk unit :=
  StolenPools.initializeTileRangeMmio ndebug.

Definition initializeDefaultMemoryPools (isMemorySupported : Z -> Z -> bool)
    (initializeFlatCcs : Z -> Z -> Z -> M Sk unit) (g : GpuObject) : Z -> Z -> Z -> M Sk unit :=
  StolenPools.initializeDefaultMemoryPools ndebug isMemorySupported initializeFlatCcs
    (u32 (Z.shiftl (sizeToPAVPC (getWOPCMSize (gpuSizes g))) 7)) g.
End Pools.

(** The class, with the functions that its products override. *)
Definition family (descriptor : GpuDescriptor) (supportedEngines : list Z)
    (isMemorySupported : Z -> Z -> bool) (platformSpecific : list (Z * Z))
    (setGGTTBaseAddresses : forall Sk, Stream Sk -> Z -> Z -> M Sk unit)
    (initializeFlatCcsBaseAddressMmio : forall Sk, Stream Sk -> Z -> Z -> Z -> M Sk unit)
    (ndebug : bool) (settings : Settings) (g : GpuObject) : GpuFamily := {|
  familyDescriptor := descriptor;
  familyOps := mkGpuOps isMemorySupported (getPPGTTExtraEntryBits settings);
  GpuFamily.getCommandStreamerHelper := getCommandStreamerHelper settings g;
  GpuFamily.getSupportedEngines := supportedEngines;
  GpuFamily.initializeGlobalMMIO := (initializeGlobalMMIO platformSpecific);
  setMemoryBankSize := GpuXeCore.setMemoryBankSize ndebug descriptor;
  GpuFamily.setGGTTBaseAddresses := setGGTTBaseAddresses;
  GpuFamily.initializeDefaultMemoryPools Sk _ :=
    initializeDefaultMemoryPools (Sk := Sk) ndebug isMemorySupported (initializeFlatCcsBaseAddressMmio Sk _) g;
  requireLocalMemoryForPageTables := false;
  ppgttClass := allocatePPGTT;
  GpuFamily.getContextGroupCount := getContextGroupCount;
  familySizes := gpuSizes g;
  stolenMemory := gpuStolenMemory g;
  isValidStolenSize := isValidDataStolenMemorySize;
  GpuFamily.isValidWOPCMSize := isValidWOPCMSize;
  familyGSMBaseAddress := GpuXeCore.getGSMBaseAddress ndebug g
|}.
End GpuXe3pCore.

Module GpuCri.
Definition descriptor : GpuDescriptor :=
  mkGpuDescriptor ProductFamily.Cri CoreFamily.Xe3pCore "cri" 0 GpuXe3pCore.numSupportedDevices.

Definition getGlobalMMIOPlatformSpecific : list (Z * Z) :=
  [(0x4000, 0xc); (0x4004, 0x13c); (0x4008, 0x10c); (0x400c, 0x130); (0x4010, 0x100);
   (getPatIndexMmioAddr 0, 0); (getPatIndexMmioAddr 1, 2); (getPatIndexMmioAddr 2, 3);
   (getPatIndexMmioAddr 3, 0x3c); (getPatIndexMmioAddr 4, 0x3e);
   (getPatIndexMmioAddr 5, 0x30); (getPatIndexMmioAddr 6, 0x32);
   (getPatIndexMmioAddr 7, 0x33); (getPatIndexMmioAddr 8, 0xc); (getPatIndexMmioAddr 9, 0xe);
   (getPatIndexMmioAddr 10, 0xf); (getPatIndexMmioAddr 23, 0x40);
   (getPatIndexMmioAddr 24, 0x42); (getPatIndexMmioAddr 25, 0x43);
   (getPatIndexMmioAddr 26, 0x80); (getPatIndexMmioAddr 27, 0x82);
   (getPatIndexMmioAddr 28, 0x83); (getPatIndexMmioAddr 29, 0xc0);
   (getPatIndexMmioAddr 30, 0xc2); (getPatIndexMmioAddr 31, 0xc3); (0x47fc, 3); (0x4820, 0)].

Definition getSupportedEngines : list Z :=
  engineArray 15 [EngineType.ENGINE_BCS; EngineType.ENGINE_VCS; EngineType.ENGINE_VECS;
    EngineType.ENGINE_CCS; EngineType.ENGINE_CCS1; EngineType.ENGINE_CCS2; EngineType.ENGINE_CCS3;
    EngineType.ENGINE_BCS1; EngineType.ENGINE_BCS2; EngineType.ENGINE_BCS3;
    EngineType.ENGINE_BCS4; EngineType.ENGINE_BCS5; EngineType.ENGINE_BCS6; EngineType.ENGINE_BCS7;
    EngineType.ENGINE_BCS8].

Definition isMemorySupported (memoryBanks alignment : Z) : bool :=
  let supportedBanks := Z.lor (Z.lor (Z.lor (Z.lor MEMORY_BANK_SYSTEM MEMORY_BANK_0) MEMORY_BANK_1)
                                MEMORY_BANK_2) MEMORY_BANK_3 in
  let unsupportedBanks := Z.lxor MEMORY_BANKS_ALL supportedBanks in
  if negb (Z.land unsupportedBanks memoryBanks =? 0) then false
  else if negb (Z.land memoryBanks supportedBanks =? 0)
  then (alignment =? 65536) || (alignment =? 2 * MB)
  else (alignment =? 4096) || (alignment =? 65536).

Definition family (ndebug : bool) (settings : Settings) (g : GpuObject) : GpuFamily :=
  GpuXe3pCore.family descriptor getSupportedEngines isMemorySupported getGlobalMMIOPlatformSpecific
    (GpuXeCore.setGGTTBaseAddresses ndebug descriptor g)
    GpuXe3pCore.initializeFlatCcsBaseAddressMmio ndebug settings g.
End GpuCri.

Module GpuNvlp.
Definition numSupportedDevices : Z := 1.

Definition descriptor : GpuDescriptor :=
  mkGpuDescriptor ProductFamily.Nvlp CoreFamily.Xe3pCore "nvlp" 0 numSupportedDevices.

Definition getWOPCMDefaultSize : Z := 16 * 1024 * 1024.

Definition getGlobalMMIOPlatformSpecific : list (Z * Z) :=
  [(0x4000, 0xc); (0x4004, 0x10c); (0x4008, 0x130); (0x400c, 0x13c); (0x4010, 0x100);
   (getPatIndexMmioAddr 0, 0xc); (getPatIndexMmioAddr 1, 0xe); (getPatIndexMmioAddr 2, 0xf);
   (getPatIndexMmioAddr 3, 0x3c); (getPatIndexMmioAddr 4, 0x32);
   (getPatIndexMmioAddr 5, 0x3e); (getPatIndexMmioAddr 6, 0x41c);
   (getPatIndexMmioAddr 7, 0x33); (getPatIndexMmioAddr 8, 0x30);
   (getPatIndexMmioAddr 9, 0x20c); (getPatIndexMmioAddr 10, 0x230);
   (getPatIndexMmioAddr 11, 0x61c); (getPatIndexMmioAddr 12, 0x23c);
   (getPatIndexMmioAddr 13, 0); (getPatIndexMmioAddr 14, 0x200);
   (getPatIndexMmioAddr 15, 0x614); (getPatIndexMmioAddr 16, 0x20e);
   (getPatIndexMmioAddr 18, 0x42c); (getPatIndexMmioAddr 19, 0x42e);
   (getPatIndexMmioAddr 20, 0x4c); (getPatIndexMmioAddr 21, 0x24c);
   (getPatIndexMmioAddr 22, 0x4e); (getPatIndexMmioAddr 23, 0x4f);
   (getPatIndexMmioAddr 24, 0x8c); (getPatIndexMmioAddr 25, 0x28c);
   (getPatIndexMmioAddr 26, 0x8e); (getPatIndexMmioAddr 27, 0x8f);
   (getPatIndexMmioAddr 28, 0xcc); (getPatIndexMmioAddr 29, 0x2cc);
   (getPatIndexMmioAddr 30, 0xce); (getPatIndexMmioAddr 31, 0xcf); (0x47fc, 0xf); (0x4820, 3)].

Definition setGGTTBaseAddresses (ndebug : bool) (g : GpuObject) Sk (_ : Stream Sk)
    (deviceCount memoryBankSize : Z) : M Sk unit :=
  setOneGGTTBase ndebug (GpuXeCore.getGSMBaseAddress ndebug g) numSupportedDevices
    (Gpu.deviceCount descriptor) deviceCount.

Definition isMemorySupported : Z -> Z -> bool := systemMemorySupported.

Definition initializeFlatCcsBaseAddressMmio (ndebug : bool) Sk (_ : Stream Sk) : Z -> Z -> Z -> M Sk unit :=
  StolenPools.initializeFlatCcsBaseAddressMmio ndebug.

Definition family (ndebug : bool) (settings : Settings) (g : GpuObject) : GpuFamily :=
  GpuXe3pCore.family descriptor GpuXe3pCore.getSupportedEngines isMemorySupported
    getGlobalMMIOPlatformSpecific (setGGTTBaseAddresses ndebug g)
    (initializeFlatCcsBaseAddressMmio ndebug) ndebug settings g.
End GpuNvlp.
