(* ===== verification/Products.v ===== *)
(** * The products

    [family_mapper.h], [family_mapper.cpp] and the [enable_product_*.cpp] files: the
    table of the products that a build enables, filled by static objects before
    [main], and the access to it. A class of GPUs is its members after construction
    and its virtual functions on an object. *)

From S2P Require Import Prelude Allocator MemoryBanks Gpu PageTable Walker AubPackets AubStream.
From S2P Require Import Settings CommandStreamer TbxSockets TbxStream GpuFamily.
From S2P Require Import FamilyGen12LP FamilyXeHpg FamilyXeCore StolenPools FamilyXe2 FamilyXe3 FamilyXe3p.
#[local] Open Scope Z_scope.

(** [initialSizes]: [getWOPCMDefaultSize], [getGSMSize] and no overrides. *)
Record GpuClass := mkGpuClass {
  initialSizes : GpuSizes;
  familyOf : bool -> Settings -> GpuObject -> GpuFamily  (* NDEBUG, the settings *)
}.

(** [std::make_unique<GpuX>()]. *)
Definition construct (c : GpuClass) : GpuObject := mkGpuObject (initialSizes c) None false.

Definition withoutNdebug (f : Settings -> GpuObject -> GpuFamily) (_ : bool) := f.

Definition nvlpSizes : GpuSizes :=
  mkGpuSizes GpuNvlp.getWOPCMDefaultSize (getGSMSize baseGpuSizes) 0 0.

(** The specializations of [enableGpu]. *)
Definition enableTgllp : GpuClass := mkGpuClass baseGpuSizes (withoutNdebug GpuTgllp.family).
Definition enableAdls : GpuClass := mkGpuClass baseGpuSizes (withoutNdebug GpuAdls.family).
Definition enableAdlp : GpuClass := mkGpuClass baseGpuSizes (withoutNdebug GpuAdlp.family).
Definition enableAdln : GpuClass := mkGpuClass baseGpuSizes (withoutNdebug GpuAdln.family).
Definition enableDg1 : GpuClass := mkGpuClass baseGpuSizes GpuDg1.family.
Definition enableDg2 : GpuClass := mkGpuClass baseGpuSizes GpuDg2.family.
Definition enablePvc : GpuClass := mkGpuClass baseGpuSizes GpuPvc.family.
Definition enableMtl : GpuClass := mkGpuClass baseGpuSizes GpuMtl.family.
Definition enableBmg : GpuClass := mkGpuClass baseGpuSizes GpuBmg.family.
Definition enableLnl : GpuClass := mkGpuClass baseGpuSizes GpuLnl.family.
Definition enablePtl : GpuClass := mkGpuClass baseGpuSizes GpuPtl.family.
Definition enableCri : GpuClass := mkGpuClass baseGpuSizes GpuCri.family.
Definition enableNvlp : GpuClass := mkGpuClass nvlpSizes GpuNvlp.family.

(** ** The table *)

(** [productFamilyTable], a null pointer before the first registration. *)
Abbreviation ProductFamilyTable := (option (gmap Z GpuClass)).

(** The constructor of [RegisterFamily]. *)
Definition registerFamily (productFamily : Z) (createGpuFunc : GpuClass) (productFamilyTable : ProductFamilyTable)
    : ProductFamilyTable :=
  Some (<[productFamily := createGpuFunc]> (default ∅ productFamilyTable)).

(** The static objects of the files for the products. *)
Definition registerFamilyTgllp : ProductFamilyTable -> ProductFamilyTable :=
  registerFamily ProductFamily.Tgllp enableTgllp.
Definition registerFamilyAdls : ProductFamilyTable -> ProductFamilyTable :=
  registerFamily ProductFamily.Adls enableAdls.
Definition registerFamilyAdlp : ProductFamilyTable -> ProductFamilyTable :=
  registerFamily ProductFamily.Adlp enableAdlp.
Definition registerFamilyAdln : ProductFamilyTable -> ProductFamilyTable :=
  registerFamily ProductFamily.Adln enableAdln.
Definition registerFamilyDg1 : ProductFamilyTable -> ProductFamilyTable :=
  registerFamily ProductFamily.Dg1 enableDg1.
Definition registerFamilyDg2 : ProductFamilyTable -> ProductFamilyTable :=
  registerFamily ProductFamily.Dg2 enableDg2.
Definition registerFamilyPvc : ProductFamilyTable -> ProductFamilyTable :=
  registerFamily ProductFamily.Pvc enablePvc.
Definition registerFamilyMtl : ProductFamilyTable -> ProductFamilyTable :=
  registerFamily ProductFamily.Mtl enableMtl.
Definition registerFamilyBmg : ProductFamilyTable -> ProductFamilyTable :=
  registerFamily ProductFamily.Bmg enableBmg.
Definition registerFamilyLnl : ProductFamilyTable -> ProductFamilyTable :=
  registerFamily ProductFamily.Lnl enableLnl.
Definition registerFamilyPtl : ProductFamilyTable -> ProductFamilyTable :=
  registerFamily ProductFamily.Ptl enablePtl.
Definition registerFamilyCri : ProductFamilyTable -> ProductFamilyTable :=
  registerFamily ProductFamily.Cri enableCri.
Definition registerFamilyNvlp : ProductFamilyTable -> ProductFamilyTable :=
  registerFamily ProductFamily.Nvlp enableNvlp.

(** Every product of the sources, with its static object; the build files choose
    among them. *)
Definition registrations : list (Z * GpuClass * (ProductFamilyTable -> ProductFamilyTable)) :=
  [(ProductFamily.Tgllp, enableTgllp, registerFamilyTgllp); (ProductFamily.Adls, enableAdls, registerFamilyAdls);
   (ProductFamily.Adlp, enableAdlp, registerFamilyAdlp); (ProductFamily.Adln, enableAdln, registerFamilyAdln);
   (ProductFamily.Dg1, enableDg1, registerFamilyDg1); (ProductFamily.Dg2, enableDg2, registerFamilyDg2);
   (ProductFamily.Pvc, enablePvc, registerFamilyPvc); (ProductFamily.Mtl, enableMtl, registerFamilyMtl);
   (ProductFamily.Bmg, enableBmg, registerFamilyBmg); (ProductFamily.Lnl, enableLnl, registerFamilyLnl);
   (ProductFamily.Ptl, enablePtl, registerFamilyPtl); (ProductFamily.Cri, enableCri, registerFamilyCri);
   (ProductFamily.Nvlp, enableNvlp, registerFamilyNvlp)].

(** The constructors that run before [main], in an order the linker chooses. *)
Definition staticInitialization (constructors : list (ProductFamilyTable -> ProductFamilyTable))
    : ProductFamilyTable := foldl (fun table f => f table) None constructors.

Definition getGpu (productFamilyTable : ProductFamilyTable) (productFamily : Z)
    : result (option GpuClass) :=
  match productFamilyTable with
  | None => Err NullDereference
  | Some table => Ok (table !! productFamily)
  end.

(** ** Which products a build has

    Each static object writes its own entry, so the table depends on the set of the
    enabled products and not on the order of the constructors. *)

Lemma registrations_NoDup : NoDup (map (fun r => r.1.1) registrations).
Proof. by apply (bool_decide_unpack _). Qed.

Lemma registrations_register : Forall (fun r => r.2 = registerFamily r.1.1 r.1.2) registrations.
Proof. by repeat constructor. Qed.

Lemma registrations_same r1 r2 : r1 ∈ registrations -> r2 ∈ registrations ->
  r1.1.1 = r2.1.1 -> r1.1.2 = r2.1.2.
Proof.
  intros H1 H2 He. apply list_elem_of_lookup in H1 as [i H1]. apply list_elem_of_lookup in H2 as [j H2].
  assert (i = j) as ->.
  { apply (NoDup_lookup _ i j r1.1.1 registrations_NoDup); rewrite list_lookup_fmap; [by rewrite H1|].
    by rewrite H2, He. }
  rewrite H1 in H2. by injection H2 as ->.
Qed.

(** The entries after some registrations. *)
Lemma foldl_register l table r :
  incl l registrations -> r ∈ l ->
  exists t, foldl (fun table f => f table) table (map snd l) = Some t
    /\ t !! r.1.1 = Some r.1.2.
Proof.
  revert table. induction l as [|r' l IH] using rev_ind; intros table Hl Hr.
  { by apply not_elem_of_nil in Hr. }
  rewrite map_app, foldl_app. cbn.
  assert (Hin : r' ∈ registrations) by (apply list_elem_of_In, Hl, in_app_iff; right; by left).
  rewrite (proj1 (Forall_forall _ _) registrations_register r' Hin).
  eexists. split; [done|]. destruct (decide (r'.1.1 = r.1.1)) as [He|He].
  - rewrite He, lookup_insert_eq. f_equal. apply registrations_same; [done| |done].
    apply list_elem_of_In, Hl, list_elem_of_In, Hr.
  - rewrite lookup_insert_ne by done. apply elem_of_app in Hr as [Hr|Hr].
    + destruct (IH table) as (t & -> & Ht); [|done|done]. intros x Hx. apply Hl, in_app_iff. by left.
    + apply list_elem_of_singleton in Hr as ->. done.
Qed.

(** getGpu on the table that static initialization builds from any sequence of the
    products' registrations finds exactly the products in the sequence, each with its
    own class, in whatever order the constructors ran; with no product at all the
    table is a null pointer, which getGpu dereferences. *)
Theorem getGpu_enabled l p :
  incl l registrations ->
  (l <> [] ->
    (forall r, r ∈ l -> getGpu (staticInitialization (map snd l)) r.1.1 = Ok (Some r.1.2))
    /\ (p ∉ map (fun r => r.1.1) l -> getGpu (staticInitialization (map snd l)) p = Ok None))
  /\ (l = [] -> getGpu (staticInitialization (map snd l)) p = Err NullDereference).
Proof.
  intros Hl. split; [|by intros ->]. intros Hne. unfold staticInitialization. split.
  - intros r Hr. destruct (foldl_register l None r Hl Hr) as (t & -> & Ht). cbn. by rewrite Ht.
  - assert (Hgo : forall l table, incl l registrations -> p ∉ map (fun r => r.1.1) l ->
      default ∅ (foldl (fun table f => f table) table (map snd l)) !! p
        = (default ∅ table : gmap Z GpuClass) !! p).
    { clear. intros l. induction l as [|r l IH]; intros table Hl Hp; [done|]. cbn.
      cbn in Hp. rewrite not_elem_of_cons in Hp. destruct Hp as [Hpr Hp].
      rewrite IH by (auto; intros x Hx; apply Hl; by right).
      rewrite (proj1 (Forall_forall _ _) registrations_register r)
        by (apply list_elem_of_In, Hl; by left).
      cbn. by rewrite lookup_insert_ne by done. }
    intros Hp. specialize (Hgo l None Hl Hp). destruct l as [|r l]; [done|].
    destruct (foldl_register (r :: l) None r Hl) as (t & Ht & _); [by left|].
    rewrite Ht in *. cbn in *. by rewrite Hgo.
Qed.

(** A build with Ptl and Bmg: both are found, and Dg1 is not. *)
Lemma getGpu_enabled_witness :
  let l := [(ProductFamily.Ptl, enablePtl, registerFamilyPtl); (ProductFamily.Bmg, enableBmg, registerFamilyBmg)] in
  incl l registrations /\ l <> []
  /\ getGpu (staticInitialization (map snd l)) ProductFamily.Ptl = Ok (Some enablePtl)
  /\ getGpu (staticInitialization (map snd l)) ProductFamily.Dg1 = Ok None.
Proof.
  intros l. assert (Hl : incl l registrations).
  { intros x [<-|[<-|[]]]; [do 10 right|do 8 right]; left; reflexivity. }
  split; [exact Hl|]. split; [done|].
  destruct (getGpu_enabled l ProductFamily.Dg1 Hl) as [H _]. destruct H as [Hr Hn]; [done|]. split.
  - assert (Hin : (ProductFamily.Ptl, enablePtl, registerFamilyPtl) ∈ l) by apply list_elem_of_here.
    exact (Hr _ Hin).
  - apply Hn. apply (bool_decide_unpack _). vm_compute. exact I.
Defined.
