(* ===== verification/FamilyTheory.v ===== *)
(** * Correctness of the products

    What the products of [Products] program into a device: the helpers of the
    supported engines, the registers of the global and of the stolen memory, the
    ranges of local memory, and the entries of the page attribute table that page
    table entries select. A program of register writes is described by the list of
    its writes, so that a register holds the value of its only write. *)

From S2P Require Import Prelude Allocator MemoryBanks Gpu PageTable Walker AubPackets AubStream.
From S2P Require Import Settings CommandStreamer TbxSockets TbxStream GpuFamily TableTheory.
From S2P Require Import FamilyGen12LP FamilyXeHpg FamilyXeCore StolenPools FamilyXe2 FamilyXe3 FamilyXe3p.
From S2P Require Import Products.
#[local] Open Scope Z_scope.

(** ** Programs of register writes *)

(** [m] writes the list [l], whatever the registers hold. *)
Definition writes (m : M RegisterFile unit) (l : list (Z * Z)) : Prop :=
  forall r, m r = Ok (tt, programmed l r).

Lemma writes_nil : writes (mret tt) [].
Proof. done. Qed.

Lemma writes_bind m k l1 l2 : writes m l1 -> writes (k tt) l2 -> writes (m ≫= k) (l1 ++ l2).
Proof. intros H1 H2 r. unfold mbind, M_bind. by rewrite H1, H2, programmed_app. Qed.

Lemma writes_bindf {A} (x : result A) a (k : A -> M RegisterFile unit) l :
  x = Ok a -> writes (k a) l -> writes (from_result x ≫= k) l.
Proof. intros -> H r. apply H. Qed.

Lemma writes_bindo {A} e (o : option A) a (k : A -> M RegisterFile unit) l :
  o = Some a -> writes (k a) l -> writes (from_option_M e o ≫= k) l.
Proof. intros -> H r. apply H. Qed.

Lemma writes_cassert ndebug b k l :
  b = true -> writes (k tt) l -> writes (cassert ndebug b ≫= k) l.
Proof. intros -> H r. unfold cassert. destruct ndebug; apply H. Qed.

Lemma writes_when b m l : writes m l -> writes (when b m) (if b then l else []).
Proof. by destruct b. Qed.

Lemma writes_MMIO32 o v : writes (writeMMIO32 o v) [(o, v)].
Proof. done. Qed.

Lemma writes_pairs d l : writes (writePairs d l) (map (fun p => (u32 (d + p.1), p.2)) l).
Proof.
  induction l as [|p l IH]; [done|].
  exact (writes_bind _ _ [_] _ (writes_MMIO32 _ _) IH).
Qed.

Lemma writes_base l1 l2 : writes (baseInitializeGlobalMMIO l1 l2) (l1 ++ l2).
Proof.
  unfold baseInitializeGlobalMMIO, Gpu.initializeGlobalMMIO. rewrite <- map_app.
  induction (l1 ++ l2) as [|[o v] l IH]; [done|]. exact (writes_bind _ _ [_] _ (writes_MMIO32 _ _) IH).
Qed.

Lemma writes_mapM {X} (f : X -> M RegisterFile unit) g l :
  (forall x, x ∈ l -> writes (f x) (g x)) -> writes (mapM_ f l) (concat (map g l)).
Proof.
  induction l as [|x l IH]; intros H; [done|]. cbn. apply writes_bind.
  - apply H, list_elem_of_here.
  - apply IH. intros y Hy. by apply H, list_elem_of_further.
Qed.

(** The devices' offsets, in order. *)
Definition deviceOffsets (n : nat) (mmioDevice : Z) : list Z :=
  map (fun i => u32 (mmioDevice + Z.of_nat i * mmioDeviceOffset)) (seq 0 n).

Lemma writes_forDevices n body g : forall mmioDevice,
  (forall d, writes (body d) (g d)) -> 0 <= mmioDevice -> mmioDevice + Z.of_nat n * mmioDeviceOffset <= 2 ^ 32 ->
  writes (forDevices n mmioDevice body) (concat (map g (deviceOffsets n mmioDevice))).
Proof.
  change mmioDeviceOffset with 16777216.
  induction n as [|n IH]; intros d Hb Hd Hn; [done|]. cbn [forDevices].
  assert (Hs : deviceOffsets (S n) d = d :: deviceOffsets n (u32 (d + mmioDeviceOffset))).
  { unfold deviceOffsets. change mmioDeviceOffset with 16777216. cbn [seq map]. f_equal.
    - rewrite wrap_small; unfold in_width; lia.
    - rewrite <- seq_shift, map_map. apply map_ext. intros i.
      unfold wrap. rewrite Zplus_mod_idemp_l. f_equal. lia. }
  rewrite Hs. cbn [map concat]. apply writes_bind; [apply Hb|].
  destruct n as [|n]; [apply writes_nil|]. change mmioDeviceOffset with 16777216 in *.
  rewrite (wrap_small 32 (d + 16777216)) by (unfold in_width; lia). apply IH; [done|lia|lia].
Qed.

(** Reading a register back. *)
Lemma writes_wp m l r (Q : RegisterFile -> Prop) :
  writes m l -> Q (programmed l r) -> wp m (fun _ r' => Q r') r.
Proof. intros H HQ. unfold wp. by rewrite H. Qed.

(** What evaluation decides: the offsets are distinct and the write is in the list. *)
Lemma programmed_read l r o v :
  Is_true (bool_decide (NoDup (map fst l))) -> In (o, v) l -> register (programmed l r) o = v.
Proof.
  intros Hnd%bool_decide_unpack Hin. apply programmed_lookup; [done|]. by apply list_elem_of_In.
Qed.

(** ** Engines *)

(** The engines of different addresses: only the compute command streamer of the
    render engine shares the render engine's registers. *)
Definition sameRegisters (e1 e2 : Z) : bool :=
  (e1 =? e2) || ((e1 =? EngineType.ENGINE_RCS) && (e2 =? EngineType.ENGINE_CCCS))
  || ((e1 =? EngineType.ENGINE_CCCS) && (e2 =? EngineType.ENGINE_RCS)).

Definition helperCheck (f : GpuFamily) (device engine : Z) : bool :=
  match @getCommandStreamerHelper f device engine with
  | Ok h =>
      (engineType h =? engine)
      && (device * mmioDeviceOffset <=? mmioEngine h)
      && (mmioEngine h + 0x3000 <=? (device + 1) * mmioDeviceOffset)
  | Err _ => false
  end.

Definition disjointCheck (f : GpuFamily) (d1 e1 d2 e2 : Z) : bool :=
  match @getCommandStreamerHelper f d1 e1, @getCommandStreamerHelper f d2 e2 with
  | Ok h1, Ok h2 =>
      ((d1 =? d2) && sameRegisters e1 e2)
      || (mmioEngine h1 + 0x1000 <=? mmioEngine h2) || (mmioEngine h2 + 0x1000 <=? mmioEngine h1)
  | _, _ => false
  end.

Definition devicesOf (f : GpuFamily) : list Z := seqZ 0 (Gpu.deviceCount (@familyDescriptor f)).

Definition enginesCheck (f : GpuFamily) : bool :=
  forallb (fun d1 => forallb (fun e1 =>
    helperCheck f d1 e1
    && forallb (fun d2 => forallb (fun e2 => disjointCheck f d1 e1 d2 e2) (@getSupportedEngines f))
         (devicesOf f)) (@getSupportedEngines f)) (devicesOf f).

Lemma all_engines_check ndebug settings g :
  Forall (fun r => enginesCheck (familyOf r.1.2 ndebug settings g) = true) registrations.
Proof. repeat (apply Forall_cons; split); try apply Forall_nil_2; vm_compute; reflexivity. Qed.

(** C17: On every product, each supported engine of each device has a helper of that
    engine type whose registers lie in the device's window, and the register blocks
    of two engines overlap only for the render engine and its compute streamer. *)
Theorem supported_engines_well_typed r ndebug settings g d1 d2 e1 e2 :
  r ∈ registrations ->
  let f := familyOf r.1.2 ndebug settings g in
  0 <= d1 < Gpu.deviceCount (@familyDescriptor f) -> 0 <= d2 < Gpu.deviceCount (@familyDescriptor f) ->
  isEngineSupported (@getSupportedEngines f) e1 = true ->
  isEngineSupported (@getSupportedEngines f) e2 = true ->
  exists h1 h2,
    @getCommandStreamerHelper f d1 e1 = Ok h1 /\ @getCommandStreamerHelper f d2 e2 = Ok h2
    /\ engineType h1 = e1 /\ engineType h2 = e2
    /\ d1 * mmioDeviceOffset <= mmioEngine h1 /\ mmioEngine h1 + 0x3000 <= (d1 + 1) * mmioDeviceOffset
    /\ (d1 = d2 /\ sameRegisters e1 e2 = true
        \/ mmioEngine h1 + 0x1000 <= mmioEngine h2 \/ mmioEngine h2 + 0x1000 <= mmioEngine h1).
Proof.
  intros Hr f Hd1 Hd2 He1%bool_decide_eq_true_1 He2%bool_decide_eq_true_1.
  pose proof (proj1 (Forall_forall _ _) (all_engines_check ndebug settings g) r Hr) as Hc.
  change (enginesCheck f = true) in Hc. unfold enginesCheck in Hc.
  assert (Hin : forall d, 0 <= d < Gpu.deviceCount (@familyDescriptor f) -> In d (devicesOf f)).
  { intros d Hd. apply list_elem_of_In, elem_of_seqZ. lia. }
  rewrite forallb_forall in Hc.
  assert (Hh : forall d e, In d (devicesOf f) -> In e (@getSupportedEngines f) -> helperCheck f d e = true).
  { intros d e Hd He. specialize (Hc d Hd). rewrite forallb_forall in Hc.
    specialize (Hc e He). by apply andb_prop in Hc as [Hc _]. }
  assert (Hdis : disjointCheck f d1 e1 d2 e2 = true).
  { specialize (Hc d1 (Hin _ Hd1)). rewrite forallb_forall in Hc.
    specialize (Hc e1 (proj1 (list_elem_of_In _ _) He1)). apply andb_prop in Hc as [_ Hc].
    rewrite forallb_forall in Hc. specialize (Hc d2 (Hin _ Hd2)). rewrite forallb_forall in Hc.
    by apply Hc, list_elem_of_In. }
  pose proof (Hh d1 e1 (Hin _ Hd1) (proj1 (list_elem_of_In _ _) He1)) as H1.
  pose proof (Hh d2 e2 (Hin _ Hd2) (proj1 (list_elem_of_In _ _) He2)) as H2.
  unfold helperCheck, disjointCheck in *.
  destruct (@getCommandStreamerHelper f d1 e1) as [h1|]; [|done].
  destruct (@getCommandStreamerHelper f d2 e2) as [h2|]; [|done].
  exists h1, h2. rewrite !andb_true_iff, ?orb_true_iff, ?andb_true_iff in *.
  rewrite ?Z.eqb_eq, ?Z.leb_le in *. tauto.
Qed.

(** The last copy engine of the fourth tile of cri, and a compute engine of the first. *)
Lemma supported_engines_well_typed_witness :
  let f := GpuCri.family true defaultSettings (construct enableCri) in
  exists h1 h2,
    @getCommandStreamerHelper f 3 EngineType.ENGINE_BCS8 = Ok h1
    /\ @getCommandStreamerHelper f 0 EngineType.ENGINE_CCS = Ok h2
    /\ engineType h1 = EngineType.ENGINE_BCS8
    /\ (mmioEngine h1 + 0x1000 <= mmioEngine h2 \/ mmioEngine h2 + 0x1000 <= mmioEngine h1).
Proof.
  intros f.
  assert (Hr : (ProductFamily.Cri, enableCri, registerFamilyCri) ∈ registrations)
    by (apply (list_elem_of_lookup_2 _ 11); reflexivity).
  destruct (supported_engines_well_typed _ true defaultSettings (construct enableCri) 3 0
    EngineType.ENGINE_BCS8 EngineType.ENGINE_CCS Hr) as (h1 & h2 & H1 & H2 & H3 & _ & _ & _ & H4).
  - split; [discriminate|reflexivity].
  - split; [discriminate|reflexivity].
  - vm_compute. reflexivity.
  - vm_compute. reflexivity.
  - exists h1, h2. split; [exact H1|]. split; [exact H2|]. split; [exact H3|].
    destruct H4 as [[H4 _]|H4]; [discriminate H4|exact H4].
Defined.
