(* ===== verification/FamilyRegisters.v ===== *)
(** * Registers of the memory of the products

    The registers that the families from XeHpg on program when a simulator is
    connected, read back with the fields the hardware decodes: the bases of the
    global tables, the ranges of local memory, the regions of the stolen memory and
    the entries of the page attribute table. *)

From S2P Require Import Prelude Allocator MemoryBanks Gpu PageTable Walker AubPackets AubStream.
From S2P Require Import Settings CommandStreamer TbxSockets TbxStream GpuFamily TableTheory.
From S2P Require Import FamilyGen12LP FamilyXeHpg FamilyXeCore StolenPools FamilyXe2 FamilyXe3 FamilyXe3p.
From S2P Require Import Products FamilyTheory.
#[local] Open Scope Z_scope.

(** A product that is not of the Gen12LP family. *)
Definition hasRanges (f : GpuFamily) : bool :=
  CoreFamily.Gen12lp <? gfxCoreFamily (@familyDescriptor f).

(** Case analysis on a product, without those of Gen12LP. *)
Lemma product_cases p ndebug settings g :
  p ∈ registrations -> hasRanges (familyOf p.1.2 ndebug settings g) = true -> p ∈ drop 5 registrations.
Proof.
  intros Hp. unfold registrations in Hp.
  repeat (apply elem_of_cons in Hp as [->|Hp]; [intros Hf; vm_compute in Hf; discriminate Hf|]).
  done.
Qed.

Ltac case_product Hp Hf :=
  apply product_cases in Hf; [|exact Hp]; clear Hp;
  repeat (apply elem_of_cons in Hf as [->|Hf]); [..|by apply not_elem_of_nil in Hf].

(** The number of devices of a product, evaluated. *)
Ltac count_devices Hn :=
  match type of Hn with
  | context [Gpu.deviceCount ?d] =>
      let v := eval vm_compute in (Gpu.deviceCount d) in change (Gpu.deviceCount d) with v in Hn
  end.

(** Membership in a list of writes with offsets that evaluate. *)
Ltac in_writes := repeat (first [left; reflexivity | right]).

(** An assertion on a number of devices. *)
Ltac pass_assert :=
  apply writes_cassert;
  [first [reflexivity | apply Z.ltb_lt; cbn in *; lia | apply Z.leb_le; cbn in *; lia]|].

(** ** Bases of the global tables *)

Lemma gsm_low a : (2 ^ 20 | a) -> Z.land a 0xFFF00000 = a mod 2 ^ 32.
Proof.
  intros [k ->]. change 0xFFF00000 with (Z.shiftl (Z.ones 12) 20). apply Z.bits_inj'. intros i Hi.
  rewrite Z.land_spec, Z.shiftl_spec by done. rewrite <- Z.shiftl_mul_pow2 by lia.
  rewrite Z.shiftl_spec by done. destruct (Z.lt_ge_cases i 32).
  - rewrite Z.mod_pow2_bits_low, Z.shiftl_spec by lia. destruct (Z.lt_ge_cases i 20).
    + by rewrite !(Z.testbit_neg_r _ (i - 20)) by lia.
    + rewrite Z.ones_spec_low by lia. by rewrite andb_true_r.
  - rewrite Z.mod_pow2_bits_high by lia. rewrite Z.ones_spec_high by lia. apply andb_false_r.
Qed.

Lemma gsm_parts a : (2 ^ 20 | a) -> in_width 64 a ->
  u32 (Z.shiftr a 32) * 2 ^ 32 + u32 (Z.land a 0xFFF00000) = a.
Proof.
  intros Ha [H0 H1]. rewrite gsm_low by done. rewrite Z.shiftr_div_pow2 by lia.
  assert (0 <= a mod 2 ^ 32 < 2 ^ 32) by (apply Z.mod_pos_bound; lia).
  assert (0 <= a / 2 ^ 32 < 2 ^ 32).
  { split; [by apply Z.div_pos; lia|]. apply Z.div_lt_upper_bound; lia. }
  rewrite !wrap_small by (unfold in_width; lia). pose proof (Z.div_mod a (2 ^ 32)). lia.
Qed.

(** The writes of [setGGTTBase]. *)
Definition gsmWrites (base gttBase : Z) : list (Z * Z) :=
  [(u32 (base + 4), u32 (Z.shiftr gttBase 32)); (u32 (base + 0), u32 (Z.land gttBase 0xFFF00000))].

Definition ggttWrites (a : Z -> Z) (device : Z) : list (Z * Z) :=
  gsmWrites (u32 (device * mmioDeviceOffset + gsmBase)) (a device)
  ++ (if 1 =? device then gsmWrites 0x108108 (a device) else [])
  ++ (if 2 =? device then gsmWrites 0x108110 (a device) else [])
  ++ (if 3 =? device then gsmWrites 0x108118 (a device) else []).

Lemma writes_gsm base a : writes (writeGsmBase base a) (gsmWrites base a).
Proof. exact (writes_bind _ _ [_] [_] (writes_MMIO32 _ _) (writes_MMIO32 _ _)). Qed.

Lemma writes_ggtt gsm a device : 0 <= device < 4 -> gsm device = Ok (a device) ->
  writes (setGGTTBase gsm device) (ggttWrites a device).
Proof.
  intros Hd Ha. unfold setGGTTBase. apply (writes_bindf _ (a device)); [done|].
  apply (writes_bindo _ _ (device * mmioDeviceOffset)).
  { assert (device ∈ [0;1;2;3]) as Hin by (rewrite !elem_of_cons; lia).
    rewrite !elem_of_cons, elem_of_nil in Hin. by repeat (destruct Hin as [->|Hin]; [done|]). }
  unfold ggttWrites. apply writes_bind; [apply writes_gsm|].
  repeat (apply writes_bind; [apply writes_when, writes_gsm|]). apply writes_when, writes_gsm.
Qed.

Lemma writes_ggtts gsm a n : 0 <= n <= 4 -> (forall d, 0 <= d < n -> gsm d = Ok (a d)) ->
  writes (mapM_ (setGGTTBase gsm) (seqZ 0 n)) (concat (map (ggttWrites a) (seqZ 0 n))).
Proof.
  intros Hn Ha. apply writes_mapM. intros d Hd%elem_of_seqZ. apply writes_ggtt; [lia|]. apply Ha. lia.
Qed.

(** The registers of device [d] and, on the first device, those for the remote device [d]. *)
Definition gsmRegister (r : RegisterFile) (base : Z) : Z :=
  register r (base + 4) * 2 ^ 32 + register r base.

Definition ggttProgrammed (a : Z -> Z) (n : Z) (r : RegisterFile) : Prop :=
  forall d, 0 <= d < n ->
    gsmRegister r (d * mmioDeviceOffset + gsmBase) = a d
    /\ gsmRegister r (gsmBase + d * 8) = a d.

Lemma ggtts_read a n r : 0 < n <= 4 ->
  (forall d, 0 <= d < n -> (2 ^ 20 | a d) /\ in_width 64 (a d)) ->
  ggttProgrammed a n (programmed (concat (map (ggttWrites a) (seqZ 0 n))) r).
Proof.
  intros Hn Ha d Hd. rewrite <- (gsm_parts (a d)) by apply Ha, Hd. unfold gsmRegister.
  assert (n ∈ [1;2;3;4]) as Hin by (rewrite !elem_of_cons; lia).
  assert (d ∈ [0;1;2;3]) as Hid by (rewrite !elem_of_cons; lia).
  clear Ha. rewrite !elem_of_cons, elem_of_nil in Hin, Hid.
  repeat (destruct Hin as [->|Hin]); try done;
    repeat (destruct Hid as [->|Hid]); try done; try lia;
    (split; f_equal; [f_equal| |f_equal|]; apply programmed_read; [exact I| |exact I| |exact I| |exact I|];
     clear; cbn -[wrap Z.shiftr Z.land Z.add Z.mul]; in_writes).
Qed.

Lemma writes_setGGTTBases ndebug gsm a maxDevices n : maxDevices <= 4 ->
  0 < n <= maxDevices -> (forall d, 0 <= d < n -> gsm d = Ok (a d)) ->
  writes (setGGTTBases ndebug gsm maxDevices n) (concat (map (ggttWrites a) (seqZ 0 n))).
Proof.
  intros Hm Hn Ha. unfold setGGTTBases.
  do 2 pass_assert. apply writes_ggtts; [lia|done].
Qed.

Lemma writes_setOneGGTTBase ndebug gsm a n :
  0 < n <= 1 -> gsm 0 = Ok (a 0) ->
  writes (setOneGGTTBase ndebug gsm 1 1 n) (concat (map (ggttWrites a) (seqZ 0 n))).
Proof.
  intros Hn Ha. assert (n = 1) as -> by lia. unfold setOneGGTTBase.
  do 3 pass_assert. apply (writes_bindf _ (a 0)); [done|].
  exact (writes_gsm _ _).
Qed.

Lemma writes_XeHpgGGTT ndebug descriptor g a n bank :
  Gpu.deviceCount descriptor = GpuXeHpgCore.numSupportedDevices ->
  0 < n <= GpuXeHpgCore.numSupportedDevices ->
  (forall d, 0 <= d < n -> GpuXeHpgCore.getGSMBaseAddress ndebug g d = Ok (a d)) ->
  writes (GpuXeHpgCore.setGGTTBaseAddresses ndebug descriptor g RegisterFile _ n bank)
    (concat (map (ggttWrites a) (seqZ 0 n))).
Proof.
  intros Hd Hn Ha. unfold GpuXeHpgCore.setGGTTBaseAddresses. rewrite Hd.
  unfold GpuXeHpgCore.numSupportedDevices in *.
  do 3 pass_assert. apply writes_ggtts; [lia|exact Ha].
Qed.

Lemma ggtt_family_writes p ndebug settings g (a : Z -> Z) n bank :
  p ∈ registrations ->
  let f := familyOf p.1.2 ndebug settings g in
  hasRanges f = true -> 0 < n <= Gpu.deviceCount (@familyDescriptor f) ->
  (forall d, 0 <= d < n -> @familyGSMBaseAddress f d = Ok (a d)) ->
  n <= 4 /\ writes (@setGGTTBaseAddresses f RegisterFile _ n bank) (concat (map (ggttWrites a) (seqZ 0 n))).
Proof.
  intros Hp f Hf Hn Ha. subst f. case_product Hp Hf;
    count_devices Hn; (split; [lia|]);
    first [ refine (writes_setGGTTBases _ _ _ _ _ _ _ _); [vm_compute; discriminate|exact Hn|exact Ha]
          | refine (writes_setOneGGTTBase _ _ _ _ _ _); [exact Hn|apply Ha; lia]
          | refine (writes_XeHpgGGTT _ _ _ _ _ _ _ _ _); [reflexivity|exact Hn|exact Ha] ].
Qed.

(** C16: On every product after the Gen12LP family, setGGTTBaseAddresses gives each device
    the base of its global table - the address at which the manager builds the table -
    in its own registers, and gives the first device the bases of the remote ones. *)
Theorem ggtt_base_registers p ndebug settings g (a : Z -> Z) n bank r :
  p ∈ registrations ->
  let f := familyOf p.1.2 ndebug settings g in
  hasRanges f = true -> 0 < n <= Gpu.deviceCount (@familyDescriptor f) ->
  (forall d, 0 <= d < n -> @familyGSMBaseAddress f d = Ok (a d) /\ (2 ^ 20 | a d) /\ in_width 64 (a d)) ->
  wp (@setGGTTBaseAddresses f RegisterFile _ n bank) (fun _ r' => ggttProgrammed a n r') r.
Proof.
  intros Hp f Hf Hn Ha. destruct (ggtt_family_writes p ndebug settings g a n bank Hp Hf Hn) as [Hn4 Hw].
  { intros d Hd. by apply Ha. }
  apply (writes_wp _ _ _ _ Hw). apply ggtts_read; [lia|]. intros d Hd. by apply Ha.
Qed.

(** ** Ranges of local memory *)

Definition rangeBase (v : Z) : Z := Z.land (Z.shiftr v 1) 127.
Definition rangeSize (v : Z) : Z := Z.shiftr v 8.

Definition rangeCheck (gb base : Z) : bool :=
  let v := memoryRangeValue gb base in
  Z.testbit v 0 && (rangeBase v =? base) && (rangeSize v =? gb).

(** The base and the size do not overlap in the register when both are below 128. *)
Lemma memoryRange_fields gb base : 0 <= gb < 128 -> 0 <= base < 128 ->
  Z.testbit (memoryRangeValue gb base) 0 = true
  /\ rangeBase (memoryRangeValue gb base) = base /\ rangeSize (memoryRangeValue gb base) = gb.
Proof.
  intros Hg Hb.
  assert (Hall : forallb (fun g => forallb (rangeCheck g) (seqZ 0 128)) (seqZ 0 128) = true) by
    by vm_compute.
  rewrite forallb_forall in Hall. specialize (Hall gb).
  rewrite forallb_forall in Hall.
  assert (Hin : forall x, 0 <= x < 128 -> In x (seqZ 0 128)) by
    (intros; apply list_elem_of_In, elem_of_seqZ; lia).
  specialize (Hall (Hin _ Hg) _ (Hin _ Hb)). unfold rangeCheck in Hall.
  rewrite !andb_true_iff, !Z.eqb_eq in Hall. tauto.
Qed.

Definition rangeWrites (gb : Z) (n : nat) (base offset : Z) : list (Z * Z) :=
  map (fun i => (u32 (offset + Z.of_nat i * 4), memoryRangeValue gb (u64 (base + Z.of_nat i * gb)))) (seq 0 n).

Lemma writes_memoryRangeLoop gb n : forall base offset,
  in_width 64 base -> in_width 32 offset ->
  writes (memoryRangeLoop n gb base offset) (rangeWrites gb n base offset).
Proof.
  induction n as [|n IH]; intros base offset Hb Ho; [done|]. cbn [memoryRangeLoop].
  assert (Hs : rangeWrites gb (S n) base offset
               = (offset, memoryRangeValue gb base) :: rangeWrites gb n (u64 (base + gb)) (u32 (offset + 4))).
  { unfold rangeWrites. cbn [seq map]. f_equal.
    - replace (offset + Z.of_nat 0 * 4) with offset by lia.
      replace (base + Z.of_nat 0 * gb) with base by lia. by rewrite !wrap_small.
    - rewrite <- seq_shift, map_map. apply map_ext. intros i. unfold wrap.
      rewrite !Zplus_mod_idemp_l.
      replace (offset + Z.of_nat (S i) * 4) with (offset + 4 + Z.of_nat i * 4) by lia.
      by replace (base + Z.of_nat (S i) * gb) with (base + gb + Z.of_nat i * gb) by lia. }
  rewrite Hs. refine (writes_bind _ _ [_] _ (writes_MMIO32 _ _) _).
  apply IH; by apply wrap_range.
Qed.

(** What setMemoryBankSize tells about device [d]: the range of its memory. *)
Definition rangeProgrammed (gb d : Z) (r : RegisterFile) : Prop :=
  let v := register r (0x4900 + d * 4) in
  Z.testbit v 0 = true /\ rangeBase v = d * gb /\ rangeSize v = gb.

Lemma writes_setMemoryRanges ndebug maxDevices n bank :
  2 <= n <= maxDevices -> maxDevices <= 4 -> 0 < bank / GB < 128 ->
  writes (setMemoryRanges ndebug maxDevices n bank) (rangeWrites (bank / GB) (Z.to_nat n) 0 0x4900).
Proof.
  intros Hn Hm Hgb. unfold setMemoryRanges. do 2 pass_assert.
  destruct (Z.eqb_spec 1 n); [lia|]. do 2 pass_assert. by apply writes_memoryRangeLoop.
Qed.

Lemma ranges_read gb n d r : 2 <= n <= 4 -> 0 <= d < n -> 0 < gb < 128 -> n * gb <= 128 ->
  rangeProgrammed gb d (programmed (rangeWrites gb (Z.to_nat n) 0 0x4900) r).
Proof.
  intros Hn Hd Hgb Hfit. unfold rangeProgrammed.
  assert (register (programmed (rangeWrites gb (Z.to_nat n) 0 18688) r) (18688 + d * 4)
          = memoryRangeValue gb (d * gb)) as ->.
  { assert (0 <= d * gb < 2 ^ 64) by nia.
    apply programmed_read.
    - assert (n ∈ [2;3;4]) as Hin by (rewrite !elem_of_cons; lia).
      rewrite !elem_of_cons, elem_of_nil in Hin. by repeat (destruct Hin as [->|Hin]; [exact I|]).
    - unfold rangeWrites. apply in_map_iff. exists (Z.to_nat d). split; [|apply in_seq; lia].
      rewrite !Z2Nat.id by lia. rewrite !wrap_small by (unfold in_width; lia). done. }
  apply memoryRange_fields; nia.
Qed.

(** C37: On every product with several devices, setMemoryBankSize programs adjacent ranges:
    device d's register holds the base d * gb and the size gb in gigabytes, enabled, as
    long as the devices' memory together is at most 128 GB, what the base field can hold. *)
Theorem memory_ranges_adjacent p ndebug settings g n d bank r :
  p ∈ registrations ->
  let f := familyOf p.1.2 ndebug settings g in
  hasRanges f = true -> 2 <= n <= Gpu.deviceCount (@familyDescriptor f) -> 0 <= d < n ->
  GB <= bank -> n * (bank / GB) <= 128 ->
  wp (@setMemoryBankSize f RegisterFile _ n bank) (fun _ r' => rangeProgrammed (bank / GB) d r') r.
Proof.
  intros Hp f Hf Hn Hd Hb Hfit. subst f.
  assert (0 < bank / GB) by (apply Z.div_str_pos; by split).
  assert (bank / GB <= 64) by nia.
  case_product Hp Hf; count_devices Hn; try lia;
    apply (writes_wp _ (rangeWrites (bank / GB) (Z.to_nat n) 0 0x4900));
    (apply ranges_read || refine (writes_setMemoryRanges _ 4 _ _ _ _ _)); lia.
Qed.

(** The assertion of setMemoryBankSize lets four devices of 64 GB through; the base of
    the last one reaches into the size, which reads 65. *)
Theorem memory_range_overflow ndebug settings g r :
  let f := GpuCri.family ndebug settings g in
  wp (@setMemoryBankSize f RegisterFile _ 4 (64 * GB))
    (fun _ r' => rangeBase (register r' 0x490c) = 64 /\ rangeSize (register r' 0x490c) = 65) r.
Proof.
  intros f. apply (writes_wp _ (rangeWrites 64 4 0 0x4900)).
  - assert (Hw : 0 < 64 * GB / GB < 128) by (split; reflexivity).
    exact (writes_setMemoryRanges ndebug 4 4 (64 * GB) ltac:(lia) ltac:(lia) Hw).
  - rewrite (programmed_read _ _ 0x490c (memoryRangeValue 64 192)); [by split|exact I|].
    do 3 right. left. reflexivity.
Qed.

(** ** Two and four tiles of cri *)

Definition exSizes : GpuSizes := baseGpuSizes.
Definition exBank : Z := 16 * GB.
Definition exObject : GpuObject :=
  mkGpuObject exSizes
    (CreateStolenMemory (fun _ _ _ => 0) false 4 exBank (getStolenMemorySize exSizes exBank)) false.

Definition exBase (d : Z) : Z :=
  match GpuXeCore.getGSMBaseAddress true exObject d with Ok a => a | Err _ => 0 end.

Lemma exCri : (ProductFamily.Cri, enableCri, registerFamilyCri) ∈ registrations.
Proof. apply (list_elem_of_lookup_2 _ 11). reflexivity. Qed.

Lemma ggtt_base_registers_witness :
  wp (@setGGTTBaseAddresses (GpuCri.family true defaultSettings exObject) RegisterFile _ 2 exBank)
    (fun _ r' => ggttProgrammed exBase 2 r') ∅.
Proof.
  refine (ggtt_base_registers _ true defaultSettings exObject exBase 2 exBank ∅ exCri _ _ _).
  - vm_compute. reflexivity.
  - split; [reflexivity|discriminate].
  - intros d Hd. assert (Hin : d ∈ [0;1]) by (rewrite !elem_of_cons; lia).
    rewrite !elem_of_cons, elem_of_nil in Hin.
    destruct Hin as [->|[->|[]]]; (split; [vm_compute; reflexivity|]; split;
      [apply Z.mod_divide; [discriminate|vm_compute; reflexivity]
      |vm_compute; split; [discriminate|reflexivity]]).
Defined.

Lemma memory_ranges_adjacent_witness :
  wp (@setMemoryBankSize (GpuCri.family true defaultSettings exObject) RegisterFile _ 4 exBank)
    (fun _ r' => rangeProgrammed 16 3 r') ∅.
Proof.
  refine (memory_ranges_adjacent _ true defaultSettings exObject 4 3 exBank ∅ exCri _ _ _ _ _).
  - vm_compute. reflexivity.
  - split; [discriminate|vm_compute; discriminate].
  - split; [discriminate|reflexivity].
  - vm_compute. discriminate.
  - vm_compute. discriminate.
Defined.
