(* ===== verification/FamilyStolen.v ===== *)
(** * The stolen memory of the products

    [initializeDefaultMemoryPools] of the families from Xe2HpgCore on: the registers
    of the regions of the stolen memory, read back with the encodings of
    [sizeToGMS] and [sizeToPAVPC], and the registers of the flat CCS. *)

From S2P Require Import Prelude Allocator MemoryBanks Gpu PageTable Walker AubPackets AubStream.
From S2P Require Import Settings CommandStreamer TbxSockets TbxStream GpuFamily TableTheory.
From S2P Require Import FamilyXeCore StolenPools FamilyXe2 FamilyXe3 FamilyXe3p.
From S2P Require Import Products FamilyTheory FamilyRegisters.
#[local] Open Scope Z_scope.

(** ** Encodings *)

(** The size of the data stolen memory that a GMS code stands for: multiples of 32 MB,
    and from [0xf0] on multiples of 4 MB. *)
Definition gmsToSize (code : Z) : Z :=
  if code <? 0xf0 then code * (32 * MB) else (code - 0xf0 + 1) * (4 * MB).

Definition pavpcToSize (code : Z) : Z :=
  if code <? 4 then MB * 2 ^ code else MB * 2 ^ (code - 1).

Lemma encodeSize_decode (decode : Z -> Z) mappings size :
  forallb (fun m => decode m.1 =? m.2) mappings = true ->
  encodeSize mappings size <> 0xff -> decode (encodeSize mappings size) = size.
Proof.
  intros Hd. unfold encodeSize. destruct (list_find _ mappings) as [[i [code s]]|] eqn:E; [|done].
  apply list_find_Some in E as (Hl & Hs & _). cbn in Hs. intros _.
  rewrite forallb_forall in Hd. specialize (Hd (code, s)). cbn in Hd.
  rewrite Z.eqb_eq in Hd. rewrite <- Hs. apply Hd. eapply list_elem_of_In, list_elem_of_lookup_2, Hl.
Qed.

Lemma encodeSize_range mappings size :
  forallb (fun m => (0 <=? m.1) && (m.1 <? 256)) mappings = true -> 0 <= encodeSize mappings size < 256.
Proof.
  intros Hd. unfold encodeSize. destruct (list_find _ mappings) as [[i [code s]]|] eqn:E; [|lia].
  apply list_find_Some in E as (Hl & _ & _). rewrite forallb_forall in Hd.
  specialize (Hd (code, s) (proj1 (list_elem_of_In _ _) (list_elem_of_lookup_2 _ _ _ Hl))).
  cbn in Hd. rewrite andb_true_iff, Z.leb_le, Z.ltb_lt in Hd. done.
Qed.

Lemma sizeToGMS_decode n : sizeToGMS n <> 0xff -> gmsToSize (sizeToGMS n) = n.
Proof. by apply encodeSize_decode. Qed.

Lemma sizeToPAVPC_decode n : GpuXe3pCore.sizeToPAVPC n <> 0xff -> pavpcToSize (GpuXe3pCore.sizeToPAVPC n) = n.
Proof. by apply encodeSize_decode. Qed.

Lemma lor_low k b x : 0 <= k -> 0 <= b -> (2 ^ k | b) -> 0 <= x < 2 ^ k -> Z.lor b x = b + x.
Proof.
  intros Hk Hb [q ->] Hx. rewrite <- Z.add_lor_land.
  assert (Z.land (q * 2 ^ k) x = 0) as ->; [|lia].
  apply Z.bits_inj'. intros i Hi. rewrite Z.land_spec, Z.bits_0, <- Z.shiftl_mul_pow2, Z.shiftl_spec by done.
  destruct (Z.lt_ge_cases i k).
  - by rewrite Z.testbit_neg_r by lia.
  - rewrite <- (Z.mod_small x (2 ^ k)) by lia.
    rewrite Z.mod_pow2_bits_high by lia. apply andb_false_r.
Qed.

Lemma parts64 a : in_width 64 a -> u32 (Z.shiftr a 32) * 2 ^ 32 + u32 a = a.
Proof.
  intros [H0 H1]. rewrite Z.shiftr_div_pow2 by lia.
  assert (0 <= a / 2 ^ 32 < 2 ^ 32).
  { split; [by apply Z.div_pos; lia|]. apply Z.div_lt_upper_bound; lia. }
  rewrite (wrap_small 32 (a / 2 ^ 32)) by (unfold in_width; lia). unfold wrap.
  pose proof (Z.div_mod a (2 ^ 32)). lia.
Qed.

(** ** The registers of the regions *)

Definition gmsRegister (size : Z) : Z := Z.lor 0xc0 (u32 (Z.shiftl (sizeToGMS size) 8)).

Lemma gmsRegister_size size : Z.land (Z.shiftr (gmsRegister size) 8) 0xff = sizeToGMS size.
Proof.
  assert (Hr : 0 <= sizeToGMS size < 256) by (by apply encodeSize_range). unfold gmsRegister.
  assert (Hall : forallb (fun c => Z.land (Z.shiftr (Z.lor 0xc0 (u32 (Z.shiftl c 8))) 8) 0xff =? c)
                   (seqZ 0 256) = true) by by vm_compute.
  rewrite forallb_forall in Hall. apply Z.eqb_eq, Hall, list_elem_of_In, elem_of_seqZ. lia.
Qed.

(** The low register of the WOPCM: the base, the bits 0 and 2, and the code of the size
    from bit 7 on. *)
Definition wopcmRegister (base code : Z) : Z :=
  u32 (Z.lor (Z.lor base 0x5) (u32 (Z.shiftl code 7))).

Lemma wopcmRegister_fields base code : 0 <= code < 8 -> in_width 64 base -> (2 ^ 20 | base) ->
  u32 (Z.shiftr base 32) * 2 ^ 32 + clear_low (wopcmRegister base code) (2 ^ 12) = base
  /\ Z.land (Z.shiftr (wopcmRegister base code) 7) 7 = code.
Proof.
  intros Hc Hw Hb. pose proof (parts64 base Hw) as Hp.
  assert (Hy : Z.lor 0x5 (u32 (Z.shiftl code 7)) = 5 + code * 128).
  { assert (code ∈ seqZ 0 8) as Hin by (apply elem_of_seqZ; lia). change (seqZ 0 8) with [0;1;2;3;4;5;6;7] in Hin.
    rewrite !elem_of_cons, elem_of_nil in Hin. by repeat (destruct Hin as [->|Hin]; [done|]). }
  assert (Hv : wopcmRegister base code = u32 base + (5 + code * 128)).
  { unfold wopcmRegister. rewrite <- Z.lor_assoc, Hy. rewrite (lor_low 20) by (try done; destruct Hw; lia).
    unfold wrap. destruct Hb as [q ->].
    change (2 ^ 32) with (2 ^ 12 * 2 ^ 20). rewrite Zmult_mod_distr_r.
    assert (0 <= q mod 2 ^ 12 < 2 ^ 12) by (apply Z.mod_pos_bound; lia).
    rewrite Zplus_mod, Zmult_mod_distr_r, (Z.mod_small (5 + code * 128)) by lia.
    apply Z.mod_small. lia. }
  assert (Hd : exists q, u32 base = q * 2 ^ 20).
  { destruct Hb as [q ->]. exists (q mod 2 ^ 12). unfold wrap.
    change (2 ^ 32) with (2 ^ 12 * 2 ^ 20). apply Zmult_mod_distr_r. }
  destruct Hd as [q Hq]. rewrite clear_low_mod, Hv by lia. change 7 with (2 ^ 3 - 1) at 2.
  rewrite land_low_mod, (Z.shiftr_div_pow2 _ 7) by lia. rewrite Hq in *.
  clear - Hp Hc. split; dlia.
Qed.

(** The writes of [stolenRegisters] for device [i]. *)
Definition stolenWrites (g : GpuObject) (wopcmBits bank i dsm : Z) : list (Z * Z) :=
  let at_ offset := u32 (u32 (i * mmioDeviceOffset) + offset) in
  let wopcmBase := u64 (bank - getWOPCMSize (gpuSizes g)) in
  let rc6Base := u64 (bank - 64 * 1024) in
  [(at_ 0x1080c0, u32 dsm); (at_ 0x1080c4, u32 (Z.shiftr dsm 32));
   (at_ 0x108040, gmsRegister (getDSMSize (gpuSizes g)));
   (at_ 0xC050, 0x1f0000); (at_ 0xC340, 0x600002);
   (at_ 0x1082C0, u32 (Z.lor (Z.lor wopcmBase 0x5) wopcmBits));
   (at_ 0x1082C4, u32 (Z.shiftr wopcmBase 32));
   (at_ 0xd48, u32 (Z.lor rc6Base 1)); (at_ 0xd4c, u32 (Z.shiftr rc6Base 32));
   (at_ 0xd40, 0x80000001); (at_ 0x1083a0, u32 (Z.lor (Z.shiftl 8 8) 1))].

Lemma writes_stolen g wopcmBits i bank dsm :
  writes (stolenRegisters wopcmBits g i bank dsm) (stolenWrites g wopcmBits bank i dsm).
Proof.
  unfold stolenRegisters, stolenWrites. cbv zeta.
  do 10 refine (writes_bind _ _ [_] _ (writes_MMIO32 _ _) _). apply writes_MMIO32.
Qed.

Section Pools.
Variable ndebug : bool.
Variable isMemorySupported : Z -> Z -> bool.
Variable flatCcs : Z -> Z -> Z -> M RegisterFile unit.
Variable wopcmBits : Z.
Variable g : GpuObject.
Variable dsm : Z -> Z.

(** In a file there is no flat CCS: every device's registers are written. *)
Lemma writes_poolLoop n : forall i bank size,
  (forall d, i <= d < i + Z.of_nat n -> stolenAddress Gpu.getDSMBaseAddress ndebug g d = Ok (dsm d)) ->
  writes (poolLoop ndebug isMemorySupported flatCcs wopcmBits g n i mode.aubFile bank size)
    (concat (map (fun d => stolenWrites g wopcmBits bank d (dsm d)) (seqZ i (Z.of_nat n)))).
Proof.
  induction n as [|n IH]; intros i bank size Hdsm; [done|].
  rewrite seqZ_cons by lia. cbn [poolLoop map concat].
  apply (writes_bindf _ (dsm i)); [apply Hdsm; lia|].
  apply writes_bind; [apply writes_stolen|]. replace (Z.pred (Z.of_nat (S n))) with (Z.of_nat n) by lia.
  apply (IH (Z.succ i)). intros d Hd. apply Hdsm. lia.
Qed.
End Pools.

(** What the hardware reads for device [d]: the base and the size of the data stolen
    memory, and the base and the size of the WOPCM. *)
Definition stolenProgrammed (g : GpuObject) (bank d dsm wopcmSize : Z) (r : RegisterFile) : Prop :=
  let reg offset := register r (d * mmioDeviceOffset + offset) in
  reg 0x1080c4 * 2 ^ 32 + reg 0x1080c0 = dsm
  /\ gmsToSize (Z.land (Z.shiftr (reg 0x108040) 8) 0xff) = getDSMSize (gpuSizes g)
  /\ reg 0x1082c4 * 2 ^ 32 + clear_low (reg 0x1082c0) (2 ^ 12) = bank - getWOPCMSize (gpuSizes g)
  /\ pavpcToSize (Z.land (Z.shiftr (reg 0x1082c0) 7) 7) = wopcmSize.

Lemma stolen_read g code bank dsm n d r :
  0 <= d < n -> n <= 4 -> in_width 64 (dsm d) ->
  sizeToGMS (getDSMSize (gpuSizes g)) <> 0xff ->
  0 <= code < 8 -> (2 ^ 20 | getWOPCMSize (gpuSizes g)) -> 0 <= getWOPCMSize (gpuSizes g) ->
  (2 ^ 20 | bank) -> getWOPCMSize (gpuSizes g) <= bank -> in_width 64 bank ->
  stolenProgrammed g bank d (dsm d) (pavpcToSize code)
    (programmed (concat (map (fun d => stolenWrites g (u32 (Z.shiftl code 7)) bank d (dsm d)) (seqZ 0 n))) r).
Proof.
  intros Hd Hn Hdsm Hgms Hc Hw0 Hw1 Hb Hle Hbw. set (w := getWOPCMSize (gpuSizes g)) in *.
  assert (Hbase : u64 (bank - w) = bank - w) by (apply wrap_small; unfold in_width in *; lia).
  pose (l := concat (map (fun d => stolenWrites g (u32 (Z.shiftl code 7)) bank d (dsm d)) (seqZ 0 n))).
  assert (Hnd : Is_true (bool_decide (NoDup (map fst l)))).
  { subst l. clear - Hd Hn. assert (n ∈ [1;2;3;4]) as Hin by (rewrite !elem_of_cons; lia).
    rewrite !elem_of_cons, elem_of_nil in Hin. by repeat (destruct Hin as [->|Hin]; [exact I|]). }
  assert (Hread : forall o v, In (u32 (u32 (d * mmioDeviceOffset) + o), v)
              (stolenWrites g (u32 (Z.shiftl code 7)) bank d (dsm d)) -> 0 <= o < 2 ^ 24 ->
            register (programmed l r) (d * mmioDeviceOffset + o) = v).
  { intros o v Hin Ho. apply programmed_read; [exact Hnd|]. change mmioDeviceOffset with 16777216 in *.
    rewrite !wrap_small in Hin by (rewrite ?wrap_small; unfold in_width; lia).
    apply in_concat. eexists. split; [apply in_map_iff; exists d; split; [done|]|exact Hin].
    apply list_elem_of_In, elem_of_seqZ. lia. }
  unfold stolenProgrammed. fold l. cbv zeta.
  rewrite (Hread 0x1080c4 (u32 (Z.shiftr (dsm d) 32))) by (by (right; left) || lia).
  rewrite (Hread 0x1080c0 (u32 (dsm d))) by (by left || lia).
  rewrite (Hread 0x108040 (gmsRegister (getDSMSize (gpuSizes g)))) by (by (do 2 right; left) || lia).
  rewrite (Hread 0x1082c4 (u32 (Z.shiftr (u64 (bank - w)) 32))) by (by (do 6 right; left) || lia).
  rewrite (Hread 0x1082c0 (wopcmRegister (u64 (bank - w)) code)) by (by (do 5 right; left) || lia).
  rewrite Hbase, gmsRegister_size. split; [by apply parts64|]. split; [by apply sizeToGMS_decode|].
  destruct (wopcmRegister_fields (bank - w) code Hc) as [-> ->]; [unfold in_width in *; lia| |done].
  by apply Z.divide_sub_r.
Qed.

Lemma pavpcToSize_MB code : 0 <= code < 8 -> (2 ^ 20 | pavpcToSize code) /\ 0 <= pavpcToSize code.
Proof.
  intros Hc. assert (code ∈ [0;1;2;3;4;5;6;7]) as Hin by (rewrite !elem_of_cons; lia).
  rewrite !elem_of_cons, elem_of_nil in Hin.
  by repeat (destruct Hin as [->|Hin]; [split; [by apply Z.mod_divide|done]|]).
Qed.

(** The products of these families, and the code of the size of the WOPCM that each
    programs: that of 8 MB before Xe3pCore. *)
Definition poolProducts : list (Z * GpuClass * (ProductFamilyTable -> ProductFamilyTable)) :=
  drop 8 registrations.

Definition wopcmCode (f : GpuFamily) : Z :=
  if gfxCoreFamily (@familyDescriptor f) =? CoreFamily.Xe3pCore
  then GpuXe3pCore.sizeToPAVPC (getWOPCMSize (@familySizes f)) else 3.

Lemma pools_writes p ndebug settings g (dsm : Z -> Z) n bank :
  p ∈ poolProducts -> 0 < n ->
  let f := familyOf p.1.2 ndebug settings g in
  (forall d, 0 <= d < n -> stolenAddress Gpu.getDSMBaseAddress ndebug g d = Ok (dsm d)) ->
  writes (@GpuFamily.initializeDefaultMemoryPools f RegisterFile _ mode.aubFile n bank)
    (concat (map (fun d => stolenWrites g (u32 (Z.shiftl (wopcmCode f) 7)) bank d (dsm d)) (seqZ 0 n))).
Proof.
  intros Hp Hn f Hdsm. subst f. set (k := Z.to_nat n). assert (Hk : n = Z.of_nat k) by lia.
  assert (Hw : forall i fl w, writes (poolLoop ndebug i fl w g k 0 mode.aubFile bank (bank / 512))
     (concat (map (fun d => stolenWrites g w bank d (dsm d)) (seqZ 0 n)))).
  { intros i fl w. rewrite Hk. apply writes_poolLoop. intros d Hd. apply Hdsm. lia. }
  unfold poolProducts in Hp. cbn [drop registrations] in Hp.
  repeat (apply elem_of_cons in Hp as [->|Hp]; [apply Hw|]). by apply not_elem_of_nil in Hp.
Qed.

Lemma sizeToPAVPC_range n : GpuXe3pCore.sizeToPAVPC n <> 0xff -> 0 <= GpuXe3pCore.sizeToPAVPC n < 8.
Proof.
  unfold GpuXe3pCore.sizeToPAVPC, encodeSize.
  destruct (list_find _ _) as [[i [code s]]|] eqn:E; [|done]. intros _.
  apply list_find_Some in E as (Hl & _ & _). apply list_elem_of_lookup_2 in Hl.
  unfold GpuXe3pCore.sizeToPAVPCMappings in Hl. rewrite !elem_of_cons, elem_of_nil in Hl.
  by repeat (destruct Hl as [[= -> _]|Hl]; [done|]).
Qed.

(** The size of the WOPCM that the registers say: before Xe3pCore always 8 MB. *)
Definition wopcmReported (f : GpuFamily) : Z :=
  if gfxCoreFamily (@familyDescriptor f) =? CoreFamily.Xe3pCore then getWOPCMSize (@familySizes f) else 8 * MB.

Lemma codes_valid p ndebug settings g :
  p ∈ poolProducts ->
  let f := familyOf p.1.2 ndebug settings g in
  @isValidStolenSize f (getDSMSize (gpuSizes g)) = true ->
  @isValidWOPCMSize f (getWOPCMSize (gpuSizes g)) = true ->
  Gpu.deviceCount (@familyDescriptor f) <= 4
  /\ sizeToGMS (getDSMSize (gpuSizes g)) <> 0xff
  /\ 0 <= wopcmCode f < 8 /\ pavpcToSize (wopcmCode f) = wopcmReported f.
Proof.
  assert (Hne : forall x y, negb (x =? y) = true -> x <> y).
  { intros x y Hx%negb_true_iff. by apply Z.eqb_neq. }
  intros Hp. unfold poolProducts in Hp. cbn [drop registrations] in Hp.
  repeat (apply elem_of_cons in Hp as [->|Hp];
    [intros f Hgms Hwop; split; [done|]; split; [by apply Hne|];
     first [ split; [done|reflexivity]
           | split; [apply sizeToPAVPC_range; by apply Hne|apply sizeToPAVPC_decode; by apply Hne] ]|]).
  by apply not_elem_of_nil in Hp.
Qed.

(** C15: On every product from Xe2HpgCore on and for a capture file,
    initializeDefaultMemoryPools programs each device's registers so that the hardware
    reads the base and the size of the data stolen memory that the driver uses, and the
    base of the WOPCM that the driver uses, for every size of the data stolen memory
    that isValidDataStolenMemorySize accepts and every size of the WOPCM, in whole
    megabytes, that isValidWOPCMSize accepts. The size of the WOPCM that the hardware
    reads is the driver's on Xe3pCore; before, it is 8 MB whatever the driver uses. *)
Theorem stolen_registers p ndebug settings g (dsm : Z -> Z) n d bank r :
  p ∈ poolProducts ->
  let f := familyOf p.1.2 ndebug settings g in
  0 <= d < n -> n <= Gpu.deviceCount (@familyDescriptor f) ->
  (forall d, 0 <= d < n ->
     stolenAddress Gpu.getDSMBaseAddress ndebug g d = Ok (dsm d) /\ in_width 64 (dsm d)) ->
  @isValidStolenSize f (getDSMSize (gpuSizes g)) = true ->
  @isValidWOPCMSize f (getWOPCMSize (gpuSizes g)) = true ->
  (2 ^ 20 | getWOPCMSize (gpuSizes g)) -> 0 <= getWOPCMSize (gpuSizes g) <= bank ->
  (2 ^ 20 | bank) -> in_width 64 bank ->
  wp (@GpuFamily.initializeDefaultMemoryPools f RegisterFile _ mode.aubFile n bank)
    (fun _ r' => stolenProgrammed g bank d (dsm d)
       (if gfxCoreFamily (@familyDescriptor f) =? CoreFamily.Xe3pCore then getWOPCMSize (gpuSizes g)
        else 8 * MB) r') r.
Proof.
  intros Hp f Hd Hn Hdsm Hgms Hwop Hw Hwb Hb Hbw.
  assert (H0 : 0 < n) by lia.
  apply (writes_wp _ _ _ _ (pools_writes p ndebug settings g dsm n bank Hp H0
           (fun d Hd => proj1 (Hdsm d Hd)))). fold f.
  destruct (codes_valid p ndebug settings g Hp Hgms Hwop) as (Hf & H1 & H2 & H3). fold f in Hf, H2, H3.
  assert (Hrep : wopcmReported f = if gfxCoreFamily (@familyDescriptor f) =? CoreFamily.Xe3pCore
            then getWOPCMSize (gpuSizes g) else 8 * MB).
  { clear - Hp. unfold poolProducts in Hp. cbn [drop registrations] in Hp.
    repeat (apply elem_of_cons in Hp as [->|Hp]; [reflexivity|]). by apply not_elem_of_nil in Hp. }
  rewrite <- Hrep, <- H3.
  apply stolen_read; try done; [exact (Z.le_trans _ _ _ Hn Hf)|by apply Hdsm|lia..].
Qed.

(** Before Xe3pCore the size of the WOPCM is fixed in the register: with another size,
    which the option wopcmMemorySize sets and isValidWOPCMSize accepts, the base moves
    and the hardware still reads 8 MB. *)
Theorem wopcm_size_fixed p ndebug settings g (dsm : Z -> Z) bank r :
  p ∈ take 3 poolProducts ->
  let f := familyOf p.1.2 ndebug settings g in
  stolenAddress Gpu.getDSMBaseAddress ndebug g 0 = Ok (dsm 0) -> in_width 64 (dsm 0) ->
  @isValidStolenSize f (getDSMSize (gpuSizes g)) = true ->
  (2 ^ 20 | getWOPCMSize (gpuSizes g)) -> 0 <= getWOPCMSize (gpuSizes g) ->
  (2 ^ 20 | bank) -> getWOPCMSize (gpuSizes g) <= bank -> in_width 64 bank ->
  @isValidWOPCMSize f (getWOPCMSize (gpuSizes g)) = true
  /\ wp (@GpuFamily.initializeDefaultMemoryPools f RegisterFile _ mode.aubFile 1 bank)
       (fun _ r' => stolenProgrammed g bank 0 (dsm 0) (8 * MB) r') r.
Proof.
  intros Hp f Hdsm Hdw Hgms Hw0 Hw1 Hb Hle Hbw.
  assert (H8 : p ∈ poolProducts) by (eapply subseteq_take, Hp).
  assert (Hc : @isValidWOPCMSize f (getWOPCMSize (gpuSizes g)) = true /\ wopcmCode f = 3
               /\ sizeToGMS (getDSMSize (gpuSizes g)) <> 0xff).
  { clear - Hp Hgms. unfold poolProducts in Hp. cbn [drop take registrations] in Hp.
    repeat (apply elem_of_cons in Hp as [->|Hp];
      [split; [done|]; split; [done|]; by apply Z.eqb_neq, negb_true_iff|]).
    by apply not_elem_of_nil in Hp. }
  destruct Hc as (Hv & Hc & H1). split; [done|].
  refine (writes_wp _ _ _ _ (pools_writes p ndebug settings g dsm 1 bank H8 ltac:(lia) _) _).
  { intros d Hd. by replace d with 0 by lia. }
  fold f. rewrite Hc. change (8 * MB) with (pavpcToSize 3). by apply stolen_read.
Qed.

(** ** The flat CCS *)

Definition flatCcsUnits (size : Z) : Z := Z.min (u32 (size / (128 * KB))) 0x3FF.

Definition flatCcsHigh (base units : Z) : Z :=
  Z.lor (u32 (Z.shiftr base 32)) (u32 (Z.shiftl units 14)).
Definition flatCcsLow (base units : Z) : Z :=
  let low := u32 (Z.land base 0xFFFFFFFF) in if 0 <? units then Z.lor low 1 else low.

Definition flatCcsWrites (d base size : Z) : list (Z * Z) :=
  let units := flatCcsUnits size in
  let at_ offset := u32 (u32 (d * mmioDeviceOffset) + offset) in
  let enable := if 0 <? units then Z.lor 0 1 else 0 in
  [(at_ 0x8800, flatCcsLow base units); (at_ 0x1344b0, flatCcsLow base units);
   (at_ 0x8804, flatCcsHigh base units); (at_ 0x1344b4, flatCcsHigh base units);
   (at_ 0x4910, enable); (at_ 0x384910, enable)].

Lemma flatCcs_base_high base : 0 <= base < 2 ^ 40 ->
  0 <= u32 (Z.shiftr base 32) < 256 /\ Z.land (u32 (Z.shiftr base 32)) 0xFFFFF00 = 0.
Proof.
  intros Hb. rewrite Z.shiftr_div_pow2 by lia.
  assert (0 <= base / 2 ^ 32 < 256) as Hh.
  { split; [apply Z.div_pos; lia|]. apply Z.div_lt_upper_bound; lia. }
  rewrite wrap_small by (unfold in_width; lia). split; [done|].
  assert (Hall : forallb (fun h => Z.land h 0xFFFFF00 =? 0) (seqZ 0 256) = true) by by vm_compute.
  rewrite forallb_forall in Hall. apply Z.eqb_eq, Hall, list_elem_of_In, elem_of_seqZ. lia.
Qed.

Lemma writes_flatCcs ndebug d base size : 0 <= base < 2 ^ 40 -> (64 | base) ->
  writes (StolenPools.initializeFlatCcsBaseAddressMmio ndebug d base size) (flatCcsWrites d base size).
Proof.
  intros Hb Ha. unfold StolenPools.initializeFlatCcsBaseAddressMmio, flatCcsWrites. cbv zeta.
  fold (flatCcsUnits size). apply writes_cassert.
  { change 0x3F with (2 ^ 6 - 1). rewrite land_low_mod by lia. apply Z.eqb_eq. by apply Z.mod_divide. }
  do 2 refine (writes_bind _ _ [_] _ (writes_MMIO32 _ _) _).
  apply writes_cassert; [by apply Z.eqb_eq, flatCcs_base_high|].
  do 3 refine (writes_bind _ _ [_] _ (writes_MMIO32 _ _) _). apply writes_MMIO32.
Qed.

Lemma flatCcs_fields base units : 0 <= base < 2 ^ 40 -> (64 | base) -> 0 <= units < 1024 ->
  Z.land (flatCcsHigh base units) 0xff * 2 ^ 32 + clear_low (flatCcsLow base units) 64 = base
  /\ Z.land (Z.shiftr (flatCcsHigh base units) 14) 0x3ff = units
  /\ Z.testbit (flatCcsLow base units) 0 = (0 <? units).
Proof.
  intros Hb [q Hq] Hu. destruct (flatCcs_base_high base Hb) as [Hh _].
  pose proof (parts64 base) as Hp. unfold in_width in Hp.
  assert (Hhigh : flatCcsHigh base units = units * 2 ^ 14 + u32 (Z.shiftr base 32)).
  { unfold flatCcsHigh. rewrite Z.shiftl_mul_pow2 by lia.
    rewrite (wrap_small 32 (units * 2 ^ 14)) by (unfold in_width; lia).
    rewrite Z.lor_comm. apply (lor_low 14); [lia|lia|by exists units|lia]. }
  assert (Hm : exists q', u32 base = q' * 64 /\ 0 <= q').
  { exists (q mod 2 ^ 26). rewrite Hq. unfold wrap. change (2 ^ 32) with (2 ^ 26 * 64).
    split; [apply Zmult_mod_distr_r|]. by apply Z.mod_pos_bound. }
  destruct Hm as (q' & Hq' & Hq0).
  assert (Hlow : flatCcsLow base units = q' * 64 + Z.b2z (0 <? units)).
  { unfold flatCcsLow. change 0xFFFFFFFF with (2 ^ 32 - 1). rewrite land_low_mod by lia.
    change (base mod 2 ^ 32) with (u32 base). rewrite wrap_wrap, Hq' by lia.
    destruct (0 <? units); cbn [Z.b2z]; [|lia]. apply (lor_low 6); [lia|lia|by exists q'|lia]. }
  rewrite Hhigh, Hlow. change 64 with (2 ^ 6) at 2. change 0xff with (2 ^ 8 - 1).
  change 0x3ff with (2 ^ 10 - 1). rewrite !land_low_mod, clear_low_mod, (Z.shiftr_div_pow2 _ 14) by lia.
  rewrite Z.bit0_odd, Z.odd_add, Z.odd_mul, andb_false_r.
  rewrite Hq' in Hp. clear Hhigh Hlow Hq Hq'. split_and!.
  - rewrite <- Hp at 2 by lia. destruct (0 <? units); cbn [Z.b2z]; dlia.
  - dlia.
  - by destruct (0 <? units).
Qed.

(** C38: initializeFlatCcsBaseAddressMmio programs the flat CCS so that the hardware reads
    its base, its size in units of 128 KB up to the field's 1023, and the enable bit,
    from both copies of each register. *)
Theorem flat_ccs_registers ndebug d base size r :
  0 <= d < 256 -> 0 <= base < 2 ^ 40 -> (64 | base) -> 0 <= size < 2 ^ 49 ->
  wp (StolenPools.initializeFlatCcsBaseAddressMmio ndebug d base size)
    (fun _ r' =>
       let reg offset := register r' (d * mmioDeviceOffset + offset) in
       let units := Z.min (size / (128 * KB)) 1023 in
       Z.land (reg 0x8804) 0xff * 2 ^ 32 + clear_low (reg 0x8800) 64 = base
       /\ Z.land (Z.shiftr (reg 0x8804) 14) 0x3ff = units
       /\ Z.testbit (reg 0x8800) 0 = (0 <? units)
       /\ reg 0x4910 = Z.b2z (0 <? units)
       /\ reg 0x1344b0 = reg 0x8800 /\ reg 0x1344b4 = reg 0x8804 /\ reg 0x384910 = reg 0x4910) r.
Proof.
  intros Hd Hb Ha Hs. apply (writes_wp _ _ _ _ (writes_flatCcs ndebug d base size Hb Ha)). cbv zeta.
  assert (Hu : flatCcsUnits size = Z.min (size / (128 * KB)) 1023 /\ 0 <= flatCcsUnits size < 1024).
  { unfold flatCcsUnits. change (128 * KB) with (2 ^ 17).
    assert (0 <= size / 2 ^ 17 < 2 ^ 32).
    { split; [apply Z.div_pos; lia|]. apply Z.div_lt_upper_bound; lia. }
    rewrite wrap_small by done. lia. }
  destruct Hu as [<- Hu]. set (l := flatCcsWrites d base size).
  assert (Hw : forall o, 0 <= o < 2 ^ 24 ->
    u32 (u32 (d * mmioDeviceOffset) + o) = d * mmioDeviceOffset + o).
  { intros o Ho. change mmioDeviceOffset with 16777216.
    rewrite !wrap_small; unfold in_width in *; rewrite ?wrap_small; unfold in_width; lia. }
  assert (Hnd : NoDup (map fst l)).
  { subst l. cbn [flatCcsWrites map fst]. rewrite !Hw by lia.
    change mmioDeviceOffset with 16777216.
    repeat (apply NoDup_cons; split; [rewrite ?not_elem_of_cons; split_and?; lia || apply not_elem_of_nil|]).
    apply NoDup_nil_2. }
  assert (Hread : forall o v, In (d * mmioDeviceOffset + o, v) l ->
            register (programmed l r) (d * mmioDeviceOffset + o) = v).
  { intros o v Hin. apply programmed_lookup; [done|]. by apply list_elem_of_In. }
  assert (Hl : l = [(d * mmioDeviceOffset + 0x8800, flatCcsLow base (flatCcsUnits size));
    (d * mmioDeviceOffset + 0x1344b0, flatCcsLow base (flatCcsUnits size));
    (d * mmioDeviceOffset + 0x8804, flatCcsHigh base (flatCcsUnits size));
    (d * mmioDeviceOffset + 0x1344b4, flatCcsHigh base (flatCcsUnits size));
    (d * mmioDeviceOffset + 0x4910, Z.b2z (0 <? flatCcsUnits size));
    (d * mmioDeviceOffset + 0x384910, Z.b2z (0 <? flatCcsUnits size))]).
  { subst l. unfold flatCcsWrites. cbv zeta. rewrite !Hw by lia. by destruct (0 <? flatCcsUnits size). }
  set (units := flatCcsUnits size) in *.
  rewrite (Hread 0x8804 (flatCcsHigh base units)), (Hread 0x8800 (flatCcsLow base units)),
    (Hread 0x4910 (Z.b2z (0 <? units))), (Hread 0x1344b0 (flatCcsLow base units)),
    (Hread 0x1344b4 (flatCcsHigh base units)), (Hread 0x384910 (Z.b2z (0 <? units)))
    by (rewrite Hl; cbn [In]; tauto).
  destruct (flatCcs_fields base units Hb Ha Hu) as (H1 & H2 & H3). by split_and!.
Qed.

(** ** No L3 banks

    On a simulator the size of the flat CCS is divided by the number of L3 banks that
    the first device reports. Cri has local memory on four devices; when no bank is
    reported the function prints a message and ends after the first device's registers:
    those of the other devices keep their values. *)
Theorem no_l3_banks_stops ndebug settings g dsm flat n bank r :
  let f := GpuCri.family ndebug settings g in
  1 <= n ->
  stolenAddress Gpu.getDSMBaseAddress ndebug g 0 = Ok dsm -> stolenBaseAddress g 0 = Ok flat ->
  countBits (u16 (Z.shiftr (register r 0x9118) 16)) = 0 ->
  wp (@GpuFamily.initializeDefaultMemoryPools f RegisterFile _ mode.tbx n bank)
    (fun _ r' =>
       r' = programmed (stolenWrites g (u32 (Z.shiftl (wopcmCode f) 7)) bank 0 dsm) r
       /\ forall d o, 1 <= d -> 0 <= o < mmioDeviceOffset ->
            register r' (d * mmioDeviceOffset + o) = register r (d * mmioDeviceOffset + o)) r.
Proof.
  intros f Hn Hdsm Hflat Hbanks. set (w := stolenWrites _ _ _ _ _).
  assert (Hoff : Forall (fun o => 0 <= o < mmioDeviceOffset /\ o <> 0x9118) (map fst w)).
  { repeat (apply Forall_cons; split; [by vm_compute|]). by apply Forall_nil. }
  assert (Hpool : forall i fl k, poolLoop ndebug GpuCri.isMemorySupported fl
            (u32 (Z.shiftl (wopcmCode f) 7)) g (S k) 0 mode.tbx bank i r = Ok (tt, programmed w r)).
  { intros i fl k. cbn [poolLoop]. unfold mbind, M_bind. rewrite Hdsm. cbn [from_result].
    rewrite (writes_stolen g _ 0 bank dsm r). fold w. cbn [negb mode.tbx mode.aubFile].
    change (negb (mode.tbx =? mode.aubFile)) with true. cbv iota. rewrite Hflat. cbn [from_result].
    unfold flatCcsOf. change (GpuCri.isMemorySupported (MEMORY_BANK 0) 65536) with true. cbv iota.
    unfold mbind, M_bind. cbn [readMMIO RegisterFileStream gets].
    rewrite programmed_other by (intros Hin; by destruct (proj1 (Forall_forall _ _) Hoff _ Hin)).
    rewrite Hbanks. done. }
  unfold wp. destruct (Z.to_nat n) as [|k] eqn:Ek; [lia|].
  assert (@GpuFamily.initializeDefaultMemoryPools f RegisterFile _ mode.tbx n bank r
          = Ok (tt, programmed w r)) as ->.
  { change (StolenPools.initializeDefaultMemoryPools ndebug GpuCri.isMemorySupported
      (GpuXe3pCore.initializeFlatCcsBaseAddressMmio RegisterFile _)
      (u32 (Z.shiftl (wopcmCode f) 7)) g mode.tbx n bank r = Ok (tt, programmed w r)).
    unfold StolenPools.initializeDefaultMemoryPools. rewrite Ek. apply Hpool. }
  split; [done|]. intros d o Hd Ho. apply programmed_other. intros Hin.
  destruct (proj1 (Forall_forall _ _) Hoff _ Hin) as [? _]. nia.
Qed.

(** ** Four tiles of cri, and a bmg with a WOPCM of 16 MB *)

Definition exDsm (g : GpuObject) (d : Z) : Z :=
  match stolenAddress Gpu.getDSMBaseAddress true g d with Ok a => a | Err _ => 0 end.

Lemma stolen_registers_witness :
  wp (@GpuFamily.initializeDefaultMemoryPools (GpuCri.family true defaultSettings exObject)
        RegisterFile _ mode.aubFile 4 exBank)
    (fun _ r' => stolenProgrammed exObject exBank 3 (exDsm exObject 3) (8 * MB) r') ∅.
Proof.
  assert (Hp : (ProductFamily.Cri, enableCri, registerFamilyCri) ∈ poolProducts)
    by (apply (list_elem_of_lookup_2 _ 3); reflexivity).
  refine (stolen_registers _ true defaultSettings exObject (exDsm exObject) 4 3 exBank ∅ Hp _ _ _ _ _ _ _ _ _).
  - split; [discriminate|reflexivity].
  - discriminate.
  - intros d Hd. assert (Hin : d ∈ [0;1;2;3]) by (rewrite !elem_of_cons; lia).
    rewrite !elem_of_cons, elem_of_nil in Hin.
    destruct Hin as [->|[->|[->|[->|[]]]]]; (split; [vm_compute; reflexivity|
      vm_compute; split; [discriminate|reflexivity]]).
  - vm_compute. reflexivity.
  - vm_compute. reflexivity.
  - apply Z.mod_divide; [discriminate|vm_compute; reflexivity].
  - vm_compute. split; discriminate.
  - apply Z.mod_divide; [discriminate|vm_compute; reflexivity].
  - vm_compute. split; [discriminate|reflexivity].
Defined.

Definition exLargeWopcm : GpuObject :=
  let sizes := overrideDSMSize (32 * MB) (overrideWOPCMSize (16 * MB) baseGpuSizes) in
  mkGpuObject sizes
    (CreateStolenMemory (fun _ _ _ => 0) false 1 exBank (getStolenMemorySize sizes exBank)) false.

Lemma wopcm_size_fixed_witness :
  getWOPCMSize (gpuSizes exLargeWopcm) = 16 * MB
  /\ wp (@GpuFamily.initializeDefaultMemoryPools (GpuBmg.family true defaultSettings exLargeWopcm)
        RegisterFile _ mode.aubFile 1 exBank)
    (fun _ r' => stolenProgrammed exLargeWopcm exBank 0 (exDsm exLargeWopcm 0) (8 * MB) r') ∅.
Proof.
  split; [reflexivity|].
  assert (Hp : (ProductFamily.Bmg, enableBmg, registerFamilyBmg) ∈ take 3 poolProducts)
    by (apply (list_elem_of_lookup_2 _ 0); reflexivity).
  refine (proj2 (wopcm_size_fixed _ true defaultSettings exLargeWopcm (exDsm exLargeWopcm) exBank ∅ Hp
    _ _ _ _ _ _ _ _)).
  - vm_compute. reflexivity.
  - vm_compute. split; [discriminate|reflexivity].
  - vm_compute. reflexivity.
  - apply Z.mod_divide; [discriminate|vm_compute; reflexivity].
  - vm_compute. discriminate.
  - apply Z.mod_divide; [discriminate|vm_compute; reflexivity].
  - vm_compute. discriminate.
  - vm_compute. split; [discriminate|reflexivity].
Defined.

Lemma flat_ccs_registers_witness :
  wp (StolenPools.initializeFlatCcsBaseAddressMmio false 1 (2 ^ 33) (32 * MB))
    (fun _ r' => Z.land (Z.shiftr (register r' (1 * mmioDeviceOffset + 0x8804)) 14) 0x3ff = 256)
    (∅ : RegisterFile).
Proof.
  assert (Hd : (64 | 2 ^ 33)) by (apply Z.mod_divide; [discriminate|reflexivity]).
  eapply wp_mono.
  - exact (flat_ccs_registers false 1 (2 ^ 33) (32 * MB) ∅ ltac:(split; [discriminate|reflexivity])
      ltac:(split; [discriminate|reflexivity]) Hd ltac:(split; [discriminate|reflexivity])).
  - intros [] r' (_ & H & _). exact H.
Defined.

(** The registers of the simulator read zero. *)
Lemma no_l3_banks_stops_witness :
  wp (@GpuFamily.initializeDefaultMemoryPools (GpuCri.family true defaultSettings exObject)
        RegisterFile _ mode.tbx 4 exBank)
    (fun _ r' => register r' (3 * mmioDeviceOffset + 0x1080c0) = 0) ∅.
Proof.
  eapply wp_mono.
  - refine (no_l3_banks_stops true defaultSettings exObject (exDsm exObject 0)
      (match stolenBaseAddress exObject 0 with Ok a => a | Err _ => 0 end) 4 exBank ∅ _ _ _ _).
    + discriminate.
    + vm_compute. reflexivity.
    + vm_compute. reflexivity.
    + vm_compute. reflexivity.
  - intros [] r' [_ H]. apply (H 3 0x1080c0); [discriminate|split; [discriminate|reflexivity]].
Defined.
