(* ===== verification/FamilyPat.v ===== *)
(** * Page attributes of the products

    The bits that [getPPGTTExtraEntryBits] puts into a page table entry select an
    entry of the page attribute table, whose registers [initializeGlobalMMIO]
    programs. This file follows an entry to the register it selects: on the products
    that use the table, what the allocation asks for - uncached, compressed - is the
    policy that the register holds. *)

From S2P Require Import Prelude Allocator MemoryBanks Gpu PageTable Walker AubPackets AubStream.
From S2P Require Import Settings CommandStreamer TbxSockets TbxStream GpuFamily TableTheory.
From S2P Require Import FamilyXeHpg FamilyXeCore StolenPools FamilyXe2 FamilyXe3 FamilyXe3p.
From S2P Require Import Products FamilyTheory FamilyRegisters.
#[local] Open Scope Z_scope.

(** ** The index in an entry *)

Definition patIndexOf (entry : Z) : Z :=
  Z.b2z (Z.testbit entry 3) + 2 * Z.b2z (Z.testbit entry 4) + 4 * Z.b2z (Z.testbit entry 7)
  + 8 * Z.b2z (Z.testbit entry 62) + 16 * Z.b2z (Z.testbit entry 61).

Lemma page_bit pa i : (2 ^ 12 | pa) -> 0 <= pa < 2 ^ 57 -> i ∈ [3;4;7;61;62] -> Z.testbit pa i = false.
Proof.
  intros [q Hq] Hpa Hi. rewrite !elem_of_cons, elem_of_nil in Hi.
  assert (Hlow : forall j, 0 <= j < 12 -> Z.testbit pa j = false).
  { intros j Hj. rewrite Hq, <- Z.shiftl_mul_pow2, Z.shiftl_spec, Z.testbit_neg_r by lia. done. }
  assert (Hhigh : forall j, 57 <= j -> Z.testbit pa j = false).
  { intros j Hj. rewrite <- (Z.mod_small pa (2 ^ 57)) by done. by apply Z.mod_pow2_bits_high. }
  destruct Hi as [->|[->|[->|[->|[->|[]]]]]]; auto with lia.
Qed.

(** The bits of an entry that hold the index: in the entry of a 2 MB page bit 7 is the
    page size. *)
Definition attributeBits (c : PageTableClass) (entry : Z) : Z :=
  match c with
  | Page2MB => Z.ldiff entry (toBitValue [PpgttEntryBits.largePageSizeBit])
  | _ => entry
  end.

(** A page whose entry has room for the index that the bits [extra] ask for. *)
Definition indexFits (c : PageTableClass) (extra : Z) : Prop :=
  c = PageTableMemory \/ c = Page2MB /\ Z.testbit extra 7 = false.

(** The flags and the address of an entry leave the index alone. *)
Lemma patIndexOf_entry gpu p :
  let extra := getPPGTTExtraEntryBits gpu (additionalAllocParams p) in
  indexFits (cls p) extra -> (2 ^ 12 | physicalAddress p) -> 0 <= physicalAddress p < 2 ^ 57 ->
  patIndexOf (attributeBits (cls p) (entryValue gpu p)) = patIndexOf extra.
Proof.
  intros extra Hc Ha Hr.
  assert (Hb : forall i, i ∈ [3;4;7;61;62] ->
            Z.testbit (attributeBits (cls p) (entryValue gpu p)) i = Z.testbit extra i).
  { intros i Hi. unfold entryValue, attributeBits. fold extra. destruct Hc as [->|[-> H7]].
    - rewrite !Z.lor_spec, page_bit by done.
      rewrite !elem_of_cons, elem_of_nil in Hi. destruct (isLocalMemory p), (ps64 p);
        by repeat (destruct Hi as [->|Hi]; [reflexivity|]).
    - rewrite Z.ldiff_spec, !Z.lor_spec, page_bit by done.
      rewrite !elem_of_cons, elem_of_nil in Hi. destruct (isLocalMemory p);
        repeat (destruct Hi as [->|Hi]; [rewrite ?H7; cbn; by rewrite ?andb_true_r|]); done. }
  unfold patIndexOf. by rewrite !Hb by (rewrite !elem_of_cons; tauto).
Qed.

(** ** The last write of a register *)

Definition lastWrite (l : list (Z * Z)) (o : Z) : option Z :=
  foldl (fun acc p => if p.1 =? o then Some p.2 else acc) None l.

Lemma programmed_lastWrite l o : forall r, register (programmed l r) o = default (register r o) (lastWrite l o).
Proof.
  induction l as [|[o' v] l IH] using rev_ind; intros r; [done|].
  unfold lastWrite. rewrite programmed_app, foldl_app. cbn [foldl fst snd].
  unfold programmed at 1. cbn [foldl fst snd]. unfold register at 1.
  destruct (Z.eqb_spec o' o) as [->|Hne]; [by rewrite lookup_insert_eq|].
  rewrite lookup_insert_ne by done. apply IH.
Qed.

(** ** The policies *)

(** Whether an attribute register means uncached: the memory type of XeHpcCore, the L4
    policy of XeHpgCore, the L3 policy from Xe2HpgCore on. *)
Definition uncachedPolicy (core w : Z) : bool :=
  if core =? CoreFamily.XeHpcCore then Z.land w 3 =? 0
  else if core =? CoreFamily.XeHpgCore then Z.land (Z.shiftr w 2) 3 =? 3
  else Z.land (Z.shiftr w 4) 3 =? 3.

(** Compression is bit 9, from Xe2HpgCore on. *)
Definition compressedPolicy (core w : Z) : bool :=
  negb (core <=? CoreFamily.XeHpcCore) && Z.testbit w 9.

Definition policyHolds (f : GpuFamily) (a : AdditionalParams) (w : Z) : Prop :=
  let core := gfxCoreFamily (@familyDescriptor f) in
  uncachedPolicy core w = uncached a
  /\ (CoreFamily.XeHpcCore < core -> compressedPolicy core w = compressionEnabled a).

(** The register that an entry with the parameters [a] selects on device [d]. *)
Definition selectedAttribute (f : GpuFamily) (a : AdditionalParams) (d : Z) : Z :=
  d * mmioDeviceOffset
  + StolenPools.getPatIndexMmioAddr (patIndexOf (getPPGTTExtraEntryBits (@familyOps f) a)).

(** What evaluation decides about a list of writes. *)
Definition policyCheck (f : GpuFamily) (l : list (Z * Z)) (n : Z) (a : AdditionalParams) : bool :=
  let core := gfxCoreFamily (@familyDescriptor f) in
  forallb (fun d =>
    match lastWrite l (selectedAttribute f a d) with
    | Some w => Bool.eqb (uncachedPolicy core w) (uncached a)
                && ((core <=? CoreFamily.XeHpcCore) || Bool.eqb (compressedPolicy core w) (compressionEnabled a))
    | None => false
    end) (seqZ 0 n).

Lemma policyCheck_holds f l n a d r :
  policyCheck f l n a = true -> 0 <= d < n ->
  policyHolds f a (register (programmed l r) (selectedAttribute f a d)).
Proof.
  intros Hc Hd. unfold policyCheck in Hc. rewrite forallb_forall in Hc.
  assert (Hin : In d (seqZ 0 n)) by (apply list_elem_of_In, elem_of_seqZ; lia).
  specialize (Hc d Hin).
  rewrite programmed_lastWrite. destruct (lastWrite _ _) as [w|]; [|done]. cbn [default].
  rewrite andb_true_iff, orb_true_iff, !Bool.eqb_true_iff, Z.leb_le in Hc.
  split; [apply Hc|]. intros Hcore. destruct Hc as [_ [Hc|Hc]]; [lia|done].
Qed.

(** The lists that the products with a page attribute table write. *)
Definition devicesWrites (n : Z) (g : Z -> list (Z * Z)) : list (Z * Z) :=
  concat (map g (deviceOffsets (Z.to_nat n) 0)).

Definition tableAt (l : list (Z * Z)) (mmioDevice : Z) : list (Z * Z) :=
  map (fun p => (u32 (mmioDevice + p.1), p.2)) l.

Lemma writes_devices n body g : 0 <= n <= 4 -> (forall d, writes (body d) (g d)) ->
  writes (forDevices (Z.to_nat n) 0 body) (devicesWrites n g).
Proof.
  intros Hn Hb. apply writes_forDevices; [done|lia|]. change mmioDeviceOffset with 16777216. lia.
Qed.

Lemma writes_pvc n bank stepping : 0 <= n <= 4 ->
  writes (GpuPvc.initializeGlobalMMIO RegisterFile _ n bank stepping)
    (devicesWrites n (fun d => tableAt GpuPvc.getGlobalMMIO d
       ++ [(u32 (d + 0xb120), if stepping =? SteppingValues.A then 0x54000002 else 0x14000002)])).
Proof.
  intros Hn. apply writes_devices; [done|]. intros d. apply writes_bind; [apply writes_pairs|].
  destruct (stepping =? SteppingValues.A); apply writes_MMIO32.
Qed.

Lemma writes_xe3p platform n bank stepping : 0 <= n <= 4 ->
  writes (GpuXe3pCore.initializeGlobalMMIO platform RegisterFile _ n bank stepping)
    (devicesWrites n (fun d => tableAt GpuXe3pCore.getGlobalMMIO d ++ tableAt platform d)).
Proof. intros Hn. apply writes_devices; [done|]. intros d. apply writes_bind; apply writes_pairs. Qed.

Lemma writes_xehpg platform n bank stepping : 0 <= n <= 4 ->
  writes (GpuXeHpgCore.initializeGlobalMMIO platform RegisterFile _ n bank stepping)
    (devicesWrites n (fun d => tableAt GpuXeHpgCore.getGlobalMMIO d ++ tableAt platform 0)).
Proof. intros Hn. apply writes_devices; [done|]. intros d. apply writes_bind; apply writes_pairs. Qed.

Definition attributeProducts : list (Z * GpuClass * (ProductFamilyTable -> ProductFamilyTable)) :=
  [(ProductFamily.Mtl, enableMtl, registerFamilyMtl);
   (ProductFamily.Bmg, enableBmg, registerFamilyBmg); (ProductFamily.Lnl, enableLnl, registerFamilyLnl);
   (ProductFamily.Ptl, enablePtl, registerFamilyPtl); (ProductFamily.Cri, enableCri, registerFamilyCri);
   (ProductFamily.Nvlp, enableNvlp, registerFamilyNvlp)].

(** The table of cri has no entry for compressed pages, and none for those that the
    setting AppTransientForUncompressedCachedPages selects. *)
Definition attributesDefined (f : GpuFamily) (settings : Settings) (a : AdditionalParams) : Prop :=
  Gpu.productFamily (@familyDescriptor f) = ProductFamily.Cri ->
  compressionEnabled a = false /\ value (AppTransientForUncompressedCachedPages settings) = false.

Ltac evaluate_policy n :=
  let Hin := fresh in
  assert (Hin : n ∈ [1;2;3;4]) by (rewrite !elem_of_cons; lia);
  rewrite !elem_of_cons, elem_of_nil in Hin;
  repeat (destruct Hin as [->|Hin]); try contradiction; try lia; vm_compute; reflexivity.

Lemma attribute_writes p ndebug settings g n bank stepping a :
  p ∈ attributeProducts ->
  let f := familyOf p.1.2 ndebug settings g in
  0 < n <= Gpu.deviceCount (@familyDescriptor f) -> attributesDefined f settings a ->
  exists l, writes (@GpuFamily.initializeGlobalMMIO f RegisterFile _ n bank stepping) l
    /\ policyCheck f l n a = true.
Proof.
  intros Hp f Hn Ha. subst f. unfold attributeProducts in Hp.
  apply elem_of_cons in Hp as [->|Hp].
  { count_devices Hn. eexists. split; [apply writes_xehpg; lia|]. destruct a as [[] []]; evaluate_policy n. }
  do 3 (apply elem_of_cons in Hp as [->|Hp];
    [count_devices Hn; eexists; split; [apply writes_base|]; destruct a as [[] []]; evaluate_policy n|]).
  apply elem_of_cons in Hp as [->|Hp].
  { count_devices Hn. eexists. split; [apply writes_xe3p; lia|].
    destruct settings as [? ? ? ? ? ? [b ?]]. destruct a as [c u].
    destruct (Ha eq_refl) as [Hc Hb]. cbn in Hc, Hb. subst b c. destruct u; evaluate_policy n. }
  apply elem_of_cons in Hp as [->|Hp]; [|by apply not_elem_of_nil in Hp].
  count_devices Hn. eexists. split; [apply writes_xe3p; lia|].
  destruct settings as [? ? ? ? ? ? [[] ?]], a as [[] []]; evaluate_policy n.
Qed.

(** Only compressed and uncached pages ask for an index with bit 2. *)
Lemma attribute_bit2 p ndebug settings g a :
  p ∈ attributeProducts -> compressionEnabled a && uncached a = false ->
  Z.testbit (getPPGTTExtraEntryBits (@familyOps (familyOf p.1.2 ndebug settings g)) a) 7 = false.
Proof.
  intros Hp Ha. unfold attributeProducts in Hp. destruct settings as [? ? ? ? ? ? [b ?]].
  destruct a as [c u]. cbn in Ha.
  repeat (apply elem_of_cons in Hp as [->|Hp]; [destruct b, c, u; try done; by vm_compute|]).
  by apply not_elem_of_nil in Hp.
Qed.

(** C14: On mtl, bmg, lnl, ptl, cri and nvlp the page attribute register that the entry of a
    4 KB, 64 KB or 2 MB page selects, on every device after initializeGlobalMMIO, means
    uncached exactly when the allocation asks for it and, from Xe2HpgCore on, compressed
    exactly when it asks for that. On cri compression and the application-transient
    setting are to be off. A 2 MB page is not to be both compressed and uncached: its
    entry has the page size where the index of such a page has its bit 2. *)
Theorem page_attributes_as_requested p ndebug settings g n d bank stepping page r :
  p ∈ attributeProducts ->
  let f := familyOf p.1.2 ndebug settings g in
  let a := additionalAllocParams page in
  0 <= d < n -> n <= Gpu.deviceCount (@familyDescriptor f) ->
  attributesDefined f settings a ->
  cls page = PageTableMemory \/ cls page = Page2MB /\ compressionEnabled a && uncached a = false ->
  (2 ^ 12 | physicalAddress page) -> 0 <= physicalAddress page < 2 ^ 57 ->
  let entry := entryValue (@familyOps f) page in
  wp (@GpuFamily.initializeGlobalMMIO f RegisterFile _ n bank stepping)
    (fun _ r' => policyHolds f a
       (register r' (d * mmioDeviceOffset
          + StolenPools.getPatIndexMmioAddr (patIndexOf (attributeBits (cls page) entry))))) r.
Proof.
  intros Hp f a Hd Hn Hdef Hc Ha Hr entry. subst entry.
  rewrite patIndexOf_entry.
  2: { destruct Hc as [->|[-> Hcu]]; [by left|right; split; [done|by apply attribute_bit2]]. }
  2, 3: done.
  assert (H0 : 0 < n <= Gpu.deviceCount (@familyDescriptor f)) by (split; [lia|done]).
  destruct (attribute_writes p ndebug settings g n bank stepping a Hp H0 Hdef) as (l & Hw & Hl).
  apply (writes_wp _ _ _ _ Hw). exact (policyCheck_holds f l n _ d r Hl Hd).
Qed.

Ltac decide_devices Hin Hid :=
  repeat (destruct Hin as [->|Hin]); try contradiction;
  repeat (destruct Hid as [->|Hid]); try contradiction; try lia;
  vm_compute; reflexivity.

(** On pvc the table of GpuPvc replaces that of GpuXeHpcCore, which alone has the page
    attributes: whatever the page, the register its entry selects is not written. On cri
    the entry of a compressed page selects a register that is not written (uncached) or
    that does not compress (cached). *)
Theorem page_attributes_missing ndebug settings g n d bank stepping a r :
  0 <= d < n -> n <= 4 ->
  let pvc := GpuPvc.family ndebug settings g in
  let cri := GpuCri.family ndebug settings g in
  wp (@GpuFamily.initializeGlobalMMIO pvc RegisterFile _ n bank stepping)
    (fun _ r' => register r' (selectedAttribute pvc a d) = register r (selectedAttribute pvc a d)) r
  /\ (compressionEnabled a = true ->
      wp (@GpuFamily.initializeGlobalMMIO cri RegisterFile _ n bank stepping)
        (fun _ r' => if uncached a
           then register r' (selectedAttribute cri a d) = register r (selectedAttribute cri a d)
           else compressedPolicy CoreFamily.Xe3pCore (register r' (selectedAttribute cri a d)) = false) r).
Proof.
  intros Hd Hn pvc cri.
  assert (Hin : n ∈ [1;2;3;4] /\ d ∈ [0;1;2;3]) by (rewrite !elem_of_cons; lia).
  rewrite !elem_of_cons, !elem_of_nil in Hin. destruct Hin as [Hin Hid]. split.
  - apply (writes_wp _ _ _ _ (writes_pvc n bank stepping ltac:(lia))). rewrite programmed_lastWrite.
    match goal with |- default _ ?x = _ => assert (x = None) as ->; [|done] end.
    destruct a as [c []], (stepping =? SteppingValues.A); decide_devices Hin Hid.
  - intros Hc. apply (writes_wp _ _ _ _ (writes_xe3p _ n bank stepping ltac:(lia))).
    rewrite programmed_lastWrite. destruct a as [c u]. cbn in Hc. subst c. cbn [uncached].
    match goal with |- context [default _ ?x] =>
      assert (x = if u then None else Some 0xe) as ->; [|by destruct u] end.
    destruct u; decide_devices Hin Hid.
Qed.

(** ** A page of bmg *)

Definition exPage : PageTable :=
  mkPageTable PageTableMemory true (mkAdditionalParams true false) 0x20000 1 [] false false 12 0.

(** Compressed and cached: the entry selects the attributes with compression. *)
Lemma page_attributes_as_requested_witness :
  let f := familyOf enableBmg true defaultSettings (construct enableBmg) in
  wp (@GpuFamily.initializeGlobalMMIO f RegisterFile _ 1 exBank 0)
    (fun _ r' => policyHolds f (additionalAllocParams exPage) (register r'
       (0 * mmioDeviceOffset + StolenPools.getPatIndexMmioAddr (patIndexOf (entryValue (@familyOps f) exPage))))) ∅.
Proof.
  assert (Hp : (ProductFamily.Bmg, enableBmg, registerFamilyBmg) ∈ attributeProducts)
    by (apply (list_elem_of_lookup_2 _ 1); reflexivity).
  apply (page_attributes_as_requested _ true defaultSettings (construct enableBmg) 1 0 exBank 0 exPage ∅ Hp).
  - split; [discriminate|reflexivity].
  - discriminate.
  - intros H. discriminate H.
  - left. reflexivity.
  - apply Z.mod_divide; [discriminate|reflexivity].
  - split; [discriminate|reflexivity].
Defined.

Lemma page_attributes_missing_witness :
  let f := GpuPvc.family true defaultSettings (construct enablePvc) in
  selectedAttribute f noParams 1 = mmioDeviceOffset + 0x480c
  /\ wp (@GpuFamily.initializeGlobalMMIO f RegisterFile _ 2 exBank 0)
       (fun _ r' => register r' (selectedAttribute f noParams 1) = 0) ∅.
Proof.
  intros f. split; [vm_compute; reflexivity|].
  refine (proj1 (page_attributes_missing true defaultSettings (construct enablePvc) 2 1 exBank 0 noParams ∅ _ _)).
  - split; [discriminate|reflexivity].
  - discriminate.
Defined.
