(* ===== verification/AubManager.v ===== *)
(** * The manager

    [aub_manager_imp.h], [aub_manager_imp.cpp], [null_hardware_context.h] and the
    groups' part of [hardware_context_imp.h]: the object the client holds. It owns
    the stream of its mode, a page table and a global table per device, the groups
    and the list of contexts. The virtual functions of the graphics families are
    the class [GpuFamily]; the mutex is left out. *)

From S2P Require Import Prelude Allocator MemoryBanks Gpu PageTable Walker AubPackets AubStream.
From S2P Require Import CommandStreamer HardwareContext AubFileStream TbxSockets TbxStream.
From S2P Require Import GpuFamily.
#[local] Open Scope Z_scope.

Definition invalidContextId : Z := u32 (-1).

Record SharedMemoryInfo := mkShared {
  sysMemBase : option Z;
  sysMemSize : Z;
  localMemBase : option Z;
  localMemSize : Z
}.

(** A pointer is a number; zero is the null pointer. *)
Definition pointer (p : Z) : option Z := if p =? 0 then None else Some p.

(** The lambdas of [initialize] for shared memory and for version 3 of it. *)
Definition translateShm (i : SharedMemoryInfo) (physAddress size : Z) (isLocalMemory : bool)
    : option Z * Z :=
  let memSize := if isLocalMemory then localMemSize i else sysMemSize i in
  let base := default 0 (if isLocalMemory then localMemBase i else sysMemBase i) in
  (pointer (base + physAddress), u64 (memSize - physAddress)).

Definition translateShm3 (physAddress size : Z) (isLocalMemory : bool) : option Z * Z :=
  (pointer physAddress, size).

(** ** The streams

    [streamAub], [streamTbx] and [streamTbxShm], and the stream that [getStream]
    gives for the mode. *)

Inductive ManagerStream (T : Type) :=
| NoStream
| OnlyAub (s : AubFileStream)
| OnlyTbx (s : T)
| AubAndTbx (s : AubTbxStream AubFileStream T)
| OnlyShm (s : ShmState T)
| AubAndShm (s : AubShmStream AubFileStream (ShmState T)).
Arguments NoStream {T}.
Arguments OnlyAub {T}.
Arguments OnlyTbx {T}.
Arguments AubAndTbx {T}.
Arguments OnlyShm {T}.
Arguments AubAndShm {T}.

Section ManagerStream.
Context {T : Type} `{!TbxSockets T}.
Variable ndebug : bool.
Variable fuel : nat.
Variable indeterminate : Z.
Variable translateFn : Z -> Z -> bool -> option Z * Z.
Variable ggttIsLocal : GGTT -> bool.

#[local] Instance fileInstance : Stream AubFileStream := FileStream ndebug.
#[local] Instance tbxInstance : Stream T := TbxStream ndebug fuel indeterminate.
#[local] Instance shmInstance : Stream (ShmState T) :=
  TbxShmStream ndebug fuel indeterminate translateFn ggttIsLocal.

Definition into {St B} (f : St -> ManagerStream T) (r : result (B * St))
    : result (B * ManagerStream T) :=
  match r with Ok (b, s) => Ok (b, f s) | Err e => Err e end.

(** [getStreamMode()] of the stream; a [TbxShmStream] keeps the mode it was created
    for, which is the manager's. *)
Definition getStreamMode (streamMode : Z) (s : ManagerStream T) : Z :=
  match s with
  | NoStream | OnlyShm _ => streamMode
  | OnlyAub _ => mode.aubFile
  | OnlyTbx _ => mode.tbx
  | AubAndTbx _ => mode.aubFileAndTbx
  | AubAndShm _ => mode.aubFileAndShm
  end.

(** A virtual call through [getStream()]. *)
Definition dispatch {B} (call : forall Sk, Stream Sk -> M Sk B) : M (ManagerStream T) B := fun s =>
  match s with
  | NoStream => Err NullDereference
  | OnlyAub x => into OnlyAub (call _ _ x)
  | OnlyTbx x => into OnlyTbx (call _ _ x)
  | AubAndTbx x => into AubAndTbx (call _ _ x)
  | OnlyShm x => into OnlyShm (call _ _ x)
  | AubAndShm x => into AubAndShm (call _ _ x)
  end.

(** Calls through [streamAub], and through [streamTbx] or [streamTbxShm]. *)
Definition onAub {B} (m : M AubFileStream B) : M (ManagerStream T) B := fun s =>
  match s with
  | OnlyAub x => into OnlyAub (m x)
  | AubAndTbx x => into AubAndTbx (onFile m x)
  | AubAndShm x => into AubAndShm (onStreams (onFile m) x)
  | _ => Err NullDereference
  end.

Definition onSimulator {B} (call : forall Sk, Stream Sk -> M Sk B) : M (ManagerStream T) B := fun s =>
  match s with
  | OnlyTbx x => into OnlyTbx (call _ _ x)
  | AubAndTbx x => into AubAndTbx (onTbx (call _ _) x)
  | OnlyShm x => into OnlyShm (call _ _ x)
  | AubAndShm x => into AubAndShm (onStreams (onTbx (call _ _)) x)
  | _ => Err NullDereference
  end.

#[export] Instance ManagerStreamOps : Stream (ManagerStream T) := {
  addComment m := dispatch (fun _ _ => addComment m);
  writeGttPages g es := dispatch (fun _ _ => writeGttPages g es);
  expectMemoryTable m n es c := dispatch (fun _ _ => expectMemoryTable m n es c);
  reserveContiguousPages l := dispatch (fun _ _ => reserveContiguousPages l);
  readDiscontiguousPages m n es := dispatch (fun _ _ => readDiscontiguousPages m n es);
  writeDiscontiguousPages m n es h := dispatch (fun _ _ => writeDiscontiguousPages m n es h);
  writeDiscontiguousEntries es a h := dispatch (fun _ _ => writeDiscontiguousEntries es a h);
  memoryPoll es v c := dispatch (fun _ _ => memoryPoll es v c);
  registerPoll o m d n a := dispatch (fun _ _ => registerPoll o m d n a);
  writeMMIO o v m := dispatch (fun _ _ => writeMMIO o v m);
  readMMIO o := dispatch (fun _ _ => readMMIO o);
  writePCICFG o v := dispatch (fun _ _ => writePCICFG o v);
  readPCICFG o := dispatch (fun _ _ => readPCICFG o);
  declareContext h p := dispatch (fun _ _ => declareContext h p);
  dumpBufferBIN g a n h := dispatch (fun _ _ => dumpBufferBIN g a n h);
  dumpSurface g si h := dispatch (fun _ _ => dumpSurface g si h);
  arePageTableWritesFullyCommitted := dispatch (fun _ _ => arePageTableWritesFullyCommitted)
}.
End ManagerStream.

(** ** Groups

    [GroupContextHelper]: per device and engine, the vector of groups (the keys of
    the groups in the world, and the capacity), the number of groups given out,
    and the group of each primary context. *)

Record GroupContextHelper := mkGroups {
  contextGroups : gmap (Z * Z) (list nat * Z);
  groupIds : gmap (Z * Z) Z;
  primaryContextIdToGroupId : gmap (Z * Z * Z) Z
}.

(** A context the client holds: a null context or a context of the world. *)
Inductive ContextPointer := NullContext (address : nat) | ContextImp (this : nat).

#[export] Instance ContextPointer_eq_dec : EqDecision ContextPointer.
Proof. solve_decision. Defined.

Record AubManagerImp := mkManager {
  devicesCount : Z;
  memoryBankSize : Z;
  localMemorySupported : bool;
  streamMode : Z;
  stepping : Z;
  gpuAddressSpace : Z;
  ccsCount : Z;
  sharedMemoryInfo : SharedMemoryInfo;
  enableThrow : bool;
  ppgtts : list loc;
  hwContexts : list ContextPointer;
  nullContexts : nat;
  groupContextHelper : GroupContextHelper
}.

Definition set_ccsCount v m := mkManager (devicesCount m) (memoryBankSize m) (localMemorySupported m)
  (streamMode m) (stepping m) (gpuAddressSpace m) v (sharedMemoryInfo m) (enableThrow m) (ppgtts m)
  (hwContexts m) (nullContexts m) (groupContextHelper m).
Definition set_ppgtts v m := mkManager (devicesCount m) (memoryBankSize m) (localMemorySupported m)
  (streamMode m) (stepping m) (gpuAddressSpace m) (ccsCount m) (sharedMemoryInfo m) (enableThrow m) v
  (hwContexts m) (nullContexts m) (groupContextHelper m).
Definition set_hwContexts v m := mkManager (devicesCount m) (memoryBankSize m) (localMemorySupported m)
  (streamMode m) (stepping m) (gpuAddressSpace m) (ccsCount m) (sharedMemoryInfo m) (enableThrow m)
  (ppgtts m) v (nullContexts m) (groupContextHelper m).
Definition set_nullContexts v m := mkManager (devicesCount m) (memoryBankSize m)
  (localMemorySupported m) (streamMode m) (stepping m) (gpuAddressSpace m) (ccsCount m)
  (sharedMemoryInfo m) (enableThrow m) (ppgtts m) (hwContexts m) v (groupContextHelper m).
Definition set_groupContextHelper v m := mkManager (devicesCount m) (memoryBankSize m)
  (localMemorySupported m) (streamMode m) (stepping m) (gpuAddressSpace m) (ccsCount m)
  (sharedMemoryInfo m) (enableThrow m) (ppgtts m) (hwContexts m) (nullContexts m) v.

(** ** The manager and the world it works in *)

Record ManagerState (A T : Type) := mkManagerState {
  mgr : AubManagerImp;
  world : World A (ManagerStream T)
}.
Arguments mkManagerState {A T}.
Arguments mgr {A T}.
Arguments world {A T}.

(** The extra functions of the allocator of shared memory version 4, which the
    manager reaches by a cast. *)
Class Shm4Mapper (A : Type) := {
  shm4_reserveOnlyPhysicalSpace : Z -> Z -> Z -> M A Z;
  shm4_mapSystemMemoryToPhysicalAddress : Z -> Z -> Z -> bool -> Z -> M A unit;
  shm4_translatePhysicalAddressToSystemMemory : Z -> Z -> bool -> M A (Z * Z)
}.

Module Manager.
Section Operations.
Context {A : Type} `{!PhysicalAddressAllocator A} `{!Shm4Mapper A} {T : Type} `{!TbxSockets T}.
Context `{!GpuFamily}.
Variable ndebug enablePs64 verbose : bool.
Variable handleOf : nat -> Z.
(* parameters of the simulator streams *)
Variable fuel : nat.
Variable indeterminate : Z.
Variable translateFn : Z -> Z -> bool -> option Z * Z.
Variable ggttIsLocal : GGTT -> bool.
(* the list of [injectMMIOList] and the caller of [setAubStreamCaller] *)
Variable MMIOListInjected : list (Z * Z * Z).
Variable aubStreamCaller : Z.

#[local] Instance streamInstance : Stream (ManagerStream T) :=
  ManagerStreamOps ndebug fuel indeterminate translateFn ggttIsLocal.

#[local] Abbreviation MS := (ManagerState A T).
#[local] Abbreviation G := (M MS).

Definition onWorld {B} (m : M (World A (ManagerStream T)) B) : G B :=
  fun s => match m (world s) with
           | Ok (b, w) => Ok (b, mkManagerState (mgr s) w)
           | Err e => Err e
           end.

Definition onManagerStream {B} (m : M (StreamState A (ManagerStream T)) B) : G B :=
  onWorld (onStream m).
Definition onManagerSink {B} (m : M (ManagerStream T) B) : G B := onManagerStream (onSink m).
Definition onAllocatorOf {B} (m : M A B) : G B := onManagerStream (onTables (onAllocator m)).

Definition mget : G AubManagerImp := gets mgr.
Definition mmodify (f : AubManagerImp -> AubManagerImp) : G unit :=
  modify (fun s => mkManagerState (f (mgr s)) (world s)).

Definition throwErrorIfEnabled (what : string) : G unit :=
  m ← mget; when (enableThrow m) (fail (StdException what)).

(** The modes that [getStream] knows. *)
Definition hasStreamMode (m : Z) : bool :=
  (m =? mode.aubFile) || (m =? mode.tbx) || (m =? mode.aubFileAndTbx) || IsAnyTbxShmMode m
  || (m =? mode.aubFileAndShm) || (m =? mode.aubFileAndShm4).

(** [getStream]: whether it gives a stream. *)
Definition getStream : G bool :=
  m ← mget;
  if hasStreamMode (streamMode m) then
    s ← get;
    mret (match sink (stream (world s)) with NoStream => false | _ => true end)
  else throwErrorIfEnabled "Stream is null." ≫= fun _ => mret false.

(** [getStream()] and a call through the result. *)
Definition withStream {B} (m : G B) : G B := getStream ≫= fun _ => m.

Definition isNull : G bool := m ← mget; mret (streamMode m =? mode.null).

Definition isAubMode (m : Z) : bool :=
  (m =? mode.aubFile) || (m =? mode.aubFileAndTbx) || (m =? mode.aubFileAndShm)
  || (m =? mode.aubFileAndShm4).
Definition isShm4Mode (m : Z) : bool := (m =? mode.tbxShm4) || (m =? mode.aubFileAndShm4).

(** ** Groups *)

(** The vectors of groups, at [arrayCount] engines of four devices. *)
Definition groupVector (key : Z * Z) : G (list nat * Z) :=
  m ← mget;
  from_option_M OutOfBounds (contextGroups (groupContextHelper m) !! key).

Definition set_groupVector (key : Z * Z) (v : list nat * Z) : G unit :=
  mmodify (fun m => let h := groupContextHelper m in
    set_groupContextHelper
      (mkGroups (<[key := v]> (contextGroups h)) (groupIds h) (primaryContextIdToGroupId h)) m).

Definition newGroup (g : ContextGroup) : M (World A (ManagerStream T)) nat :=
  w ← get;
  let i := fresh (dom (groups w)) in
  put (mkWorld (stream w) (ggtts w) (<[i := g]> (groups w)) (objects w) (globalContextId w)) ≫= fun _ =>
  mret i.

(** A copy of an element of a vector, at a new address. *)
Definition copyGroup (i : nat) : M (World A (ManagerStream T)) nat :=
  g ← getGroup (Some i); newGroup g.

(** The old array of a vector is freed: pointers into it dangle. *)
Definition freeGroups (l : list nat) : M (World A (ManagerStream T)) unit :=
  modify (fun w => mkWorld (stream w) (ggtts w) (foldr delete (groups w) l) (objects w)
                     (globalContextId w)).

Fixpoint mapM_W {X Y St} (f : X -> M St Y) (l : list X) : M St (list Y) :=
  match l with
  | [] => mret []
  | x :: l' => y ← f x; ys ← mapM_W f l'; mret (y :: ys)
  end.

(** [contextGroups.resize(n)] for a larger [n]: above the capacity the elements
    move to a new array (libstdc++ doubles the size). *)
Definition resizeGroups (key : Z * Z) (n : Z) : G unit :=
  v ← groupVector key;
  let '(elements, capacity) := v in
  let size := Z.of_nat (length elements) in
  let add := mapM_W (fun _ => newGroup (mkGroup 0 [])) (seq 0 (Z.to_nat (n - size))) in
  if capacity <? n then
    moved ← onWorld (mapM_W copyGroup elements);
    added ← onWorld add;
    onWorld (freeGroups elements) ≫= fun _ =>
    set_groupVector key (moved ++ added, Z.max n (2 * size))
  else
    added ← onWorld add;
    set_groupVector key (elements ++ added, capacity).

Definition groupAt (key : Z * Z) (i : Z) : G nat :=
  v ← groupVector key; from_option_M OutOfBounds (v.1 !! Z.to_nat i).

(** [group->contexts.resize(contextGroupCount)]. *)
Definition resizeContexts (group : nat) (n : Z) : G unit :=
  onWorld (
    g ← getGroup (Some group);
    setGroup (Some group)
      (mkGroup (contextGroupCounter g)
         (take (Z.to_nat n) (contexts g ++ replicate (Z.to_nat n - length (contexts g)) None)))).

(** The group of a context that asks for one. *)
Definition selectGroup (key : Z * Z) (contextId primaryContextId : Z) : G nat :=
  m ← mget;
  let h := groupContextHelper m in
  groupId ← (
    if primaryContextId =? invalidContextId then
      let groupId := default 0 (groupIds h !! key) in
      mmodify (fun m => let h := groupContextHelper m in
        set_groupContextHelper (mkGroups (contextGroups h) (groupIds h)
          (<[(key, contextId) := groupId]> (primaryContextIdToGroupId h))) m) ≫= fun _ =>
      v ← groupVector key;
      when (Z.of_nat (length v.1) <=? groupId)
        (resizeGroups key (groupId + 1) ≫= fun _ =>
         group ← groupAt key groupId;
         resizeContexts group getContextGroupCount) ≫= fun _ =>
      mmodify (fun m => let h := groupContextHelper m in
        set_groupContextHelper (mkGroups (contextGroups h) (<[key := u32 (groupId + 1)]> (groupIds h))
          (primaryContextIdToGroupId h)) m) ≫= fun _ =>
      mret groupId
    else
      (* [operator[]] inserts a zero for an unknown key *)
      let groupId := default 0 (primaryContextIdToGroupId h !! (key, primaryContextId)) in
      mmodify (fun m => let h := groupContextHelper m in
        set_groupContextHelper (mkGroups (contextGroups h) (groupIds h)
          (<[(key, primaryContextId) := groupId]> (primaryContextIdToGroupId h))) m) ≫= fun _ =>
      mret groupId);
  groupAt key groupId.

(** ** Contexts *)

(** [hwContexts.push_back(context)]. *)
Definition pushContext (p : ContextPointer) : G ContextPointer :=
  mmodify (fun m => set_hwContexts (hwContexts m ++ [p]) m) ≫= fun _ => mret p.

Definition newNullContext : G ContextPointer :=
  m ← mget; mmodify (set_nullContexts (S (nullContexts m))) ≫= fun _ =>
  mret (NullContext (nullContexts m)).

(** [new HardwareContextImp(device, *stream, csTraits, *ggtts[device], ...)]. *)
Definition newContext (device : Z) (cs : CommandStreamerHelper) (group : option nat)
    (flags priority : Z) : G ContextPointer :=
  m ← mget;
  onWorld (getGGTT (Z.to_nat device)) ≫= fun _ =>
  ppgtt ← from_option_M OutOfBounds (ppgtts m !! Z.to_nat device);
  this ← onWorld (HardwareContextImp.construct ndebug device cs (Z.to_nat device) ppgtt group flags
                    priority);
  mret (ContextImp this).

(** What the three functions share: the context, unless the mode is null. *)
Definition createContext (device engine : Z) (group : CommandStreamerHelper -> G (option nat))
    (flags priority : Z) : G ContextPointer :=
  null ← isNull;
  p ← (if (null : bool) then newNullContext
       else
         cs ← from_result (getCommandStreamerHelper device engine);
         hasStream ← getStream;
         g ← group cs;
         if (hasStream : bool) then newContext device cs g flags priority else fail NullDereference);
  pushContext p.

Definition createHardwareContext (device engine flags : Z) : G ContextPointer :=
  createContext device engine
    (fun cs => g ← groupAt (device, engineType cs) 0; mret (Some g)) flags priorityNormal.

(** The group of [createHardwareContext2] and [createHardwareContext3]. *)
Definition requestedGroup (device flags contextId primaryContextId : Z) (cs : CommandStreamerHelper)
    : G (option nat) :=
  if negb (Z.land flags hardwareContextFlags.contextGroup =? 0) then
    g ← selectGroup (device, engineType cs) contextId primaryContextId; mret (Some g)
  else mret None.

Definition createHardwareContext2 (contextId primaryContextId device engine flags : Z)
    : G ContextPointer :=
  createContext device engine (requestedGroup device flags contextId primaryContextId) flags
    priorityNormal.

Record CreateHardwareContext3Params := mkParams3 {
  version : Z; paramsSize : Z;
  p3_device : Z; p3_engine : Z; p3_flags : Z; p3_contextId : Z; p3_primaryContextId : Z;
  p3_priority : Z
}.
Definition sizeofParams3 : Z := 32.

Definition createHardwareContext3 (params : option CreateHardwareContext3Params)
    : G (option ContextPointer) :=
  match params with
  | None => mret None
  | Some p =>
      if negb (version p =? 1) || (sizeofParams3 <? paramsSize p) then mret None
      else
        c ← createContext (p3_device p) (p3_engine p)
              (requestedGroup (p3_device p) (p3_flags p) (p3_contextId p) (p3_primaryContextId p))
              (p3_flags p) (p3_priority p);
        mret (Some c)
  end.

(** Removes the first occurrence. *)
Fixpoint eraseContext (p : ContextPointer) (l : list ContextPointer) : list ContextPointer :=
  match l with
  | [] => []
  | x :: l' => if bool_decide (x = p) then l' else x :: eraseContext p l'
  end.

Definition releaseHardwareContext (p : ContextPointer) : G bool :=
  m ← mget;
  if bool_decide (p ∈ hwContexts m) then
    mmodify (set_hwContexts (eraseContext p (hwContexts m))) ≫= fun _ =>
    match p with
    | NullContext _ => mret tt
    | ContextImp this => onWorld (HardwareContextImp.destroy this)
    end ≫= fun _ =>
    mret true
  else mret false.

(** A virtual call of every context; null contexts do nothing. *)
Definition forContexts (f : nat -> M (World A (ManagerStream T)) unit) : G unit :=
  m ← mget;
  mapM_ (fun p => match p with
                  | NullContext _ => mret tt
                  | ContextImp this => onWorld (f this)
                  end) (hwContexts m).

(** ** MMIO and PCI configuration space *)

Definition writeMMIO (offset value : Z) : G unit :=
  null ← isNull;
  if (null : bool) then mret tt
  else withStream (onManagerSink (AubStream.writeMMIO offset value 0xffffffff)).

Definition readMMIO (offset : Z) : G Z :=
  null ← isNull;
  if (null : bool) then mret 0 else withStream (onManagerSink (AubStream.readMMIO offset)).

Definition writePCICFG (offset value : Z) : G unit :=
  null ← isNull;
  if (null : bool) then mret tt else withStream (onManagerSink (AubStream.writePCICFG offset value)).

Definition readPCICFG (offset : Z) : G Z :=
  null ← isNull;
  if (null : bool) then mret 0 else withStream (onManagerSink (AubStream.readPCICFG offset)).

Fixpoint ccsModeLoop (n : nat) (mmioDevice mmioCCSValue : Z) : G unit :=
  match n with
  | O => mret tt
  | S n' =>
      writeMMIO (u32 (mmioDevice + 0x14804)) mmioCCSValue ≫= fun _ =>
      ccsModeLoop n' (u32 (mmioDevice + mmioDeviceOffset)) mmioCCSValue
  end.

Definition ccsModeValue (ccsCount : Z) : Z :=
  if ccsCount <=? 1 then 0xFFF0000 else if ccsCount =? 2 then 0xFFF0208 else 0xFFF0688.

Definition setCCSMode (ccsCount : Z) : G unit :=
  m ← mget;
  match hwContexts m with
  | [] =>
      mmodify (set_ccsCount ccsCount) ≫= fun _ =>
      ccsModeLoop (Z.to_nat (devicesCount m)) 0 (ccsModeValue ccsCount)
  | _ =>
      when (enableThrow m)
        (fail (StdException "Cannot set CCS mode after hardware contexts have been created."))
  end.

(** ** The file *)

Definition open (aubFileName : string) : G unit :=
  m ← mget;
  when (isAubMode (streamMode m))
    (onManagerSink (onAub (openFile ndebug aubFileName)) ≫= fun _ =>
     onManagerSink (onAub (init ndebug aubStreamCaller (stepping m) familyDescriptor)) ≫= fun _ =>
     onManagerSink (onAub (initializeGlobalMMIO _ (FileStream ndebug) (devicesCount m)
       (memoryBankSize m) (stepping m))) ≫= fun _ =>
     onManagerSink (onAub (setMemoryBankSize _ (FileStream ndebug) (devicesCount m) (memoryBankSize m)))
       ≫= fun _ =>
     setCCSMode (ccsCount m) ≫= fun _ =>
     onManagerSink (onAub (writeMasked (Stream0 := FileStream ndebug)
       (Gpu.injectMMIOs MMIOListInjected (devicesCount m))))) ≫= fun _ =>
  forContexts (HardwareContextImp.initialize ndebug familyOps handleOf).

(** [streamAub], as far as the stream of the mode has one. *)
Definition streamAub : G (option AubFileStream) :=
  s ← get;
  mret (match sink (stream (world s)) with
        | OnlyAub f => Some f
        | AubAndTbx x => Some (aubFileStream x)
        | AubAndShm x => Some (aubFileStream (streams x))
        | _ => None
        end).

Definition close : G unit :=
  forContexts HardwareContextImp.release ≫= fun _ =>
  f ← streamAub;
  match f with
  | Some _ => onManagerSink (onAub closeFile)
  | None => mret tt
  end.

Definition isOpen : G bool :=
  null ← isNull;
  if (null : bool) then mret true
  else
    f ← streamAub;
    match f with
    | Some f => mret (OFStream.is_open (FileHandleWrapper.fileHandle (fileHandle f)))
    | None => mret false
    end.

Definition getFileName : G string :=
  f ← streamAub; mret (match f with Some f => fileName f | None => EmptyString end).

(** [streamAubTbx] and [streamAubShm] exist in their modes. *)
Definition pause (onoff : bool) : G unit :=
  onManagerSink (fun s =>
    match s with
    | AubAndTbx x => into AubAndTbx (pauseAubFileStream onoff x)
    | AubAndShm x => into AubAndShm (onStreams (pauseAubFileStream onoff) x)
    | _ => Ok (tt, s)
    end).

Definition blockMemWritesViaTbx (onoff : bool) : G unit :=
  onManagerSink (fun s =>
    match s with
    | AubAndShm x => into AubAndShm (blockMemWritesViaTbxStream onoff x)
    | _ => Ok (tt, s)
    end).

(** [socket->close()] of the simulator's stream. *)
Definition closeSocket : G unit :=
  hasStream ← getStream;
  when hasStream (onManagerSink (fun s =>
    match s with
    | OnlyTbx x => into OnlyTbx (socketClose x)
    | AubAndTbx x => into AubAndTbx (onTbx socketClose x)
    | OnlyShm x => into OnlyShm (onSocket socketClose x)
    | AubAndShm x => into AubAndShm (onStreams (onTbx (onSocket socketClose)) x)
    | _ => Ok (tt, s)
    end)).

Definition isInitialized : G bool :=
  null ← isNull; if (null : bool) then mret true else getStream.

Definition addComment (message : string) : G unit :=
  hasStream ← getStream; when hasStream (onManagerSink (AubStream.addComment message)).

(** ** Memory *)

Definition pageSizeFor (ap : AllocationParams) : G Z :=
  from_result (getCommandStreamerHelper 0 EngineType.ENGINE_CCS) ≫= fun _ =>
  onWorld (getSupportedPageSize ndebug familyOps (memoryBanks ap) (pageSize ap)).

Definition set_pageSize (p : Z) (ap : AllocationParams) : AllocationParams :=
  mkAllocationParams (gfxAddress ap) (memory ap) (size ap) (memoryBanks ap) (hint ap) p
    (additionalParams ap).

(** [ppgtts[0]], and the loop over the other tables. *)
Definition writeAndClone (ap cloneParams : AllocationParams) : G (list PageInfo) :=
  withStream (
    m ← mget;
    root ← from_option_M OutOfBounds (ppgtts m !! 0%nat);
    pageTableEntries ← onManagerStream (AubStream.writeMemory ndebug enablePs64 familyOps root ap);
    mapM_ (fun p => onManagerStream
      (AubStream.cloneMemory ndebug enablePs64 familyOps p pageTableEntries cloneParams))
      (tail (ppgtts m)) ≫= fun _ =>
    mret pageTableEntries).

Definition writeMemory2 (ap : AllocationParams) : G unit :=
  null ← isNull;
  if (null : bool) then mret tt
  else
    pageSize ← pageSizeFor ap;
    let ap := set_pageSize pageSize ap in
    writeAndClone ap ap ≫= fun _ => mret tt.

Definition writeMemory (gfxAddress : Z) (memory : option (list Z)) (size memoryBanks hint pageSize : Z)
    : G unit :=
  writeMemory2 (mkAllocationParams gfxAddress memory size memoryBanks hint pageSize noParams).

(** Gives the new contents of [lastLevelPages]. *)
Definition writePageTableEntries (gfxAddress size memoryBanks hint : Z)
    (lastLevelPages : list PageInfo) (pageSize : Z) : G (list PageInfo) :=
  null ← isNull;
  if (null : bool) then mret lastLevelPages
  else
    let params hint pageSize :=
      mkAllocationParams gfxAddress None size memoryBanks hint pageSize noParams in
    pageSize ← pageSizeFor (params hint pageSize);
    pageTableEntries ← writeAndClone (params hint pageSize) (params 0 pageSize);
    mret (lastLevelPages ++ pageTableEntries).

Definition writePhysicalMemoryPages (pointer : Z) (memory : list Z) (pages : list PageInfo)
    (size hint : Z) : G unit :=
  null ← isNull;
  if (null : bool) then mret tt
  else
    cassert ndebug (1 <=? Z.of_nat (length pages)) ≫= fun _ =>
    withStream (onManagerStream (AubStream.writePhysicalMemoryPages pointer memory size pages hint)).

Definition freeMemory (gfxAddress size : Z) : G unit :=
  null ← isNull;
  if (null : bool) then mret tt
  else withStream (
    m ← mget;
    mapM_ (fun p => onManagerStream
      (AubStream.freeMemory ndebug enablePs64 familyOps p gfxAddress size)) (ppgtts m)).

Record PhysicalAllocationInfo := mkPhysical {
  pai_physicalAddress : Z;
  pai_size : Z;
  pai_memoryBank : Z;
  pai_pageSize : Z
}.

(** The checks of the two reservations, and the size in whole pages. *)
Definition reservationSize (ap : AllocationParams) : option Z :=
  if size ap =? 0 then None
  else if pageSize ap =? 0 then None
  else if negb (memoryBanks ap =? 0) && negb (Z.land (memoryBanks ap) (u32 (memoryBanks ap - 1)) =? 0)
  then None
  else
    let gfxOffset := Z.land (gfxAddress ap) (u64 (pageSize ap - 1)) in
    Some (Z.ldiff (u64 (gfxOffset + size ap + pageSize ap - 1)) (u64 (pageSize ap - 1))).

Definition reserveWith (reserve : Z -> Z -> Z -> M A Z) (ap : AllocationParams)
    (info : PhysicalAllocationInfo) : G (bool * PhysicalAllocationInfo) :=
  match reservationSize ap with
  | None => mret (false, info)
  | Some sizePageAligned =>
      physicalAddress ← onAllocatorOf (reserve (memoryBanks ap) sizePageAligned (pageSize ap));
      mret (true, mkPhysical physicalAddress (size ap) (memoryBanks ap) (pageSize ap))
  end.

(** The result and the new contents of the caller's structure. *)
Definition reservePhysicalMemory (ap : AllocationParams) (info : PhysicalAllocationInfo)
    : G (bool * PhysicalAllocationInfo) :=
  null ← isNull;
  if (null : bool) then mret (true, info)
  else
    pageSize ← pageSizeFor ap;
    reserveWith Allocator.reservePhysicalMemory (set_pageSize pageSize ap) info.

Definition reserveOnlyPhysicalSpace (ap : AllocationParams) (info : PhysicalAllocationInfo)
    : G (bool * PhysicalAllocationInfo) :=
  null ← isNull;
  if (null : bool) then mret (true, info)
  else
    pageSize ← pageSizeFor ap;
    m ← mget;
    if negb (isShm4Mode (streamMode m)) then mret (false, info)
    else reserveWith shm4_reserveOnlyPhysicalSpace (set_pageSize pageSize ap) info.

Definition mapSystemMemoryToPhysicalAddress (physAddress size alignment : Z) (isLocalMemory : bool)
    (p : Z) : G bool :=
  m ← mget;
  if negb (isShm4Mode (streamMode m)) then
    throwErrorIfEnabled "mapSystemMemoryToPhysicalAddress is not supported for this stream mode."
      ≫= fun _ => mret false
  else
    onAllocatorOf (shm4_mapSystemMemoryToPhysicalAddress physAddress size alignment isLocalMemory p)
      ≫= fun _ => mret true.

(** A host address, or null. *)
Definition translatePhysicalAddressToSystemMemory (physicalAddress : Z) (isLocalMemory : bool)
    : G (option Z) :=
  m ← mget;
  let mode := streamMode m in
  if isShm4Mode mode then
    r ← onAllocatorOf (shm4_translatePhysicalAddressToSystemMemory physicalAddress 0x1000 isLocalMemory);
    mret (pointer r.1)
  else if mode =? mode.tbxShm3 then mret (translateShm3 physicalAddress 0 isLocalMemory).1
  else if (mode =? mode.tbxShm) || (mode =? mode.aubFileAndShm)
  then mret (translateShm (sharedMemoryInfo m) physicalAddress 0 isLocalMemory).1
  else
    throwErrorIfEnabled "translatePhysicalAddressToSystemMemory is not supported for this stream mode."
      ≫= fun _ => mret None.

Definition mapGpuVa2 (physicalAddress : Z) (ap : AllocationParams) : G bool :=
  withStream (
    m ← mget;
    mapM_ (fun p => onManagerStream
      (AubStream.mapGpuVa ndebug enablePs64 familyOps p ap physicalAddress) ≫= fun _ => mret tt)
      (ppgtts m) ≫= fun _ =>
    mret true).

Definition mapGpuVa (gfxAddress size : Z) (info : PhysicalAllocationInfo) : G bool :=
  mapGpuVa2 (pai_physicalAddress info)
    (mkAllocationParams gfxAddress None size (pai_memoryBank info) 0 (pai_pageSize info) noParams).

(** ** Construction *)

(** [createStream]: the streams of the mode from new objects, or none, or an
    exception. *)
Definition createStream (m : AubManagerImp) (file : AubFileStream) (tbx : T) (shm : ShmState T)
    : result (ManagerStream T) :=
  let mode := streamMode m in
  let info := sharedMemoryInfo m in
  let file := set_fileHandle
    (FileHandleWrapper.mk (FileHandleWrapper.fileHandle (fileHandle file)) (enableThrow m)) file in
  let throw what := if enableThrow m then Err (StdException what) else Ok NoStream in
  let isSome o := match o with Some _ => true | None => false end in
  if mode =? mode.aubFile then Ok (OnlyAub file)
  else if mode =? mode.tbx then Ok (OnlyTbx tbx)
  else if mode =? mode.aubFileAndTbx then Ok (AubAndTbx (mkAubTbx file tbx false))
  else if (mode =? mode.tbxShm) || (mode =? mode.tbxShm4) then
    if isSome (sysMemBase info) then Ok (OnlyShm shm)
    else throw "Trying to use shared memory but no shared memory for system memory given."%string
  else if (mode =? mode.aubFileAndShm) || (mode =? mode.aubFileAndShm4) then
    if isSome (sysMemBase info) then Ok (AubAndShm (mkAubShm (mkAubTbx file shm false) false))
    else if enableThrow m
    then Err (StdException "Trying to use shared memory but no shared memory for system memory given.")
    else Err NullDereference
  else if mode =? mode.tbxShm3 then
    if isSome (sysMemBase info) || isSome (localMemBase info) then
      throw (if isSome (localMemBase info)
             then "Trying to use shared memory v3 but legacy shared memory for system memory given."
             else "Trying to use shared memory v3 but legacy shared memory for local memory given.")%string
    else if gfxCoreFamily familyDescriptor <=? CoreFamily.Gen12lp
    then throw "Trying to use shared memory v3 for legacy core family."%string
    else Ok (OnlyShm shm)
  else Ok NoStream.

(** The registers of a simulator when it is connected. *)
Definition simulatorSetup : G unit :=
  m ← mget;
  onManagerSink (onSimulator ndebug fuel indeterminate translateFn ggttIsLocal
    (fun Sk H => initializeGlobalMMIO Sk H (devicesCount m) (memoryBankSize m) (stepping m)))
    ≫= fun _ =>
  onManagerSink (onSimulator ndebug fuel indeterminate translateFn ggttIsLocal
    (fun Sk H => setMemoryBankSize Sk H (devicesCount m) (memoryBankSize m))) ≫= fun _ =>
  onManagerSink (onSimulator ndebug fuel indeterminate translateFn ggttIsLocal
    (fun Sk H => setGGTTBaseAddresses Sk H (devicesCount m) (memoryBankSize m))).

(** The tables of device [i]. *)
Definition initializeDevice (stolen : StolenMemory) (i : Z) : G unit :=
  m ← mget;
  gttBaseAddress ← from_result (familyGSMBaseAddress i);
  let memoryBank := if localMemorySupported m || requireLocalMemoryForPageTables
                    then u32 (Z.shiftl 1 i) else 0 in
  when (isShm4Mode (streamMode m))
    (base ← from_option_M OutOfBounds (getBaseAddress stolen i);
     onAllocatorOf (shm4_mapSystemMemoryToPhysicalAddress base (stolenSize stolen) 0x10000
       (negb (memoryBank =? 0)) 0)) ≫= fun _ =>
  ppgtt ← onManagerStream (onTables (newRoot ndebug (ppgttClass (gpuAddressSpace m)) true memoryBank));
  ggtt ← onManagerStream (onTables (newGGTT ndebug true memoryBank gttBaseAddress));
  mmodify (fun m => set_ppgtts (ppgtts m ++ [ppgtt]) m) ≫= fun _ =>
  onWorld (modify (fun w => mkWorld (stream w) (ggtts w ++ [ggtt]) (groups w) (objects w)
                              (globalContextId w))).

(** [initialize] behind [createStream], for a stream that exists; a simulator's
    [init], which connects its socket, was done with the objects given. *)
Definition initializeStream (stolen : StolenMemory) : G unit :=
  m ← mget;
  let simulated := negb (streamMode m =? mode.aubFile) in
  when simulated simulatorSetup ≫= fun _ =>
  mapM_ (fun i => initializeDevice stolen i) (seqZ 0 (devicesCount m)) ≫= fun _ =>
  s ← get;
  onManagerSink (dispatch ndebug fuel indeterminate translateFn ggttIsLocal
    (fun Sk H => initializeDefaultMemoryPools Sk H
       (getStreamMode (streamMode m) (sink (stream (world s)))) (devicesCount m) (memoryBankSize m)))
    ≫= fun _ =>
  when simulated
    (onManagerSink (onSimulator ndebug fuel indeterminate translateFn ggttIsLocal
       (fun _ _ => writeMasked (Gpu.injectMMIOs MMIOListInjected (devicesCount m))))).

Definition initialize (file : AubFileStream) (tbx : T) (shm : ShmState T) : G unit :=
  match stolenMemory with
  | None => mret tt
  | Some stolen =>
      if negb (isValidStolenSize (getDSMSize familySizes))
         || negb (isValidWOPCMSize (getWOPCMSize familySizes)) then mret tt
      else
        m ← mget;
        match createStream m file tbx shm with
        | Err e => fail e
        | Ok k =>
            onManagerSink (put k) ≫= fun _ =>
            hasStream ← getStream;
            when hasStream (initializeStream stolen)
        end
  end.

(** The groups that the constructor makes: one group in every vector, with room
    for four. *)
Definition engineKeys : list (Z * Z) :=
  d ← seqZ 0 4; e ← seqZ 0 EngineType.NUM_ENGINES; mret (d, e).

Definition constructGroups : G unit :=
  mapM_ (fun key =>
    g ← onWorld (newGroup (mkGroup 0 (replicate (Z.to_nat getContextGroupCount) None)));
    set_groupVector key ([g], 4) ≫= fun _ =>
    mmodify (fun m => let h := groupContextHelper m in
      set_groupContextHelper (mkGroups (contextGroups h) (<[key := 0]> (groupIds h))
        (primaryContextIdToGroupId h)) m)) engineKeys.
End Operations.
End Manager.

(** The allocator of shared memory version 4. *)
#[export] Instance Shm4MapperOps (ndebug : bool) (aligned_alloc : Z -> Z -> Z) : Shm4Mapper Shm4.t := {
  shm4_reserveOnlyPhysicalSpace := Shm4.reserveOnlyPhysicalSpace ndebug;
  shm4_mapSystemMemoryToPhysicalAddress :=
    Shm4.mapSystemMemoryToPhysicalAddress ndebug aligned_alloc;
  shm4_translatePhysicalAddressToSystemMemory := Shm4.translatePhysicalAddressToSystemMemory
}.
