(* ===== verification/Factory.v ===== *)
(** * Creation and destruction of managers

    [AubManager::create], the constructor and the destructor of [AubManagerImp]
    ([aub_manager_imp.cpp]) and the pointer [globalSettings] that all managers of a
    process share: the first manager owns the settings, the others use them. *)

From S2P Require Import Prelude Allocator MemoryBanks Gpu PageTable Walker AubPackets AubStream.
From S2P Require Import Settings CommandStreamer HardwareContext AubFileStream TbxSockets TbxStream.
From S2P Require Import GpuFamily Products AubManager.
#[local] Open Scope Z_scope.

(** ** The allocator of a mode *)

Inductive AnyAllocator :=
| SimpleAllocator (a : Simple.t)
| HeapAllocator (a : Heap.t)
| Shm4Allocator (a : Shm4.t).

Definition onAllocatorState {St B} (wrap : St -> AnyAllocator) (r : result (B * St))
    : result (B * AnyAllocator) :=
  match r with Ok (b, s) => Ok (b, wrap s) | Err e => Err e end.

Section AnyAllocator.
Variable ndebug : bool.
(* [aligned_alloc(size, alignment)] of the host *)
Variable aligned_alloc : Z -> Z -> Z.

(** A virtual call. *)
#[export] Instance AnyAllocatorOps : PhysicalAddressAllocator AnyAllocator := {
  reservePhysicalMemory bank size alignment a :=
    match a with
    | SimpleAllocator s => onAllocatorState SimpleAllocator (Simple.reservePhysicalMemory ndebug bank size alignment s)
    | HeapAllocator s =>
        onAllocatorState HeapAllocator (Heap.reservePhysicalMemory ndebug aligned_alloc bank size alignment s)
    | Shm4Allocator s =>
        onAllocatorState Shm4Allocator (Shm4.reservePhysicalMemory ndebug aligned_alloc bank size alignment s)
    end;
  freePhysicalMemory bank address a :=
    match a with
    | SimpleAllocator s => onAllocatorState SimpleAllocator (Simple.freePhysicalMemory ndebug bank address s)
    | HeapAllocator s => onAllocatorState HeapAllocator (Heap.freePhysicalMemory bank address s)
    | Shm4Allocator s => onAllocatorState Shm4Allocator (Shm4.freePhysicalMemory bank address s)
    end
}.

(** [static_cast<PhysicalAddressAllocatorSimpleAndSHM4Mapper *>]: another class behind
    the cast is undefined. *)
Definition asShm4 {B} (m : M Shm4.t B) : M AnyAllocator B := fun a =>
  match a with
  | Shm4Allocator s => onAllocatorState Shm4Allocator (m s)
  | _ => Err OutOfBounds
  end.

#[export] Instance AnyAllocatorShm4 : Shm4Mapper AnyAllocator := {
  shm4_reserveOnlyPhysicalSpace bank size alignment :=
    asShm4 (Shm4.reserveOnlyPhysicalSpace ndebug bank size alignment);
  shm4_mapSystemMemoryToPhysicalAddress address size alignment isLocal p :=
    asShm4 (Shm4.mapSystemMemoryToPhysicalAddress ndebug aligned_alloc address size alignment isLocal p);
  shm4_translatePhysicalAddressToSystemMemory address size isLocal :=
    asShm4 (Shm4.translatePhysicalAddressToSystemMemory address size isLocal)
}.
End AnyAllocator.

(** ** The process *)

Record AubManagerOptions := mkManagerOptions {
  version : Z;
  productFamily : Z;
  opt_devicesCount : Z;
  opt_memoryBankSize : Z;
  opt_stepping : Z;
  opt_localMemorySupported : bool;
  opt_mode : Z;
  opt_gpuAddressSpace : Z;
  opt_sharedMemoryInfo : SharedMemoryInfo;
  throwOnError : bool;
  dataStolenMemorySize : Z;
  opt_programAdditionalEngineMMIO : bool;
  wopcmMemorySize : Z
}.

(** The settings objects that exist, and [globalSettings]. *)
Record Process := mkProcess {
  settingsHeap : gmap nat Settings;
  globalSettings : option nat
}.

Definition allocateSettings (s : Settings) (p : Process) : nat * Process :=
  let i := fresh (dom (settingsHeap p)) in
  (i, mkProcess (<[i := s]> (settingsHeap p)) (globalSettings p)).

(** [std::unique_ptr<Settings>] going out of scope. *)
Definition releaseSettings (owned : option nat) (p : Process) : Process :=
  match owned with
  | Some i => mkProcess (delete i (settingsHeap p)) (globalSettings p)
  | None => p
  end.

(** A use of [globalSettings]. *)
Definition derefSettings (p : Process) : result Settings :=
  match globalSettings p with
  | None => Err NullDereference
  | Some i => match settingsHeap p !! i with Some s => Ok s | None => Err UseAfterFree end
  end.

(** A manager the client holds, with its GPU object and the settings it owns. *)
Record ManagerInstance (T : Type) := mkInstance {
  managerState : ManagerState AnyAllocator T;
  gpuClass : GpuClass;
  gpu : GpuObject;
  settings : option nat
}.
Arguments mkInstance {T}.
Arguments managerState {T}.
Arguments gpuClass {T}.
Arguments gpu {T}.
Arguments settings {T}.

(** [~AubManagerImp] and the destruction of its members. *)
Definition deleteManager (owned : option nat) (p : Process) : Process :=
  let p := if bool_decide (globalSettings p = owned) then mkProcess (settingsHeap p) None else p in
  releaseSettings owned p.

Inductive Created (T : Type) :=
| NewManager (i : ManagerInstance T)
| NoManager
| Exception (what : string).
Arguments NewManager {T}.
Arguments NoManager {T}.
Arguments Exception {T}.

Section Create.
Context {T : Type} `{!TbxSockets T}.
Variable ndebug : bool.
Variable aligned_alloc : Z -> Z -> Z.
(* [aligned_alloc] for the stolen memory of a device *)
Variable stolen_alloc : Z -> Z -> Z -> Z.
Variable fuel : nat.
Variable indeterminate : Z.
Variable translateFn : Z -> Z -> bool -> option Z * Z.
Variable ggttIsLocal : GGTT -> bool.
Variable MMIOListInjected : list (Z * Z * Z).
Variable productFamilyTable : option (gmap Z GpuClass).
(* what [Settings()] reads from the environment *)
Variable newSettings : Settings.
(* what is read behind a pointer to freed settings *)
Variable danglingSettings : Settings.
(* new streams; a simulator's stream with its socket connected *)
Variable newFile : AubFileStream.
Variable newTbx : T.
Variable newShm : ShmState T.

#[local] Instance anyAllocator : PhysicalAddressAllocator AnyAllocator := AnyAllocatorOps ndebug aligned_alloc.
#[local] Instance anyShm4 : Shm4Mapper AnyAllocator := AnyAllocatorShm4 ndebug aligned_alloc.

(** The [physicalAddressAllocator] of [initialize]. *)
Definition allocatorFor (o : AubManagerOptions) : AnyAllocator :=
  let simple := Simple.init (opt_devicesCount o) (opt_memoryBankSize o) (opt_localMemorySupported o) in
  if opt_mode o =? mode.tbxShm3 then HeapAllocator (Heap.mk [])
  else if (opt_mode o =? mode.tbxShm4) || (opt_mode o =? mode.aubFileAndShm4)
  then Shm4Allocator (Shm4.mk simple ∅ ∅ [])
  else SimpleAllocator simple.

(** The constructor: what it does to the GPU object, and the manager's members before
    the groups. *)
Definition setUpGpu (o : AubManagerOptions) (g : GpuObject) : GpuObject :=
  let sizes := gpuSizes g in
  let sizes := if negb (dataStolenMemorySize o =? 0)
               then overrideDSMSize (dataStolenMemorySize o) sizes else sizes in
  let sizes := if negb (wopcmMemorySize o =? 0)
               then overrideWOPCMSize (wopcmMemorySize o) sizes else sizes in
  mkGpuObject sizes
    (CreateStolenMemory stolen_alloc (opt_mode o =? mode.tbxShm3) (opt_devicesCount o)
       (opt_memoryBankSize o) (getStolenMemorySize sizes (opt_memoryBankSize o)))
    (opt_programAdditionalEngineMMIO o).

Definition newMembers (o : AubManagerOptions) : AubManagerImp :=
  mkManager (opt_devicesCount o) (opt_memoryBankSize o) (opt_localMemorySupported o) (opt_mode o)
    (opt_stepping o) (opt_gpuAddressSpace o) 0 (opt_sharedMemoryInfo o) (throwOnError o) [] [] 0
    (mkGroups ∅ ∅ ∅).

(** The members, with an empty store and no stream. *)
Definition newState (o : AubManagerOptions) : ManagerState AnyAllocator T :=
  mkManagerState (newMembers o)
    (mkWorld (mkStreamState (mkStore ∅ 1%positive (allocatorFor o)) NoStream) [] ∅ ∅ 0).

Definition isInitialized : M (ManagerState AnyAllocator T) bool :=
  m ← Manager.mget;
  if streamMode m =? mode.null then mret true else Manager.getStream.

(** [new AubManagerImp(...)], [initialize()] and [isInitialized()]. The settings [s] are
    those that [globalSettings] points to. *)
Definition newManager (c : GpuClass) (s : Settings) (o : AubManagerOptions)
    : result (bool * ManagerState AnyAllocator T) :=
  let f := familyOf c ndebug s (setUpGpu o (construct c)) in
  (@Manager.constructGroups AnyAllocator T f ≫= fun _ =>
   Manager.initialize (H := f) ndebug fuel indeterminate translateFn ggttIsLocal MMIOListInjected
     newFile newTbx newShm ≫= fun _ =>
   isInitialized) (newState o).

Definition create (o : AubManagerOptions) (p : Process) : result (Created T * Process) :=
  let '(owned, p) :=
    match globalSettings p with
    | None =>
        let '(i, p) := allocateSettings newSettings p in
        (Some i, mkProcess (settingsHeap p) (Some i))
    | Some _ => (None, p)
    end in
  match (if version o =? 1 then getGpu productFamilyTable (productFamily o) else Ok None) with
  | Err e => Err e
  | Ok None => Ok (NoManager, releaseSettings owned p)
  | Ok (Some c) =>
      let s := match derefSettings p with Ok s => s | Err _ => danglingSettings end in
      match newManager c s o with
      | Err (StdException what) => Ok (Exception what, releaseSettings owned p)
      | Err e => Err e
      | Ok (true, m) => Ok (NewManager (mkInstance m c (setUpGpu o (construct c)) owned), p)
      | Ok (false, _) => Ok (NoManager, deleteManager owned p)
      end
  end.
End Create.
