(* ===== verification/FactoryTheory.v ===== *)
(** * The managers of a process and their settings

    Which manager owns the settings, when the pointer all of them share is valid, and
    what [create] gives for sizes, modes and products it does not accept. *)

From S2P Require Import Prelude Allocator MemoryBanks Gpu PageTable Walker AubPackets AubStream.
From S2P Require Import Settings CommandStreamer HardwareContext AubFileStream TbxSockets TbxStream.
From S2P Require Import GpuFamily Products AubManager Factory FileTheory TbxWire.
#[local] Open Scope Z_scope.

Section Settings.
Context {T : Type} `{!TbxSockets T}.
Variable ndebug : bool.
Variable aligned_alloc : Z -> Z -> Z.
Variable stolen_alloc : Z -> Z -> Z -> Z.
Variable fuel : nat.
Variable indeterminate : Z.
Variable translateFn : Z -> Z -> bool -> option Z * Z.
Variable ggttIsLocal : GGTT -> bool.
Variable MMIOListInjected : list (Z * Z * Z).
Variable productFamilyTable : option (gmap Z GpuClass).
Variable newSettings danglingSettings : Settings.
Variable newFile : AubFileStream.
Variable newTbx : T.
Variable newShm : ShmState T.

#[local] Abbreviation create :=
  (create ndebug aligned_alloc stolen_alloc fuel indeterminate translateFn ggttIsLocal MMIOListInjected
     productFamilyTable newSettings danglingSettings newFile newTbx newShm).
#[local] Abbreviation newManager :=
  (newManager ndebug aligned_alloc stolen_alloc fuel indeterminate translateFn ggttIsLocal MMIOListInjected
     newFile newTbx newShm).

(** The GPU class that [create] looks up. *)
Definition knownProduct (o : AubManagerOptions) (c : GpuClass) : Prop :=
  version o = 1 /\ getGpu productFamilyTable (productFamily o) = Ok (Some c).
Definition unknownProduct (o : AubManagerOptions) : Prop :=
  version o <> 1 \/ getGpu productFamilyTable (productFamily o) = Ok None.

(** ** Managers that come and go *)

Inductive step : Process * list (ManagerInstance T) -> Process * list (ManagerInstance T) -> Prop :=
| step_create o p ms i p' :
    create o p = Ok (NewManager i, p') -> step (p, ms) (p', i :: ms)
| step_rejected o c p ms p' :
    knownProduct o c -> create o p = Ok (NoManager, p') -> step (p, ms) (p', ms)
| step_delete p ms1 i ms2 :
    step (p, ms1 ++ i :: ms2) (deleteManager (settings i) p, ms1 ++ ms2).

Definition owners (ms : list (ManagerInstance T)) : list nat := omap settings ms.

(** Every settings object has one live owner, and the shared pointer is null or points
    to an object. *)
Record settingsOwned (s : Process * list (ManagerInstance T)) : Prop := {
  so_owned : forall i, is_Some (settingsHeap s.1 !! i) <-> i ∈ owners s.2;
  so_once : NoDup (owners s.2);
  so_global : forall i, globalSettings s.1 = Some i -> is_Some (settingsHeap s.1 !! i)
}.

(** [create], by the outcome of the lookup and of the new manager. *)
Definition createWith (known : option GpuClass) (outcome : GpuClass -> Settings -> result (bool * ManagerState AnyAllocator T))
    (o : AubManagerOptions) (p : Process) : result (Created T * Process) :=
  let '(owned, p) :=
    match globalSettings p with
    | None =>
        let '(i, p) := allocateSettings newSettings p in
        (Some i, mkProcess (settingsHeap p) (Some i))
    | Some _ => (None, p)
    end in
  match known with
  | None => Ok (NoManager, releaseSettings owned p)
  | Some c =>
      match outcome c (match derefSettings p with Ok s => s | Err _ => danglingSettings end) with
      | Err (StdException what) => Ok (Exception what, releaseSettings owned p)
      | Err e => Err e
      | Ok (true, m) => Ok (NewManager (mkInstance m c (setUpGpu stolen_alloc o (construct c)) owned), p)
      | Ok (false, _) => Ok (NoManager, deleteManager owned p)
      end
  end.

Definition lookupProduct (o : AubManagerOptions) : result (option GpuClass) :=
  if version o =? 1 then getGpu productFamilyTable (productFamily o) else Ok None.

Lemma create_with o p known : lookupProduct o = Ok known ->
  create o p = createWith known (fun c s => newManager c s o) o p.
Proof. intros Hk. unfold Factory.create, createWith. fold (lookupProduct o). rewrite Hk. by destruct known. Qed.

Lemma lookup_known o c : knownProduct o c -> lookupProduct o = Ok (Some c).
Proof. intros [Hv Hc]. unfold lookupProduct. rewrite Hv. exact Hc. Qed.

Lemma lookup_unknown o : unknownProduct o -> lookupProduct o = Ok None.
Proof.
  unfold lookupProduct. intros [Hv|Hc]; [by rewrite (proj2 (Z.eqb_neq _ _) Hv)|].
  by destruct (version o =? 1).
Qed.

Lemma create_lookup o p r : create o p = Ok r -> exists known, lookupProduct o = Ok known.
Proof.
  unfold Factory.create. fold (lookupProduct o). destruct (lookupProduct o) as [known|e]; [by exists known|].
  by destruct (globalSettings p).
Qed.

(** What [create] does to the process. *)
Lemma create_new o p i p' : create o p = Ok (NewManager i, p') ->
  match globalSettings p with
  | None => exists k, settingsHeap p !! k = None /\ settings i = Some k
              /\ p' = mkProcess (<[k := newSettings]> (settingsHeap p)) (Some k)
  | Some _ => settings i = None /\ p' = p
  end.
Proof.
  intros H. destruct (create_lookup _ _ _ H) as [known Hk]. rewrite (create_with _ _ _ Hk) in H.
  revert H. generalize (fun c s => newManager c s o). intros outcome. unfold createWith.
  destruct (globalSettings p) as [g|]; cbn [allocateSettings].
  - destruct known as [c|]; [|done]. destruct (outcome c _) as [[[] m]|[]]; try done. by intros [= <- <-].
  - set (k := fresh _). destruct known as [c|]; [|done].
    destruct (outcome c _) as [[[] m]|[]]; try done.
    intros [= <- <-]. exists k. split_and!; try done. apply not_elem_of_dom, is_fresh.
Qed.

Lemma create_rejected o c p p' : knownProduct o c -> create o p = Ok (NoManager, p') -> p' = p.
Proof.
  intros Hk%lookup_known H. rewrite (create_with _ _ _ Hk) in H.
  revert H. generalize (fun c s => newManager c s o). intros outcome. unfold createWith.
  destruct p as [h [g|]]; cbn [globalSettings settingsHeap allocateSettings].
  - destruct (outcome c _) as [[[] m]|[]]; try done. by intros [= <-].
  - set (k := fresh _). destruct (outcome c _) as [[[] m]|[]]; try done.
    intros [= <-]. unfold deleteManager. cbn [globalSettings]. rewrite bool_decide_true by done.
    cbn. f_equal. apply delete_insert_id, not_elem_of_dom, is_fresh.
Qed.

Lemma owners_cons i ms : owners (i :: ms) = (match settings i with Some k => [k] | None => [] end) ++ owners ms.
Proof. unfold owners. cbn. by destruct (settings i). Qed.

Lemma owners_middle ms1 i ms2 : owners (ms1 ++ i :: ms2) ≡ₚ owners (i :: ms1 ++ ms2).
Proof. unfold owners. apply omap_Permutation. by rewrite Permutation_middle. Qed.

(** A manager is deleted: its settings go with it, and the shared pointer if it was
    theirs. *)
Lemma delete_owned p ms i : settingsOwned (p, i :: ms) -> settingsOwned (deleteManager (settings i) p, ms).
Proof.
  intros [H1 H2 H3]. cbn [fst snd] in *. rewrite owners_cons in H1, H2.
  destruct p as [h g]. unfold deleteManager. cbn [globalSettings settingsHeap] in *.
  destruct (settings i) as [k|] eqn:Ek; cbn [releaseSettings app] in *.
  - assert (Hh : settingsHeap (releaseSettings (Some k)
        (if bool_decide (g = Some k) then mkProcess h None else mkProcess h g)) = delete k h) by
      by destruct (bool_decide (g = Some k)).
    apply NoDup_cons in H2 as [Hk H2].
    split; cbn [fst snd]; [|done|].
    + intros j. cbn [releaseSettings] in Hh. rewrite Hh, lookup_delete_is_Some, H1, elem_of_cons.
      split; [intros [Hne [->|Hj]]; done|]. intros Hj. split; [by intros <-|by right].
    + intros j Hj. cbn [releaseSettings] in Hh. rewrite Hh.
      case_bool_decide as Hg; cbn in Hj; [done|]. apply lookup_delete_is_Some.
      split; [by intros ->|by apply H3].
  - split; cbn [fst snd]; [|done|]; intros j; case_bool_decide; cbn; [apply H1|apply H1|done|apply H3].
Qed.

(** C18: However managers of known products are created, rejected and deleted - with no
    exception in between - the settings have one live owner each and the shared pointer
    never dangles. *)
Theorem settings_always_owned s s' :
  settingsOwned s -> rtc step s s' ->
  settingsOwned s' /\ derefSettings s'.1 <> Err UseAfterFree
  /\ (globalSettings s'.1 <> None -> exists i, i ∈ s'.2 /\ settings i = globalSettings s'.1).
Proof.
  intros Hs Hstep.
  assert (H : settingsOwned s').
  { clear -Hs Hstep. induction Hstep as [s|s1 s2 s3 Hst _ IH]; [done|]. apply IH. clear IH.
    destruct Hst as [o p ms i p' Hc|o c p ms p' Hk Hc|p ms1 i ms2].
    - apply create_new in Hc. destruct Hs as [H1 H2 H3]. cbn [fst snd] in *.
      destruct (globalSettings p) as [g|] eqn:Eg.
      + destruct Hc as [Hi ->]. split; cbn [fst snd]; rewrite ?owners_cons, ?Hi; try done. by rewrite Eg.
      + destruct Hc as (k & Hk & Hi & ->). split; cbn [fst snd settingsHeap globalSettings].
        * intros j. rewrite owners_cons, Hi. cbn [app]. rewrite elem_of_cons, <- H1, lookup_insert_is_Some.
          destruct (decide (k = j)) as [->|Hne]; [by split; left|].
          split; [intros [?|[_ ?]]; [done|by right]|intros [->|?]; [done|by right]].
        * rewrite owners_cons, Hi. cbn [app]. apply NoDup_cons. split; [|done].
          rewrite <- H1, Hk. by intros [? ?].
        * intros j [= <-]. by rewrite lookup_insert_eq.
    - by rewrite (create_rejected _ _ _ _ Hk Hc).
    - apply delete_owned. destruct Hs as [H1 H2 H3]. cbn [fst snd] in *.
      pose proof (owners_middle ms1 i ms2) as Hp.
      split; cbn [fst snd]; [intros j; by rewrite H1, Hp|by rewrite <- Hp|done]. }
  split; [done|]. destruct H as [H1 H2 H3]. unfold derefSettings.
  destruct (globalSettings s'.1) as [g|]; [|done]. destruct (H3 g eq_refl) as [x Hx]. rewrite Hx.
  split; [done|]. intros _. assert (Hg : g ∈ owners s'.2) by (apply H1; by exists x).
  unfold owners in Hg. apply list_elem_of_omap in Hg as (i & Hi & Hg). by exists i.
Qed.

(** The first manager deletes the settings that the second one uses: its next use of
    them, in a submission or when it maps a page, goes through a null pointer. *)
Theorem owner_deleted_first o1 o2 p i1 p1 i2 p2 :
  globalSettings p = None ->
  create o1 p = Ok (NewManager i1, p1) -> create o2 p1 = Ok (NewManager i2, p2) ->
  derefSettings p2 = Ok newSettings
  /\ derefSettings (deleteManager (settings i2) p2) = Ok newSettings
  /\ derefSettings (deleteManager (settings i1) p2) = Err NullDereference.
Proof.
  intros Hp H1 H2. apply create_new in H1. rewrite Hp in H1. destruct H1 as (k & Hk & Hi1 & ->).
  apply create_new in H2. cbn [globalSettings] in H2. destruct H2 as [Hi2 ->].
  unfold derefSettings, deleteManager. rewrite Hi1, Hi2. cbn [globalSettings settingsHeap].
  rewrite (bool_decide_true (Some k = Some k)), (bool_decide_false (Some k = None)) by done. cbn.
  by rewrite lookup_insert_eq.
Qed.

(** A product that is not in the table, or another version of the options: there is no
    manager, the settings made for it are freed, and the shared pointer keeps their
    address - for every manager that is created afterwards. *)
Theorem unknown_product_dangles o p p' r :
  globalSettings p = None -> unknownProduct o -> create o p = Ok (r, p') ->
  r = NoManager /\ derefSettings p' = Err UseAfterFree
  /\ forall o2 i p2, create o2 p' = Ok (NewManager i, p2) ->
       settings i = None /\ derefSettings p2 = Err UseAfterFree.
Proof.
  intros Hp Hu%lookup_unknown H. rewrite (create_with _ _ _ Hu) in H. revert H.
  unfold createWith. rewrite Hp. cbn [allocateSettings]. set (k := fresh _). cbn.
  intros [= <- <-]. split; [done|].
  assert (Hd : derefSettings (mkProcess (delete k (<[k := newSettings]> (settingsHeap p))) (Some k))
               = Err UseAfterFree) by (unfold derefSettings; cbn; by rewrite lookup_delete_eq).
  split; [done|]. intros o2 i p2 H2%create_new. cbn in H2. destruct H2 as [Hi ->]. done.
Qed.

(** ** Options that are not accepted *)

(** The constructor's groups leave the options and the stream alone. *)
Lemma constructGroups_run {f : GpuFamily} (s : ManagerState AnyAllocator T) :
  exists s', Manager.constructGroups s = Ok (tt, s')
    /\ streamMode (mgr s') = streamMode (mgr s) /\ enableThrow (mgr s') = enableThrow (mgr s)
    /\ sharedMemoryInfo (mgr s') = sharedMemoryInfo (mgr s) /\ stream (world s') = stream (world s).
Proof.
  assert (Hw : wp Manager.constructGroups (fun _ s' => streamMode (mgr s') = streamMode (mgr s)
    /\ enableThrow (mgr s') = enableThrow (mgr s) /\ sharedMemoryInfo (mgr s') = sharedMemoryInfo (mgr s)
    /\ stream (world s') = stream (world s)) s).
  { unfold Manager.constructGroups.
    apply (wp_mapM_ _ _ (fun _ s' => streamMode (mgr s') = streamMode (mgr s)
      /\ enableThrow (mgr s') = enableThrow (mgr s) /\ sharedMemoryInfo (mgr s') = sharedMemoryInfo (mgr s)
      /\ stream (world s') = stream (world s))); [done|].
    intros l1 key s1 _ H. exact H. }
  destruct (wp_run _ _ _ Hw) as ([] & s' & Hrun & HQ). exists s'. exact (conj Hrun HQ).
Qed.

Definition acceptedSizes (f : GpuFamily) : bool :=
  match @stolenMemory f with
  | Some _ => @isValidStolenSize f (getDSMSize (@familySizes f))
              && @isValidWOPCMSize f (getWOPCMSize (@familySizes f))
  | None => false
  end.

Lemma isInitialized_no (s : ManagerState AnyAllocator T) :
  Manager.hasStreamMode (streamMode (mgr s)) = true -> sink (stream (world s)) = NoStream ->
  isInitialized s = Ok (false, s).
Proof.
  destruct s as [m [[tb k] gg gr ob gi]]. cbn [mgr world stream sink]. intros Hm ->.
  unfold isInitialized, Manager.getStream, Manager.mget, gets, get, mbind, M_bind. cbn [mgr].
  destruct (Z.eqb_spec (streamMode m) mode.null) as [He|]; [by rewrite He in Hm|].
  cbv beta iota. cbn [mgr]. rewrite Hm. reflexivity.
Qed.

(** A known mode but sizes that are not accepted - stolen memory larger than a memory
    bank, or sizes without an encoding: [create] gives no manager and leaves the
    process as it was. *)
Theorem create_rejects_sizes o c p :
  knownProduct o c -> Manager.hasStreamMode (opt_mode o) = true ->
  (forall s, acceptedSizes (familyOf c ndebug s (setUpGpu stolen_alloc o (construct c))) = false) ->
  create o p = Ok (NoManager, p).
Proof.
  intros Hk Hm Hs.
  assert (Hn : forall s, exists m, newManager c s o = Ok (false, m)).
  { intros s. unfold Factory.newManager. cbv zeta. set (f := familyOf c ndebug s _).
    specialize (Hs s). fold f in Hs. clearbody f. destruct (constructGroups_run (f := f) (newState o))
      as (s1 & Hrun & H1 & H2 & H3 & H4).
    unfold mbind, M_bind. rewrite Hrun. unfold Manager.initialize, acceptedSizes in *.
    assert (Hi : isInitialized s1 = Ok (false, s1)).
    { apply isInitialized_no; [rewrite H1; exact Hm|rewrite H4; reflexivity]. }
    exists s1. destruct stolenMemory; [|exact Hi].
    destruct (isValidStolenSize _), (isValidWOPCMSize _); [discriminate Hs|exact Hi..]. }
  change (forall s, exists m, (fun c s => newManager c s o) c s = Ok (false, m)) in Hn.
  rewrite (create_with _ _ _ (lookup_known _ _ Hk)). revert Hn.
  generalize (fun c s => newManager c s o). intros outcome Hn. unfold createWith.
  destruct p as [h [g|]]; cbn [globalSettings settingsHeap allocateSettings].
  - match goal with |- context [outcome c ?s] => destruct (Hn s) as [m ->] end. done.
  - match goal with |- context [outcome c ?s] => destruct (Hn s) as [m ->] end.
    unfold deleteManager. cbn [globalSettings]. rewrite bool_decide_true by done. cbn. do 2 f_equal.
    f_equal. apply delete_insert_id, not_elem_of_dom, is_fresh.
Qed.

(** A manager that initializes is given to the client. *)
Lemma create_succeeds o c p :
  knownProduct o c -> (forall s, exists m, newManager c s o = Ok (true, m)) ->
  exists i p', create o p = Ok (NewManager i, p')
    /\ (globalSettings p = None -> derefSettings p' = Ok newSettings).
Proof.
  intros Hk Hn. change (forall s, exists m, (fun c s => newManager c s o) c s = Ok (true, m)) in Hn.
  rewrite (create_with _ _ _ (lookup_known _ _ Hk)). revert Hn.
  generalize (fun c s => newManager c s o). intros outcome Hn. unfold createWith.
  destruct p as [h [g|]]; cbn [globalSettings settingsHeap allocateSettings];
    match goal with |- context [outcome c ?s] => destruct (Hn s) as [m ->] end;
    (do 2 eexists; split; [reflexivity|]); [done|].
  intros _. unfold derefSettings. cbn. by rewrite lookup_insert_eq.
Qed.

(** The null mode needs no stream, but [initialize] asks for one: with exceptions
    enabled [create] throws "Stream is null.", and when the manager would have owned the
    settings the shared pointer dangles. *)
Theorem null_mode_throws o c p :
  knownProduct o c -> opt_mode o = mode.null -> throwOnError o = true ->
  (forall s, acceptedSizes (familyOf c ndebug s (setUpGpu stolen_alloc o (construct c))) = true) ->
  exists p', create o p = Ok (Exception "Stream is null.", p')
    /\ (globalSettings p = None -> derefSettings p' = Err UseAfterFree).
Proof.
  intros Hk Hm Ht Hs.
  assert (Hn : forall s, newManager c s o = Err (StdException "Stream is null.")).
  { intros s. unfold Factory.newManager. cbv zeta. set (f := familyOf c ndebug s _).
    specialize (Hs s). fold f in Hs. clearbody f. destruct (constructGroups_run (f := f) (newState o))
      as (s1 & Hrun & H1 & H2 & H3 & H4).
    unfold mbind, M_bind. rewrite Hrun. unfold Manager.initialize, acceptedSizes in *.
    destruct stolenMemory; [|discriminate Hs].
    destruct (isValidStolenSize _), (isValidWOPCMSize _); [|discriminate Hs..]. cbn [negb orb].
    change (streamMode (mgr (newState (T := T) o))) with (opt_mode o) in H1.
    change (enableThrow (mgr (newState (T := T) o))) with (throwOnError o) in H2.
    unfold Manager.mget, gets, get, mbind, M_bind, Manager.createStream. rewrite H1, Hm.
    cbn -[Manager.getStream].
    unfold Manager.getStream, Manager.mget, Manager.throwErrorIfEnabled, gets, mbind, M_bind. cbn.
    rewrite H1, Hm. cbn. by rewrite H2, Ht. }
  change (forall s, (fun c s => newManager c s o) c s = Err (StdException "Stream is null.")) in Hn.
  rewrite (create_with _ _ _ (lookup_known _ _ Hk)). revert Hn.
  generalize (fun c s => newManager c s o). intros outcome Hn. unfold createWith.
  destruct p as [h [g|]]; cbn [globalSettings settingsHeap allocateSettings]; rewrite Hn; eexists;
    (split; [reflexivity|]); [done|]. intros _. unfold derefSettings. cbn. by rewrite lookup_delete_eq.
Qed.
End Settings.

(** ** A process with bmg and cri *)

#[local] Instance exSockets : TbxSockets (TbxSocketsImp ExConn) :=
  TbxSocketsImpl.TbxSocketsOverTcp (SocketApi0 := exApi) false.

Definition exProducts : option (gmap Z GpuClass) := staticInitialization [registerFamilyBmg; registerFamilyCri].

Definition exCreate : AubManagerOptions -> Process -> result (Created (TbxSocketsImp ExConn) * Process) :=
  create false (fun _ _ => 0x10000) (fun _ _ _ => 0x100000) 1 0 translateShm3 (fun _ => false) [] exProducts
    defaultSettings defaultSettings exFile (exImp false) (mkShm (exImp false) ∅ [] 0).

Definition exOptionsOf (product mode bank : Z) (throwOnError : bool) : AubManagerOptions :=
  mkManagerOptions 1 product 1 bank 0 true mode (2 ^ 48 - 1) (mkShared None 0 None 0) throwOnError 0 false 0.

Definition noProcess : Process := mkProcess ∅ None.
Definition processOf (r : result (Created (TbxSocketsImp ExConn) * Process)) : Process :=
  match r with Ok (_, p) => p | Err _ => noProcess end.
Definition isNew (r : result (Created (TbxSocketsImp ExConn) * Process)) : bool :=
  match r with Ok (NewManager _, _) => true | _ => false end.

Lemma exBmg_known : getGpu exProducts ProductFamily.Bmg = Ok (Some enableBmg).
Proof.
  unfold exProducts, staticInitialization, registerFamilyBmg, registerFamilyCri, registerFamily.
  cbn [foldl getGpu]. f_equal.
Qed.

Lemma isNew_inv r : isNew r = true -> exists i p, r = Ok (NewManager i, p).
Proof. destruct r as [[[i| |w] p]|e]; try discriminate. intros _. exists i, p. reflexivity. Qed.

Definition exBmg : AubManagerOptions := exOptionsOf ProductFamily.Bmg mode.aubFile (8 * GB) false.
Definition exCri : AubManagerOptions := exOptionsOf ProductFamily.Cri mode.null (8 * GB) false.

(** A manager of a capture file is created. *)
Lemma settings_always_owned_witness :
  exists i p', exCreate exBmg noProcess = Ok (NewManager i, p') /\ derefSettings p' <> Err UseAfterFree.
Proof.
  assert (Hn : isNew (exCreate exBmg noProcess) = true) by (vm_compute; reflexivity).
  destruct (isNew_inv _ Hn) as (i & p' & H). exists i, p'. split; [exact H|].
  assert (H0 : settingsOwned (T := TbxSocketsImp ExConn) (noProcess, [])).
  { split; cbn.
    - intros j. rewrite lookup_empty. split; [intros [x Hx]; discriminate Hx|intros Hj; destruct (not_elem_of_nil _ Hj)].
    - apply NoDup_nil_2.
    - discriminate. }
  unfold exCreate in H. pose proof (rtc_once _ _ (step_create _ _ _ _ _ _ _ _ _ _ _ _ _ _ _ _ [] _ _ H)) as Hs.
  exact (proj1 (proj2 (settings_always_owned _ _ _ _ _ _ _ _ _ _ _ _ _ _ _ _ H0 Hs))).
Defined.

Lemma owner_deleted_first_witness :
  exists i1 p1 i2 p2, exCreate exBmg noProcess = Ok (NewManager i1, p1)
    /\ exCreate exCri p1 = Ok (NewManager i2, p2)
    /\ derefSettings (deleteManager (settings i1) p2) = Err NullDereference.
Proof.
  assert (Hn : isNew (exCreate exBmg noProcess) = true) by (vm_compute; reflexivity).
  assert (Hn2 : isNew (exCreate exCri (processOf (exCreate exBmg noProcess))) = true) by (vm_compute; reflexivity).
  destruct (isNew_inv _ Hn) as (i1 & p1 & H1). destruct (isNew_inv _ Hn2) as (i2 & p2 & H2).
  rewrite H1 in H2. cbn [processOf] in H2. unfold exCreate in *. exists i1, p1, i2, p2. split; [exact H1|]. split; [exact H2|].
  refine (proj2 (proj2 (owner_deleted_first _ _ _ _ _ _ _ _ _ _ _ _ _ _ _ _ noProcess _ _ _ _ _ H1 H2))). reflexivity.
Defined.

Lemma unknown_product_dangles_witness :
  exists p', exCreate (exOptionsOf 99 mode.aubFile (8 * GB) false) noProcess = Ok (NoManager, p')
    /\ derefSettings p' = Err UseAfterFree.
Proof.
  destruct (exCreate (exOptionsOf 99 mode.aubFile (8 * GB) false) noProcess) as [[r p']|e] eqn:E;
    [|vm_compute in E; discriminate E]. unfold exCreate in E.
  assert (Hu : unknownProduct exProducts (exOptionsOf 99 mode.aubFile (8 * GB) false))
    by (right; vm_compute; reflexivity).
  destruct (unknown_product_dangles _ _ _ _ _ _ _ _ _ _ _ _ _ _ _ noProcess _ _ eq_refl Hu E) as (-> & H & _).
  exists p'. split; [reflexivity|exact H].
Defined.

(** A bank smaller than the stolen memory. *)
Lemma create_rejects_sizes_witness :
  exCreate (exOptionsOf ProductFamily.Bmg mode.aubFile (8 * MB) false) noProcess = Ok (NoManager, noProcess).
Proof.
  refine (create_rejects_sizes _ _ _ _ _ _ _ _ _ _ _ _ _ _ _ enableBmg _ _ _ _).
  - split; [reflexivity|exact exBmg_known].
  - vm_compute. reflexivity.
  - intros s. vm_compute. reflexivity.
Defined.

Lemma null_mode_throws_witness :
  exists p', exCreate (exOptionsOf ProductFamily.Bmg mode.null (8 * GB) true) noProcess
      = Ok (Exception "Stream is null.", p')
    /\ derefSettings p' = Err UseAfterFree.
Proof.
  destruct (null_mode_throws false (fun _ _ => 0x10000) (fun _ _ _ => 0x100000) 1 0 translateShm3
    (fun _ => false) [] exProducts defaultSettings defaultSettings exFile (exImp false)
    (mkShm (exImp false) ∅ [] 0) (exOptionsOf ProductFamily.Bmg mode.null (8 * GB) true) enableBmg noProcess)
    as (p' & H1 & H2).
  - split; [reflexivity|exact exBmg_known].
  - reflexivity.
  - reflexivity.
  - intros s. vm_compute. reflexivity.
  - exists p'. split; [exact H1|exact (H2 eq_refl)].
Defined.

(** ** Every product *)

(** A new [AubFileStream], before [open]. *)
Definition freshFile : AubFileStream :=
  mkAubFileStream (FileHandleWrapper.mk (OFStream.mk ∅ None false false 0 [] []) false) "" [] false false.

(** Options for a capture file that leave the sizes of the stolen memory to the product. *)
Definition fileOptions (product n bank stepping : Z) (localMemorySupported throwOnError : bool)
    (gpuAddressSpace : Z) (programAdditionalEngineMMIO : bool) : AubManagerOptions :=
  mkManagerOptions 1 product n bank stepping localMemorySupported mode.aubFile gpuAddressSpace
    (mkShared None 0 None 0) throwOnError 0 programAdditionalEngineMMIO 0.

(** Banks from 32 MB to 512 GB; 16 MB are less than the stolen memory needs. *)
Definition bankSizes : list Z := map (fun k => 2 ^ k * MB) (seqZ 5 15).
Definition addressSpaces : list Z := [2 ^ 48 - 1; 2 ^ 57 - 1].

(** A constant of the class. *)
Definition deviceCountOf (c : GpuClass) : Z :=
  Gpu.deviceCount (@familyDescriptor (familyOf c false defaultSettings (construct c))).

Section EveryProduct.
Context {T : Type} `{!TbxSockets T}.
Variable aligned_alloc : Z -> Z -> Z.
Variable stolen_alloc : Z -> Z -> Z -> Z.
Variable fuel : nat.
Variable indeterminate : Z.
Variable translateFn : Z -> Z -> bool -> option Z * Z.
Variable ggttIsLocal : GGTT -> bool.
Variable MMIOListInjected : list (Z * Z * Z).
Variable newTbx : T.
Variable newShm : ShmState T.

Definition createCheck (o : AubManagerOptions) (c : GpuClass) (s : Settings) : bool :=
  match newManager false aligned_alloc stolen_alloc fuel indeterminate translateFn ggttIsLocal MMIOListInjected
          freshFile newTbx newShm c s o with
  | Ok (b, _) => b
  | Err _ => false
  end.

Lemma createCheck_new o c s : createCheck o c s = true ->
  exists m, newManager false aligned_alloc stolen_alloc fuel indeterminate translateFn ggttIsLocal
    MMIOListInjected freshFile newTbx newShm c s o = Ok (true, m).
Proof.
  unfold createCheck. generalize (newManager false aligned_alloc stolen_alloc fuel indeterminate translateFn
    ggttIsLocal MMIOListInjected freshFile newTbx newShm c s o).
  intros [[[] m]|e] H; [by exists m|discriminate H..].
Qed.

Lemma every_product_check s stepping t m :
  forallb (fun space => forallb (fun bank => forallb (fun r => forallb (fun n => forallb (fun l =>
      createCheck (fileOptions r.1.1 n bank stepping l t space m) r.1.2 s) [true; false])
    (seqZ 1 (deviceCountOf r.1.2))) registrations) bankSizes) addressSpaces = true.
Proof. vm_compute. reflexivity. Qed.

Lemma every_product_new r n bank stepping l t space m s :
  r ∈ registrations -> 1 <= n <= deviceCountOf r.1.2 -> bank ∈ bankSizes -> space ∈ addressSpaces ->
  createCheck (fileOptions r.1.1 n bank stepping l t space m) r.1.2 s = true.
Proof.
  intros Hr Hn Hb Hs. pose proof (every_product_check s stepping t m) as H. rewrite forallb_forall in H.
  specialize (H space (proj1 (list_elem_of_In _ _) Hs)). rewrite forallb_forall in H.
  specialize (H bank (proj1 (list_elem_of_In _ _) Hb)). rewrite forallb_forall in H.
  specialize (H r (proj1 (list_elem_of_In _ _) Hr)). rewrite forallb_forall in H.
  assert (Hin : In n (seqZ 1 (deviceCountOf r.1.2))) by (apply list_elem_of_In, elem_of_seqZ; lia).
  specialize (H n Hin). rewrite forallb_forall in H. apply (H l). destruct l; cbn; tauto.
Qed.

(** C19: In a build with assertions and for a capture file, [create] gives a manager for
    every product of the table and every number of devices that the product has, with
    and without local memory, of any stepping, for banks of every power of two from
    32 MB to 512 GB, for 48-bit and 57-bit address spaces and for the sizes of the
    stolen memory that the product has by default: no assertion of the initialization
    fails, nothing is thrown, and the settings are there to use. *)
Theorem create_every_product table newSettings danglingSettings r n bank stepping l t space m p :
  r ∈ registrations -> getGpu table r.1.1 = Ok (Some r.1.2) -> 1 <= n <= deviceCountOf r.1.2 ->
  bank ∈ bankSizes -> space ∈ addressSpaces ->
  exists i p', create false aligned_alloc stolen_alloc fuel indeterminate translateFn ggttIsLocal
      MMIOListInjected table newSettings danglingSettings freshFile newTbx newShm
      (fileOptions r.1.1 n bank stepping l t space m) p = Ok (NewManager i, p')
    /\ (globalSettings p = None -> derefSettings p' = Ok newSettings).
Proof.
  intros Hr Hg Hn Hb Hs. apply create_succeeds with (c := r.1.2).
  - split; [reflexivity|exact Hg].
  - intros s. apply createCheck_new, every_product_new; [exact Hr|exact Hn|exact Hb|exact Hs].
Qed.
End EveryProduct.

Lemma create_every_product_witness :
  exists i p', create false (fun _ _ => 0x10000) (fun _ _ _ => 0x100000) 1 0 translateShm3 (fun _ => false) []
      exProducts defaultSettings defaultSettings freshFile (exImp false) (mkShm (exImp false) ∅ [] 0)
      (fileOptions ProductFamily.Bmg 1 (8 * GB) 0 true true (2 ^ 48 - 1) false) noProcess = Ok (NewManager i, p')
    /\ derefSettings p' = Ok defaultSettings.
Proof.
  assert (Hr : (ProductFamily.Bmg, enableBmg, registerFamilyBmg) ∈ registrations)
    by (apply (list_elem_of_lookup_2 _ 8); reflexivity).
  destruct (create_every_product (fun _ _ => 0x10000) (fun _ _ _ => 0x100000) 1 0 translateShm3 (fun _ => false)
    [] (exImp false) (mkShm (exImp false) ∅ [] 0) exProducts defaultSettings defaultSettings _ 1 (8 * GB) 0 true true
    (2 ^ 48 - 1) false noProcess Hr exBmg_known) as (i & p' & H1 & H2).
  - split; [discriminate|vm_compute; discriminate].
  - apply (list_elem_of_lookup_2 _ 8). reflexivity.
  - apply (list_elem_of_lookup_2 _ 0). reflexivity.
  - exists i, p'. split; [exact H1|exact (H2 eq_refl)].
Defined.
