(* ===== verification/ManagerTheory.v ===== *)
(** * What the manager promises, and where it breaks its promise

    The fifth group of an engine, opening a file with contexts, and the memory
    that the manager shares with a simulator. *)

From S2P Require Import Prelude Allocator MemoryBanks Gpu PageTable Walker WalkCorrect AubPackets AubStream.
From S2P Require Import CommandStreamer HardwareContext ContextGroups RingInit AubFileStream FileTheory.
From S2P Require Import TbxSockets TbxWire TbxStream AubManager.
From S2P Require Import GpuFamily.
#[local] Open Scope Z_scope.

(** ** Loops with results *)

Lemma wp_mapM_W {X Y St} (f : X -> M St Y) (l : list X) (J : list Y -> St -> Prop) s :
  J [] s ->
  (forall x ys s, x ∈ l -> J ys s -> wp (f x) (fun y s' => J (ys ++ [y]) s') s) ->
  wp (Manager.mapM_W f l) (fun ys s' => J ys s' /\ length ys = length l) s.
Proof.
  intros H0 Hstep.
  enough (Hgen : forall todo ys s, (forall x, x ∈ todo -> x ∈ l) -> J ys s ->
    wp (Manager.mapM_W f todo) (fun zs s' => J (ys ++ zs) s' /\ length zs = length todo) s)
    by (by apply (Hgen l [] s)).
  induction todo as [|x todo IH]; intros ys s1 Hin HJ; cbn [Manager.mapM_W].
  - apply wp_ret. by rewrite app_nil_r.
  - apply wp_bind. eapply wp_mono; [apply Hstep; [apply Hin; left|exact HJ]|]. intros y s2 HJ2.
    apply wp_bind. eapply wp_mono; [apply (IH (ys ++ [y]) s2); [|done]; intros z Hz; apply Hin; by right|].
    intros zs s3 [HJ3 Hlen]. apply wp_ret. rewrite <- app_assoc in HJ3. cbn. by rewrite Hlen.
Qed.

(** ** Groups *)

Section Groups.
Context {A : Type} `{!PhysicalAddressAllocator A} {T : Type}.
#[local] Abbreviation MW := (World A (ManagerStream T)).

Definition withGroups (gs : gmap nat ContextGroup) (w : MW) : MW :=
  mkWorld (stream w) (ggtts w) gs (objects w) (globalContextId w).

(** New groups [ys] next to those of [w0]. *)
Definition grown (w0 : MW) (ys : list nat) (w : MW) : Prop :=
  exists gs, w = withGroups gs w0
    /\ (forall i, is_Some (groups w0 !! i) -> groups w !! i = groups w0 !! i)
    /\ Forall (fun y => groups w0 !! y = None /\ is_Some (groups w !! y)) ys.

Lemma grown_refl w : grown w [] w.
Proof. exists (groups w). split_and!; [by destruct w|done|done]. Qed.

Lemma wp_newGroup g w0 ys w : grown w0 ys w ->
  wp (Manager.newGroup (A := A) (T := T) g) (fun y w' => grown w0 (ys ++ [y]) w') w.
Proof.
  intros (gs & -> & Hold & Hys). unfold Manager.newGroup. apply wp_bind, wp_get. cbv zeta.
  apply wp_bind, wp_put, wp_ret. cbn in *. set (y := fresh (dom gs)).
  assert (Hy : gs !! y = None) by (apply not_elem_of_dom, is_fresh).
  exists (<[y := g]> gs). split; [done|]. cbn. split.
  - intros i Hi. rewrite lookup_insert_ne; [by apply Hold|]. intros <-.
    rewrite <- (Hold _ Hi), Hy in Hi. by destruct Hi.
  - apply Forall_app. split.
    + eapply Forall_impl; [exact Hys|]. intros z [Hz1 Hz2]. split; [done|].
      rewrite lookup_insert_is_Some'. by right.
    + constructor; [|done]. split; [|by rewrite lookup_insert_eq].
      destruct (groups w0 !! y) eqn:E; [|done]. rewrite Hold in Hy by done. by rewrite E in Hy.
Qed.

Lemma wp_copyGroup i w0 ys w : is_Some (groups w0 !! i) -> grown w0 ys w ->
  wp (Manager.copyGroup (A := A) (T := T) i) (fun y w' => grown w0 (ys ++ [y]) w') w.
Proof.
  intros [g Hg] H. unfold Manager.copyGroup. apply wp_bind. unfold wp, getGroup.
  destruct H as (gs & -> & Hold & Hys). pose proof (Hold i ltac:(by rewrite Hg)) as Hi. rewrite Hg in Hi.
  rewrite Hi. apply wp_newGroup. by exists gs.
Qed.

Lemma lookup_foldr_delete (l : list nat) (m : gmap nat ContextGroup) i :
  foldr delete m l !! i = if bool_decide (i ∈ l) then None else m !! i.
Proof.
  induction l as [|j l IH]; cbn [foldr].
  - by rewrite bool_decide_false by by intros ?%not_elem_of_nil.
  - destruct (decide (i = j)) as [->|Hne].
    + rewrite lookup_delete_eq, bool_decide_true by by left. done.
    + rewrite lookup_delete_ne, IH by done. case_bool_decide as H1; case_bool_decide as H2; try done.
      * exfalso. apply H2. by right.
      * apply elem_of_cons in H2 as [?|?]; done.
Qed.

(** The array of the vector is full: adding a group moves all of them. *)
Lemma wp_resizeGroups key elements capacity n (Q : unit -> ManagerState A T -> Prop) s :
  contextGroups (groupContextHelper (mgr s)) !! key = Some (elements, capacity) ->
  Z.of_nat (length elements) = capacity -> n = capacity + 1 ->
  (forall i, i ∈ elements -> is_Some (groups (world s) !! i)) ->
  (forall ys gs, length ys = S (length elements) ->
     (forall i, i ∈ elements -> gs !! i = None) ->
     Forall (fun y => groups (world s) !! y = None /\ is_Some (gs !! y)) ys ->
     Q tt (mkManagerState
       (set_groupContextHelper
          (mkGroups (<[key := (ys, Z.max n (2 * capacity))]> (contextGroups (groupContextHelper (mgr s))))
             (groupIds (groupContextHelper (mgr s)))
             (primaryContextIdToGroupId (groupContextHelper (mgr s)))) (mgr s))
       (withGroups gs (world s)))) ->
  wp (Manager.resizeGroups (A := A) (T := T) key n) Q s.
Proof.
  intros Hv Hc -> Hin HQ. unfold Manager.resizeGroups, Manager.groupVector. destruct s as [m w]. cbn in *.
  apply wp_bind, wp_bind, wp_gets. eapply wp_from_option; [exact Hv|]. cbv zeta. cbv beta iota.
  rewrite (proj2 (Z.ltb_lt capacity (capacity + 1))) by lia.
  assert (Honw : forall B (f : M MW B) (P : B -> ManagerState A T -> Prop) w1,
    wp f (fun b w2 => P b (mkManagerState m w2)) w1 ->
    wp (Manager.onWorld f) P (mkManagerState m w1)).
  { intros B f P w1 H. unfold wp, Manager.onWorld in *. cbn. by destruct (f w1) as [[b w2]|]. }
  apply wp_bind, Honw. eapply wp_mono.
  { apply (wp_mapM_W _ elements (grown w)); [apply grown_refl|].
    intros i ys w1 Hi Hg. apply wp_copyGroup; [by apply Hin|done]. }
  intros moved w1 [Hg1 Hl1]. apply wp_bind, Honw. eapply wp_mono.
  { apply (wp_mapM_W _ (seq 0 (Z.to_nat (capacity + 1 - Z.of_nat (length elements))))
      (fun ys => grown w (moved ++ ys))); [by rewrite app_nil_r|].
    intros i ys w2 _ Hg. eapply wp_mono; [by apply wp_newGroup|]. intros y w3 H. cbn beta in H |- *.
    by rewrite app_assoc. }
  intros added w2 [(gs & -> & Hold & Hys) Hl2]. rewrite length_seq in Hl2.
  apply wp_bind, Honw, wp_modify. apply wp_modify. cbn [mgr world].
  rewrite Hc. apply (HQ (moved ++ added) (foldr delete gs elements)).
  - rewrite length_app. lia.
  - intros i Hi. by rewrite lookup_foldr_delete, bool_decide_true.
  - eapply Forall_impl; [exact Hys|]. intros y [Hy1 Hy2]. split; [done|].
    rewrite lookup_foldr_delete, bool_decide_false; [done|]. intros Hy%Hin. rewrite Hy1 in Hy. by destruct Hy.
Qed.
End Groups.

(** The memory of the full array is freed while contexts still point into it. *)
Section Dangling.
Context {A : Type} `{!PhysicalAddressAllocator A} {T : Type} `{!GpuFamily}.

Lemma release_dangling (w : World A (ManagerStream T)) this c g :
  objects w !! this = Some c -> contextGroup c = Some g -> contextGroupId (state c) <> noGroup ->
  pLRCA (state c) <> Freed -> pRingData (state c) <> Freed -> groups w !! g = None ->
  HardwareContextImp.release this w = Err UseAfterFree.
Proof.
  intros Hc Hg Hid Hl Hr Hno. unfold HardwareContextImp.release, HardwareContextImp.leaveGroup,
    updateState, setContext, getContext, mbind, M_bind. rewrite Hc.
  assert (Hd : forall p, p <> Freed -> exists q, deleteArray (A := A) (Sk := ManagerStream T) p
    = mret q) by (intros p Hp; destruct p; [by eexists|by eexists|by destruct Hp]).
  destruct (Hd _ Hl) as [q1 ->]. cbn. rewrite Hc. cbn.
  destruct (Hd _ Hr) as [q2 Hq2]. unfold mbind, M_bind. rewrite Hq2. cbn.
  rewrite lookup_insert_eq. cbn. rewrite lookup_insert_eq. cbn.
  unfold when. rewrite (proj2 (Z.eqb_neq _ _)) by done. cbn.
  unfold mbind, M_bind, getGroup. rewrite Hg. cbn. by rewrite Hno.
Qed.

Lemma wp_resizeContexts (s : ManagerState A T) g n Q :
  is_Some (groups (world s) !! g) ->
  (forall x, Q tt (mkManagerState (mgr s) (withGroups (<[g := x]> (groups (world s))) (world s)))) ->
  wp (Manager.resizeContexts g n) Q s.
Proof.
  intros [x Hx] HQ. destruct s as [m w]. unfold wp, Manager.resizeContexts, Manager.onWorld, mbind, M_bind.
  cbn in *. rewrite Hx. cbn. apply HQ.
Qed.
End Dangling.

(** C29: The vector of the groups of an engine has room for four. When the fifth primary
    context asks for a group, the four groups move to a new array, and the contexts
    of all of them keep pointers into the freed one: the next [release] of such a
    context uses freed memory. *)
Theorem fifth_group_dangles {A} `{!PhysicalAddressAllocator A} {T} `{!GpuFamily}
    (s : ManagerState A T) key elements capacity contextId this c g :
  contextGroups (groupContextHelper (mgr s)) !! key = Some (elements, capacity) ->
  Z.of_nat (length elements) = capacity ->
  default 0 (groupIds (groupContextHelper (mgr s)) !! key) = capacity ->
  (forall i, i ∈ elements -> is_Some (groups (world s) !! i)) ->
  objects (world s) !! this = Some c -> contextGroup c = Some g -> g ∈ elements ->
  contextGroupId (state c) <> noGroup -> pLRCA (state c) <> Freed -> pRingData (state c) <> Freed ->
  exists g' s', Manager.selectGroup key contextId invalidContextId s = Ok (g', s')
    /\ hwContexts (mgr s') = hwContexts (mgr s) /\ objects (world s') = objects (world s)
    /\ is_Some (groups (world s') !! g') /\ groups (world s') !! g = None
    /\ HardwareContextImp.release this (world s') = Err UseAfterFree.
Proof.
  intros Hv Hlen Hids Hin Hc Hg Hge Hid Hl Hr.
  assert (Hwp : wp (Manager.selectGroup key contextId invalidContextId) (fun g' s' =>
    hwContexts (mgr s') = hwContexts (mgr s) /\ objects (world s') = objects (world s)
    /\ is_Some (groups (world s') !! g') /\ groups (world s') !! g = None) s).
  { unfold Manager.selectGroup. apply wp_bind, wp_gets. cbv zeta. rewrite Z.eqb_refl, Hids.
    apply wp_bind, wp_bind, wp_modify. apply wp_bind. unfold Manager.groupVector at 1.
    apply wp_bind, wp_gets. eapply wp_from_option; [exact Hv|]. cbn [fst]. rewrite Hlen.
    apply wp_bind, wp_when; [intros _|intros Hf; exfalso; apply Z.leb_gt in Hf; lia].
    apply wp_bind. eapply wp_resizeGroups; [exact Hv|done|done|exact Hin|].
    intros ys gs Hys Hgone Hnew. cbn [mgr world groupContextHelper set_groupContextHelper contextGroups
      groupIds primaryContextIdToGroupId] in *.
    destruct (lookup_lt_is_Some_2 ys (Z.to_nat capacity) ltac:(lia)) as [g' Hg'].
    pose proof (proj1 (Forall_lookup _ _) Hnew _ _ Hg') as [Hg1 Hg2].
    assert (Hne : g' <> g) by (intros ->; destruct (Hin g Hge) as [? E]; by rewrite E in Hg1).
    assert (Hat : forall h (w : World A (ManagerStream T)) (Q : nat -> ManagerState A T -> Prop),
      contextGroups h !! key = Some (ys, Z.max (capacity + 1) (2 * capacity)) ->
      Q g' (mkManagerState (set_groupContextHelper h (mgr s)) w) ->
      wp (Manager.groupAt key capacity) Q (mkManagerState (set_groupContextHelper h (mgr s)) w)).
    { intros h w Q Hh HQ. unfold Manager.groupAt, Manager.groupVector. apply wp_bind, wp_bind, wp_gets.
      eapply wp_from_option; [exact Hh|]. by eapply wp_from_option; [exact Hg'|]. }
    apply wp_bind. apply (Hat (mkGroups _ _ _)); [cbn; by rewrite lookup_insert_eq|].
    apply wp_resizeContexts; [done|]. intros x. cbn [world mgr].
    apply wp_bind, wp_modify, wp_ret. apply (Hat (mkGroups _ _ _)); [cbn; by rewrite lookup_insert_eq|].
    cbn. split_and!; [done|done|by rewrite lookup_insert_eq|]. rewrite lookup_insert_ne by done.
    by apply Hgone. }
  destruct (wp_run _ _ _ Hwp) as (g' & s' & Hrun & Hh & Ho & Hg' & Hgone).
  exists g', s'. split_and!; try done. by eapply release_dangling; rewrite ?Ho.
Qed.

(** ** Opening a file *)

Lemma onWorld_mgr {A T B} (m : M (World A (ManagerStream T)) B) s b s' :
  Manager.onWorld m s = Ok (b, s') -> mgr s' = mgr s.
Proof. unfold Manager.onWorld. destruct (m (world s)) as [[b' w]|]; [|done]. by intros [= _ <-]. Qed.

(** [open] of a capture, with throwing enabled, of a manager that has contexts never
    succeeds: the setting of the CCS mode, in the middle of it, refuses to run with
    contexts, although [open] ends with the initialization of the contexts that
    exist. No context is initialized. *)
Theorem open_with_contexts_throws {A} `{!PhysicalAddressAllocator A} {T} `{!TbxSockets T} `{!GpuFamily}
    ndebug handleOf fuel v translateFn ggttIsLocal injected caller name (s : ManagerState A T) :
  Manager.isAubMode (streamMode (mgr s)) = true -> hwContexts (mgr s) <> [] -> enableThrow (mgr s) = true ->
  exists e, Manager.open ndebug handleOf fuel v translateFn ggttIsLocal injected caller name s = Err e
    /\ forall s1, (Manager.onManagerSink (onAub (openFile ndebug name)) ≫= fun _ =>
         Manager.onManagerSink (onAub (init ndebug caller (stepping (mgr s)) familyDescriptor)) ≫= fun _ =>
         Manager.onManagerSink (onAub (initializeGlobalMMIO _ (FileStream ndebug) (devicesCount (mgr s))
           (memoryBankSize (mgr s)) (stepping (mgr s)))) ≫= fun _ =>
         Manager.onManagerSink (onAub (setMemoryBankSize _ (FileStream ndebug) (devicesCount (mgr s))
           (memoryBankSize (mgr s))))) s = Ok (tt, s1) ->
       e = StdException "Cannot set CCS mode after hardware contexts have been created.".
Proof.
  intros Hmode Hctx Hthrow. unfold Manager.open, Manager.mget, gets, mbind, M_bind. cbv beta.
  rewrite Hmode. unfold when. cbv iota.
  destruct (Manager.onManagerSink (onAub (openFile ndebug name)) s) as [[[] s1]|e] eqn:E1;
    [|exists e; by split].
  destruct (Manager.onManagerSink (onAub (init _ _ _ _)) s1) as [[b s2]|e] eqn:E2; [|exists e; by split].
  destruct (Manager.onManagerSink (onAub (initializeGlobalMMIO _ _ _ _ _)) s2)
    as [[[] s3]|e] eqn:E3; [|exists e; by split].
  destruct (Manager.onManagerSink (onAub (setMemoryBankSize _ _ _ _)) s3)
    as [[[] s4]|e] eqn:E4; [|exists e; by split].
  apply onWorld_mgr in E1, E2, E3, E4.
  assert (E : Manager.setCCSMode ndebug fuel v translateFn ggttIsLocal (ccsCount (mgr s)) s4
    = Err (StdException "Cannot set CCS mode after hardware contexts have been created.")).
  { unfold Manager.setCCSMode, Manager.mget, gets, mbind, M_bind. cbv beta.
    rewrite E4, E3, E2, E1, Hthrow. by destruct (hwContexts (mgr s)). }
  rewrite E. eexists. split; [done|]. done.
Qed.

(** ** A manager with four groups of a copy engine *)

#[local] Instance exAllocator : PhysicalAddressAllocator Simple.t := SimpleAllocatorOps false.
#[local] Instance exSockets : TbxSockets (TbxSocketsImp ExConn) :=
  TbxSocketsImpl.TbxSocketsOverTcp (SocketApi0 := exApi) false.

#[local] Instance exFamily : GpuFamily := {
  familyDescriptor := mkGpuDescriptor 0 0 "" 0 0;
  familyOps := exGpu;
  getCommandStreamerHelper _ _ := Ok exBcs;
  getSupportedEngines := [EngineType.ENGINE_BCS];
  initializeGlobalMMIO _ _ _ _ _ := baseInitializeGlobalMMIO [(0x1000, 1)] [];
  setMemoryBankSize _ _ _ _ := mret tt;
  setGGTTBaseAddresses _ _ _ _ := mret tt;
  initializeDefaultMemoryPools _ _ _ _ _ := mret tt;
  requireLocalMemoryForPageTables := false;
  ppgttClass _ := LegacyPML4;
  getContextGroupCount := 8;
  familySizes := baseGpuSizes;
  stolenMemory := None;
  isValidStolenSize := isValidDataStolenMemorySize;
  isValidWOPCMSize _ := true;
  familyGSMBaseAddress _ := Ok 0
}.

Definition exOptions (enableThrow : bool) : AubManagerImp :=
  mkManager 1 0x100000000 false mode.aubFile 0 0 1 (mkShared None 0 None 0) enableThrow [1%positive] [] 0
    (mkGroups ∅ ∅ ∅).

Definition exCreate (contextId : Z) : M (ManagerState Simple.t (TbxSocketsImp ExConn)) unit :=
  Manager.createHardwareContext2 false contextId invalidContextId 0 1 hardwareContextFlags.contextGroup
    ≫= fun _ => mret tt.

Definition exManaged (enableThrow : bool) (n : Z)
    : ManagerState Simple.t (TbxSocketsImp ExConn) :=
  let s := mkManagerState (exOptions enableThrow)
    (mkWorld (mkStreamState (tables (stream exWorld)) (OnlyAub exFile)) (ggtts exWorld) ∅ ∅ 0) in
  match (Manager.constructGroups ≫= fun _ => mapM_ exCreate (seqZ 1 n)) s with
  | Ok (_, s) => s
  | Err _ => s
  end.

Definition exKey : Z * Z := (0, engineType exBcs).
Definition exElements : list nat :=
  (default ([], 0) (contextGroups (groupContextHelper (mgr (exManaged false 4))) !! exKey)).1.
Definition exFirst : HardwareContextImp :=
  default exNewContext (objects (world (exManaged false 4)) !! 0%nat).

Lemma fifth_group_dangles_witness :
  exists g' s', Manager.selectGroup exKey 5 invalidContextId (exManaged false 4) = Ok (g', s')
    /\ HardwareContextImp.release 0 (world s') = Err UseAfterFree.
Proof.
  destruct (fifth_group_dangles (exManaged false 4) exKey exElements 4 5 0 exFirst
    (default 0%nat (contextGroup exFirst))) as (g' & s' & Hrun & _ & _ & _ & _ & Hrel).
  - vm_compute. reflexivity.
  - vm_compute. reflexivity.
  - vm_compute. reflexivity.
  - assert (H : Forall (fun i => is_Some (groups (world (exManaged false 4)) !! i)) exElements)
      by (refine (proj1 (bool_decide_eq_true _) _); vm_compute; reflexivity).
    exact (proj1 (Forall_forall _ _) H).
  - vm_compute. reflexivity.
  - vm_compute. reflexivity.
  - refine (proj1 (bool_decide_eq_true _) _). vm_compute. reflexivity.
  - vm_compute. discriminate.
  - vm_compute. discriminate.
  - vm_compute. discriminate.
  - exists g', s'. exact (conj Hrun Hrel).
Defined.

(** The file is open, nothing was initialized. *)
Lemma open_with_contexts_throws_witness :
  Manager.open false Z.of_nat 1 0 translateShm3 (fun _ => false) [] 0 "a.aub" (exManaged true 1)
  = Err (StdException "Cannot set CCS mode after hardware contexts have been created.").
Proof.
  destruct (open_with_contexts_throws false Z.of_nat 1 0 translateShm3 (fun _ => false) [] 0 "a.aub"
    (exManaged true 1)) as (e & Hrun & He).
  - vm_compute. reflexivity.
  - vm_compute. discriminate.
  - vm_compute. reflexivity.
  - rewrite Hrun. f_equal. eapply He. vm_compute. reflexivity.
Defined.
