(* ===== verification/ShmTheory.v ===== *)
(** * Memory shared with a simulator

    What is written to shared memory reads back, through the translation of the
    manager; and a poll of a register over a broken connection. *)

From S2P Require Import Prelude Allocator MemoryBanks PageTable Walker AubPackets AubStream.
From S2P Require Import AubFileStream FileCorrect TbxSockets TbxWire TbxStream AubManager.
#[local] Open Scope Z_scope.

(** ** Stores to host memory *)

Definition storeAll (l : list (Z * Z)) (m : gmap Z Z) : gmap Z Z :=
  foldl (fun m x => <[x.1 := x.2]> m) m l.

Lemma storeAll_other l : forall m a, a ∉ map fst l -> storeAll l m !! a = m !! a.
Proof.
  induction l as [|x l IH]; intros m a Ha; [done|]. cbn [map] in Ha. apply not_elem_of_cons in Ha as [Hx Ha].
  cbn [storeAll foldl]. fold (storeAll l (<[x.1:=x.2]> m)). rewrite IH by done. by rewrite lookup_insert_ne.
Qed.

Lemma storeAll_lookup l : forall m, NoDup (map fst l) ->
  Forall (fun x => storeAll l m !! x.1 = Some x.2) l.
Proof.
  induction l as [|x l IH]; intros m Hnd; [done|]. cbn [map] in Hnd. apply NoDup_cons in Hnd as [Hx Hnd].
  cbn [storeAll foldl]. fold (storeAll l (<[x.1:=x.2]> m)). constructor; [|by apply IH].
  rewrite storeAll_other by done. apply lookup_insert_eq.
Qed.

Lemma storeAll_mapped l : forall m a, is_Some (m !! a) -> is_Some (storeAll l m !! a).
Proof.
  induction l as [|x l IH]; intros m a Ha; [done|]. cbn [storeAll foldl]. apply IH.
  rewrite lookup_insert_is_Some'. by right.
Qed.

Lemma storeAll_app l1 l2 m : storeAll (l1 ++ l2) m = storeAll l2 (storeAll l1 m).
Proof. apply foldl_app. Qed.

Lemma zip_app_split (l1 l2 : list Z) (m : list Z) :
  (length l1 <= length m)%nat ->
  zip (l1 ++ l2) m = zip l1 (take (length l1) m) ++ zip l2 (drop (length l1) m).
Proof.
  revert m. induction l1 as [|a l1 IH]; intros m Hl; [done|]. destruct m as [|b m]; [cbn in Hl; lia|].
  cbn. f_equal. apply IH. cbn in Hl. lia.
Qed.

Lemma mapM_mapped (m : gmap Z Z) l :
  Forall (fun a => is_Some (m !! a)) l -> exists bs, mapM (fun a => m !! a) l = Some bs.
Proof. intros H. apply mapM_is_Some_2. exact H. Qed.

Section Shm.
Context {T : Type} `{!TbxSockets T}.
Variable ndebug : bool.
Variable fuel : nat.
Variable indeterminate : Z.
Variable info : SharedMemoryInfo.
Variable ggttIsLocal : GGTT -> bool.
(* the connection answers or not, it does not throw *)
Hypothesis alive : forall t : T, exists b t', stillConnected t = Ok (b, t').
Implicit Types s : ShmState T.

#[local] Abbreviation translate := (translateShm info).

Definition memBase (isLocal : bool) : option Z := if isLocal then localMemBase info else sysMemBase info.
Definition memSize (isLocal : bool) : Z := if isLocal then localMemSize info else sysMemSize info.

(** A piece in the memory that is shared. *)
Definition shared (e : PageInfo) : Prop :=
  (exists b, memBase (pi_isLocalMemory e) = Some b /\ 0 < b) /\ 0 <= pi_physicalAddress e /\ 0 <= pi_size e
  /\ pi_physicalAddress e + pi_size e <= memSize (pi_isLocalMemory e) < 2 ^ 64.

(** Where the bytes of a piece are for the host. *)
Definition hostRange (e : PageInfo) : list Z :=
  seqZ (default 0 (memBase (pi_isLocalMemory e)) + pi_physicalAddress e) (pi_size e).
Definition hostRanges (es : list PageInfo) : list Z := concat (map hostRange es).

Definition withHost (m : gmap Z Z) s : ShmState T :=
  mkShm (shmSocket s) m (clockReadings s) (lastTimeCheck s).

Lemma withHost_twice m1 m2 s : withHost m2 (withHost m1 s) = withHost m2 s.
Proof. done. Qed.

Lemma length_hostRange e : shared e -> length (hostRange e) = Z.to_nat (pi_size e).
Proof. intros _. apply length_seqZ. Qed.

Lemma translate_shared e : shared e ->
  exists p avail, translate (pi_physicalAddress e) (pi_size e) (pi_isLocalMemory e) = (Some p, avail)
    /\ pi_size e <= avail /\ p = default 0 (memBase (pi_isLocalMemory e)) + pi_physicalAddress e.
Proof.
  intros ((b & Hb & Hpos) & Hp & Hs & Hm). unfold translate, translateShm, pointer, memBase, memSize in *.
  assert (Hw : forall m, pi_physicalAddress e + pi_size e <= m < 2 ^ 64 ->
    u64 (m - pi_physicalAddress e) = m - pi_physicalAddress e).
  { intros m H. apply wrap_small. unfold in_width. lia. }
  destruct (pi_isLocalMemory e); rewrite Hb; cbn [default from_option id];
    rewrite (proj2 (Z.eqb_neq _ 0)) by lia; (do 2 eexists; split; [reflexivity|]; rewrite Hw by done; lia).
Qed.

Lemma memcpy_s_fits p q avail n : n <= avail -> memcpy_s (Some p) avail (Some q) n = 0.
Proof. intros H. unfold memcpy_s. cbn. by rewrite (proj2 (Z.ltb_ge _ _) H). Qed.

Lemma shmWrite_run e memory s :
  shared e -> (Z.to_nat (pi_size e) <= length memory)%nat ->
  Forall (fun a => is_Some (hostMemory s !! a)) (hostRange e) ->
  shmWrite translate (pi_physicalAddress e) (pi_size e) (pi_isLocalMemory e) memory s
  = Ok (tt, withHost (storeAll (zip (hostRange e) (take (Z.to_nat (pi_size e)) memory)) (hostMemory s)) s).
Proof.
  intros He Hl Hm. unfold shmWrite. destruct (translate_shared e He) as (p & avail & Ht & Ha & Hp).
  rewrite Ht. rewrite memcpy_s_fits by done. cbn [when Z.eqb]. unfold hostStore, mbind, M_bind. cbn.
  assert (Hlen : Z.of_nat (length (take (Z.to_nat (pi_size e)) memory)) = pi_size e).
  { rewrite length_take. destruct He as (_ & _ & ? & _). lia. }
  rewrite Hlen. unfold hostRange in *. rewrite <- Hp in *.
  destruct (mapM_mapped _ _ Hm) as [bs ->]. cbn. unfold storeBytes. by rewrite Hlen.
Qed.

Lemma shmWriteLoop_run es : forall memory s,
  Forall shared es -> (length (hostRanges es) <= length memory)%nat ->
  Forall (fun a => is_Some (hostMemory s !! a)) (hostRanges es) ->
  shmWriteLoop translate memory es s
  = Ok (tt, withHost (storeAll (zip (hostRanges es) memory) (hostMemory s)) s).
Proof.
  induction es as [|e es IH]; intros memory s Hv Hl Hm; [by destruct s|].
  apply Forall_cons in Hv as [He Hv]. unfold hostRanges in *. cbn [map concat] in *.
  fold (hostRanges es) in *. apply Forall_app in Hm as [Hm1 Hm2]. rewrite length_app in Hl.
  pose proof (length_hostRange e He) as Hle.
  cbn [shmWriteLoop]. unfold mbind, M_bind. rewrite shmWrite_run by (done || lia).
  rewrite IH; [|done|rewrite length_drop; lia|].
  - cbn [hostMemory withHost]. rewrite withHost_twice, zip_app_split by lia.
    by rewrite storeAll_app, Hle.
  - eapply Forall_impl; [exact Hm2|]. intros a Ha. by apply storeAll_mapped.
Qed.

Lemma shmRead_run e old s bs :
  shared e -> mapM (fun a => hostMemory s !! a) (hostRange e) = Some bs ->
  shmRead translate (pi_physicalAddress e) (pi_size e) (pi_isLocalMemory e) old s = Ok (bs, s).
Proof.
  intros He Hm. unfold shmRead. destruct (translate_shared e He) as (p & avail & Ht & Ha & Hp).
  rewrite Ht, memcpy_s_fits by done. cbn [Z.eqb]. unfold hostLoad, mbind, M_bind. cbn.
  unfold hostRange in Hm. rewrite Hp, Hm. done.
Qed.

Lemma shmReadLoop_run es : forall buffer s bs,
  Forall shared es -> mapM (fun a => hostMemory s !! a) (hostRanges es) = Some bs ->
  shmReadLoop translate buffer es s = Ok (bs ++ drop (length bs) buffer, s).
Proof.
  induction es as [|e es IH]; intros buffer s bs Hv Hm.
  - injection Hm as <-. done.
  - apply Forall_cons in Hv as [He Hv]. unfold hostRanges in Hm. cbn [map concat] in Hm.
    fold (hostRanges es) in Hm.
    apply mapM_Some in Hm. apply Forall2_app_inv_l in Hm as (b1 & b2 & H1 & H2 & ->).
    pose proof (Forall2_length _ _ _ H1) as Hl. rewrite length_hostRange in Hl by done.
    apply mapM_Some in H1, H2.
    cbn [shmReadLoop]. unfold mbind, M_bind. rewrite (shmRead_run e _ _ b1 He H1), (IH _ _ b2 Hv H2).
    cbn. by rewrite Hl, drop_drop, length_app, app_assoc.
Qed.

Lemma checkSocketAlive_run s : exists s', checkSocketAlive s = Ok (tt, s') /\ hostMemory s' = hostMemory s.
Proof.
  unfold checkSocketAlive, mbind, M_bind, get, put. cbn. unfold when. case_match; [|by eexists].
  unfold onSocket. cbn. destruct (alive (shmSocket s)) as (b & t & ->). by eexists.
Qed.
End Shm.

(** C24: What is written through the translation of the manager to memory that is mapped
    on the host, in pieces that do not overlap there, reads back; nothing else of
    the host's memory changes. *)
Theorem shared_memory_roundtrip {T} `{!TbxSockets T} ndebug fuel v info ggttIsLocal (s : ShmState T)
    memory n es hint :
  (forall t : T, exists b t', stillConnected t = Ok (b, t')) ->
  Forall (shared info) es -> NoDup (hostRanges info es) ->
  Forall (fun a => is_Some (hostMemory s !! a)) (hostRanges info es) ->
  length memory = length (hostRanges info es) ->
  let stream := TbxShmStream ndebug fuel v (translateShm info) ggttIsLocal in
  exists s', writeDiscontiguousPages (Stream := stream) memory n es hint s = Ok (tt, s')
    /\ (forall a, a ∉ hostRanges info es -> hostMemory s' !! a = hostMemory s !! a)
    /\ forall buffer, length buffer = length memory ->
       exists s2, readDiscontiguousPages (Stream := stream) buffer n es s' = Ok (memory, s2)
         /\ hostMemory s2 = hostMemory s'.
Proof.
  intros Halive Hv Hnd Hm Hl stream. unfold stream. cbn [writeDiscontiguousPages readDiscontiguousPages TbxShmStream].
  unfold mbind, M_bind.
  rewrite shmWriteLoop_run by (done || lia).
  destruct (checkSocketAlive_run Halive
    (withHost (storeAll (zip (hostRanges info es) memory) (hostMemory s)) s)) as (s' & Hrun & Hs').
  exists s'. split_and!; [done| |].
  - intros a Ha. rewrite Hs'. cbn. apply storeAll_other. by rewrite fst_zip by lia.
  - intros buffer Hb.
    assert (Hread : mapM (fun a => hostMemory s' !! a) (hostRanges info es) = Some memory).
    { apply mapM_Some. rewrite Hs'. cbn.
      pose proof (storeAll_lookup (zip (hostRanges info es) memory) (hostMemory s)
        ltac:(by rewrite fst_zip by lia)) as H.
      apply Forall2_same_length_lookup. split; [done|]. intros i a b Ha Hb'.
      rewrite Forall_lookup in H. apply (H i (a, b)). by rewrite lookup_zip_with, Ha, Hb'. }
    rewrite (shmReadLoop_run info es buffer s' memory Hv Hread).
    destruct (checkSocketAlive_run Halive s') as (s2 & Hrun2 & Hs2). exists s2. rewrite Hrun2.
    split; [|done]. cbn. by rewrite drop_ge, app_nil_r by lia.
Qed.

(** ** A broken connection

    A read that fails leaves the variable of the poll at zero. [TbxStream] stops
    there, [TbxShmStream] does not look at the status. *)

(** On a broken connection, TbxStream::registerPoll returns at once, and
    TbxShmStream::registerPoll, which ignores the status of the read, loops for
    ever. *)
Theorem register_poll_broken_connection {T} `{!TbxSockets T} ndebug v translateFn ggttIsLocal
    (s : ShmState T) offset mask desired notEqual action :
  (forall o x, socketReadMMIO o x (shmSocket s) = Ok ((false, x), shmSocket s)) ->
  eqb (0 =? desired) notEqual = true ->
  (forall n, registerPoll (Stream := TbxStream ndebug (S n) v) offset mask desired notEqual action
     (shmSocket s) = Ok (tt, shmSocket s))
  /\ forall n, registerPoll (Stream := TbxShmStream ndebug n v translateFn ggttIsLocal) offset mask
       desired notEqual action s = Err OutOfFuel.
Proof.
  intros Hdead Heq. split; intros n; cbn [registerPoll TbxStream TbxShmStream].
  - cbn [tbxRegisterPoll]. unfold mbind, M_bind. by rewrite Hdead.
  - assert (Hs : mkShm (shmSocket s) (hostMemory s) (clockReadings s) (lastTimeCheck s) = s) by by destruct s.
    induction n as [|n IH]; [done|]. cbn [shmRegisterPoll]. unfold mbind, M_bind, onSocket.
    rewrite Hdead, Hs. cbn [snd]. rewrite Z.land_0_l, Heq. exact IH.
Qed.

(** ** A concrete simulator *)

#[local] Instance exSockets : TbxSockets (TbxSocketsImp ExConn) :=
  TbxSocketsImpl.TbxSocketsOverTcp (SocketApi0 := exApi) false.

Definition exBroken : TbxSocketsImp ExConn :=
  TbxSocketsImpl.set_inErrorState true (exImp false).

Lemma register_poll_broken_connection_witness :
  registerPoll (Stream := TbxStream false 1 0) 0x2234 0x80 0x80 false 0 exBroken = Ok (tt, exBroken)
  /\ registerPoll (Stream := TbxShmStream false 1000 0 translateShm3 (fun _ => false)) 0x2234 0x80 0x80
       false 0 (mkShm exBroken ∅ [] 0) = Err OutOfFuel.
Proof.
  destruct (register_poll_broken_connection false 0 translateShm3 (fun _ => false)
    (mkShm exBroken ∅ [] 0) 0x2234 0x80 0x80 false 0) as [H1 H2].
  - intros o x. reflexivity.
  - reflexivity.
  - exact (conj (H1 0%nat) (H2 1000%nat)).
Defined.

(** Two pieces, one in each memory, on a connection that counts its pings. *)
#[local] Instance exPing : TbxSockets nat := {
  socketClose := mret tt;
  stillConnected t := Ok (true, S t);
  socketWriteGTT _ _ := mret true;
  socketReadMemory _ m _ _ := mret (true, m);
  socketWriteMemory _ _ _ _ := mret true;
  socketReadMMIO _ x := mret (true, x);
  socketWriteMMIO _ _ := mret true;
  socketReadPCICFG _ _ _ _ x := mret (true, x);
  socketWritePCICFG _ _ _ _ _ := mret true
}.

Definition exShared : SharedMemoryInfo := mkShared (Some 0x5000) 0x1000 (Some 0x9000) 0x1000.
Definition exPieces : list PageInfo := [mkPageInfo 0x10 2 false 0; mkPageInfo 0xffe 2 true 0].
Definition exHost : gmap Z Z :=
  list_to_map (map (fun a => (a, 0)) (seqZ 0x5010 2 ++ seqZ 0x9ffe 2)).

Lemma shared_memory_roundtrip_witness :
  exists s' s2,
    writeDiscontiguousPages (Stream := TbxShmStream false 1 0 (translateShm exShared) (fun _ => false))
      [1; 2; 3; 4] 4 exPieces 0 (mkShm 0%nat exHost [20] 0) = Ok (tt, s')
    /\ readDiscontiguousPages (Stream := TbxShmStream false 1 0 (translateShm exShared) (fun _ => false))
      [0; 0; 0; 0] 4 exPieces s' = Ok ([1; 2; 3; 4], s2).
Proof.
  destruct (shared_memory_roundtrip false 1 0 exShared (fun _ => false) (mkShm 0%nat exHost [20] 0)
    [1; 2; 3; 4] 4 exPieces 0) as (s' & Hw & _ & Hr).
  - intros t. exists true, (S t). reflexivity.
  - repeat constructor; cbn; eauto; try discriminate; eexists; split; reflexivity.
  - refine (proj1 (bool_decide_eq_true _) _). vm_compute. reflexivity.
  - refine (proj1 (bool_decide_eq_true _) _). vm_compute. reflexivity.
  - reflexivity.
  - destruct (Hr [0; 0; 0; 0] eq_refl) as (s2 & Hrd & _). exists s', s2. exact (conj Hw Hrd).
Defined.
